(* ===== verification/_CoqProject ===== *)
-Q . S2P
Prelude.v
Types.v
Machine.v
Escape.v
ScriptOS.v
Buffer.v
BufferProps.v
Util.v
UtilProofs.v
Dates.v
DateProofs.v
Addr.v
Hash.v
Response.v
ResponseProofs.v
ResponseProps.v
Range.v
RangeProofs.v
Queue.v
QueueProps.v
Access.v
Mmap.v
Alias.v
AliasProofs.v
Pointer.v
Log.v
Stderr.v
Signals.v
CgiHeader.v
CgiHeaderProps.v
Cgi.v
Pipe.v
Get.v
Parse.v
ParseProps.v
Read.v
ReadProps.v
Config.v
Frame.v
Denied.v
ConfigProps.v
Request.v
Select.v
TransferProps.v
CgiProps.v
PipeProps.v
RequestProps.v
Pool.v
Loop.v
Wakeup.v
MainLoop.v
Boot.v
BootProps.v
ChildProps.v
IndexDir.v
IndexProps.v
Serve.v
Confine.v
Lines.v
Answer.v
Poll.v
PollProps.v
Body.v
Relay.v
Conditional.v
Extras.v
