(* ===== verification/Prelude.v ===== *)
(** * Verification of the Boa web server

    Boa is a web server in a single process.  It keeps every connection as a
    [request] structure, works on the connections whose descriptors are ready,
    and never blocks on one of them.  The program is in src/src/; this
    development is a shallow embedding of it: a C function [f] is a function
    [f] here, in a monad that passes the state of the server, and the theorems
    are about these functions.

    ** How the program works

    [loop] (select.c) waits with select(2), moves the requests whose
    descriptors are ready from the blocked to the ready queue, accepts new
    connections ([get_request]) and gives every ready request a turn
    ([process_requests], request.c).  What a turn does depends on the status of
    the request:
    - READ_HEADER, ONE_CR, ONE_LF, TWO_CR: [read_header] (read.c) cuts the
      stream into lines; the first goes to [process_logline], the others to
      [process_option_line], and the empty line to [process_header_end]
      (request.c), which translates the URI ([translate_uri], alias.c), asks
      access.c, and starts a transfer ([init_get], get.c) or a script
      ([init_cgi], cgi.c);
    - BODY_READ, BODY_WRITE: the body of a POST goes to a temporary file
      ([read_body], [write_body]);
    - WRITE: [process_get] sends a mapped file (mmap_cache.c), range by range
      (range.c);
    - IOSHUFFLE: [io_shuffle_sendfile] (pipe.c) sends a file that is too large
      to be mapped;
    - PIPE_READ, PIPE_WRITE: [read_from_pipe] and [write_from_pipe] (pipe.c)
      carry the output of a script, whose header is turned into one of HTTP by
      [process_cgi_header] (cgi_header.c);
    - DONE, DEAD: the output buffer (buffer.c) is flushed and [free_request]
      ends the transaction; a connection that is kept alive is reused.
    Everything for the client goes through [req_write] and [req_flush]
    (buffer.c), but for mapped files and sendfile.

    ** The files of the development

    - Prelude: bytes, C strings and arrays, machine widths, lemmas, tactics and
      the hint database [boa].  Types: defines.h and globals.h.  Machine: the
      class [OS] of the system calls, the global state [server], the monad [M],
      its rules [wp], and the class [OSLaws] of what is assumed of the system
      calls.  ScriptOS: a system that satisfies [OSLaws] and that evaluates;
      all witnesses run on it.
    - Escape (escape.h, escape.c), Buffer and BufferProps (buffer.c), Util and
      UtilProofs, Dates and DateProofs (util.c), Addr (ip.c), Hash (hash.c), Response, ResponseProofs
      and ResponseProps (response.c), Range and RangeProofs (range.c), Queue
      and QueueProps (queue.c), Access (access.c), Mmap (mmap_cache.c), Alias
      and AliasProofs (alias.c), Log (log.c), Stderr (what log.c and others print), Signals
      (the handlers of signals.c), CgiHeader and CgiHeaderProps
      (cgi_header.c), Cgi, CgiProps and ChildProps (cgi.c), Pipe and PipeProps
      (pipe.c), Get (get.c), TransferProps (the transfers of get.c and pipe.c),
      Parse and ParseProps (the parsing half of request.c), Read and ReadProps
      (read.c), Request and RequestProps (the life of a connection, request.c),
      Config and ConfigProps (config.c), Select (select.c, signals.c), Boot and
      BootProps (boa.c and what only the start uses of log.c, sublog.c, ip.c),
      IndexDir and IndexProps (the separate program index_dir.c).
    - Frame: what the handlers of a request leave alone ([wlp], [keeps]).  Pool,
      Loop and Wakeup: the invariant of the connections over [process_requests],
      the order of its turns, and [fdset_update].  MainLoop: the turns of
      [loop], signals and outside events as a step relation.  Serve: a response
      composed from get.c, response.c, buffer.c, pipe.c and the turns of the
      loop.  Confine: the path of a request, from its bytes through util.c,
      request.c and alias.c.  Denied: what the rules of access.c refuse, and what the
      server asks the system for until then.  Lines and Answer: the header of a request, line by
      line as it lies in the stream, and its answer.
      Body: the body of a POST.  Relay: the output of a script, through pipe.c,
      cgi_header.c, response.c and buffer.c.  Conditional: If-Modified-Since.
    - Poll and PollProps: the loop of poll.c and what the queues and the walk
      over the ready requests do in a build with poll.
    - Extras: the replacements of extras/ against the functions of the C library, and
      add_accept_header of a build with ACCEPT_ON.
    - Pointer: access through the pointers of a request into its own arrays.

    ** The model

    - An [int], [unsigned] or [unsigned long] is a [Z]; where the code can wrap
      around, [i32], [u32], [i64] or [u64] is applied.  A [char] is a [Z] of
      0..255, [schar] is its signed value.
    - A string is a list of bytes without its NUL.  An array whose layout
      matters ([buffer], [client_stream], the static [pathname] of alias.c) is
      the list of all its bytes, and a pointer into it is an offset, or an
      array name with an offset ([Pointer]).
    - A structure is a record with the names of the code; [set_f v r] assigns
      the field [f].  The requests of the server live in a [heap], a finite map
      from addresses, with the links [next] and [prev] of the code.
    - A function is of type [M A]: it takes and returns the [server] (globals
      and heap), the current [request] and the [world] of the system calls, and
      ends with [Ret], with [Exit] (the DIE macro) or with [Undef], an access
      outside of an object.  [wp m Q s] states that [m] ends with [Ret] in a
      state that satisfies [Q], so that it includes that none of the two others
      happens.
    - Loops are structural where the code walks over a list or a string.  The
      others have fuel, which is always computed from the state: the number of
      unread characters ([header_loop]), the anchor of the search plus one
      ([strip_loop]), the size of the array ([skip_mem], [script_scan]), the
      number of signals that can still come plus one ([sendfile_retry]), the
      size of the heap for the walks along a queue, the number of children that
      have not been waited for ([reap]), the lines that are left of a file
      ([parse_lines], [mime_lines]).  That the fuel is enough is part of the
      theorems: a result is stated, or [wp], which [Undef] for lack of fuel does
      not satisfy.  Where a run may also end with [Exit] (the start, the turns of
      the loop), the statement is about the runs that return.
    - The system is a parameter (class [OS]).  [OSLaws] states documented
      behaviour: write accepts a prefix, and what it accepts is what the client
      receives; read returns at most what was asked for; sendfile sends the
      bytes of the file at its offset and moves the offset; a mapping holds the
      bytes of the file; what is written to a connection ([is_conn]) changes no
      file; only a signal interrupts a call; setuid and setgid of root take
      effect.  fnmatch, gmtime and sscanf are the C library's; the
      last two are written out for the formats that the code uses.

    - Two conditions on runs are no laws, and the theorems that use them name them.
      [flushes_whole] (Serve): in a turn, a write of what the output buffer holds is
      not short.  write promises no such thing for a non-blocking socket; the code
      takes it for granted, and [short_flush_reorders] shows what it does otherwise.
      [range_served], [file_served], [get_answered] and [script_answered] have it as a
      premise of each turn.  [short_reads] (Relay): a read from a script does not fill
      the buffer; [read_from_pipe_overflow] shows what happens otherwise.
      [script_answered] has it as a premise of each turn.

    The build that is modelled: Linux, LP64, signed [char]; configured with
    --enable-access-control and --enable-cgi-strip-prefix, select instead of
    poll, sendfile, madvise, TUNE_SNDBUF and GUNZIP; without ACCEPT_ON, INET6,
    QUIET_DISCONNECT, ALLOW_LOCAL_REDIRECT, USE_NCSA_CGI_ENV, USE_SETRLIMIT and
    USE_LOCALTIME; debug_level 0.  Poll has the parts that differ in a build with
    HAVE_POLL; the call of poll is an argument of its definitions.

    ** The theorems

    - The server as a whole: [requests_never_lost] (from [main] on, the queues
      partition the connections, which are counted right),
      [process_requests_visits] (every ready request gets exactly one turn, and each
      turn accepts at most one connection),
      [fdset_update_correct] (who is woken up), [get_answered] (a GET from
      the first byte of its header to the last byte of the file, while no write of the
      buffer is short), [range_served] (the
      same for the bytes of a range), [conditional_get_answered] (If-Modified-Since,
      over the printed form of the date).
    - The start: [main_started], [drop_privs_correct], [parse_correct] and
      [read_config_files_ok] (the configuration file).
    - Reading a request: [header_fsm_correct] (the state machine ends the header
      exactly at the empty line, however the stream was split),
      [access_denied_forbidden] (the exact page, and nothing is opened or started),
      [escape_unescape_roundtrip], [clean_pathname_correct] (the in-place
      cleaning equals a function on strings whose result has no dot segment
      left), [sanitize_keeps_pipelined] (what a reused connection keeps).
    - From the URI to the file: [requests_confined] (no request leads outside the
      directories of the configuration and the home of the user it names; the one
      exception is stated there), [find_alias_correct] (the first alias of the bucket).
    - Sending: [req_write_appends], [req_flush_conserves] (no byte is lost,
      doubled or reordered), [range_parse_roundtrip], [ranges_fixup_correct];
      the pages: [error_page_correct], [moved_perm_no_injection].
    - Scripts: [complete_env_correct], [cgi_child_execs],
      [strip_cgi_prefix_total], [post_body_copied] (the body of a POST gets to the
      script whole, however it arrives), [script_answered] (what the script prints
      gets to the client whole behind the header of the server, wherever it is split,
      without the noise before its own header, under the two conditions above).
    - Resources: [block_request_correct] and [ready_request_correct] (the
      linked queues refine lists), [find_mmap_correct], [release_mmap_correct].
    - The indexer: [index_directory_correct], [index_link_roundtrip].
    - Log: [log_access_one_line].
    - The loop with poll: [update_blocked_correct].
    - Where the code does not do what it means to: [bare_keyword],
      [read_from_pipe_overflow], [short_flush_reorders], [remove_server_misreads].
    More theorems about single functions stand beside these, among them
    [process_get_correct] and [io_shuffle_sendfile_correct] (TransferProps),
    [access_first_match] (Access), [add_mime_type_correct] (Hash),
    [fix_range_meaning] (RangeProofs), [unescape_uri_safe], [boa_atoi_correct]
    and [sanitize_log_string_safe] (UtilProofs), [req_write_escape_html_safe]
    (BufferProps), [referer_added_twice] (ParseProps),
    [strip_finds_header] (CgiHeaderProps),
    [index_title_overflow] (IndexProps), [stale_script_path_underflow] (AliasProofs), [file_served] (Serve),
    [write_body_correct] (PipeProps), [header_loop_cuts_line] (ReadProps),
    [process_logline_correct] (ParseProps), [translate_uri_document_root]
    (AliasProofs), [pipelined_request_waits] (RequestProps), [set_nonblock_bit]
    (UtilProofs), [ascii_sockaddr_fits] (Addr), [log_error_doc_one_line] (Stderr),
    [reset_after_init] (Signals), and [strstr_fallback_correct],
    [strncasecmp_fallback_correct], [scandir_fallback_correct] and
    [add_accept_header_correct] (Extras).

    ** What is not modelled

    - Messages to stderr: the functions that format them are in Stderr, but the
      functions that call them are modelled without these calls, which change
      nothing the server looks at.  So is the DEBUG output, and the note of
      [strip_cgi_prefix] in the CGI log.
    - boa.h and compat.h declare and configure; nothing in them runs.  The parts of
      other builds are left out where they only replace a system call (INET6,
      USE_SETRLIMIT, ALLOW_LOCAL_REDIRECT, USE_NCSA_CGI_ENV), and so are the test
      programs inside the sources (STANDALONE_TEST, TEST, [#if 0]).
    - The C library's localtime and ctime depend on the time zone: they are
      parameters, of which the theorems assume at most that the fields of the time
      are in their ranges.
    - Copies of the CGI header within the output buffer whose source and target
      overlap are [Undef]: memcpy allows any result.
    - [SIGBUS] is modelled where it can hit, as an answer of the system to the access
      of a mapped file; the jump itself is not. *)

From Stdlib Require Export ZArith Lia Ascii String.
From stdpp Require Export base tactics list numbers option gmap.
#[export] Set Default Goal Selector "!".
#[global] Open Scope Z_scope.

(** * Bytes and byte strings

    A [char] of the C program is represented by its value as [unsigned char],
    an integer of 0..255; [schar] gives the value of a plain (signed) [char].
    A string held in memory is a [list Z] without its terminating NUL. *)

Abbreviation byte := Z (only parsing).
Abbreviation bytes := (list Z) (only parsing).

(** A literal of the source. *)
Fixpoint bs (s : string) : bytes :=
  match s with
  | EmptyString => []
  | String a s' => Z.of_N (N_of_ascii a) :: bs s'
  end.

Definition LF : bytes := [10].
Definition CRLF : bytes := [13; 10].
(** The double quote, kept out of Rocq string literals. *)
Definition DQ : bytes := [34].

Definition byte_ok (c : Z) : bool := (0 <=? c) && (c <? 256).
Definition schar (c : Z) : Z := if c <? 128 then c else c - 256.

(** * Machine integers *)

Definition u8 (z : Z) : Z := z mod 2 ^ 8.
Definition u16 (z : Z) : Z := z mod 2 ^ 16.
Definition u32 (z : Z) : Z := z mod 2 ^ 32.
Definition u64 (z : Z) : Z := z mod 2 ^ 64.
Definition i32 (z : Z) : Z := (z + 2 ^ 31) mod 2 ^ 32 - 2 ^ 31.
Definition i64 (z : Z) : Z := (z + 2 ^ 63) mod 2 ^ 64 - 2 ^ 63.
Definition ULONG_MAX : Z := 2 ^ 64 - 1.
Definition UINT_MAX : Z := 2 ^ 32 - 1.
Definition INT_MAX : Z := 2 ^ 31 - 1.

(** * Character classes of the C locale *)

Definition isdigit (c : Z) : bool := (48 <=? c) && (c <=? 57).
Definition isupper (c : Z) : bool := (65 <=? c) && (c <=? 90).
Definition islower (c : Z) : bool := (97 <=? c) && (c <=? 122).
Definition isalpha (c : Z) : bool := isupper c || islower c.
Definition isalnum (c : Z) : bool := isalpha c || isdigit c.
Definition isspace (c : Z) : bool := (c =? 32) || ((9 <=? c) && (c <=? 13)).
Definition tolower (c : Z) : Z := if isupper c then c + 32 else c.
Definition toupper (c : Z) : Z := if islower c then c - 32 else c.

(** * Lists indexed by integers: the arrays of the program *)

Section arrays.
Context {A : Type}.
Implicit Types (l a : list A).

Definition zlen l : Z := Z.of_nat (length l).
Definition ztake (n : Z) l : list A := take (Z.to_nat n) l.
Definition zdrop (n : Z) l : list A := drop (Z.to_nat n) l.
(** [n] elements of [a] from index [i]. *)
Definition slice a (i n : Z) : list A := ztake n (zdrop i a).
(** Reading [a[i]]; [None] is an access outside the array. *)
Definition zget a (i : Z) : option A :=
  if 0 <=? i then a !! Z.to_nat i else None.
(** Writing the elements [l] at [a[i]], [a[i+1]], ...; [None] is a write
    outside the array. *)
Definition blit a (i : Z) l : option (list A) :=
  if (0 <=? i) && (i + zlen l <=? zlen a)
  then Some (ztake i a ++ l ++ zdrop (i + zlen l) a) else None.
End arrays.

(** * C strings in arrays and the string functions of libc *)

(** The string that starts at the head of [l]: the bytes up to the first NUL;
    [None] when there is no NUL. *)
Fixpoint until_nul (l : bytes) : option bytes :=
  match l with
  | [] => None
  | c :: l' => if c =? 0 then Some [] else (c ::.) <$> until_nul l'
  end.

Definition cstr (a : bytes) (i : Z) : option bytes :=
  if 0 <=? i then until_nul (zdrop i a) else None.

(** [strchr]/[memchr]: the offset of the first [c]. *)
Fixpoint strchr (l : bytes) (c : Z) : option Z :=
  match l with
  | [] => None
  | x :: l' => if x =? c then Some 0 else Z.succ <$> strchr l' c
  end.

(** [strrchr]: the offset of the last [c]. *)
Fixpoint strrchr (l : bytes) (c : Z) : option Z :=
  match l with
  | [] => None
  | x :: l' =>
      match strrchr l' c with
      | Some i => Some (i + 1)
      | None => if x =? c then Some 0 else None
      end
  end.

Fixpoint is_prefix (p l : bytes) : bool :=
  match p, l with
  | [], _ => true
  | x :: p', y :: l' => (x =? y) && is_prefix p' l'
  | _ :: _, [] => false
  end.

(** [strstr]: the offset of the first occurrence of [needle]. *)
Fixpoint strstr (l needle : bytes) : option Z :=
  if is_prefix needle l then Some 0
  else match l with
       | [] => None
       | _ :: l' => Z.succ <$> strstr l' needle
       end.

(** [strncasecmp (s, t, n) == 0] for strings without NUL. *)
Definition strncaseeq (s t : bytes) (n : Z) : bool :=
  bool_decide (tolower <$> ztake n s = tolower <$> ztake n t).

(** [memcmp (s, "t", strlen("t") + 1) == 0]: [s] is the whole string [t]. *)
Definition streq (s t : bytes) : bool := bool_decide (s = t).

Create HintDb boa.

(** Comparisons are decided by case analysis, not by [simpl]. *)
#[global] Arguments Z.eqb : simpl never.
#[global] Arguments Z.leb : simpl never.
#[global] Arguments Z.ltb : simpl never.

(** * Tactics *)

(** Case analysis on the integer comparisons of the goal or of a hypothesis. *)
Ltac zcase_one t :=
  match t with
  | context [?a <=? ?b] => destruct (Z.leb_spec a b)
  | context [?a <? ?b] => destruct (Z.ltb_spec a b)
  | context [?a =? ?b] => destruct (Z.eqb_spec a b)
  end.
Ltac zcase := match goal with |- ?G => zcase_one G end.
Ltac zcase_in H := let T := type of H in zcase_one T.
Ltac zcases := repeat (zcase; simpl; try lia; try done).

(** Turn boolean hypotheses into propositions. *)
Ltac bprop :=
  repeat match goal with
  | H : _ && _ = true |- _ => apply andb_prop in H; destruct H
  | H : (_ <=? _) = true |- _ => apply Z.leb_le in H
  | H : (_ <=? _) = false |- _ => apply Z.leb_gt in H
  | H : (_ <? _) = true |- _ => apply Z.ltb_lt in H
  | H : (_ <? _) = false |- _ => apply Z.ltb_ge in H
  | H : (_ =? _) = true |- _ => apply Z.eqb_eq in H
  | H : (_ =? _) = false |- _ => apply Z.eqb_neq in H
  | H : negb _ = true |- _ => apply negb_true_iff in H
  | H : negb _ = false |- _ => apply negb_false_iff in H
  | H : _ || _ = false |- _ => apply orb_false_elim in H; destruct H
  | H : bool_decide _ = true |- _ => apply bool_decide_eq_true in H
  | H : bool_decide _ = false |- _ => apply bool_decide_eq_false in H
  | H : Some _ = Some _ |- _ => apply (inj Some) in H
  | H : Some _ = None |- _ => discriminate H
  | H : None = Some _ |- _ => discriminate H
  end.

(** [lia] that knows lengths are non-negative. *)
Ltac zlia := unfold zlen in *; lia.

(** * Lemmas on arrays *)

Section array_lemmas.
Context {A : Type}.
Implicit Types (l a b : list A).

Lemma zlen_nonneg l : 0 <= zlen l.
Proof. unfold zlen; lia. Qed.

Lemma zlen_nil : zlen (@nil A) = 0.
Proof. reflexivity. Qed.

Lemma zlen_cons x l : zlen (x :: l) = zlen l + 1.
Proof. unfold zlen; simpl; lia. Qed.

Lemma zlen_0_nil l : zlen l = 0 -> l = [].
Proof. unfold zlen. destruct l; simpl; [done|lia]. Qed.

Lemma zlen_app l1 l2 : zlen (l1 ++ l2) = zlen l1 + zlen l2.
Proof. unfold zlen; rewrite length_app; lia. Qed.

Lemma zlen_ztake n l : 0 <= n -> zlen (ztake n l) = Z.min n (zlen l).
Proof. unfold zlen, ztake; rewrite length_take; lia. Qed.

Lemma zlen_zdrop n l : 0 <= n -> zlen (zdrop n l) = Z.max 0 (zlen l - n).
Proof. unfold zlen, zdrop; rewrite length_drop; lia. Qed.

Lemma zlen_slice a i n :
  0 <= i -> 0 <= n -> i + n <= zlen a -> zlen (slice a i n) = n.
Proof.
  intros. unfold slice. rewrite zlen_ztake by lia.
  rewrite zlen_zdrop by lia. lia.
Qed.

Lemma ztake_ge n l : zlen l <= n -> ztake n l = l.
Proof. unfold zlen, ztake; intros; apply take_ge; lia. Qed.

Lemma ztake_neg n l : n <= 0 -> ztake n l = [].
Proof.
  intros. unfold ztake. replace (Z.to_nat n) with 0%nat by lia. done.
Qed.

Lemma ztake_zdrop n l : ztake n l ++ zdrop n l = l.
Proof. apply take_drop. Qed.

Lemma zdrop_zdrop n m l :
  0 <= n -> 0 <= m -> zdrop n (zdrop m l) = zdrop (m + n) l.
Proof. intros. unfold zdrop. rewrite drop_drop. f_equal; lia. Qed.

Lemma ztake_app_exact l1 l2 n : n = zlen l1 -> ztake n (l1 ++ l2) = l1.
Proof.
  intros ->. unfold ztake, zlen. rewrite Nat2Z.id. apply take_app_length.
Qed.

Lemma zdrop_app_exact l1 l2 n : n = zlen l1 -> zdrop n (l1 ++ l2) = l2.
Proof.
  intros ->. unfold zdrop, zlen. rewrite Nat2Z.id. apply drop_app_length.
Qed.

Lemma ztake_app_le l1 l2 n : n <= zlen l1 -> ztake n (l1 ++ l2) = ztake n l1.
Proof. intros. unfold ztake, zlen in *. apply take_app_le. lia. Qed.

Lemma zdrop_app_ge l1 l2 n :
  zlen l1 <= n -> zdrop n (l1 ++ l2) = zdrop (n - zlen l1) l2.
Proof.
  intros. unfold zdrop, zlen in *. rewrite drop_app_ge by lia. f_equal; lia.
Qed.

Lemma zdrop_app_le l1 l2 n :
  n <= zlen l1 -> zdrop n (l1 ++ l2) = zdrop n l1 ++ l2.
Proof. intros. unfold zdrop, zlen in *. apply drop_app_le. lia. Qed.

Lemma ztake_app_ge l1 l2 n :
  zlen l1 <= n -> ztake n (l1 ++ l2) = l1 ++ ztake (n - zlen l1) l2.
Proof.
  intros. unfold ztake, zlen in *. rewrite take_app_ge by lia.
  do 2 f_equal; lia.
Qed.

Lemma slice_app a i n m :
  0 <= i -> 0 <= n -> 0 <= m ->
  slice a i (n + m) = slice a i n ++ slice a (i + n) m.
Proof.
  intros. unfold slice. rewrite <- (zdrop_zdrop n i) by lia.
  unfold ztake, zdrop. rewrite Z2Nat.inj_add by lia.
  symmetry. apply take_take_drop.
Qed.

Lemma slice_0 a i n : n <= 0 -> slice a i n = [].
Proof. intros. apply ztake_neg. done. Qed.

(** Splitting a prefix off a slice. *)
Lemma ztake_slice a i n m :
  0 <= i -> 0 <= m <= n -> ztake m (slice a i n) = slice a i m.
Proof.
  intros. unfold slice, ztake. rewrite take_take. f_equal. lia.
Qed.

Lemma zdrop_slice a i n m :
  0 <= i -> 0 <= m <= n -> zdrop m (slice a i n) = slice a (i + m) (n - m).
Proof.
  intros. unfold slice, ztake, zdrop. rewrite skipn_firstn_comm, drop_drop.
  f_equal; [lia|f_equal; lia].
Qed.

(** ** Writes *)

Lemma blit_Some a i l :
  0 <= i -> i + zlen l <= zlen a ->
  blit a i l = Some (ztake i a ++ l ++ zdrop (i + zlen l) a).
Proof.
  intros. unfold blit.
  destruct (Z.leb_spec 0 i), (Z.leb_spec (i + zlen l) (zlen a));
    simpl; done || lia.
Qed.

Lemma blit_inv a i l b :
  blit a i l = Some b ->
  0 <= i /\ i + zlen l <= zlen a /\
  b = ztake i a ++ l ++ zdrop (i + zlen l) a.
Proof.
  unfold blit. intros H.
  destruct (Z.leb_spec 0 i), (Z.leb_spec (i + zlen l) (zlen a));
    simpl in H; naive_solver.
Qed.

Lemma blit_is_Some a i l :
  is_Some (blit a i l) <-> 0 <= i /\ i + zlen l <= zlen a.
Proof.
  split.
  - intros [b (? & ? & _)%blit_inv]. done.
  - intros []. rewrite blit_Some by done. eauto.
Qed.

Lemma blit_zlen a i l b : blit a i l = Some b -> zlen b = zlen a.
Proof.
  intros (? & ? & ->)%blit_inv.
  rewrite !zlen_app, zlen_ztake, zlen_zdrop by zlia. zlia.
Qed.

(** What is written is read back. *)
Lemma slice_blit_eq a i l b :
  blit a i l = Some b -> slice b i (zlen l) = l.
Proof.
  intros (? & ? & ->)%blit_inv. unfold slice.
  rewrite zdrop_app_exact by (rewrite zlen_ztake by lia; zlia).
  by apply ztake_app_exact.
Qed.

Lemma ztake_blit_before a i l b n :
  blit a i l = Some b -> n <= i -> ztake n b = ztake n a.
Proof.
  intros (? & ? & ->)%blit_inv ?.
  rewrite ztake_app_le by (rewrite zlen_ztake by lia; zlia).
  unfold ztake. rewrite take_take. f_equal. lia.
Qed.

(** Reads below the written region are unchanged. *)
Lemma slice_blit_before a i l b j n :
  blit a i l = Some b -> 0 <= j -> j + n <= i -> slice b j n = slice a j n.
Proof.
  intros H ??. destruct (decide (n <= 0)); [by rewrite !slice_0 by lia|].
  pose proof (ztake_blit_before a i l b (j + n) H) as E.
  unfold slice, ztake, zdrop in *.
  rewrite !firstn_skipn_comm.
  replace (Z.to_nat j + Z.to_nat n)%nat with (Z.to_nat (j + n)) by lia.
  rewrite E by lia. done.
Qed.

(** Appending at the end of a region. *)
Lemma slice_blit_app a i l b j :
  blit a i l = Some b -> 0 <= j <= i ->
  slice b j (i - j + zlen l) = slice a j (i - j) ++ l.
Proof.
  intros H ?. rewrite slice_app by zlia.
  rewrite (slice_blit_before a i l b) by (done || lia).
  replace (j + (i - j)) with i by lia. f_equal. by eapply slice_blit_eq.
Qed.

Lemma zdrop_blit_after a i l b n :
  blit a i l = Some b -> i + zlen l <= n -> zdrop n b = zdrop n a.
Proof.
  intros (? & ? & ->)%blit_inv ?.
  rewrite zdrop_app_ge by (rewrite zlen_ztake by lia; zlia).
  rewrite zlen_ztake by lia.
  rewrite zdrop_app_ge by zlia.
  rewrite zdrop_zdrop by zlia. f_equal. zlia.
Qed.

(** Consecutive writes are one write. *)
Lemma blit_blit a i x a' y :
  blit a i x = Some a' -> blit a' (i + zlen x) y = blit a i (x ++ y).
Proof.
  intros H. pose proof (blit_zlen _ _ _ _ H) as Hl.
  pose proof (zdrop_blit_after _ _ _ _ (i + zlen x + zlen y) H) as Hd.
  pose proof (blit_inv _ _ _ _ H) as (Hi & Hb & E).
  unfold blit at 1 2. rewrite Hl, zlen_app.
  pose proof (zlen_nonneg x). pose proof (zlen_nonneg y).
  replace (0 <=? i + zlen x) with (0 <=? i)
    by (destruct (Z.leb_spec 0 i), (Z.leb_spec 0 (i + zlen x)); lia).
  rewrite Z.add_assoc. destruct (_ && _); [|done].
  rewrite Hd by lia. f_equal. rewrite <- app_assoc.
  rewrite (app_assoc (ztake i a)). f_equal.
  rewrite E, app_assoc. apply ztake_app_exact.
  rewrite zlen_app, zlen_ztake by lia. lia.
Qed.

Lemma zget_lt a i x : zget a i = Some x -> 0 <= i < zlen a.
Proof.
  unfold zget, zlen. destruct (Z.leb_spec 0 i); [|done].
  intros Hl%lookup_lt_Some. lia.
Qed.

Lemma zget_is_Some a i : 0 <= i < zlen a -> is_Some (zget a i).
Proof.
  unfold zget, zlen. intros.
  destruct (Z.leb_spec 0 i); [|lia]. apply lookup_lt_is_Some. lia.
Qed.
End array_lemmas.

(** The part of a string before a byte that is overwritten. *)
Lemma zdrop_blit_tail {A} (a : list A) p body x rest y b :
  0 <= p -> zdrop p a = body ++ x :: rest -> blit a (p + zlen body) [y] = Some b ->
  zdrop p b = body ++ y :: rest.
Proof.
  intros Hp Hd Hb.
  assert (exists pre, a = pre ++ body ++ x :: rest /\ zlen pre = p) as (pre & -> & <-).
  { exists (ztake p a). rewrite <- Hd, ztake_zdrop. split; [done|].
    rewrite zlen_ztake by done. destruct (decide (p <= zlen a)); [lia|].
    unfold zdrop, zlen in *. rewrite skipn_all2 in Hd by lia. by destruct body. }
  apply blit_inv in Hb as (_ & _ & ->). change (zlen [y]) with (zlen [x]).
  pose proof (zlen_nonneg body). rewrite !app_assoc, <- zlen_app.
  rewrite ztake_app_exact by done. rewrite (cons_middle x), app_assoc, <- zlen_app.
  rewrite (zdrop_app_exact ((pre ++ body) ++ [x])) by done.
  rewrite <- !app_assoc. by apply zdrop_app_exact.
Qed.

(** * Machine integers in range *)

Lemma u32_small z : 0 <= z < 2 ^ 32 -> u32 z = z.
Proof. apply Z.mod_small. Qed.

Lemma u64_small z : 0 <= z < 2 ^ 64 -> u64 z = z.
Proof. apply Z.mod_small. Qed.

Lemma i32_small z : - 2 ^ 31 <= z < 2 ^ 31 -> i32 z = z.
Proof. intros. unfold i32. rewrite Z.mod_small by lia. lia. Qed.

Lemma i64_small z : - 2 ^ 63 <= z < 2 ^ 63 -> i64 z = z.
Proof. intros. unfold i64. rewrite Z.mod_small by lia. lia. Qed.

Lemma i32_range z : - 2 ^ 31 <= i32 z < 2 ^ 31.
Proof. unfold i32. pose proof (Z.mod_pos_bound (z + 2 ^ 31) (2 ^ 32)). lia. Qed.

Lemma i64_range z : - 2 ^ 63 <= i64 z < 2 ^ 63.
Proof. unfold i64. pose proof (Z.mod_pos_bound (z + 2 ^ 63) (2 ^ 64)). lia. Qed.

(** * Lemmas on searches *)

Lemma last_cons {A} (x d : A) l : List.last (x :: l) d = List.last l x.
Proof.
  revert x d. induction l as [|y l IH]; intros x d; [done|].
  change (List.last (y :: l) d = List.last (y :: l) x). by rewrite !IH.
Qed.

Lemma zget_0 {A} (x : A) l : zget (x :: l) 0 = Some x.
Proof. done. Qed.

Lemma zget_cons {A} (x : A) l i : 0 <= i -> zget (x :: l) (i + 1) = zget l i.
Proof.
  intros Hi. unfold zget. destruct (Z.leb_spec 0 i), (Z.leb_spec 0 (i + 1)); try lia.
  by replace (Z.to_nat (i + 1)) with (S (Z.to_nat i)) by lia.
Qed.

Lemma strchr_Some l c i :
  strchr l c = Some i -> 0 <= i < zlen l /\ zget l i = Some c.
Proof.
  revert i. induction l as [|x l IH]; intros i; simpl; [done|].
  rewrite zlen_cons. pose proof (zlen_nonneg l).
  destruct (Z.eqb_spec x c) as [->|].
  - intros [= <-]. split; [lia|done].
  - intros (j & Hj & ->)%fmap_Some. destruct (IH _ Hj) as [H1 H2].
    split; [lia|]. unfold Z.succ. by rewrite zget_cons by lia.
Qed.

#[export] Hint Resolve zlen_nonneg : boa.
