(* ===== verification/Types.v ===== *)
(** Data of the server: the constants of [src/defines.h] and the enumerations
    and structures of [src/globals.h].  A field update [set_f v r] is generated
    from the eta expansion of the record. *)

From S2P Require Import Prelude.

(** * struct tm and struct sockaddr_in of the C library *)

Record tm := mkTm {
  tm_sec : Z; tm_min : Z; tm_hour : Z; tm_mday : Z; tm_mon : Z;
  tm_year : Z; tm_wday : Z
}.

(** The address and the port, byte by byte in the order of the network. *)
Record sockaddr := mkSockaddr { sin_addr : bytes; sin_port : Z * Z }.

(** The signals the server cares about, and what sigaction can set: the default, or one of
    the handlers of signals.c. *)
Inductive signal :=
  | SIGSEGV | SIGBUS | SIGTERM | SIGHUP | SIGINT | SIGPIPE | SIGCHLD | SIGALRM | SIGUSR1 | SIGUSR2.
Inductive sa_handler :=
  | SIG_DFL | SIG_IGN
  | Sigsegv | Sigbus | Sigterm | Sighup | Sigint | Sigchld | Sigalrm.

#[export] Instance signal_eq : EqDecision signal.
Proof. solve_decision. Defined.

(** * Constants of defines.h *)

Definition CLIENT_STREAM_SIZE : Z := 8192.
Definition BUFFER_SIZE : Z := 4096.
Definition MAX_HEADER_LENGTH : Z := 1024.
Definition LOG_SANITIZE_BUF_SIZE : Z := 2048.
Definition MIME_HASHTABLE_SIZE : Z := 47.
Definition ALIAS_HASHTABLE_SIZE : Z := 17.
Definition PASSWD_HASHTABLE_SIZE : Z := 47.
Definition REQUEST_TIMEOUT : Z := 60.
Definition CGI_MIME_TYPE : bytes := bs "application/x-httpd-cgi".
Definition SERVER_VERSION : bytes := bs "YABWF/0.0.2".
Definition CGI_VERSION : bytes := bs "CGI/1.1".
Definition CGI_ENV_MAX : Z := 100.
Definition CGI_ARGC_MAX : Z := 128.
Definition SERVER_METHOD : bytes := bs "http".
Definition MMAP_LIST_SIZE : Z := 256.
Definition MMAP_LIST_MASK : Z := 255.
Definition MMAP_LIST_USE_MAX : Z := 128.
Definition MAX_FILE_MMAP : Z := 100 * 1024.
(** [PATH_MAX] of Linux. *)
Definition MAX_PATH_LENGTH : Z := 4096.
(** [FD_SETSIZE] of Linux. *)
Definition FD_SETSIZE : Z := 1024.
(** compat.h, without INET6 *)
Definition BOA_NI_MAXHOST : Z := 20.

(** * Enumerations of globals.h

    A request is cleared with [memset (req, 0, ...)]: where no enumerator has
    the value 0, the constructor [.._unset] is that value. *)

Inductive HTTP_METHOD :=
  | M_unset | M_GET | M_HEAD | M_PUT | M_POST
  | M_DELETE | M_LINK | M_UNLINK | M_MOVE | M_TRACE.

Inductive HTTP_VERSION := HTTP_unset | HTTP09 | HTTP10 | HTTP11.

Definition http_version_num (v : HTTP_VERSION) : Z :=
  match v with HTTP_unset => 0 | HTTP09 => 1 | HTTP10 => 2 | HTTP11 => 3 end.

Inductive REQ_STATUS :=
  | READ_HEADER | ONE_CR | ONE_LF | TWO_CR
  | BODY_READ | BODY_WRITE
  | WRITE
  | PIPE_READ | PIPE_WRITE
  | IOSHUFFLE
  | DONE
  | TIMED_OUT
  | DEAD.

(** The enumerator's value, for the comparisons [<] and [>] of the code. *)
Definition status_num (s : REQ_STATUS) : Z :=
  match s with
  | READ_HEADER => 0 | ONE_CR => 1 | ONE_LF => 2 | TWO_CR => 3
  | BODY_READ => 4 | BODY_WRITE => 5 | WRITE => 6
  | PIPE_READ => 7 | PIPE_WRITE => 8 | IOSHUFFLE => 9
  | DONE => 10 | TIMED_OUT => 11 | DEAD => 12
  end.

(** Response codes ([enum RESPONSE_CODE]); 0 is "none yet". *)
Definition R_CONTINUE : Z := 100.
Definition R_REQUEST_OK : Z := 200.
Definition R_NO_CONTENT : Z := 204.
Definition R_PARTIAL_CONTENT : Z := 206.
Definition R_MOVED_PERM : Z := 301.
Definition R_MOVED_TEMP : Z := 302.
Definition R_NOT_MODIFIED : Z := 304.
Definition R_BAD_REQUEST : Z := 400.
Definition R_UNAUTHORIZED : Z := 401.
Definition R_FORBIDDEN : Z := 403.
Definition R_NOT_FOUND : Z := 404.
Definition R_REQUEST_TO : Z := 408.
Definition R_LENGTH_REQUIRED : Z := 411.
Definition R_PRECONDITION_FAILED : Z := 412.
Definition R_REQUEST_URI_TOO_LONG : Z := 414.
Definition R_INVALID_RANGE : Z := 416.
Definition R_ERROR : Z := 500.
Definition R_NOT_IMP : Z := 501.
Definition R_BAD_GATEWAY : Z := 502.
Definition R_SERVICE_UNAV : Z := 503.
Definition R_BAD_VERSION : Z := 505.

Inductive ALIAS_TYPE := ALIAS | SCRIPTALIAS | REDIRECT.
Inductive KA_STATUS := KA_INACTIVE | KA_ACTIVE | KA_STOPPED.
Inductive CGI_STATUS := CGI_PARSE | CGI_BUFFER | CGI_DONE.
Inductive CGI_TYPE := CGI_none | NPH | CGI.

(** [enum access_type] of access.h. *)
Inductive access_type := ACCESS_DENY | ACCESS_ALLOW.

#[export] Instance HTTP_METHOD_eq : EqDecision HTTP_METHOD.
Proof. solve_decision. Defined.
#[export] Instance HTTP_VERSION_eq : EqDecision HTTP_VERSION.
Proof. solve_decision. Defined.
#[export] Instance REQ_STATUS_eq : EqDecision REQ_STATUS.
Proof. solve_decision. Defined.
#[export] Instance ALIAS_TYPE_eq : EqDecision ALIAS_TYPE.
Proof. solve_decision. Defined.
#[export] Instance KA_STATUS_eq : EqDecision KA_STATUS.
Proof. solve_decision. Defined.
#[export] Instance CGI_STATUS_eq : EqDecision CGI_STATUS.
Proof. solve_decision. Defined.
#[export] Instance CGI_TYPE_eq : EqDecision CGI_TYPE.
Proof. solve_decision. Defined.
#[export] Instance access_type_eq : EqDecision access_type.
Proof. solve_decision. Defined.

(** * Structures of globals.h *)

(** [struct range]: a byte range; [ULONG_MAX] stands for "not given". *)
Record Range := mkRange { start : Z; stop : Z }.

(** [struct mmap_entry]; [mmap] is the mapped file content. *)
Record mmap_entry := mkMmap {
  dev : Z; ino : Z; mmap : bytes; use_count : Z; len : Z
}.

(** Pointers into the arrays embedded in a request: [client_stream],
    [buffer] and [request_uri], with an offset. *)
Inductive ptr := Pnull | Pstream (i : Z) | Pbuf (i : Z) | Puri (i : Z).

#[export] Instance ptr_eq : EqDecision ptr.
Proof. solve_decision. Defined.
#[export] Instance Range_eq : EqDecision Range.
Proof. solve_decision. Defined.

(** Builds the record [e] with the field whose projection is [p] replaced
    by [v]. *)
Ltac setter e p v :=
  let e' := eval hnf in e in
  match (eval pattern p in e') with
  | ?F _ => let t := eval cbv beta in (F v) in exact t
  end.

(** [struct request], field by field; [accept] (compiled only with
    ACCEPT_ON) is left out, the [select] build has no [pollfd_id]. *)
Record request := mkRequest {
  status : REQ_STATUS;
  keepalive : KA_STATUS;
  http_version : HTTP_VERSION;
  method : HTTP_METHOD;
  response_status : Z;
  cgi_type : CGI_TYPE;
  cgi_status : CGI_STATUS;
  pathname : option bytes; (* malloc'ed *)
  ranges : list Range; (* the linked list from req->ranges *)
  numranges : Z;
  data_fd : Z;
  filesize : Z;
  filepos : Z;
  bytes_written : Z;
  data_mem : option bytes; (* the bytes data_mem points to *)
  logline : ptr;
  header_line : ptr;
  header_end : ptr;
  parse_pos : Z;
  buffer_start : Z;
  buffer_end : Z;
  if_modified_since : ptr;
  last_modified : Z;
  cgi_env_index : Z;
  header_host : ptr;
  header_user_agent : ptr;
  header_referer : ptr;
  header_ifrange : ptr;
  host : option bytes; (* malloc'ed *)
  post_data_fd : Z;
  path_info : option bytes; (* malloc'ed *)
  path_translated : option bytes; (* malloc'ed *)
  script_name : option bytes; (* malloc'ed *)
  query_string : ptr; (* into request_uri *)
  content_type : ptr;
  content_length : ptr;
  mmap_entry_var : option Z; (* index in mmap_list *)
  fd : Z; (* everything above is zeroed in sanitize_request *)
  time_last : Z;
  local_ip_addr : bytes;
  remote_ip_addr : bytes;
  remote_port : Z;
  kacount : Z; (* unsigned int *)
  client_stream_pos : Z;
  buffer : bytes; (* char [BUFFER_SIZE + 1] *)
  request_uri : bytes; (* char [MAX_HEADER_LENGTH + 1] *)
  client_stream : bytes; (* char [CLIENT_STREAM_SIZE] *)
  cgi_env : list (option bytes); (* char *[CGI_ENV_MAX + 4] *)
  next : option positive; (* queue link *)
  prev : option positive; (* queue link *)
}.

Definition eta_request (r : request) : request :=
  mkRequest r.(status) r.(keepalive) r.(http_version) r.(method)
    r.(response_status) r.(cgi_type) r.(cgi_status) r.(pathname)
    r.(ranges) r.(numranges) r.(data_fd) r.(filesize) r.(filepos)
    r.(bytes_written) r.(data_mem) r.(logline) r.(header_line)
    r.(header_end) r.(parse_pos) r.(buffer_start) r.(buffer_end)
    r.(if_modified_since) r.(last_modified) r.(cgi_env_index)
    r.(header_host) r.(header_user_agent) r.(header_referer)
    r.(header_ifrange) r.(host) r.(post_data_fd) r.(path_info)
    r.(path_translated) r.(script_name) r.(query_string) r.(content_type)
    r.(content_length) r.(mmap_entry_var) r.(fd) r.(time_last)
    r.(local_ip_addr) r.(remote_ip_addr) r.(remote_port) r.(kacount)
    r.(client_stream_pos) r.(buffer) r.(request_uri) r.(client_stream)
    r.(cgi_env) r.(next) r.(prev).

Definition set_status (v : REQ_STATUS) (r : request) : request :=
  ltac:(setter (eta_request r) (r.(status)) v).
Definition set_keepalive (v : KA_STATUS) (r : request) : request :=
  ltac:(setter (eta_request r) (r.(keepalive)) v).
Definition set_http_version (v : HTTP_VERSION) (r : request) : request :=
  ltac:(setter (eta_request r) (r.(http_version)) v).
Definition set_method (v : HTTP_METHOD) (r : request) : request :=
  ltac:(setter (eta_request r) (r.(method)) v).
Definition set_response_status (v : Z) (r : request) : request :=
  ltac:(setter (eta_request r) (r.(response_status)) v).
Definition set_cgi_type (v : CGI_TYPE) (r : request) : request :=
  ltac:(setter (eta_request r) (r.(cgi_type)) v).
Definition set_cgi_status (v : CGI_STATUS) (r : request) : request :=
  ltac:(setter (eta_request r) (r.(cgi_status)) v).
Definition set_pathname (v : option bytes) (r : request) : request :=
  ltac:(setter (eta_request r) (r.(pathname)) v).
Definition set_ranges (v : list Range) (r : request) : request :=
  ltac:(setter (eta_request r) (r.(ranges)) v).
Definition set_numranges (v : Z) (r : request) : request :=
  ltac:(setter (eta_request r) (r.(numranges)) v).
Definition set_data_fd (v : Z) (r : request) : request :=
  ltac:(setter (eta_request r) (r.(data_fd)) v).
Definition set_filesize (v : Z) (r : request) : request :=
  ltac:(setter (eta_request r) (r.(filesize)) v).
Definition set_filepos (v : Z) (r : request) : request :=
  ltac:(setter (eta_request r) (r.(filepos)) v).
Definition set_bytes_written (v : Z) (r : request) : request :=
  ltac:(setter (eta_request r) (r.(bytes_written)) v).
Definition set_data_mem (v : option bytes) (r : request) : request :=
  ltac:(setter (eta_request r) (r.(data_mem)) v).
Definition set_logline (v : ptr) (r : request) : request :=
  ltac:(setter (eta_request r) (r.(logline)) v).
Definition set_header_line (v : ptr) (r : request) : request :=
  ltac:(setter (eta_request r) (r.(header_line)) v).
Definition set_header_end (v : ptr) (r : request) : request :=
  ltac:(setter (eta_request r) (r.(header_end)) v).
Definition set_parse_pos (v : Z) (r : request) : request :=
  ltac:(setter (eta_request r) (r.(parse_pos)) v).
Definition set_buffer_start (v : Z) (r : request) : request :=
  ltac:(setter (eta_request r) (r.(buffer_start)) v).
Definition set_buffer_end (v : Z) (r : request) : request :=
  ltac:(setter (eta_request r) (r.(buffer_end)) v).
Definition set_if_modified_since (v : ptr) (r : request) : request :=
  ltac:(setter (eta_request r) (r.(if_modified_since)) v).
Definition set_last_modified (v : Z) (r : request) : request :=
  ltac:(setter (eta_request r) (r.(last_modified)) v).
Definition set_cgi_env_index (v : Z) (r : request) : request :=
  ltac:(setter (eta_request r) (r.(cgi_env_index)) v).
Definition set_header_host (v : ptr) (r : request) : request :=
  ltac:(setter (eta_request r) (r.(header_host)) v).
Definition set_header_user_agent (v : ptr) (r : request) : request :=
  ltac:(setter (eta_request r) (r.(header_user_agent)) v).
Definition set_header_referer (v : ptr) (r : request) : request :=
  ltac:(setter (eta_request r) (r.(header_referer)) v).
Definition set_header_ifrange (v : ptr) (r : request) : request :=
  ltac:(setter (eta_request r) (r.(header_ifrange)) v).
Definition set_host (v : option bytes) (r : request) : request :=
  ltac:(setter (eta_request r) (r.(host)) v).
Definition set_post_data_fd (v : Z) (r : request) : request :=
  ltac:(setter (eta_request r) (r.(post_data_fd)) v).
Definition set_path_info (v : option bytes) (r : request) : request :=
  ltac:(setter (eta_request r) (r.(path_info)) v).
Definition set_path_translated (v : option bytes) (r : request) : request :=
  ltac:(setter (eta_request r) (r.(path_translated)) v).
Definition set_script_name (v : option bytes) (r : request) : request :=
  ltac:(setter (eta_request r) (r.(script_name)) v).
Definition set_query_string (v : ptr) (r : request) : request :=
  ltac:(setter (eta_request r) (r.(query_string)) v).
Definition set_content_type (v : ptr) (r : request) : request :=
  ltac:(setter (eta_request r) (r.(content_type)) v).
Definition set_content_length (v : ptr) (r : request) : request :=
  ltac:(setter (eta_request r) (r.(content_length)) v).
Definition set_mmap_entry_var (v : option Z) (r : request) : request :=
  ltac:(setter (eta_request r) (r.(mmap_entry_var)) v).
Definition set_fd (v : Z) (r : request) : request :=
  ltac:(setter (eta_request r) (r.(fd)) v).
Definition set_time_last (v : Z) (r : request) : request :=
  ltac:(setter (eta_request r) (r.(time_last)) v).
Definition set_local_ip_addr (v : bytes) (r : request) : request :=
  ltac:(setter (eta_request r) (r.(local_ip_addr)) v).
Definition set_remote_ip_addr (v : bytes) (r : request) : request :=
  ltac:(setter (eta_request r) (r.(remote_ip_addr)) v).
Definition set_remote_port (v : Z) (r : request) : request :=
  ltac:(setter (eta_request r) (r.(remote_port)) v).
Definition set_kacount (v : Z) (r : request) : request :=
  ltac:(setter (eta_request r) (r.(kacount)) v).
Definition set_client_stream_pos (v : Z) (r : request) : request :=
  ltac:(setter (eta_request r) (r.(client_stream_pos)) v).
Definition set_buffer (v : bytes) (r : request) : request :=
  ltac:(setter (eta_request r) (r.(buffer)) v).
Definition set_request_uri (v : bytes) (r : request) : request :=
  ltac:(setter (eta_request r) (r.(request_uri)) v).
Definition set_client_stream (v : bytes) (r : request) : request :=
  ltac:(setter (eta_request r) (r.(client_stream)) v).
Definition set_cgi_env (v : list (option bytes)) (r : request) : request :=
  ltac:(setter (eta_request r) (r.(cgi_env)) v).
Definition set_next (v : option positive) (r : request) : request :=
  ltac:(setter (eta_request r) (r.(next)) v).
Definition set_prev (v : option positive) (r : request) : request :=
  ltac:(setter (eta_request r) (r.(prev)) v).

(** The part of a request that [memset (req, 0, offsetof (request, fd))]
    clears. *)
Definition clear_request (r : request) : request :=
  mkRequest READ_HEADER KA_INACTIVE HTTP_unset M_unset 0 CGI_none CGI_PARSE
    None [] 0 0 0 0 0 None Pnull Pnull Pnull 0 0 0 Pnull 0 0 Pnull
    Pnull Pnull Pnull None 0 None None None Pnull Pnull Pnull None
    r.(fd) r.(time_last) r.(local_ip_addr) r.(remote_ip_addr)
    r.(remote_port) r.(kacount) r.(client_stream_pos) r.(buffer)
    r.(request_uri) r.(client_stream) r.(cgi_env) r.(next) r.(prev).
