(* ===== verification/Machine.v ===== *)
(** The machine the handlers run on: the operating system as a class of
    operations on an abstract world, the global state of the server, and the
    monad in which every function of the program is written.

    A run ends with a value ([Ret]), with a call of [exit] ([Exit], the DIE
    macro) or with an access outside an object ([Undef]), which C leaves
    undefined.  [wp m Q s] says that [m] run from [s] returns, without [exit]
    and without an access outside an object, in a state that satisfies [Q]. *)

From S2P Require Import Prelude Types.

(** * System calls *)

(** The values of [errno] the code distinguishes (EWOULDBLOCK is EAGAIN on
    Linux). *)
Inductive errno :=
  | EAGAIN | EINTR | EPIPE | ECONNRESET | ENOENT | EACCES | EPERM | EBADF | ENOSPC | EOTHER.

#[export] Instance errno_eq : EqDecision errno.
Proof. solve_decision. Defined.

Inductive sys (A : Type) := SOk (a : A) | SErr (e : errno).
Arguments SOk {A} a.
Arguments SErr {A} e.

Inductive file_kind := S_REG | S_DIR | S_OTHER.

#[export] Instance file_kind_eq : EqDecision file_kind.
Proof. solve_decision. Defined.

Record stat := mkStat {
  st_mode : file_kind; st_size : Z; st_mtime : Z; st_dev : Z; st_ino : Z
}.

(** The system calls of the startup and of the child processes. *)
Inductive boot_call :=
  | Umask (mask : Z) | Open_null | Open_append (path : bytes)
  | Dup2 (fd target : Z) | Chroot (path : bytes)
  | Socket | Reuseaddr (fd : Z) | Bind (fd : Z) (ip : option bytes) (port : Z)
  | Listen (fd backlog : Z) | Connect (fd : Z) (host : bytes) (port : Z)
  | Getpid | Sigaction (s : signal) (h : sa_handler) | Block (fd : Z)
  | Getpwuid (uid : Z) | Initgroups (uid : Z) | Setgid (gid : Z) | Setuid (uid : Z).

(** The kernel and the parts of libc that consult it.  Every operation may
    depend on and change the [world]. *)
Class OS := {
  world : Type;
  (** write (fd, bytes): how many bytes were accepted *)
  os_write : Z -> bytes -> world -> sys Z * world;
  (** read (fd, count): the bytes read, [] is end of file *)
  os_read : Z -> Z -> world -> sys bytes * world;
  (** sendfile (out, in, &offset, count): result and the new offset *)
  os_sendfile : Z -> Z -> Z -> Z -> world -> sys Z * Z * world;
  os_lseek : Z -> Z -> world -> bool * world;
  (** open (path, O_RDONLY) *)
  os_open : bytes -> world -> sys Z * world;
  os_close : Z -> world -> world;
  os_fstat : Z -> world -> stat * world;
  os_stat : bytes -> world -> option stat * world;
  (** access (path, R_OK|X_OK) == 0 *)
  os_access : bytes -> world -> bool * world;
  (** malloc (n) != NULL, also for the strdup's *)
  os_malloc : Z -> world -> bool * world;
  (** mmap (0, len, PROT_READ, MAP_OPTIONS, fd, 0) *)
  os_mmap : Z -> Z -> world -> sys bytes * world;
  os_madvise : bytes -> Z -> world -> bool * world;
  os_munmap : bytes -> Z -> world -> world;
  (** does touching the mapped file raise SIGBUS? *)
  os_sigbus : world -> bool * world;
  os_time : world -> Z * world;
  os_pipe : world -> sys (Z * Z) * world;
  (** fcntl (fd, F_SETFL, O_NONBLOCK) != -1 *)
  os_nonblock : Z -> world -> bool * world;
  (** fcntl (fd, F_SETFD, 1) != -1 *)
  os_cloexec : Z -> world -> bool * world;
  (** fork: 0 in the child *)
  os_fork : world -> sys Z * world;
  os_mkstemp : bytes -> world -> sys (Z * bytes) * world;
  os_unlink : bytes -> world -> bool * world;
  (** accept: the descriptor and the address of the peer *)
  os_accept : Z -> world -> sys (Z * sockaddr) * world;
  (** getsockname: the local address *)
  os_getsockname : Z -> world -> option sockaddr * world;
  (** getsockopt (SO_SNDBUF) *)
  os_sndbuf : Z -> world -> option Z * world;
  os_set_sndbuf : Z -> Z -> world -> bool * world;
  (** getpwnam (name)->pw_dir *)
  os_getpwnam : bytes -> world -> option bytes * world;
  (** fnmatch (pattern, file, 0) == 0 *)
  os_fnmatch : bytes -> bytes -> bool;
  (** localtime (&t), in the local time zone *)
  os_localtime : Z -> world -> tm;
  (** ctime (&t), in the local time zone *)
  os_ctime : Z -> world -> bytes;
  (** select (max_fd + 1, ...): success *)
  os_select : Z -> world -> sys unit * world;
  (** after select: does it report descriptor [fd] readable / writable? *)
  os_selected_read : Z -> world -> bool;
  os_selected_write : Z -> world -> bool;
  (** chdir (path) *)
  os_chdir : bytes -> world -> sys unit * world;
  (** opendir (path) and readdir to the end: the names of the entries *)
  os_readdir : bytes -> world -> option (list bytes) * world;
  (** fopen (path, w), the output, fclose: false when fopen fails *)
  os_create : bytes -> bytes -> world -> bool * world;
  (** a bound on the number of signals that can still interrupt a call *)
  os_signals : world -> nat;
  (** the compiler's choice, for the call of printf in log_access: which of the
      three calls of sanitize_log_string is evaluated last (0, 1 or 2) *)
  os_last_arg : nat;
  (** the path that configure found for gunzip *)
  os_gunzip : bytes;
  (** fopen (path, r), and all that reading the stream delivers *)
  os_text : bytes -> world -> option bytes * world;
  (** what an uninitialized local array holds *)
  os_stack : world -> Z -> Z;
  os_getuid : world -> Z;
  os_getgid : world -> Z;
  (** getpwnam (name)->pw_uid and getgrnam (name)->gr_gid *)
  os_pwnam_uid : bytes -> world -> option Z * world;
  os_grnam_gid : bytes -> world -> option Z * world;
  os_gethostname : world -> option bytes * world;
  (** gethostbyname (name)->h_name *)
  os_gethostbyname : bytes -> world -> option bytes * world;
  os_getenv : bytes -> world -> option bytes;
  (** getrlimit (RLIMIT_NOFILE): the soft limit *)
  os_rlimit_nofile : world -> option Z;
  (** waitpid (-1, &status, WNOHANG), and how many children there are *)
  os_waitpid : world -> Z * world;
  os_children : world -> nat;
  (** the calls above; -1 is a failure.  Getpwuid -1 for a
      user that is not in the password file, Initgroups sets the groups of the entry
      of a user *)
  os_boot : boot_call -> world -> Z * world
}.

(** * Global state *)

(** [struct _hash_struct_] of hash.c and [struct alias] of alias.c; a bucket
    is a list. *)
Record hash_struct := mkHash { key : bytes; value : bytes }.
Record alias := mkAlias {
  fakename : bytes; realname : bytes; atype : ALIAS_TYPE;
  fake_len : Z; real_len : Z
}.
(** Where the string of a pointer variable is. *)
Inductive storage := Null | Literal | Malloced.

#[export] Instance storage_eq : EqDecision storage.
Proof. solve_decision. Defined.

(** [struct access_node] of access.c. *)
Record access_node := mkAccess { pattern : bytes; acc_type : access_type }.

(** The global variables of the server. *)
Record server := mkServer {
  ka_timeout : Z; (* config.c *)
  ka_max : Z; (* unsigned *)
  server_name : bytes;
  server_port : Z; (* unsigned *)
  document_root : option bytes;
  user_dir : option bytes;
  directory_index : option bytes;
  default_type : bytes;
  default_charset : option bytes;
  dirmaker : option bytes;
  cachedir : option bytes;
  vhost_root : option bytes;
  default_vhost : bytes;
  virtualhost : bool;
  single_post_limit : Z;
  conceal_server_identity : bool;
  access_log_name : option bytes;
  tempdir : bytes;
  max_connections : Z; (* unsigned *)
  cgi_strip_prefix : bool;
  cgi_strip_tokens : list bytes;
  common_cgi_env : list (option bytes); (* with its NULL *)
  common_cgi_env_count : Z; (* short *)
  server_root : option bytes;
  server_admin : option bytes;
  cgi_path : option bytes;
  cgi_ld_library_path : option bytes;
  needs_escape_tab : list Z; (* _needs_escape of escape.c *)
  mime_hashtable : list (list hash_struct);
  passwd_hashtable : list (list hash_struct);
  alias_hashtable : list (list alias);
  script_pathname : bytes; (* the static buffer of init_script_alias *)
  nodes : list access_node; (* access.c *)
  range_pool : list Range;
  mmap_list : list mmap_entry;
  mmap_list_entries_used : Z;
  mmap_list_total_requests : Z;
  mmap_list_hash_bounces : Z;
  current_time : Z;
  sigterm_flag : Z;
  pending_requests : bool;
  total_connections : Z; (* unsigned *)
  system_bufsize : Z; (* unsigned *)
  status_requests : Z;
  status_errors : Z;
  access_log : list bytes; (* lines written to the access log *)
  heap : gmap positive request; (* the malloc'ed request structures *)
  fresh : positive; (* next address malloc returns *)
  request_ready : option positive;
  request_block : option positive;
  request_free : option positive;
  block_read_fdset : gset Z;
  block_write_fdset : gset Z;
  max_fd : Z;
  server_ip : option bytes;
  backlog : Z;
  server_uid : Z; (* unsigned *)
  server_gid : Z; (* unsigned *)
  current_uid : Z; (* unsigned *)
  use_localtime : bool;
  verbose_cgi_logs : bool;
  error_log_name : option bytes;
  cgi_log_name : option bytes;
  pid_file : option bytes;
  cgi_umask : Z; (* unsigned *)
  cgi_log_fd : Z;
  default_timeout : Z; (* unsigned *)
  config_file_name : option bytes;
  server_name_at : storage;
  default_type_at : storage;
  default_vhost_at : storage;
  sighup_flag : bool;
  sigchld_flag : bool;
  sigalrm_flag : bool;
  start_time : Z;
  do_fork : bool; (* boa.c *)
}.

Definition eta_server (r : server) : server :=
  mkServer r.(ka_timeout) r.(ka_max) r.(server_name) r.(server_port)
    r.(document_root) r.(user_dir) r.(directory_index) r.(default_type)
    r.(default_charset) r.(dirmaker) r.(cachedir) r.(vhost_root)
    r.(default_vhost) r.(virtualhost) r.(single_post_limit)
    r.(conceal_server_identity) r.(access_log_name) r.(tempdir)
    r.(max_connections) r.(cgi_strip_prefix) r.(cgi_strip_tokens)
    r.(common_cgi_env) r.(common_cgi_env_count) r.(server_root)
    r.(server_admin) r.(cgi_path) r.(cgi_ld_library_path)
    r.(needs_escape_tab) r.(mime_hashtable) r.(passwd_hashtable)
    r.(alias_hashtable) r.(script_pathname) r.(nodes) r.(range_pool)
    r.(mmap_list) r.(mmap_list_entries_used) r.(mmap_list_total_requests)
    r.(mmap_list_hash_bounces) r.(current_time) r.(sigterm_flag)
    r.(pending_requests) r.(total_connections) r.(system_bufsize)
    r.(status_requests) r.(status_errors) r.(access_log) r.(heap)
    r.(fresh) r.(request_ready) r.(request_block) r.(request_free)
    r.(block_read_fdset) r.(block_write_fdset) r.(max_fd) r.(server_ip)
    r.(backlog) r.(server_uid) r.(server_gid) r.(current_uid)
    r.(use_localtime) r.(verbose_cgi_logs) r.(error_log_name)
    r.(cgi_log_name) r.(pid_file) r.(cgi_umask) r.(cgi_log_fd)
    r.(default_timeout) r.(config_file_name) r.(server_name_at)
    r.(default_type_at) r.(default_vhost_at) r.(sighup_flag)
    r.(sigchld_flag) r.(sigalrm_flag) r.(start_time) r.(do_fork).

Definition set_ka_timeout (v : Z) (r : server) : server :=
  ltac:(setter (eta_server r) (r.(ka_timeout)) v).
Definition set_ka_max (v : Z) (r : server) : server :=
  ltac:(setter (eta_server r) (r.(ka_max)) v).
Definition set_server_name (v : bytes) (r : server) : server :=
  ltac:(setter (eta_server r) (r.(server_name)) v).
Definition set_server_port (v : Z) (r : server) : server :=
  ltac:(setter (eta_server r) (r.(server_port)) v).
Definition set_document_root (v : option bytes) (r : server) : server :=
  ltac:(setter (eta_server r) (r.(document_root)) v).
Definition set_user_dir (v : option bytes) (r : server) : server :=
  ltac:(setter (eta_server r) (r.(user_dir)) v).
Definition set_directory_index (v : option bytes) (r : server) : server :=
  ltac:(setter (eta_server r) (r.(directory_index)) v).
Definition set_default_type (v : bytes) (r : server) : server :=
  ltac:(setter (eta_server r) (r.(default_type)) v).
Definition set_default_charset (v : option bytes) (r : server) : server :=
  ltac:(setter (eta_server r) (r.(default_charset)) v).
Definition set_dirmaker (v : option bytes) (r : server) : server :=
  ltac:(setter (eta_server r) (r.(dirmaker)) v).
Definition set_cachedir (v : option bytes) (r : server) : server :=
  ltac:(setter (eta_server r) (r.(cachedir)) v).
Definition set_vhost_root (v : option bytes) (r : server) : server :=
  ltac:(setter (eta_server r) (r.(vhost_root)) v).
Definition set_default_vhost (v : bytes) (r : server) : server :=
  ltac:(setter (eta_server r) (r.(default_vhost)) v).
Definition set_virtualhost (v : bool) (r : server) : server :=
  ltac:(setter (eta_server r) (r.(virtualhost)) v).
Definition set_single_post_limit (v : Z) (r : server) : server :=
  ltac:(setter (eta_server r) (r.(single_post_limit)) v).
Definition set_conceal_server_identity (v : bool) (r : server) : server :=
  ltac:(setter (eta_server r) (r.(conceal_server_identity)) v).
Definition set_access_log_name (v : option bytes) (r : server) : server :=
  ltac:(setter (eta_server r) (r.(access_log_name)) v).
Definition set_tempdir (v : bytes) (r : server) : server :=
  ltac:(setter (eta_server r) (r.(tempdir)) v).
Definition set_max_connections (v : Z) (r : server) : server :=
  ltac:(setter (eta_server r) (r.(max_connections)) v).
Definition set_cgi_strip_prefix (v : bool) (r : server) : server :=
  ltac:(setter (eta_server r) (r.(cgi_strip_prefix)) v).
Definition set_cgi_strip_tokens (v : list bytes) (r : server) : server :=
  ltac:(setter (eta_server r) (r.(cgi_strip_tokens)) v).
Definition set_common_cgi_env (v : list (option bytes)) (r : server) : server :=
  ltac:(setter (eta_server r) (r.(common_cgi_env)) v).
Definition set_common_cgi_env_count (v : Z) (r : server) : server :=
  ltac:(setter (eta_server r) (r.(common_cgi_env_count)) v).
Definition set_server_root (v : option bytes) (r : server) : server :=
  ltac:(setter (eta_server r) (r.(server_root)) v).
Definition set_server_admin (v : option bytes) (r : server) : server :=
  ltac:(setter (eta_server r) (r.(server_admin)) v).
Definition set_cgi_path (v : option bytes) (r : server) : server :=
  ltac:(setter (eta_server r) (r.(cgi_path)) v).
Definition set_cgi_ld_library_path (v : option bytes) (r : server) : server :=
  ltac:(setter (eta_server r) (r.(cgi_ld_library_path)) v).
Definition set_needs_escape_tab (v : list Z) (r : server) : server :=
  ltac:(setter (eta_server r) (r.(needs_escape_tab)) v).
Definition set_mime_hashtable (v : list (list hash_struct)) (r : server) : server :=
  ltac:(setter (eta_server r) (r.(mime_hashtable)) v).
Definition set_passwd_hashtable (v : list (list hash_struct)) (r : server) : server :=
  ltac:(setter (eta_server r) (r.(passwd_hashtable)) v).
Definition set_alias_hashtable (v : list (list alias)) (r : server) : server :=
  ltac:(setter (eta_server r) (r.(alias_hashtable)) v).
Definition set_script_pathname (v : bytes) (r : server) : server :=
  ltac:(setter (eta_server r) (r.(script_pathname)) v).
Definition set_nodes (v : list access_node) (r : server) : server :=
  ltac:(setter (eta_server r) (r.(nodes)) v).
Definition set_range_pool (v : list Range) (r : server) : server :=
  ltac:(setter (eta_server r) (r.(range_pool)) v).
Definition set_mmap_list (v : list mmap_entry) (r : server) : server :=
  ltac:(setter (eta_server r) (r.(mmap_list)) v).
Definition set_mmap_list_entries_used (v : Z) (r : server) : server :=
  ltac:(setter (eta_server r) (r.(mmap_list_entries_used)) v).
Definition set_mmap_list_total_requests (v : Z) (r : server) : server :=
  ltac:(setter (eta_server r) (r.(mmap_list_total_requests)) v).
Definition set_mmap_list_hash_bounces (v : Z) (r : server) : server :=
  ltac:(setter (eta_server r) (r.(mmap_list_hash_bounces)) v).
Definition set_current_time (v : Z) (r : server) : server :=
  ltac:(setter (eta_server r) (r.(current_time)) v).
Definition set_sigterm_flag (v : Z) (r : server) : server :=
  ltac:(setter (eta_server r) (r.(sigterm_flag)) v).
Definition set_pending_requests (v : bool) (r : server) : server :=
  ltac:(setter (eta_server r) (r.(pending_requests)) v).
Definition set_total_connections (v : Z) (r : server) : server :=
  ltac:(setter (eta_server r) (r.(total_connections)) v).
Definition set_system_bufsize (v : Z) (r : server) : server :=
  ltac:(setter (eta_server r) (r.(system_bufsize)) v).
Definition set_status_requests (v : Z) (r : server) : server :=
  ltac:(setter (eta_server r) (r.(status_requests)) v).
Definition set_status_errors (v : Z) (r : server) : server :=
  ltac:(setter (eta_server r) (r.(status_errors)) v).
Definition set_access_log (v : list bytes) (r : server) : server :=
  ltac:(setter (eta_server r) (r.(access_log)) v).
Definition set_heap (v : gmap positive request) (r : server) : server :=
  ltac:(setter (eta_server r) (r.(heap)) v).
Definition set_fresh (v : positive) (r : server) : server :=
  ltac:(setter (eta_server r) (r.(fresh)) v).
Definition set_request_ready (v : option positive) (r : server) : server :=
  ltac:(setter (eta_server r) (r.(request_ready)) v).
Definition set_request_block (v : option positive) (r : server) : server :=
  ltac:(setter (eta_server r) (r.(request_block)) v).
Definition set_request_free (v : option positive) (r : server) : server :=
  ltac:(setter (eta_server r) (r.(request_free)) v).
Definition set_block_read_fdset (v : gset Z) (r : server) : server :=
  ltac:(setter (eta_server r) (r.(block_read_fdset)) v).
Definition set_block_write_fdset (v : gset Z) (r : server) : server :=
  ltac:(setter (eta_server r) (r.(block_write_fdset)) v).
Definition set_max_fd (v : Z) (r : server) : server :=
  ltac:(setter (eta_server r) (r.(max_fd)) v).
Definition set_server_ip (v : option bytes) (r : server) : server :=
  ltac:(setter (eta_server r) (r.(server_ip)) v).
Definition set_backlog (v : Z) (r : server) : server :=
  ltac:(setter (eta_server r) (r.(backlog)) v).
Definition set_server_uid (v : Z) (r : server) : server :=
  ltac:(setter (eta_server r) (r.(server_uid)) v).
Definition set_server_gid (v : Z) (r : server) : server :=
  ltac:(setter (eta_server r) (r.(server_gid)) v).
Definition set_current_uid (v : Z) (r : server) : server :=
  ltac:(setter (eta_server r) (r.(current_uid)) v).
Definition set_use_localtime (v : bool) (r : server) : server :=
  ltac:(setter (eta_server r) (r.(use_localtime)) v).
Definition set_verbose_cgi_logs (v : bool) (r : server) : server :=
  ltac:(setter (eta_server r) (r.(verbose_cgi_logs)) v).
Definition set_error_log_name (v : option bytes) (r : server) : server :=
  ltac:(setter (eta_server r) (r.(error_log_name)) v).
Definition set_cgi_log_name (v : option bytes) (r : server) : server :=
  ltac:(setter (eta_server r) (r.(cgi_log_name)) v).
Definition set_pid_file (v : option bytes) (r : server) : server :=
  ltac:(setter (eta_server r) (r.(pid_file)) v).
Definition set_cgi_umask (v : Z) (r : server) : server :=
  ltac:(setter (eta_server r) (r.(cgi_umask)) v).
Definition set_cgi_log_fd (v : Z) (r : server) : server :=
  ltac:(setter (eta_server r) (r.(cgi_log_fd)) v).
Definition set_default_timeout (v : Z) (r : server) : server :=
  ltac:(setter (eta_server r) (r.(default_timeout)) v).
Definition set_config_file_name (v : option bytes) (r : server) : server :=
  ltac:(setter (eta_server r) (r.(config_file_name)) v).
Definition set_server_name_at (v : storage) (r : server) : server :=
  ltac:(setter (eta_server r) (r.(server_name_at)) v).
Definition set_default_type_at (v : storage) (r : server) : server :=
  ltac:(setter (eta_server r) (r.(default_type_at)) v).
Definition set_default_vhost_at (v : storage) (r : server) : server :=
  ltac:(setter (eta_server r) (r.(default_vhost_at)) v).
Definition set_sighup_flag (v : bool) (r : server) : server :=
  ltac:(setter (eta_server r) (r.(sighup_flag)) v).
Definition set_sigchld_flag (v : bool) (r : server) : server :=
  ltac:(setter (eta_server r) (r.(sigchld_flag)) v).
Definition set_sigalrm_flag (v : bool) (r : server) : server :=
  ltac:(setter (eta_server r) (r.(sigalrm_flag)) v).
Definition set_start_time (v : Z) (r : server) : server :=
  ltac:(setter (eta_server r) (r.(start_time)) v).
Definition set_do_fork (v : bool) (r : server) : server :=
  ltac:(setter (eta_server r) (r.(do_fork)) v).

(** * The monad *)

Section machine.
Context {os : OS}.

(** The request being worked on, the globals, and the world. *)
Record St := mkSt { rq : request; sv : server; wd : world }.

Inductive out (A : Type) :=
  | Ret (a : A) (s : St)
  | Exit (s : St)
  | Undef.
#[global] Arguments Ret {A} a s.
#[global] Arguments Exit {A} s.
#[global] Arguments Undef {A}.

Definition M (A : Type) : Type := St -> out A.

#[global] Instance M_ret : MRet M := fun A a s => Ret a s.
#[global] Instance M_bind : MBind M := fun A B k m s =>
  match m s with
  | Ret a s' => k a s'
  | Exit s' => Exit s'
  | Undef => Undef
  end.

(** The current request, the globals. *)
Definition req : M request := fun s => Ret (rq s) s.
Definition upd (f : request -> request) : M unit :=
  fun s => Ret tt (mkSt (f (rq s)) (sv s) (wd s)).
Definition srv : M server := fun s => Ret (sv s) s.
Definition upd_srv (f : server -> server) : M unit :=
  fun s => Ret tt (mkSt (rq s) (f (sv s)) (wd s)).
(** A system call. *)
Definition call {A} (f : world -> A * world) : M A :=
  fun s => let '(a, w) := f (wd s) in Ret a (mkSt (rq s) (sv s) w).
Definition call_ (f : world -> world) : M unit :=
  fun s => Ret tt (mkSt (rq s) (sv s) (f (wd s))).
(** What can be read off the world without changing it. *)
Definition ask {A} (f : world -> A) : M A := fun s => Ret (f (wd s)) s.
(** The DIE macro: exit (EXIT_FAILURE). *)
Definition die {A} : M A := fun s => Exit s.
(** An access outside an object. *)
Definition undef {A} : M A := fun _ => Undef.
Definition checked {A} (o : option A) : M A :=
  match o with Some a => mret a | None => undef end.

(** * Weakest preconditions *)

Definition wp {A} (m : M A) (Q : A -> St -> Prop) (s : St) : Prop :=
  match m s with
  | Ret a s' => Q a s'
  | Exit _ => False
  | Undef => False
  end.

Lemma wp_ret {A} (a : A) (Q : A -> St -> Prop) s : Q a s -> wp (mret a) Q s.
Proof. done. Qed.

Lemma wp_bind {A B} (m : M A) (k : A -> M B) (Q : B -> St -> Prop) s :
  wp m (fun a s' => wp (k a) Q s') s -> wp (m ≫= k) Q s.
Proof. unfold wp, mbind, M_bind. by destruct (m s). Qed.

Lemma wp_bind_inv {A B} (m : M A) (k : A -> M B) (Q : B -> St -> Prop) s :
  wp (m ≫= k) Q s -> wp m (fun a s' => wp (k a) Q s') s.
Proof. unfold wp, mbind, M_bind. by destruct (m s). Qed.

Lemma wp_mono {A} (m : M A) (Q Q' : A -> St -> Prop) s :
  wp m Q s -> (forall a s', Q a s' -> Q' a s') -> wp m Q' s.
Proof. unfold wp. destruct (m s); eauto. Qed.

Lemma wp_and {A} (m : M A) (Q Q' : A -> St -> Prop) s :
  wp m Q s -> wp m Q' s -> wp m (fun a s' => Q a s' /\ Q' a s') s.
Proof. unfold wp. destruct (m s); eauto. Qed.

Lemma wp_req (Q : request -> St -> Prop) s : Q (rq s) s -> wp req Q s.
Proof. done. Qed.

Lemma wp_upd f (Q : unit -> St -> Prop) s :
  Q tt (mkSt (f (rq s)) (sv s) (wd s)) -> wp (upd f) Q s.
Proof. done. Qed.

Lemma wp_srv (Q : server -> St -> Prop) s : Q (sv s) s -> wp srv Q s.
Proof. done. Qed.

Lemma wp_upd_srv f (Q : unit -> St -> Prop) s :
  Q tt (mkSt (rq s) (f (sv s)) (wd s)) -> wp (upd_srv f) Q s.
Proof. done. Qed.

Lemma wp_call {A} (f : world -> A * world) (Q : A -> St -> Prop) s :
  (forall a w, f (wd s) = (a, w) -> Q a (mkSt (rq s) (sv s) w)) ->
  wp (call f) Q s.
Proof. unfold wp, call. destruct (f (wd s)). eauto. Qed.

Lemma wp_call_ f (Q : unit -> St -> Prop) s :
  Q tt (mkSt (rq s) (sv s) (f (wd s))) -> wp (call_ f) Q s.
Proof. done. Qed.

Lemma wp_ask {A} (f : world -> A) (Q : A -> St -> Prop) s :
  Q (f (wd s)) s -> wp (ask f) Q s.
Proof. done. Qed.

Lemma wp_checked {A} (o : option A) a (Q : A -> St -> Prop) s :
  o = Some a -> Q a s -> wp (checked o) Q s.
Proof. by intros ->. Qed.

(** [wp] is a statement about what evaluation gives. *)
Lemma wp_elim {A} (m : M A) Q s :
  wp m Q s -> exists a s', m s = Ret a s' /\ Q a s'.
Proof. unfold wp. destruct (m s); naive_solver. Qed.
End machine.

Arguments St {os}.
Arguments M {os} A.

(** * Symbolic execution

    One step on a goal [wp m Q s]; [wps] runs to the next system call,
    branch or call of a function. *)
Ltac wp_simpl := cbn [rq sv wd].
Ltac wp_step :=
  lazymatch goal with
  | |- wp (mbind _ _) _ _ => apply wp_bind
  | |- wp (mret _) _ _ => apply wp_ret
  | |- wp req _ _ => apply wp_req
  | |- wp (upd _) _ _ => apply wp_upd
  | |- wp srv _ _ => apply wp_srv
  | |- wp (upd_srv _) _ _ => apply wp_upd_srv
  | |- wp (call_ _) _ _ => apply wp_call_
  | |- wp (ask _) _ _ => apply wp_ask
  | |- wp (let _ := _ in _) _ _ => cbv zeta
  end; wp_simpl.
Ltac wps := wp_simpl; repeat wp_step.
(** Case analysis on the test the program makes next. *)
Ltac wp_case :=
  lazymatch goal with
  | |- wp (match ?x with _ => _ end) _ _ => destruct x eqn:?
  end; wps.

(** * Assumptions on the system calls, from their manual pages *)

Class OSLaws (os : OS) := {
  (** write returns at most what it was given *)
  write_bound : forall fd l w n w',
    os_write fd l w = (SOk n, w') -> 0 <= n <= zlen l;
  (** read returns at most what was asked for *)
  read_bound : forall fd n w l w',
    0 <= n -> os_read fd n w = (SOk l, w') -> zlen l <= n;
  read_bytes : forall fd n w l w',
    os_read fd n w = (SOk l, w') -> forallb byte_ok l = true;
  (** what has been sent on a descriptor so far: write appends the bytes it
      accepted, and a failing write sends nothing *)
  sent : Z -> world -> bytes;
  sent_write : forall fd l w n w',
    os_write fd l w = (SOk n, w') -> sent fd w' = sent fd w ++ ztake n l;
  sent_write_err : forall fd l w e w',
    os_write fd l w = (SErr e, w') -> sent fd w' = sent fd w;
  (** touching memory sends nothing *)
  sigbus_sent : forall fd w b w', os_sigbus w = (b, w') -> sent fd w' = sent fd w;
  (** the contents of an open file: sendfile sends the bytes at the offset,
      which it advances *)
  file_data : Z -> world -> bytes;
  sendfile_ok : forall fd i ofs n w m ofs' w',
    0 <= ofs -> 0 <= n -> os_sendfile fd i ofs n w = (SOk m, ofs', w') ->
    0 <= m <= n /\ ofs' = ofs + m /\ zlen (slice (file_data i w) ofs m) = m /\
    sent fd w' = sent fd w ++ slice (file_data i w) ofs m;
  sendfile_err : forall fd i ofs n w e ofs' w',
    os_sendfile fd i ofs n w = (SErr e, ofs', w') ->
    ofs' = ofs /\ sent fd w' = sent fd w;
  (** the descriptor of a connection: a socket or a pipe, and no regular file.  It stays
      one under the calls that send; and what is written to it is in no file *)
  is_conn : Z -> world -> Prop;
  conn_write : forall c fd l w res w',
    os_write fd l w = (res, w') -> is_conn c w -> is_conn c w';
  conn_sendfile : forall c fd i ofs n w res ofs' w',
    os_sendfile fd i ofs n w = (res, ofs', w') -> is_conn c w -> is_conn c w';
  conn_sigbus : forall c w b w', os_sigbus w = (b, w') -> is_conn c w -> is_conn c w';
  sendfile_data : forall fd i ofs n w res ofs' w',
    is_conn fd w -> os_sendfile fd i ofs n w = (res, ofs', w') ->
    file_data i w' = file_data i w;
  sigbus_data : forall w b w', os_sigbus w = (b, w') -> forall i, file_data i w' = file_data i w;
  write_data : forall fd i l w res w',
    is_conn fd w -> os_write fd l w = (res, w') -> file_data i w' = file_data i w;
  (** a mapping holds what the file does; memory and mappings are no output *)
  mmap_data : forall fd n w m w',
    os_mmap fd n w = (SOk m, w') -> m = ztake n (file_data fd w);
  mmap_quiet : forall fd i d n w m w',
    os_mmap i n w = (m, w') -> sent fd w' = sent fd w /\ file_data d w' = file_data d w;
  madvise_quiet : forall fd d m n w b w',
    os_madvise m n w = (b, w') -> sent fd w' = sent fd w /\ file_data d w' = file_data d w;
  munmap_quiet : forall fd d m n w,
    sent fd (os_munmap m n w) = sent fd w /\ file_data d (os_munmap m n w) = file_data d w;
  malloc_quiet : forall fd d n w b w',
    os_malloc n w = (b, w') -> sent fd w' = sent fd w /\ file_data d w' = file_data d w;
  close_sent : forall fd d w, sent fd (os_close d w) = sent fd w;
  (** a call is only interrupted by a signal *)
  sendfile_signal : forall fd i ofs n w ofs' w',
    os_sendfile fd i ofs n w = (SErr EINTR, ofs', w') -> (os_signals w' < os_signals w)%nat;
  (** a child is only reaped once *)
  waitpid_child : forall w p w',
    os_waitpid w = (p, w') -> 0 < p -> (os_children w' < os_children w)%nat;
  (** setuid and setgid of a process of root change this id and no other; the
      remaining calls of drop_privs change neither *)
  setuid_root : forall u w r w',
    os_getuid w = 0 -> os_boot (Setuid u) w = (r, w') -> r <> -1 ->
    os_getuid w' = u /\ os_getgid w' = os_getgid w;
  setgid_root : forall g w r w',
    os_getuid w = 0 -> os_boot (Setgid g) w = (r, w') -> r <> -1 ->
    os_getgid w' = g /\ os_getuid w' = os_getuid w;
  setuid_fails : forall u w w',
    os_boot (Setuid u) w = (-1, w') -> os_getuid w' = os_getuid w /\ os_getgid w' = os_getgid w;
  groups_ids : forall c u w r w',
    c = Getpwuid u \/ c = Initgroups u -> os_boot c w = (r, w') ->
    os_getuid w' = os_getuid w /\ os_getgid w' = os_getgid w
}.
