(* ===== verification/Escape.v ===== *)
(** escape.h, escape.c and the loops of [escape_string] (buffer.c): the table
    of characters that go unescaped into a URL, and percent-encoding. *)

From S2P Require Import Prelude Types.

(** * The bit table *)

Definition NEEDS_ESCAPE_BITS : Z := 128.
Definition NEEDS_ESCAPE_SHIFT : Z := 5.
Definition NEEDS_ESCAPE_WORD_LENGTH : Z := Z.shiftl 1 NEEDS_ESCAPE_SHIFT.
Definition NEEDS_ESCAPE_INDEX (c : Z) : Z := Z.shiftr c NEEDS_ESCAPE_SHIFT.
(** [1 << n] is an [int]: for [n = 31] it is negative, and sign-extends in the
    operations with the [unsigned long] words of the table. *)
Definition NEEDS_ESCAPE_MASK (c : Z) : Z :=
  i32 (Z.shiftl 1 (Z.land c (NEEDS_ESCAPE_WORD_LENGTH - 1))).

Definition needs_escape (tab : list Z) (c : Z) : bool :=
  (NEEDS_ESCAPE_BITS <=? c) ||
  negb (Z.land (nth (Z.to_nat (NEEDS_ESCAPE_INDEX c)) tab 0)
               (u64 (NEEDS_ESCAPE_MASK c)) =? 0).

Definition special : bytes :=
  bs "ABCDEFGHIJKLMNOPQRSTUVWXYZ"
  ++ bs "abcdefghijklmnopqrstuvwxyz" ++ bs "0123456789"
  ++ bs "-_.!~*'():@&=+$,/?".

(** The loop that counts the bits of an [unsigned int]. *)
Fixpoint count_bits (fuel : nat) (a b : Z) : Z :=
  match fuel with
  | O => a
  | S fuel' => if b =? 0 then a else count_bits fuel' (a + 1) (u32 (Z.shiftl b 1))
  end.

Definition clear_escape_bit (tab : list Z) (j : Z) : list Z :=
  if NEEDS_ESCAPE_BITS <=? j then tab
  else let i := Z.to_nat (NEEDS_ESCAPE_INDEX j) in
       <[i := Z.land (nth i tab 0) (u64 (Z.lnot (NEEDS_ESCAPE_MASK j)))]> tab.

(** The table, or [None] when the program exits on a bad configuration. *)
Definition build_needs_escape : option (list Z) :=
  let a := count_bits 64 0 1 in
  if a <? NEEDS_ESCAPE_WORD_LENGTH then None
  else
    let words := (NEEDS_ESCAPE_BITS + NEEDS_ESCAPE_WORD_LENGTH - 1)
                 / NEEDS_ESCAPE_WORD_LENGTH in
    Some (fold_left clear_escape_bit special
            (replicate (Z.to_nat words) ULONG_MAX)).

(** [INT_TO_HEX] of defines.h. *)
Definition INT_TO_HEX (x : Z) : Z := if 9 <? x then (97 - 10) + x else 48 + x.

(** * Percent-encoding *)

(** The three characters written for [c]. *)
Definition percent (c : Z) : bytes :=
  [37; INT_TO_HEX (Z.land (Z.shiftr c 4) 15); INT_TO_HEX (Z.land c 15)].

Definition escape_char (tab : list Z) (c : Z) : bytes :=
  if needs_escape tab c then percent c else [c].

(** The loop of [escape_string]; its buffer always has room. *)
Definition escape_bytes (tab : list Z) (s : bytes) : bytes :=
  flat_map (escape_char tab) s.

(** * Properties *)

(** The characters that RFC 2396 lets through, '?' included. *)
Definition noescape (c : Z) : bool := bool_decide (c ∈ special).

Definition all_bytes : list Z := seqZ 0 256.

Lemma all_bytes_spec c : byte_ok c = true -> c ∈ all_bytes.
Proof.
  unfold byte_ok. intros H. bprop. apply elem_of_seqZ. lia.
Qed.

(** A property of bytes is decided by evaluating it on all of them. *)
Lemma all_bytes_forallb (P : Z -> bool) :
  forallb P all_bytes = true -> forall c, byte_ok c = true -> P c = true.
Proof.
  intros H c Hc. rewrite forallb_forall in H. apply H.
  apply list_elem_of_In. by apply all_bytes_spec.
Qed.

(** A table is good when it lets exactly the characters [noescape] through;
    the clients of the table rely on this alone. *)
Definition escape_table_ok (tab : list Z) : Prop :=
  forall c, byte_ok c = true -> needs_escape tab c = negb (noescape c).

Lemma build_needs_escape_ok :
  exists tab, build_needs_escape = Some tab /\ escape_table_ok tab.
Proof.
  eexists. split; [vm_compute; reflexivity|].
  intros c Hc. apply eqb_prop. revert c Hc. apply all_bytes_forallb.
  vm_compute. reflexivity.
Qed.

(** Printable and not a blank. *)
Definition isgraph (c : Z) : bool := (33 <=? c) && (c <=? 126).

Lemma isgraph_range c : isgraph c = true <-> 33 <= c <= 126.
Proof. unfold isgraph. rewrite andb_true_iff, !Z.leb_le. done. Qed.

Lemma noescape_isgraph c : byte_ok c = true -> noescape c = true -> isgraph c = true.
Proof.
  intros Hc Hn.
  assert (E : implb (noescape c) (isgraph c) = true).
  { revert c Hc Hn. intros c Hc _. revert c Hc. apply all_bytes_forallb.
    vm_compute. reflexivity. }
  by rewrite Hn in E.
Qed.

Lemma percent_isgraph c :
  byte_ok c = true -> forallb isgraph (percent c) = true.
Proof.
  revert c. apply all_bytes_forallb. vm_compute. reflexivity.
Qed.

(** The value [escape_char] has for a good table. *)
Lemma escape_char_ok tab c :
  escape_table_ok tab -> byte_ok c = true ->
  escape_char tab c = if noescape c then [c] else percent c.
Proof.
  intros Ht Hc. unfold escape_char. rewrite Ht by done. by destruct (noescape c).
Qed.

Lemma escape_char_isgraph tab c :
  escape_table_ok tab -> byte_ok c = true ->
  forallb isgraph (escape_char tab c) = true.
Proof.
  intros Ht Hc. rewrite escape_char_ok by done.
  destruct (noescape c) eqn:E; [|by apply percent_isgraph].
  simpl. by rewrite (noescape_isgraph c).
Qed.

Lemma forallb_byte_ok_cons c s :
  forallb byte_ok (c :: s) = true -> byte_ok c = true /\ forallb byte_ok s = true.
Proof. simpl. apply andb_prop. Qed.

Lemma escape_bytes_isgraph tab s :
  escape_table_ok tab -> forallb byte_ok s = true ->
  forallb isgraph (escape_bytes tab s) = true.
Proof.
  intros Ht. induction s as [|c s IH]; [done|].
  intros [Hc Hs]%forallb_byte_ok_cons. simpl.
  rewrite forallb_app, escape_char_isgraph, IH by done. done.
Qed.

(** The buffer of [3 * strlen (inp) + 1] bytes is large enough. *)
Lemma escape_char_length tab c : zlen (escape_char tab c) <= 3.
Proof. unfold escape_char. by destruct (needs_escape tab c). Qed.

Lemma escape_bytes_length tab s : zlen (escape_bytes tab s) <= 3 * zlen s.
Proof.
  induction s as [|c s IH]; [done|].
  unfold escape_bytes in *. simpl. rewrite zlen_app, zlen_cons.
  pose proof (escape_char_length tab c). lia.
Qed.
