(* ===== verification/ScriptOS.v ===== *)
(** A concrete operating system on which the model runs: a table of files,
    scripted results of [write] and [read], and a record of what was sent.  It
    satisfies [OSLaws], so the theorems that assume the laws apply to it, and
    it evaluates, so a run of the server on a concrete input is a
    computation. *)

From S2P Require Import Prelude Types Machine Escape.

(** One file: its path, its attributes and its contents. *)
Record file := mkFile { f_path : bytes; f_stat : stat; f_data : bytes }.

Record script := mkScript {
  files : list file;
  open_fds : list (Z * file); (* open descriptors *)
  next_fd : Z;
  writes : list (sys Z); (* results of write; accept everything at the end *)
  input : list (Z * list bytes); (* what read delivers, per descriptor *)
  outputs : list (Z * bytes); (* what was written, newest last *)
  clock : Z;
  homes : list (bytes * bytes); (* the password file *)
  accepts : list (Z * sockaddr); (* connections that wait *)
  children : list Z; (* terminated children *)
  uid : Z; gid : Z (* of the server process *)
}.

Definition eta_script (r : script) : script :=
  mkScript r.(files) r.(open_fds) r.(next_fd) r.(writes) r.(input)
    r.(outputs) r.(clock) r.(homes) r.(accepts) r.(children) r.(uid) r.(gid).
Definition set_open_fds (v : list (Z * file)) (r : script) : script :=
  ltac:(setter (eta_script r) (r.(open_fds)) v).
Definition set_next_fd (v : Z) (r : script) : script :=
  ltac:(setter (eta_script r) (r.(next_fd)) v).
Definition set_writes (v : list (sys Z)) (r : script) : script :=
  ltac:(setter (eta_script r) (r.(writes)) v).
Definition set_input (v : list (Z * list bytes)) (r : script) : script :=
  ltac:(setter (eta_script r) (r.(input)) v).
Definition set_outputs (v : list (Z * bytes)) (r : script) : script :=
  ltac:(setter (eta_script r) (r.(outputs)) v).

Definition set_accepts (v : list (Z * sockaddr)) (r : script) : script :=
  ltac:(setter (eta_script r) (r.(accepts)) v).

Definition set_children (v : list Z) (r : script) : script :=
  ltac:(setter (eta_script r) (r.(children)) v).

Definition set_uid (v : Z) (r : script) : script :=
  ltac:(setter (eta_script r) (r.(uid)) v).
Definition set_gid (v : Z) (r : script) : script :=
  ltac:(setter (eta_script r) (r.(gid)) v).

Definition find_file (p : bytes) (w : script) : option file :=
  List.find (fun f => streq (f_path f) p) (files w).
Definition find_fd (fd : Z) (w : script) : option file :=
  snd <$> List.find (fun p => fst p =? fd) (open_fds w).

(** What has been written to [fd]. *)
Definition sent_on (fd : Z) (w : script) : bytes :=
  flat_map (fun p => if fst p =? fd then snd p else []) (outputs w).

Definition accept_bytes (fd : Z) (l : bytes) (n : Z) (w : script) : sys Z * script :=
  let n := Z.max 0 (Z.min n (zlen l)) in
  (SOk n, set_outputs (outputs w ++ [(fd, ztake n l)]) w).

Definition script_write (fd : Z) (l : bytes) (w : script) : sys Z * script :=
  match writes w with
  | [] => accept_bytes fd l (zlen l) w
  | SOk n :: ws => accept_bytes fd l n (set_writes ws w)
  | SErr e :: ws => (SErr e, set_writes ws w)
  end.

(** One chunk per call; an exhausted script is EAGAIN, an empty chunk is end
    of file, now and later. *)
Definition script_read (fd n : Z) (w : script) : sys bytes * script :=
  match List.find (fun p => fst p =? fd) (input w) with
  | Some (_, c :: cs) =>
      let others := List.filter (fun p => negb (fst p =? fd)) (input w) in
      match List.filter byte_ok c with
      | [] => (SOk [], w)
      | c =>
          (SOk (ztake n c),
           set_input ((fd, (match zdrop n c with [] => cs | r => r :: cs end)) :: others) w)
      end
  | _ => (SErr EAGAIN, w)
  end.

Definition script_sendfile (out infd ofs count : Z) (w : script) : sys Z * Z * script :=
  match find_fd infd w with
  | None => (SErr EOTHER, ofs, w)
  | Some f =>
      match script_write out (ztake count (zdrop ofs (f_data f))) w with
      | (SOk n, w') => (SOk n, ofs + n, w')
      | (SErr e, w') => (SErr e, ofs, w')
      end
  end.

Definition script_open (p : bytes) (w : script) : sys Z * script :=
  match find_file p w with
  | None => (SErr ENOENT, w)
  | Some f => (SOk (next_fd w), set_open_fds ((next_fd w, f) :: open_fds w)
                                  (set_next_fd (next_fd w + 1) w))
  end.

Definition no_stat : stat := mkStat S_OTHER 0 0 0 0.

#[export] Instance scriptOS : OS := {
  world := script;
  os_write := script_write;
  os_read := script_read;
  os_sendfile := script_sendfile;
  os_lseek := fun _ _ w => (true, w);
  os_open := script_open;
  os_close := fun fd w =>
    set_open_fds (List.filter (fun p => negb (fst p =? fd)) (open_fds w)) w;
  os_fstat := fun fd w =>
    (match find_fd fd w with Some f => f_stat f | None => no_stat end, w);
  os_stat := fun p w => (f_stat <$> find_file p w, w);
  os_access := fun p w => (bool_decide (is_Some (find_file p w)), w);
  os_malloc := fun _ w => (true, w);
  os_mmap := fun fd len w =>
    (match find_fd fd w with
     | Some f => SOk (ztake len (f_data f))
     | None => SErr EACCES
     end, w);
  os_madvise := fun _ _ w => (true, w);
  os_munmap := fun _ _ w => w;
  os_sigbus := fun w => (false, w);
  os_time := fun w => (clock w, w);
  os_pipe := fun w => (SOk (next_fd w, next_fd w + 1), set_next_fd (next_fd w + 2) w);
  os_nonblock := fun _ w => (true, w);
  os_cloexec := fun _ w => (true, w);
  os_fork := fun w => (SOk 4242, w);
  os_mkstemp := fun p w => (SOk (next_fd w, p), set_next_fd (next_fd w + 1) w);
  os_unlink := fun _ w => (true, w);
  os_accept := fun _ w =>
    match accepts w with
    | [] => (SErr EAGAIN, w)
    | c :: cs => (SOk c, set_accepts cs w)
    end;
  os_getsockname := fun _ w => (Some (mkSockaddr [10; 0; 0; 1] (0, 80)), w);
  os_sndbuf := fun _ w => (Some 16384, w);
  os_set_sndbuf := fun _ _ w => (true, w);
  os_getpwnam := fun name w =>
    (snd <$> List.find (fun p => streq (fst p) name) (homes w), w);
  os_fnmatch := fun pat s => streq pat s || streq pat (bs "*");
  os_localtime := fun _ _ => mkTm 0 0 0 1 0 124 1; (* a clock that stands still *)
  os_ctime := fun _ _ => bs "Mon Jan  1 00:00:00 2024" ++ LF;
  os_select := fun _ w => (SOk tt, w);
  os_selected_read := fun _ _ => true;
  os_selected_write := fun _ _ => true;
  os_chdir := fun _ w => (SOk tt, w);
  os_readdir := fun _ w => (Some (f_path <$> files w), w);
  os_create := fun _ _ w => (true, w);
  os_signals := fun w => length (writes w);
  os_last_arg := 0%nat;
  os_gunzip := bs "/usr/bin/gunzip";
  os_text := fun p w => (f_data <$> find_file p w, w);
  os_stack := fun _ i => if i =? 100 then 32 else 0;
  os_getuid := uid;
  os_getgid := gid;
  os_pwnam_uid := fun n w => (if streq n (bs "root") then Some 0 else None, w);
  os_grnam_gid := fun n w => (if streq n (bs "root") then Some 0 else None, w);
  os_gethostname := fun w => (Some (bs "host"), w);
  os_gethostbyname := fun n w => (Some (n ++ bs ".example"), w);
  os_getenv := fun _ _ => None;
  os_rlimit_nofile := fun _ => Some 1024;
  os_waitpid := fun w =>
    match children w with [] => (0, w) | _ :: l => (4242, set_children l w) end;
  os_children := fun w => length (children w);
  os_boot := fun c w =>
    match c with
    | Socket | Open_null => (next_fd w, set_next_fd (next_fd w + 1) w)
    | Open_append _ => (next_fd w, set_next_fd (next_fd w + 1) w)
    | Setuid u => if (uid w =? 0) || (u =? uid w) then (0, set_uid u w) else (-1, w)
    | Setgid g => if uid w =? 0 then (0, set_gid g w) else (-1, w)
    | _ => (0, w)
    end
}.

Lemma accept_bytes_spec fd l m w n w' :
  accept_bytes fd l m w = (SOk n, w') ->
  0 <= n <= zlen l /\ sent_on fd w' = sent_on fd w ++ ztake n l.
Proof.
  unfold accept_bytes, sent_on. pose proof (zlen_nonneg l).
  intros [= <- <-]. split; [lia|].
  simpl. rewrite flat_map_app. simpl. by rewrite Z.eqb_refl, app_nil_r.
Qed.

Lemma script_write_spec fd l w n w' :
  script_write fd l w = (SOk n, w') ->
  0 <= n <= zlen l /\ sent_on fd w' = sent_on fd w ++ ztake n l.
Proof.
  unfold script_write. destruct (writes w) as [|[m|e] ws]; [| |discriminate].
  - apply accept_bytes_spec.
  - apply (accept_bytes_spec fd l m (set_writes ws w)).
Qed.

(** The contents of an open file. *)
Definition data_of (fd : Z) (w : script) : bytes :=
  match find_fd fd w with Some f => f_data f | None => [] end.

(** Writing opens and closes nothing. *)
Lemma script_write_fds d l w r w' :
  script_write d l w = (r, w') -> forall c, find_fd c w' = find_fd c w.
Proof.
  unfold script_write, accept_bytes, find_fd.
  destruct (writes w) as [|[]]; by intros [= <- <-].
Qed.

#[export] Instance scriptOS_laws : OSLaws scriptOS.
Proof.
  refine (Build_OSLaws scriptOS _ _ _ sent_on _ _ _ data_of
            _ _ (fun d w => find_fd d w = None) _ _ _ _ _ _ _ _ _ _ _ _ _ _ _ _ _ _).
  - intros fd l w n w' H. by apply script_write_spec in H as [].
  - intros fd n w l w' Hn. simpl. unfold script_read.
    destruct (List.find _ _) as [[? []]|]; try discriminate.
    destruct (List.filter _ _); intros [= <- <-]; [done|]. rewrite zlen_ztake by done. lia.
  - intros fd n w l w'. simpl. unfold script_read.
    destruct (List.find _ _) as [[? [|c ?]]|]; try discriminate.
    pose proof (List.forallb_filter byte_ok c) as H. destruct (List.filter byte_ok c) as [|x c'];
      intros [= <- <-]; [done|].
    rewrite <- (ztake_zdrop n (x :: c')), forallb_app in H. by apply andb_true_iff in H as [? _].
  - intros fd l w n w' H. by apply script_write_spec in H as [].
  - intros fd l w e w'. simpl. unfold script_write, accept_bytes.
    destruct (writes w) as [|[]]; intros [=]; subst; done.
  - by intros fd w b w' [= <- <-].
  - intros fd i ofs n w m ofs' w' Ho Hn. simpl. unfold script_sendfile, data_of.
    destruct (find_fd i w) as [f|]; [|discriminate].
    destruct (script_write _ _ _) as [[k|] w1] eqn:E; [|discriminate].
    intros [= <- <- <-]. apply script_write_spec in E as [Hk Hs]. simpl.
    rewrite zlen_ztake in Hk by done. change (ztake n _) with (slice (f_data f) ofs n) in Hs.
    rewrite ztake_slice in Hs by lia. split_and!; try lia; [|done].
    unfold slice. rewrite zlen_ztake by lia. lia.
  - intros fd i ofs n w e ofs' w'. simpl. unfold script_sendfile.
    destruct (find_fd i w) as [f|]; [|intros [= <- <- <-]; done].
    unfold script_write, accept_bytes. destruct (writes w) as [|[]]; intros [=]; subst; done.
  - intros c fd l w res w' H. simpl in H. by rewrite (script_write_fds _ _ _ _ _ H).
  - intros c fd i ofs n w res ofs' w'. simpl. unfold script_sendfile.
    destruct (find_fd i w) as [f|]; [|by intros [= <- <- <-]].
    destruct (script_write _ _ _) as [r w1] eqn:E.
    destruct r; intros [= <- <- <-]; by rewrite (script_write_fds _ _ _ _ _ E).
  - by intros c w b w' [= <- <-].
  - intros fd i ofs n w res ofs' w' _. simpl. unfold script_sendfile, data_of.
    destruct (find_fd i w) as [f|] eqn:E; [|intros [= <- <- <-]; by rewrite E].
    unfold script_write, accept_bytes.
    destruct (writes w) as [|[]]; intros [= <- <- <-]; unfold find_fd in *; simpl; by rewrite E.
  - by intros w b w' [= <- <-].
  - intros fd i l w res w' _. simpl. unfold script_write, accept_bytes, data_of, find_fd.
    destruct (writes w) as [|[]]; by intros [= <- <-].
  - intros fd n w m w'. simpl. unfold data_of.
    destruct (find_fd fd w); [|done]. by intros [= <- <-].
  - by intros fd i d n w m w' [= <- <-].
  - by intros fd d m n w b w' [= <- <-].
  - done.
  - by intros fd d n w b w' [= <- <-].
  - done.
  - intros fd i ofs n w ofs' w'. simpl. unfold script_sendfile.
    destruct (find_fd i w) as [f|]; [|discriminate].
    unfold script_write, accept_bytes.
    destruct (writes w) as [|[]]; intros [=]; subst; simpl; lia.
  - intros w p w'. simpl. destruct (children w) as [|c l] eqn:E; intros [= <- <-]; simpl; lia.
  - intros u w r w' Hu. simpl in *. rewrite Hu. simpl. by intros [= <- <-] _.
  - intros g w r w' Hu. simpl in *. rewrite Hu. simpl. by intros [= <- <-] _.
  - intros u w w'. simpl. destruct (_ || _); [discriminate|]. by intros [= <-].
  - intros c u w r w' [->| ->]; simpl; by intros [= <- <-].
Defined.

(** An empty world, and a server with the configuration defaults. *)
Definition empty_world : script := mkScript [] [] 100 [] [] [] 0 [] [] [] 1000 1000.

Definition zeros (n : Z) : bytes := replicate (Z.to_nat n) 0.

Definition test_table : list Z := default [] build_needs_escape.

Definition test_server : server :=
  mkServer 10 10 (bs "localhost") 80 (Some (bs "/www")) None
    (Some (bs "index.html")) (bs "text/plain") None None None None (bs "") false
    (1024 * 1024) false (Some (bs "log")) (bs "/tmp") 1024 true
    [bs "/usr"] [None] 0 (Some (bs "/srv")) None None None test_table
    (replicate (Z.to_nat MIME_HASHTABLE_SIZE) [])
    (replicate (Z.to_nat PASSWD_HASHTABLE_SIZE) [])
    (replicate (Z.to_nat ALIAS_HASHTABLE_SIZE) [])
    (zeros (MAX_HEADER_LENGTH + 1)) [] []
    (replicate (Z.to_nat MMAP_LIST_SIZE) (mkMmap 0 0 [] 0 0)) 0 0 0
    1700000000 0 false 0 0 0 0 [] ∅ 1%positive None None None ∅ ∅ 0
    None 128 1000 1000 1000 false false None None None 23 0 10 None Malloced Malloced Literal
    false false false 1700000000 true.

(** A request as [calloc] would return it, on descriptor 7. *)
Definition test_request : request :=
  mkRequest READ_HEADER KA_INACTIVE HTTP_unset M_unset 0 CGI_none CGI_PARSE
    None [] 0 0 0 0 0 None Pnull Pnull Pnull 0 0 0 Pnull 0 0 Pnull
    Pnull Pnull Pnull None 0 None None None Pnull Pnull Pnull None
    7 1700000000 (bs "10.0.0.1") (bs "10.0.0.2") 4000 10 0
    (zeros (BUFFER_SIZE + 1)) (zeros (MAX_HEADER_LENGTH + 1))
    (zeros CLIENT_STREAM_SIZE)
    (replicate (Z.to_nat (CGI_ENV_MAX + 4)) None) None None.

Definition test_state : St := mkSt test_request test_server empty_world.
