(* ===== verification/Buffer.v ===== *)
(** buffer.c: the output buffer of a request.  [pending] is the abstract view,
    the bytes that are buffered and not yet sent: [req_write] and its escaping
    variants append to it, [req_flush] moves a prefix of it to the socket. *)

From S2P Require Import Prelude Types Machine Escape.

Section buffer.
Context {os : OS}.

(** [memcpy (req->buffer + i, l)]. *)
Definition buffer_write (i : Z) (l : bytes) : M unit :=
  r ← req;
  b ← checked (blit (buffer r) i l);
  upd (set_buffer b).

(** -1 for error, otherwise how much is stored. *)
Definition req_write (msg : bytes) : M Z :=
  r ← req;
  let msg_len := u32 (zlen msg) in
  if (msg_len =? 0) || (status_num DONE <? status_num (status r)) then
    mret (buffer_end r)
  else if BUFFER_SIZE <? u32 (buffer_end r + msg_len) then
    upd (set_status DEAD) ;;
    mret (-1)
  else
    buffer_write (buffer_end r) msg ;;
    upd (set_buffer_end (buffer_end r + msg_len)) ;;
    mret (buffer_end r + msg_len).

Definition reset_output_buffer : M unit := upd (set_buffer_end 0).

(** The copying loop of [req_write_escape_http]: what it writes and what is
    left of the input. *)
Fixpoint escape_http_loop (tab : list Z) (inp : bytes) (left : Z) : bytes * bytes :=
  match inp with
  | [] => ([], [])
  | c :: inp' =>
      if 3 <=? left then
        if needs_escape tab (u32 (schar c)) then
          let '(o, rest) := escape_http_loop tab inp' (left - 3) in
          (percent c ++ o, rest)
        else
          let '(o, rest) := escape_http_loop tab inp' (left - 1) in
          (c :: o, rest)
      else ([], inp)
  end.

Definition req_write_escape_http (msg : bytes) : M Z :=
  r ← req; g ← srv;
  let left := BUFFER_SIZE - buffer_end r in
  let '(o, rest) := escape_http_loop (needs_escape_tab g) msg left in
  buffer_write (buffer_end r) o ;;
  upd (set_buffer_end (buffer_end r + zlen o)) ;;
  match rest with
  | [] => mret (buffer_end r + zlen o)
  | _ => upd (set_status DEAD) ;; mret (-1)
  end.

(** The replacement of one character by [req_write_escape_html]. *)
Definition html_char (c : Z) : bytes :=
  if c =? 62 then bs "&gt;"
  else if c =? 60 then bs "&lt;"
  else if c =? 38 then bs "&amp;"
  else if c =? 34 then bs "&quot;"
  else [c].

Fixpoint escape_html_loop (inp : bytes) (left : Z) : bytes * bytes :=
  match inp with
  | [] => ([], [])
  | c :: inp' =>
      if 6 <=? left then
        let '(o, rest) := escape_html_loop inp' (left - zlen (html_char c)) in
        (html_char c ++ o, rest)
      else ([], inp)
  end.

Definition req_write_escape_html (msg : bytes) : M Z :=
  r ← req;
  let left := BUFFER_SIZE - buffer_end r in
  let '(o, rest) := escape_html_loop msg left in
  buffer_write (buffer_end r) o ;;
  upd (set_buffer_end (buffer_end r + zlen o)) ;;
  match rest with
  | [] => mret (buffer_end r + zlen o)
  | _ => upd (set_status DEAD) ;; mret (-1)
  end.

(** The bytes [a[i .. i+n)], which must lie in the array. *)
Definition load (a : bytes) (i n : Z) : M bytes :=
  if (0 <=? i) && (0 <=? n) && (i + n <=? zlen a) then mret (slice a i n)
  else undef.

(** The end of [req_flush]: an emptied buffer starts over at offset 0. *)
Definition req_flush_end : M Z :=
  r ← req;
  (if buffer_start r =? buffer_end r then
     upd (set_buffer_end 0) ;; upd (set_buffer_start 0)
   else mret tt) ;;
  r ← req; mret (buffer_end r).

(** -2 for error, -1 for blocked, otherwise how much is stored. *)
Definition req_flush : M Z :=
  r ← req;
  let bytes_to_write := u32 (buffer_end r - buffer_start r) in
  if status_num DONE <? status_num (status r) then mret (-2)
  else
    if bytes_to_write =? 0 then req_flush_end
    else
      l ← load (buffer r) (buffer_start r) bytes_to_write;
      res ← call (os_write (fd r) l);
      match res with
      | SErr EAGAIN => mret (-1)
      | SErr _ =>
          upd (set_buffer_end 0) ;; upd (set_buffer_start 0) ;;
          upd (set_status DEAD) ;; upd (set_buffer_end 0) ;;
          mret (-2)
      | SOk n => upd (set_buffer_start (buffer_start r + n)) ;; req_flush_end
      end.

(** [escape_string (inp, buf)]; [given] says whether [buf] is not NULL. *)
Definition escape_string (inp : bytes) (given : bool) : M (option bytes) :=
  g ← srv;
  let max := i32 (u32 (zlen inp) * 3) in
  have ← (if given then mret true
          else if max =? 0 then mret false
          else call (os_malloc (max + 1)));
  if (have : bool) then
    mret (Some (if 0 <? max then escape_bytes (needs_escape_tab g) inp else []))
  else mret None.
End buffer.

(** * The abstract view *)

(** The bytes waiting to be sent. *)
Definition pending (r : request) : bytes :=
  slice (buffer r) (buffer_start r) (buffer_end r - buffer_start r).

(** The buffer invariant. *)
Record buf_ok (r : request) : Prop := {
  buf_len : zlen (buffer r) = BUFFER_SIZE + 1;
  buf_lo : 0 <= buffer_start r;
  buf_order : buffer_start r <= buffer_end r;
  buf_hi : buffer_end r <= BUFFER_SIZE
}.

(** A buffer operation changes these fields only. *)
Definition forget_buffer (r : request) : request :=
  set_buffer [] (set_buffer_end 0 (set_buffer_start 0 (set_status DONE r))).

Definition same_but_buffer (r r' : request) : Prop :=
  forget_buffer r' = forget_buffer r.

#[export] Instance same_but_buffer_equiv : Equivalence same_but_buffer.
Proof.
  split; unfold same_but_buffer.
  - done.
  - by intros ? ? ->.
  - by intros ? ? ? -> ->.
Qed.

Lemma pending_nil r : buf_ok r -> (pending r = [] <-> buffer_start r = buffer_end r).
Proof.
  intros [Hl Hs Ho He]. split.
  - intros E. apply (f_equal zlen) in E. unfold pending in E.
    rewrite zlen_slice in E by (unfold BUFFER_SIZE in *; lia).
    change (zlen []) with 0 in E. lia.
  - intros E. unfold pending. apply slice_0. lia.
Qed.

Lemma zlen_pending r : buf_ok r -> zlen (pending r) = buffer_end r - buffer_start r.
Proof.
  intros [Hl Hs Ho He]. unfold pending. apply zlen_slice; unfold BUFFER_SIZE in *; lia.
Qed.

(** Writing behind the pending bytes appends to them. *)
Lemma pending_append r b msg :
  buf_ok r -> buffer_end r + zlen msg <= BUFFER_SIZE ->
  blit (buffer r) (buffer_end r) msg = Some b ->
  let r' := set_buffer_end (buffer_end r + zlen msg) (set_buffer b r) in
  buf_ok r' /\ pending r' = pending r ++ msg.
Proof.
  intros [Hl Hs Ho He] Hfit Hb. split.
  - pose proof (zlen_nonneg msg).
    split; simpl; try (by erewrite blit_zlen) || lia.
  - unfold pending; simpl.
    replace (buffer_end r + zlen msg - buffer_start r)
      with (buffer_end r - buffer_start r + zlen msg) by lia.
    by apply (slice_blit_app (buffer r)).
Qed.

Lemma blit_buffer_end r msg :
  buf_ok r -> buffer_end r + zlen msg <= BUFFER_SIZE ->
  exists b, blit (buffer r) (buffer_end r) msg = Some b.
Proof.
  intros [Hl Hs Ho He] ?. apply blit_is_Some. unfold BUFFER_SIZE in *. lia.
Qed.

Lemma buf_ok_status r v : buf_ok r -> buf_ok (set_status v r).
Proof. by intros []; split. Qed.

(** Equal output fields give equal [pending] and [buf_ok]. *)
Lemma same_output r r' :
  buffer r' = buffer r -> buffer_start r' = buffer_start r ->
  buffer_end r' = buffer_end r ->
  pending r' = pending r /\ (buf_ok r -> buf_ok r').
Proof.
  intros E1 E2 E3. unfold pending. rewrite E1, E2, E3. split; [done|].
  intros []. split; congruence.
Qed.

#[export] Hint Resolve buf_ok_status : boa.
#[export] Hint Extern 1 (same_but_buffer _ _) => reflexivity : boa.

Section buffer_proofs.
Context {os : OS}.
Implicit Types (s : St).

(** The outcome of an operation that wants to append [msg]: it is appended,
    or it does not fit and the request is marked dead. *)
Definition appended (r : request) (msg : bytes) (n : Z) (r' : request) : Prop :=
  same_but_buffer r r' /\ buf_ok r' /\
  buffer_start r' = buffer_start r /\
  ((n = buffer_end r' /\ status r' = status r /\ pending r' = pending r ++ msg)
   \/ (n = -1 /\ status r' = DEAD /\
       BUFFER_SIZE < buffer_end r + zlen msg /\
       exists k, pending r' = pending r ++ ztake k msg)).

Lemma wp_buffer_append msg s (Q : unit -> St -> Prop) :
  buf_ok (rq s) -> buffer_end (rq s) + zlen msg <= BUFFER_SIZE ->
  (forall b, blit (buffer (rq s)) (buffer_end (rq s)) msg = Some b ->
     Q tt (mkSt (set_buffer b (rq s)) (sv s) (wd s))) ->
  wp (buffer_write (buffer_end (rq s)) msg) Q s.
Proof.
  intros Hok Hfit HQ. destruct (blit_buffer_end (rq s) msg Hok Hfit) as [b Hb].
  unfold buffer_write. wps. eapply wp_checked; [done|]. wps. auto.
Qed.

Lemma req_write_wp msg s :
  buf_ok (rq s) -> zlen msg < 2 ^ 31 ->
  wp (req_write msg)
    (fun n s' => sv s' = sv s /\ wd s' = wd s /\
       appended (rq s)
         (if status_num DONE <? status_num (status (rq s)) then [] else msg)
         n (rq s')) s.
Proof.
  intros Hok Hlen. pose proof Hok as [Hl Hs Ho He].
  pose proof (zlen_nonneg msg). unfold req_write, appended. wps.
  assert (E1 : u32 (zlen msg) = zlen msg) by (apply Z.mod_small; lia).
  assert (E2 : u32 (buffer_end (rq s) + zlen msg) = buffer_end (rq s) + zlen msg)
    by (apply Z.mod_small; unfold BUFFER_SIZE in *; lia).
  rewrite E1, E2.
  destruct (status_num DONE <? status_num (status (rq s))) eqn:Ed.
  { rewrite orb_true_r. wps. split_and!; auto with boa.
    left. rewrite app_nil_r. done. }
  rewrite orb_false_r. destruct (Z.eqb_spec (zlen msg) 0) as [Hz|Hz]; wps.
  { apply zlen_0_nil in Hz as ->. split_and!; auto with boa.
    left. rewrite app_nil_r. done. }
  destruct (Z.ltb_spec BUFFER_SIZE (buffer_end (rq s) + zlen msg)); wps.
  - split_and!; auto with boa.
    right. split_and!; auto. exists 0. rewrite ztake_neg, app_nil_r by lia. done.
  - apply wp_buffer_append; [done|lia|]. intros b Hb. wps.
    destruct (pending_append (rq s) b msg) as [H1 H2]; [done|lia|done|].
    simpl. split_and!; auto with boa.
Qed.
End buffer_proofs.

(** * The copying loops *)

Lemma html_char_safe c x :
  In x (html_char c) -> negb ((x =? 60) || (x =? 62) || (x =? 34)) = true.
Proof.
  unfold html_char.
  destruct (Z.eqb_spec c 62), (Z.eqb_spec c 60), (Z.eqb_spec c 38), (Z.eqb_spec c 34);
    simpl; intros H; repeat destruct H as [<-|H]; try done.
  zcases.
Qed.

Lemma needs_escape_schar tab c :
  byte_ok c = true -> needs_escape tab (u32 (schar c)) = needs_escape tab c.
Proof.
  unfold byte_ok, schar. intros H. bprop.
  destruct (Z.ltb_spec c 128).
  - unfold u32. rewrite Z.mod_small by lia. done.
  - unfold needs_escape, NEEDS_ESCAPE_BITS.
    assert (128 <= u32 (c - 256)).
    { unfold u32. rewrite <- (Z.mod_add _ 1) by lia.
      rewrite Z.mod_small by lia. lia. }
    by rewrite !(proj2 (Z.leb_le 128 _)) by lia.
Qed.

(** What a copying loop with per-character translation [f] and guard band [g]
    does with an input that has room for [left] characters: it translates a
    prefix, and stops early only when less than [g] characters are left. *)
Definition loop_spec (f : Z -> bytes) (g : Z) (inp : bytes) (left : Z)
    (o rest : bytes) : Prop :=
  (exists pre, inp = pre ++ rest /\ o = flat_map f pre) /\
  zlen o <= Z.max 0 left /\ (rest <> [] -> left - zlen o < g).

Lemma loop_spec_stop f g inp left :
  (inp = [] \/ left < g) -> loop_spec f g inp left [] inp.
Proof.
  intros H. split_and!.
  - by exists [].
  - rewrite zlen_nil. lia.
  - rewrite zlen_nil. destruct H; [done|lia].
Qed.

Lemma loop_spec_step f g c inp left o rest :
  zlen (f c) <= g -> g <= left ->
  loop_spec f g inp (left - zlen (f c)) o rest ->
  loop_spec f g (c :: inp) left (f c ++ o) rest.
Proof.
  intros Hg Hl ([pre [-> ->]] & H1 & H2). split_and!.
  - exists (c :: pre). done.
  - rewrite zlen_app. lia.
  - rewrite zlen_app. intros H. specialize (H2 H). lia.
Qed.

Section loops.
Context {os : OS}.

Lemma escape_http_loop_spec tab inp left :
  forallb byte_ok inp = true ->
  let '(o, rest) := escape_http_loop tab inp left in
  loop_spec (escape_char tab) 3 inp left o rest.
Proof.
  revert left. induction inp as [|c inp IH]; intros left Hb.
  { apply loop_spec_stop. auto. }
  apply forallb_byte_ok_cons in Hb as [Hc Hb]. cbn [escape_http_loop].
  destruct (Z.leb_spec 3 left); [|apply loop_spec_stop; auto].
  rewrite needs_escape_schar by done.
  assert (Hstep : forall o rest,
    loop_spec (escape_char tab) 3 inp (left - zlen (escape_char tab c)) o rest ->
    loop_spec (escape_char tab) 3 (c :: inp) left (escape_char tab c ++ o) rest).
  { intros. apply loop_spec_step; [apply escape_char_length|lia|done]. }
  unfold escape_char at 2 4 in Hstep.
  destruct (needs_escape tab c).
  - specialize (IH (left - 3) Hb).
    destruct (escape_http_loop tab inp (left - 3)) as [o rest]. by apply Hstep.
  - specialize (IH (left - 1) Hb).
    destruct (escape_http_loop tab inp (left - 1)) as [o rest]. by apply Hstep.
Qed.

Lemma html_char_length c : 1 <= zlen (html_char c) <= 6.
Proof.
  unfold html_char.
  repeat match goal with |- context [if ?b then _ else _] => destruct b end;
    vm_compute; split; discriminate.
Qed.

Lemma escape_html_loop_spec inp left :
  let '(o, rest) := escape_html_loop inp left in
  loop_spec html_char 6 inp left o rest.
Proof.
  revert left. induction inp as [|c inp IH]; intros left.
  { apply loop_spec_stop. auto. }
  simpl. destruct (Z.leb_spec 6 left); [|apply loop_spec_stop; auto].
  specialize (IH (left - zlen (html_char c))).
  destruct (escape_html_loop inp (left - zlen (html_char c))) as [o rest].
  apply loop_spec_step; [apply html_char_length|lia|done].
Qed.

(** The common part of the two escaping writers. *)
Definition escaped (f : Z -> bytes) (g : Z) (r : request) (msg : bytes)
    (n : Z) (r' : request) : Prop :=
  same_but_buffer r r' /\ buf_ok r' /\ buffer_start r' = buffer_start r /\
  exists pre rest, msg = pre ++ rest /\
    pending r' = pending r ++ flat_map f pre /\
    ((rest = [] /\ n = buffer_end r' /\ status r' = status r) \/
     (rest <> [] /\ n = -1 /\ status r' = DEAD /\
      BUFFER_SIZE - buffer_end r' < g)).

Lemma wp_escape_tail f g msg o rest s :
  buf_ok (rq s) ->
  loop_spec f g msg (BUFFER_SIZE - buffer_end (rq s)) o rest ->
  wp (buffer_write (buffer_end (rq s)) o ;;
      upd (set_buffer_end (buffer_end (rq s) + zlen o)) ;;
      match rest with
      | [] => mret (buffer_end (rq s) + zlen o)
      | _ => upd (set_status DEAD) ;; mret (-1)
      end)
    (fun n s' => sv s' = sv s /\ wd s' = wd s /\
       escaped f g (rq s) msg n (rq s')) s.
Proof.
  intros Hok ((pre & -> & ->) & Hlen & Hrest).
  pose proof Hok as [Hl Hs Ho He]. wps.
  apply wp_buffer_append; [done|lia|]. intros b Hb.
  destruct (pending_append (rq s) b (flat_map f pre)) as [H1 H2];
    [done|lia|done|].
  destruct rest as [|x rest]; wps; simpl; unfold escaped;
    split_and!; auto with boa.
  - exists pre, []. split_and!; auto.
  - exists pre, (x :: rest). split_and!; auto.
    right. split_and!; auto. simpl.
    assert (x :: rest <> []) as Hne by done. specialize (Hrest Hne). lia.
Qed.

Lemma req_write_escape_http_wp msg s :
  buf_ok (rq s) -> forallb byte_ok msg = true ->
  wp (req_write_escape_http msg)
    (fun n s' => sv s' = sv s /\ wd s' = wd s /\
       escaped (escape_char (needs_escape_tab (sv s))) 3 (rq s) msg n (rq s')) s.
Proof.
  intros Hok Hb. unfold req_write_escape_http. wps.
  pose proof (escape_http_loop_spec (needs_escape_tab (sv s)) msg
                (BUFFER_SIZE - buffer_end (rq s)) Hb) as Hloop.
  destruct (escape_http_loop _ _ _) as [o rest].
  by apply wp_escape_tail.
Qed.

Lemma req_write_escape_html_wp msg s :
  buf_ok (rq s) ->
  wp (req_write_escape_html msg)
    (fun n s' => sv s' = sv s /\ wd s' = wd s /\
       escaped html_char 6 (rq s) msg n (rq s')) s.
Proof.
  intros Hok. unfold req_write_escape_html. wps.
  pose proof (escape_html_loop_spec msg (BUFFER_SIZE - buffer_end (rq s))) as Hloop.
  destruct (escape_html_loop _ _) as [o rest].
  by apply wp_escape_tail.
Qed.
End loops.

(** * Flushing *)

Section flush.
Context {os : OS} {laws : OSLaws os}.

Lemma load_wp a i n (Q : bytes -> St -> Prop) s :
  0 <= i -> 0 <= n -> i + n <= zlen a -> Q (slice a i n) s -> wp (load a i n) Q s.
Proof.
  intros. unfold load.
  rewrite (proj2 (Z.leb_le 0 i)), (proj2 (Z.leb_le 0 n)),
    (proj2 (Z.leb_le (i + n) (zlen a))) by lia.
  done.
Qed.

(** The outcome of a flush: nothing is lost or duplicated between the socket
    and the buffer, unless the connection is given up. *)
Definition flushed (s : St) (n : Z) (s' : St) : Prop :=
  let r := rq s in let r' := rq s' in
  sv s' = sv s /\ same_but_buffer r r' /\ buf_ok r' /\
  ((n = -2 /\ ((status_num DONE < status_num (status r) /\ r' = r) \/
               (pending r' = [] /\ status r' = DEAD)) /\
    sent (fd r) (wd s') = sent (fd r) (wd s)) \/
   (n = -1 /\ r' = r /\ sent (fd r) (wd s') = sent (fd r) (wd s)) \/
   (n = buffer_end r' /\ status r' = status r /\ status_num (status r) <= 10 /\
    sent (fd r) (wd s') ++ pending r' = sent (fd r) (wd s) ++ pending r)).

Lemma wp_flush_finish s (Q : Z -> St -> Prop) :
  buf_ok (rq s) ->
  (forall r', buf_ok r' -> same_but_buffer (rq s) r' -> status r' = status (rq s) ->
     pending r' = pending (rq s) ->
     Q (buffer_end r') (mkSt r' (sv s) (wd s))) ->
  wp req_flush_end Q s.
Proof.
  intros Hok HQ. pose proof Hok as [Hl Hs Ho He]. unfold req_flush_end. wps.
  destruct (Z.eqb_spec (buffer_start (rq s)) (buffer_end (rq s))); wps.
  - apply HQ; auto with boa.
    + split; simpl; unfold BUFFER_SIZE; lia || done.
    + unfold pending; simpl. rewrite !slice_0 by lia. done.
  - destruct s as [r g w]. by apply HQ.
Qed.

Lemma req_flush_wp s : buf_ok (rq s) -> wp req_flush (flushed s) s.
Proof.
  intros Hok. pose proof Hok as [Hl Hs Ho He]. unfold req_flush. wps.
  assert (Eu : u32 (buffer_end (rq s) - buffer_start (rq s))
               = buffer_end (rq s) - buffer_start (rq s))
    by (apply Z.mod_small; unfold BUFFER_SIZE in *; lia).
  rewrite Eu. destruct (Z.ltb_spec (status_num DONE) (status_num (status (rq s))));
    wps; [unfold flushed; split_and!; auto 10 with boa|].
  destruct (Z.eqb_spec (buffer_end (rq s) - buffer_start (rq s)) 0) as [E0|E0].
  { apply wp_flush_finish; [done|]. intros r' H1 H2 H3 H4.
    unfold flushed; simpl; split_and!; auto. right; right. rewrite H4. auto. }
  wps. apply load_wp; [lia|lia|unfold BUFFER_SIZE in *; lia|]. wps.
  apply wp_call. intros res w Hres.
  destruct res as [n|e].
  - wps. pose proof (write_bound _ _ _ _ _ Hres) as Hn.
    rewrite zlen_slice in Hn by (unfold BUFFER_SIZE in *; lia).
    apply wp_flush_finish; simpl.
    { split; simpl; lia || done. }
    intros r' H1 H2 H3 H4. unfold flushed; simpl; split_and!; auto.
    right; right. split_and!; auto.
    rewrite H4, (sent_write _ _ _ _ _ Hres), <- app_assoc. f_equal.
    unfold pending; simpl.
    rewrite ztake_slice by lia.
    replace (buffer_end (rq s) - (buffer_start (rq s) + n))
      with (buffer_end (rq s) - buffer_start (rq s) - n) by lia.
    rewrite <- slice_app by lia. f_equal. lia.
  - pose proof (sent_write_err _ _ _ _ _ Hres) as Hs'.
    destruct e; wps; unfold flushed; simpl; split_and!; auto with boa;
      first
        [ right; left; done
        | left; split_and!; auto
        | split; simpl; unfold BUFFER_SIZE; lia || done ].
Qed.

(** The same, for a request that is not already dead or timed out. *)
Lemma req_flush_live s :
  buf_ok (rq s) -> status_num (status (rq s)) <= status_num DONE ->
  wp req_flush
    (fun n s' =>
       sv s' = sv s /\ same_but_buffer (rq s) (rq s') /\ buf_ok (rq s') /\
       ((n = -2 /\ status (rq s') = DEAD /\ pending (rq s') = [] /\
         sent (fd (rq s)) (wd s') = sent (fd (rq s)) (wd s)) \/
        (n = -1 /\ rq s' = rq s /\
         sent (fd (rq s)) (wd s') = sent (fd (rq s)) (wd s)) \/
        (n = buffer_end (rq s') /\ status (rq s') = status (rq s) /\
         0 <= n /\
         sent (fd (rq s)) (wd s') ++ pending (rq s')
         = sent (fd (rq s)) (wd s) ++ pending (rq s)))) s.
Proof.
  intros Hok Hst. eapply wp_mono; [by apply req_flush_wp|].
  intros n s' (? & ? & Hb & H). split_and!; auto.
  destruct H as [(-> & [[? _]|[]] & ?)|[?|(-> & ? & ? & ?)]]; [lia|auto|auto|].
  right; right. split_and!; auto. destruct Hb; lia.
Qed.
End flush.
