(* ===== verification/BufferProps.v ===== *)
(** The guarantees of buffer.c, as its callers use them. *)

From S2P Require Import Prelude Types Machine Escape ScriptOS Buffer.

Section props.
Context {os : OS} {laws : OSLaws os}.

(** C14: [req_write] never writes outside the buffer; it appends the
    whole message to the bytes waiting to be sent, or, when it does not fit,
    returns -1, marks the request dead and leaves the waiting bytes alone;
    nothing but the buffer, its end and the status changes. *)
Theorem req_write_appends msg s :
  buf_ok (rq s) -> zlen msg < 2 ^ 31 ->
  status_num (status (rq s)) <= status_num DONE ->
  wp (req_write msg)
    (fun n s' =>
       buf_ok (rq s') /\ same_but_buffer (rq s) (rq s') /\
       sv s' = sv s /\ wd s' = wd s /\
       if buffer_end (rq s) + zlen msg <=? BUFFER_SIZE
       then n = buffer_end (rq s') /\ status (rq s') = status (rq s) /\
            pending (rq s') = pending (rq s) ++ msg
       else n = -1 /\ status (rq s') = DEAD /\
            exists k, pending (rq s') = pending (rq s) ++ ztake k msg) s.
Proof.
  intros Hok Hl Hst. eapply wp_mono; [by apply req_write_wp|].
  intros n s' (? & ? & ? & Hb & Hbs & H).
  destruct (Z.ltb_spec (status_num DONE) (status_num (status (rq s)))); [lia|].
  split_and!; auto.
  destruct H as [(? & ? & Hp)|(? & ? & ? & ?)];
    destruct (Z.leb_spec (buffer_end (rq s) + zlen msg) BUFFER_SIZE); auto; [|lia].
  exfalso. apply (f_equal zlen) in Hp.
  rewrite zlen_app, !zlen_pending, Hbs in Hp by done. destruct Hb. lia.
Qed.

(** C15: [req_flush] keeps the byte stream: what is on the socket followed by
    what still waits in the buffer is what it was before; a blocked write
    changes nothing; on any other error the request is dead. *)
Theorem req_flush_conserves s :
  buf_ok (rq s) -> status_num (status (rq s)) <= status_num DONE ->
  wp req_flush
    (fun n s' =>
       buf_ok (rq s') /\ same_but_buffer (rq s) (rq s') /\
       (if n =? -2 then
          status (rq s') = DEAD /\ pending (rq s') = [] /\
          sent (fd (rq s)) (wd s') = sent (fd (rq s)) (wd s)
        else
          status (rq s') = status (rq s) /\
          sent (fd (rq s)) (wd s') ++ pending (rq s')
          = sent (fd (rq s)) (wd s) ++ pending (rq s)) /\
       (n = 0 -> pending (rq s') = [])) s.
Proof.
  intros Hok Hst. eapply wp_mono; [by apply req_flush_live|].
  intros n s' (? & ? & Hb & H). split_and!; auto.
  - destruct H as [(-> & ? & ? & ?)|[(-> & -> & ->)|(-> & ? & ? & ?)]]; [done|done|].
    destruct Hb. destruct (Z.eqb_spec (buffer_end (rq s')) (-2)); [lia|done].
  - destruct Hb. intros ->. destruct H as [(? & _)|[(? & _)|(? & _)]]; [done|done|].
    apply slice_0. lia.
Qed.

(** [req_write_escape_html] puts no '<', '>' or double quote of its
    argument into the page: what it appends is free of them, and when it
    reports success it is the whole message with these characters and '&'
    replaced by entities. *)
Theorem req_write_escape_html_safe msg s :
  buf_ok (rq s) ->
  wp (req_write_escape_html msg)
    (fun n s' => buf_ok (rq s') /\ sv s' = sv s /\ wd s' = wd s /\
       exists o, pending (rq s') = pending (rq s) ++ o /\
         forallb (fun c => negb ((c =? 60) || (c =? 62) || (c =? 34))) o = true /\
         (if n =? -1 then status (rq s') = DEAD else o = flat_map html_char msg)) s.
Proof.
  intros Hok. eapply wp_mono; [by apply req_write_escape_html_wp|].
  intros n s' (? & ? & ? & Hb & ? & pre & rest & -> & Hp & H).
  split_and!; auto. eexists. split_and!; [done| |].
  - apply forallb_forall. intros x (c & _ & Hx)%in_flat_map. by eapply html_char_safe.
  - destruct H as [(-> & -> & ?)|(? & -> & ? & ?)]; [|done].
    destruct Hb as []. destruct (Z.eqb_spec (buffer_end (rq s')) (-1)); [lia|].
    by rewrite app_nil_r.
Qed.
End props.

Lemma req_write_appends_witness :
  wp (req_write (bs "hello"))
    (fun n s' =>
       buf_ok (rq s') /\ same_but_buffer test_request (rq s') /\
       sv s' = test_server /\ wd s' = empty_world /\
       if buffer_end test_request + zlen (bs "hello") <=? BUFFER_SIZE
       then n = buffer_end (rq s') /\ status (rq s') = status test_request /\
            pending (rq s') = pending test_request ++ bs "hello"
       else n = -1 /\ status (rq s') = DEAD /\
            exists k, pending (rq s') = pending test_request ++ ztake k (bs "hello"))
    test_state.
Proof.
  apply (req_write_appends (bs "hello") test_state);
    [split; vm_compute; congruence|reflexivity|vm_compute; congruence].
Defined.

(** Three bytes wait, the socket accepts one of them. *)
Definition flush_state : St :=
  mkSt (set_buffer_end 3 (set_buffer (bs "abc" ++ zeros 4094) test_request)) test_server
    (set_writes [SOk 1] empty_world).

Lemma req_flush_conserves_witness :
  exists n s', req_flush flush_state = Ret n s' /\
    sent_on 7 (wd s') ++ pending (rq s') = bs "abc".
Proof.
  destruct (wp_elim _ _ _ (req_flush_conserves flush_state
    ltac:(split; vm_compute; congruence) ltac:(vm_compute; congruence)))
    as (n & s' & E & _ & _ & H & _).
  exists n, s'. split; [exact E|].
  destruct (Z.eqb_spec n (-2)) as [->|]; [|by destruct H as [_ H]].
  exfalso. vm_compute in E. congruence.
Defined.

Lemma req_write_escape_html_safe_witness :
  exists n s', req_write_escape_html (bs "<a&b>") test_state = Ret n s' /\
    pending (rq s') = bs "&lt;a&amp;b&gt;".
Proof.
  destruct (wp_elim _ _ _ (req_write_escape_html_safe (bs "<a&b>") test_state
    ltac:(split; vm_compute; congruence))) as (n & s' & E & _ & _ & _ & o & H1 & _ & H2).
  exists n, s'. split; [exact E|].
  destruct (Z.eqb_spec n (-1)) as [->|].
  - exfalso. vm_compute in E. congruence.
  - rewrite H1, H2. vm_compute. reflexivity.
Defined.
