(* ===== verification/Util.v ===== *)
(** util.c: path cleaning, URI decoding, number conversion, host names and log
    sanitizing.  The in-place functions are modelled twice where the aliasing
    matters: on the array they rewrite, as the code does, and on strings. *)

From S2P Require Import Prelude Types Machine Escape.

(** * clean_pathname *)

(** The code's own loops: [pathname] and [cleanpath] are the offsets of the
    read and the write pointer into one array.  [None] is an access outside
    the array; the fuel bounds the number of reads. *)
Section in_place.
(** The inner [while (1)]: where the read pointer stops. *)
Fixpoint skip_mem (fuel : nat) (a : bytes) (p : Z) : option Z :=
  match fuel with
  | O => None
  | S fuel' =>
      c ← zget a p;
      if c =? 47 then skip_mem fuel' a (p + 1)
      else if c =? 46 then
        d ← zget a (p + 1);
        if d =? 47 then skip_mem fuel' a (p + 2)
        else if d =? 46 then
          e ← zget a (p + 2);
          if e =? 47 then skip_mem fuel' a (p + 3) else Some p
        else Some p
      else Some p
  end.

Fixpoint clean_mem (fuel : nat) (a : bytes) (p cleanp : Z) : option bytes :=
  match fuel with
  | O => None
  | S fuel' =>
      c ← zget a p;
      if c =? 0 then blit a cleanp [0]
      else
        p' ← (if c =? 47 then skip_mem fuel' a (p + 1) else Some (p + 1));
        a' ← blit a cleanp [c];
        clean_mem fuel' a' p' (cleanp + 1)
  end.

Definition clean_pathname_mem (a : bytes) : option bytes :=
  clean_mem (S (length a)) a 0 0.
End in_place.

(** On strings: what follows a slash loses its leading "/", "./", "../". *)
Fixpoint skip_dots (l : bytes) : bytes :=
  match l with
  | [] => []
  | c :: l1 =>
      if c =? 47 then skip_dots l1
      else if c =? 46 then
        match l1 with
        | [] => l
        | d :: l2 =>
            if d =? 47 then skip_dots l2
            else if d =? 46 then
              match l2 with
              | [] => l
              | e :: l3 => if e =? 47 then skip_dots l3 else l
              end
            else l
        end
      else l
  end.

Fixpoint clean_loop (fuel : nat) (l : bytes) : bytes :=
  match fuel, l with
  | S fuel', c :: l' =>
      c :: clean_loop fuel' (if c =? 47 then skip_dots l' else l')
  | _, _ => []
  end.

Definition clean_pathname (s : bytes) : bytes := clean_loop (length s) s.

(** * to_upper, strlower *)

Definition to_upper (s : bytes) : bytes :=
  (fun c => if c =? 45 then 95 else toupper c) <$> s.

Definition strlower (s : bytes) : bytes := tolower <$> s.

(** * unescape_uri *)

(** [HEX_TO_DECIMAL] of defines.h on two [char]s. *)
Definition HEX_TO_DECIMAL (c1 c2 : Z) : Z :=
  (if 65 <=? c1 then Z.land c1 223 - 65 + 10 else c1 - 48) * 16 +
  (if 65 <=? c2 then Z.land c2 223 - 65 + 10 else c2 - 48).

(** The search for '?' after a fragment. *)
Definition query_after_fragment (l : bytes) (pos : Z) : option Z :=
  (fun i => pos + i + 1) <$> strchr l 63.

(** [unescape_uri]: the decoded string, success, and the offset of the query
    string; [pos] is the read offset. *)
Fixpoint unescape_loop (l : bytes) (pos : Z) : bytes * bool * option Z :=
  match l with
  | [] => ([], true, None)
  | c :: l1 =>
      if c =? 37 then
        match l1 with
        | c1 :: c2 :: l2 =>
            let v := u8 (HEX_TO_DECIMAL (schar c1) (schar c2)) in
            if (schar v <? 32) || (126 <? schar v) then ([], false, None)
            else
              let '(o, ok, q) := unescape_loop l2 (pos + 3) in (v :: o, ok, q)
        | _ => ([], false, None)
        end
      else if c =? 63 then ([], true, Some (pos + 1))
      else if c =? 35 then ([], true, query_after_fragment l1 (pos + 1))
      else let '(o, ok, q) := unescape_loop l1 (pos + 1) in (c :: o, ok, q)
  end.

Definition unescape_uri (uri : bytes) : bytes * bool * option Z :=
  unescape_loop uri 0.

(** * simple_itoa, boa_atoi *)

(** The digits are produced from the right; 32-bit numbers have at most 10. *)
Fixpoint itoa_loop (fuel : nat) (i : Z) (acc : bytes) : bytes :=
  match fuel with
  | O => acc
  | S fuel' =>
      let acc' := (48 + i mod 10) :: acc in
      if i / 10 =? 0 then acc' else itoa_loop fuel' (i / 10) acc'
  end.

Definition simple_itoa (i : Z) : bytes := itoa_loop 21 (u32 i) [].

(** [atoi] of the C library, [(int) strtol (s, NULL, 10)]: blanks, a sign, and
    digits; the [long] saturates. *)
Fixpoint digits_value (s : bytes) (acc : Z) : Z :=
  match s with
  | [] => acc
  | c :: s' => if isdigit c then digits_value s' (acc * 10 + (c - 48)) else acc
  end.

Fixpoint skip_spaces (s : bytes) : bytes :=
  match s with
  | [] => []
  | c :: s' => if isspace c then skip_spaces s' else s
  end.

Definition long_clamp (z : Z) : Z := Z.max (- 2 ^ 63) (Z.min (2 ^ 63 - 1) z).

Definition atoi (s : bytes) : Z :=
  i32 (long_clamp
    match skip_spaces s with
    | [] => 0
    | c :: s' =>
        if c =? 45 then - digits_value s' 0
        else if c =? 43 then digits_value s' 0
        else digits_value (c :: s') 0
    end).

(** -1 is the error value.  [memcmp (s, reconv, strlen (s))] stops at the NUL
    of [reconv] at the latest. *)
Definition boa_atoi (s : bytes) : Z :=
  match s with
  | [] => -1
  | c :: _ =>
      if negb (isdigit c) then -1
      else
        let retval := atoi s in
        if retval <? 0 then -1
        else
          let reconv := simple_itoa (u32 retval) in
          if is_prefix s (reconv ++ [0]) then retval else -1
  end.

(** * check_host *)

(** The loop over the characters after the first; the result is [len] and the
    last character. *)
Fixpoint check_host_loop (l : bytes) (period_ok : bool) (len last : Z) : option (Z * Z) :=
  match l with
  | [] => Some (len, last)
  | c :: l' =>
      if isalnum c || (c =? 45) then check_host_loop l' true (len + 1) c
      else if (c =? 46) && period_ok then check_host_loop l' false (len + 1) c
      else None
  end.

Definition check_host (r : bytes) : Z :=
  match r with
  | [] => -1
  | c :: l =>
      if negb (isalnum c) then -1
      else if 63 <? zlen r then -1
      else
        match check_host_loop l false 1 c with
        | None => -1
        | Some (len, last) => if isalnum last then len else -1
        end
  end.

(** * sanitize_log_string *)

Fixpoint sanitize_loop (l : bytes) (len : Z) : bytes :=
  match l with
  | [] => []
  | c :: l' =>
      if len <? LOG_SANITIZE_BUF_SIZE - 4 then
        (if ((c <=? 31) && negb (c =? 9)) || (c =? 127) then 63 else c)
        :: sanitize_loop l' (len + 1)
      else [46; 46; 46]
  end.

Definition sanitize_log_string (str : option bytes) : bytes :=
  match str with
  | None => bs "(null)"
  | Some s => sanitize_loop s 0
  end.

(** * real_set_block_fd, real_set_nonblock_fd *)

(** O_NONBLOCK of Linux. *)
Definition NOBLOCK : Z := 2048.

Section fcntl.
(** fcntl (fd, F_GETFL) and fcntl (fd, F_SETFL, flags). *)
Context {W : Type} (getfl : Z -> W -> Z * W) (setfl : Z -> Z -> W -> Z * W).

Definition change_flags (f : Z -> Z) (fd : Z) (w : W) : Z * W :=
  let '(flags, w) := getfl fd w in
  if flags =? -1 then (-1, w) else setfl fd (f flags) w.

Definition real_set_block_fd : Z -> W -> Z * W := change_flags (fun flags => Z.ldiff flags NOBLOCK).
Definition real_set_nonblock_fd : Z -> W -> Z * W := change_flags (fun flags => Z.lor flags NOBLOCK).
End fcntl.

(** * parse_debug *)

Definition debug_level_table : list Z := (fun i => Z.shiftl 1 i) <$> seqZ 0 14.

(** The new [debug_level]; [None] is exit (EXIT_FAILURE). *)
Definition parse_debug (foo : bytes) (debug_level : Z) : option Z :=
  i ← (match foo with
       | 45 :: foo' =>
           let i := boa_atoi foo' in if i =? -1 then None else Some (- i)
       | _ =>
           let i := boa_atoi foo in if i =? -1 then None else Some i
       end);
  Some (fold_left (fun level p =>
          if 0 <? i then
            if Z.land i p =? 0 then level else Z.lor level p
          else
            if Z.land (- i) p =? 0 then level else Z.land level (Z.lnot p))
        debug_level_table debug_level).

(** * create_temporary_file *)

Section tempfile.
Context {os : OS}.

(** [storage] is the size of the caller's buffer, or [None] for NULL; the
    result is the descriptor (0 is failure) and what [storage] receives. *)
Definition create_temporary_file (want_unlink : bool) (storage : option Z) :
    M (Z * option bytes) :=
  g ← srv;
  let template := ztake (MAX_PATH_LENGTH - 1) (tempdir g ++ bs "/boa-temp.XXXXXX") in
  res ← call (os_mkstemp template);
  match res with
  | SErr _ => mret (0, None)
  | SOk (fd, name) =>
      st ← (match storage with
            | None => mret (fd, want_unlink, None)
            | Some size =>
                if zlen name <? size then mret (fd, want_unlink, Some name)
                else call_ (os_close fd) ;; mret (0, true, None)
            end);
      let '(fd, want_unlink, stored) := (st : Z * bool * option bytes) in
      if want_unlink then
        ok ← call (os_unlink name);
        if (ok : bool) then mret (fd, stored)
        else call_ (os_close fd) ;; mret (0, stored)
      else mret (fd, stored)
  end.
End tempfile.
