(* ===== verification/UtilProofs.v ===== *)
(** Properties of the functions of util.c. *)

From S2P Require Import Prelude Types Machine Escape Util.

(** * clean_pathname *)

(** A string has no NUL. *)
Definition nonul (s : bytes) : bool := forallb (fun c => negb (c =? 0)) s.

Lemma nonul_cons c s : nonul (c :: s) = true <-> c <> 0 /\ nonul s = true.
Proof. unfold nonul. simpl. rewrite andb_true_iff, negb_true_iff, Z.eqb_neq. done. Qed.

(** A string without NUL in front of its NUL. *)
Lemma until_nul_nonul l x : nonul l = true -> until_nul (l ++ 0 :: x) = Some l.
Proof.
  induction l as [|c l IH]; [done|]. intros [Hc Hl]%nonul_cons. simpl.
  destruct (Z.eqb_spec c 0); [done|]. by rewrite (IH Hl).
Qed.

Lemma until_nul_split a p : until_nul a = Some p -> nonul p = true /\ exists r, a = p ++ 0 :: r.
Proof.
  revert p. induction a as [|c a IH]; intros p; simpl; [done|].
  destruct (Z.eqb_spec c 0) as [->|Hc]; [intros [= <-]; eauto|].
  destruct (until_nul a) as [q|]; [|done]. intros [= <-].
  destruct (IH q eq_refl) as (Hn & r & ->). split; [by apply nonul_cons|by exists r].
Qed.

Lemma is_prefix_cons x y p l :
  is_prefix (x :: p) (y :: l) = (x =? y) && is_prefix p l.
Proof. done. Qed.

(** The three things a slash must not be followed by. *)
Definition dot_start (l : bytes) : bool :=
  is_prefix [47] l || is_prefix [46; 47] l || is_prefix [46; 46; 47] l.

(** [skip_dots] drops such prefixes until there is none. *)
Lemma skip_dots_spec n l :
  (length l <= n)%nat ->
  exists pre, l = pre ++ skip_dots l /\ dot_start (skip_dots l) = false /\
    (dot_start l = false -> pre = []).
Proof.
  revert l. induction n as [|n IH]; intros [|c l1] Hn; simpl in Hn; try lia;
    try (by exists []).
  assert (Hstop : dot_start (c :: l1) = false ->
    exists pre, c :: l1 = pre ++ c :: l1 /\ dot_start (c :: l1) = false /\
      (dot_start (c :: l1) = false -> pre = [])) by (exists []; auto).
  assert (Hskip : forall p l', (length l' <= n)%nat -> c :: l1 = p ++ l' ->
    dot_start (c :: l1) = true ->
    exists pre, c :: l1 = pre ++ skip_dots l' /\ dot_start (skip_dots l') = false /\
      (dot_start (c :: l1) = false -> pre = [])).
  { intros p l' Hl' E Hd. destruct (IH l' Hl') as (pre & E' & Hf & _).
    exists (p ++ pre). rewrite <- app_assoc, <- E'. split_and!; auto. congruence. }
  simpl. destruct (Z.eqb_spec c 47) as [->|Hc].
  { apply (Hskip [47]); [lia|done|done]. }
  destruct (Z.eqb_spec c 46) as [->|Hc2].
  2:{ apply Hstop. unfold dot_start. simpl.
      destruct (Z.eqb_spec 47 c), (Z.eqb_spec 46 c); done || lia. }
  destruct l1 as [|d l2]; [by apply Hstop|]. simpl in Hn.
  destruct (Z.eqb_spec d 47) as [->|Hd].
  { apply (Hskip [46; 47]); [lia|done|done]. }
  destruct (Z.eqb_spec d 46) as [->|Hd2].
  2:{ apply Hstop. unfold dot_start. simpl.
      destruct (Z.eqb_spec 47 d), (Z.eqb_spec 46 d); done || lia. }
  destruct l2 as [|e l3]; [by apply Hstop|]. simpl in Hn.
  destruct (Z.eqb_spec e 47) as [->|He].
  { apply (Hskip [46; 46; 47]); [lia|done|done]. }
  apply Hstop. unfold dot_start. simpl.
  destruct (Z.eqb_spec 47 e); done || lia.
Qed.

Lemma skip_dots_suffix l : exists pre, l = pre ++ skip_dots l.
Proof. destruct (skip_dots_spec (length l) l) as (pre & ? & _); eauto. Qed.

Lemma skip_dots_length l : (length (skip_dots l) <= length l)%nat.
Proof.
  destruct (skip_dots_suffix l) as [pre E]. rewrite E at 2.
  rewrite length_app. lia.
Qed.

Lemma skip_dots_clean l : dot_start (skip_dots l) = false.
Proof. by destruct (skip_dots_spec (length l) l) as (pre & _ & ? & _). Qed.

Lemma skip_dots_id l : dot_start l = false -> skip_dots l = l.
Proof.
  intros H. destruct (skip_dots_spec (length l) l) as (pre & E & _ & Hp); [lia|].
  rewrite (Hp H) in E. done.
Qed.

Lemma skip_dots_nonul l : nonul l = true -> nonul (skip_dots l) = true.
Proof.
  intros H. destruct (skip_dots_suffix l) as [pre E]. rewrite E in H.
  unfold nonul in *. rewrite forallb_app in H. by apply andb_prop in H as [].
Qed.

(** The character after the copied one. *)
Definition clean_next (c : Z) (l : bytes) : bytes :=
  if c =? 47 then skip_dots l else l.

Lemma clean_next_length c l : (length (clean_next c l) <= length l)%nat.
Proof. unfold clean_next. destruct (c =? 47); [apply skip_dots_length|done]. Qed.

(** ** The output has no dot segments *)

(** Every slash of [l] is followed by a clean rest. *)
Definition dot_free (l : bytes) : Prop :=
  forall pre post, l = pre ++ 47 :: post -> dot_start post = false.

Lemma dot_start_clean_loop n l :
  (length l <= n)%nat -> dot_start (clean_loop n l) = dot_start l.
Proof.
  assert (Hhd : forall n l, (length l <= n)%nat -> head (clean_loop n l) = head l).
  { intros [|m] [|c l'] H; simpl in *; done || lia. }
  assert (Hsnd : forall n c l, (length (c :: l) <= n)%nat -> c <> 47 ->
     exists m, (length l <= m)%nat /\ clean_loop n (c :: l) = c :: clean_loop m l).
  { intros [|m] c l' H Hc; simpl in H; [lia|]. exists m. split; [lia|].
    simpl. destruct (Z.eqb_spec c 47); done. }
  assert (Hpre : forall x l l', head l = head l' -> is_prefix [x] l = is_prefix [x] l').
  { intros x [|? ?] [|? ?] H; inversion H; subst; done. }
  intros Hn. unfold dot_start. f_equal; [f_equal|].
  - apply Hpre. auto.
  - destruct l as [|c l1]; [by destruct n|].
    destruct (Z.eqb_spec 46 c) as [<-|Hc].
    + destruct (Hsnd n 46 l1 Hn) as (m & Hm & ->); [done|].
      rewrite !is_prefix_cons, (Hpre 47 (clean_loop m l1) l1); auto.
    + destruct n; [simpl in Hn; lia|]. simpl. destruct (Z.eqb_spec 46 c); done.
  - destruct l as [|c l1]; [by destruct n|].
    destruct (Z.eqb_spec 46 c) as [<-|Hc].
    2:{ destruct n; [simpl in Hn; lia|]. simpl. destruct (Z.eqb_spec 46 c); done. }
    destruct (Hsnd n 46 l1 Hn) as (m & Hm & ->); [done|]. rewrite !is_prefix_cons.
    destruct l1 as [|d l2]; [by destruct m|].
    destruct (Z.eqb_spec 46 d) as [<-|Hd].
    2:{ destruct m; [simpl in Hm; lia|]. simpl. destruct (Z.eqb_spec 46 d); done. }
    destruct (Hsnd m 46 l2 Hm) as (k & Hk & ->); [done|].
    rewrite !is_prefix_cons, (Hpre 47 (clean_loop k l2) l2); auto.
Qed.

Lemma clean_loop_dot_free n l : (length l <= n)%nat -> dot_free (clean_loop n l).
Proof.
  revert l. induction n as [|n IH]; intros [|c l] Hn pre post E;
    simpl in *; try lia; try (by destruct pre).
  fold (clean_next c l) in E.
  assert (Hl : (length (clean_next c l) <= n)%nat)
    by (pose proof (clean_next_length c l); lia).
  destruct pre as [|x pre]; simpl in E; injection E as -> E.
  - rewrite <- E, dot_start_clean_loop by done.
    unfold clean_next. simpl. apply skip_dots_clean.
  - eapply IH; [apply Hl|done].
Qed.

(** A clean string is left alone. *)
Lemma clean_loop_id n l : (length l <= n)%nat -> dot_free l -> clean_loop n l = l.
Proof.
  revert l. induction n as [|n IH]; intros [|c l] Hn Hf; simpl in *; try lia; try done.
  f_equal.
  assert (Hf' : dot_free l) by (intros pre post ->; by apply (Hf (c :: pre) post)).
  destruct (Z.eqb_spec c 47) as [->|].
  - rewrite skip_dots_id by (by apply (Hf [] l)). apply IH; [lia|done].
  - apply IH; [lia|done].
Qed.

Lemma strstr_None l needle :
  (forall pre post, l = pre ++ post -> is_prefix needle post = false) ->
  strstr l needle = None.
Proof.
  induction l as [|c l IH]; intros H; simpl.
  - by rewrite (H [] []).
  - rewrite (H [] (c :: l)) by done. rewrite IH; [done|].
    intros pre post ->. by apply (H (c :: pre)).
Qed.

Lemma dot_free_strstr l p :
  dot_free l -> (forall post, is_prefix p post = true -> dot_start post = true) ->
  strstr l (47 :: p) = None.
Proof.
  intros Hf Hp. apply strstr_None. intros pre [|c post] ->; [done|].
  simpl. destruct (Z.eqb_spec 47 c) as [<-|]; [|done]. simpl.
  pose proof (Hf pre post eq_refl) as Hd.
  destruct (is_prefix p post) eqn:E; [|done]. apply Hp in E. congruence.
Qed.

(** ** The in-place loop computes the same string *)

Lemma zget_zdrop (a : bytes) p x l k :
  0 <= p -> 0 <= k -> zdrop p a = l -> l !! Z.to_nat k = Some x ->
  zget a (p + k) = Some x.
Proof.
  intros Hp Hk <- Hl. unfold zget. destruct (Z.leb_spec 0 (p + k)); [|lia].
  unfold zdrop in Hl. rewrite lookup_drop in Hl. rewrite <- Hl. f_equal. lia.
Qed.

Lemma zdrop_next (a : bytes) p x l k :
  0 <= p -> zdrop p a = x ++ l -> k = zlen x -> zdrop (p + k) a = l.
Proof.
  intros Hp E ->. rewrite <- zdrop_zdrop, E by zlia. by apply zdrop_app_exact.
Qed.

Lemma skip_mem_spec n fuel a p l rest :
  (length l <= n)%nat -> (length l < fuel)%nat -> 0 <= p -> nonul l = true ->
  zdrop p a = l ++ 0 :: rest ->
  exists p', skip_mem fuel a p = Some p' /\ p <= p' /\
    zdrop p' a = skip_dots l ++ 0 :: rest.
Proof.
  revert fuel p l. induction n as [|n IH]; intros [|fuel] p l Hn Hfu Hp Hl E; try lia.
  - destruct l; simpl in *; [|lia].
    assert (Eg : zget a (p + 0) = Some 0) by (by eapply zget_zdrop).
    rewrite Z.add_0_r in Eg. cbn. rewrite Eg. cbn.
    exists p. split_and!; auto. lia.
  - assert (Hget : forall k x, 0 <= k -> (l ++ 0 :: rest) !! Z.to_nat k = Some x ->
      zget a (p + k) = Some x) by (intros; by eapply zget_zdrop).
    assert (Hskip : forall k pre l', l = pre ++ l' -> k = zlen pre -> 0 < k ->
      exists p', skip_mem fuel a (p + k) = Some p' /\ p <= p' /\
        zdrop p' a = skip_dots l' ++ 0 :: rest).
    { intros k pre l' -> -> Hk. rewrite length_app in *.
      unfold nonul in *. rewrite forallb_app in Hl. apply andb_prop in Hl as [_ Hl].
      destruct (IH fuel (p + zlen pre) l') as (p' & H1 & H2 & H3);
        try (unfold zlen in *; lia); [done| |].
      - eapply zdrop_next; [done|by rewrite E, <- app_assoc|done].
      - exists p'. split_and!; auto. lia. }
    specialize (Hget 0) as Hget0. rewrite Z.add_0_r in Hget0. simpl.
    destruct l as [|c l1]; simpl in *.
    { rewrite (Hget0 0) by done. cbn. exists p. split_and!; auto. lia. }
    rewrite (Hget0 c) by done. cbn. apply nonul_cons in Hl as [_ Hl1].
    destruct (Z.eqb_spec c 47) as [->|Hc47].
    { apply (Hskip 1 [47]); done || lia. }
    assert (Hstop : exists p', Some p = Some p' /\ p <= p' /\
       zdrop p' a = (c :: l1) ++ 0 :: rest) by (exists p; split_and!; auto; lia).
    destruct (Z.eqb_spec c 46) as [->|Hc46]; [|done].
    destruct l1 as [|d l2]; simpl in *.
    { rewrite (Hget 1 0) by done. by apply Hstop. }
    rewrite (Hget 1 d) by done. simpl.
    destruct (Z.eqb_spec d 47) as [->|Hd47].
    { apply (Hskip 2 [46; 47]); done || lia. }
    destruct (Z.eqb_spec d 46) as [->|Hd46]; [|done].
    destruct l2 as [|e l3]; simpl in *.
    { rewrite (Hget 2 0) by done. by apply Hstop. }
    rewrite (Hget 2 e) by done. simpl.
    destruct (Z.eqb_spec e 47) as [->|He47]; [|done].
    apply (Hskip 3 [46; 46; 47]); done || lia.
Qed.

Lemma clean_mem_spec n fuel a p cp l rest :
  (length l <= n)%nat -> (length l < fuel)%nat -> 0 <= cp <= p ->
  nonul l = true -> zdrop p a = l ++ 0 :: rest ->
  exists b, clean_mem fuel a p cp = Some b /\
    blit a cp (clean_loop n l ++ [0]) = Some b.
Proof.
  revert fuel a p cp l. induction n as [|n IH];
    intros [|fuel] a p cp l Hn Hfu Hp Hl E; try lia.
  - destruct l; simpl in *; [|lia]. rewrite <- (Z.add_0_r p).
    erewrite zget_zdrop by (done || lia). cbn.
    assert (is_Some (blit a cp [0])) as [b Hb].
    { apply blit_is_Some. apply (f_equal zlen) in E. rewrite zlen_zdrop in E by lia.
      rewrite zlen_cons in E. change (zlen [0]) with 1. zlia. }
    eauto.
  - assert (Hlen : zlen a = p + zlen l + 1 + zlen rest).
    { apply (f_equal zlen) in E. rewrite zlen_zdrop, zlen_app, zlen_cons in E by lia.
      zlia. }
    assert (Hget : zget a p = (l ++ 0 :: rest) !! 0%nat).
    { rewrite <- E. unfold zget, zdrop. destruct (Z.leb_spec 0 p); [|lia].
      rewrite lookup_drop. f_equal. lia. }
    destruct l as [|c l1]; simpl in *; rewrite Hget; cbn.
    { assert (is_Some (blit a cp [0])) as [b Hb].
      { apply blit_is_Some. change (zlen [0]) with 1. change (zlen []) with 0 in Hlen. zlia. }
      eauto. }
    apply nonul_cons in Hl as [Hc Hl1].
    destruct (Z.eqb_spec c 0); [done|]. fold (clean_next c l1).
    assert (E1 : zdrop (p + 1) a = l1 ++ 0 :: rest).
    { eapply (zdrop_next a p [c]); done || lia. }
    assert (Hp' : exists p', (if c =? 47 then skip_mem fuel a (p + 1) else Some (p + 1))
                = Some p' /\ p + 1 <= p' /\ zdrop p' a = clean_next c l1 ++ 0 :: rest).
    { unfold clean_next. destruct (c =? 47).
      - apply (skip_mem_spec (length l1)); done || lia.
      - exists (p + 1). split_and!; done || lia. }
    destruct Hp' as (p' & -> & Hp' & E'). cbn.
    assert (is_Some (blit a cp [c])) as [a' Ha'].
    { apply blit_is_Some. change (zlen [c]) with 1. rewrite zlen_cons in Hlen. zlia. }
    rewrite Ha'. cbn.
    assert (Hnn : nonul (clean_next c l1) = true).
    { unfold clean_next. destruct (c =? 47); [by apply skip_dots_nonul|done]. }
    pose proof (clean_next_length c l1).
    destruct (IH fuel a' p' (cp + 1) (clean_next c l1)) as (b & H1 & H2);
      [lia|lia|lia|done| |].
    { rewrite (zdrop_blit_after a cp [c] a') by (done || (change (zlen [c]) with 1; lia)).
      done. }
    exists b. split; [done|].
    change (cp + 1) with (cp + zlen [c]) in H2.
    rewrite (blit_blit a cp [c] a') in H2 by done. done.
Qed.

(** C16: [clean_pathname] rewrites the string in place, never touches memory
    outside its array, leaves everything after the new terminator alone, and
    the new string contains no "//", "/./" or "/../"; cleaning it again changes
    nothing. *)
Theorem clean_pathname_correct s rest :
  nonul s = true ->
  clean_pathname_mem (s ++ 0 :: rest)
  = blit (s ++ 0 :: rest) 0 (clean_pathname s ++ [0])
  /\ is_Some (clean_pathname_mem (s ++ 0 :: rest))
  /\ Forall (fun needle => strstr (clean_pathname s) needle = None)
       [bs "//"; bs "/./"; bs "/../"]
  /\ clean_pathname (clean_pathname s) = clean_pathname s.
Proof.
  intros Hs.
  destruct (clean_mem_spec (length s) (S (length (s ++ 0 :: rest))) (s ++ 0 :: rest) 0 0
              s rest) as (b & H1 & H2); try done.
  { rewrite length_app. lia. }
  assert (Hf : dot_free (clean_pathname s)) by (by apply clean_loop_dot_free).
  split_and!.
  - unfold clean_pathname_mem. by rewrite H1, <- H2.
  - unfold clean_pathname_mem. rewrite H1. eauto.
  - rewrite !Forall_cons, Forall_nil.
    split_and!; try done; apply dot_free_strstr; try done; unfold dot_start;
      intros post E; change (is_prefix _ post) with (is_prefix [47] post) in E ||
      change (is_prefix _ post) with (is_prefix [46; 47] post) in E ||
      change (is_prefix _ post) with (is_prefix [46; 46; 47] post) in E;
      rewrite E, ?orb_true_r; done.
  - by apply clean_loop_id.
Qed.

Lemma clean_pathname_correct_witness :
  clean_pathname (bs "/a/../b//c/./d") = bs "/a/b/c/d" /\
  nonul (bs "/a//../b") = true /\
  clean_pathname_mem (bs "/a//../b" ++ 0 :: []) =
    Some (bs "/a/b" ++ [0] ++ bs "./b" ++ [0]).
Proof.
  split; [vm_compute; reflexivity|]. split; [reflexivity|].
  destruct (clean_pathname_correct (bs "/a//../b") []) as [E _]; [reflexivity|].
  exact E.
Defined.

(** * Percent-decoding *)

(** A character of printable ASCII. *)
Definition isprint (c : Z) : bool := (32 <=? c) && (c <=? 126).

(** Decoding what [percent] wrote, and what the escape loop lets through. *)
Lemma percent_decode c :
  isprint c = true ->
  u8 (HEX_TO_DECIMAL (schar (INT_TO_HEX (Z.land (Z.shiftr c 4) 15)))
        (schar (INT_TO_HEX (Z.land c 15)))) = c.
Proof.
  intros Hp. apply Z.eqb_eq.
  assert (Hc : byte_ok c = true) by (unfold isprint, byte_ok in *; bprop; zcases).
  assert (E : implb (isprint c)
    (u8 (HEX_TO_DECIMAL (schar (INT_TO_HEX (Z.land (Z.shiftr c 4) 15)))
       (schar (INT_TO_HEX (Z.land c 15)))) =? c) = true).
  { clear Hp. revert c Hc. apply all_bytes_forallb. vm_compute. reflexivity. }
  by rewrite Hp in E.
Qed.

Lemma noescape_plain c :
  byte_ok c = true -> noescape c = true -> c <> 37 /\ c <> 35.
Proof.
  intros Hc Hn. split; intros ->; discriminate Hn.
Qed.

Lemma isprint_byte c : isprint c = true -> byte_ok c = true.
Proof. unfold isprint, byte_ok. intros. bprop. zcases. Qed.

Lemma schar_print c : isprint c = true -> (schar c <? 32) || (126 <? schar c) = false.
Proof.
  unfold isprint, schar. intros. bprop. destruct (Z.ltb_spec c 128); [zcases|lia].
Qed.

Lemma unescape_escape tab s pos :
  escape_table_ok tab ->
  forallb (fun c => isprint c && negb (c =? 63)) s = true ->
  unescape_loop (escape_bytes tab s) pos = (s, true, None).
Proof.
  intros Ht. revert pos. induction s as [|c s IH]; intros pos Hs; [done|].
  simpl in Hs. bprop. unfold escape_bytes in *. cbn [flat_map].
  rewrite escape_char_ok by (auto using isprint_byte).
  destruct (noescape c) eqn:En.
  - destruct (noescape_plain c) as [H37 H35]; auto using isprint_byte.
    cbn. do 3 (zcase; [done|]). rewrite IH by done. done.
  - cbn. rewrite percent_decode, schar_print, IH by done. done.
Qed.

(** The result of decoding: it fits in place, an escape yields a printable
    character only, and the query string starts right behind a '?'. *)
Lemma unescape_loop_safe n l pos o ok q :
  (length l <= n)%nat ->
  unescape_loop l pos = (o, ok, q) ->
  zlen o <= zlen l /\
  (forall c, c ∈ o -> c ∈ l \/ isprint c = true) /\
  (forall k, q = Some k -> pos < k <= pos + zlen l /\ zget l (k - 1 - pos) = Some 63).
Proof.
  revert l pos o ok q. induction n as [|n IH]; intros [|c l1] pos o ok q Hn E;
    cbn [length] in Hn; try lia.
  1,2: injection E as <- <- <-; split_and!; [done|by intros ? ?%elem_of_nil|done].
  rewrite !zlen_cons. pose proof (zlen_nonneg l1). cbn in E.
  assert (Hstop : zlen (@nil Z) <= zlen l1 + 1 /\
    (forall x, x ∈ @nil Z -> x ∈ c :: l1 \/ isprint x = true))
    by (split; [change (zlen []) with 0; lia|by intros ? ?%elem_of_nil]).
  destruct (Z.eqb_spec c 37) as [->|].
  { destruct l1 as [|c1 [|c2 l2]];
      try (injection E as <- <- <-; destruct Hstop; split_and!; done).
    destruct (_ || _) eqn:Hv; [injection E as <- <- <-; destruct Hstop; by split_and!|].
    destruct (unescape_loop l2 (pos + 3)) as [[o' ok'] q'] eqn:E'.
    injection E as <- <- <-. cbn [length] in Hn.
    destruct (IH l2 (pos + 3) o' ok' q') as (H1 & H2 & H3); [lia|done|].
    rewrite !zlen_cons. split_and!; [lia| |].
    - intros x [->|Hx]%elem_of_cons.
      + right. unfold isprint, schar, u8 in *.
        match type of Hv with context [?a mod ?b] =>
          pose proof (Z.mod_pos_bound a b); set (m := a mod b) in * end.
        bprop. destruct (Z.ltb_spec m 128); zcases.
      + destruct (H2 x Hx); [left; set_solver|by right].
    - intros k Hk. destruct (H3 k Hk) as [Hk1 Hk2]. split; [lia|].
      apply zget_lt in Hk2 as Hk3.
      replace (k - 1 - pos) with (k - 1 - (pos + 3) + 1 + 1 + 1) by lia.
      by rewrite !zget_cons by lia. }
  destruct (Z.eqb_spec c 63) as [->|].
  { injection E as <- <- <-. destruct Hstop. split_and!; auto.
    intros k [= <-]. split; [lia|]. by replace (pos + 1 - 1 - pos) with 0 by lia. }
  destruct (Z.eqb_spec c 35) as [->|].
  { injection E as <- <- <-. destruct Hstop. split_and!; auto.
    unfold query_after_fragment. intros k Hk.
    destruct (strchr l1 63) as [i|] eqn:Ei; [|done]. injection Hk as <-.
    apply strchr_Some in Ei as [Hi Hg].
    split; [lia|]. replace (pos + 1 + i + 1 - 1 - pos) with (i + 1) by lia.
    by rewrite zget_cons by lia. }
  destruct (unescape_loop l1 (pos + 1)) as [[o' ok'] q'] eqn:E'.
  injection E as <- <- <-.
  destruct (IH l1 (pos + 1) o' ok' q') as (H1 & H2 & H3); [lia|done|].
  rewrite !zlen_cons. split_and!; [lia| |].
  - intros x [->|Hx]%elem_of_cons; [left; set_solver|].
    destruct (H2 x Hx); [left; set_solver|by right].
  - intros k Hk. destruct (H3 k Hk) as [Hk1 Hk2]. split; [lia|].
    replace (k - 1 - pos) with (k - 1 - (pos + 1) + 1) by lia.
    apply zget_lt in Hk2 as Hk3. by rewrite zget_cons by lia.
Qed.

(** C32: a string of printable characters without '?' survives
    percent-encoding and decoding: [unescape_uri] gives it back, succeeds, and
    finds no query string. *)
Theorem escape_unescape_roundtrip s :
  forallb (fun c => isprint c && negb (c =? 63)) s = true ->
  exists tab, build_needs_escape = Some tab /\
    unescape_uri (escape_bytes tab s) = (s, true, None).
Proof.
  intros Hs. destruct build_needs_escape_ok as (tab & E & Ht).
  exists tab. split; [done|]. by apply unescape_escape.
Qed.

Lemma escape_unescape_roundtrip_witness :
  exists tab, build_needs_escape = Some tab /\
    unescape_uri (escape_bytes tab (bs "/a b/50%#<x>"))
    = (bs "/a b/50%#<x>", true, None).
Proof. apply escape_unescape_roundtrip. reflexivity. Defined.

(** What [unescape_uri] leaves in the buffer is never longer than the
    string it decodes, a character that is not in the input is printable (no
    NUL, no line break can be smuggled in by an escape), and [query_string]
    points behind a '?' of the input. *)
Theorem unescape_uri_safe uri o ok q :
  unescape_uri uri = (o, ok, q) ->
  zlen o <= zlen uri /\
  (forall c, c ∈ o -> c ∈ uri \/ isprint c = true) /\
  (forall k, q = Some k -> 0 < k <= zlen uri /\ zget uri (k - 1) = Some 63).
Proof.
  intros E. destruct (unescape_loop_safe (length uri) uri 0 o ok q) as (H1 & H2 & H3);
    [done|done|].
  split_and!; auto. intros k Hk. destruct (H3 k Hk) as [Hk1 Hk2].
  rewrite Z.sub_0_r in Hk2. split; [lia|done].
Qed.

Lemma unescape_uri_safe_witness :
  unescape_uri (bs "/a%41?x=%0a") = (bs "/aA", true, Some 6) /\
  zget (bs "/a%41?x=%0a") (6 - 1) = Some 63.
Proof.
  split; [reflexivity|].
  apply (unescape_uri_safe (bs "/a%41?x=%0a") (bs "/aA") true (Some 6)); reflexivity.
Defined.

(** * Numbers *)

Lemma digits_value_app s t acc :
  forallb isdigit s = true ->
  digits_value (s ++ t) acc = digits_value t (digits_value s acc).
Proof.
  revert acc. induction s as [|c s IH]; intros acc H; simpl in *; [done|].
  apply andb_prop in H as [-> ?]. auto.
Qed.

Lemma digits_value_mono s acc :
  forallb isdigit s = true -> 0 <= acc ->
  acc <= digits_value s acc /\ (s <> [] -> 0 < acc -> acc < digits_value s acc).
Proof.
  revert acc. induction s as [|c s IH]; intros acc H Ha; simpl in *; [by split|].
  apply andb_prop in H as [Hc Hs]. rewrite Hc. unfold isdigit in Hc. bprop.
  destruct (IH (acc * 10 + (c - 48))) as [H1 H2]; [done|lia|]. lia.
Qed.

(** The digits that [itoa_loop] produces have the value of the number. *)
Lemma itoa_loop_spec fuel i acc :
  0 <= i < 10 ^ Z.of_nat fuel -> forallb isdigit acc = true -> fuel <> O ->
  let s := itoa_loop fuel i acc in
  forallb isdigit s = true /\ s <> [] /\ digits_value s 0 = digits_value acc i.
Proof.
  revert i acc. induction fuel as [|fuel IH]; intros i acc Hi Ha Hf; [done|].
  pose proof (Z.mod_pos_bound i 10). pose proof (Z.div_mod i 10).
  assert (Hd : isdigit (48 + i mod 10) = true) by (unfold isdigit; zcases).
  simpl. destruct (Z.eqb_spec (i / 10) 0) as [E|E].
  - simpl. rewrite Hd. split_and!; auto.
    f_equal. lia.
  - destruct (IH (i / 10) ((48 + i mod 10) :: acc)) as (H1 & H2 & H3).
    + rewrite Nat2Z.inj_succ, Z.pow_succ_r in Hi by lia.
      split; [lia|]. apply Z.div_lt_upper_bound; lia.
    + simpl. by rewrite Hd.
    + intros ->. simpl in Hi. replace i with 0 in E by lia. done.
    + split_and!; auto. rewrite H3. simpl. rewrite Hd. f_equal. lia.
Qed.

Lemma simple_itoa_spec n :
  0 <= n <= UINT_MAX ->
  forallb isdigit (simple_itoa n) = true /\ simple_itoa n <> [] /\
  digits_value (simple_itoa n) 0 = n.
Proof.
  intros Hn. unfold simple_itoa, UINT_MAX in *.
  replace (u32 n) with n by (symmetry; apply Z.mod_small; lia).
  apply itoa_loop_spec; [|done|done].
  change (10 ^ Z.of_nat 21) with 1000000000000000000000. lia.
Qed.

(** [atoi] on a string of digits. *)
Lemma atoi_digits s :
  forallb isdigit s = true -> s <> [] ->
  atoi s = i32 (Z.min (2 ^ 63 - 1) (digits_value s 0)).
Proof.
  destruct s as [|c s]; [done|]. intros H _. simpl in H.
  apply andb_prop in H as [Hc Hs].
  assert (Hsp : isspace c = false) by (unfold isdigit, isspace in *; bprop; zcases).
  unfold atoi. cbn [skip_spaces]. rewrite Hsp.
  assert (Hc' := Hc). unfold isdigit in Hc'. bprop.
  destruct (Z.eqb_spec c 45); [lia|]. destruct (Z.eqb_spec c 43); [lia|].
  assert (0 <= digits_value (c :: s) 0).
  { apply digits_value_mono; [|lia]. simpl. by rewrite Hc. }
  f_equal. unfold long_clamp. lia.
Qed.

Lemma is_prefix_spec p l : is_prefix p l = true <-> exists t, l = p ++ t.
Proof.
  revert l. induction p as [|x p IH]; intros l; simpl; [naive_solver|].
  destruct l as [|y l]; [naive_solver|].
  rewrite andb_true_iff, Z.eqb_eq, IH. naive_solver.
Qed.

(** A prefix without NUL of a terminated string is a prefix of the string. *)
Lemma prefix_before_nul s l :
  nonul s = true -> is_prefix s (l ++ [0]) = true -> exists t, l = s ++ t.
Proof.
  intros Hs [t E]%is_prefix_spec.
  destruct t as [|x t' _] using rev_ind.
  - rewrite app_nil_r in E. rewrite <- E in Hs. unfold nonul in Hs.
    rewrite forallb_app in Hs. simpl in Hs. bprop. done.
  - rewrite app_assoc in E. apply app_inj_tail in E as [-> _]. eauto.
Qed.

(** [boa_atoi] accepts exactly the canonical decimal notation of the
    numbers of 0..INT_MAX, that is what [simple_itoa] prints, and returns -1 for
    every other string. *)
Theorem boa_atoi_correct s n :
  nonul s = true -> 0 <= n ->
  (boa_atoi s = n <-> n <= INT_MAX /\ s = simple_itoa n).
Proof.
  intros Hs Hn. split.
  - unfold boa_atoi. destruct s as [|c s']; [lia|]. set (s := c :: s') in *.
    destruct (negb (isdigit c)); [lia|].
    pose proof (i32_range (atoi s)) as Hr.
    assert (Hat : atoi s < 2 ^ 31) by apply i32_range.
    destruct (Z.ltb_spec (atoi s) 0); [lia|].
    replace (u32 (atoi s)) with (atoi s) by (symmetry; apply Z.mod_small; lia).
    destruct (is_prefix s (simple_itoa (atoi s) ++ [0])) eqn:Ep; [|lia].
    intros <-. unfold INT_MAX. split; [lia|].
    destruct (prefix_before_nul _ _ Hs Ep) as [t Et].
    destruct (simple_itoa_spec (atoi s)) as (Hd & _ & Hv); [unfold UINT_MAX; lia|].
    rewrite Et, forallb_app in Hd. apply andb_prop in Hd as [Hds Hdt].
    pose proof (digits_value_mono s 0 Hds) as [H0 _]; [lia|].
    rewrite Et, digits_value_app in Hv by done.
    destruct (digits_value_mono t (digits_value s 0) Hdt) as [Hm Hm']; [lia|].
    assert (Ea : atoi s = digits_value s 0).
    { rewrite atoi_digits by done. rewrite Z.min_r by lia. apply i32_small. lia. }
    destruct t as [|x t]; [by rewrite Et, app_nil_r|].
    destruct (Z.eq_dec (digits_value s 0) 0) as [Hz|Hz].
    + exfalso. rewrite Ea, Hz in Et. apply (f_equal length) in Et.
      rewrite length_app in Et. unfold s in Et. simpl in Et. lia.
    + assert (digits_value s 0 < digits_value (x :: t) (digits_value s 0))
        by (apply Hm'; [done|lia]). lia.
  - intros [Hmax ->]. unfold INT_MAX in Hmax.
    destruct (simple_itoa_spec n) as (Hd & Hne & Hv); [unfold UINT_MAX; lia|].
    assert (Ea : atoi (simple_itoa n) = n).
    { rewrite atoi_digits, Hv by done. rewrite Z.min_r by lia. apply i32_small. lia. }
    unfold boa_atoi. destruct (simple_itoa n) as [|c s'] eqn:E; [done|].
    pose proof Hd as Hd'. simpl in Hd'. apply andb_prop in Hd' as [-> _]. cbn [negb].
    rewrite Ea. destruct (Z.ltb_spec n 0); [lia|].
    replace (u32 n) with n by (symmetry; apply Z.mod_small; lia).
    rewrite E. rewrite (proj2 (is_prefix_spec _ _)); [done|]. eauto.
Qed.

Lemma boa_atoi_correct_witness :
  nonul (bs "8080") = true /\ 0 <= 8080 /\ boa_atoi (bs "8080") = 8080.
Proof.
  split; [reflexivity|]. split; [lia|].
  apply (boa_atoi_correct (bs "8080") 8080); [reflexivity|lia|].
  split; [unfold INT_MAX; lia|vm_compute; reflexivity].
Defined.

(** * Host names *)

Definition host_char (c : Z) : bool := isalnum c || (c =? 45) || (c =? 46).

Lemma check_host_loop_spec l ok len last n c :
  check_host_loop l ok len last = Some (n, c) ->
  n = len + zlen l /\ c = List.last l last /\ forallb host_char l = true /\
  strstr ((if ok then [] else [46]) ++ l) [46; 46] = None.
Proof.
  revert ok len last. induction l as [|x l IH]; intros ok len last; cbn [check_host_loop].
  - intros [= <- <-]. split_and!; [by rewrite zlen_nil, Z.add_0_r|done|done|by destruct ok].
  - rewrite last_cons, zlen_cons.
    destruct (isalnum x || (x =? 45)) eqn:Ex.
    + intros (H1 & H2 & H3 & H4)%IH. split_and!; auto; [lia| |].
      * simpl. unfold host_char at 1. by rewrite Ex.
      * assert (Hx : x <> 46) by (intros ->; discriminate Ex).
        simpl in H4. destruct ok; simpl; rewrite ?Z.eqb_refl;
          destruct (Z.eqb_spec 46 x); try lia; simpl; by rewrite H4.
    + destruct (Z.eqb_spec x 46) as [->|]; [|done].
      destruct ok; [|done]. simpl. intros (H1 & H2 & H3 & H4)%IH.
      split_and!; auto. lia.
Qed.

(** A name that [check_host] accepts consists of letters, digits, '-' and
    '.', begins and ends with a letter or digit and has no "..": as a directory
    of the virtual hosts it is one path component below the root, at most 63
    characters long. *)
Theorem check_host_safe r :
  let n := check_host r in
  n = -1 \/
  (n = zlen r /\ 0 < n <= 63 /\ forallb host_char r = true /\
   strstr r [46; 46] = None /\ strchr r 47 = None /\
   (exists c, head r = Some c /\ isalnum c = true) /\
   isalnum (List.last r 0) = true).
Proof.
  unfold check_host. destruct r as [|c l]; [by left|].
  destruct (isalnum c) eqn:Hc; [|by left]. cbn [negb].
  destruct (Z.ltb_spec 63 (zlen (c :: l))) as [|Hlen]; [by left|].
  destruct (check_host_loop l false 1 c) as [[n last]|] eqn:E; [|by left].
  destruct (isalnum last) eqn:Hlast; [|by left]. right.
  apply check_host_loop_spec in E as (-> & -> & Hall & Hdd).
  rewrite zlen_cons in *. pose proof (zlen_nonneg l).
  assert (Hall' : forallb host_char (c :: l) = true).
  { simpl. unfold host_char at 1. by rewrite Hc. }
  split_and!; auto; try lia.
  - assert (Hx : c <> 46) by (intros ->; discriminate Hc).
    simpl in *. destruct (Z.eqb_spec 46 c); [lia|]. cbn [andb].
    destruct l as [|d l]; [done|].
    by destruct ((46 =? d) && true).
  - destruct (strchr (c :: l) 47) as [i|] eqn:Ei; [|done].
    apply strchr_Some in Ei as [Hi Hg].
    rewrite forallb_forall in Hall'. unfold zget in Hg.
    destruct (Z.leb_spec 0 i); [|done]. apply list_elem_of_lookup_2, list_elem_of_In in Hg.
    apply Hall' in Hg. discriminate Hg.
  - eauto.
  - by rewrite last_cons.
Qed.

(** * Log sanitizing *)

(** What may stand in a log line: no control character but the tab. *)
Definition log_char (c : Z) : bool := negb (((c <=? 31) && negb (c =? 9)) || (c =? 127)).

Lemma sanitize_loop_spec l len :
  0 <= len <= LOG_SANITIZE_BUF_SIZE - 4 ->
  let o := sanitize_loop l len in
  forallb log_char o = true /\ len + zlen o <= LOG_SANITIZE_BUF_SIZE - 1 /\
  (forallb log_char l = true -> len + zlen l <= LOG_SANITIZE_BUF_SIZE - 4 -> o = l).
Proof.
  unfold LOG_SANITIZE_BUF_SIZE. revert len.
  induction l as [|c l IH]; intros len Hlen; cbn [sanitize_loop]; cbv zeta.
  { rewrite zlen_nil. split_and!; [done|lia|done]. }
  unfold LOG_SANITIZE_BUF_SIZE. pose proof (zlen_nonneg l).
  destruct (Z.ltb_spec len (2048 - 4)).
  - destruct (IH (len + 1)) as (H1 & H2 & H3); [lia|].
    rewrite !zlen_cons. split_and!; [|lia|].
    + simpl. rewrite H1, andb_true_r.
      destruct ((c <=? 31) && negb (c =? 9) || (c =? 127)) eqn:E; [done|].
      unfold log_char. by rewrite E.
    + simpl. unfold log_char at 1. intros [Hc%negb_true_iff Hl]%andb_prop ?.
      rewrite Hc. f_equal. apply H3; [done|lia].
  - split_and!; [done|change (zlen [46; 46; 46]) with 3; lia|].
    rewrite zlen_cons. lia.
Qed.

(** The sanitized string fits its buffer with the terminating NUL,
    contains no control character other than a tab (so no line can be forged in
    the log), and a harmless string that fits is logged unchanged. *)
Theorem sanitize_log_string_safe str :
  let o := sanitize_log_string str in
  forallb log_char o = true /\ zlen o + 1 <= LOG_SANITIZE_BUF_SIZE /\
  (forall s, str = Some s -> forallb log_char s = true ->
     zlen s <= LOG_SANITIZE_BUF_SIZE - 4 -> o = s).
Proof.
  destruct str as [s|]; simpl; [|done].
  destruct (sanitize_loop_spec s 0) as (H1 & H2 & H3); [done|].
  split_and!; [done|unfold LOG_SANITIZE_BUF_SIZE in *; lia|].
  intros ? [= <-]. auto.
Qed.

(** * Blocking and non-blocking descriptors *)

Section fcntl.
(** A table of flags. *)
Context {W : Type} (getfl : Z -> W -> Z * W) (setfl : Z -> Z -> W -> Z * W) (flags : Z -> W -> Z).
Hypothesis getfl_reads : forall fd w, getfl fd w = (flags fd w, w).
Hypothesis setfl_writes : forall fd v w r w', setfl fd v w = (r, w') -> r <> -1 -> flags fd w' = v.

(** Exactly the bit NOBLOCK is changed; the macros of a build without BOA_USE_GETFL
    overwrite all the flags. *)
Theorem set_nonblock_bit fd w r w' i :
  (real_set_nonblock_fd getfl setfl fd w = (r, w') -> r <> -1 ->
   Z.testbit (flags fd w') i = Z.testbit (flags fd w) i || Z.testbit NOBLOCK i) /\
  (real_set_block_fd getfl setfl fd w = (r, w') -> r <> -1 ->
   Z.testbit (flags fd w') i = Z.testbit (flags fd w) i && negb (Z.testbit NOBLOCK i)).
Proof.
  unfold real_set_nonblock_fd, real_set_block_fd, change_flags. rewrite getfl_reads.
  destruct (flags fd w =? -1); [by split; intros [= <- _] ?|]. split; intros E Hr.
  - by rewrite (setfl_writes _ _ _ _ _ E Hr), Z.lor_spec.
  - by rewrite (setfl_writes _ _ _ _ _ E Hr), Z.ldiff_spec.
Qed.
End fcntl.
