(* ===== verification/Dates.v ===== *)
(** util.c: HTTP dates.  [rfc822_time_buf] prints them, [date_to_tm] reads the
    four formats, [modified_since] compares a file time with a date.  [gmtime]
    and [sscanf] are those of the C library. *)

From S2P Require Import Prelude Types Util.

Definition month_tab : bytes := bs "Jan Feb Mar Apr May Jun Jul Aug Sep Oct Nov Dec ".
Definition day_tab : bytes := bs "Sun,Mon,Tue,Wed,Thu,Fri,Sat,".

(** * gmtime *)

(** Year, month (0..11) and day of month of a day counted from 1970-01-01, in
    the proleptic Gregorian calendar; the year is computed from March on. *)
Definition civil (days : Z) : Z * Z * Z :=
  let z := days + 719468 in
  let era := z / 146097 in
  let doe := z mod 146097 in
  let yoe := (doe - doe / 1460 + doe / 36524 - doe / 146096) / 365 in
  let doy := doe - (365 * yoe + yoe / 4 - yoe / 100) in
  let mp := (5 * doy + 2) / 153 in
  let d := doy - (153 * mp + 2) / 5 + 1 in
  let m := if mp <? 10 then mp + 2 else mp - 10 in
  let y := yoe + era * 400 + (if m <? 2 then 1 else 0) in
  (y, m, d).

Definition gmtime (t : Z) : tm :=
  let days := t / 86400 in
  let rem := t mod 86400 in
  let '(y, m, d) := civil days in
  mkTm (rem mod 60) (rem / 60 mod 60) (rem / 3600) d m (y - 1900)
    ((days + 4) mod 7).

(** * rfc822_time_buf *)

(** Two decimal digits. *)
Definition two (a : Z) : bytes := [48 + a / 10; 48 + a mod 10].

(** The function fills the buffer from the right; this is what it has written
    from left to right. *)
Definition rfc822_text (t : tm) : bytes :=
  slice day_tab (4 * tm_wday t) 4 ++ [32] ++ two (tm_mday t) ++ [32] ++
  slice month_tab (4 * tm_mon t) 4 ++ simple_itoa (1900 + tm_year t) ++ [32] ++
  two (tm_hour t) ++ [58] ++ two (tm_min t) ++ [58] ++ two (tm_sec t) ++ bs " GMT".

(** [s = 0] means now.  The text must fill the 29 characters of the buffer
    exactly: a year of five digits would be written before its start. *)
Definition rfc822_time_buf (current_time s : Z) : option bytes :=
  let o := rfc822_text (gmtime (if s =? 0 then current_time else s)) in
  if zlen o =? 29 then Some o else None.

(** * get_commonlog_time *)

Definition wday_tab : list bytes :=
  [bs "Sun"; bs "Mon"; bs "Tue"; bs "Wed"; bs "Thu"; bs "Fri"; bs "Sat"].

(** ["%ld"]. *)
Definition print_long (z : Z) : bytes :=
  if z <? 0 then 45 :: itoa_loop 21 (- z) [] else itoa_loop 21 z [].

(** ["%4d"] fills up with blanks, ["%02d"] with zeros behind the sign. *)
Definition print_blanks (w : nat) (z : Z) : bytes :=
  replicate (w - length (print_long z)) 32 ++ print_long z.

Definition print_zeros (w : nat) (z : Z) : bytes :=
  if z <? 0
  then 45 :: replicate (w - length (print_long z)) 48 ++ print_long (- z)
  else replicate (w - length (print_long z)) 48 ++ print_long z.

(** [None]: the table of the weekdays ends before the index. *)
Definition commonlog_text (lc : tm) : option bytes :=
  day ← zget wday_tab (tm_wday lc);
  Some ([91] ++ print_blanks 4 (tm_year lc + 1900) ++ [45] ++ print_zeros 2 (tm_mon lc + 1)
        ++ [45] ++ print_zeros 2 (tm_mday lc) ++ [32] ++ print_zeros 2 (tm_hour lc) ++ [58]
        ++ print_zeros 2 (tm_min lc) ++ [58] ++ print_zeros 2 (tm_sec lc) ++ [32] ++ day
        ++ bs "] ").

(** * sscanf *)

Inductive directive := D_int | D_str (width : nat) | D_lit (c : Z) | D_space.

(** [%d]: an optional sign and digits. *)
Definition scan_digits (s : bytes) : option (Z * bytes) :=
  match s with
  | c :: _ =>
      if isdigit c then
        let fix skip (s : bytes) : bytes :=
          match s with
          | c :: s' => if isdigit c then skip s' else s
          | [] => []
          end in
        Some (digits_value s 0, skip s)
      else None
  | [] => None
  end.

Definition scan_int (s : bytes) : option (Z * bytes) :=
  match skip_spaces s with
  | c :: s' =>
      if c =? 45 then
        '(v, r) ← scan_digits s'; Some (i32 (long_clamp (- v)), r)
      else if c =? 43 then
        '(v, r) ← scan_digits s'; Some (i32 (long_clamp v), r)
      else
        '(v, r) ← scan_digits (c :: s'); Some (i32 (long_clamp v), r)
  | [] => None
  end.

(** [%ns]: up to [n] characters that are not white space. *)
Fixpoint scan_word (n : nat) (s : bytes) : bytes * bytes :=
  match n, s with
  | S n', c :: s' =>
      if isspace c then ([], s)
      else let '(w, r) := scan_word n' s' in (c :: w, r)
  | _, _ => ([], s)
  end.

(** The values converted before the first failure. *)
Fixpoint sscanf (f : list directive) (s : bytes) : list (Z + bytes) :=
  match f with
  | [] => []
  | D_int :: f' =>
      match scan_int s with
      | Some (v, r) => inl v :: sscanf f' r
      | None => []
      end
  | D_str n :: f' =>
      match scan_word n (skip_spaces s) with
      | ([], _) => []
      | (w, r) => inr w :: sscanf f' r
      end
  | D_lit c :: f' =>
      match s with
      | x :: s' => if x =? c then sscanf f' s' else []
      | [] => []
      end
  | D_space :: f' => sscanf f' (skip_spaces s)
  end.

(** * date_to_tm *)

(** "%d %3s %d %d:%d:%d GMT"; the text after the last conversion does not
    change the result. *)
Definition hms : list directive := [D_int; D_lit 58; D_int; D_lit 58; D_int].
Definition fmt_rfc1123 (w : nat) : list directive :=
  [D_int; D_space; D_str w; D_space; D_int; D_space] ++ hms.
(** "%d-%3s-%d %d:%d:%d GMT" *)
Definition fmt_rfc1036 : list directive :=
  [D_int; D_lit 45; D_str 3; D_lit 45; D_int; D_space] ++ hms.
(** "%3s %d %d:%d:%d %d" *)
Definition fmt_asctime : list directive :=
  [D_str 3; D_space; D_int; D_space] ++ hms ++ [D_space; D_int].

(** [None]: a character behind the end of the name is read, whose value is
    indeterminate. *)
Definition month2int (monthname : bytes) : option Z :=
  let at_ (i : Z) := zget (monthname ++ [0]) i in
  c ← at_ 0;
  if c =? 65 then c1 ← at_ 1; Some (if c1 =? 112 then 3 else 7)
  else if c =? 68 then Some 11
  else if c =? 70 then Some 1
  else if c =? 74 then
    c1 ← at_ 1;
    if c1 =? 97 then Some 0
    else c2 ← at_ 2; Some (if c2 =? 110 then 5 else 6)
  else if c =? 77 then c2 ← at_ 2; Some (if c2 =? 114 then 2 else 4)
  else if c =? 78 then Some 10
  else if c =? 79 then Some 9
  else if c =? 83 then Some 8
  else Some (-1).

(** The rest of the string from the first blank. *)
Fixpoint skip_weekday (s : bytes) : bytes :=
  match s with
  | c :: s' => if c =? 32 then s else skip_weekday s'
  | [] => []
  end.

(** Day, month name, year, hour, minute and second of the first format that
    fits. *)
Definition scan_date (cmtime_start : bytes) : option (Z * bytes * Z * Z * Z * Z) :=
  let cmtime := skip_weekday cmtime_start in
  match sscanf (fmt_rfc1123 3) cmtime with
  | [inl d; inr m; inl y; inl h; inl mi; inl s] => Some (d, m, y, h, mi, s)
  | _ =>
  match sscanf fmt_rfc1036 cmtime with
  | [inl d; inr m; inl y; inl h; inl mi; inl s] => Some (d, m, y, h, mi, s)
  | _ =>
  match sscanf fmt_asctime cmtime with
  | [inr m; inl d; inl h; inl mi; inl s; inl y] => Some (d, m, y, h, mi, s)
  | _ =>
  match sscanf (fmt_rfc1123 10) cmtime_start with
  | [inl d; inr m; inl y; inl h; inl mi; inl s] => Some (d, m, y, h, mi, s)
  | _ => None
  end end end end.

(** The outer [None] is the read of an indeterminate character, the inner one
    the return value -1. *)
Definition date_to_tm (cmtime : bytes) : option (option tm) :=
  match skip_weekday cmtime with
  | [] => Some None
  | _ =>
      match scan_date cmtime with
      | None => Some None
      | Some (day, monthname, year, hour, minute, second) =>
          let year := if year <? 70 then year + 100 else year in
          let year := if 1900 <? year then year - 1900 else year in
          mon ← month2int monthname;
          Some
            (if mon =? -1 then None
             else if (second <? 0) || (59 <? second) then None
             else if (minute <? 0) || (59 <? minute) then None
             else if (hour <? 0) || (23 <? hour) then None
             else if (day <? 1) || (31 <? day) then None
             else if (mon <? 0) || (11 <? mon) then None
             else if (year <? 70) || (120 <? year) then None
             else Some (mkTm second minute hour day mon year 0))
      end
  end.

(** The comparison of two dates, from the years down to the seconds. *)
Definition tm_fields (t : tm) : list Z :=
  [tm_year t; tm_mon t; tm_mday t; tm_hour t; tm_min t; tm_sec t].

Fixpoint newer (file parsed : list Z) : Z :=
  match file, parsed with
  | f :: file', p :: parsed' =>
      let comp := f - p in
      if comp =? 0 then newer file' parsed' else if 0 <? comp then 1 else 0
  | _, _ => 0
  end.

Definition modified_since (mtime : Z) (if_modified_since : bytes) : option Z :=
  parsed ← date_to_tm if_modified_since;
  match parsed with
  | None => Some (-1)
  | Some parsed_gmt => Some (newer (tm_fields (gmtime mtime)) (tm_fields parsed_gmt))
  end.

Example commonlog_example :
  commonlog_text (gmtime 784111777) = Some (bs "[1994-11-06 08:49:37 Sun] ").
Proof. vm_compute. reflexivity. Qed.
Example rfc822_example : rfc822_time_buf 0 784111777 = Some (bs "Sun, 06 Nov 1994 08:49:37 GMT").
Proof. vm_compute. reflexivity. Qed.
Example rfc1123_example : modified_since 784111778 (bs "Sun, 06 Nov 1994 08:49:37 GMT") = Some 1.
Proof. vm_compute. reflexivity. Qed.
Example rfc1036_example : modified_since 784111778 (bs "Sunday, 06-Nov-94 08:49:37 GMT") = Some 1.
Proof. vm_compute. reflexivity. Qed.
Example asctime_example : modified_since 784111777 (bs "Sun Nov  6 08:49:37 1994") = Some 0.
Proof. vm_compute. reflexivity. Qed.
