(* ===== verification/DateProofs.v ===== *)
(** util.c: the dates.  The calendar is strictly increasing, what [rfc822_time_buf]
    prints is what [date_to_tm] reads, [modified_since] compares the times, and the time
    of the log fits into its buffer. *)

From S2P Require Import Prelude Types Util UtilProofs Dates.

(** * The calendar *)

Ltac zdiv := Z.to_euclidean_division_equations; lia.

(** The years of an era, counted from March on, and the days of a year. *)
Definition yoe_of (doe : Z) : Z := (doe - doe / 1460 + doe / 36524 - doe / 146096) / 365.
Definition year_start (y : Z) : Z := 365 * y + y / 4 - y / 100.
Definition doy_of (doe : Z) : Z := doe - year_start (yoe_of doe).
(** Months from March on, and days of the month. *)
Definition mp_of (doy : Z) : Z := (5 * doy + 2) / 153.
Definition mday_of (doy : Z) : Z := doy - (153 * mp_of doy + 2) / 5 + 1.

Lemma yoe_bounds doe : 0 <= doe < 146097 -> 0 <= yoe_of doe < 400.
Proof. unfold yoe_of. intros H. zdiv. Qed.

Lemma yoe_low doe : 0 <= doe < 146097 -> year_start (yoe_of doe) <= doe.
Proof. unfold year_start, yoe_of. intros H. zdiv. Qed.

Lemma yoe_high doe : 0 <= doe < 146096 -> doe < year_start (yoe_of doe + 1).
Proof. unfold year_start, yoe_of. intros H. zdiv. Qed.

Lemma year_length y : 0 <= y -> year_start y + 365 <= year_start (y + 1) <= year_start y + 366.
Proof. unfold year_start. intros H. zdiv. Qed.

Lemma year_start_mono y y' : 0 <= y <= y' -> year_start y <= year_start y'.
Proof. unfold year_start. intros H. zdiv. Qed.

Lemma doy_bounds doe : 0 <= doe < 146097 -> 0 <= doy_of doe <= 365.
Proof.
  intros H. unfold doy_of. pose proof (yoe_low doe H). pose proof (yoe_bounds doe H).
  destruct (Z.eq_dec doe 146096) as [->|Hne]; [by vm_compute|].
  pose proof (yoe_high doe ltac:(lia)). pose proof (year_length (yoe_of doe)). lia.
Qed.

(** The next day is one of the same year or the first of the next. *)
Lemma doy_next doe :
  0 <= doe < 146096 ->
  yoe_of (doe + 1) = yoe_of doe /\ doy_of (doe + 1) = doy_of doe + 1 \/
  yoe_of (doe + 1) = yoe_of doe + 1 /\ doy_of (doe + 1) = 0.
Proof.
  intros H. unfold doy_of. destruct (Z.eq_dec doe 146095) as [->|Hne]; [by left; vm_compute|].
  pose proof (yoe_low doe ltac:(lia)). pose proof (yoe_high doe ltac:(lia)).
  pose proof (yoe_bounds doe ltac:(lia)). pose proof (yoe_bounds (doe + 1) ltac:(lia)).
  pose proof (yoe_low (doe + 1) ltac:(lia)). pose proof (yoe_high (doe + 1) ltac:(lia)).
  assert (yoe_of doe <= yoe_of (doe + 1)).
  { destruct (Z.le_gt_cases (yoe_of doe) (yoe_of (doe + 1))); [done|].
    pose proof (year_start_mono (yoe_of (doe + 1) + 1) (yoe_of doe)). lia. }
  assert (yoe_of (doe + 1) <= yoe_of doe + 1).
  { destruct (Z.le_gt_cases (yoe_of (doe + 1)) (yoe_of doe + 1)); [done|].
    pose proof (year_start_mono (yoe_of doe + 2) (yoe_of (doe + 1))).
    pose proof (year_length (yoe_of doe)). pose proof (year_length (yoe_of doe + 1)).
    replace (yoe_of doe + 1 + 1) with (yoe_of doe + 2) in * by lia. lia. }
  destruct (Z.eq_dec (yoe_of (doe + 1)) (yoe_of doe)) as [->|Hn]; [left; lia|right].
  replace (yoe_of (doe + 1)) with (yoe_of doe + 1) in * by lia. lia.
Qed.

Lemma month_bounds doy : 0 <= doy <= 365 -> 0 <= mp_of doy <= 11 /\ 1 <= mday_of doy <= 31.
Proof. unfold mday_of, mp_of. intros H. zdiv. Qed.

Lemma month_next doy :
  0 <= doy < 365 -> mp_of doy * 32 + mday_of doy < mp_of (doy + 1) * 32 + mday_of (doy + 1).
Proof. unfold mday_of, mp_of. intros H. zdiv. Qed.

Lemma civil_eq days :
  let z := days + 719468 in
  let doy := doy_of (z mod 146097) in
  let m := if mp_of doy <? 10 then mp_of doy + 2 else mp_of doy - 10 in
  civil days = (yoe_of (z mod 146097) + z / 146097 * 400 + (if m <? 2 then 1 else 0), m, mday_of doy).
Proof. done. Qed.

(** One number for a date. *)
Definition date_key (y m d : Z) : Z := (12 * y + m) * 32 + d.

Definition day_key (days : Z) : Z := let '(y, m, d) := civil days in date_key y m d.

Lemma day_key_eq days :
  let z := days + 719468 in
  let doy := doy_of (z mod 146097) in
  day_key days = (12 * (yoe_of (z mod 146097) + z / 146097 * 400) + 2) * 32
                 + mp_of doy * 32 + mday_of doy /\
  0 <= mp_of doy <= 11 /\ 1 <= mday_of doy <= 31.
Proof.
  intros z doy. assert (Hd : 0 <= doy <= 365) by (apply doy_bounds, Z.mod_pos_bound; lia).
  pose proof (month_bounds doy Hd). split; [|done].
  unfold day_key. rewrite civil_eq. fold z. fold doy. unfold date_key.
  destruct (Z.ltb_spec (mp_of doy) 10).
  - destruct (Z.ltb_spec (mp_of doy + 2) 2); lia.
  - destruct (Z.ltb_spec (mp_of doy - 10) 2); lia.
Qed.

Lemma civil_range days y m d : civil days = (y, m, d) -> 0 <= m <= 11 /\ 1 <= d <= 31.
Proof.
  rewrite civil_eq. intros [= _ <- <-]. destruct (day_key_eq days) as (_ & Hm & Hd).
  split; [|exact Hd]. destruct (Z.ltb_spec (mp_of (doy_of ((days + 719468) mod 146097))) 10); lia.
Qed.

Lemma day_key_next days : day_key days < day_key (days + 1).
Proof.
  destruct (day_key_eq days) as (-> & Hm & Hd). destruct (day_key_eq (days + 1)) as (-> & Hm' & Hd').
  set (z := days + 719468) in *. replace (days + 1 + 719468) with (z + 1) in * by lia.
  pose proof (Z.mod_pos_bound z 146097 ltac:(lia)) as Hb.
  destruct (Z.eq_dec (z mod 146097) 146096) as [E|E].
  - assert (E1 : (z + 1) mod 146097 = 0) by zdiv. assert (E2 : (z + 1) / 146097 = z / 146097 + 1) by zdiv.
    rewrite E, E1, E2 in *. change (yoe_of 0) with 0. change (yoe_of 146096) with 399. lia.
  - assert (E1 : (z + 1) mod 146097 = z mod 146097 + 1) by zdiv.
    assert (E2 : (z + 1) / 146097 = z / 146097) by zdiv. rewrite E1, E2 in *.
    destruct (doy_next (z mod 146097)) as [[-> Ed]|[-> Ed]]; [lia| |].
    + rewrite Ed in *. pose proof (doy_bounds (z mod 146097) ltac:(lia)).
      pose proof (doy_bounds (z mod 146097 + 1) ltac:(lia)).
      pose proof (month_next (doy_of (z mod 146097)) ltac:(lia)). lia.
    + lia.
Qed.

Lemma day_key_lt a b : a < b -> day_key a < day_key b.
Proof.
  intros H. replace b with (a + 1 + Z.of_nat (Z.to_nat (b - a - 1))) by lia.
  induction (Z.to_nat (b - a - 1)) as [|n IH].
  - rewrite Z.add_0_r. apply day_key_next.
  - pose proof (day_key_next (a + 1 + Z.of_nat n)).
    replace (a + 1 + Z.of_nat (S n)) with (a + 1 + Z.of_nat n + 1) by lia. lia.
Qed.

(** * gmtime *)

Record tm_ok (t : tm) : Prop := {
  tk_sec : 0 <= tm_sec t <= 59;
  tk_min : 0 <= tm_min t <= 59;
  tk_hour : 0 <= tm_hour t <= 23;
  tk_mday : 1 <= tm_mday t <= 31;
  tk_mon : 0 <= tm_mon t <= 11;
  tk_wday : 0 <= tm_wday t <= 6
}.

Definition tm_key (t : tm) : Z :=
  ((date_key (tm_year t) (tm_mon t) (tm_mday t) * 24 + tm_hour t) * 60 + tm_min t) * 60 + tm_sec t.

Lemma gmtime_ok t : tm_ok (gmtime t).
Proof.
  unfold gmtime. destruct (civil (t / 86400)) as [[y m] d] eqn:E.
  apply civil_range in E. split; cbn; try lia; zdiv.
Qed.

Lemma gmtime_key t :
  tm_key (gmtime t) = (day_key (t / 86400) - date_key 1900 0 0) * 86400 + t mod 86400.
Proof.
  unfold tm_key, gmtime, day_key. destruct (civil (t / 86400)) as [[y m] d]. cbn.
  unfold date_key. zdiv.
Qed.

Lemma gmtime_key_lt a b : a < b -> tm_key (gmtime a) < tm_key (gmtime b).
Proof.
  intros H. rewrite !gmtime_key. pose proof (Z.mod_pos_bound a 86400 ltac:(lia)).
  pose proof (Z.mod_pos_bound b 86400 ltac:(lia)).
  destruct (Z.eq_dec (a / 86400) (b / 86400)) as [E|E].
  - rewrite E. assert (a mod 86400 < b mod 86400) by zdiv. lia.
  - assert (a / 86400 < b / 86400) by zdiv. pose proof (day_key_lt _ _ H2). lia.
Qed.

Lemma gmtime_key_ltb a b : (tm_key (gmtime a) <? tm_key (gmtime b)) = (a <? b).
Proof.
  destruct (Z.ltb_spec a b) as [H|H]; [by apply Z.ltb_lt, gmtime_key_lt|]. apply Z.ltb_ge.
  destruct (Z.eq_dec a b) as [->|]; [done|]. pose proof (gmtime_key_lt b a). lia.
Qed.

(** The years. *)
Lemma gmtime_year t y : tm_year (gmtime t) < y <-> tm_key (gmtime t) < date_key y 0 0 * 86400.
Proof.
  pose proof (gmtime_ok t) as []. unfold tm_key, date_key in *. lia.
Qed.

Lemma year_from y b t :
  tm_key (gmtime b) = (date_key y 0 1) * 86400 -> (b <= t <-> y <= tm_year (gmtime t)).
Proof.
  intros E. pose proof (gmtime_year t y). pose proof (gmtime_key_ltb t b) as Hk.
  pose proof (gmtime_ok t) as Ht.
  assert (Hd : tm_key (gmtime t) < date_key y 0 0 * 86400 <-> tm_key (gmtime t) < date_key y 0 1 * 86400).
  { destruct Ht. unfold tm_key, date_key. lia. }
  rewrite E in Hk. destruct (Z.ltb_spec t b), (Z.ltb_spec (tm_key (gmtime t)) (date_key y 0 1 * 86400)); lia.
Qed.

(** [newer] compares the times, field by field. *)
Lemma newer_key a b :
  tm_ok a -> tm_ok b ->
  newer (tm_fields a) (tm_fields b) = if tm_key b <? tm_key a then 1 else 0.
Proof.
  intros [] []. unfold tm_fields, tm_key, date_key. cbn [newer].
  repeat match goal with
  | |- (if ?x =? 0 then _ else _) = _ => destruct (Z.eqb_spec x 0)
  | |- (if 0 <? ?x then _ else _) = _ => destruct (Z.ltb_spec 0 x)
  end; symmetry; match goal with |- (if ?x <? ?y then _ else _) = _ => destruct (Z.ltb_spec x y) end;
    first [done|lia].
Qed.

(** * What is printed is read *)

(** A number is read up to the character behind it. *)
Lemma scan_digits_skip ds c r :
  forallb isdigit ds = true -> ds <> [] -> isdigit c = false ->
  scan_digits (ds ++ c :: r) = Some (digits_value ds 0, c :: r).
Proof.
  intros Hd Hne Hc. destruct ds as [|d ds]; [done|]. unfold scan_digits. cbn [app].
  simpl in Hd. apply andb_true_iff in Hd as [-> Hd]. f_equal. f_equal.
  - change (d :: ds ++ c :: r) with ((d :: ds) ++ c :: r).
    destruct (isdigit d) eqn:E.
    + rewrite digits_value_app by (simpl; by rewrite E). simpl. by rewrite Hc.
    + cbn [app digits_value]. by rewrite E.
  - clear Hne. revert Hd. generalize d. induction ds as [|x ds IH]; intros y Hd.
    + simpl. by destruct (isdigit y); rewrite Hc.
    + simpl in Hd. apply andb_true_iff in Hd as [Hx Hd]. specialize (IH x Hd). cbn [app]. rewrite Hx in *. exact IH.
Qed.

Lemma scan_int_digits ds c r :
  forallb isdigit ds = true -> ds <> [] -> isdigit c = false -> digits_value ds 0 < 2 ^ 31 ->
  scan_int (ds ++ c :: r) = Some (digits_value ds 0, c :: r) /\
  scan_int (32 :: ds ++ c :: r) = Some (digits_value ds 0, c :: r).
Proof.
  intros Hd Hne Hc Hv. change (scan_int (32 :: ds ++ c :: r)) with (scan_int (ds ++ c :: r)).
  assert (H : scan_int (ds ++ c :: r) = Some (digits_value ds 0, c :: r)); [|done].
  pose proof (scan_digits_skip ds c r Hd Hne Hc) as Hs.
  destruct (digits_value_mono ds 0 Hd) as [Hge _]; [lia|].
  assert (Hi : i32 (long_clamp (digits_value ds 0)) = digits_value ds 0).
  { unfold long_clamp, i32. rewrite Z.mod_small; lia. }
  destruct ds as [|d ds]; [done|]. unfold scan_int. cbn [app] in *.
  simpl in Hd. apply andb_true_iff in Hd as [Hd _]. unfold isdigit in Hd. bprop.
  assert (Hsp : isspace d = false) by (unfold isspace; zcases).
  cbn [skip_spaces]. rewrite Hsp. destruct (Z.eqb_spec d 45); [lia|].
  destruct (Z.eqb_spec d 43); [lia|]. rewrite Hs. simpl in Hi |- *. by rewrite Hi.
Qed.

Lemma two_digits a :
  0 <= a < 100 -> forallb isdigit (two a) = true /\ two a <> [] /\ digits_value (two a) 0 = a.
Proof.
  intros H. assert (0 <= a / 10 <= 9 /\ 0 <= a mod 10 <= 9) as [H1 H2] by zdiv.
  assert (E1 : isdigit (48 + a / 10) = true) by (unfold isdigit; zcases).
  assert (E2 : isdigit (48 + a mod 10) = true) by (unfold isdigit; zcases).
  unfold two. cbn [forallb digits_value]. rewrite E1, E2. split; [done|]. split; [done|]. zdiv.
Qed.

(** One directive. *)
Lemma sscanf_int f s v r : scan_int s = Some (v, r) -> sscanf (D_int :: f) s = inl v :: sscanf f r.
Proof. simpl. by intros ->. Qed.

Lemma sscanf_two f a c r :
  0 <= a < 100 -> isdigit c = false ->
  sscanf (D_int :: f) (two a ++ c :: r) = inl a :: sscanf f (c :: r) /\
  sscanf (D_int :: f) (32 :: two a ++ c :: r) = inl a :: sscanf f (c :: r).
Proof.
  intros Ha Hc. destruct (two_digits a Ha) as (H1 & H2 & H3).
  destruct (scan_int_digits (two a) c r H1 H2 Hc) as [E1 E2]; [lia|].
  rewrite H3 in E1, E2. split; by apply sscanf_int.
Qed.

Lemma sscanf_space f c r : isspace c = false -> sscanf (D_space :: f) (32 :: c :: r) = sscanf f (c :: r).
Proof. cbn [sscanf skip_spaces]. change (isspace 32) with true. by intros ->. Qed.

Lemma sscanf_lit f c s : sscanf (D_lit c :: f) (c :: s) = sscanf f s.
Proof. simpl. by rewrite Z.eqb_refl. Qed.

Lemma sscanf_word f a b c r :
  isspace a = false -> isspace b = false -> isspace c = false ->
  sscanf (D_str 3 :: f) (a :: b :: c :: 32 :: r) = inr [a; b; c] :: sscanf f (32 :: r).
Proof. intros Ha Hb Hc. cbn [sscanf skip_spaces]. rewrite Ha. cbn [scan_word]. by rewrite Ha, Hb, Hc. Qed.

Lemma two_not_space a : 0 <= a < 100 -> exists c r, two a = c :: r /\ isspace c = false.
Proof.
  intros Ha. exists (48 + a / 10), [48 + a mod 10]. split; [done|]. unfold isspace.
  assert (0 <= a / 10 <= 9) by zdiv. zcases.
Qed.

Lemma sscanf_hms h m s c r :
  0 <= h < 100 -> 0 <= m < 100 -> 0 <= s < 100 -> isdigit c = false ->
  sscanf hms (two h ++ 58 :: two m ++ 58 :: two s ++ c :: r) = [inl h; inl m; inl s].
Proof.
  intros Hh Hm Hs Hc. unfold hms.
  rewrite (proj1 (sscanf_two _ h 58 _ Hh eq_refl)), sscanf_lit.
  rewrite (proj1 (sscanf_two _ m 58 _ Hm eq_refl)), sscanf_lit.
  by rewrite (proj1 (sscanf_two _ s c _ Hs Hc)).
Qed.

(** The name of a month in the table. *)
Definition month_name (m : Z) : bytes := slice month_tab (4 * m) 3.

Lemma month_cases m :
  0 <= m <= 11 ->
  slice month_tab (4 * m) 4 = month_name m ++ [32] /\ month2int (month_name m) = Some m /\
  exists a b c, month_name m = [a; b; c] /\ isspace a = false /\ isspace b = false /\ isspace c = false.
Proof.
  intros H. assert (m = 0 \/ m = 1 \/ m = 2 \/ m = 3 \/ m = 4 \/ m = 5 \/ m = 6 \/ m = 7 \/ m = 8 \/
    m = 9 \/ m = 10 \/ m = 11) as Hm by lia.
  repeat destruct Hm as [->|Hm]; [..|subst m];
    (split; [by vm_compute|]); (split; [by vm_compute|]); eexists _, _, _; by vm_compute.
Qed.

Lemma weekday_cases w :
  0 <= w <= 6 -> exists d, slice day_tab (4 * w) 4 = d /\ length d = 4%nat /\
    forall s, skip_weekday (d ++ 32 :: s) = 32 :: s.
Proof.
  intros H. assert (w = 0 \/ w = 1 \/ w = 2 \/ w = 3 \/ w = 4 \/ w = 5 \/ w = 6) as Hw by lia.
  repeat destruct Hw as [->|Hw]; [..|subst w];
    eexists; (split; [by vm_compute|]); (split; [done|]); intros s; reflexivity.
Qed.

(** The text behind the weekday. *)
Definition rfc822_rest (t : tm) : bytes :=
  two (tm_mday t) ++ [32] ++ month_name (tm_mon t) ++ [32] ++ simple_itoa (1900 + tm_year t)
  ++ [32] ++ two (tm_hour t) ++ [58] ++ two (tm_min t) ++ [58] ++ two (tm_sec t) ++ bs " GMT".

Lemma sscanf_rest t :
  tm_ok t -> 0 <= 1900 + tm_year t < 2 ^ 31 ->
  sscanf (fmt_rfc1123 3) (32 :: rfc822_rest t) =
  [inl (tm_mday t); inr (month_name (tm_mon t)); inl (1900 + tm_year t);
   inl (tm_hour t); inl (tm_min t); inl (tm_sec t)].
Proof.
  intros [] Hy. destruct (month_cases (tm_mon t)) as (_ & _ & a & b & c & Em & Ha & Hb & Hc); [done|].
  unfold rfc822_rest, fmt_rfc1123. rewrite Em. cbn [app].
  rewrite (proj2 (sscanf_two _ (tm_mday t) 32 _ ltac:(lia) eq_refl)), sscanf_space by done.
  rewrite sscanf_word by done. do 2 f_equal.
  destruct (simple_itoa_spec (1900 + tm_year t)) as (Y1 & Y2 & Y3); [unfold UINT_MAX; lia|].
  change (bs " GMT") with (32 :: bs "GMT").
  destruct (scan_int_digits _ 32 (two (tm_hour t) ++ 58 :: two (tm_min t) ++ 58 :: two (tm_sec t) ++ 32 :: bs "GMT")
    Y1 Y2 eq_refl) as [E _]; [lia|]. rewrite Y3 in E.
  destruct (simple_itoa (1900 + tm_year t)) as [|y ys] eqn:Ey; [done|].
  assert (Hys : isspace y = false).
  { simpl in Y1. apply andb_true_iff in Y1 as [Y1 _]. unfold isdigit, isspace in *. bprop. zcases. }
  cbn [app] in *. rewrite sscanf_space by done. rewrite (sscanf_int _ _ _ _ E). f_equal.
  destruct (two_not_space (tm_hour t)) as (x & r & Ex & Hx); [lia|].
  rewrite Ex. cbn [app]. rewrite sscanf_space by done.
  change (x :: r ++ ?l) with ((x :: r) ++ l). rewrite <- Ex.
  by apply (sscanf_hms (tm_hour t) (tm_min t) (tm_sec t) 32 (bs "GMT")); lia || done.
Qed.

Lemma rfc822_split t :
  tm_ok t -> exists d, rfc822_text t = d ++ 32 :: rfc822_rest t /\ length d = 4%nat /\
    skip_weekday (rfc822_text t) = 32 :: rfc822_rest t.
Proof.
  intros []. destruct (weekday_cases (tm_wday t)) as (d & Ed & Hl & Hs); [done|].
  destruct (month_cases (tm_mon t)) as (Em & _); [done|].
  assert (E : rfc822_text t = d ++ 32 :: rfc822_rest t).
  { unfold rfc822_text, rfc822_rest. rewrite Ed, Em, <- app_assoc. done. }
  exists d. split; [done|]. split; [done|]. by rewrite E, Hs.
Qed.

(** A year of four digits has four characters. *)
Lemma year_digits n : 1000 <= n <= 9999 -> zlen (simple_itoa n) = 4.
Proof.
  intros H. unfold simple_itoa. replace (u32 n) with n by (symmetry; apply Z.mod_small; lia).
  cbn [itoa_loop].
  destruct (Z.eqb_spec (n / 10) 0); [zdiv|]. destruct (Z.eqb_spec (n / 10 / 10) 0); [zdiv|].
  destruct (Z.eqb_spec (n / 10 / 10 / 10) 0); [zdiv|].
  by destruct (Z.eqb_spec (n / 10 / 10 / 10 / 10) 0); [|zdiv].
Qed.

Lemma rfc822_fits t : tm_ok t -> 1000 <= 1900 + tm_year t <= 9999 -> zlen (rfc822_text t) = 29.
Proof.
  intros Ht Hy. destruct (rfc822_split t Ht) as (d & -> & Hd & _). destruct Ht.
  destruct (month_cases (tm_mon t)) as (_ & _ & a & b & c & Em & _); [done|].
  unfold rfc822_rest. rewrite Em. pose proof (year_digits _ Hy).
  rewrite !zlen_app, zlen_cons, !zlen_app. unfold zlen in *. rewrite Hd. cbn [length two bs] in *.
  change (length (bs " GMT")) with 4%nat. lia.
Qed.

(** The date is read back, but for the weekday, unless its year is behind 2020. *)
Lemma date_read t :
  tm_ok t -> 70 <= tm_year t <= 8099 ->
  date_to_tm (rfc822_text t) = Some (if 120 <? tm_year t then None
    else Some (mkTm (tm_sec t) (tm_min t) (tm_hour t) (tm_mday t) (tm_mon t) (tm_year t) 0)).
Proof.
  intros Ht Hy. unfold date_to_tm, scan_date. destruct (rfc822_split t Ht) as (d & _ & _ & Hs).
  rewrite Hs, (sscanf_rest t Ht) by lia. destruct Ht.
  destruct (month_cases (tm_mon t)) as (_ & Em & _); [done|].
  destruct (Z.ltb_spec (1900 + tm_year t) 70); [lia|].
  destruct (Z.ltb_spec 1900 (1900 + tm_year t)); [|lia].
  replace (1900 + tm_year t - 1900) with (tm_year t) by lia. rewrite Em. simpl.
  destruct (Z.eqb_spec (tm_mon t) (-1)); [lia|].
  replace ((tm_sec t <? 0) || (59 <? tm_sec t)) with false by (symmetry; zcases).
  replace ((tm_min t <? 0) || (59 <? tm_min t)) with false by (symmetry; zcases).
  replace ((tm_hour t <? 0) || (23 <? tm_hour t)) with false by (symmetry; zcases).
  replace ((tm_mday t <? 1) || (31 <? tm_mday t)) with false by (symmetry; zcases).
  replace ((tm_mon t <? 0) || (11 <? tm_mon t)) with false by (symmetry; zcases).
  replace ((tm_year t <? 70) || (120 <? tm_year t)) with (120 <? tm_year t)
    by (destruct (Z.ltb_spec (tm_year t) 70); [lia|done]).
  by destruct (120 <? tm_year t).
Qed.

(** A date that the server printed for the time [t], of 1970 to 9999, is read back: up to
    the end of 2020 [modified_since] answers whether the file is newer than [t]; later
    dates are refused. *)
Lemma modified_since_printed now t mtime :
  0 < t < 253402300800 ->
  exists date, rfc822_time_buf now t = Some date /\
    modified_since mtime date =
      Some (if 1609459200 <=? t then -1 else if t <? mtime then 1 else 0).
Proof.
  intros Ht. pose proof (gmtime_ok t) as Hok.
  assert (Hlo : 70 <= tm_year (gmtime t)) by (apply (year_from 70 0); [done|lia]).
  assert (Hhi : ~ 8100 <= tm_year (gmtime t)).
  { rewrite <- (year_from 8100 253402300800); [lia|done]. }
  assert (H29 : zlen (rfc822_text (gmtime t)) = 29) by (apply rfc822_fits; [done|lia]).
  exists (rfc822_text (gmtime t)). unfold rfc822_time_buf. destruct (Z.eqb_spec t 0); [lia|].
  rewrite H29. split; [done|].
  unfold modified_since. rewrite date_read by (done || lia).
  pose proof (newer_key (gmtime mtime) (gmtime t) (gmtime_ok _) (gmtime_ok _)) as Hn.
  rewrite gmtime_key_ltb in Hn. set (g := gmtime t) in *.
  pose proof (year_from 121 1609459200 t eq_refl) as Hy. change (gmtime t) with g in Hy.
  destruct (Z.leb_spec 1609459200 t), (Z.ltb_spec 120 (tm_year g)); try lia; [done|].
  cbn [mbind option_bind mret option_ret]. f_equal.
  change (tm_fields (mkTm _ _ _ _ _ _ _)) with (tm_fields g). exact Hn.
Qed.

(** * The time of the log *)

Lemma print_long_nonneg z : 0 <= z -> print_long z = itoa_loop 21 z [].
Proof. intros H. unfold print_long. by destruct (Z.ltb_spec z 0); [lia|]. Qed.

Lemma digits_log_char l : forallb isdigit l = true -> forallb log_char l = true.
Proof.
  rewrite !forallb_forall. intros H x Hx%H. unfold isdigit, log_char in *. bprop. zcases.
Qed.

Lemma itoa_log_char i : 0 <= i < 10 ^ 21 -> forallb log_char (itoa_loop 21 i []) = true.
Proof.
  intros Hi. apply digits_log_char. by destruct (itoa_loop_spec 21 i [] Hi) as (H & _).
Qed.

Lemma print_long_log_char z : - 2 ^ 63 <= z < 2 ^ 64 -> forallb log_char (print_long z) = true.
Proof.
  intros Hz. unfold print_long. destruct (Z.ltb_spec z 0).
  - apply (itoa_log_char (- z)). lia.
  - apply itoa_log_char. lia.
Qed.

(** A number of at most [w] digits fills the field. *)
Lemma print_two z :
  0 <= z <= 99 -> forallb log_char (print_zeros 2 z) = true /\ zlen (print_zeros 2 z) = 2.
Proof.
  intros H. unfold print_zeros. destruct (Z.ltb_spec z 0); [lia|]. split.
  - rewrite forallb_app, print_long_log_char by lia. rewrite andb_true_r. apply digits_log_char.
    by induction (2 - length (print_long z))%nat.
  - rewrite print_long_nonneg by lia. unfold zlen. rewrite length_app, length_replicate.
    cbn [itoa_loop]. destruct (Z.eqb_spec (z / 10) 0); [done|].
    by destruct (Z.eqb_spec (z / 10 / 10) 0); [|zdiv].
Qed.

Lemma print_four z :
  1000 <= z <= 9999 -> forallb log_char (print_blanks 4 z) = true /\ zlen (print_blanks 4 z) = 4.
Proof.
  intros H. pose proof (year_digits z H) as Hy. unfold simple_itoa in Hy.
  replace (u32 z) with z in Hy by (symmetry; apply Z.mod_small; lia).
  rewrite <- print_long_nonneg in Hy by lia. unfold print_blanks. unfold zlen in *.
  replace (4 - length (print_long z))%nat with O by lia. cbn [replicate app].
  split; [apply print_long_log_char; lia|done].
Qed.

(** The fields are those of a time up to the year 9999. *)
Definition clock_ok (lc : tm) : Prop := tm_ok lc /\ 1000 <= tm_year lc + 1900 <= 9999.

(** The text is a part of one line, and fits into the 60 bytes of [timestring]. *)
Lemma commonlog_ok lc :
  clock_ok lc -> exists text, commonlog_text lc = Some text /\
    forallb log_char text = true /\ zlen text = 26.
Proof.
  intros [[] Hy]. unfold commonlog_text.
  assert (exists d, zget wday_tab (tm_wday lc) = Some d /\ forallb log_char d = true /\ zlen d = 3)
    as (d & -> & Hd & Hl).
  { assert (tm_wday lc = 0 \/ tm_wday lc = 1 \/ tm_wday lc = 2 \/ tm_wday lc = 3 \/
      tm_wday lc = 4 \/ tm_wday lc = 5 \/ tm_wday lc = 6) as Hw by lia.
    repeat destruct Hw as [->|Hw]; [..|rewrite Hw]; eexists; by vm_compute. }
  eexists. split; [reflexivity|].
  destruct (print_four (tm_year lc + 1900)) as [Y1 Y2]; [done|].
  destruct (print_two (tm_mon lc + 1)) as [M1 M2]; [lia|].
  destruct (print_two (tm_mday lc)) as [D1 D2]; [lia|].
  destruct (print_two (tm_hour lc)) as [H1 H2]; [lia|].
  destruct (print_two (tm_min lc)) as [I1 I2]; [lia|].
  destruct (print_two (tm_sec lc)) as [S1 S2]; [lia|].
  rewrite !forallb_app, !zlen_app, Y1, Y2, M1, M2, D1, D2, H1, H2, I1, I2, S1, S2, Hd, Hl.
  done.
Qed.

Lemma gmtime_clock t : 0 <= t < 253402300800 -> clock_ok (gmtime t).
Proof.
  intros Ht. split; [apply gmtime_ok|].
  assert (70 <= tm_year (gmtime t)) by (apply (year_from 70 0); [done|lia]).
  assert (~ 8100 <= tm_year (gmtime t)).
  { rewrite <- (year_from 8100 253402300800); [lia|done]. }
  lia.
Qed.
