(* ===== verification/Addr.v ===== *)
(** ip.c: the addresses of a connection as text.  [bind_server] is in Boot. *)

From S2P Require Import Prelude Types Util UtilProofs Dates DateProofs.

(** The C library's inet_ntoa: ["%d.%d.%d.%d"]. *)
Definition inet_ntoa (a : bytes) : bytes :=
  match a with
  | [b0; b1; b2; b3] =>
      print_long b0 ++ [46] ++ print_long b1 ++ [46] ++ print_long b2 ++ [46] ++ print_long b3
  | _ => []
  end.

(** The string that is in [dest] at the end; [None]: it does not fit. *)
Definition ascii_sockaddr (s : sockaddr) (len : Z) : option bytes :=
  let buf := inet_ntoa (sin_addr s) in
  let newlen := u32 (zlen buf) in
  if len <? u32 (newlen + 1) then None else Some buf.

(** The C library's ntohs. *)
Definition ntohs (p : Z * Z) : Z := 256 * fst p + snd p.

Definition net_port (s : sockaddr) : Z := ntohs (sin_port s).

Example ascii_sockaddr_example :
  ascii_sockaddr (mkSockaddr [192; 168; 0; 17] (31, 144)) BOA_NI_MAXHOST = Some (bs "192.168.0.17")
  /\ net_port (mkSockaddr [192; 168; 0; 17] (31, 144)) = 8080.
Proof. vm_compute. done. Qed.

(** * The text of an address *)

Definition sockaddr_ok (s : sockaddr) : Prop :=
  length (sin_addr s) = 4%nat /\ forallb byte_ok (sin_addr s) = true.

Lemma print_byte b :
  byte_ok b = true -> 1 <= zlen (print_long b) <= 3 /\ forallb log_char (print_long b) = true.
Proof.
  unfold byte_ok. intros H. bprop. split; [|apply print_long_log_char; lia].
  rewrite print_long_nonneg by lia. cbn [itoa_loop].
  destruct (Z.eqb_spec (b / 10) 0); [done|]. destruct (Z.eqb_spec (b / 10 / 10) 0); [done|].
  by destruct (Z.eqb_spec (b / 10 / 10 / 10) 0); [|zdiv].
Qed.

Lemma log_char_nonul l : forallb log_char l = true -> nonul l = true.
Proof.
  unfold nonul. rewrite !forallb_forall. intros H x Hx%H. unfold log_char in Hx. bprop. zcases.
Qed.

(** The text of every address of four bytes fits into the arrays of the request: the two
    calls in [get_request] never fail, and the text can go into a log line. *)
Theorem ascii_sockaddr_fits s :
  sockaddr_ok s -> exists text, ascii_sockaddr s BOA_NI_MAXHOST = Some text /\
    zlen text <= 15 /\ forallb log_char text = true /\ nonul text = true.
Proof.
  intros [Hl Hb]. unfold ascii_sockaddr. destruct (sin_addr s) as [|a [|b [|c [|d [|]]]]]; try done.
  cbn [forallb] in Hb. rewrite !andb_true_iff in Hb. destruct Hb as (Ha & Hb & Hc & Hd & _).
  destruct (print_byte a Ha) as [L1 C1]. destruct (print_byte b Hb) as [L2 C2].
  destruct (print_byte c Hc) as [L3 C3]. destruct (print_byte d Hd) as [L4 C4].
  set (t := inet_ntoa [a; b; c; d]).
  assert (Ht : zlen t <= 15).
  { unfold t, inet_ntoa. rewrite !zlen_app. change (zlen [46]) with 1. lia. }
  assert (Hlog : forallb log_char t = true).
  { unfold t, inet_ntoa. by rewrite !forallb_app, C1, C2, C3, C4. }
  pose proof (zlen_nonneg t). rewrite (u32_small (zlen t)), u32_small by lia.
  unfold BOA_NI_MAXHOST. destruct (Z.ltb_spec 20 (zlen t + 1)); [lia|].
  exists t. split_and!; try done. by apply log_char_nonul.
Qed.

Lemma ascii_sockaddr_fits_witness : exists text,
  ascii_sockaddr (mkSockaddr [255; 255; 255; 255] (0, 80)) BOA_NI_MAXHOST = Some text /\
  zlen text <= 15.
Proof.
  destruct (ascii_sockaddr_fits (mkSockaddr [255; 255; 255; 255] (0, 80))) as (t & E & H & _);
    [by split|]. exists t. split; [exact E|exact H].
Defined.
