(* ===== verification/Hash.v ===== *)
(** hash.c: the chained hash tables of MIME types and of home directories.  The
    abstract view of a table is a finite map ([table_map]): an insertion adds a
    key that is not there and keeps the value of one that is. *)

From S2P Require Import Prelude Types Machine Escape ScriptOS.

(** * The hash function *)

Definition OFFSET_BASIS : Z := 2166136261.
Definition FNV_PRIME : Z := 16777619.
Definition MAX_HASH_LENGTH : nat := 4.

(** One round; the character is a signed [char]. *)
Definition fnv1a_round (hash c : Z) : Z :=
  u32 (Z.lxor hash (u32 (schar c)) * FNV_PRIME).

Fixpoint fnv1a_loop (count : nat) (str : bytes) (hash : Z) : Z :=
  match str, count with
  | c :: str', S count' => fnv1a_loop count' str' (fnv1a_round hash c)
  | _, _ => hash
  end.

Definition fnv1a_hash (str : bytes) : Z :=
  match str with
  | c :: str' => fnv1a_loop MAX_HASH_LENGTH str' (fnv1a_round OFFSET_BASIS c)
  | [] => OFFSET_BASIS
  end.

(** The functions that other builds use instead (WANT_SDBM_HASH, WANT_DJB2_HASH,
    WANT_ICKY_HASH).  The additions are those of unsigned numbers. *)
Fixpoint sdbm_loop (count : nat) (str : bytes) (hash : Z) : Z :=
  match str, count with
  | c :: str', S count' =>
      sdbm_loop count' str' (u32 (schar c + Z.shiftl hash 6 + Z.shiftl hash 16 - hash))
  | _, _ => hash
  end.
Definition sdbm_hash (str : bytes) : Z := sdbm_loop MAX_HASH_LENGTH str 0.

Fixpoint djb2_loop (count : nat) (str : bytes) (hash : Z) : Z :=
  match str, count with
  | c :: str', S count' => djb2_loop count' str' (u32 (Z.shiftl hash 5 + hash + schar c))
  | _, _ => hash
  end.
Definition djb2_hash (str : bytes) : Z := djb2_loop MAX_HASH_LENGTH str 5381.

(** [None]: a byte behind the string is read. *)
Definition four_char_hash (str : bytes) : option Z :=
  let at_ (i : Z) := schar <$> zget (str ++ [0]) i in
  b0 ← at_ 0;
  b1 ← at_ 1;
  rest ←
    (if negb (b1 =? 0) then Some b1
     else
       b2 ← at_ 2;
       rest ← (if negb (b2 =? 0) then Some b2
               else b3 ← at_ 3; Some (251 + (if negb (b3 =? 0) then b3 else 257)));
       Some (241 + rest));
  Some (u32 (b0 + rest)).

(** Of a name of two characters or more only the first two count, and for a name of one
    character the third and the fourth byte are read behind the end of the string. *)
Lemma four_char_hash_two a b str :
  schar b <> 0 -> four_char_hash (a :: b :: str) = Some (u32 (schar a + schar b)) /\
  four_char_hash [a] = None.
Proof.
  intros Hb. split; [|done]. unfold four_char_hash, zget. simpl.
  by destruct (Z.eqb_spec (schar b) 0).
Qed.

Definition boa_hash (str : option bytes) : Z :=
  match str with
  | None | Some [] => 0
  | Some s => fnv1a_hash s
  end.

Definition get_mime_hash_value (extension : option bytes) : Z :=
  boa_hash extension mod MIME_HASHTABLE_SIZE.

Definition get_homedir_hash_value (name : option bytes) : Z :=
  boa_hash name mod PASSWD_HASHTABLE_SIZE.

(** * Buckets and tables *)

Notation table := (list (list hash_struct)).

Definition bucket_find (b : list hash_struct) (k : bytes) : option hash_struct :=
  List.find (fun e => streq (key e) k) b.

Definition hash_clear (t : table) : table := (fun _ => []) <$> t.

Section hash.
Context {os : OS}.

(** The new table and the entry, [None] for NULL. *)
Definition hash_insert (t : table) (hash : Z) (k v : option bytes) :
    M (table * option hash_struct) :=
  match k, v with
  | None, _ | Some [], _ | _, None | _, Some [] => mret (t, None)
  | Some k, Some v =>
      b ← checked (zget t hash);
      match bucket_find b k with
      | Some e => mret (t, Some e)
      | None =>
          ok ← call (os_malloc 24);
          if negb ok then mret (t, None)
          else
            ok1 ← call (os_malloc (zlen k + 1));
            ok2 ← call (os_malloc (zlen v + 1));
            if negb ok1 || negb ok2 then mret (t, None)
            else
              let trailer := mkHash k v in
              mret (<[Z.to_nat hash := b ++ [trailer]]> t, Some trailer)
      end
  end.

Definition hash_find (t : table) (k : option bytes) (hash : Z) :
    M (option hash_struct) :=
  b ← checked (zget t hash);
  match k with
  | None | Some [] => mret None
  | Some k => mret (bucket_find b k)
  end.

(** * MIME types *)

Definition add_mime_type (extension type : bytes) : M unit :=
  g ← srv;
  let hash := get_mime_hash_value (Some extension) in
  res ← hash_insert (mime_hashtable g) hash (Some extension) (Some type);
  let '(t, e) := (res : table * option hash_struct) in
  upd_srv (set_mime_hashtable t) ;;
  match e with None => die | Some _ => mret tt end.

Definition get_mime_type (filename : bytes) : M bytes :=
  g ← srv;
  match filename with
  | [] => mret (default_type g)
  | _ =>
      match strrchr filename 46 with
      | None => mret (default_type g)
      | Some i =>
          match zdrop (i + 1) filename with
          | [] => mret (default_type g)
          | extension =>
              let hash := get_mime_hash_value (Some extension) in
              current ← hash_find (mime_hashtable g) (Some extension) hash;
              mret (from_option value (default_type g) current)
          end
      end
  end.

(** * Home directories *)

Definition get_home_dir (name : bytes) : M (option bytes) :=
  g ← srv;
  let hash := get_homedir_hash_value (Some name) in
  current ← hash_find (passwd_hashtable g) (Some name) hash;
  match current with
  | Some e => mret (Some (value e))
  | None =>
      passwdbuf ← call (os_getpwnam name);
      match passwdbuf with
      | None => mret None
      | Some pw_dir =>
          res ← hash_insert (passwd_hashtable g) hash (Some name) (Some pw_dir);
          let '(t, e) := (res : table * option hash_struct) in
          upd_srv (set_passwd_hashtable t) ;;
          mret (value <$> e)
      end
  end.

Definition dump_mime : M unit :=
  g ← srv; upd_srv (set_mime_hashtable (hash_clear (mime_hashtable g))).

Definition dump_passwd : M unit :=
  g ← srv; upd_srv (set_passwd_hashtable (hash_clear (passwd_hashtable g))).
End hash.

(** * The table as a finite map *)

(** A table of [n] buckets in which the entries of bucket [i] hash to [i] and
    no key occurs twice. *)
Record table_ok (n : Z) (t : table) : Prop := {
  table_len : zlen t = n;
  table_hash : forall i b e, t !! i = Some b -> e ∈ b ->
    key e <> [] /\ boa_hash (Some (key e)) mod n = Z.of_nat i;
  table_nodup : forall i b, t !! i = Some b -> NoDup (key <$> b)
}.

(** A table without entries. *)
Lemma table_ok_nil n t : zlen t = n -> Forall (eq []) t -> table_ok n t.
Proof.
  intros Hl Ht. rewrite Forall_lookup in Ht. split; [done| |].
  - intros i b e Hi He. rewrite <- (Ht i b Hi) in He. by apply elem_of_nil in He.
  - intros i b Hi. rewrite <- (Ht i b Hi). apply NoDup_nil_2.
Qed.

Lemma hash_clear_ok t : table_ok (zlen t) (hash_clear t).
Proof.
  apply table_ok_nil.
  - unfold hash_clear, zlen. by rewrite length_fmap.
  - apply Forall_fmap, Forall_true. done.
Qed.

(** The value of a key: what a search of its bucket finds. *)
Definition table_get (n : Z) (t : table) (k : bytes) : option bytes :=
  b ← zget t (boa_hash (Some k) mod n);
  value <$> bucket_find b k.

Lemma bucket_find_Some b k e : bucket_find b k = Some e -> e ∈ b /\ key e = k.
Proof.
  intros H%find_some. destruct H as [Hin Hk].
  split; [by apply list_elem_of_In|]. unfold streq in Hk. by bprop.
Qed.

Lemma bucket_find_None b k : bucket_find b k = None -> forall e, e ∈ b -> key e <> k.
Proof.
  intros H e He E. eapply find_none in H; [|by apply list_elem_of_In].
  unfold streq in H. rewrite bool_decide_eq_false in H. done.
Qed.

Lemma bucket_find_app b k k' v :
  bucket_find b k = None ->
  bucket_find (b ++ [mkHash k v]) k'
  = if streq k k' then Some (mkHash k v) else bucket_find b k'.
Proof.
  intros H. unfold bucket_find in *. induction b as [|e b IH]; simpl in *.
  - by destruct (streq k k').
  - destruct (streq (key e) k) eqn:E1; [done|].
    destruct (streq (key e) k') eqn:E2; [|auto].
    destruct (streq k k') eqn:E3; [|done].
    unfold streq in *. bprop. congruence.
Qed.

Lemma zget_insert_ne {A} (l : list A) i j x :
  0 <= i -> i <> j -> zget (<[Z.to_nat i := x]> l) j = zget l j.
Proof.
  intros. unfold zget. destruct (Z.leb_spec 0 j); [|done].
  apply list_lookup_insert_ne. lia.
Qed.

Lemma zget_insert_eq {A} (l : list A) i x :
  0 <= i < zlen l -> zget (<[Z.to_nat i := x]> l) i = Some x.
Proof.
  intros. unfold zget. destruct (Z.leb_spec 0 i); [|lia].
  apply list_lookup_insert_eq. unfold zlen in *. lia.
Qed.

(** Adding an entry to its bucket adds it to the map. *)
Lemma table_add n t k v b :
  0 < n -> table_ok n t -> k <> [] ->
  let h := boa_hash (Some k) mod n in
  zget t h = Some b -> bucket_find b k = None ->
  let t' := <[Z.to_nat h := b ++ [mkHash k v]]> t in
  table_ok n t' /\
  forall k', table_get n t' k' = if streq k k' then Some v else table_get n t k'.
Proof.
  intros Hn [Hl Hh Hd] Hk h Hb Hf t'.
  pose proof (zget_lt _ _ _ Hb) as Hlt.
  assert (Hb' : t !! Z.to_nat h = Some b).
  { unfold zget in Hb. by destruct (Z.leb_spec 0 h). }
  split; [split|].
  - unfold t', zlen. by rewrite length_insert.
  - intros i b' e Hi He. unfold t' in Hi.
    apply list_lookup_insert_Some in Hi as [(<- & <- & ?)|[? Hi]]; [|by eapply Hh].
    apply elem_of_app in He as [He|He]; [by eapply Hh|].
    apply list_elem_of_singleton in He as ->. simpl. split; [done|].
    change (h = Z.of_nat (Z.to_nat h)). lia.
  - intros i b' Hi. unfold t' in Hi.
    apply list_lookup_insert_Some in Hi as [(<- & <- & ?)|[? Hi]]; [|by eapply Hd].
    rewrite fmap_app. apply NoDup_app. split_and!; [by eapply Hd| |apply NoDup_singleton].
    simpl. intros x (e & -> & He)%list_elem_of_fmap Hx%list_elem_of_singleton.
    exact (bucket_find_None b k Hf e He Hx).
  - intros k'. unfold table_get. fold h. set (h' := boa_hash (Some k') mod n).
    destruct (decide (h = h')) as [E|E].
    + rewrite <- E. unfold t'. rewrite zget_insert_eq by done. rewrite Hb. simpl.
      rewrite bucket_find_app by done. by destruct (streq k k').
    + unfold t'. rewrite zget_insert_ne by lia.
      destruct (streq k k') eqn:Es; [|done]. unfold streq in Es. bprop. by subst.
Qed.

Section hash_proofs.
Context {os : OS}.

(** What an insertion into a good table does: nothing when the key is there
    or memory is short, else it adds the key to the map. *)
Definition inserted (n : Z) (t : table) (k v : bytes) (t' : table)
    (r : option hash_struct) : Prop :=
  (t' = t /\ r = None /\ table_get n t k = None /\
     (exists m w, fst (os_malloc m w) = false)) \/
  (t' = t /\ exists e, r = Some e /\ key e = k /\ table_get n t k = Some (value e)) \/
  (r = Some (mkHash k v) /\ table_get n t k = None /\ table_ok n t' /\
     forall k', table_get n t' k' = if streq k k' then Some v else table_get n t k').

Lemma hash_insert_wp n t k v s :
  0 < n -> table_ok n t -> k <> [] -> v <> [] ->
  wp (hash_insert t (boa_hash (Some k) mod n) (Some k) (Some v))
    (fun '(t', r) s' => rq s' = rq s /\ sv s' = sv s /\ inserted n t k v t' r) s.
Proof.
  intros Hn Ht Hk Hv. set (h := boa_hash (Some k) mod n). pose proof Ht as [Hl _ _].
  assert (Hh : 0 <= h < n) by (by apply Z.mod_pos_bound).
  unfold hash_insert. destruct k as [|k0 k]; [done|]. destruct v as [|v0 v]; [done|].
  destruct (zget_is_Some t h) as [b Hb]; [lia|].
  rewrite Hb. wps. simpl. wps.
  assert (Hget : table_get n t (k0 :: k) = value <$> bucket_find b (k0 :: k)).
  { unfold table_get. fold h. by rewrite Hb. }
  destruct (bucket_find b (k0 :: k)) as [e|] eqn:Ef; simpl in Hget.
  { wps. split_and!; [done|done|]. right; left. split; [done|]. exists e.
    apply bucket_find_Some in Ef as [_ ->]. done. }
  assert (HN : forall m w0 w1, os_malloc m w0 = (false, w1) ->
     inserted n t (k0 :: k) (v0 :: v) t None).
  { intros m w0 w1 E. left. split_and!; auto. exists m, w0. by rewrite E. }
  wps. apply wp_call. intros [] w E0; simpl; wps; [|eauto].
  apply wp_call. intros ok1 w1 E1. wps. apply wp_call. intros ok2 w2 E2.
  destruct ok1, ok2; simpl; wps; eauto.
  split_and!; [done|done|]. right; right. split_and!; [done|done| |];
    by apply (table_add n t (k0 :: k) (v0 :: v) b).
Qed.

(** The extension that decides the type of a file. *)
Definition extension_of (filename : bytes) : option bytes :=
  i ← strrchr filename 46;
  match zdrop (i + 1) filename with [] => None | e => Some e end.

Definition mime_lookup (g : server) : bytes -> option bytes :=
  table_get MIME_HASHTABLE_SIZE (mime_hashtable g).

Lemma get_mime_type_wp filename s :
  table_ok MIME_HASHTABLE_SIZE (mime_hashtable (sv s)) ->
  wp (get_mime_type filename)
    (fun v s' => s' = s /\
       v = default (default_type (sv s))
             (extension_of filename ≫= mime_lookup (sv s))) s.
Proof.
  intros [Hl _ _]. unfold get_mime_type, extension_of. wps.
  destruct filename as [|c f]; [by wps|].
  destruct (strrchr (c :: f) 46) as [i|]; [|by wps]. simpl.
  destruct (zdrop (i + 1) (c :: f)) as [|e0 e]; [by wps|].
  unfold hash_find, mime_lookup, table_get. wps.
  fold (get_mime_hash_value (Some (e0 :: e))).
  destruct (zget_is_Some (mime_hashtable (sv s)) (get_mime_hash_value (Some (e0 :: e))))
    as [b Hb].
  { rewrite Hl. by apply Z.mod_pos_bound. }
  rewrite Hb. unfold get_mime_hash_value in Hb. wps. apply wp_ret. wps.
  cbn [mbind option_bind]. rewrite ?Hb. cbn. split; [done|].
  by destruct (bucket_find b (e0 :: e)).
Qed.
End hash_proofs.

Section hash_props.
Context {os : OS}.

(** Registering a MIME type keeps the table well formed, and from then
    on a file whose name ends in that extension gets the registered type,
    unless the extension already had one, which it keeps; the types of all
    other names are unchanged.  The program exits only when memory runs out. *)
Theorem add_mime_type_correct extension type s :
  table_ok MIME_HASHTABLE_SIZE (mime_hashtable (sv s)) ->
  extension <> [] -> type <> [] ->
  match add_mime_type extension type s with
  | Ret _ s' =>
      table_ok MIME_HASHTABLE_SIZE (mime_hashtable (sv s')) /\
      forall filename,
        wp (get_mime_type filename)
          (fun v s'' => s'' = s' /\
             v = default (default_type (sv s))
                   (e ← extension_of filename;
                    if bool_decide (e = extension)
                    then Some (default type (mime_lookup (sv s) e))
                    else mime_lookup (sv s) e)) s'
  | Exit _ => exists n w, fst (os_malloc n w) = false
  | Undef => False
  end.
Proof.
  intros Ht He Hty. unfold add_mime_type.
  destruct (wp_elim _ _ _ (hash_insert_wp MIME_HASHTABLE_SIZE (mime_hashtable (sv s))
    extension type s eq_refl Ht He Hty)) as ([t' r] & [r' g' w'] & E & Hr & Hg & H).
  simpl in Hr, Hg. subst r' g'.
  fold (get_mime_hash_value (Some extension)) in E.
  unfold srv, mbind, M_bind. cbn -[hash_insert get_mime_type]. rewrite E.
  destruct H as [(-> & -> & _ & Hm)|[(-> & e & -> & Hk & Hget)|(-> & Hget & Ht' & Hall)]];
    cbn -[get_mime_type]; [done| |].
  - split; [done|]. intros f. eapply wp_mono; [by apply get_mime_type_wp|].
    simpl. intros v s' [-> ->]. split; [done|].
    destruct (extension_of f) as [x|]; [|done]. cbn -[mime_lookup].
    case_bool_decide as Hx; [|done]. subst x.
    unfold mime_lookup. simpl. by rewrite Hget.
  - split; [done|]. intros f. eapply wp_mono; [by apply get_mime_type_wp|].
    simpl. intros v s' [-> ->]. split; [done|].
    destruct (extension_of f) as [x|]; [|done]. cbn -[mime_lookup].
    unfold mime_lookup. simpl. rewrite Hall. unfold streq.
    case_bool_decide as Hx; case_bool_decide as Hy; subst; try done.
    by rewrite Hget.
Qed.
End hash_props.

Lemma add_mime_type_correct_witness :
  match add_mime_type (bs "html") (bs "text/html") test_state with
  | Ret _ s' =>
      wp (get_mime_type (bs "/index.html"))
        (fun v s'' => s'' = s' /\ v = bs "text/html") s'
  | _ => False
  end.
Proof.
  assert (Ht : table_ok MIME_HASHTABLE_SIZE (mime_hashtable test_server)).
  { apply table_ok_nil; [reflexivity|].
    apply Forall_replicate. reflexivity. }
  pose proof (add_mime_type_correct (bs "html") (bs "text/html") test_state Ht
    ltac:(discriminate) ltac:(discriminate)) as H.
  destruct (add_mime_type (bs "html") (bs "text/html") test_state) as [u s'|s'|] eqn:E.
  - destruct H as [_ H]. eapply wp_mono; [exact (H (bs "/index.html"))|].
    intros v s2 [-> ->]. split; [reflexivity|]. vm_compute. reflexivity.
  - destruct H as (n & w & H). vm_compute in E. discriminate E.
  - exact H.
Defined.
