(* ===== verification/Response.v ===== *)
(** response.c: the status line, the headers and the body of every response.  All
    of them end in the output buffer of the request. *)

From S2P Require Import Prelude Types Machine Escape ScriptOS Buffer Util Dates Hash.

Definition HTML : bytes := bs "text/html; charset=ISO-8859-1".

Definition http_ver_string (ver : HTTP_VERSION) : bytes :=
  match ver with
  | HTTP09 => bs "HTTP/0.9"
  | HTTP10 => bs "HTTP/1.0"
  | HTTP11 => bs "HTTP/1.1"
  | HTTP_unset => bs "HTTP/1.0"
  end.

Section response.
Context {os : OS}.

(** A call of [req_write] whose result is not used. *)
Definition put (msg : bytes) : M unit := req_write msg ;; mret tt.
Definition put_html (msg : bytes) : M unit := req_write_escape_html msg ;; mret tt.
Definition put_http (msg : bytes) : M unit := req_write_escape_http msg ;; mret tt.
Definition flush_ : M unit := req_flush ;; mret tt.

(** [SQUASH_KA] of defines.h. *)
Definition SQUASH_KA : M unit := upd (set_keepalive KA_STOPPED).

(** [req->request_uri] as a string. *)
Definition uri : M bytes := r ← req; checked (cstr (request_uri r) 0).

Definition print_content_type : M unit :=
  u ← uri;
  g ← srv;
  mime_type ← get_mime_type u;
  put (bs "Content-Type: ") ;;
  put mime_type ;;
  (match default_charset g with
   | Some cs =>
       if strncaseeq mime_type (bs "text") 4 then
         put (bs "; charset=") ;; put cs
       else mret tt
   | None => mret tt
   end) ;;
  put CRLF.

Definition print_content_length : M unit :=
  r ← req;
  put (bs "Content-Length: ") ;;
  put (simple_itoa (filesize r)) ;;
  put CRLF.

Definition print_last_modified : M unit :=
  r ← req; g ← srv;
  lm ← checked (rfc822_time_buf (current_time g) (last_modified r));
  put (bs "Last-Modified: " ++ lm ++ CRLF).

Definition print_ka_phrase : M unit :=
  r ← req; g ← srv;
  if (0 <? kacount r) && bool_decide (keepalive r = KA_ACTIVE)
     && (response_status r <? 500) then
    put (bs "Connection: Keep-Alive" ++ CRLF ++ bs "Keep-Alive: timeout=") ;;
    put (simple_itoa (ka_timeout g)) ;;
    put (bs ", max=") ;;
    put (simple_itoa (kacount r)) ;;
    put CRLF
  else put (bs "Connection: close" ++ CRLF).

Definition print_http_headers : M unit :=
  g ← srv;
  date ← checked (rfc822_time_buf (current_time g) 0);
  put (bs "Date: " ++ date ++ CRLF) ;;
  (if negb (conceal_server_identity g)
   then put (bs "Server: " ++ SERVER_VERSION ++ CRLF) else mret tt) ;;
  put (bs "Accept-Ranges: bytes" ++ CRLF) ;;
  print_ka_phrase.

(** [req->ranges], which must not be NULL. *)
Definition first_range : M Range :=
  r ← req; checked (head (ranges r)).

Definition print_content_range : M unit :=
  put (bs "Content-Range: bytes ") ;;
  rg ← first_range;
  put (simple_itoa (start rg)) ;;
  put (bs "-") ;;
  put (simple_itoa (stop rg)) ;;
  put (bs "/") ;;
  r ← req;
  put (simple_itoa (filesize r)) ;;
  put CRLF.

Definition print_partial_content_continue : M unit :=
  r ← req;
  (if 1 <? numranges r
   then put (CRLF ++ bs "--THIS_STRING_SEPARATES" ++ CRLF) else mret tt) ;;
  print_content_type ;;
  print_content_range.

Definition print_partial_content_done : M unit :=
  put (CRLF ++ bs "--THIS_STRING_SEPARATES--" ++ CRLF).

Definition range_pool_push (rg : Range) : M unit :=
  g ← srv; upd_srv (set_range_pool (rg :: range_pool g)).

Definition complete_response : M Z :=
  rg ← first_range;
  r ← req;
  upd (set_ranges (tail (ranges r))) ;;
  range_pool_push rg ;;
  r ← req;
  if (response_status r =? R_PARTIAL_CONTENT) && (1 <? numranges r) then
    match ranges r with
    | _ :: _ => print_partial_content_continue ;; put CRLF ;; mret 1
    | [] =>
        print_partial_content_done ;;
        upd (set_status DONE) ;;
        flush_ ;;
        mret 1
    end
  else
    upd (set_status DONE) ;;
    mret 0.

(** The status line. *)
Definition put_status (msg : bytes) : M unit :=
  r ← req; put (http_ver_string (http_version r)) ;; put msg.

Definition send_r_continue : M unit :=
  r ← req;
  if negb (bool_decide (http_version r = HTTP11)) then mret tt
  else
    upd (set_response_status R_CONTINUE) ;;
    put_status (bs " 100 Continue" ++ CRLF ++ CRLF).

Definition send_r_request_ok : M unit :=
  upd (set_response_status R_REQUEST_OK) ;;
  r ← req;
  if bool_decide (http_version r = HTTP09) then mret tt
  else
    put_status (bs " 200 OK" ++ CRLF) ;;
    print_http_headers ;;
    if bool_decide (cgi_type r = CGI_none) then
      print_content_length ;;
      print_last_modified ;;
      print_content_type ;;
      put CRLF
    else mret tt.

Definition send_r_no_content : M unit :=
  upd (set_response_status R_NO_CONTENT) ;;
  r ← req;
  if bool_decide (http_version r = HTTP09) then mret tt
  else
    put_status (bs " 204 NO CONTENT" ++ CRLF) ;;
    print_http_headers ;;
    if bool_decide (cgi_type r = CGI_none) then put CRLF else mret tt.

Definition send_r_partial_content : M unit :=
  upd (set_response_status R_PARTIAL_CONTENT) ;;
  put_status (bs " 206 Partial Content" ++ CRLF) ;;
  print_http_headers ;;
  print_last_modified ;;
  r ← req;
  (if 1 <? numranges r then
     put (bs "Content-Type: multipart/byteranges; "
          ++ bs "boundary=THIS_STRING_SEPARATES" ++ CRLF) ;;
     put CRLF
   else
     put (bs "Content-Length: ") ;;
     rg ← first_range;
     put (simple_itoa (stop rg - start rg + 1)) ;;
     put CRLF) ;;
  print_partial_content_continue ;;
  put CRLF.

(** [if (req->http_version != HTTP09) ...] and [if (req->method != M_HEAD) ...] *)
Definition unless_http09 (m : M unit) : M unit :=
  r ← req; if bool_decide (http_version r = HTTP09) then mret tt else m.
Definition unless_head (m : M unit) : M unit :=
  r ← req; if bool_decide (method r = M_HEAD) then mret tt else m.

Definition put_html_type : M unit :=
  put (bs "Content-Type: " ++ HTML ++ CRLF ++ CRLF).

Definition send_r_moved_perm (url : bytes) : M unit :=
  SQUASH_KA ;;
  upd (set_response_status R_MOVED_PERM) ;;
  unless_http09
    (put_status (bs " 301 Moved Permanently" ++ CRLF) ;;
     print_http_headers ;;
     put (bs "Content-Type: " ++ HTML ++ CRLF) ;;
     put (bs "Location: ") ;;
     put_http url ;;
     put (CRLF ++ CRLF)) ;;
  unless_head
    (put (bs "<HTML><HEAD><TITLE>301 Moved Permanently</TITLE></HEAD>" ++ LF
          ++ bs "<BODY>" ++ LF ++ bs "<H1>301 Moved</H1>The document has moved" ++ LF
          ++ bs "<A HREF=" ++ DQ) ;;
     put_html url ;;
     put (DQ ++ bs ">here</A>." ++ LF ++ bs "</BODY></HTML>" ++ LF)) ;;
  flush_.

Definition send_r_moved_temp (url more_hdr : bytes) : M unit :=
  SQUASH_KA ;;
  upd (set_response_status R_MOVED_TEMP) ;;
  unless_http09
    (put_status (bs " 302 Moved Temporarily" ++ CRLF) ;;
     print_http_headers ;;
     put (bs "Content-Type: " ++ HTML ++ CRLF) ;;
     put (bs "Location: ") ;;
     put_http url ;;
     put CRLF ;;
     put more_hdr ;;
     put (CRLF ++ CRLF)) ;;
  unless_head
    (put (bs "<HTML><HEAD><TITLE>302 Moved Temporarily</TITLE></HEAD>" ++ LF
          ++ bs "<BODY>" ++ LF ++ bs "<H1>302 Moved</H1>The document has moved" ++ LF
          ++ bs "<A HREF=" ++ DQ) ;;
     put_html url ;;
     put (DQ ++ bs ">here</A>." ++ LF ++ bs "</BODY></HTML>" ++ LF)) ;;
  flush_.

Definition send_r_not_modified : M unit :=
  SQUASH_KA ;;
  upd (set_response_status R_NOT_MODIFIED) ;;
  put_status (bs " 304 Not Modified" ++ CRLF) ;;
  print_http_headers ;;
  print_content_type ;;
  put CRLF ;;
  flush_.

Definition send_r_bad_request : M unit :=
  SQUASH_KA ;;
  upd (set_response_status R_BAD_REQUEST) ;;
  unless_http09
    (put_status (bs " 400 Bad Request" ++ CRLF) ;;
     print_http_headers ;;
     put_html_type) ;;
  unless_head
    (put (bs "<HTML><HEAD><TITLE>400 Bad Request</TITLE></HEAD>" ++ LF
          ++ bs "<BODY><H1>400 Bad Request</H1>" ++ LF
          ++ bs "Your client has issued "
          ++ bs "a malformed or illegal request." ++ LF ++ bs "</BODY></HTML>" ++ LF)) ;;
  flush_.

Definition send_r_unauthorized (realm_name : bytes) : M unit :=
  SQUASH_KA ;;
  upd (set_response_status R_UNAUTHORIZED) ;;
  unless_http09
    (put_status (bs " 401 Unauthorized" ++ CRLF) ;;
     print_http_headers ;;
     put (bs "WWW-Authenticate: Basic realm=" ++ DQ) ;;
     put realm_name ;;
     put CRLF ;;
     put_html_type) ;;
  unless_head
    (put (bs "<HTML><HEAD><TITLE>401 Unauthorized</TITLE></HEAD>" ++ LF
          ++ bs "<BODY><H1>401 Unauthorized</H1>" ++ LF ++ bs "Your client does not "
          ++ bs "have permission to get URL ") ;;
     u ← uri;
     put_html u ;;
     put (bs " from this server." ++ LF ++ bs "</BODY></HTML>" ++ LF)) ;;
  flush_.

Definition send_r_forbidden : M unit :=
  SQUASH_KA ;;
  upd (set_response_status R_FORBIDDEN) ;;
  unless_http09
    (put_status (bs " 403 Forbidden" ++ CRLF) ;;
     print_http_headers ;;
     put_html_type) ;;
  unless_head
    (put (bs "<HTML><HEAD><TITLE>403 Forbidden</TITLE></HEAD>" ++ LF
          ++ bs "<BODY><H1>403 Forbidden</H1>" ++ LF ++ bs "Your client does not "
          ++ bs "have permission to get URL ") ;;
     u ← uri;
     put_html u ;;
     put (bs " from this server." ++ LF ++ bs "</BODY></HTML>" ++ LF)) ;;
  flush_.

Definition send_r_not_found : M unit :=
  SQUASH_KA ;;
  upd (set_response_status R_NOT_FOUND) ;;
  unless_http09
    (put_status (bs " 404 Not Found" ++ CRLF) ;;
     print_http_headers ;;
     put_html_type) ;;
  unless_head
    (put (bs "<HTML><HEAD><TITLE>404 Not Found</TITLE></HEAD>" ++ LF
          ++ bs "<BODY><H1>404 Not Found</H1>" ++ LF ++ bs "The requested URL ") ;;
     u ← uri;
     put_html u ;;
     put (bs " was not found on this server." ++ LF ++ bs "</BODY></HTML>" ++ LF)) ;;
  flush_.

Definition send_r_length_required : M unit :=
  SQUASH_KA ;;
  upd (set_response_status R_LENGTH_REQUIRED) ;;
  unless_http09
    (put_status (bs " 411 Length Required" ++ CRLF) ;;
     print_http_headers ;;
     put (bs "Content-Type: " ++ HTML ++ CRLF) ;;
     print_last_modified ;;
     print_content_type ;;
     put CRLF) ;;
  unless_head
    (put (bs "<HTML><HEAD><TITLE>411 Length Required</TITLE></HEAD>" ++ LF
          ++ bs "<BODY><H1>411 Length Required</H1>" ++ LF ++ bs "The requested URL ") ;;
     u ← uri;
     put_html u ;;
     put (bs " requires that a valid Content-Length header be "
          ++ bs "sent with it." ++ LF ++ bs "</BODY></HTML>" ++ LF)) ;;
  flush_.

Definition send_r_precondition_failed : M unit :=
  SQUASH_KA ;;
  upd (set_response_status R_PRECONDITION_FAILED) ;;
  unless_http09
    (put_status (bs " 412 Precondition Failed" ++ CRLF) ;;
     print_http_headers ;;
     put_html_type) ;;
  unless_head
    (put (bs "<HTML><HEAD><TITLE>412 Precondition Failed</TITLE></HEAD>" ++ LF
          ++ bs "<BODY><H1>412 Precondition Failed</H1>" ++ LF
          ++ bs "</BODY></HTML>" ++ LF)) ;;
  flush_.

Definition send_r_request_uri_too_long : M unit :=
  let body :=
    bs "<HTML><HEAD><TITLE>414 Request URI Too Long</TITLE></HEAD>" ++ LF
    ++ bs "<BODY><H1>414 Request URI Too Long</H1>" ++ LF
    ++ bs "Your client has issued "
    ++ bs "a malformed or illegal request." ++ LF ++ bs "</BODY></HTML>" ++ LF in
  upd (set_response_status R_REQUEST_URI_TOO_LONG) ;;
  unless_http09
    (put_status (bs " 414 Request URI Too Long" ++ CRLF) ;;
     print_http_headers ;;
     put (bs "Content-Type: " ++ HTML ++ CRLF) ;;
     put (bs "Content-Length: ") ;;
     put (simple_itoa (zlen body)) ;;
     put (CRLF ++ CRLF)) ;;
  unless_head (put body) ;;
  flush_.

Definition send_r_invalid_range : M unit :=
  let body :=
    bs "<HTML><HEAD><TITLE>416 Invalid Range</TITLE></HEAD>" ++ LF
    ++ bs "<BODY><H1>416 Invalid Range</H1>" ++ LF ++ bs "</BODY></HTML>" ++ LF in
  SQUASH_KA ;;
  upd (set_response_status R_INVALID_RANGE) ;;
  unless_http09
    (put_status (bs " 416 Invalid Range" ++ CRLF) ;;
     print_http_headers ;;
     put (bs "Content-Length: ") ;;
     put (simple_itoa (zlen body)) ;;
     put (CRLF ++ bs "Content-Type: " ++ HTML ++ CRLF ++ CRLF)) ;;
  unless_head (put body) ;;
  flush_.

Definition send_r_error : M unit :=
  SQUASH_KA ;;
  upd (set_response_status R_ERROR) ;;
  unless_http09
    (put_status (bs " 500 Server Error" ++ CRLF) ;;
     print_http_headers ;;
     put_html_type) ;;
  unless_head
    (put (bs "<HTML><HEAD><TITLE>500 Server Error</TITLE></HEAD>" ++ LF
          ++ bs "<BODY><H1>500 Server Error</H1>" ++ LF ++ bs "The server encountered "
          ++ bs "an internal error and could not complete your request." ++ LF
          ++ bs "</BODY></HTML>" ++ LF)) ;;
  flush_.

Definition send_r_not_implemented : M unit :=
  SQUASH_KA ;;
  upd (set_response_status R_NOT_IMP) ;;
  unless_http09
    (put_status (bs " 501 Not Implemented" ++ CRLF) ;;
     print_http_headers ;;
     put_html_type) ;;
  put (bs "<HTML><HEAD><TITLE>501 Not Implemented</TITLE></HEAD>" ++ LF
       ++ bs "<BODY><H1>501 Not Implemented</H1>" ++ LF ++ bs "POST to non-script "
       ++ bs "is not supported in Boa." ++ LF ++ bs "</BODY></HTML>" ++ LF) ;;
  flush_.

Definition send_r_bad_gateway : M unit :=
  SQUASH_KA ;;
  upd (set_response_status R_BAD_GATEWAY) ;;
  unless_http09
    (put_status (bs " 502 Bad Gateway" ++ CRLF) ;;
     print_http_headers ;;
     put_html_type) ;;
  unless_head
    (put (bs "<HTML><HEAD><TITLE>502 Bad Gateway</TITLE></HEAD>" ++ LF
          ++ bs "<BODY><H1>502 Bad Gateway</H1>" ++ LF ++ bs "The CGI was "
          ++ bs "not CGI/1.1 compliant." ++ LF ++ bs "</BODY></HTML>" ++ LF)) ;;
  flush_.

(** The length text is allocated at the first call and kept in a static
    variable; here every call asks for it. *)
Definition send_r_service_unavailable : M unit :=
  let body :=
    bs "<HTML><HEAD><TITLE>503 Service Unavailable</TITLE></HEAD>" ++ LF
    ++ bs "<BODY><H1>503 Service Unavailable</H1>" ++ LF
    ++ bs "There are too many connections in use right now." ++ LF
    ++ bs "Please try again later." ++ LF ++ bs "</BODY></HTML>" ++ LF in
  let body_len := simple_itoa (zlen body) in
  have ← call (os_malloc (zlen body_len + 1));
  SQUASH_KA ;;
  upd (set_response_status R_SERVICE_UNAV) ;;
  unless_http09
    (put_status (bs " 503 Service Unavailable" ++ CRLF) ;;
     print_http_headers ;;
     (if (have : bool) then
        put (bs "Content-Length: ") ;; put body_len ;; put CRLF
      else mret tt) ;;
     put_html_type) ;;
  unless_head (put body) ;;
  flush_.

Definition send_r_bad_version (version : bytes) : M unit :=
  SQUASH_KA ;;
  upd (set_response_status R_BAD_VERSION) ;;
  unless_http09
    (put_status (bs " 505 HTTP Version Not Supported" ++ CRLF) ;;
     print_http_headers ;;
     put_html_type) ;;
  unless_head
    (put (bs "<HTML><HEAD><TITLE>505 HTTP Version Not Supported</TITLE></HEAD>" ++ LF
          ++ bs "<BODY><H1>505 HTTP Version Not Supported</H1>" ++ LF
          ++ bs "HTTP versions " ++ bs "other than 0.9 and 1.0 "
          ++ bs "are not supported in Boa." ++ LF
          ++ bs "<p><p>Version encountered: ") ;;
     put version ;;
     put (bs "<p><p></BODY></HTML>" ++ LF)) ;;
  flush_.
End response.
