(* ===== verification/ResponseProofs.v ===== *)
(** Every response function appends its text to the output stream of the
    request, or the request is dead.  [emits m f] says that [m] appends [f]; the
    rules compose along the code, and give the exact text of each response. *)

From S2P Require Import Prelude Types Machine Escape ScriptOS Buffer Util Dates Hash.
From S2P Require Import Response.

(** What is on the socket followed by what waits in the buffer. *)
Definition stream {os : OS} {laws : OSLaws os} (s : St) : bytes :=
  sent (fd (rq s)) (wd s) ++ pending (rq s).

(** The request and the globals are fit for printing a response. *)
Record resp_ok (r : request) (g : server) : Prop := {
  ok_mime : table_ok MIME_HASHTABLE_SIZE (mime_hashtable g);
  ok_types : forall k v, mime_lookup g k = Some v -> zlen v < 2 ^ 31;
  ok_default : zlen (default_type g) < 2 ^ 31;
  ok_charset : forall cs, default_charset g = Some cs -> zlen cs < 2 ^ 31;
  ok_escape : escape_table_ok (needs_escape_tab g);
  ok_uri : exists u, cstr (request_uri r) 0 = Some u;
  ok_now : is_Some (rfc822_time_buf (current_time g) 0);
  ok_date : is_Some (rfc822_time_buf (current_time g) (last_modified r))
}.

Section emits.
Context {os : OS} {laws : OSLaws os}.

(** From [s] to [s'] the output grew by [o], unless the request died; nothing
    else changed. *)
Record wrote (o : bytes) (s s' : St) : Prop := {
  wrote_buf : buf_ok (rq s');
  wrote_frame : same_but_buffer (rq s) (rq s');
  wrote_sv : sv s' = sv s;
  wrote_out : status (rq s') = DEAD \/
    status (rq s') = status (rq s) /\ stream s' = stream s ++ o
}.

Lemma wrote_nil s : buf_ok (rq s) -> wrote [] s s.
Proof. split; auto with boa. right. by rewrite app_nil_r. Qed.

Lemma wrote_trans o1 o2 s1 s2 s3 :
  wrote o1 s1 s2 -> wrote o2 s2 s3 -> wrote (o1 ++ o2) s1 s3.
Proof.
  intros [B1 F1 S1 O1] [B2 F2 S2 O2]. split; auto.
  - by transitivity (rq s2).
  - congruence.
  - destruct O2 as [|[E2 ->]]; [by left|].
    destruct O1 as [|[E1 ->]]; [left; congruence|].
    right. rewrite app_assoc. split; congruence.
Qed.

Lemma wrote_status s s' o :
  wrote o s s' -> status (rq s) <> TIMED_OUT -> status (rq s') <> TIMED_OUT.
Proof. intros [_ _ _ [->|[-> _]]]; done. Qed.

(** The fields that printing does not touch. *)
Definition view (s : St) : request := forget_buffer (rq s).

Lemma wrote_view o s s' : wrote o s s' -> view s' = view s.
Proof. by intros [_ F _ _]. Qed.

Definition printable (s : St) : Prop :=
  buf_ok (rq s) /\ status (rq s) <> TIMED_OUT /\ resp_ok (view s) (sv s).

Lemma wrote_printable o s s' : wrote o s s' -> printable s -> printable s'.
Proof.
  intros H (? & ? & ?). split_and!; [apply H|by eapply wrote_status|].
  by rewrite (wrote_view _ _ _ H), (wrote_sv _ _ _ H).
Qed.

(** Bytes from [k] on in the buffer stay. *)
Definition tail_kept (k : Z) (s s' : St) : Prop :=
  forall i, k <= i -> zdrop i (buffer (rq s')) = zdrop i (buffer (rq s)).

(** A text without a flush: when there is room for it, it is written, and the buffer
    behind it is left alone. *)
Definition room (o : bytes) (s s' : St) : Prop :=
  wd s' = wd s /\
  (status_num (status (rq s)) <= status_num DONE ->
   buffer_end (rq s) + zlen o <= BUFFER_SIZE ->
   status (rq s') = status (rq s) /\ buffer_end (rq s') = buffer_end (rq s) + zlen o /\
   tail_kept (buffer_end (rq s) + zlen o) s s').

(** [q]: the text is known to be written without a flush. *)
Definition wroteq (q : bool) (o : bytes) (s s' : St) : Prop :=
  if q then wrote o s s' /\ room o s s' else wrote o s s'.

Lemma wroteq_wrote q o s s' : wroteq q o s s' -> wrote o s s'.
Proof. by destruct q; [intros []|]. Qed.

Lemma wroteq_nil q s : buf_ok (rq s) -> wroteq q [] s s.
Proof.
  intros H. destruct q; [split|]; try by apply wrote_nil.
  split; [done|]. intros _ _. split; [done|]. change (zlen []) with 0. split; [lia|done].
Qed.

Lemma wroteq_trans q o1 o2 s1 s2 s3 :
  wroteq q o1 s1 s2 -> wroteq q o2 s2 s3 -> wroteq q (o1 ++ o2) s1 s3.
Proof.
  destruct q; [|apply wrote_trans]. intros [W1 [E1 R1]] [W2 [E2 R2]].
  split; [by eapply wrote_trans|]. split; [congruence|]. rewrite zlen_app. intros Hd Hr.
  pose proof (zlen_nonneg o1). pose proof (zlen_nonneg o2).
  destruct R1 as (S1 & B1 & T1); [done|lia|]. rewrite S1, B1 in R2.
  destruct R2 as (S2 & B2 & T2); [done|lia|]. split; [done|]. split; [lia|].
  intros i Hi. rewrite T2, T1 by lia. done.
Qed.

Definition emitsq (q : bool) (m : M unit) (f : request -> server -> bytes) : Prop :=
  forall s, printable s -> wp m (fun _ s' => wroteq q (f (view s) (sv s)) s s') s.
Notation emits := (emitsq false).

Lemma emits_ret q : emitsq q (mret tt) (fun _ _ => []).
Proof. intros s (? & _). by apply wp_ret, wroteq_nil. Qed.

Lemma emits_seq q m1 m2 f1 f2 :
  emitsq q m1 f1 -> emitsq q m2 f2 -> emitsq q (m1 ;; m2) (fun r g => f1 r g ++ f2 r g).
Proof.
  intros H1 H2 s Hs. wps. eapply wp_mono; [by apply H1|]. intros [] s1 W1.
  pose proof (wroteq_wrote _ _ _ _ W1) as W1'.
  eapply wp_mono; [by eapply H2, wrote_printable|]. intros [] s2 W2.
  rewrite (wrote_view _ _ _ W1'), (wrote_sv _ _ _ W1') in W2.
  by eapply wroteq_trans.
Qed.

(** Reading the request or the globals first. *)
Lemma emits_req q k f :
  (forall r, emitsq q (k r) (f r)) ->
  (forall r, f r = f (forget_buffer r)) ->
  emitsq q (r ← req; k r) (fun r g => f r r g).
Proof.
  intros H E s Hs. wps. eapply wp_mono; [by apply H|]. intros [] s'.
  rewrite (E (rq s)). done.
Qed.

Lemma emits_srv q k f :
  (forall g, emitsq q (k g) (f g)) -> emitsq q (g ← srv; k g) (fun r g => f g r g).
Proof. intros H s Hs. wps. by apply H. Qed.

Lemma emits_ext q m f f' :
  emitsq q m f -> (forall r g, resp_ok r g -> f r g = f' r g) -> emitsq q m f'.
Proof.
  intros H E s Hs. eapply wp_mono; [by apply H|]. intros [] s'.
  rewrite E; [done|]. apply Hs.
Qed.

Lemma stream_status s v : stream (mkSt (set_status v (rq s)) (sv s) (wd s)) = stream s.
Proof. done. Qed.

Lemma same_fd r r' : same_but_buffer r r' -> fd r' = fd r.
Proof. intros H. apply (f_equal fd) in H. exact H. Qed.

Lemma appended_end r msg n r' :
  buf_ok r -> appended r msg n r' -> buffer_end r + zlen msg <= BUFFER_SIZE ->
  status r' = status r /\ buffer_end r' = buffer_end r + zlen msg.
Proof.
  intros Hb (_ & Hb' & Es & [(_ & Est & Ep)|(_ & _ & Hf & _)]) Hr; [|lia].
  split; [done|]. apply (f_equal zlen) in Ep. revert Ep. unfold pending. rewrite zlen_app.
  destruct Hb as [H1 H2 H3 H4], Hb' as [H1' H2' H3' H4'].
  rewrite !zlen_slice by (unfold BUFFER_SIZE in *; lia). lia.
Qed.

Lemma req_write_tail msg s :
  buf_ok (rq s) -> zlen msg < 2 ^ 31 ->
  wp (req_write msg) (fun _ s' => tail_kept (buffer_end (rq s) + zlen msg) s s') s.
Proof.
  intros Hok Hlen. pose proof Hok as [Hl Hs Ho He]. pose proof (zlen_nonneg msg).
  unfold req_write. wps. rewrite (u32_small (zlen msg)) by lia.
  rewrite (u32_small (buffer_end (rq s) + zlen msg)) by (unfold BUFFER_SIZE in *; lia).
  destruct (_ || _); wps; [done|]. destruct (Z.ltb_spec BUFFER_SIZE (buffer_end (rq s) + zlen msg)); wps; [done|].
  apply wp_buffer_append; [done|lia|]. intros b Hb. wps. intros i Hi. simpl.
  by eapply zdrop_blit_after.
Qed.

Lemma emits_put q msg : zlen msg < 2 ^ 31 -> emitsq q (put msg) (fun _ _ => msg).
Proof.
  intros Hl s (Hb & Ht & _). unfold put. wps.
  eapply wp_mono; [apply wp_and; [by apply req_write_wp|by apply req_write_tail]|].
  intros n s' [(Es & Ew & A) Htail]. wps.
  assert (W : wrote msg s s').
  { destruct A as (F & B & _ & H). split; auto. unfold stream. rewrite (same_fd _ _ F), Ew.
    destruct (Z.ltb_spec (status_num DONE) (status_num (status (rq s)))) as [Hd|Hd].
    - left. assert (Hs : status (rq s) = DEAD).
      { destruct (status (rq s)); simpl in Hd; try lia; done. }
      destruct H as [(_ & -> & _)|(_ & -> & _)]; done.
    - destruct H as [(_ & -> & ->)|(_ & -> & _)]; [right|by left].
      by rewrite app_assoc. }
  destruct q; [|exact W]. split; [exact W|]. split; [done|]. intros Hd Hr.
  destruct (Z.ltb_spec (status_num DONE) (status_num (status (rq s)))); [lia|].
  destruct (appended_end _ _ _ _ Hb A Hr) as [H1 H2]. done.
Qed.

(** The escaping writers. *)
Lemma emits_escaped f g m msg s :
  wp m (fun n s' => sv s' = sv s /\ wd s' = wd s /\
                    escaped f g (rq s) msg n (rq s')) s ->
  wp (m ;; mret tt) (fun _ s' => wrote (flat_map f msg) s s') s.
Proof.
  intros H. wps. eapply wp_mono; [exact H|]. clear H.
  intros n s' (Es & Ew & F & B & _ & pre & rest & -> & Hp & H). wps.
  split; auto. unfold stream. rewrite (same_fd _ _ F), Ew, Hp.
  destruct H as [(-> & _ & ->)|(_ & _ & -> & _)]; [right|by left].
  by rewrite app_nil_r, app_assoc.
Qed.

Lemma emits_put_html msg : emits (put_html msg) (fun _ _ => flat_map html_char msg).
Proof.
  intros s (Hb & _). eapply emits_escaped. by apply req_write_escape_html_wp.
Qed.

Lemma emits_put_http msg :
  forallb byte_ok msg = true ->
  emits (put_http msg) (fun _ g => escape_bytes (needs_escape_tab g) msg).
Proof.
  intros Hm s (Hb & _). eapply emits_escaped. by apply req_write_escape_http_wp.
Qed.

Lemma emits_flush : emits flush_ (fun _ _ => []).
Proof.
  intros s (Hb & Ht & _). unfold flush_. wps.
  eapply wp_mono; [by apply req_flush_wp|].
  intros n s' (Es & F & B & H). wps. split; auto. unfold stream.
  rewrite (same_fd _ _ F).
  destruct H as [(_ & [[Hd Er]|[_ Hd]] & _)|[(_ & -> & ->)|(_ & -> & _ & ->)]].
  - left. rewrite Er. destruct (status (rq s)); simpl in Hd; try lia; done.
  - by left.
  - right. by rewrite app_nil_r.
  - right. by rewrite app_nil_r.
Qed.

Lemma emits_unless_http09 q m f :
  emitsq q m f ->
  emitsq q (unless_http09 m)
    (fun r g => if bool_decide (http_version r = HTTP09) then [] else f r g).
Proof.
  intros H s Hs. unfold unless_http09. wps.
  change (http_version (rq s)) with (http_version (view s)).
  case_bool_decide; [|by apply H]. wps. by apply wroteq_nil, Hs.
Qed.

Lemma emits_unless_head q m f :
  emitsq q m f ->
  emitsq q (unless_head m) (fun r g => if bool_decide (method r = M_HEAD) then [] else f r g).
Proof.
  intros H s Hs. unfold unless_head. wps.
  change (method (rq s)) with (method (view s)).
  case_bool_decide; [|by apply H]. wps. by apply wroteq_nil, Hs.
Qed.

(** * The header lines *)

Definition uri_of (r : request) : bytes := default [] (cstr (request_uri r) 0).

Lemma emits_uri q k f :
  (forall u, emitsq q (k u) (f u)) ->
  emitsq q (u ← uri; k u) (fun r g => f (uri_of r) r g).
Proof.
  intros H s Hs. pose proof Hs as (_ & _ & Hr). destruct (ok_uri _ _ Hr) as [u Hu].
  unfold uri, uri_of. wps. rewrite Hu.
  change (request_uri (rq s)) with (request_uri (view s)). rewrite Hu.
  apply wp_ret. by apply H.
Qed.

Lemma emits_status q msg :
  zlen msg < 2 ^ 31 ->
  emitsq q (put_status msg) (fun r _ => http_ver_string (http_version r) ++ msg).
Proof.
  intros Hl. unfold put_status.
  apply (emits_req _ _ (fun r _ _ => http_ver_string (http_version r) ++ msg)); [|done].
  intros r. apply (emits_seq _ _ _ (fun _ _ => _) (fun _ _ => _)); apply emits_put;
    [by destruct (http_version r)|done].
Qed.

Lemma itoa_loop_length fuel i acc :
  zlen (itoa_loop fuel i acc) <= Z.of_nat fuel + zlen acc.
Proof.
  revert i acc. induction fuel as [|fuel IH]; intros i acc; simpl; [lia|].
  destruct (i / 10 =? 0).
  - rewrite zlen_cons. lia.
  - specialize (IH (i / 10) ((48 + i mod 10) :: acc)). rewrite zlen_cons in IH. lia.
Qed.

Lemma emits_put_itoa q n : emitsq q (put (simple_itoa n)) (fun _ _ => simple_itoa n).
Proof.
  apply emits_put. pose proof (itoa_loop_length 21 (u32 n) []).
  unfold simple_itoa. change (zlen []) with 0 in *. lia.
Qed.

Lemma emits_useq q m f o s :
  emitsq q m f -> printable s -> f (view s) (sv s) = o ->
  wp m (fun _ s' => wroteq q o s s') s.
Proof. intros H Hs <-. by apply H. Qed.

Lemma emits_use m f o s :
  emits m f -> printable s -> f (view s) (sv s) = o ->
  wp m (fun _ s' => wrote o s s') s.
Proof. intros H Hs <-. by apply H. Qed.
End emits.

Notation emits := (emitsq false).

(** Read the request and the globals, and stop there. *)
Ltac reads :=
  repeat lazymatch goal with
  | |- wp (mbind _ req) _ _ => apply wp_bind, wp_req; wp_simpl
  | |- wp (mbind _ srv) _ _ => apply wp_bind, wp_srv; wp_simpl
  end.

(** [emit] runs the rules along the code; the text is inferred. *)
Ltac emit :=
  repeat first
    [ eassumption
    | lazymatch goal with
      | |- emitsq _ (mbind _ uri) _ => eapply emits_uri; intros ?
      | |- emitsq _ (mbind (fun _ => _) _) _ => eapply emits_seq
      | |- emitsq _ (mret _) _ => apply emits_ret
      | |- emits flush_ _ => apply emits_flush
      | |- emitsq _ (put (simple_itoa _)) _ => apply emits_put_itoa
      | |- emitsq _ (put _) _ =>
          apply emits_put; (assumption || (vm_compute; reflexivity))
      | |- emitsq _ (put_html _) _ => apply emits_put_html
      | |- emitsq _ (put_http _) _ => apply emits_put_http; assumption
      | |- emitsq _ (put_status _) _ => apply emits_status; vm_compute; reflexivity
      | |- emitsq _ (unless_http09 _) _ => eapply emits_unless_http09
      | |- emitsq _ (unless_head _) _ => eapply emits_unless_head
      end ].

Section texts.
Context {os : OS} {laws : OSLaws os}.

Definition content_type_text (r : request) (g : server) : bytes :=
  let m := default (default_type g) (extension_of (uri_of r) ≫= mime_lookup g) in
  bs "Content-Type: " ++ m ++
  (match default_charset g with
   | Some cs => if strncaseeq m (bs "text") 4 then bs "; charset=" ++ cs else []
   | None => []
   end) ++ CRLF.

Lemma emits_content_type q : emitsq q print_content_type content_type_text.
Proof.
  intros s Hs. pose proof Hs as (_ & _ & [H1 H2 H3 H4 _ [u Hu] _ _]).
  unfold print_content_type, uri. wps. change (request_uri (rq s)) with
    (request_uri (view s)). rewrite Hu. apply wp_ret. wps.
  eapply wp_mono; [by apply get_mime_type_wp|]. intros m s' [-> Em].
  assert (Hm : zlen m < 2 ^ 31).
  { rewrite Em. destruct (extension_of u) as [e|]; [|done]. simpl.
    destruct (mime_lookup (sv s) e) as [v|] eqn:E; [|done]. by eapply H2. }
  unfold content_type_text, uri_of. rewrite Hu.
  change (default [] (Some u)) with u. rewrite <- Em.
  destruct (default_charset (sv s)) as [cs|] eqn:Ec;
    [assert (Hcs : zlen cs < 2 ^ 31) by (by apply H4);
     destruct (strncaseeq m (bs "text") 4)|];
    (eapply emits_useq; [emit|done|reflexivity]).
Qed.

Lemma emits_content_length q :
  emitsq q print_content_length
    (fun r _ => bs "Content-Length: " ++ simple_itoa (filesize r) ++ CRLF).
Proof.
  intros s Hs. unfold print_content_length. reads.
  eapply emits_useq; [emit|done|reflexivity].
Qed.

Lemma emits_last_modified q :
  emitsq q print_last_modified
    (fun r g => bs "Last-Modified: " ++
       default [] (rfc822_time_buf (current_time g) (last_modified r)) ++ CRLF).
Proof.
  intros s Hs. pose proof Hs as (_ & _ & [_ _ _ _ _ _ _ [lm Hlm]]).
  unfold print_last_modified. reads.
  change (last_modified (rq s)) with (last_modified (view s)). rewrite Hlm.
  apply wp_bind, wp_ret. assert (Hl : zlen lm = 29).
  { unfold rfc822_time_buf in Hlm. zcase_in Hlm; [|done]. by injection Hlm as <-. }
  eapply emits_useq; [apply emits_put|done|done].
  rewrite !zlen_app, Hl. done.
Qed.

Definition ka_text (r : request) (g : server) : bytes :=
  if (0 <? kacount r) && bool_decide (keepalive r = KA_ACTIVE)
     && (response_status r <? 500)
  then (bs "Connection: Keep-Alive" ++ CRLF ++ bs "Keep-Alive: timeout=")
       ++ simple_itoa (ka_timeout g) ++ bs ", max=" ++ simple_itoa (kacount r) ++ CRLF
  else bs "Connection: close" ++ CRLF.

Lemma emits_ka_phrase q : emitsq q print_ka_phrase ka_text.
Proof.
  intros s Hs. unfold print_ka_phrase. reads. unfold ka_text.
  change (kacount (rq s)) with (kacount (view s)).
  change (keepalive (rq s)) with (keepalive (view s)).
  change (response_status (rq s)) with (response_status (view s)).
  destruct (_ && _); (eapply emits_useq; [emit|done|reflexivity]).
Qed.

Definition headers_text (r : request) (g : server) : bytes :=
  (bs "Date: " ++ default [] (rfc822_time_buf (current_time g) 0) ++ CRLF) ++
  (if conceal_server_identity g then [] else bs "Server: " ++ SERVER_VERSION ++ CRLF) ++
  (bs "Accept-Ranges: bytes" ++ CRLF) ++ ka_text r g.

Lemma emits_http_headers q : emitsq q print_http_headers headers_text.
Proof.
  intros s Hs. pose proof Hs as (_ & _ & [_ _ _ _ _ _ [d Hd] _]).
  unfold print_http_headers. reads. rewrite Hd. apply wp_bind, wp_ret.
  assert (Hl : zlen d = 29).
  { unfold rfc822_time_buf in Hd. zcase_in Hd; [|done]. by injection Hd as <-. }
  assert (Hp : emitsq q (put (bs "Date: " ++ d ++ CRLF)) (fun _ _ => bs "Date: " ++ d ++ CRLF)).
  { apply emits_put. rewrite !zlen_app, Hl. done. }
  pose proof (emits_ka_phrase q) as Hk. unfold headers_text. rewrite Hd.
  destruct (conceal_server_identity (sv s)); cbn [negb];
    (eapply emits_useq; [emit|done|reflexivity]).
Qed.
End texts.
