(* ===== verification/ResponseProps.v ===== *)
(** What the client sees: the exact text of the error pages and of a redirect. *)

From S2P Require Import Prelude Types Machine Escape ScriptOS Buffer Util UtilProofs.
From S2P Require Import Dates Hash Response ResponseProofs.

(** The error pages that need no argument. *)
Inductive error_page :=
  | Bad_request | Forbidden | Not_found | Precondition_failed | Server_error
  | Not_implemented | Bad_gateway.

Definition page_code (p : error_page) : Z :=
  match p with
  | Bad_request => 400 | Forbidden => 403 | Not_found => 404
  | Precondition_failed => 412 | Server_error => 500 | Not_implemented => 501
  | Bad_gateway => 502
  end.

Definition page_reason (p : error_page) : bytes :=
  match p with
  | Bad_request => bs "Bad Request" | Forbidden => bs "Forbidden"
  | Not_found => bs "Not Found" | Precondition_failed => bs "Precondition Failed"
  | Server_error => bs "Server Error" | Not_implemented => bs "Not Implemented"
  | Bad_gateway => bs "Bad Gateway"
  end.

(** The sentence of the page; the URI stands in it HTML-escaped. *)
Definition page_text (p : error_page) (u : bytes) : bytes :=
  match p with
  | Bad_request =>
      bs "Your client has issued a malformed or illegal request." ++ LF
  | Forbidden =>
      bs "Your client does not have permission to get URL " ++ flat_map html_char u
      ++ bs " from this server." ++ LF
  | Not_found =>
      bs "The requested URL " ++ flat_map html_char u
      ++ bs " was not found on this server." ++ LF
  | Precondition_failed => []
  | Server_error =>
      bs "The server encountered an internal error and could not complete your request."
      ++ LF
  | Not_implemented => bs "POST to non-script is not supported in Boa." ++ LF
  | Bad_gateway => bs "The CGI was not CGI/1.1 compliant." ++ LF
  end.

(** "<code> <reason>" appears in the status line, the title and the heading. *)
Definition page_title (p : error_page) : bytes :=
  simple_itoa (page_code p) ++ [32] ++ page_reason p.

Definition page_body (p : error_page) (u : bytes) : bytes :=
  bs "<HTML><HEAD><TITLE>" ++ page_title p ++ bs "</TITLE></HEAD>" ++ LF
  ++ bs "<BODY><H1>" ++ page_title p ++ bs "</H1>" ++ LF
  ++ page_text p u ++ bs "</BODY></HTML>" ++ LF.

Lemma page_title_eq p :
  page_title p =
    match p with
    | Bad_request => bs "400 Bad Request"
    | Forbidden => bs "403 Forbidden"
    | Not_found => bs "404 Not Found"
    | Precondition_failed => bs "412 Precondition Failed"
    | Server_error => bs "500 Server Error"
    | Not_implemented => bs "501 Not Implemented"
    | Bad_gateway => bs "502 Bad Gateway"
    end.
Proof. destruct p; vm_compute; reflexivity. Qed.

(** The header of a response after which the connection is closed. *)
Definition closing_head (title : bytes) (r : request) (g : server) : bytes :=
  http_ver_string (http_version r) ++ [32] ++ title ++ CRLF
  ++ bs "Date: " ++ default [] (rfc822_time_buf (current_time g) 0) ++ CRLF
  ++ (if conceal_server_identity g then [] else bs "Server: " ++ SERVER_VERSION ++ CRLF)
  ++ bs "Accept-Ranges: bytes" ++ CRLF
  ++ bs "Connection: close" ++ CRLF.

Section pages.
Context {os : OS} {laws : OSLaws os}.

Definition page_send (p : error_page) : M unit :=
  match p with
  | Bad_request => send_r_bad_request
  | Forbidden => send_r_forbidden
  | Not_found => send_r_not_found
  | Precondition_failed => send_r_precondition_failed
  | Server_error => send_r_error
  | Not_implemented => send_r_not_implemented
  | Bad_gateway => send_r_bad_gateway
  end.

(** The state after [SQUASH_KA] and the assignment of the status. *)
Definition squashed (code : Z) (s : St) : St :=
  mkSt (set_response_status code (set_keepalive KA_STOPPED (rq s))) (sv s) (wd s).

Lemma squashed_printable code s : printable s -> printable (squashed code s).
Proof.
  intros ([] & ? & []). split_and!; [by split|done|by split].
Qed.

Lemma squashed_headers code title s :
  http_ver_string (http_version (rq s)) ++ ([32] ++ title ++ CRLF)
  ++ headers_text (view (squashed code s)) (sv s)
  = closing_head title (rq s) (sv s).
Proof.
  unfold closing_head, headers_text, ka_text. simpl.
  rewrite andb_false_r. simpl.
  repeat (rewrite <- ?app_assoc; simpl). done.
Qed.

Lemma wp_squash code (m : M unit) (Q : unit -> St -> Prop) s :
  wp m Q (squashed code s) ->
  wp (SQUASH_KA ;; upd (set_response_status code) ;; m) Q s.
Proof. intros H. unfold SQUASH_KA. wps. exact H. Qed.

(** The common end of the proofs. *)
Lemma page_wrote code o s s' :
  wrote o (squashed code s) s' ->
  buf_ok (rq s') /\ sv s' = sv s /\ response_status (rq s') = code /\
  keepalive (rq s') = KA_STOPPED /\
  (status (rq s') = DEAD \/ stream s' = stream s ++ o).
Proof.
  intros [B F S O]. split_and!; auto.
  - apply (f_equal response_status) in F. exact F.
  - apply (f_equal keepalive) in F. exact F.
  - destruct O as [|[_ ->]]; [by left|by right].
Qed.

(** An update that leaves alone what printing needs. *)
Definition print_inert (f : request -> request) : Prop :=
  forall r, buffer (f r) = buffer r /\ buffer_start (f r) = buffer_start r /\
    buffer_end (f r) = buffer_end r /\ status (f r) = status r /\
    request_uri (f r) = request_uri r /\ last_modified (f r) = last_modified r.

Lemma printable_upd f s w :
  print_inert f -> printable s -> printable (mkSt (f (rq s)) (sv s) w).
Proof.
  intros Hf ([] & ? & []). destruct (Hf (rq s)) as (H1 & H2 & H3 & H4 & H5 & H6).
  split_and!; [split; simpl; rewrite ?H1, ?H2, ?H3; done|simpl; by rewrite H4|].
  split; simpl in *; rewrite ?H5, ?H6; done.
Qed.

(** A page only prints, after the two assignments. *)
(** What an error page puts on the wire. *)
Definition page_sent (p : error_page) (r : request) (g : server) : bytes :=
  (if bool_decide (http_version r = HTTP09) then []
   else closing_head (page_title p) r g ++ bs "Content-Type: " ++ HTML ++ CRLF ++ CRLF) ++
  (if bool_decide (method r = M_HEAD) && negb (page_code p =? 501) then []
   else page_body p (uri_of r)).

Lemma wrote_text o o' s s' : wrote o s s' -> o = o' -> wrote o' s s'.
Proof. by intros H ->. Qed.

Lemma page_sent_wp p s :
  printable s ->
  wp (page_send p)
    (fun _ s' => wrote (page_sent p (rq s) (sv s)) (squashed (page_code p) s) s') s.
Proof.
  intros Hs. pose proof (emits_http_headers false) as Hh.
  assert (Hp : forall c, printable (squashed c s)) by eauto using squashed_printable.
  destruct p; apply wp_squash;
    (eapply wp_mono;
      [eapply emits_use; [unfold put_html_type; emit|apply Hp|reflexivity]|]);
    intros [] s' H;
    apply (wrote_text _ _ _ _ H); unfold page_sent;
    match goal with |- context [headers_text (view (squashed ?c s))] =>
      rewrite <- (squashed_headers c) end.
  all: unfold page_body; rewrite page_title_eq; cbn -[headers_text bs];
    change (http_version (view _)) with (http_version (rq s));
    change (method (view _)) with (method (rq s));
    change (uri_of (view _)) with (uri_of (rq s));
    repeat case_bool_decide; cbn -[headers_text bs]; try done;
    rewrite ?app_nil_r; repeat (rewrite <- ?app_assoc; cbn [app]); reflexivity.
Qed.

Lemma page_send_wp p s :
  printable s ->
  wp (page_send p) (fun _ s' => exists o, wrote o (squashed (page_code p) s) s') s.
Proof. intros Hs. eapply wp_mono; [by apply page_sent_wp|]. by eexists. Qed.

(** C29: each error page puts exactly this on the wire, unless the
    request dies for lack of buffer space or of a connection: the status line
    with its code and reason, the common headers with "Connection: close", the
    content type and an empty line (nothing of this for HTTP/0.9), and, unless
    the method is HEAD, the page, in which the URI is HTML-escaped.  The
    response status is recorded and keep-alive is stopped. *)
Theorem error_page_correct p s :
  printable s ->
  wp (page_send p)
    (fun _ s' =>
       buf_ok (rq s') /\ sv s' = sv s /\
       response_status (rq s') = page_code p /\
       keepalive (rq s') = KA_STOPPED /\
       (status (rq s') = DEAD \/
        stream s' = stream s ++
          (if bool_decide (http_version (rq s) = HTTP09) then []
           else closing_head (page_title p) (rq s) (sv s)
                ++ bs "Content-Type: " ++ HTML ++ CRLF ++ CRLF) ++
          (if bool_decide (method (rq s) = M_HEAD) && negb (page_code p =? 501) then []
           else page_body p (uri_of (rq s))))) s.
Proof.
  intros Hs. eapply wp_mono; [by apply page_sent_wp|].
  by intros [] s' (? & ? & ? & ? & H)%page_wrote.
Qed.
End pages.

Section redirect.
Context {os : OS} {laws : OSLaws os}.

Definition moved_body (url : bytes) : bytes :=
  bs "<HTML><HEAD><TITLE>301 Moved Permanently</TITLE></HEAD>" ++ LF
  ++ bs "<BODY>" ++ LF ++ bs "<H1>301 Moved</H1>The document has moved" ++ LF
  ++ bs "<A HREF=" ++ DQ ++ flat_map html_char url ++ DQ ++ bs ">here</A>." ++ LF
  ++ bs "</BODY></HTML>" ++ LF.

(** C30: a permanent redirect to any byte string sends the percent-encoded
    target as the Location header; the encoding consists of printable
    characters only, so a target taken from the request cannot inject header
    lines, and in the page it stands HTML-escaped between double quotes. *)
Theorem moved_perm_no_injection url s :
  printable s -> forallb byte_ok url = true ->
  wp (send_r_moved_perm url)
    (fun _ s' =>
       buf_ok (rq s') /\ sv s' = sv s /\ response_status (rq s') = 301 /\
       keepalive (rq s') = KA_STOPPED /\
       exists loc, forallb isgraph loc = true /\
       (status (rq s') = DEAD \/
        stream s' = stream s ++
          (if bool_decide (http_version (rq s) = HTTP09) then []
           else closing_head (bs "301 Moved Permanently") (rq s) (sv s)
                ++ bs "Content-Type: " ++ HTML ++ CRLF
                ++ bs "Location: " ++ loc ++ CRLF ++ CRLF) ++
          (if bool_decide (method (rq s) = M_HEAD) then [] else moved_body url))) s.
Proof.
  intros Hs Hu. pose proof (emits_http_headers false) as Hh.
  pose proof (squashed_printable R_MOVED_PERM s Hs) as Hp.
  apply wp_squash. eapply wp_mono; [eapply emits_use; [emit|apply Hp|reflexivity]|].
  intros [] s' H%page_wrote. destruct H as (? & ? & ? & ? & H).
  split_and!; [done|done|done|done|].
  exists (escape_bytes (needs_escape_tab (sv s)) url).
  split; [by apply escape_bytes_isgraph; [apply Hs|]|].
  destruct H as [| ->]; [by left|right; f_equal].
  rewrite <- (squashed_headers R_MOVED_PERM). unfold moved_body.
  cbn -[headers_text bs escape_bytes].
  change (http_version (view _)) with (http_version (rq s)).
  change (method (view _)) with (method (rq s)).
  repeat case_bool_decide; cbn -[headers_text bs escape_bytes]; try done;
    rewrite ?app_nil_r; repeat (rewrite <- ?app_assoc; cbn [app]); reflexivity.
Qed.
End redirect.

(** * Witnesses *)

Lemma test_table_ok : escape_table_ok test_table.
Proof.
  unfold test_table. destruct build_needs_escape_ok as (tab & E & H). by rewrite E.
Qed.

Lemma test_mime_ok : table_ok MIME_HASHTABLE_SIZE (mime_hashtable test_server).
Proof. apply table_ok_nil; [reflexivity|]. apply Forall_replicate. reflexivity. Qed.

Lemma test_resp_ok r :
  (exists u, cstr (request_uri r) 0 = Some u) ->
  is_Some (rfc822_time_buf (current_time test_server) (last_modified r)) ->
  resp_ok r test_server.
Proof.
  intros Hu Hd. split.
  - apply test_mime_ok.
  - intros k v H. exfalso. unfold mime_lookup, table_get in H.
    destruct (zget _ _) as [b|] eqn:E; [|done]. unfold zget in E.
    case_match; [|done].
    apply lookup_replicate in E as [-> _]. done.
  - reflexivity.
  - done.
  - apply test_table_ok.
  - done.
  - vm_compute. eauto.
  - done.
Qed.

Lemma test_printable : printable test_state.
Proof.
  split_and!; [split; vm_compute; congruence|discriminate|].
  apply test_resp_ok; [|vm_compute; eauto]. exists []. vm_compute. reflexivity.
Qed.

Lemma error_page_correct_witness :
  exists s', page_send Not_found test_state = Ret tt s' /\
    response_status (rq s') = 404 /\ keepalive (rq s') = KA_STOPPED.
Proof.
  destruct (wp_elim _ _ _ (error_page_correct Not_found test_state test_printable))
    as ([] & s' & E & _ & _ & H1 & H2 & _).
  exists s'. split_and!; [exact E|exact H1|exact H2].
Defined.

Lemma moved_perm_no_injection_witness :
  exists s', send_r_moved_perm (bs "/a b" ++ CRLF ++ bs "X: y") test_state = Ret tt s' /\
    response_status (rq s') = 301.
Proof.
  destruct (wp_elim _ _ _ (moved_perm_no_injection (bs "/a b" ++ CRLF ++ bs "X: y")
    test_state test_printable ltac:(reflexivity))) as ([] & s' & E & _ & _ & H & _).
  exists s'. split; [exact E|exact H].
Defined.
