(* ===== verification/Range.v ===== *)
(** range.c: byte ranges.  [range_parse] runs the table-driven automaton of the
    code over the header value; [ranges_fixup] fits the ranges to the file. *)

From S2P Require Import Prelude Types Machine Escape ScriptOS Buffer Util Dates Hash.
From S2P Require Import Response ResponseProofs.

(** * The pool *)

Section pool.
Context {os : OS}.

Definition range_pool_pop : M Range :=
  g ← srv;
  match range_pool g with
  | _ :: pool => upd_srv (set_range_pool pool) ;; mret (mkRange 0 0)
  | [] =>
      ok ← call (os_malloc 24);
      if (ok : bool) then mret (mkRange 0 0) else die
  end.

(** Each range popped is freed. *)
Definition range_pool_empty : M unit := upd_srv (set_range_pool []).

Definition ranges_reset : M unit :=
  r ← req; g ← srv;
  upd_srv (set_range_pool (rev (ranges r) ++ range_pool g)) ;;
  upd (set_ranges []).

Definition range_abort : M unit :=
  ranges_reset ;;
  rg ← range_pool_pop;
  upd (set_ranges [mkRange (start rg) (u64 (-1))]).

Definition range_add (start stop : Z) : M unit :=
  rg ← range_pool_pop;
  r ← req;
  upd (set_ranges (ranges r ++ [mkRange start stop])) ;;
  upd (set_numranges (numranges r + 1)).

(** * ranges_fixup *)

(** The two adjustments of one range for a file of [size] bytes. *)
Definition fix_range (size : Z) (rg : Range) : Range :=
  let stop1 := if (stop rg =? UINT_MAX) || (size <=? stop rg)
               then u64 (size - 1) else stop rg in
  if i64 (start rg) =? -1
  then mkRange (u64 (size - stop1)) (u64 (size - 1))
  else mkRange (start rg) stop1.

Definition range_valid (rg : Range) : bool :=
  negb ((i64 (start rg) <? 0) || (stop rg <? start rg)).

(** The loop over the ranges: an invalid one goes back to the pool. *)
Fixpoint fixup_loop (size : Z) (l : list Range) : M (list Range) :=
  match l with
  | [] => mret []
  | rg :: l' =>
      let rg := fix_range size rg in
      if range_valid rg then
        rest ← fixup_loop size l'; mret (rg :: rest)
      else
        range_pool_push rg ;; fixup_loop size l'
  end.

Fixpoint push_all (l : list Range) : M unit :=
  match l with
  | [] => mret tt
  | rg :: l' => range_pool_push rg ;; push_all l'
  end.

Definition ranges_fixup : M Z :=
  r ← req;
  upd (set_ranges []) ;;
  kept ← (if filesize r =? 0 then push_all (ranges r) ;; mret []
          else fixup_loop (filesize r) (ranges r));
  upd (set_ranges kept) ;;
  match kept with
  | [] => send_r_invalid_range ;; mret 0
  | _ => mret 1
  end.
End pool.

(** * range_parse *)

(** States of the automaton. *)
Definition initial : Z := 0.
Definition startnum : Z := 1.
Definition gap1 : Z := 2.
Definition gap2 : Z := 3.
Definition stopnum : Z := 4.

(** Character codes. *)
Definition ccode (c : Z) : Z :=
  if (48 <=? c) && (c <=? 57) then 0
  else if (c =? 32) || (c =? 12) || (c =? 10) || (c =? 13) || (c =? 9) || (c =? 11) then 1
  else if c =? 44 then 2
  else if c =? 45 then 3
  else if c =? 0 then 4
  else 5.

Definition ACTMASK1 : Z := 224.
Definition PB : Z := 32.
Definition PE : Z := 64.
Definition DB : Z := 96.
Definition DE : Z := 128.
Definition ACTMASK2 : Z := 24.
Definition AR : Z := 16.
Definition SR : Z := 24.
Definition STATEMASK : Z := 7.

Definition stable : list Z :=
  [ PB + startnum; 0 + initial; 0 + initial; DB + gap2; 0; AR;
    PB + startnum; 0 + gap1; AR; 0 + gap2; AR; AR;
    AR; 0 + gap1; AR; 0 + gap2; AR; AR;
    PE + stopnum; 0 + gap2; DE + SR + initial; AR; DE + SR; AR;
    PE + stopnum; SR + initial; SR + initial; AR; SR; AR ].

(** The new values of [start] and [stop] for one character. *)
Definition range_act (fcode c start stop : Z) : Z * Z :=
  let act := Z.land fcode ACTMASK1 in
  if act =? PB then (u64 (start * 10 + (c - 48)), stop)
  else if act =? DB then (u64 (-1), stop)
  else if act =? PE then (start, u64 (stop * 10 + (c - 48)))
  else if act =? DE then (start, u64 (-1))
  else (start, stop).

Section parse.
Context {os : OS}.

(** The loop; [str] is what is left of the string, its end is the NUL. *)
Fixpoint range_loop (str : bytes) (mode start stop : Z) : M Z :=
  let c := match str with c :: _ => c | [] => 0 end in
  fcode ← checked (zget stable (mode * 6 + ccode c));
  let '(start, stop) := range_act fcode c start stop in
  if Z.land fcode ACTMASK2 =? AR then range_abort ;; mret 0
  else
    sub ← (if Z.land fcode ACTMASK2 =? SR then
             if (start =? stop) && (start =? UINT_MAX) then range_abort ;; mret None
             else range_add start stop ;; mret (Some (0, 0))
           else mret (Some (start, stop)));
    match sub with
    | None => mret 0
    | Some (start, stop) =>
        match str with
        | [] => mret 1
        | _ :: str' => range_loop str' (Z.land fcode STATEMASK) start stop
        end
    end.

Definition range_parse (str : bytes) : M Z :=
  if negb (strncaseeq str (bs "bytes=") 6) then mret 0
  else range_loop (zdrop 6 str) initial 0 0.
End parse.
