(* ===== verification/RangeProofs.v ===== *)
(** Byte ranges: what [range_parse] accepts is what the header says, and what
    [ranges_fixup] lets through lies inside the file. *)

From S2P Require Import Prelude Types Machine Escape ScriptOS Buffer Util UtilProofs.
From S2P Require Import Dates Hash Response ResponseProofs ResponseProps Range.

(** * Parsing *)

(** malloc succeeds. *)
Definition malloc_ok (os : OS) : Prop :=
  forall n w, exists w', os_malloc n w = (true, w').

(** The forms of a range in the header: [a-b], [a-], [-n]. *)
Inductive rspec := R_from_to (a b : Z) | R_from (a : Z) | R_last (n : Z).

Definition rspec_text (r : rspec) : bytes :=
  match r with
  | R_from_to a b => simple_itoa a ++ [45] ++ simple_itoa b
  | R_from a => simple_itoa a ++ [45]
  | R_last n => [45] ++ simple_itoa n
  end.

(** The numbers are those [simple_itoa] can print; UINT_MAX itself is taken as
    "not given" by the code. *)
Definition rspec_ok (r : rspec) : Prop :=
  match r with
  | R_from_to a b => 0 <= a < UINT_MAX /\ 0 <= b < UINT_MAX
  | R_from a => 0 <= a < UINT_MAX
  | R_last n => 0 <= n < UINT_MAX
  end.

Definition rspec_range (r : rspec) : Range :=
  match r with
  | R_from_to a b => mkRange a b
  | R_from a => mkRange a ULONG_MAX
  | R_last n => mkRange ULONG_MAX n
  end.

Fixpoint ranges_text (l : list rspec) : bytes :=
  match l with
  | [] => []
  | [r] => rspec_text r
  | r :: l' => rspec_text r ++ [44] ++ ranges_text l'
  end.

Section parse_proofs.
Context {os : OS}.

(** One character that neither submits nor aborts. *)
Lemma range_loop_plain c str mode a b fcode :
  zget stable (mode * 6 + ccode c) = Some fcode ->
  Z.land fcode ACTMASK2 = 0 ->
  range_loop (c :: str) mode a b
  = range_loop str (Z.land fcode STATEMASK) (fst (range_act fcode c a b))
      (snd (range_act fcode c a b)).
Proof.
  intros Hf Ha. cbn [range_loop]. rewrite Hf. cbn [checked].
  unfold mbind, M_bind, mret, M_ret.
  destruct (range_act fcode c a b) as [a' b']. rewrite Ha. reflexivity.
Qed.

(** A character that submits the range. *)
Lemma range_loop_submit c str mode a b fcode s :
  zget stable (mode * 6 + ccode c) = Some fcode ->
  Z.land fcode ACTMASK2 = SR ->
  let '(a', b') := range_act fcode c a b in
  (a' =? b') && (a' =? UINT_MAX) = false ->
  range_loop (c :: str) mode a b s
  = (range_add a' b' ;; range_loop str (Z.land fcode STATEMASK) 0 0) s.
Proof.
  intros Hf Ha. destruct (range_act fcode c a b) as [a' b'] eqn:Ea. intros Hu.
  cbn [range_loop]. rewrite Hf. cbn [checked].
  unfold mbind, M_bind, mret, M_ret. rewrite Ea, Ha. cbn -[range_add range_loop].
  rewrite Hu. change (SR =? AR) with false. change (SR =? SR) with true.
  cbn -[range_add]. by destruct (range_add a' b' s).
Qed.

Lemma range_loop_end mode a b fcode s :
  zget stable (mode * 6 + 4) = Some fcode ->
  Z.land fcode ACTMASK2 = SR ->
  let '(a', b') := range_act fcode 0 a b in
  (a' =? b') && (a' =? UINT_MAX) = false ->
  range_loop [] mode a b s = (range_add a' b' ;; mret 1) s.
Proof.
  intros Hf Ha. destruct (range_act fcode 0 a b) as [a' b'] eqn:Ea. intros Hu.
  cbn [range_loop]. change (ccode 0) with 4. rewrite Hf. cbn [checked].
  unfold mbind, M_bind, mret, M_ret. rewrite Ea, Ha. cbn -[range_add].
  rewrite Hu. change (SR =? AR) with false. change (SR =? SR) with true.
  cbn -[range_add]. by destruct (range_add a' b' s).
Qed.

(** Digits of the first and of the second number. *)
Lemma range_loop_digits (push : Z) (mode mode' : Z) ds str a b :
  (mode, mode', push) ∈ [(initial, startnum, PB); (startnum, startnum, PB);
                         (gap2, stopnum, PE); (stopnum, stopnum, PE)] ->
  forallb isdigit ds = true -> ds <> [] ->
  0 <= a < 2 ^ 64 -> 0 <= b < 2 ^ 64 ->
  digits_value ds (if push =? PB then a else b) < 2 ^ 64 ->
  range_loop (ds ++ str) mode a b
  = if push =? PB then range_loop str mode' (digits_value ds a) b
    else range_loop str mode' a (digits_value ds b).
Proof.
  intros Hm. revert mode a b Hm. induction ds as [|c ds IH]; [done|].
  intros mode a b Hm Hd _ Ha Hb Hv. simpl in Hd. apply andb_prop in Hd as [Hc Hd].
  assert (Hcc : ccode c = 0).
  { unfold ccode. unfold isdigit in Hc. by rewrite Hc. }
  assert (Hc' : 48 <= c <= 57) by (unfold isdigit in Hc; bprop; lia).
  assert (Hm' : (mode', mode', push) ∈ [(initial, startnum, PB); (startnum, startnum, PB);
                         (gap2, stopnum, PE); (stopnum, stopnum, PE)] /\
    zget stable (mode * 6 + 0) = Some (push + mode') /\
    Z.land (push + mode') ACTMASK2 = 0 /\
    Z.land (push + mode') STATEMASK = mode' /\
    Z.land (push + mode') ACTMASK1 = push).
  { rewrite !elem_of_cons in Hm.
    destruct Hm as [[= -> -> ->]|[[= -> -> ->]|[[= -> -> ->]|[[= -> -> ->]|[]%elem_of_nil]]]];
      (split; [set_solver|]); repeat split. }
  destruct Hm' as (Hm' & Hz & H2 & H3 & H1).
  cbn [app]. rewrite (range_loop_plain _ _ _ _ _ (push + mode')) by (by rewrite ?Hcc).
  rewrite H3. unfold range_act. rewrite H1.
  cbn [digits_value] in Hv |- *. rewrite Hc in *.
  assert (Hp : push = PB \/ push = PE).
  { rewrite !elem_of_cons in Hm.
    destruct Hm as [[= -> -> ->]|[[= -> -> ->]|[[= -> -> ->]|[[= -> -> ->]|[]%elem_of_nil]]]];
      auto. }
  assert (Hstep : forall x, 0 <= x -> digits_value ds (x * 10 + (c - 48)) < 2 ^ 64 ->
    u64 (x * 10 + (c - 48)) = x * 10 + (c - 48) /\ 0 <= x * 10 + (c - 48) < 2 ^ 64).
  { intros x Hx Hdv. destruct (digits_value_mono ds (x * 10 + (c - 48)) Hd) as [Hge _]; [lia|].
    split; [apply Z.mod_small; lia|lia]. }
  destruct Hp as [-> | ->].
  - rewrite !(Z.eqb_refl PB) in *. cbn [fst snd].
    destruct (Hstep a) as [Eu Hr]; [lia|done|]. rewrite Eu.
    destruct ds as [|d ds]; [done|].
    rewrite (IH mode'); try done.
  - change (PE =? PB) with false in *. change (PE =? DB) with false.
    rewrite (Z.eqb_refl PE). cbn [fst snd].
    destruct (Hstep b) as [Eu Hr]; [lia|done|]. rewrite Eu.
    destruct ds as [|d ds]; [done|].
    rewrite (IH mode'); try done.
Qed.

(** Where the automaton is after the text of one range. *)
Lemma range_text_state r str :
  rspec_ok r ->
  exists mode a b,
    range_loop (rspec_text r ++ str) initial 0 0 = range_loop str mode a b /\
    (mode = stopnum /\ mkRange a b = rspec_range r \/
     mode = gap2 /\ mkRange a ULONG_MAX = rspec_range r) /\
    start (rspec_range r) <> UINT_MAX /\ 0 <= a < 2 ^ 64.
Proof.
  assert (Hnum : forall n, 0 <= n < UINT_MAX ->
    forallb isdigit (simple_itoa n) = true /\ simple_itoa n <> [] /\
    digits_value (simple_itoa n) 0 = n).
  { intros n Hn. apply simple_itoa_spec. lia. }
  assert (Hhy : forall str m a b, m = startnum \/ m = initial ->
    range_loop (45 :: str) m a b
    = range_loop str gap2 (if m =? initial then ULONG_MAX else a) b).
  { intros str' m a b [-> | ->].
    - by rewrite (range_loop_plain _ _ _ _ _ gap2).
    - by rewrite (range_loop_plain _ _ _ _ _ (DB + gap2)). }
  assert (Hpb : forall n str b, 0 <= n < UINT_MAX -> 0 <= b < 2 ^ 64 ->
    range_loop (simple_itoa n ++ str) initial 0 b = range_loop str startnum n b).
  { intros n str' b Hn Hb. destruct (Hnum n Hn) as (D & N & V). unfold UINT_MAX in *.
    rewrite (range_loop_digits PB initial startnum); try done; try lia.
    - change (PB =? PB) with true. cbv iota. by rewrite V.
    - set_solver.
    - change (PB =? PB) with true. cbv iota. rewrite V. lia. }
  assert (Hpe : forall n str a, 0 <= n < UINT_MAX -> 0 <= a < 2 ^ 64 ->
    range_loop (simple_itoa n ++ str) gap2 a 0 = range_loop str stopnum a n).
  { intros n str' b Hn Hb. destruct (Hnum n Hn) as (D & N & V). unfold UINT_MAX in *.
    rewrite (range_loop_digits PE gap2 stopnum); try done; try lia.
    - change (PE =? PB) with false. cbv iota. by rewrite V.
    - set_solver.
    - change (PE =? PB) with false. cbv iota. rewrite V. lia. }
  destruct r as [a b|a|n]; unfold rspec_ok, UINT_MAX in *;
    cbn [rspec_text rspec_range start];
    rewrite <- ?app_assoc; cbn [app].
  - intros [Ha Hb]. rewrite Hpb, Hhy by (auto || lia).
    change (startnum =? initial) with false. cbv iota. rewrite Hpe by lia.
    exists stopnum, a, b. split_and!; auto; lia.
  - intros Ha. rewrite Hpb, Hhy by (auto || lia).
    change (startnum =? initial) with false. cbv iota.
    exists gap2, a, 0. split_and!; auto; lia.
  - intros Hn. rewrite Hhy by auto. change (initial =? initial) with true. cbv iota.
    rewrite Hpe by (unfold ULONG_MAX; lia).
    exists stopnum, ULONG_MAX, n. split_and!; auto; vm_compute; congruence.
Qed.

(** ... and after the comma or the end of the string that follows. *)
Lemma range_text_submit r s :
  rspec_ok r ->
  let '(mkRange a b) := rspec_range r in
  range_loop (rspec_text r) initial 0 0 s = (range_add a b ;; mret 1) s /\
  forall str, range_loop (rspec_text r ++ 44 :: str) initial 0 0 s
              = (range_add a b ;; range_loop str initial 0 0) s.
Proof.
  intros Hr. destruct (rspec_range r) as [a0 b0] eqn:Er. split.
  - destruct (range_text_state r [] Hr) as (mode & a & b & E & Hm & Hu & Ha).
    rewrite app_nil_r in E. rewrite E, Er in *. simpl in Hu.
    destruct Hm as [[-> [= -> ->]]|[-> [= -> <-]]].
    + apply (range_loop_end stopnum a0 b0 SR); [done|done|].
      rewrite andb_comm. by apply andb_false_intro1, Z.eqb_neq.
    + apply (range_loop_end gap2 a0 b (DE + SR)); [done|done|].
      rewrite andb_comm. by apply andb_false_intro1, Z.eqb_neq.
  - intros str.
    destruct (range_text_state r (44 :: str) Hr) as (mode & a & b & E & Hm & Hu & Ha).
    rewrite E, Er in *. simpl in Hu.
    destruct Hm as [[-> [= -> ->]]|[-> [= -> <-]]].
    + apply (range_loop_submit 44 str stopnum a0 b0 (SR + initial)); [done|done|].
      rewrite andb_comm. by apply andb_false_intro1, Z.eqb_neq.
    + apply (range_loop_submit 44 str gap2 a0 b (DE + SR + initial)); [done|done|].
      rewrite andb_comm. by apply andb_false_intro1, Z.eqb_neq.
Qed.

Lemma range_add_wp a b s (Q : unit -> St -> Prop) :
  malloc_ok os ->
  (forall pool w,
     Q tt (mkSt (set_numranges (numranges (rq s) + 1)
                  (set_ranges (ranges (rq s) ++ [mkRange a b]) (rq s)))
             (set_range_pool pool (sv s)) w)) ->
  wp (range_add a b) Q s.
Proof.
  intros Hm HQ. unfold range_add, range_pool_pop. wps.
  destruct (range_pool (sv s)) as [|x pool] eqn:Ep; wps; [|apply HQ].
  apply wp_call. intros ok w E. destruct (Hm 24 (wd s)) as [w' E'].
  rewrite E in E'. injection E' as -> ->. wps.
  assert (Eg : set_range_pool [] (sv s) = sv s)
    by (destruct (sv s); simpl in *; by subst).
  specialize (HQ [] w'). by rewrite Eg in HQ.
Qed.

Lemma ranges_text_parse l s :
  malloc_ok os -> Forall rspec_ok l ->
  wp (range_loop (ranges_text l) initial 0 0)
    (fun n s' => n = 1 /\ ranges (rq s') = ranges (rq s) ++ map rspec_range l /\
       numranges (rq s') = numranges (rq s) + zlen l) s.
Proof.
  intros Hm Hl. revert s. induction l as [|r l IH]; intros s.
  { unfold wp. cbn. split_and!; [done|by rewrite app_nil_r|].
    rewrite zlen_nil. lia. }
  apply Forall_cons in Hl as [Hr Hl].
  pose proof (range_text_submit r s Hr) as Hsub. cbn [map].
  destruct (rspec_range r) as [a b]. destruct Hsub as [Hend Hcomma].
  destruct l as [|r' l].
  - unfold wp. cbn [ranges_text]. rewrite Hend.
    apply wp_bind, range_add_wp; [done|]. intros pool w. wps. cbn. split_and!; auto.
  - change (ranges_text (r :: r' :: l))
      with (rspec_text r ++ 44 :: ranges_text (r' :: l)).
    unfold wp. rewrite Hcomma. apply wp_bind, range_add_wp; [done|]. intros pool w.
    eapply wp_mono; [by apply IH|]. cbn [rq sv wd].
    intros n s' (-> & -> & ->). split_and!; [done| |].
    + cbn. by rewrite <- app_assoc.
    + rewrite !zlen_cons. cbn. lia.
Qed.
End parse_proofs.

Section parse_props.
Context {os : OS}.

(** C33: parsing the printed form of any list of ranges "a-b", "a-" and
    "-n" (numbers below UINT_MAX) succeeds and appends exactly these ranges, in
    order, to the request, with ULONG_MAX for a number that is not given. *)
Theorem range_parse_roundtrip l s :
  malloc_ok os -> Forall rspec_ok l ->
  wp (range_parse (bs "bytes=" ++ ranges_text l))
    (fun n s' => n = 1 /\ ranges (rq s') = ranges (rq s) ++ map rspec_range l /\
       numranges (rq s') = numranges (rq s) + zlen l) s.
Proof.
  intros Hm Hl. unfold range_parse.
  replace (strncaseeq (bs "bytes=" ++ ranges_text l) (bs "bytes=") 6) with true.
  - rewrite zdrop_app_exact by done. by apply ranges_text_parse.
  - symmetry. unfold strncaseeq. apply bool_decide_eq_true.
    by rewrite ztake_app_exact by done.
Qed.
End parse_props.

Lemma range_parse_roundtrip_witness :
  exists s', range_parse (bs "bytes=" ++ ranges_text [R_from_to 0 10; R_from 33; R_last 44])
               test_state = Ret 1 s' /\
    ranges (rq s') = [mkRange 0 10; mkRange 33 ULONG_MAX; mkRange ULONG_MAX 44].
Proof.
  destruct (wp_elim _ _ _ (range_parse_roundtrip (os := scriptOS)
    [R_from_to 0 10; R_from 33; R_last 44] test_state
    ltac:(intros n w; exists w; reflexivity)
    ltac:(repeat constructor; vm_compute; congruence)))
    as (n & s' & E & -> & H & _).
  exists s'. split; [exact E|exact H].
Defined.

(** * Fitting ranges to the file *)

Lemma i64_nonneg z : 0 <= z < 2 ^ 64 -> 0 <= i64 z -> z < 2 ^ 63.
Proof.
  unfold i64. intros Hz H. destruct (decide (z < 2 ^ 63)); [done|].
  assert (E : (z + 2 ^ 63) mod 2 ^ 64 = z - 2 ^ 63).
  { rewrite <- (Z.mod_add _ (-1)) by lia. rewrite Z.mod_small by lia. lia. }
  lia.
Qed.

Definition range_bits (rg : Range) : Prop :=
  0 <= start rg < 2 ^ 64 /\ 0 <= stop rg < 2 ^ 64.

(** A range that survives lies in the file. *)
Lemma fix_range_inside size rg :
  0 < size < 2 ^ 63 -> range_bits rg -> range_valid (fix_range size rg) = true ->
  0 <= start (fix_range size rg) <= stop (fix_range size rg) /\
  stop (fix_range size rg) < size.
Proof.
  intros Hsz [Ha Hb] Hv. unfold range_valid in Hv. bprop.
  revert H H0. unfold fix_range. rewrite (u64_small (size - 1)) by lia.
  set (stop1 := if (stop rg =? UINT_MAX) || (size <=? stop rg) then size - 1 else stop rg).
  assert (Hs1 : 0 <= stop1 < size).
  { unfold stop1. destruct ((stop rg =? UINT_MAX) || (size <=? stop rg)) eqn:E; [lia|].
    apply orb_false_elim in E as [_ E]. bprop. lia. }
  destruct (i64 (start rg) =? -1); cbn [start stop]; intros H1 H2.
  - rewrite (u64_small (size - stop1)) in * by lia. lia.
  - lia.
Qed.

(** One range after the adjustment is what RFC 2616 asks for: "a-b"
    with a inside the file keeps a and is cut at the last byte, "a-" extends to
    the last byte, and "-n" for n smaller than the file selects its last n
    bytes. *)
Theorem fix_range_meaning size r :
  0 < size < UINT_MAX -> rspec_ok r ->
  match r with
  | R_from_to a b =>
      a <= b -> a < size ->
      fix_range size (rspec_range r) = mkRange a (Z.min b (size - 1)) /\
      range_valid (fix_range size (rspec_range r)) = true
  | R_from a =>
      a < size ->
      fix_range size (rspec_range r) = mkRange a (size - 1) /\
      range_valid (fix_range size (rspec_range r)) = true
  | R_last n =>
      0 < n < size ->
      fix_range size (rspec_range r) = mkRange (size - n) (size - 1) /\
      range_valid (fix_range size (rspec_range r)) = true
  end.
Proof.
  unfold UINT_MAX. intros Hs Hr.
  assert (Hi : forall z, 0 <= z < 2 ^ 32 -> i64 z = z).
  { intros z Hz. unfold i64. rewrite Z.mod_small by lia. lia. }
  assert (Hval : forall a b, 0 <= a < 2 ^ 32 -> a <= b ->
    range_valid (mkRange a b) = true).
  { intros a b Ha Hab. unfold range_valid. simpl. rewrite Hi by done. zcases. }
  unfold fix_range, rspec_ok, UINT_MAX in *.
  destruct r as [a b|a|n]; cbn [rspec_range start stop]; cbv beta iota in Hr.
  - intros Hab Ha. rewrite Hi by lia. rewrite (u64_small (size - 1)) by lia.
    destruct (Z.eqb_spec b (2 ^ 32 - 1)); [lia|].
    destruct (Z.leb_spec size b), (Z.eqb_spec a (-1)); try lia; simpl.
    + rewrite Z.min_r by lia. auto with lia.
    + rewrite Z.min_l by lia. auto with lia.
  - intros Ha. rewrite Hi by lia. rewrite (u64_small (size - 1)) by lia.
    unfold ULONG_MAX. destruct (Z.eqb_spec a (-1)); [lia|].
    destruct (Z.leb_spec size (2 ^ 64 - 1)); [|lia]. rewrite orb_true_r. auto with lia.
  - intros Hn. change (i64 ULONG_MAX =? -1) with true.
    destruct (Z.eqb_spec n (2 ^ 32 - 1)); [lia|].
    destruct (Z.leb_spec size n); [lia|]. simpl.
    rewrite !u64_small by lia. auto with lia.
Qed.

Lemma fix_range_meaning_witness :
  fix_range 600 (rspec_range (R_last 499)) = mkRange 101 599 /\
  range_valid (fix_range 600 (rspec_range (R_last 499))) = true.
Proof.
  apply (fix_range_meaning 600 (R_last 499));
    [unfold UINT_MAX; lia|unfold rspec_ok, UINT_MAX; lia|lia].
Defined.

(** When more bytes are asked for than the file has, the answer
    should be the whole file; the code starts at byte 1 instead of byte 0. *)
Theorem long_suffix_drops_first_byte size n :
  1 < size < UINT_MAX -> size <= n < UINT_MAX ->
  fix_range size (rspec_range (R_last n)) = mkRange 1 (size - 1) /\
  range_valid (fix_range size (rspec_range (R_last n))) = true.
Proof.
  unfold UINT_MAX. intros Hs Hn. unfold fix_range, UINT_MAX. cbn [rspec_range start stop].
  change (i64 ULONG_MAX =? -1) with true. cbv iota.
  destruct (Z.leb_spec size n); [|lia]. rewrite orb_true_r.
  rewrite (u64_small (size - 1)), (u64_small (size - (size - 1))) by lia.
  replace (size - (size - 1)) with 1 by lia. split; [done|].
  unfold range_valid. simpl. change (i64 1) with 1. zcases.
Qed.

Lemma long_suffix_drops_first_byte_witness :
  fix_range 10 (rspec_range (R_last 20)) = mkRange 1 9 /\
  range_valid (fix_range 10 (rspec_range (R_last 20))) = true.
Proof. apply (long_suffix_drops_first_byte 10 20); unfold UINT_MAX; lia. Defined.

Section fixup_proofs.
Context {os : OS} {laws : OSLaws os}.

Definition kept_ranges (size : Z) (l : list Range) : list Range :=
  List.filter range_valid (map (fix_range size) l).

Lemma kept_ranges_inside size l :
  0 < size < 2 ^ 63 -> Forall range_bits l ->
  Forall (fun rg => 0 <= start rg <= stop rg /\ stop rg < size) (kept_ranges size l).
Proof.
  intros Hs. induction 1 as [|rg l Hr Hl IH]; [constructor|]. unfold kept_ranges in *.
  simpl. destruct (range_valid (fix_range size rg)) eqn:E; [|done].
  constructor; [by apply fix_range_inside|done].
Qed.

(** The pool only grows by what is dropped. *)
Definition pool_only (s s' : St) : Prop :=
  rq s' = rq s /\ wd s' = wd s /\ exists p, sv s' = set_range_pool p (sv s).

Lemma set_range_pool_id (g : server) : set_range_pool (range_pool g) g = g.
Proof. by destruct g. Qed.

Lemma pool_only_refl s : pool_only s s.
Proof. split_and!; auto. exists (range_pool (sv s)). by rewrite set_range_pool_id. Qed.

Lemma pool_only_push s s' rg :
  pool_only (mkSt (rq s) (set_range_pool (rg :: range_pool (sv s)) (sv s)) (wd s)) s' ->
  pool_only s s'.
Proof.
  intros (? & ? & p & Ep). split_and!; auto. exists p. rewrite Ep. by destruct (sv s).
Qed.

Lemma fixup_loop_wp size l s :
  wp (fixup_loop size l)
    (fun k s' => k = kept_ranges size l /\ pool_only s s' /\
       (length k + length (range_pool (sv s'))
        = length l + length (range_pool (sv s)))%nat) s.
Proof.
  revert s. induction l as [|rg l IH]; intros s; simpl.
  { apply wp_ret. split_and!; auto using pool_only_refl. }
  unfold kept_ranges. simpl. destruct (range_valid (fix_range size rg)).
  - apply wp_bind. eapply wp_mono; [apply IH|]. intros k s' (-> & Hp & Hl).
    wps. split_and!; auto. simpl. lia.
  - apply wp_bind. unfold range_pool_push. wps.
    eapply wp_mono; [apply IH|]. simpl.
    intros k s' (-> & Hp & Hl). simpl in *. split_and!; [done| |].
    + by eapply pool_only_push.
    + rewrite Hl. lia.
Qed.

Lemma push_all_wp l s :
  wp (push_all l)
    (fun _ s' => pool_only s s' /\
       length (range_pool (sv s')) = (length l + length (range_pool (sv s)))%nat) s.
Proof.
  revert s. induction l as [|rg l IH]; intros s; simpl.
  { apply wp_ret. split; [apply pool_only_refl|done]. }
  apply wp_bind. unfold range_pool_push. wps.
  eapply wp_mono; [apply IH|]. simpl.
  intros k s' (Hp & Hl). simpl in *. split; [by eapply pool_only_push|lia].
Qed.
End fixup_proofs.

Section fixup_props.
Context {os : OS} {laws : OSLaws os}.

(** [send_r_invalid_range] only prints. *)
Lemma invalid_range_wp s :
  printable s ->
  wp send_r_invalid_range
    (fun _ s' => exists o, wrote o (squashed R_INVALID_RANGE s) s') s.
Proof.
  intros Hs. pose proof (emits_http_headers false) as Hh.
  unfold send_r_invalid_range. apply wp_squash.
  eapply wp_mono; [eapply emits_use; [emit|by apply squashed_printable|reflexivity]|].
  intros [] s' H. by eexists.
Qed.

(** C34: [ranges_fixup] keeps, in order, exactly the ranges that are valid
    after adjustment; each of them satisfies 0 <= start <= stop < filesize; the
    dropped ones go back to the pool, none is lost; with none left it answers
    416 and returns 0, else it returns 1. *)
Theorem ranges_fixup_correct s :
  printable s -> 0 <= filesize (rq s) < 2 ^ 63 -> Forall range_bits (ranges (rq s)) ->
  wp ranges_fixup
    (fun n s' =>
       ranges (rq s') =
         (if filesize (rq s) =? 0 then []
          else kept_ranges (filesize (rq s)) (ranges (rq s))) /\
       Forall (fun rg => 0 <= start rg <= stop rg /\ stop rg < filesize (rq s))
         (ranges (rq s')) /\
       (n = 1 /\ ranges (rq s') <> [] \/
        n = 0 /\ ranges (rq s') = [] /\ response_status (rq s') = R_INVALID_RANGE) /\
       (length (ranges (rq s')) + length (range_pool (sv s'))
        = length (ranges (rq s)) + length (range_pool (sv s)))%nat) s.
Proof.
  intros (Hb & Ht & Hr) Hf Hl. unfold ranges_fixup. wps.
  set (kept := if filesize (rq s) =? 0 then []
               else kept_ranges (filesize (rq s)) (ranges (rq s))).
  assert (Hin : Forall (fun rg => 0 <= start rg <= stop rg /\ stop rg < filesize (rq s))
                  kept).
  { unfold kept. zcase; [constructor|]. apply kept_ranges_inside; [lia|done]. }
  apply (wp_mono _ (fun k s' => k = kept /\
    pool_only (mkSt (set_ranges [] (rq s)) (sv s) (wd s)) s' /\
    (length k + length (range_pool (sv s'))
     = length (ranges (rq s)) + length (range_pool (sv s)))%nat)).
  { unfold kept. zcase.
    - apply wp_bind. eapply wp_mono; [apply push_all_wp|]. intros [] s' (? & ?).
      wps. split_and!; auto.
    - eapply wp_mono; [apply fixup_loop_wp|]. done. }
  intros k s' (-> & (Er & Ew & p & Ep) & Hlen). simpl in *. wps.
  destruct kept as [|rg kept].
  - wps. eapply wp_mono; [apply invalid_range_wp|].
    + rewrite Er, Ep. simpl. split_and!; [by destruct Hb; split|done|].
      by destruct Hr; split.
    + intros [] s2 [o [B F S O]]. wps.
      pose proof (f_equal ranges F) as Fr. pose proof (f_equal response_status F) as Fs.
      rewrite Er in Fr. simpl in Fr, Fs, S. rewrite Fr. simpl.
      rewrite S. auto 10.
  - wps. simpl. split_and!; auto.
Qed.
End fixup_props.

(** "bytes=0-9,50-60,-5" on a file of 20 bytes. *)
Definition fixup_state : St :=
  mkSt (set_filesize 20 (set_ranges [mkRange 0 9; mkRange 50 60; mkRange ULONG_MAX 5]
          test_request)) test_server empty_world.

Lemma ranges_fixup_correct_witness :
  exists s', ranges_fixup fixup_state = Ret 1 s' /\
    ranges (rq s') = [mkRange 0 9; mkRange 15 19].
Proof.
  destruct (wp_elim _ _ _ (ranges_fixup_correct fixup_state
    ltac:(split_and!; [split; vm_compute; congruence|discriminate|apply test_resp_ok;
            [exists []; vm_compute; reflexivity|vm_compute; eauto]])
    ltac:(split; vm_compute; congruence)
    ltac:(repeat constructor; vm_compute; congruence)))
    as (n & s' & E & Hr & _ & Hn & _).
  exists s'. split; [|exact Hr].
  destruct Hn as [[-> _]|(_ & H & _)]; [exact E|].
  rewrite Hr in H. vm_compute in H. discriminate H.
Defined.
