(* ===== verification/Queue.v ===== *)
(** queue.c: the queues of requests, doubly linked lists in the heap.  [dlist]
    relates a queue to the list of the requests in it; [dequeue] and [enqueue]
    are removal and insertion at the front of that list. *)

From S2P Require Import Prelude Types Machine.

Notation heap_t := (gmap positive request).

(** Updating the structure at [p]; [None] when nothing is allocated there. *)
Definition heap_upd (h : heap_t) (p : positive) (f : request -> request) : option heap_t :=
  r ← h !! p; Some (<[p := f r]> h).

(** [dequeue (&head, req)]: the new heap and head. *)
Definition dequeue (h : heap_t) (head : option positive) (p : positive) :
    option (heap_t * option positive) :=
  r ← h !! p;
  let head' := if bool_decide (head = Some p) then next r else head in
  h1 ← (match prev r with
        | Some q => heap_upd h q (set_next (next r))
        | None => Some h
        end);
  r1 ← h1 !! p;
  h2 ← (match next r1 with
        | Some q => heap_upd h1 q (set_prev (prev r1))
        | None => Some h1
        end);
  h3 ← heap_upd h2 p (fun r => set_prev None (set_next None r));
  Some (h3, head').

Definition enqueue (h : heap_t) (head : option positive) (p : positive) :
    option (heap_t * option positive) :=
  h1 ← (match head with
        | Some q => heap_upd h q (set_prev (Some p))
        | None => Some h
        end);
  h2 ← heap_upd h1 p (fun r => set_prev None (set_next head r));
  Some (h2, Some p).

(** * Moving between the ready and the blocked queue *)

(** Which descriptor a blocked request waits for, and whether to write it. *)
Definition wait_for (r : request) : Z * bool :=
  if negb (buffer_end r =? 0) then (fd r, true)
  else match status r with
       | IOSHUFFLE | WRITE | PIPE_WRITE | DONE => (fd r, true)
       | PIPE_READ => (data_fd r, false)
       | BODY_WRITE => (post_data_fd r, true)
       | _ => (fd r, false)
       end.

(** [BOA_FD_SET] and [BOA_FD_CLR] of the select build. *)
Definition BOA_FD_SET (d : Z) (write : bool) (g : server) : server :=
  let g := if write then set_block_write_fdset ({[ d ]} ∪ block_write_fdset g) g
           else set_block_read_fdset ({[ d ]} ∪ block_read_fdset g) g in
  if max_fd g <? d then set_max_fd d g else g.

Definition BOA_FD_CLR (d : Z) (write : bool) (g : server) : server :=
  if write then set_block_write_fdset (block_write_fdset g ∖ {[ d ]}) g
  else set_block_read_fdset (block_read_fdset g ∖ {[ d ]}) g.

Definition block_request (p : positive) (g : server) : option server :=
  '(h1, ready) ← dequeue (heap g) (request_ready g) p;
  '(h2, block) ← enqueue h1 (request_block g) p;
  r ← h2 !! p;
  let '(d, write) := wait_for r in
  Some (BOA_FD_SET d write
          (set_request_block block (set_request_ready ready (set_heap h2 g)))).

Definition ready_request (p : positive) (g : server) : option server :=
  '(h1, block) ← dequeue (heap g) (request_block g) p;
  '(h2, ready) ← enqueue h1 (request_ready g) p;
  r ← h2 !! p;
  let '(d, write) := wait_for r in
  Some (BOA_FD_CLR d write
          (set_request_block block (set_request_ready ready (set_heap h2 g)))).

(** * The list a queue stands for *)

(** The links of the structure at [p]. *)
Definition links (h : heap_t) (p : positive) : option (option positive * option positive) :=
  (fun r => (next r, prev r)) <$> h !! p.

(** What a request says apart from its links. *)
Definition unlinked (r : request) : request := set_next None (set_prev None r).
Definition contents (h : heap_t) (p : positive) : option request := unlinked <$> h !! p.

(** A segment that is entered at [head], from [pv], and ends before [tl]. *)
Fixpoint dseg (h : heap_t) (pv head : option positive) (l : list positive)
    (tl : option positive) : Prop :=
  match l with
  | [] => head = tl
  | p :: l' =>
      head = Some p /\ exists nx, links h p = Some (nx, pv) /\ dseg h (Some p) nx l' tl
  end.

(** The queue with this head holds the requests [l]. *)
Definition dlist (h : heap_t) (head : option positive) (l : list positive) : Prop :=
  NoDup l /\ dseg h None head l None.

Lemma links_upd h p f h' q :
  heap_upd h p f = Some h' ->
  links h' q = if decide (p = q) then (fun r => (next (f r), prev (f r))) <$> h !! p
               else links h q.
Proof.
  unfold heap_upd, links. destruct (h !! p) as [r|] eqn:E; [|done].
  intros [= <-]. destruct (decide (p = q)) as [->|].
  - by rewrite lookup_insert_eq.
  - by rewrite lookup_insert_ne.
Qed.

Lemma contents_upd h p f h' q :
  (forall r, unlinked (f r) = unlinked r) ->
  heap_upd h p f = Some h' -> contents h' q = contents h q.
Proof.
  intros Hf. unfold heap_upd, contents. destruct (h !! p) as [r|] eqn:E; [|done].
  intros [= <-]. destruct (decide (p = q)) as [->|].
  - rewrite lookup_insert_eq, E. simpl. by rewrite Hf.
  - by rewrite lookup_insert_ne.
Qed.

Lemma heap_upd_links h p f l :
  links h p = Some l -> exists h', heap_upd h p f = Some h'.
Proof.
  unfold links, heap_upd. destruct (h !! p); [|done]. simpl. eauto.
Qed.

(** Changing links outside a list leaves the list alone. *)
Lemma dseg_frame h h' pv head l tl :
  (forall q, q ∈ l -> links h' q = links h q) ->
  dseg h pv head l tl -> dseg h' pv head l tl.
Proof.
  revert pv head. induction l as [|p l IH]; intros pv head Hq; simpl; [done|].
  intros (-> & nx & Hl & H). split; [done|]. exists nx. split.
  - rewrite Hq by set_solver. done.
  - apply IH; [|done]. intros q Hin. apply Hq. set_solver.
Qed.

Fixpoint last_or (pv : option positive) (l : list positive) : option positive :=
  match l with [] => pv | p :: l' => last_or (Some p) l' end.

Lemma last_or_snoc pv l x : last_or pv (l ++ [x]) = Some x.
Proof. revert pv. induction l; intros pv; simpl; auto. Qed.

Lemma dseg_app h pv head l1 l2 tl :
  dseg h pv head (l1 ++ l2) tl <->
  exists mid, dseg h pv head l1 mid /\ dseg h (last_or pv l1) mid l2 tl.
Proof.
  revert pv head. induction l1 as [|p l1 IH]; intros pv head; simpl; [naive_solver|].
  setoid_rewrite IH. naive_solver.
Qed.

Lemma dseg_set_prev h h' pv pv' q l tl :
  NoDup (q :: l) -> dseg h pv (Some q) (q :: l) tl ->
  heap_upd h q (set_prev pv') = Some h' -> dseg h' pv' (Some q) (q :: l) tl.
Proof.
  intros Hnd (_ & nx & Hl & H) E. split; [done|]. exists nx.
  apply NoDup_cons in Hnd as [Hq Hnd]. split.
  - rewrite (links_upd _ _ _ _ _ E). destruct (decide (q = q)); [|done].
    unfold links in Hl. destruct (h !! q) as [r|]; [|done]. simpl in *. congruence.
  - eapply dseg_frame; [|done]. intros x Hx. rewrite (links_upd _ _ _ _ _ E).
    destruct (decide (q = x)); [by subst|done].
Qed.

Lemma dseg_set_next h h' pv head l x tl tl' :
  NoDup (l ++ [x]) -> dseg h pv head (l ++ [x]) tl ->
  heap_upd h x (set_next tl') = Some h' -> dseg h' pv head (l ++ [x]) tl'.
Proof.
  intros Hnd (mid & H1 & -> & nx & Hl & ->)%dseg_app E.
  apply NoDup_app in Hnd as (_ & Hx & _).
  apply dseg_app. exists (Some x). split.
  - eapply dseg_frame; [|done]. intros y Hy. rewrite (links_upd _ _ _ _ _ E).
    destruct (decide (x = y)); [|done]. subst. exfalso. apply (Hx y Hy). set_solver.
  - split; [done|]. exists tl'. split; [|done].
    rewrite (links_upd _ _ _ _ _ E). destruct (decide (x = x)); [|done].
    unfold links in Hl. destruct (h !! x) as [r|]; [|done]. simpl in *. congruence.
Qed.

(** * dequeue and enqueue on lists *)

(** Only links of [l] change. *)
Record relinked (l : list positive) (h h' : heap_t) : Prop := {
  relinked_contents : forall q, contents h' q = contents h q;
  relinked_links : forall q, q ∉ l -> links h' q = links h q
}.

Lemma relinked_upd h p f h' l :
  (forall r, unlinked (f r) = unlinked r) -> p ∈ l ->
  heap_upd h p f = Some h' -> relinked l h h'.
Proof.
  intros Hf Hp E. split.
  - intros q. by eapply contents_upd.
  - intros q Hq. rewrite (links_upd _ _ _ _ _ E). by destruct (decide (p = q)); subst.
Qed.

Lemma relinked_trans l h1 h2 h3 : relinked l h1 h2 -> relinked l h2 h3 -> relinked l h1 h3.
Proof.
  intros [C1 L1] [C2 L2]. split; intros; [by rewrite C2, C1|by rewrite L2, L1].
Qed.

Lemma relinked_refl l h : relinked l h h.
Proof. done. Qed.

Lemma links_Some h p nx pv :
  links h p = Some (nx, pv) -> exists r, h !! p = Some r /\ next r = nx /\ prev r = pv.
Proof. unfold links. destruct (h !! p) as [r|]; [|done]. intros [= <- <-]. eauto. Qed.

(** The first half of [dequeue]: the predecessor now points past [p]. *)
Lemma dequeue_prev h head l1 p l2 nx :
  NoDup (l1 ++ p :: l2) -> dseg h None head l1 (Some p) ->
  links h p = Some (nx, last_or None l1) -> dseg h (Some p) nx l2 None ->
  exists h1,
    (match last_or None l1 with
     | Some q => heap_upd h q (set_next nx)
     | None => Some h
     end) = Some h1 /\
    dseg h1 None (if decide (l1 = []) then nx else head) l1 nx /\
    links h1 p = Some (nx, last_or None l1) /\ dseg h1 (Some p) nx l2 None /\
    relinked (l1 ++ p :: l2) h h1.
Proof.
  intros Hnd H1 Hp H2. destruct l1 as [|x l1' _] using rev_ind.
  { simpl in *. exists h. split_and!; auto using relinked_refl. }
  rewrite last_or_snoc in *.
  assert (Hxp : x <> p /\ x ∉ l2).
  { apply NoDup_app in Hnd as (_ & Hd & _). specialize (Hd x). set_solver. }
  assert (Hx : exists pv', links h x = Some (Some p, pv')).
  { apply dseg_app in H1 as (mid & _ & -> & nx' & Hl & ->). eauto. }
  destruct Hx as [pv' Hx]. destruct (heap_upd_links h x (set_next nx) _ Hx) as [h1 E].
  exists h1. destruct (decide (l1' ++ [x] = [])) as [E0|_]; [by destruct l1'|].
  split_and!; auto.
  - eapply dseg_set_next; [|exact H1|exact E]. apply NoDup_app in Hnd as (? & _ & _). done.
  - rewrite (links_upd _ _ _ _ _ E). destruct (decide (x = p)); naive_solver.
  - eapply dseg_frame; [|exact H2]. intros y Hy. rewrite (links_upd _ _ _ _ _ E).
    destruct (decide (x = y)); [|done]. subst. naive_solver.
  - eapply (relinked_upd _ x); [|set_solver|exact E]. done.
Qed.

(** Removing [p] from a queue that holds it: the others stay, in order; the
    links of [p] are NULL; nothing outside the queue changes. *)
Lemma dequeue_dlist h head l1 p l2 :
  dlist h head (l1 ++ p :: l2) ->
  exists h' head', dequeue h head p = Some (h', head') /\
    dlist h' head' (l1 ++ l2) /\ links h' p = Some (None, None) /\
    relinked (l1 ++ p :: l2) h h'.
Proof.
  intros [Hnd Hd]. apply dseg_app in Hd as (mid & H1 & -> & nx & Hp & H2).
  destruct (dequeue_prev h head l1 p l2 nx Hnd H1 Hp H2) as (h1 & E1 & H1' & Hp1 & H2' & R1).
  destruct (links_Some _ _ _ _ Hp) as (r & Er & Enx & Epv).
  destruct (links_Some _ _ _ _ Hp1) as (r1 & Er1 & Enx1 & Epv1).
  assert (Hnd12 : NoDup (l1 ++ l2) /\ p ∉ l1 /\ p ∉ l2 /\ NoDup l2 /\
                  forall y, y ∈ l1 -> y ∉ l2).
  { apply NoDup_app in Hnd as (? & Hdis & [? ?]%NoDup_cons).
    split_and!; auto; [apply NoDup_app; split_and!; auto| |];
      intros; specialize (Hdis); set_solver. }
  destruct Hnd12 as (Hnd' & Hp1' & Hp2' & Hnd2 & Hdis).
  (* the successor *)
  assert (Hh2 : exists h2,
    (match nx with
     | Some q => heap_upd h1 q (set_prev (last_or None l1))
     | None => Some h1
     end) = Some h2 /\
    dseg h2 None (if decide (l1 = []) then nx else head) l1 nx /\
    dseg h2 (last_or None l1) nx l2 None /\
    (exists l, links h2 p = Some l) /\ relinked (l1 ++ p :: l2) h1 h2).
  { destruct l2 as [|q l2].
    - simpl in H2'. subst nx. exists h1. split_and!; eauto using relinked_refl.
    - destruct H2' as (Eq & nx2 & Hq & H2'). rewrite Eq in *.
      destruct (heap_upd_links h1 q (set_prev (last_or None l1)) _ Hq) as [h2 E2].
      exists h2. split_and!; auto.
      + eapply dseg_frame; [|exact H1']. intros y Hy. rewrite (links_upd _ _ _ _ _ E2).
        destruct (decide (q = y)); [|done]. subst. exfalso. apply (Hdis y Hy). set_solver.
      + eapply dseg_set_prev; [done| |exact E2]. split; [done|]. eauto.
      + exists (Some q, last_or None l1). rewrite (links_upd _ _ _ _ _ E2).
        destruct (decide (q = p)); [set_solver|done].
      + eapply (relinked_upd _ q); [|set_solver|exact E2]. done. }
  destruct Hh2 as (h2 & E2 & H12 & H22 & (lk & Hp2) & R2).
  destruct (heap_upd_links h2 p (fun r => set_prev None (set_next None r)) _ Hp2) as [h3 E3].
  exists h3, (if bool_decide (head = Some p) then nx else head).
  split_and!.
  - unfold dequeue. rewrite Er. simpl. rewrite Enx, Epv, E1. simpl. rewrite Er1. simpl.
    rewrite Enx1, Epv1, E2. simpl. by rewrite E3.
  - split; [done|]. apply dseg_app. exists nx.
    assert (Hfr : forall y, y <> p -> links h3 y = links h2 y).
    { intros y Hy. rewrite (links_upd _ _ _ _ _ E3). by destruct (decide (p = y)); subst. }
    split.
    + replace (if bool_decide (head = Some p) then nx else head)
        with (if decide (l1 = []) then nx else head).
      { eapply dseg_frame; [|exact H12]. intros y Hy. apply Hfr. by intros ->. }
      destruct l1 as [|z l1]; simpl.
      * simpl in H1. by rewrite H1, bool_decide_true.
      * destruct H1 as [-> _]. rewrite bool_decide_false; [done|]. set_solver.
    + eapply dseg_frame; [|exact H22]. intros y Hy. apply Hfr. by intros ->.
  - rewrite (links_upd _ _ _ _ _ E3). destruct (decide (p = p)); [|done].
    unfold links in Hp2. by destruct (h2 !! p).
  - eapply relinked_trans; [exact R1|]. eapply relinked_trans; [exact R2|].
    eapply (relinked_upd _ p); [|set_solver|exact E3]. done.
Qed.

(** Inserting a request that is in no queue. *)
Lemma enqueue_dlist h head l p lk :
  dlist h head l -> p ∉ l -> links h p = Some lk ->
  exists h', enqueue h head p = Some (h', Some p) /\
    dlist h' (Some p) (p :: l) /\ relinked (p :: l) h h'.
Proof.
  intros [Hnd Hd] Hp Hlk. destruct l as [|q l].
  - simpl in Hd. subst head. destruct (heap_upd_links h p
      (fun r => set_prev None (set_next None r)) _ Hlk) as [h' E].
    exists h'. split_and!.
    + unfold enqueue. simpl. by rewrite E.
    + split; [apply NoDup_singleton|]. split; [done|]. exists None. split; [|done].
      rewrite (links_upd _ _ _ _ _ E). destruct (decide (p = p)); [|done].
      unfold links in Hlk. by destruct (h !! p).
    + eapply (relinked_upd _ p); [|set_solver|exact E]. done.
  - pose proof Hd as (-> & nx & Hq & _).
    destruct (heap_upd_links h q (set_prev (Some p)) _ Hq) as [h1 E1].
    assert (Hp1 : links h1 p = Some lk).
    { rewrite (links_upd _ _ _ _ _ E1). destruct (decide (q = p)); [set_solver|done]. }
    destruct (heap_upd_links h1 p (fun r => set_prev None (set_next (Some q) r)) _ Hp1)
      as [h' E2].
    exists h'. split_and!.
    + unfold enqueue. rewrite E1. simpl. by rewrite E2.
    + split; [by apply NoDup_cons|]. split; [done|]. exists (Some q). split.
      * rewrite (links_upd _ _ _ _ _ E2). destruct (decide (p = p)); [|done].
        unfold links in Hp1. by destruct (h1 !! p).
      * eapply dseg_frame; [|eapply dseg_set_prev; [done|exact Hd|exact E1]].
        intros y Hy. rewrite (links_upd _ _ _ _ _ E2).
        destruct (decide (p = y)); [by subst|done].
    + eapply relinked_trans;
        [eapply (relinked_upd _ q)|eapply (relinked_upd _ p)]; try eassumption;
        done || set_solver.
Qed.
