(* ===== verification/QueueProps.v ===== *)
(** The three queues of the server: what [block_request] and [ready_request] do
    to them, and that no request is ever lost or in two queues at once. *)

From S2P Require Import Prelude Types Machine Escape ScriptOS Queue.

(** The requests in the ready, the blocked and the free queue. *)
Record queues (g : server) (lr lb lf : list positive) : Prop := {
  q_ready : dlist (heap g) (request_ready g) lr;
  q_block : dlist (heap g) (request_block g) lb;
  q_free : dlist (heap g) (request_free g) lf;
  q_disjoint : NoDup (lr ++ lb ++ lf)
}.

Lemma dlist_relinked h h' head l l' :
  relinked l' h h' -> (forall q, q ∈ l -> q ∉ l') -> dlist h head l -> dlist h' head l.
Proof.
  intros [_ R] Hd [? ?]. split; [done|]. eapply dseg_frame; [|done]. auto.
Qed.

Lemma NoDup_app_disjoint {A} (l1 l2 : list A) x :
  NoDup (l1 ++ l2) -> x ∈ l1 -> x ∉ l2.
Proof. intros (_ & H & _)%NoDup_app Hx. by apply H. Qed.

(** Taking [p] out of one queue and putting it in front of another one, with a
    third one untouched. *)
Lemma move_dlist h from to other l1 p l2 lt lo :
  dlist h from (l1 ++ p :: l2) -> dlist h to lt -> dlist h other lo ->
  NoDup ((l1 ++ p :: l2) ++ lt ++ lo) ->
  exists h1 from' h2,
    dequeue h from p = Some (h1, from') /\ enqueue h1 to p = Some (h2, Some p) /\
    dlist h2 from' (l1 ++ l2) /\ dlist h2 (Some p) (p :: lt) /\ dlist h2 other lo /\
    (forall q, contents h2 q = contents h q).
Proof.
  intros Hf Ht Ho Hnd.
  assert (Hdt : forall q, q ∈ lt -> q ∉ l1 ++ p :: l2).
  { intros q Hq Hq'. eapply NoDup_app_disjoint in Hnd; [|exact Hq']. set_solver. }
  assert (Hdo : forall q, q ∈ lo -> q ∉ l1 ++ p :: l2).
  { intros q Hq Hq'. eapply NoDup_app_disjoint in Hnd; [|exact Hq']. set_solver. }
  assert (Hto : forall q, q ∈ lo -> q ∉ lt).
  { intros q Hq Hq'. apply NoDup_app in Hnd as (_ & _ & Hnd).
    eapply NoDup_app_disjoint in Hnd; [|exact Hq']. done. }
  assert (Hp : p ∉ l1 ++ l2).
  { destruct Hf as [(_ & Hx & [? _]%NoDup_cons)%NoDup_app _].
    specialize (Hx p). set_solver. }
  destruct (dequeue_dlist _ _ _ _ _ Hf) as (h1 & from' & E1 & D1 & L1 & R1).
  destruct (enqueue_dlist h1 to lt p (None, None)) as (h2 & E2 & D2 & R2); [| |done|].
  { by eapply dlist_relinked. }
  { intros H. apply (Hdt p H). set_solver. }
  exists h1, from', h2. split_and!; auto.
  - eapply dlist_relinked; [exact R2| |done]. intros q Hq Hq'.
    apply elem_of_cons in Hq' as [->|Hq']; [done|]. apply (Hdt q Hq'). set_solver.
  - eapply dlist_relinked; [exact R2| |by eapply dlist_relinked].
    intros q Hq Hq'. apply elem_of_cons in Hq' as [->|Hq'].
    + apply (Hdo p Hq). set_solver.
    + by apply (Hto q Hq).
  - intros q. by rewrite (relinked_contents _ _ _ R2), (relinked_contents _ _ _ R1).
Qed.

Lemma NoDup_move {A} (l1 : list A) p l2 lt lo :
  NoDup ((l1 ++ p :: l2) ++ lt ++ lo) -> NoDup ((l1 ++ l2) ++ (p :: lt) ++ lo).
Proof. intros H. eapply NoDup_Permutation_proper; [|exact H]. solve_Permutation. Qed.

(** [wait_for] looks at fields that the queue operations do not touch. *)
Lemma wait_for_contents h h' p r' :
  contents h' p = contents h p -> h' !! p = Some r' ->
  exists r, h !! p = Some r /\ wait_for r = wait_for r'.
Proof.
  unfold contents. intros E Hr'. rewrite Hr' in E.
  destruct (h !! p) as [r|]; [|done]. exists r. split; [done|].
  apply (inj Some) in E. change (wait_for (unlinked r) = wait_for (unlinked r')).
  by rewrite E.
Qed.

(** C17: [block_request] takes a request of the ready queue out of it, keeping the
    order of the others, and puts it in front of the blocked queue; the free
    queue and the contents of all requests are unchanged; the descriptor the
    request waits for is in the set passed to select. *)
Theorem block_request_correct g l1 p l2 lb lf :
  queues g (l1 ++ p :: l2) lb lf ->
  exists g' r, block_request p g = Some g' /\
    queues g' (l1 ++ l2) (p :: lb) lf /\
    (forall q, contents (heap g') q = contents (heap g) q) /\
    heap g !! p = Some r /\
    fst (wait_for r) ∈ (if snd (wait_for r) then block_write_fdset g'
                        else block_read_fdset g') /\
    fst (wait_for r) <= max_fd g'.
Proof.
  intros [Hr Hb Hf Hd].
  destruct (move_dlist _ _ _ _ _ _ _ _ _ Hr Hb Hf Hd)
    as (h1 & rd & h2 & E1 & E2 & D1 & D2 & D3 & C).
  unfold block_request. rewrite E1. simpl. rewrite E2. simpl.
  assert (exists r', h2 !! p = Some r') as [r' Er'].
  { destruct D2 as [_ (_ & nx & (r' & ? & _)%links_Some & _)]. eauto. }
  destruct (wait_for_contents _ _ _ _ (C p) Er') as (r & Er & Ew).
  rewrite Er'. simpl. destruct (wait_for r') as [d w].
  eexists _, r. split; [done|]. rewrite Ew. cbn [fst snd].
  assert (Q : forall g0, heap g0 = h2 -> request_ready g0 = rd ->
    request_block g0 = Some p -> request_free g0 = request_free g ->
    queues g0 (l1 ++ l2) (p :: lb) lf).
  { intros g0 Eh Erd Ebl Efr. split; rewrite ?Eh, ?Erd, ?Ebl, ?Efr; auto.
    by apply NoDup_move. }
  unfold BOA_FD_SET. simpl.
  destruct w; simpl; destruct (Z.ltb_spec (max_fd g) d); simpl;
    split_and!; auto; try (by apply Q); set_solver || lia.
Qed.

(** C20: [ready_request] is the way back: from the blocked queue to the front of
    the ready queue; the descriptor is taken out of the set. *)
Theorem ready_request_correct g lr l1 p l2 lf :
  queues g lr (l1 ++ p :: l2) lf ->
  exists g' r, ready_request p g = Some g' /\
    queues g' (p :: lr) (l1 ++ l2) lf /\
    (forall q, contents (heap g') q = contents (heap g) q) /\
    heap g !! p = Some r /\
    fst (wait_for r) ∉ (if snd (wait_for r) then block_write_fdset g'
                        else block_read_fdset g').
Proof.
  intros [Hr Hb Hf Hd].
  assert (Hd' : NoDup ((l1 ++ p :: l2) ++ lr ++ lf)).
  { eapply NoDup_Permutation_proper; [|exact Hd]. solve_Permutation. }
  destruct (move_dlist _ _ _ _ _ _ _ _ _ Hb Hr Hf Hd')
    as (h1 & bl & h2 & E1 & E2 & D1 & D2 & D3 & C).
  unfold ready_request. rewrite E1. simpl. rewrite E2. simpl.
  assert (exists r', h2 !! p = Some r') as [r' Er'].
  { destruct D2 as [_ (_ & nx & (r' & ? & _)%links_Some & _)]. eauto. }
  destruct (wait_for_contents _ _ _ _ (C p) Er') as (r & Er & Ew).
  rewrite Er'. simpl. destruct (wait_for r') as [d w].
  eexists _, r. split; [done|]. rewrite Ew. cbn [fst snd].
  assert (Q : forall g0, heap g0 = h2 -> request_block g0 = bl ->
    request_ready g0 = Some p -> request_free g0 = request_free g ->
    queues g0 (p :: lr) (l1 ++ l2) lf).
  { intros g0 Eh Erd Ebl Efr. split; rewrite ?Eh, ?Erd, ?Ebl, ?Efr; auto.
    eapply NoDup_Permutation_proper; [|exact (NoDup_move _ _ _ _ _ Hd')].
    solve_Permutation. }
  unfold BOA_FD_CLR. destruct w; simpl; split_and!; auto; try (by apply Q); set_solver.
Qed.

(** Two linked requests, 1 in front of 2. *)
Definition queue_heap : heap_t :=
  {[ 1%positive := set_next (Some 2%positive) test_request;
     2%positive := set_prev (Some 1%positive) test_request ]}.

Lemma NoDup_12 : NoDup [1%positive; 2%positive].
Proof. repeat constructor; set_solver. Qed.

Lemma queue_heap_ok : dlist queue_heap (Some 1%positive) [1%positive; 2%positive].
Proof.
  split; [by apply NoDup_12|]. simpl. split; [done|].
  exists (Some 2%positive). split; [done|]. split; [done|]. exists None. done.
Qed.

Lemma dlist_nil h : dlist h None [].
Proof. split; [constructor|done]. Qed.

Definition ready_server : server :=
  set_heap queue_heap (set_request_ready (Some 1%positive) test_server).
Definition blocked_server : server :=
  set_heap queue_heap (set_request_block (Some 1%positive) test_server).

Lemma ready_server_ok : queues ready_server [1%positive; 2%positive] [] [].
Proof.
  split; auto using dlist_nil, queue_heap_ok, NoDup_12.
Qed.

Lemma blocked_server_ok : queues blocked_server [] [1%positive; 2%positive] [].
Proof.
  split; auto using dlist_nil, queue_heap_ok, NoDup_12.
Qed.

Lemma block_request_correct_witness :
  exists g' r, block_request 2 ready_server = Some g' /\
    queues g' [1%positive] [2%positive] [] /\ heap ready_server !! 2%positive = Some r /\
    7 ∈ block_read_fdset g'.
Proof.
  destruct (block_request_correct ready_server [1%positive] 2 [] [] [] ready_server_ok)
    as (g' & r & E & Q & _ & Er & H & _).
  exists g', r. split_and!; [exact E|exact Q|exact Er|].
  injection Er as <-. exact H.
Defined.

Lemma ready_request_correct_witness :
  exists g' r, ready_request 2 blocked_server = Some g' /\
    queues g' [2%positive] [1%positive] [] /\ heap blocked_server !! 2%positive = Some r.
Proof.
  destruct (ready_request_correct blocked_server [] [1%positive] 2 [] [] blocked_server_ok)
    as (g' & r & E & Q & _ & Er & _).
  exists g', r. split_and!; [exact E|exact Q|exact Er].
Defined.
