(* ===== verification/Access.v ===== *)
(** access.c: the allow and deny rules, a list of patterns searched in order. *)

From S2P Require Import Prelude Types Machine Escape ScriptOS.

Section access.
Context {os : OS}.

Definition access_shutdown : M unit := upd_srv (set_nodes []).

Definition access_init : M unit :=
  g ← srv;
  match nodes g with
  | [] => mret tt
  | _ => access_shutdown
  end.

Definition access_add (pat : bytes) (type : access_type) : M unit :=
  g ← srv;
  ok ← call (os_malloc ((zlen (nodes g) + 1) * 16));
  if negb ok then die
  else
    ok ← call (os_malloc (zlen pat + 1));
    if negb ok then die
    else upd_srv (set_nodes (nodes g ++ [mkAccess pat type])).

Fixpoint access_search (l : list access_node) (file : bytes) : access_type :=
  match l with
  | [] => ACCESS_ALLOW
  | n :: l' => if os_fnmatch (pattern n) file then acc_type n else access_search l' file
  end.

Definition access_allow (file : bytes) : M access_type :=
  g ← srv; mret (access_search (nodes g) file).

(** * Properties *)

(** The rule that decides about a file: the first one whose pattern matches. *)
Definition decides (l : list access_node) (file : bytes) (n : access_node) : Prop :=
  exists l1 l2, l = l1 ++ n :: l2 /\ os_fnmatch (pattern n) file = true /\
    Forall (fun m => os_fnmatch (pattern m) file = false) l1.

Lemma access_search_spec l file t :
  access_search l file = t <->
  (exists n, decides l file n /\ acc_type n = t) \/
  (Forall (fun m => os_fnmatch (pattern m) file = false) l /\ t = ACCESS_ALLOW).
Proof.
  induction l as [|m l IH]; simpl.
  { split; [intros <-; right; auto|].
    intros [(n & (l1 & l2 & E & _) & _)|[_ ->]]; [by destruct l1|done]. }
  destruct (os_fnmatch (pattern m) file) eqn:Em.
  - split.
    + intros <-. left. exists m. split; [|done]. exists [], l. auto.
    + intros [(n & (l1 & l2 & E & Hn & Hall) & <-)|[Hall _]].
      * destruct l1 as [|x l1]; simpl in E; injection E as -> ->; [done|].
        apply Forall_cons in Hall as [? _]. congruence.
      * apply Forall_cons in Hall as [? _]. congruence.
  - rewrite IH. split.
    + intros [(n & (l1 & l2 & -> & Hn & Hall) & Ht)|[Hall ->]].
      * left. exists n. split; [|done]. exists (m :: l1), l2. auto.
      * right. auto.
    + intros [(n & (l1 & l2 & E & Hn & Hall) & Ht)|[Hall ->]].
      * destruct l1 as [|x l1]; simpl in E; injection E as -> ->; [congruence|].
        left. exists n. split; [|done]. exists l1, l2.
        apply Forall_cons in Hall as [_ ?]. auto.
      * apply Forall_cons in Hall as [_ ?]. auto.
Qed.

(** A file is denied exactly when the first rule that matches it is a deny
    rule; a file no rule matches is allowed.  A rule added later decides only
    about files that no earlier rule matches. *)
Theorem access_first_match file pat type s :
  wp (access_allow file)
    (fun t s' => s' = s /\
       (t = ACCESS_DENY <->
        exists n, decides (nodes (sv s)) file n /\ acc_type n = ACCESS_DENY)) s /\
  match access_add pat type s with
  | Ret _ s' =>
      wp (access_allow file)
        (fun t _ =>
           t = if existsb (fun m => os_fnmatch (pattern m) file) (nodes (sv s))
               then access_search (nodes (sv s)) file
               else if os_fnmatch pat file then type else ACCESS_ALLOW) s'
  | Exit _ => exists n w, fst (os_malloc n w) = false
  | Undef => False
  end.
Proof.
  split.
  - unfold access_allow. wps. split; [done|].
    rewrite access_search_spec. split; [|by left].
    intros [|[_ [=]]]. done.
  - unfold access_add, srv, call, mbind, M_bind. simpl.
    destruct (os_malloc ((zlen (nodes (sv s)) + 1) * 16) (wd s)) as [[] w] eqn:E1;
      simpl; [|eexists _, _; by rewrite E1].
    destruct (os_malloc (zlen pat + 1) w) as [[] w'] eqn:E2;
      simpl; [|eexists _, _; by rewrite E2].
    unfold access_allow. wps. simpl. clear.
    induction (nodes (sv s)) as [|m l IH]; simpl.
    + by destruct (os_fnmatch pat file).
    + by destruct (os_fnmatch (pattern m) file).
Qed.
End access.
