(* ===== verification/Mmap.v ===== *)
(** mmap_cache.c: the cache of mapped files, an open-addressing table indexed by
    inode, with use counts. *)

From S2P Require Import Prelude Types Machine Escape ScriptOS.

Definition MMAP_LIST_NEXT (i : Z) : Z := Z.land (i + 1) MMAP_LIST_MASK.
Definition MMAP_LIST_HASH (dev ino size : Z) : Z := Z.land ino MMAP_LIST_MASK.

Definition set_use_count (n : Z) (e : mmap_entry) : mmap_entry :=
  mkMmap (dev e) (ino e) (mmap e) n (len e).

Definition same_file (e : mmap_entry) (s : stat) : bool :=
  (dev e =? st_dev s) && (ino e =? st_ino s) && (len e =? st_size s).

Section mmap.
Context {os : OS}.

(** [mmap_list[i]]. *)
Definition entry (i : Z) : M mmap_entry := g ← srv; checked (zget (mmap_list g) i).
Definition set_entry (i : Z) (e : mmap_entry) : M unit :=
  g ← srv; upd_srv (set_mmap_list (<[Z.to_nat i := e]> (mmap_list g))).

Inductive probe := P_hit (i : Z) | P_free (i : Z) | P_full.

(** The probing loop; it returns to [start] after at most MMAP_LIST_SIZE
    steps. *)
Fixpoint mmap_probe (fuel : nat) (s : stat) (start i : Z) : M probe :=
  match fuel with
  | O => undef
  | S fuel' =>
      e ← entry i;
      if use_count e =? 0 then mret (P_free i)
      else if same_file e s then
        set_entry i (set_use_count (use_count e + 1) e) ;; mret (P_hit i)
      else
        g ← srv;
        upd_srv (set_mmap_list_hash_bounces (mmap_list_hash_bounces g + 1)) ;;
        let i' := MMAP_LIST_NEXT i in
        if i' =? start then mret P_full else mmap_probe fuel' s start i'
  end.

(** The index of the entry, [None] for NULL. *)
Definition find_mmap (data_fd : Z) (s : stat) : M (option Z) :=
  g ← srv;
  upd_srv (set_mmap_list_total_requests (mmap_list_total_requests g + 1)) ;;
  let start := MMAP_LIST_HASH (st_dev s) (st_ino s) (st_size s) in
  p ← mmap_probe (Z.to_nat MMAP_LIST_SIZE) s start start;
  match p with
  | P_hit i => mret (Some i)
  | P_full => mret None
  | P_free i =>
      g ← srv;
      if MMAP_LIST_USE_MAX <? mmap_list_entries_used g then mret None
      else
        m ← call (os_mmap data_fd (st_size s));
        match m with
        | SErr _ => mret None
        | SOk m =>
            ok ← call (os_madvise m (st_size s));
            if negb ok then call_ (os_munmap m (st_size s)) ;; mret None
            else
              upd_srv (set_mmap_list_entries_used (mmap_list_entries_used g + 1)) ;;
              set_entry i (mkMmap (st_dev s) (st_ino s) m 1 (st_size s)) ;;
              mret (Some i)
        end
  end.

Definition release_mmap (e : option Z) : M unit :=
  match e with
  | None => mret tt
  | Some i =>
      e ← entry i;
      if use_count e =? 0 then mret tt
      else
        set_entry i (set_use_count (use_count e - 1) e) ;;
        if use_count e - 1 =? 0 then
          call_ (os_munmap (mmap e) (len e)) ;;
          g ← srv;
          upd_srv (set_mmap_list_entries_used (mmap_list_entries_used g - 1))
        else mret tt
  end.
End mmap.

(** * The invariant *)

Definition in_use (e : mmap_entry) : bool := negb (use_count e =? 0).

Definition n_used (l : list mmap_entry) : Z := zlen (List.filter in_use l).

(** The table has its size, use counts are not negative, the counter counts the
    entries in use, and there are at most MMAP_LIST_USE_MAX + 1 of them, so a
    probe always finds a free entry. *)
Record mmap_ok (g : server) : Prop := {
  mm_len : zlen (mmap_list g) = MMAP_LIST_SIZE;
  mm_count : Forall (fun e => 0 <= use_count e) (mmap_list g);
  mm_used : mmap_list_entries_used g = n_used (mmap_list g);
  mm_max : mmap_list_entries_used g <= MMAP_LIST_USE_MAX + 1
}.

(** The use count of the entry at [i], 0 outside the table. *)
Definition uses (g : server) (i : Z) : Z :=
  match zget (mmap_list g) i with Some e => use_count e | None => 0 end.

Lemma n_used_app l1 l2 : n_used (l1 ++ l2) = n_used l1 + n_used l2.
Proof. unfold n_used. by rewrite List.filter_app, zlen_app. Qed.

Lemma n_used_cons e l : n_used (e :: l) = n_used l + (if in_use e then 1 else 0).
Proof. unfold n_used. simpl. destruct (in_use e); rewrite ?zlen_cons; lia. Qed.

(** Replacing one entry. *)
Lemma n_used_insert l i e e' :
  l !! i = Some e ->
  n_used (<[i := e']> l)
  = n_used l - (if in_use e then 1 else 0) + (if in_use e' then 1 else 0).
Proof.
  intros Hl. pose proof (lookup_lt_Some _ _ _ Hl).
  rewrite insert_take_drop by done.
  rewrite <- (take_drop_middle l i e Hl) at 3.
  rewrite !n_used_app, !n_used_cons. lia.
Qed.

Lemma n_used_bound l : 0 <= n_used l <= zlen l.
Proof.
  induction l as [|e l IH]; [done|]. rewrite n_used_cons, zlen_cons.
  destruct (in_use e); lia.
Qed.

(** The state with one entry replaced. *)
Lemma mmap_ok_set g i e e' used :
  mmap_ok g -> zget (mmap_list g) i = Some e -> 0 <= use_count e' ->
  used = mmap_list_entries_used g - (if in_use e then 1 else 0)
         + (if in_use e' then 1 else 0) ->
  used <= MMAP_LIST_USE_MAX + 1 ->
  mmap_ok (set_mmap_list (<[Z.to_nat i := e']> (mmap_list g))
             (set_mmap_list_entries_used used g)).
Proof.
  intros [Hl Hc Hu Hm] Hi He' -> Hle.
  assert (Hi' : mmap_list g !! Z.to_nat i = Some e).
  { unfold zget in Hi. by destruct (Z.leb_spec 0 i). }
  split; simpl; [|by apply Forall_insert| |done].
  - unfold zlen in *. by rewrite length_insert.
  - erewrite n_used_insert by done. lia.
Qed.

Section mmap_proofs.
Context {os : OS}.

(** How far a probe has come. *)
Lemma next_index start k :
  0 <= start < 256 -> 0 <= k -> MMAP_LIST_NEXT ((start + k) mod 256) = (start + (k + 1)) mod 256.
Proof.
  intros Hs Hk. unfold MMAP_LIST_NEXT, MMAP_LIST_MASK.
  change 255 with (Z.ones 8). rewrite Z.land_ones by lia. change (2 ^ 8) with 256.
  rewrite Zplus_mod_idemp_l. f_equal. lia.
Qed.

(** The counters aside, a probe changes nothing but the use count of the entry
    it finds. *)
Definition probed (s : St) (l : list mmap_entry) (s' : St) : Prop :=
  exists b, s' = mkSt (rq s)
    (set_mmap_list l (set_mmap_list_hash_bounces b (sv s))) (wd s).

Definition probe_post (st : stat) (s : St) (p : probe) (s' : St) : Prop :=
  match p with
  | P_free j =>
      probed s (mmap_list (sv s)) s' /\
      exists e, zget (mmap_list (sv s)) j = Some e /\ use_count e = 0
  | P_hit j =>
      exists e, zget (mmap_list (sv s)) j = Some e /\ use_count e <> 0 /\
        same_file e st = true /\
        probed s (<[Z.to_nat j := set_use_count (use_count e + 1) e]> (mmap_list (sv s))) s'
  | P_full => probed s (mmap_list (sv s)) s'
  end.

Lemma probed_refl s : probed s (mmap_list (sv s)) s.
Proof. exists (mmap_list_hash_bounces (sv s)). by destruct s as [? [] ?]. Qed.

Lemma probe_post_bounce st s b p s' :
  probe_post st (mkSt (rq s) (set_mmap_list_hash_bounces b (sv s)) (wd s)) p s' ->
  probe_post st s p s'.
Proof.
  destruct p; simpl.
  - intros (e & ? & ? & ? & b' & ->). exists e. split_and!; auto. by exists b'.
  - intros ((b' & ->) & ?). split; [by exists b'|done].
  - intros (b' & ->). by exists b'.
Qed.

Lemma mmap_probe_wp fuel st start k s :
  zlen (mmap_list (sv s)) = MMAP_LIST_SIZE -> 0 <= start < 256 ->
  0 <= k -> Z.of_nat fuel = 256 - k -> fuel <> O ->
  wp (mmap_probe fuel st start ((start + k) mod 256)) (probe_post st s) s.
Proof.
  unfold MMAP_LIST_SIZE. revert k s. induction fuel as [|fuel IH]; intros k s Hl Hs Hk Hf Hne;
    [done|].
  assert (Hi : 0 <= (start + k) mod 256 < 256) by (apply Z.mod_pos_bound; lia).
  cbn [mmap_probe]. unfold entry, set_entry. wps.
  destruct (zget_is_Some (mmap_list (sv s)) ((start + k) mod 256)) as [e He]; [lia|].
  rewrite He. apply wp_ret. wps.
  destruct (Z.eqb_spec (use_count e) 0) as [E0|E0]; wps.
  { split; [apply probed_refl|eauto]. }
  destruct (same_file e st) eqn:Ef; wps.
  { exists e. split_and!; auto. exists (mmap_list_hash_bounces (sv s)).
    by destruct s as [? [] ?]. }
  rewrite next_index by done.
  destruct (Z.eqb_spec ((start + (k + 1)) mod 256) start) as [Es|Es]; wps.
  { exists (mmap_list_hash_bounces (sv s) + 1). by destruct s as [? [] ?]. }
  eapply wp_mono; [apply (IH (k + 1)); simpl; try lia; try done|].
  - intros ->. apply Es. replace (start + (k + 1)) with (start + 1 * 256) by lia.
    rewrite Z.mod_add by lia. apply Z.mod_small. lia.
  - intros p s'. apply probe_post_bounce.
Qed.
End mmap_proofs.

(** One more user of the entry at [i]. *)
Definition taken (st : stat) (g : server) (i : Z) (g' : server) : Prop :=
  mmap_ok g' /\
  (exists e, zget (mmap_list g') i = Some e /\ same_file e st = true) /\
  forall j, uses g' j = uses g j + (if j =? i then 1 else 0).

Lemma entry_taken st g i e e' g' :
  mmap_ok g -> zget (mmap_list g) i = Some e ->
  mmap_list g' = <[Z.to_nat i := e']> (mmap_list g) ->
  use_count e' = use_count e + 1 -> same_file e' st = true ->
  mmap_list_entries_used g' = mmap_list_entries_used g - (if in_use e then 1 else 0) + 1 ->
  mmap_list_entries_used g' <= MMAP_LIST_USE_MAX + 1 ->
  taken st g i g'.
Proof.
  intros Hok He Hg He' Hf Hu Hle. pose proof (zget_lt _ _ _ He) as Hr.
  assert (He0 : 0 <= use_count e).
  { pose proof (mm_count _ Hok) as Hc. rewrite Forall_lookup in Hc. unfold zget in He.
    destruct (Z.leb_spec 0 i); [|done]. by eapply Hc. }
  assert (Hz : zget (mmap_list g') i = Some e').
  { rewrite Hg. unfold zget. destruct (Z.leb_spec 0 i); [|lia].
    apply list_lookup_insert_eq. unfold zlen in *. lia. }
  split_and!; [|by eauto|].
  - destruct (mmap_ok_set g i e e' (mmap_list_entries_used g') Hok He) as [A B C D];
      [lia| |lia|split; rewrite ?Hg; done].
    rewrite Hu. f_equal. unfold in_use. rewrite He'.
    destruct (Z.eqb_spec (use_count e + 1) 0); [lia|done].
  - intros j. unfold uses. destruct (Z.eqb_spec j i) as [->|Hj]; [by rewrite Hz, He|].
    rewrite Hg. unfold zget. destruct (Z.leb_spec 0 j); [|lia].
    rewrite list_lookup_insert_ne by lia. lia.
Qed.

Lemma table_same g g' :
  mmap_ok g -> mmap_list g' = mmap_list g ->
  mmap_list_entries_used g' = mmap_list_entries_used g ->
  mmap_ok g' /\ forall j, uses g' j = uses g j.
Proof.
  intros [Hl Hc Hu Hm] Hg Hgu. split; [split; rewrite ?Hg, ?Hgu; done|].
  intros j. unfold uses. by rewrite Hg.
Qed.

Section mmap_props.
Context {os : OS}.

(** C27: looking up a file keeps the invariant of the cache and always ends.
    With a result, the entry holds this file (device, inode and size) and exactly
    its use count has grown by one; without one, no use count changes. *)
Theorem find_mmap_correct data_fd st s :
  mmap_ok (sv s) ->
  wp (find_mmap data_fd st)
    (fun r s' => rq s' = rq s /\ mmap_ok (sv s') /\
       match r with
       | Some i =>
           (exists e, zget (mmap_list (sv s')) i = Some e /\ same_file e st = true) /\
           forall j, uses (sv s') j = uses (sv s) j + (if j =? i then 1 else 0)
       | None => forall j, uses (sv s') j = uses (sv s) j
       end) s.
Proof.
  intros Hok. pose proof Hok as [Hl Hc Hu Hm]. unfold find_mmap. wps.
  set (s0 := mkSt _ _ _).
  assert (Hst : 0 <= MMAP_LIST_HASH (st_dev st) (st_ino st) (st_size st) < 256).
  { unfold MMAP_LIST_HASH, MMAP_LIST_MASK. change 255 with (Z.ones 8).
    rewrite Z.land_ones by lia. apply Z.mod_pos_bound. lia. }
  rewrite <- (Z.mod_small _ _ Hst) at 2.
  rewrite <- (Z.add_0_r (MMAP_LIST_HASH _ _ _)) at 2.
  eapply wp_mono; [by apply (mmap_probe_wp _ _ _ 0)|]. intros p s1 Hp.
  destruct p as [i|i|]; simpl in Hp.
  - destruct Hp as (e & He & Hne & Hf & b & ->). wps. split; [done|].
    apply (entry_taken st (sv s) i e (set_use_count (use_count e + 1) e)); try done.
    unfold in_use. destruct (Z.eqb_spec (use_count e) 0); [done|]. simpl. lia.
  - destruct Hp as ((b & ->) & e & He & He0). wps. simpl.
    destruct (Z.ltb_spec MMAP_LIST_USE_MAX (mmap_list_entries_used (sv s))); wps.
    { split; [done|]. by apply table_same. }
    apply wp_call. intros [m|er] w _; wps; [|split; [done|]; by apply table_same].
    apply wp_call. intros [] w' _; simpl; wps; [|split; [done|]; by apply table_same].
    unfold set_entry. wps. split; [done|].
    apply (entry_taken st (sv s) i e (mkMmap (st_dev st) (st_ino st) m 1 (st_size st)));
      simpl; try done; try lia.
    + unfold same_file. simpl. by rewrite !Z.eqb_refl.
    + unfold in_use. rewrite He0. simpl. lia.
  - destruct Hp as (b & ->). wps. split; [done|]. by apply table_same.
Qed.

(** C28: giving an entry back takes exactly one from its use count, keeps
    the invariant, and unmaps the file when, and only when, nobody uses it any
    more; releasing NULL or an unused entry does nothing. *)
Theorem release_mmap_correct i s :
  mmap_ok (sv s) -> (forall j, i = Some j -> 0 <= j < MMAP_LIST_SIZE) ->
  wp (release_mmap i)
    (fun _ s' => rq s' = rq s /\ mmap_ok (sv s') /\
       match i with
       | None => s' = s
       | Some j =>
           (forall k, uses (sv s') k
                      = if k =? j then Z.max 0 (uses (sv s) j - 1) else uses (sv s) k) /\
           (uses (sv s) j = 0 -> s' = s) /\
           exists e, zget (mmap_list (sv s)) j = Some e /\
             wd s' = if uses (sv s) j =? 1 then os_munmap (mmap e) (len e) (wd s)
                     else wd s
       end) s.
Proof.
  intros Hok Hi. destruct i as [j|]; simpl; [|by wps].
  specialize (Hi j eq_refl). pose proof Hok as [Hl Hc Hu Hm].
  destruct (zget_is_Some (mmap_list (sv s)) j) as [e He]; [lia|].
  unfold entry, set_entry. wps. rewrite He. apply wp_ret. wps.
  assert (Huse : uses (sv s) j = use_count e) by (unfold uses; by rewrite He).
  assert (He' : mmap_list (sv s) !! Z.to_nat j = Some e).
  { unfold zget in He. by destruct (Z.leb_spec 0 j). }
  assert (He0 : 0 <= use_count e) by (rewrite Forall_lookup in Hc; by eapply Hc).
  assert (Huses : forall g, mmap_list g
      = <[Z.to_nat j := set_use_count (use_count e - 1) e]> (mmap_list (sv s)) ->
    use_count e <> 0 -> forall k, uses g k
      = if k =? j then Z.max 0 (uses (sv s) j - 1) else uses (sv s) k).
  { intros g Hg Hne k. unfold uses. rewrite Hg. unfold zget.
    destruct (Z.eqb_spec k j) as [->|Hkj].
    - destruct (Z.leb_spec 0 j); [|lia]. rewrite list_lookup_insert_eq by (unfold zlen in *; lia).
      rewrite He'. simpl. lia.
    - destruct (Z.leb_spec 0 k); [|done]. by rewrite list_lookup_insert_ne by lia. }
  destruct (Z.eqb_spec (use_count e) 0) as [E0|E0]; wps.
  { split_and!; auto.
    - intros k. rewrite Huse. destruct (Z.eqb_spec k j) as [->|]; [|done]. lia.
    - exists e. split; [done|]. rewrite Huse. by destruct (Z.eqb_spec (use_count e) 1); [lia|]. }
  pose proof (mmap_ok_set (sv s) j e (set_use_count (use_count e - 1) e)) as Hset.
  unfold in_use in Hset. simpl in Hset.
  destruct (Z.eqb_spec (use_count e) 0); [done|].
  destruct (Z.eqb_spec (use_count e - 1) 0) as [E1|E1]; wps; simpl in *;
    (split_and!; [done| |by apply Huses|by rewrite Huse|exists e; split; [done|]]).
  - apply (Hset (mmap_list_entries_used (sv s) - 1)); try done; lia.
  - rewrite Huse. destruct (Z.eqb_spec (use_count e) 1); [done|lia].
  - destruct (Hset (mmap_list_entries_used (sv s))) as [A B C D]; try done; lia.
  - rewrite Huse. destruct (Z.eqb_spec (use_count e) 1); [lia|done].
Qed.
End mmap_props.

(** * Witnesses *)

Lemma test_mmap_ok : mmap_ok test_server.
Proof.
  split; [reflexivity| |reflexivity|vm_compute; congruence].
  apply Forall_replicate. simpl. lia.
Qed.

Definition test_file : file :=
  mkFile (bs "/www/a.txt") (mkStat S_REG 5 1700000000 1 300) (bs "hello").

(** The file is open as descriptor 5. *)
Definition mmap_state : St :=
  mkSt test_request test_server (set_open_fds [(5, test_file)] empty_world).

Lemma find_mmap_correct_witness :
  exists s', find_mmap 5 (f_stat test_file) mmap_state = Ret (Some 44) s' /\
    mmap_ok (sv s') /\ uses (sv s') 44 = 1.
Proof.
  destruct (wp_elim _ _ _ (find_mmap_correct 5 (f_stat test_file) mmap_state test_mmap_ok))
    as (r & s' & E & _ & Hok & H).
  destruct r as [i|]; [|exfalso; vm_compute in E; discriminate E].
  exists s'. assert (i = 44) as -> by (vm_compute in E; congruence).
  split_and!; [exact E|exact Hok|]. destruct H as [_ H]. by rewrite H.
Defined.

Lemma release_mmap_correct_witness :
  exists s', release_mmap (Some 44) mmap_state = Ret tt s' /\ s' = mmap_state.
Proof.
  destruct (wp_elim _ _ _ (release_mmap_correct (Some 44) mmap_state test_mmap_ok
    ltac:(intros j [= <-]; unfold MMAP_LIST_SIZE; lia)))
    as ([] & s' & E & _ & _ & _ & H & _).
  exists s'. split; [exact E|]. apply H. reflexivity.
Defined.
