(* ===== verification/Alias.v ===== *)
(** alias.c: from the URI to a file name or a script.  The aliases are kept in a
    chained hash table on the first path component.  The buffer [pathname] of
    [init_script_alias] is static: it keeps what earlier requests left in it, so
    it is part of the state. *)

From S2P Require Import Prelude Types Machine Escape ScriptOS Buffer Util Dates Hash.
From S2P Require Import Response.

(** * The table *)

Fixpoint alias_hash_loop (file : bytes) (hash : Z) : Z :=
  match file with
  | c :: file' => if c =? 47 then hash else alias_hash_loop file' (u32 (hash + u32 (schar c)))
  | [] => hash
  end.

Definition get_alias_hash_value (file : bytes) : Z :=
  match file with
  | [] => 0
  | c :: file' => alias_hash_loop file' (u32 (schar c)) mod ALIAS_HASHTABLE_SIZE
  end.

(** The duplicate test of [add_alias]: it does not look at the last entry. *)
Definition alias_seen (b : list alias) (name : bytes) : bool :=
  existsb (fun a => streq name (fakename a)) (removelast b).

(** Does the alias apply to the URI? *)
Definition alias_match (uri : bytes) (a : alias) : bool :=
  (fake_len a <=? zlen uri) && is_prefix (fakename a) uri &&
  (let last_c := default 0 (zget (fakename a) (fake_len a - 1)) in
   let next_c := default 0 (zget uri (fake_len a)) in
   (last_c =? 47) || (negb (last_c =? 47) && ((next_c =? 0) || (next_c =? 47)))).

Section alias.
Context {os : OS}.

Definition add_alias (fake real : bytes) (type : ALIAS_TYPE) : M unit :=
  let fakelen := zlen fake in
  let reallen := zlen real in
  if (fakelen =? 0) || (reallen =? 0) then die
  else
    let hash := get_alias_hash_value fake in
    g ← srv;
    b ← checked (zget (alias_hashtable g) hash);
    if alias_seen b fake then mret tt
    else
      ok ← call (os_malloc 40);
      if negb ok then die
      else
        ok1 ← call (os_malloc (fakelen + 1));
        if negb ok1 then die
        else
          ok2 ← call (os_malloc (reallen + 1));
          if negb ok2 then die
          else
            upd_srv (set_alias_hashtable
              (<[Z.to_nat hash := b ++ [mkAlias fake real type fakelen reallen]]>
                 (alias_hashtable g))).

Definition find_alias (uri : bytes) : M (option alias) :=
  g ← srv;
  b ← checked (zget (alias_hashtable g) (get_alias_hash_value uri));
  mret (List.find (alias_match uri) b).

Definition dump_alias : M unit :=
  g ← srv; upd_srv (set_alias_hashtable ((fun _ => []) <$> alias_hashtable g)).

(** [boa_perror] of log.c: besides logging, a 500 page. *)
Definition boa_perror : M unit := send_r_error.

(** [strdup] into a field of the request, or a 500 page. *)
Definition strdup_to (set : option bytes -> request -> request) (v : bytes) : M bool :=
  ok ← call (os_malloc (zlen v + 1));
  if (ok : bool) then upd (set (Some v)) ;; mret true
  else upd (set None) ;; boa_perror ;; mret false.

(** The size of the static buffers. *)
Definition path_size : Z := MAX_HEADER_LENGTH + 1.

(** * init_script_alias *)

(** Writing one character of the static buffer. *)
Definition poke (i c : Z) : M unit :=
  g ← srv;
  a ← checked (blit (script_pathname g) i [c]);
  upd_srv (set_script_pathname a).

(** The string at offset [i] of the static buffer. *)
Definition peek (i : Z) : M bytes :=
  g ← srv; checked (cstr (script_pathname g) i).

(** The real name of the script with the rest of the URI, put into the buffer;
    [false]: too long, a 400 page was sent. *)
Definition script_fill (current1 : alias) (uri_len : Z) : M bool :=
  r ← req; g ← srv;
  u ← uri;
  let rest := zdrop (fake_len current1) u in
  match vhost_root g with
  | Some vr =>
      h ← checked (host r);
      if path_size <? u32 (zlen vr + 1 + zlen (local_ip_addr r) + 1 + zlen h + 1
                           + real_len current1 + (uri_len - fake_len current1) + 1) then
        send_r_bad_request ;; mret false
      else
        a ← checked (blit (script_pathname g) 0
              (vr ++ [47] ++ local_ip_addr r ++ [47] ++ h ++ [47]
               ++ realname current1 ++ rest ++ [0]));
        upd_srv (set_script_pathname a) ;; mret true
  | None =>
      if path_size <? u32 (real_len current1 + uri_len - fake_len current1 + 1) then
        send_r_bad_request ;; mret false
      else
        a ← checked (blit (script_pathname g) 0 (realname current1 ++ rest ++ [0]));
        upd_srv (set_script_pathname a) ;; mret true
  end.

(** The loop that looks for the script at each '/': the index where it stopped
    and the character there; [None]: an error page was sent. *)
Fixpoint script_scan (fuel : nat) (i : Z) : M (option (Z * Z)) :=
  match fuel with
  | O => undef
  | S fuel' =>
      g ← srv;
      let i := i + 1 in
      c ← checked (zget (script_pathname g) i);
      if c =? 47 then
        poke i 0 ;;
        path ← peek 0;
        st ← call (os_stat path);
        match st with
        | None => send_r_not_found ;; mret None
        | Some st =>
            if bool_decide (st_mode st = S_DIR) then
              poke i 47 ;; script_scan fuel' i
            else
              ok ← (if bool_decide (st_mode st = S_REG) then call (os_access path)
                    else mret false);
              if negb ok then send_r_forbidden ;; mret None
              else poke i 47 ;; mret (Some (i, c))
        end
      else if c =? 0 then mret (Some (i, c))
      else script_scan fuel' i
  end.

(** The whole path is the script: it must be an executable regular file. *)
Definition script_whole : M bool :=
  path ← peek 0;
  st ← call (os_stat path);
  match st with
  | None => send_r_not_found ;; mret false
  | Some st =>
      if bool_decide (st_mode st = S_DIR) then send_r_forbidden ;; mret false
      else
        ok ← (if bool_decide (st_mode st = S_REG) then call (os_access path)
              else mret false);
        if negb ok then send_r_forbidden ;; mret false else mret true
  end.

(** The loop over the bucket that translates [path_info]. *)
Fixpoint realias (b : list alias) (pinfo : bytes) : M bool :=
  match b with
  | [] => mret true
  | current :: b' =>
      if is_prefix (fakename current) pinfo then
        if path_size <? u32 (real_len current + zlen pinfo - fake_len current + 1) then
          send_r_bad_request ;; mret false
        else
          strdup_to set_path_translated
            (realname current ++ zdrop (fake_len current) pinfo)
      else realias b' pinfo
  end.

(** [~user] in the extra path. *)
Definition translate_userdir (i : Z) (udir : bytes) : M bool :=
  rest ← peek (i + 1);
  let '(user, p) :=
    match strchr rest 47 with
    | Some k => (ztake k rest, zdrop k rest)
    | None => (rest, [])
    end in
  home ← get_home_dir (zdrop 1 user);
  match home with
  | None => send_r_not_found ;; mret false
  | Some home => strdup_to set_path_translated (home ++ [47] ++ udir ++ p)
  end.

(** [path_info] was found at index [i]. *)
Definition script_path_info (i : Z) : M bool :=
  pinfo ← peek i;
  ok ← strdup_to set_path_info pinfo;
  if negb ok then mret false
  else
    poke i 0 ;;
    r ← req;
    sn ← checked (script_name r);
    let cut := zlen sn - zlen pinfo in
    (if cut <? 0 then undef else upd (set_script_name (Some (ztake cut sn)))) ;;
    g ← srv;
    b ← checked (zget (alias_hashtable g) (get_alias_hash_value pinfo));
    ok ← (match path_translated r with None => realias b pinfo | Some _ => mret true end);
    if negb ok then mret false
    else
      r ← req;
      match path_translated r with
      | Some _ => mret true
      | None =>
          let c1 := default 0 (zget pinfo 1) in
          match user_dir g, document_root g with
          | Some udir, droot =>
              if c1 =? 126 then translate_userdir i udir
              else match droot with
                   | Some d => strdup_to set_path_translated (d ++ pinfo)
                   | None => mret true
                   end
          | None, Some d => strdup_to set_path_translated (d ++ pinfo)
          | None, None => mret true
          end
      end.

Definition init_script_alias (current1 : alias) (uri_len : Z) : M Z :=
  ok ← script_fill current1 uri_len;
  if negb ok then mret 0
  else
    r ← req;
    tail ← peek (real_len current1);
    upd (set_cgi_type
      (if is_prefix (bs "nph-") tail || bool_decide (http_version r = HTTP09)
       then NPH else CGI)) ;;
    found ← script_scan (Z.to_nat path_size) (real_len current1);
    match found with
    | None => mret 0
    | Some (i, c) =>
        u ← uri;
        ok ← strdup_to set_script_name u;
        if negb ok then mret 0
        else
          ok ← (if c =? 0 then script_whole else script_path_info i);
          if negb ok then mret 0
          else
            path ← peek 0;
            ok ← strdup_to set_pathname path;
            mret (if (ok : bool) then 1 else 0)
    end.

(** * translate_uri *)

(** A path in the static buffer of [translate_uri], if it fits. *)
Definition fits (size : Z) (path : bytes) : M (option bytes) :=
  if path_size <? u32 size then send_r_bad_request ;; mret None
  else mret (Some path).

(** The URI is under an alias. *)
Definition translate_alias (current : alias) (u : bytes) : M Z :=
  r ← req;
  match atype current with
  | SCRIPTALIAS => init_script_alias current (zlen u)
  | _ =>
      b ← fits (real_len current + zlen u - fake_len current + 1)
               (realname current ++ zdrop (fake_len current) u);
      match b with
      | None => mret 0
      | Some buffer =>
          match atype current with
          | REDIRECT =>
              if bool_decide (method r = M_POST) then send_r_bad_request ;; mret 0
              else send_r_moved_temp buffer [] ;; mret 0
          | _ =>
              ok ← strdup_to set_pathname buffer;
              mret (if (ok : bool) then 1 else 0)
          end
      end
  end.

(** "/~user/rest" *)
Definition userdir_path (udir u : bytes) : M (option bytes) :=
  if zlen u =? 2 then send_r_bad_request ;; mret None
  else
    let req_urip := zdrop 2 u in
    let '(name, p) :=
      match strchr req_urip 47 with
      | Some k => (ztake k req_urip, zdrop k req_urip)
      | None => (req_urip, [])
      end in
    home ← get_home_dir name;
    match home with
    | None => send_r_not_found ;; mret None
    | Some home =>
        fits (zlen home + 1 + zlen udir + zlen p + 1) (home ++ [47] ++ udir ++ p)
    end.

(** The file name below the virtual hosts or the document root. *)
Definition root_path (u : bytes) : M (option bytes) :=
  r ← req; g ← srv;
  match vhost_root g, document_root g with
  | Some vr, _ =>
      h ← checked (host r);
      fits (zlen vr + 1 + zlen (local_ip_addr r) + 1 + zlen h + 1 + 6 + zlen u + 1)
        (vr ++ [47] ++ local_ip_addr r ++ [47] ++ h ++ [47] ++ bs "htdocs" ++ u)
  | None, Some d =>
      if virtualhost g then
        fits (zlen d + 1 + zlen u + zlen (local_ip_addr r) + 1)
          (d ++ [47] ++ local_ip_addr r ++ u)
      else fits (zlen d + 1 + zlen u + 0 + 1) (d ++ u)
  | None, None => send_r_not_found ;; mret None
  end.

(** The file name of a URI that has no alias; [None]: a page was sent. *)
Definition plain_path (u : bytes) : M (option bytes) :=
  g ← srv;
  match user_dir g with
  | Some udir =>
      if default 0 (zget u 1) =? 126 then userdir_path udir u else root_path u
  | None => root_path u
  end.

(** After the file name is known: is it a script by its type? *)
Definition classify (path u : bytes) : M Z :=
  mime ← get_mime_type path;
  r ← req;
  if streq CGI_MIME_TYPE mime then
    ok ← strdup_to set_script_name u;
    if negb ok then mret 0
    else
      upd (set_cgi_type (if bool_decide (http_version r = HTTP09) then NPH else CGI)) ;;
      mret 1
  else if bool_decide (method r = M_POST) then send_r_bad_request ;; mret 0
  else mret 1.

Definition translate_uri : M Z :=
  u ← uri;
  if negb (default 0 (head u) =? 47) then send_r_bad_request ;; mret 0
  else
    current ← find_alias u;
    match current with
    | Some current => translate_alias current u
    | None =>
        b ← plain_path u;
        match b with
        | None => mret 0
        | Some buffer =>
            ok ← strdup_to set_pathname buffer;
            if negb ok then mret 0 else classify buffer u
        end
    end.
End alias.
