(* ===== verification/AliasProofs.v ===== *)
(** Properties of the translation of URIs. *)

From S2P Require Import Prelude Types Machine Escape ScriptOS Buffer Util UtilProofs.
From S2P Require Import Dates Hash Response ResponseProofs ResponseProps Alias.

(** * The alias table *)

(** Every alias is in the bucket of its name, and its lengths are right. *)
Record alias_ok (t : list (list alias)) : Prop := {
  al_len : zlen t = ALIAS_HASHTABLE_SIZE;
  al_entry : forall i b a, t !! i = Some b -> a ∈ b ->
    get_alias_hash_value (fakename a) = Z.of_nat i /\
    fakename a <> [] /\ fake_len a = zlen (fakename a) /\ real_len a = zlen (realname a)
}.

(** The alias covers the URI: its name is a prefix of it that ends at a path
    component. *)
Definition covers (a : alias) (uri : bytes) : Prop :=
  exists t, uri = fakename a ++ t /\
    (List.last (fakename a) 0 = 47 \/ t = [] \/ head t = Some 47).

Lemma zget_last (l : bytes) :
  l <> [] -> zget l (zlen l - 1) = Some (List.last l 0).
Proof.
  intros Hl. destruct l as [|x l _] using rev_ind; [done|].
  rewrite List.last_last, zlen_app. change (zlen [x]) with 1.
  unfold zget. pose proof (zlen_nonneg l). destruct (Z.leb_spec 0 (zlen l + 1 - 1)); [|lia].
  replace (Z.to_nat (zlen l + 1 - 1)) with (length l) by zlia.
  by rewrite lookup_app_r, Nat.sub_diag by lia.
Qed.

Lemma zget_app_next (l t : bytes) : zget (l ++ t) (zlen l) = head t.
Proof.
  unfold zget. pose proof (zlen_nonneg l). destruct (Z.leb_spec 0 (zlen l)); [|lia].
  replace (Z.to_nat (zlen l)) with (length l) by zlia.
  rewrite lookup_app_r, Nat.sub_diag by lia. by destruct t.
Qed.

(** The test of the code is this relation. *)
Lemma alias_match_covers uri a :
  nonul uri = true -> fakename a <> [] -> fake_len a = zlen (fakename a) ->
  alias_match uri a = true <-> covers a uri.
Proof.
  intros Hn Hf Hl. unfold alias_match, covers. rewrite Hl, zget_last by done. simpl.
  split.
  - intros H. apply andb_prop in H as [[_ [t ->]%is_prefix_spec]%andb_prop H].
    rewrite zget_app_next in H. exists t. split; [done|].
    apply orb_prop in H as [H|[_ H]%andb_prop]; bprop; [by left|]. right.
    destruct t as [|x t]; [by left|]. right. simpl in *.
    apply orb_prop in H as [H|H]; bprop; [|by subst].
    exfalso. subst x. unfold nonul in Hn. rewrite forallb_app in Hn. simpl in Hn.
    rewrite andb_false_r in Hn. done.
  - intros (t & -> & Ht). rewrite zlen_app, zget_app_next.
    pose proof (zlen_nonneg t). destruct (Z.leb_spec (zlen (fakename a))
      (zlen (fakename a) + zlen t)); [|lia].
    rewrite (proj2 (is_prefix_spec _ _)) by eauto. simpl.
    destruct Ht as [->|[->|Ht]]; [done| |].
    + by destruct (List.last (fakename a) 0 =? 47).
    + rewrite Ht. by destruct (List.last (fakename a) 0 =? 47).
Qed.

Lemma last_In (l : bytes) d : l <> [] -> In (List.last l d) l.
Proof.
  destruct l as [|x l _] using rev_ind; [done|]. intros _.
  rewrite List.last_last. apply in_app_iff. right. by left.
Qed.

(** The hash looks at the first component only. *)
Lemma alias_hash_loop_app f t h :
  (existsb (fun c => c =? 47) f = true \/ t = [] \/ head t = Some 47) ->
  alias_hash_loop (f ++ t) h = alias_hash_loop f h.
Proof.
  revert h. induction f as [|c f IH]; intros h H; simpl.
  - destruct t as [|x t]; [done|]. destruct H as [H|[H|H]]; try done.
    injection H as ->. done.
  - destruct (Z.eqb_spec c 47) as [->|Hc]; [done|]. apply IH.
    simpl in H. destruct (Z.eqb_spec c 47); [done|]. exact H.
Qed.

Lemma covers_hash a uri :
  covers a uri -> head uri = Some 47 -> fakename a <> [] -> fakename a <> [47] ->
  get_alias_hash_value uri = get_alias_hash_value (fakename a).
Proof.
  intros (t & -> & Ht) Hu Hf Hs. destruct (fakename a) as [|c f]; [done|].
  simpl in Hu. injection Hu as ->. destruct f as [|d f]; [done|].
  unfold get_alias_hash_value. cbn [app]. f_equal.
  apply (alias_hash_loop_app (d :: f)).
  destruct Ht as [Ht|Ht]; [|by right]. left.
  apply existsb_exists. exists 47. split; [|done].
  rewrite last_cons in Ht. rewrite <- Ht. by apply last_In.
Qed.

Lemma alias_hash_range file : 0 <= get_alias_hash_value file < ALIAS_HASHTABLE_SIZE.
Proof.
  unfold get_alias_hash_value. destruct file; [done|]. by apply Z.mod_pos_bound.
Qed.

(** A URI that no alias covers is not found. *)
Lemma find_alias_none t u :
  alias_ok t -> nonul u = true ->
  (forall i b a, t !! i = Some b -> a ∈ b -> ~ covers a u) ->
  exists b, zget t (get_alias_hash_value u) = Some b /\ List.find (alias_match u) b = None.
Proof.
  intros [Hal Hae] Hnul Hcov.
  destruct (zget_is_Some t (get_alias_hash_value u)) as [b Hb].
  { rewrite Hal. apply alias_hash_range. }
  exists b. split; [done|].
  destruct (List.find (alias_match u) b) as [a|] eqn:Ef; [|done].
  apply find_some in Ef as [Hin Hm]. apply list_elem_of_In in Hin.
  assert (Hb' : t !! Z.to_nat (get_alias_hash_value u) = Some b).
  { unfold zget in Hb. by destruct (Z.leb_spec 0 (get_alias_hash_value u)). }
  destruct (Hae _ _ _ Hb' Hin) as (_ & ? & ? & _).
  apply alias_match_covers in Hm; [|done|done|done]. by eapply Hcov in Hm.
Qed.

(** What [List.find] returns is the first that passes the test. *)
Lemma find_first {A} (f : A -> bool) l x :
  List.find f l = Some x ->
  exists l1 l2, l = l1 ++ x :: l2 /\ f x = true /\ forall y, y ∈ l1 -> f y = false.
Proof.
  induction l as [|y l IH]; simpl; [done|]. destruct (f y) eqn:Ey.
  - intros [= ->]. exists [], l. split_and!; [done|done|]. by intros z ?%elem_of_nil.
  - intros (l1 & l2 & -> & Hx & Hl)%IH. exists (y :: l1), l2. split_and!; [done|done|].
    intros z [->|Hz]%elem_of_cons; [done|by apply Hl].
Qed.

Section alias_props.
Context {os : OS}.

(** C26: [find_alias] returns the first alias of the URI's bucket, in the order of the
    configuration, whose name is a prefix of the URI ending at a path component (so
    "/cgi-bin" does not cover "/cgi-binary"): no alias before it in the bucket covers the
    URI.  If it returns NULL, no alias of the whole table covers the URI, except one
    named "/".  *)
Theorem find_alias_correct uri s :
  alias_ok (alias_hashtable (sv s)) -> nonul uri = true -> head uri = Some 47 ->
  wp (find_alias uri)
    (fun r s' => s' = s /\
       match r with
       | Some a => covers a uri /\ exists l1 l2,
           alias_hashtable (sv s) !! Z.to_nat (get_alias_hash_value uri)
             = Some (l1 ++ a :: l2) /\
           forall a', a' ∈ l1 -> ~ covers a' uri
       | None => forall i b a, alias_hashtable (sv s) !! i = Some b -> a ∈ b ->
                   fakename a <> [47] -> ~ covers a uri
       end) s.
Proof.
  intros [Hl He] Hn Hu. unfold find_alias. wps.
  pose proof (alias_hash_range uri) as Hr.
  destruct (zget_is_Some (alias_hashtable (sv s)) (get_alias_hash_value uri)) as [b Hb];
    [lia|].
  assert (Hb' : alias_hashtable (sv s) !! Z.to_nat (get_alias_hash_value uri) = Some b).
  { unfold zget in Hb. by destruct (Z.leb_spec 0 (get_alias_hash_value uri)). }
  rewrite Hb. apply wp_ret. wps. split; [done|].
  destruct (List.find (alias_match uri) b) as [a|] eqn:Ef.
  - apply find_first in Ef as (l1 & l2 & -> & Hm & Hfst).
    assert (Hal : forall a', a' ∈ l1 ++ a :: l2 -> alias_match uri a' = true <-> covers a' uri).
    { intros a' Hin. destruct (He _ _ _ Hb' Hin) as (_ & ? & ? & _).
      by apply alias_match_covers. }
    split; [apply Hal; [set_solver|done]|]. exists l1, l2. split; [done|].
    intros a' Hin Hc. apply Hal in Hc; [|set_solver]. by rewrite Hfst in Hc.
  - intros i b' a Hi Ha Hs Hc. destruct (He _ _ _ Hi Ha) as (Hh & Hne & Hfl & _).
    rewrite <- (covers_hash a uri) in Hh by done.
    replace i with (Z.to_nat (get_alias_hash_value uri)) in Hi by lia.
    rewrite Hb' in Hi. injection Hi as <-.
    eapply find_none in Ef; [|by apply list_elem_of_In].
    apply alias_match_covers in Hc; [congruence|done|done|done].
Qed.
End alias_props.

Definition alias_test_state : St :=
  mkSt test_request (set_alias_hashtable
    (<[Z.to_nat (get_alias_hash_value (bs "/cgi-bin"))
       := [mkAlias (bs "/cgi-bin") (bs "/usr/cgi") SCRIPTALIAS 8 8]]>
      (alias_hashtable test_server)) test_server) empty_world.

Lemma alias_test_ok : alias_ok (alias_hashtable (sv alias_test_state)).
Proof.
  split; [reflexivity|]. intros i b a Hi Ha.
  apply list_lookup_insert_Some in Hi as [(<- & <- & _)|[_ Hi]].
  - apply list_elem_of_singleton in Ha as ->. vm_compute. split_and!; congruence.
  - apply lookup_replicate in Hi as [-> _]. by apply elem_of_nil in Ha.
Qed.

Lemma find_alias_correct_witness :
  exists a, find_alias (bs "/cgi-bin/x") alias_test_state
            = Ret (Some a) alias_test_state /\ covers a (bs "/cgi-bin/x").
Proof.
  destruct (wp_elim _ _ _ (find_alias_correct (bs "/cgi-bin/x") alias_test_state
    alias_test_ok ltac:(reflexivity) ltac:(reflexivity))) as ([a|] & s' & E & -> & H).
  - exists a. split; [exact E|apply H].
  - exfalso. vm_compute in E. discriminate E.
Defined.

(** * Files below the document root *)

Section document_root.
Context {os : OS} {laws : OSLaws os}.

(** [strdup_to] stores a copy, or answers 500. *)
Lemma strdup_to_wp set v s (Q : bool -> St -> Prop) :
  (forall w, Q true (mkSt (set (Some v) (rq s)) (sv s) w)) ->
  (forall w, printable (mkSt (set None (rq s)) (sv s) w)) ->
  (forall w o s', wrote o (squashed R_ERROR (mkSt (set None (rq s)) (sv s) w)) s' ->
     Q false s') ->
  wp (strdup_to set v) Q s.
Proof.
  intros Hok Hp Hfail. unfold strdup_to. wps. apply wp_call. intros [] w _; wps; [apply Hok|].
  eapply wp_mono; [apply (page_send_wp Server_error), Hp|].
  intros [] s' [o H]. wps. by eapply Hfail.
Qed.

(** A URI that no alias covers, without user directories and virtual
    hosts, becomes the document root followed by the URI itself; a name that
    does not fit the buffer is refused with 400.  The outcome 0 always comes with
    an error page (400 for POST to a file, 500 when memory is short). *)
Theorem translate_uri_document_root s u d :
  printable s -> cstr (request_uri (rq s)) 0 = Some u ->
  nonul u = true -> head u = Some 47 -> zlen u <= MAX_HEADER_LENGTH ->
  alias_ok (alias_hashtable (sv s)) ->
  (forall i b a, alias_hashtable (sv s) !! i = Some b -> a ∈ b -> ~ covers a u) ->
  user_dir (sv s) = None -> vhost_root (sv s) = None -> virtualhost (sv s) = false ->
  document_root (sv s) = Some d -> zlen d < 2 ^ 31 -> cgi_type (rq s) = CGI_none ->
  wp translate_uri
    (fun n s' =>
       if path_size <? zlen d + zlen u + 2
       then n = 0 /\ response_status (rq s') = R_BAD_REQUEST
       else
         (n = 1 /\ pathname (rq s') = Some (d ++ u) /\
          (method (rq s) = M_POST -> cgi_type (rq s') <> CGI_none)) \/
         (n = 0 /\ response_status (rq s') = R_ERROR) \/
         (n = 0 /\ response_status (rq s') = R_BAD_REQUEST /\ method (rq s) = M_POST)) s.
Proof.
  intros Hs Hu Hnul Hhd Hlen Hal' Hcov Hud Hvr Hvh Hdr Hd Hcgi.
  destruct (find_alias_none _ u Hal' Hnul Hcov) as (b & Hb & Hfind).
  unfold translate_uri, uri, find_alias, plain_path, root_path, fits. wps.
  rewrite Hu. apply wp_ret. rewrite Hhd. change (default 0 (Some 47) =? 47) with true.
  cbn [negb]. wps. rewrite Hb. apply wp_ret. wps. rewrite Hfind. wps.
  rewrite Hud. wps. rewrite Hvr, Hdr, Hvh. unfold MAX_HEADER_LENGTH in *.
  pose proof (zlen_nonneg d). pose proof (zlen_nonneg u).
  replace (u32 (zlen d + 1 + zlen u + 0 + 1)) with (zlen d + zlen u + 2)
    by (symmetry; unfold u32; rewrite Z.mod_small by lia; lia).
  destruct (Z.ltb_spec path_size (zlen d + zlen u + 2)); wps.
  { eapply wp_mono; [by apply (page_send_wp Bad_request)|]. intros [] s' [o H']. wps.
    by apply page_wrote in H' as (_ & _ & ? & _). }
  apply strdup_to_wp; [|intros; by apply (printable_upd (set_pathname None))|].
  2:{ intros w o s' H'. cbn [negb]. wps. apply page_wrote in H' as (_ & _ & ? & _). auto. }
  intros w. cbn [negb]. unfold classify. wps.
  eapply wp_mono; [apply get_mime_type_wp; apply Hs|]. intros mime s' [-> _]. wps.
  destruct (streq CGI_MIME_TYPE mime).
  - apply wp_bind.
    apply strdup_to_wp.
    + intros w'. cbn [negb]. wps. left. split_and!; [done|done|]. intros _. simpl.
      by case_bool_decide.
    + intros w'. by apply (printable_upd
        (fun r => set_script_name None (set_pathname (Some (d ++ u)) r)) s).
    + intros w' o s' H'. cbn [negb]. wps. apply page_wrote in H' as (_ & _ & ? & _). auto.
  - simpl. case_bool_decide as Hm; wps.
    + eapply wp_mono; [apply (page_send_wp Bad_request)|].
      * by apply (printable_upd (set_pathname (Some (d ++ u))) s).
      * intros [] s' [o H']. wps. apply page_wrote in H' as (_ & _ & ? & _). auto.
    + left. split_and!; [done|done|]. simpl. done.
Qed.
End document_root.

Definition docroot_state : St :=
  mkSt (set_request_uri (bs "/a.txt" ++ zeros 1019) test_request) test_server empty_world.

Lemma translate_uri_document_root_witness :
  exists s', translate_uri docroot_state = Ret 1 s' /\
    pathname (rq s') = Some (bs "/www/a.txt").
Proof.
  destruct (wp_elim _ _ _ (translate_uri_document_root docroot_state (bs "/a.txt") (bs "/www")
    ltac:(split_and!; [split; vm_compute; congruence|discriminate|apply test_resp_ok;
            [eexists; vm_compute; reflexivity|vm_compute; eauto]])
    ltac:(vm_compute; reflexivity) ltac:(reflexivity) ltac:(reflexivity)
    ltac:(vm_compute; congruence)
    ltac:(split; [reflexivity|]; intros i b a Hi Ha;
          apply lookup_replicate in Hi as [-> _]; by apply elem_of_nil in Ha)
    ltac:(intros i b a Hi Ha; apply lookup_replicate in Hi as [-> _];
          by apply elem_of_nil in Ha)
    eq_refl eq_refl eq_refl eq_refl ltac:(reflexivity) eq_refl))
    as (n & s' & E & H).
  change (path_size <? zlen (bs "/www") + zlen (bs "/a.txt") + 2) with false in H.
  destruct H as [(-> & H & _)|[(-> & _)|(-> & _)]].
  - exists s'. split; [exact E|exact H].
  - exfalso. vm_compute in E. discriminate E.
  - exfalso. vm_compute in E. discriminate E.
Defined.

(** * The static buffer of init_script_alias *)

(** Two script aliases, one for a directory of scripts and one for a single
    script, both of whose files exist. *)
Definition stale_server : server :=
  match (add_alias (bs "/cgi-bin/") (bs "/usr/lib/cgi-bin/") SCRIPTALIAS ;;
         add_alias (bs "/foo") (bs "/usr/lib/applications.cgi") SCRIPTALIAS) test_state with
  | Ret _ s => sv s
  | _ => test_server
  end.

Definition stale_world : script :=
  mkScript
    [mkFile (bs "/usr/lib/cgi-bin/prog") (mkStat S_REG 1 1 1 1) [];
     mkFile (bs "/usr/lib/applications.cgi") (mkStat S_REG 1 1 1 2) []]
    [] 100 [] [] [] 0 [] [] [] 1000 1000.

Definition request_for (u : bytes) : request :=
  set_request_uri (u ++ zeros (path_size - zlen u)) test_request.

(** After a request for "/cgi-bin/prog/aaaa/bbbb", a request for "/foo" scans
    past the end of its own path into what the first request left in the static
    buffer, takes "/bbbb" for its path_info and then cuts script_name at the
    index 4 - 5: a write before the start of an allocated string. *)
Theorem stale_script_path_underflow :
  exists s1,
    translate_uri (mkSt (request_for (bs "/cgi-bin/prog/aaaa/bbbb")) stale_server
                     stale_world) = Ret 1 s1 /\
    translate_uri (mkSt (request_for (bs "/foo")) (sv s1) (wd s1)) = Undef /\
    translate_uri (mkSt (request_for (bs "/foo")) stale_server stale_world) <> Undef.
Proof.
  eexists. split; [vm_compute; reflexivity|]. split; [vm_compute; reflexivity|].
  vm_compute. discriminate.
Qed.
