(* ===== verification/Pointer.v ===== *)
(** Access through the pointers of a request: [header_line], [header_end],
    [logline] and the saved header values point into one of the arrays
    [client_stream], [buffer] or [request_uri] of the same request.  An access
    outside the array is [Undef]. *)

From S2P Require Import Prelude Types Machine.

(** [p + k]. *)
Definition padd (p : ptr) (k : Z) : ptr :=
  match p with
  | Pnull => Pnull
  | Pstream i => Pstream (i + k)
  | Pbuf i => Pbuf (i + k)
  | Puri i => Puri (i + k)
  end.

(** [p - q], defined for pointers into the same array. *)
Definition psub (p q : ptr) : option Z :=
  match p, q with
  | Pstream i, Pstream j | Pbuf i, Pbuf j | Puri i, Puri j => Some (i - j)
  | _, _ => None
  end.

(** The array a pointer points into, and its index there. *)
Definition parray (r : request) (p : ptr) : option (bytes * Z) :=
  match p with
  | Pnull => None
  | Pstream i => Some (client_stream r, i)
  | Pbuf i => Some (buffer r, i)
  | Puri i => Some (request_uri r, i)
  end.

(** The string at a pointer. *)
Definition string_at (r : request) (p : ptr) : option bytes :=
  '(a, i) ← parray r p; cstr a i.

Definition write_at (r : request) (p : ptr) (l : bytes) : option request :=
  match p with
  | Pnull => None
  | Pstream i => (fun a => set_client_stream a r) <$> blit (client_stream r) i l
  | Pbuf i => (fun a => set_buffer a r) <$> blit (buffer r) i l
  | Puri i => (fun a => set_request_uri a r) <$> blit (request_uri r) i l
  end.

Section pointer.
Context {os : OS}.

Definition pstr (p : ptr) : M bytes := r ← req; checked (string_at r p).

(** [n] bytes at a pointer. *)
Definition pload (p : ptr) (n : Z) : M bytes :=
  r ← req;
  '(a, i) ← checked (parray r p);
  if (0 <=? i) && (0 <=? n) && (i + n <=? zlen a) then mret (slice a i n)
  else undef.

(** Writing bytes at a pointer. *)
Definition pstore (p : ptr) (l : bytes) : M unit :=
  r ← req; r' ← checked (write_at r p l); upd (fun _ => r').

(** [p - q]. *)
Definition pdiff (p q : ptr) : M Z := checked (psub p q).

(** A header value: [p ? p : "default"]. *)
Definition pstr_or (p : ptr) (d : bytes) : M bytes :=
  match p with Pnull => mret d | _ => pstr p end.
End pointer.
