(* ===== verification/Log.v ===== *)
(** log.c and get_commonlog_time of util.c.  [sanitize_log_string] returns its only
    static buffer, so the strings it gave for the arguments of one [printf] are all the
    one that was evaluated last; the order is the compiler's choice.  The access log is
    a part of the state. *)

From S2P Require Import Prelude Types Machine ScriptOS Util UtilProofs Dates DateProofs.
From S2P Require Import Pointer.

Section log.
Context {os : OS}.

(** The C library's localtime or gmtime. *)
Definition get_commonlog_time : M bytes :=
  cur ← call os_time;
  g ← srv;
  lc ← (if use_localtime g then ask (os_localtime cur) else mret (gmtime cur));
  checked (commonlog_text lc).

(** The line that [log_access] prints for the fields it is given. *)
Definition access_line (prefix ip time request : bytes) (code written : Z)
    (referer agent : bytes) : bytes :=
  prefix ++ ip ++ bs " - - " ++ time ++ DQ ++ request ++ DQ ++ [32]
  ++ print_long code ++ [32] ++ print_long written ++ [32]
  ++ DQ ++ referer ++ DQ ++ [32] ++ DQ ++ agent ++ DQ ++ LF.

(** The contents of the static buffer after the three calls. *)
Definition last_sanitized (l1 l2 l3 : bytes) : bytes :=
  match os_last_arg with
  | O => sanitize_log_string (Some l1)
  | S O => sanitize_log_string (Some l2)
  | _ => sanitize_log_string (Some l3)
  end.

Definition log_access : M unit :=
  r ← req; g ← srv;
  match access_log_name g with
  | None => mret tt
  | Some _ =>
      let prefix :=
        if virtualhost g then local_ip_addr r ++ [32]
        else match vhost_root g with
             | Some _ => sanitize_log_string (Some (default (bs "(null)") (host r))) ++ [32]
             | None => []
             end in
      l1 ← pstr_or (logline r) (bs "-");
      l2 ← pstr_or (header_referer r) (bs "-");
      l3 ← pstr_or (header_user_agent r) (bs "-");
      time ← get_commonlog_time;
      let arg := last_sanitized l1 l2 l3 in
      upd_srv (set_access_log
        (access_log g ++ [access_line prefix (remote_ip_addr r) time arg
                            (response_status r) (i64 (bytes_written r)) arg arg]))
  end.
End log.

(** * Proofs *)

(** The strings a request shows in the log are there. *)
Definition ptr_ok (r : request) (p : ptr) : Prop :=
  p = Pnull \/ is_Some (string_at r p).

Definition string_or (r : request) (p : ptr) (d : bytes) : bytes :=
  match p with Pnull => d | _ => default d (string_at r p) end.

Lemma pstr_or_wp {os : OS} p d (Q : bytes -> St -> Prop) s :
  ptr_ok (rq s) p -> Q (string_or (rq s) p d) s -> wp (pstr_or p d) Q s.
Proof.
  intros [->|[l Hl]] HQ; [by apply wp_ret|].
  assert (E : string_or (rq s) p d = l) by (destruct p; simpl in *; [done|..]; by rewrite Hl).
  rewrite E in HQ. destruct p; [done|..]; unfold pstr_or, pstr; wps;
    by eapply wp_checked.
Qed.

Lemma sanitize_log_char l : forallb log_char (sanitize_log_string (Some l)) = true.
Proof. by destruct (sanitize_loop_spec l 0) as (H & _). Qed.

Section log_props.
Context {os : OS}.

(** What time() returns next, and localtime for it. *)
Definition clock_fine (s : St) : Prop :=
  let '(t, w) := os_time (wd s) in
  if use_localtime (sv s) then clock_ok (os_localtime t w) else 0 <= t < 253402300800.

Definition log_time (s : St) : bytes :=
  let '(t, w) := os_time (wd s) in
  default [] (commonlog_text (if use_localtime (sv s) then os_localtime t w else gmtime t)).

Lemma get_commonlog_time_wp s :
  clock_fine s ->
  get_commonlog_time s = Ret (log_time s) (mkSt (rq s) (sv s) (snd (os_time (wd s)))) /\
  forallb log_char (log_time s) = true /\ zlen (log_time s) = 26.
Proof.
  unfold clock_fine, log_time, get_commonlog_time, call, ask, srv, mbind, M_bind, mret, M_ret.
  destruct (os_time (wd s)) as [t w]. cbn [snd sv rq wd]. intros H.
  assert (Hc : clock_ok (if use_localtime (sv s) then os_localtime t w else gmtime t)).
  { destruct (use_localtime (sv s)); [done|by apply gmtime_clock]. }
  destruct (commonlog_ok _ Hc) as (text & E & H1 & H2).
  destruct (use_localtime (sv s)); unfold checked; cbn [wd]; rewrite E; (split; [done|by split]).
Qed.

Lemma last_sanitized_In l1 l2 l3 :
  last_sanitized l1 l2 l3 ∈ (fun l => sanitize_log_string (Some l)) <$> [l1; l2; l3].
Proof. unfold last_sanitized. destruct os_last_arg as [|[]]; simpl; set_solver. Qed.

(** C35: with an access log configured, a finished request appends exactly
    one line to the log and changes nothing else; the line has no control
    character but tabs, so no client can forge a log line.  The request line,
    the referer and the user agent are printed from one static buffer: the three
    fields of the line are the same string, the sanitized form of one of the
    three. *)
Theorem log_access_one_line s :
  is_Some (access_log_name (sv s)) ->
  ptr_ok (rq s) (logline (rq s)) -> ptr_ok (rq s) (header_referer (rq s)) ->
  ptr_ok (rq s) (header_user_agent (rq s)) ->
  - 2 ^ 31 <= response_status (rq s) < 2 ^ 31 ->
  forallb log_char (local_ip_addr (rq s)) = true ->
  forallb log_char (remote_ip_addr (rq s)) = true ->
  clock_fine s ->
  wp log_access (fun _ s' => exists line prefix field,
    s' = mkSt (rq s) (set_access_log (access_log (sv s) ++ [line ++ LF]) (sv s))
           (snd (os_time (wd s))) /\
    forallb log_char line = true /\
    line ++ LF = access_line prefix (remote_ip_addr (rq s)) (log_time s) field
                   (response_status (rq s)) (i64 (bytes_written (rq s))) field field /\
    field ∈ (fun p => sanitize_log_string (Some (string_or (rq s) p (bs "-"))))
              <$> [logline (rq s); header_referer (rq s); header_user_agent (rq s)]) s.
Proof.
  intros [n Hn] H1 H2 H3 Hc Hl Hr Hclock.
  destruct (get_commonlog_time_wp s Hclock) as (Etime & Ht & _). unfold log_access. wps. rewrite Hn. wps.
  apply pstr_or_wp; [done|]. wps. apply pstr_or_wp; [done|]. wps.
  apply pstr_or_wp; [done|]. wps.
  match goal with |- context [last_sanitized ?a ?b ?c] =>
    pose proof (last_sanitized_In a b c) as Hf; set (field := last_sanitized a b c) in * end.
  unfold wp. rewrite Etime. unfold upd_srv; simpl. set (prefix := if virtualhost (sv s) then _ else _).
  assert (Hp : forallb log_char prefix = true).
  { subst prefix. destruct (virtualhost (sv s)); [by rewrite forallb_app, Hl|].
    destruct (vhost_root (sv s)); [|done]. rewrite forallb_app.
    apply andb_true_intro. split; [apply (sanitize_log_char (default _ _))|done]. }
  assert (Hfield : forallb log_char field = true).
  { simpl in Hf. rewrite !elem_of_cons in Hf.
    destruct Hf as [->|[->|[->|Hf]]]; [apply sanitize_log_char..|]. by apply elem_of_nil in Hf. }
  pose proof (i64_range (bytes_written (rq s))).
  eexists (prefix ++ remote_ip_addr (rq s) ++ bs " - - " ++ log_time s ++ DQ ++ field
    ++ DQ ++ [32] ++ print_long (response_status (rq s)) ++ [32]
    ++ print_long (i64 (bytes_written (rq s))) ++ [32]
    ++ DQ ++ field ++ DQ ++ [32] ++ DQ ++ field ++ DQ), prefix, field.
  split_and!.
  - unfold access_line. do 3 f_equal. by rewrite <- !app_assoc.
  - rewrite !forallb_app, Hp, Hr, Ht, Hfield, !print_long_log_char by lia. done.
  - unfold access_line. by rewrite <- !app_assoc.
  - exact Hf.
Qed.
End log_props.

(** A request from a page, logged with the request line in all three fields. *)
Definition log_state : St :=
  let stream := bs "GET / HTTP/1.0" ++ [0] ++ bs "http://referer/" ++ [0] in
  mkSt (set_logline (Pstream 0) (set_header_referer (Pstream 15) (set_response_status 200
          (set_client_stream (stream ++ zeros (CLIENT_STREAM_SIZE - zlen stream)) test_request))))
    test_server empty_world.

Definition log_of {A} (o : out A) : list bytes :=
  match o with Ret _ s => access_log (sv s) | _ => [] end.

Lemma log_access_one_line_witness :
  exists s', log_access log_state = Ret tt s' /\
    access_log (sv s') =
      [bs "10.0.0.2 - - [1970-01-01 00:00:00 Thu] " ++ DQ ++ bs "GET / HTTP/1.0" ++ DQ
       ++ bs " 200 0 " ++ DQ ++ bs "GET / HTTP/1.0" ++ DQ ++ [32]
       ++ DQ ++ bs "GET / HTTP/1.0" ++ DQ ++ LF].
Proof.
  destruct (wp_elim _ _ _ (log_access_one_line log_state
    ltac:(vm_compute; eauto) ltac:(right; vm_compute; eauto) ltac:(right; vm_compute; eauto)
    ltac:(by left) ltac:(vm_compute; split; congruence) eq_refl eq_refl
    ltac:(vm_compute; split; congruence)))
    as ([] & s' & E & line & prefix & field & _).
  exists s'. split; [exact E|]. change (access_log (sv s')) with (log_of (Ret tt s')).
  rewrite <- E. vm_compute. reflexivity.
Defined.
