(* ===== verification/Stderr.v ===== *)
(** What the server prints to stderr: the functions log_error_* of log.c,
    [hash_show_stats] of hash.c, [print_debug_usage] of util.c, [usage] of boa.c and
    [timestamp] of timestamp.c.  The result of such a
    function is the text; the definitions of the other files do not call them. *)

From S2P Require Import Prelude Types Machine ScriptOS Util UtilProofs Dates DateProofs.
From S2P Require Import Hash Pointer Log.

Section stderr.
Context {os : OS}.

(** * The error log *)

(** The contents of the static buffer after the calls of [sanitize_log_string] for the
    arguments [l], of which number [last] was evaluated last. *)
Definition buffer_of (l : list bytes) (last : nat) : bytes :=
  default [] ((fun a => sanitize_log_string (Some a)) <$> (l !! last)).

Definition log_error_doc (last : nat) : M bytes :=
  r ← req; g ← srv;
  let prefix :=
    if virtualhost g then local_ip_addr r ++ [32]
    else match vhost_root g with
         | Some _ => sanitize_log_string (Some (default (bs "(null)") (host r))) ++ [32]
         | None => []
         end in
  time ← get_commonlog_time;
  l1 ← pstr_or (header_host r) (bs "(null)");
  l2 ← pstr_or (logline r) (bs "(null)");
  let l3 := default (bs "(null)") (pathname r) in
  match vhost_root g with
  | Some _ =>
      let arg := buffer_of [l1; l2; l3] last in
      mret (prefix ++ remote_ip_addr r ++ bs " - - " ++ time ++ bs "request [" ++ arg ++ bs "] "
            ++ DQ ++ arg ++ DQ ++ bs " (" ++ DQ ++ arg ++ DQ ++ bs "): ")
  | None =>
      let arg := buffer_of [l2; l3] last in
      mret (prefix ++ remote_ip_addr r ++ bs " - - " ++ time ++ bs "request "
            ++ DQ ++ arg ++ DQ ++ bs " (" ++ DQ ++ arg ++ DQ ++ bs "): ")
  end.

Definition log_error_time : M bytes := get_commonlog_time.

Definition log_error (mesg : bytes) : M bytes :=
  time ← get_commonlog_time;
  mret (time ++ mesg).

(** The place in the source and what perror adds, with the text [err] of errno. *)
Definition log_error_mesg (file : bytes) (line : Z) (func mesg err : bytes) : M bytes :=
  time ← get_commonlog_time;
  mret (time ++ file ++ [58] ++ print_long line ++ bs " (" ++ func ++ bs ") - "
        ++ mesg ++ bs ": " ++ err ++ LF).

Definition log_error_mesg_fatal (file : bytes) (line : Z) (func mesg err : bytes) : M bytes :=
  log_error_mesg file line func mesg err ;; die.

(** * hash_show_stats *)

(** The entries of all buckets. *)
Definition count_entries (t : list (list hash_struct)) : Z :=
  foldl (fun total bucket => match bucket with [] => total | _ => total + zlen bucket end) 0 t.

Definition hash_show_stats : M bytes :=
  g ← srv;
  time ← log_error_time;
  time' ← log_error_time;
  mret (time ++ bs "mime_hashtable has " ++ print_long (count_entries (mime_hashtable g))
        ++ bs " total entries" ++ LF
        ++ time' ++ bs "passwd_hashtable has " ++ print_long (count_entries (passwd_hashtable g))
        ++ bs " total entries" ++ LF).

(** * timestamp *)

(** [date] and [time] of the compilation. *)
Definition timestamp (date time : bytes) : M bytes :=
  t1 ← log_error_time;
  t2 ← log_error_time;
  t3 ← log_error_time;
  pid ← call (os_boot Getpid);
  g ← srv;
  mret (t1 ++ bs "yabwf: server version " ++ SERVER_VERSION ++ LF
        ++ t2 ++ bs "yabwf: server built " ++ date ++ bs " at " ++ time ++ [46] ++ LF
        ++ t3 ++ bs "yabwf: starting server pid=" ++ print_long pid ++ bs ", port "
        ++ print_long (i32 (server_port g)) ++ LF).
End stderr.

(** * print_debug_usage, usage *)

(** The names of the levels in [debug_level_table]. *)
Definition debug_mesg : list bytes :=
  [bs "Alias"; bs "CGI Output"; bs "CGI Input"; bs "CGI Environment"; bs "Header Read State";
   bs "Pipeline"; bs "Plugin Error"; bs "Range related"; bs "Configuration"; bs "Buffer I/O";
   bs "Body Read State"; bs "mmap Cache"; bs "Generic Request"; bs "hash table"].

Definition debug_line (level : Z) (mesg : bytes) : bytes :=
  [9] ++ print_long level ++ [58; 9] ++ mesg ++ LF.

Definition print_debug_usage : bytes :=
  bs "  To calculate the debug level, logically 'or'" ++ LF
  ++ bs "  some of the following values together to get a debug level:" ++ LF
  ++ concat (zip_with debug_line debug_level_table debug_mesg) ++ LF.

(** [usage] exits behind this text. *)
Definition usage (programname : bytes) : bytes :=
  bs "Usage: " ++ programname
  ++ bs " [-c serverroot] [-d] [-f configfile] [-r chroot] [-l debug_level]" ++ LF
  ++ print_debug_usage.

(** * Proofs *)

Lemma buffer_of_log_char l last : forallb log_char (buffer_of l last) = true.
Proof.
  unfold buffer_of. destruct (l !! last) as [a|]; [|done]. apply (sanitize_log_char a).
Qed.

Section stderr_props.
Context {os : OS}.

(** The start of a message in the error log has no line feed and no other control
    character, whatever the client has sent: a line of the error log cannot be forged by
    a request.  As in the access log all fields of the request show the same string. *)
Theorem log_error_doc_one_line last s :
  clock_fine s ->
  ptr_ok (rq s) (logline (rq s)) -> ptr_ok (rq s) (header_host (rq s)) ->
  forallb log_char (local_ip_addr (rq s)) = true ->
  forallb log_char (remote_ip_addr (rq s)) = true ->
  wp (log_error_doc last) (fun text s' => forallb log_char text = true /\
    s' = mkSt (rq s) (sv s) (snd (os_time (wd s)))) s.
Proof.
  intros Hclock Hl Hh H1 H2. destruct (get_commonlog_time_wp s Hclock) as (Etime & Ht & _).
  unfold log_error_doc. wps. set (prefix := if virtualhost (sv s) then _ else _).
  assert (Hp : forallb log_char prefix = true).
  { subst prefix. destruct (virtualhost (sv s)); [by rewrite forallb_app, H1|].
    destruct (vhost_root (sv s)); [|done]. rewrite forallb_app.
    apply andb_true_intro. split; [apply (sanitize_log_char (default _ _))|done]. }
  unfold wp at 1. rewrite Etime.
  apply wp_bind. apply pstr_or_wp; [done|]. apply wp_bind. apply pstr_or_wp; [done|].
  destruct (vhost_root (sv s)); wps;
    (split; [|done]); rewrite !forallb_app, Hp, H2, Ht, buffer_of_log_char; done.
Qed.

(** The statistics count every entry of the tables. *)
Lemma count_entries_concat t : count_entries t = zlen (concat t).
Proof.
  assert (H : forall acc, foldl (fun total (bucket : list hash_struct) =>
    match bucket with [] => total | _ => total + zlen bucket end) acc t = acc + zlen (concat t)).
  { induction t as [|b t IH]; intros acc; simpl; [unfold zlen; simpl; lia|].
    rewrite IH, zlen_app. destruct b; [unfold zlen; simpl; lia|lia]. }
  apply (H 0).
Qed.
End stderr_props.

Lemma log_error_doc_one_line_witness : exists text s',
  log_error_doc 0 log_state = Ret text s' /\ forallb log_char text = true.
Proof.
  destruct (wp_elim _ _ _ (log_error_doc_one_line 0 log_state
    ltac:(vm_compute; split; congruence) ltac:(right; vm_compute; eauto) ltac:(by left)
    eq_refl eq_refl)) as (text & s' & E & H & _).
  exists text, s'. split; [exact E|exact H].
Defined.
