(* ===== verification/Signals.v ===== *)
(** signals.c: the table of the handlers, and the handlers that end the process.  What the
    other handlers and the loop do is in Select. *)

From S2P Require Import Prelude Types Machine.

Definition init_table : list (signal * sa_handler) :=
  [(SIGSEGV, Sigsegv); (SIGBUS, Sigbus); (SIGTERM, Sigterm); (SIGHUP, Sighup);
   (SIGINT, Sigint); (SIGPIPE, SIG_IGN); (SIGCHLD, Sigchld); (SIGALRM, Sigalrm);
   (SIGUSR1, SIG_IGN); (SIGUSR2, SIG_IGN)].

Definition reset_table : list (signal * sa_handler) :=
  (fun s => (s, SIG_DFL)) <$>
  [SIGSEGV; SIGBUS; SIGTERM; SIGHUP; SIGINT; SIGPIPE; SIGCHLD; SIGALRM; SIGUSR1; SIGUSR2].

Section signals.
Context {os : OS}.

(** The results of sigaction are not looked at. *)
Definition set_handlers (l : list (signal * sa_handler)) : M unit :=
  foldr (fun p m => call (os_boot (Sigaction p.1 p.2)) ;; m) (mret tt) l.

Definition init_signals : M unit := set_handlers init_table.
Definition reset_signals : M unit := set_handlers reset_table.

(** A core is dumped in the directory for temporary files. *)
Definition sigsegv : M unit :=
  now ← call os_time;
  upd_srv (set_current_time now) ;;
  g ← srv;
  call (os_chdir (tempdir g)) ;;
  die.

(** [true]: the handler jumps back to where [handle_sigbus] was set. *)
Definition sigbus (handle_sigbus : bool) : M bool :=
  if handle_sigbus then mret true else sigsegv ;; mret false.

Definition sigint : M unit :=
  now ← call os_time;
  upd_srv (set_current_time now) ;;
  g ← srv;
  call (os_chdir (tempdir g)) ;;
  die.
End signals.

(** * What the calls leave *)

(** The disposition of a signal after some calls of sigaction. *)
Definition disposition (start : signal -> sa_handler) (l : list (signal * sa_handler))
    (s : signal) : sa_handler :=
  foldl (fun d p => if decide (p.1 = s) then p.2 else d) (start s) l.

(** A client that goes away, or one of the user signals, does not end the server. *)
Lemma init_signals_ignored start :
  disposition start init_table SIGPIPE = SIG_IGN /\
  disposition start init_table SIGUSR1 = SIG_IGN /\
  disposition start init_table SIGUSR2 = SIG_IGN.
Proof. done. Qed.

(** No signal that the server handles or ignores stays so in a script: an ignored
    signal would be inherited across exec. *)
Lemma reset_after_init start s : disposition start (init_table ++ reset_table) s = SIG_DFL.
Proof. by destruct s. Qed.
