(* ===== verification/CgiHeader.v ===== *)
(** cgi_header.c: the header a CGI script prints is turned into a response.
    [strip_cgi_prefix] looks for noise before the header; it works on the string
    that the script has printed so far, and its positions are offsets into it. *)

From S2P Require Import Prelude Types Machine Buffer Util Dates Hash Response Pointer.

(** * Header tokens *)

Definition cgi_strip_builtin : list bytes :=
  [bs "Status:"; bs "Location:"; bs "Content-Type:"; bs "Set-Cookie:";
   bs "Content-Length:"; bs "Cache-Control:"; bs "Connection:";
   bs "WWW-Authenticate:"; bs "Expires:"; bs "Pragma:"; bs "Content-Encoding:";
   bs "Content-Language:"; bs "Content-Disposition:"; bs "Last-Modified:";
   bs "ETag:"; bs "Vary:"; bs "Allow:"].

(** After the first letter: letters, digits and hyphens up to a colon and a
    blank. *)
Fixpoint wildcard_rest (p : bytes) : bool :=
  match p with
  | [] => false
  | c :: p' =>
      if isalnum c || (c =? 45) then wildcard_rest p'
      else (c =? 58) && (default 0 (head p') =? 32)
  end.

Definition matches_wildcard_pattern (line : bytes) : bool :=
  match line with
  | [] => false
  | c :: p => isalpha c && wildcard_rest p
  end.

(** * Line starts *)

Definition is_eol (buf : bytes) (i : nat) : bool :=
  match buf !! i with Some c => (c =? 10) || (c =? 13) | None => false end.
Definition is_lf (buf : bytes) (i : nat) : bool :=
  match buf !! i with Some c => c =? 10 | None => false end.

(** The two loops of [find_line_start]. *)
Fixpoint skip_eol (buf : bytes) (p : nat) : nat :=
  match p with
  | O => O
  | S p' => if is_eol buf p' then skip_eol buf p' else p
  end.
Fixpoint back_to_lf (buf : bytes) (p : nat) : nat :=
  match p with
  | O => O
  | S p' => if is_lf buf p then p else back_to_lf buf p'
  end.

Definition find_line_start (buf : bytes) (pos : nat) : nat :=
  match skip_eol buf pos with
  | O => O
  | S p =>
      let p := back_to_lf buf p in
      if is_lf buf p then S p else O
  end.

(** * strip_cgi_prefix *)

Definition has_token (tokens : list bytes) (line : bytes) : bool :=
  existsb (fun t => strncaseeq line t (zlen t)) tokens.

(** A header line as the server recognizes it. *)
Definition header_start (tokens : list bytes) (line : bytes) : bool :=
  has_token tokens line || matches_wildcard_pattern line.

(** for (scan = from; scan + len <= to; scan++) if (...) last = scan; *)
Definition scan_last (test : bytes -> bool) (buf : bytes) (from to len : nat)
    (last : option nat) : option nat :=
  foldl (fun last scan => if test (drop scan buf) then Some scan else last) last
    (seq from (to + 1 - len - from)).

(** The last token within [[line_start, pos)]. *)
Definition last_token (tokens : list bytes) (buf : bytes) (line_start pos : nat) :
    option nat :=
  let last := foldl (fun last t =>
      scan_last (fun l => strncaseeq l t (zlen t)) buf line_start pos (length t) last)
    None tokens in
  scan_last matches_wildcard_pattern buf line_start pos 2 last.

(** The first character of the blank line that ends the header. *)
Definition find_anchor (buf : bytes) : option Z :=
  let anchor :=
    match strstr buf [10; 13; 10], strstr buf [10; 10] with
    | None, p => p
    | Some a, Some p => if p <? a then Some p else Some a
    | Some a, None => Some a
    end in
  match anchor with
  | Some a => Some a
  | None => strstr buf [13; 10; 13; 10]
  end.

(** The loop over the lines, backwards from [pos]; [None]: out of fuel. *)
Fixpoint strip_loop (fuel : nat) (tokens : list bytes) (buf : bytes) (pos : nat) :
    option nat :=
  match fuel with
  | O => None
  | S fuel' =>
      let line_start := find_line_start buf pos in
      if header_start tokens (drop line_start buf) then
        match line_start with
        | O => Some O
        | S _ => strip_loop fuel' tokens buf line_start
        end
      else
        match last_token tokens buf line_start pos with
        | Some t => Some t
        | None => Some pos
        end
  end.

(** The offset in [buf] where the header starts. *)
Definition strip_cgi_prefix (on : bool) (tokens : list bytes) (buf : bytes) :
    option nat :=
  if negb on then Some O
  else match find_anchor buf with
       | None => Some O
       | Some a => strip_loop (S (Z.to_nat a)) tokens buf (Z.to_nat a)
       end.

(** while ( *p == '\r') --p; *)
Fixpoint back_cr (a : bytes) (p : nat) : option nat :=
  match a !! p with
  | Some 13 => match p with O => None | S p' => back_cr a p' end
  | Some _ => Some p
  | None => None
  end.

(** while (( *p == '\n' || *p == '\r') && p < end) ++p; *)
Fixpoint skip_eols (fuel : nat) (a : bytes) (p e : Z) : option Z :=
  match fuel with
  | O => None
  | S fuel' =>
      c ← zget a p;
      if ((c =? 10) || (c =? 13)) && (p <? e) then skip_eols fuel' a (p + 1) e
      else Some p
  end.

Section cgi_header.
Context {os : OS}.

Definition cgi_strip_add_token (token : bytes) : M unit :=
  g ← srv;
  ok ← call (os_malloc ((zlen (cgi_strip_tokens g) + 1) * 8));
  if negb ok then die
  else
    ok ← call (os_malloc (zlen token + 1));
    if negb ok then die
    else upd_srv (set_cgi_strip_tokens (cgi_strip_tokens g ++ [token])).

Definition cgi_strip_init : M unit :=
  foldr (fun t m => cgi_strip_add_token t ;; m) (mret tt) cgi_strip_builtin.

Definition cgi_strip_cleanup : M unit := upd_srv (set_cgi_strip_tokens []).

(** A string that lies in the output buffer is written to the output buffer.
    The result is only defined when the copy does not overlap its source. *)
Definition put_from (w : bytes -> M unit) (i : Z) : M unit :=
  r ← req;
  l ← pstr (Pbuf i);
  w l ;;
  r' ← req;
  if (buffer_end r' <=? i) || (i + zlen l <? buffer_end r) then mret tt else undef.

(** [send_r_moved_temp (req, url, more_hdr)] with strings that lie in the output
    buffer; [None] is the empty string. *)
Definition send_r_moved_temp_at (url : Z) (more_hdr : option Z) : M unit :=
  SQUASH_KA ;;
  upd (set_response_status R_MOVED_TEMP) ;;
  unless_http09
    (put_status (bs " 302 Moved Temporarily" ++ CRLF) ;;
     print_http_headers ;;
     put (bs "Content-Type: " ++ HTML ++ CRLF) ;;
     put (bs "Location: ") ;;
     put_from put_http url ;;
     put CRLF ;;
     (match more_hdr with Some i => put_from put i | None => put [] end) ;;
     put (CRLF ++ CRLF)) ;;
  unless_head
    (put (bs "<HTML><HEAD><TITLE>302 Moved Temporarily</TITLE></HEAD>" ++ LF
          ++ bs "<BODY>" ++ LF ++ bs "<H1>302 Moved</H1>The document has moved" ++ LF
          ++ bs "<A HREF=" ++ DQ) ;;
     put_from put_html url ;;
     put (DQ ++ bs ">here</A>." ++ LF ++ bs "</BODY></HTML>" ++ LF)) ;;
  flush_.

(** The offset in the buffer of a pointer into it. *)
Definition buf_offset (p : ptr) : M Z :=
  match p with Pbuf i => mret i | _ => undef end.

(** The script printed a Location header with an absolute URL at [url]. *)
Definition cgi_redirect (url : Z) : M unit :=
  r ← req;
  l ← pstr (Pbuf url);
  nl ← checked (strchr l 10);
  c ← checked (back_cr (buffer r) (Z.to_nat (url + nl - 1)));
  let c2 := Z.of_nat c + 1 in
  buffer_write c2 [0] ;;
  e ← buf_offset (header_end r);
  r ← req;
  c2 ← checked (skip_eols (length (buffer r)) (buffer r) (c2 + 1) e);
  send_r_moved_temp_at url (if c2 =? e then None else Some c2).

Definition cgi_location (buf : Z) (line : bytes) : M unit :=
  let url := zdrop 10 line in
  if default 0 (head url) =? 47 then send_r_bad_request
  else if strncaseeq url (bs "http://") 7 || strncaseeq url (bs "https://") 8 then
    cgi_redirect (buf + 10)
  else send_r_bad_request.

(** Neither Status nor Location: the header goes behind a 200 line.  [c] is where
    the header ends. *)
Definition cgi_plain (c : Z) (cr : bool) : M Z :=
  send_r_request_ok ;;
  r ← req;
  (if bool_decide (method r = M_HEAD) then
     upd (set_header_end (Pbuf (if cr then c + 2 else c + 1))) ;;
     upd (set_cgi_status CGI_DONE)
   else mret tt) ;;
  r ← req;
  d ← pdiff (header_end r) (header_line r);
  let howmuch := u32 d in
  if BUFFER_SIZE <? buffer_end r + howmuch then
    upd (set_buffer_end 0) ;; upd (set_buffer_start 0) ;;
    send_r_error ;;
    mret 0
  else
    l ← pload (header_line r) howmuch;
    buffer_write (buffer_end r) l ;;
    upd (set_buffer_end (buffer_end r + howmuch)) ;;
    upd (set_header_line (Pbuf (buffer_end r + howmuch))) ;;
    upd (set_header_end (Pbuf (buffer_end r + howmuch))) ;;
    flush_ ;;
    mret (if bool_decide (method r = M_HEAD) then 0 else 1).

(** 0: error or HEAD, close down; 1: done processing. *)
Definition process_cgi_header : M Z :=
  r ← req; g ← srv;
  (if negb (bool_decide (cgi_status r = CGI_DONE)) then upd (set_cgi_status CGI_BUFFER)
   else mret tt) ;;
  buf ← buf_offset (header_line r);
  (if cgi_strip_prefix g && negb (bool_decide (cgi_type r = NPH)) then
     l ← pstr (Pbuf buf);
     k ← checked (strip_cgi_prefix (cgi_strip_prefix g) (cgi_strip_tokens g) l);
     upd (set_header_line (Pbuf (buf + Z.of_nat k)))
   else mret tt) ;;
  r ← req;
  buf ← buf_offset (header_line r);
  line ← pstr (Pbuf buf);
  match (match strstr line [10; 13; 10] with
         | Some c => Some (c, true)
         | None => (fun c => (c, false)) <$> strstr line [10; 10]
         end) with
  | None => send_r_bad_gateway ;; mret 0
  | Some (c, cr) =>
      if bool_decide (http_version r = HTTP09) then
        upd (set_header_line (Pbuf (buf + (if (cr : bool) then c + 2 else c + 1)))) ;; mret 1
      else if strncaseeq line (bs "Status: ") 8 then
        upd (set_header_line (Pbuf (buf - 1))) ;;
        buffer_write (buf - 1) (bs "HTTP/1.0 ") ;;
        mret 1
      else if strncaseeq line (bs "Location: ") 10 then
        cgi_location buf line ;;
        upd (set_status DONE) ;;
        mret 1
      else cgi_plain (buf + c) cr
  end.
End cgi_header.

(** A two-line header behind a PHP warning is found. *)
Example strip_warning :
  strip_cgi_prefix true cgi_strip_builtin
    (bs "PHP Warning <x>" ++ LF ++ bs "X-A: b" ++ LF ++ bs "Content-Type: text/html" ++ LF ++ LF)
  = Some 16%nat.
Proof. vm_compute. reflexivity. Qed.
