(* ===== verification/CgiHeaderProps.v ===== *)
(** What [strip_cgi_prefix] does: it always returns a position of the header
    block, it finds the header behind noise, and where it cuts off too much. *)

From S2P Require Import Prelude Types CgiHeader.

(** * Line starts *)

Lemma skip_eol_le buf p : (skip_eol buf p <= p)%nat.
Proof. induction p as [|p IH]; simpl; [done|]. destruct (is_eol buf p); lia. Qed.

Lemma back_to_lf_le buf p : (back_to_lf buf p <= p)%nat.
Proof.
  induction p as [|p IH]; cbn [back_to_lf]; [done|]. destruct (is_lf buf (S p)); lia.
Qed.

(** What [skip_eol] stops behind is not a line end. *)
Lemma skip_eol_stop buf p q : skip_eol buf p = S q -> is_eol buf q = false.
Proof.
  induction p as [|p IH]; simpl; [done|].
  destruct (is_eol buf p) eqn:E; [done|]. by intros [= <-].
Qed.

Lemma is_lf_eol buf i : is_lf buf i = true -> is_eol buf i = true.
Proof. unfold is_lf, is_eol. destruct (buf !! i); [|done]. by intros ->. Qed.

(** The scan makes progress, so the loop over the lines ends. *)
Lemma find_line_start_lt buf pos : (0 < pos)%nat -> (find_line_start buf pos < pos)%nat.
Proof.
  intros Hpos. unfold find_line_start. pose proof (skip_eol_le buf pos).
  destruct (skip_eol buf pos) as [|p] eqn:E; [lia|].
  pose proof (back_to_lf_le buf p).
  destruct (is_lf buf (back_to_lf buf p)) eqn:Hlf; [|lia].
  assert (back_to_lf buf p <> p) by
    (intros Ep; rewrite Ep in Hlf; apply skip_eol_stop in E; apply is_lf_eol in Hlf; congruence).
  lia.
Qed.

Lemma scan_last_Some test buf from to len last k :
  scan_last test buf from to len last = Some k ->
  last = Some k \/ (from <= k /\ k + len <= to)%nat.
Proof.
  unfold scan_last.
  assert (Hb : Forall (fun i => from <= i /\ i + len <= to)%nat (seq from (to + 1 - len - from)))
    by (apply Forall_forall; intros i [? ?]%elem_of_seq; lia).
  revert last Hb. generalize (seq from (to + 1 - len - from)).
  induction l as [|i l IH]; simpl; intros last Hb H; [by left|].
  apply Forall_cons in Hb as [Hi Hb]. destruct (IH _ Hb H) as [E|?]; [|by right].
  destruct (test (drop i buf)); [|by left]. injection E as <-. by right.
Qed.

(** Nothing is found where the test fails everywhere. *)
Lemma scan_last_None test buf from to len last :
  (forall i, (from <= i)%nat -> (i + len <= to)%nat -> test (drop i buf) = false) ->
  scan_last test buf from to len last = last.
Proof.
  intros H. unfold scan_last.
  assert (Hb : Forall (fun i => test (drop i buf) = false) (seq from (to + 1 - len - from)))
    by (apply Forall_forall; intros i [? ?]%elem_of_seq; apply H; lia).
  revert last Hb. generalize (seq from (to + 1 - len - from)).
  induction l as [|i l IH]; simpl; intros last Hb; [done|].
  apply Forall_cons in Hb as [-> Hb]. auto.
Qed.

Lemma last_token_le tokens buf from to k :
  last_token tokens buf from to = Some k -> (k <= to)%nat.
Proof.
  unfold last_token. intros [H|?]%scan_last_Some; [|lia].
  set (f := fun last t => scan_last _ _ _ _ _ last) in H.
  assert (Hg : forall last, foldl f last tokens = Some k -> last = Some k \/ (k <= to)%nat).
  { clear H. induction tokens as [|t tokens IH]; intros last; [by left|].
    intros [H|?]%IH; [|by right]. apply scan_last_Some in H as [?|?]; [by left|right; lia]. }
  by destruct (Hg _ H).
Qed.

Lemma strip_loop_total fuel tokens buf pos :
  (pos < fuel)%nat -> exists k, strip_loop fuel tokens buf pos = Some k /\ (k <= pos)%nat.
Proof.
  revert pos. induction fuel as [|fuel IH]; intros pos Hf; [lia|]. cbn [strip_loop].
  destruct (header_start tokens _).
  - destruct (find_line_start buf pos) as [|p] eqn:E; [exists O; split; [done|lia]|].
    destruct pos as [|pos]; [discriminate E|].
    pose proof (find_line_start_lt buf (S pos) ltac:(lia)).
    destruct (IH (S p)) as (k & Hk & ?); [lia|]. exists k. split; [done|lia].
  - destruct (last_token _ _ _ _) as [k|] eqn:E; eauto using last_token_le.
Qed.

(** * Headers behind noise *)

Lemma tolower_lf c : tolower c = 10 -> c = 10.
Proof.
  unfold tolower, isupper. destruct (Z.leb_spec 65 c), (Z.leb_spec c 90); simpl; lia.
Qed.

Lemma strncaseeq_length l t : strncaseeq l t (zlen t) = true -> zlen t <= zlen l.
Proof.
  unfold strncaseeq. intros H%bool_decide_eq_true. apply (f_equal length) in H.
  rewrite !length_fmap in H. unfold ztake, zlen in *. rewrite !length_take in H. lia.
Qed.

Lemma strncaseeq_app l t x :
  zlen t <= zlen l -> strncaseeq (l ++ x) t (zlen t) = strncaseeq l t (zlen t).
Proof. intros. unfold strncaseeq. by rewrite ztake_app_le. Qed.

Lemma wildcard_rest_app l x : wildcard_rest l = true -> wildcard_rest (l ++ x) = true.
Proof.
  induction l as [|c l IH]; simpl; [done|].
  destruct (isalnum c || (c =? 45)); [done|].
  destruct l; [by intros [_ ?]%andb_prop|done].
Qed.

(** A header line is recognized whatever follows it. *)
Lemma header_start_app tokens l x :
  header_start tokens l = true -> header_start tokens (l ++ x) = true.
Proof.
  unfold header_start, has_token. intros [H|H]%orb_prop; apply orb_true_intro.
  - left. apply existsb_exists in H as (t & Ht & Hl). apply existsb_exists.
    exists t. rewrite strncaseeq_app; eauto using strncaseeq_length.
  - right. destruct l as [|c l]; [done|]. simpl in *. apply andb_prop in H as [-> H].
    by rewrite wildcard_rest_app.
Qed.

(** Up to a line end, what follows does not matter. *)
Lemma wildcard_rest_lf l x : wildcard_rest (l ++ 10 :: x) = wildcard_rest (l ++ [10]).
Proof.
  induction l as [|c l IH]; [done|]. simpl. destruct (isalnum c || (c =? 45)); [done|].
  by destruct l.
Qed.

Lemma header_start_lf tokens l x :
  Forall (fun t => 10 ∉ t) tokens ->
  header_start tokens (l ++ 10 :: x) = header_start tokens (l ++ [10]).
Proof.
  intros Hlf. apply eq_true_iff_eq. split.
  2:{ intros H. replace (l ++ 10 :: x) with ((l ++ [10]) ++ x) by (by rewrite <- app_assoc).
      by apply header_start_app. }
  unfold header_start, has_token. intros [H|H]%orb_prop; apply orb_true_intro.
  - left. apply existsb_exists in H as (t & Ht & Hl). apply existsb_exists.
    exists t. split; [done|]. destruct (decide (zlen t <= zlen (l ++ [10]))) as [Hle|Hle].
    { rewrite <- (strncaseeq_app _ t x) by done. by rewrite <- app_assoc. }
    exfalso. eapply Forall_forall in Hlf; [|by apply list_elem_of_In].
    apply Hlf. unfold strncaseeq in Hl. apply bool_decide_eq_true in Hl.
    rewrite (ztake_ge _ t) in Hl by lia. rewrite zlen_app, zlen_cons, zlen_nil in Hle.
    apply (f_equal (fun l' => l' !! length l)) in Hl. unfold ztake in Hl.
    rewrite !list_lookup_fmap, lookup_take, decide_True in Hl by zlia.
    rewrite lookup_app_r, Nat.sub_diag in Hl by lia. simpl in Hl.
    destruct (t !! length l) as [c|] eqn:Ec; [|done]. simpl in Hl.
    injection Hl as Hl. symmetry in Hl. change (tolower 10) with 10 in Hl.
    apply tolower_lf in Hl as ->. by eapply list_elem_of_lookup_2.
  - right. destruct l as [|c l]; [done|]. simpl in *. by rewrite wildcard_rest_lf in H.
Qed.

Lemma is_eol_at pre c x : is_eol (pre ++ c :: x) (length pre) = (c =? 10) || (c =? 13).
Proof. unfold is_eol. by rewrite list_lookup_middle. Qed.

Lemma is_lf_at pre c x : is_lf (pre ++ c :: x) (length pre) = (c =? 10).
Proof. unfold is_lf. by rewrite list_lookup_middle. Qed.

Lemma skip_eol_app pre eols post :
  Forall (fun c => c = 10 \/ c = 13) eols ->
  skip_eol (pre ++ eols ++ post) (length pre + length eols) =
  skip_eol (pre ++ eols ++ post) (length pre).
Proof.
  revert post. induction eols as [|c eols IH] using rev_ind; intros post H.
  { by rewrite Nat.add_0_r. }
  apply Forall_app in H as [H Hc]. apply Forall_cons in Hc as [Hc _].
  rewrite length_app. simpl. rewrite Nat.add_1_r, Nat.add_succ_r. cbn [skip_eol].
  rewrite <- length_app, <- !app_assoc. simpl.
  replace (is_eol _ _) with true.
  { rewrite length_app. by apply IH. }
  rewrite (app_assoc pre), is_eol_at. by destruct Hc as [->| ->].
Qed.

Lemma back_to_lf_at buf a p :
  (a <= p)%nat -> (forall i, (a < i <= p)%nat -> is_lf buf i = false) ->
  a = O \/ is_lf buf a = true -> back_to_lf buf p = a.
Proof.
  induction p as [|p IH]; intros Ha Hn Hs; cbn [back_to_lf]; [lia|].
  destruct (decide (a = S p)) as [->|].
  - destruct Hs as [?| ->]; [lia|done].
  - rewrite Hn by lia. apply IH; [lia|intros; apply Hn; lia|done].
Qed.

(** A line's text: no line feed in it, and it does not end in CR. *)
Definition line_text (l : bytes) : Prop :=
  10 ∉ l /\ exists c, last l = Some c /\ c <> 13.

(** What stands before the start of a line. *)
Definition line_break (pre : bytes) : Prop := pre = [] \/ exists p, pre = p ++ [10].

Lemma line_text_lf pre l post i :
  10 ∉ l -> (length pre <= i < length pre + length l)%nat -> is_lf (pre ++ l ++ post) i = false.
Proof.
  intros Hl Hi. unfold is_lf. rewrite lookup_app_r, lookup_app_l by lia.
  destruct (l !! _) as [c|] eqn:E; [|done].
  apply Z.eqb_neq. intros ->. apply Hl. by eapply list_elem_of_lookup_2.
Qed.

Lemma find_line_start_at pre l eols post :
  line_break pre -> line_text l -> Forall (fun c => c = 10 \/ c = 13) eols ->
  find_line_start (pre ++ l ++ eols ++ post) (length (pre ++ l ++ eols)) = length pre.
Proof.
  intros Hpre (Hlf & c & Hc & Hcr) He. apply last_Some in Hc as [l' ->].
  assert (c <> 10) by (intros ->; apply Hlf; set_solver).
  assert (Hskip : skip_eol (pre ++ (l' ++ [c]) ++ eols ++ post)
            (length (pre ++ (l' ++ [c]) ++ eols)) = S (length (pre ++ l'))).
  { rewrite !(app_assoc pre (l' ++ [c])), length_app, skip_eol_app by done.
    rewrite (app_assoc pre), length_app, Nat.add_comm. cbn [length Nat.add skip_eol].
    rewrite <- !app_assoc, (app_assoc pre). cbn [app]. rewrite is_eol_at.
    apply Z.eqb_neq in H, Hcr. by rewrite H, Hcr. }
  unfold find_line_start. rewrite Hskip.
  assert (Hno : forall i, (length pre <= i <= length (pre ++ l'))%nat ->
    is_lf (pre ++ (l' ++ [c]) ++ eols ++ post) i = false).
  { intros i Hi. apply line_text_lf; [done|]. rewrite length_app in *. simpl. lia. }
  rewrite length_app in Hno |- *. destruct Hpre as [->|[p ->]].
  - rewrite (back_to_lf_at _ 0).
    + by rewrite Hno by (simpl; lia).
    + lia.
    + intros i Hi. apply Hno. simpl in *. lia.
    + by left.
  - assert (Hp : is_lf ((p ++ [10]) ++ (l' ++ [c]) ++ eols ++ post) (length p) = true)
      by (rewrite <- (app_assoc p); cbn [app]; by rewrite is_lf_at).
    rewrite (back_to_lf_at _ (length p)); rewrite ?Hp; rewrite ?length_app in *; simpl in *.
    + lia.
    + lia.
    + intros i Hi. apply Hno. lia.
    + by right.
Qed.

(** * The header block *)

(** Lines with their ends. *)
Definition text (lines : list (bytes * bytes)) : bytes :=
  flat_map (fun p => p.1 ++ p.2) lines.

Definition eol (e : bytes) : Prop := e = [10] \/ e = [13; 10].

Definition header_row (tokens : list bytes) (p : bytes * bytes) : Prop :=
  line_text p.1 /\ eol p.2 /\ header_start tokens p.1 = true.

(** Noise: nothing in its last line looks like a header. *)
Definition quiet (tokens : list bytes) (noise : bytes) : Prop :=
  noise = [] \/ exists before junk e,
    noise = before ++ junk ++ e /\ line_break before /\ line_text junk /\ eol e /\
    forall i, (i < length (junk ++ e))%nat -> header_start tokens (drop i (junk ++ e)) = false.

Lemma eol_Forall e : eol e -> Forall (fun c => c = 10 \/ c = 13) e.
Proof. intros [->| ->]; rewrite ?Forall_cons, Forall_nil; auto. Qed.

Lemma eol_break p e : eol e -> line_break (p ++ e).
Proof. intros [->| ->]; right; [by exists p|exists (p ++ [13])]. by rewrite <- app_assoc. Qed.

Lemma text_snoc lines l e : text (lines ++ [(l, e)]) = text lines ++ l ++ e.
Proof. unfold text. rewrite flat_map_app. simpl. by rewrite app_nil_r. Qed.

Lemma text_break tokens noise lines :
  quiet tokens noise -> Forall (header_row tokens) lines -> line_break (noise ++ text lines).
Proof.
  intros Hq Hl. destruct lines as [|[l e] lines _] using rev_ind.
  - rewrite app_nil_r. destruct Hq as [->|(b & j & e & -> & _ & _ & He & _)]; [by left|].
    rewrite app_assoc. by apply eol_break.
  - apply Forall_app in Hl as [_ [(_ & He & _) _]%Forall_cons].
    rewrite text_snoc, !app_assoc. by apply eol_break.
Qed.

(** The loop stops behind the noise. *)
Lemma strip_loop_noise fuel tokens noise post :
  Forall (fun t => 10 ∉ t) tokens -> quiet tokens noise -> noise <> [] -> (0 < fuel)%nat ->
  strip_loop fuel tokens (noise ++ post) (length noise) = Some (length noise).
Proof.
  intros Hlf [?|(b & j & e & -> & Hb & Hj & He & Hq)] Hne Hf; [done|].
  destruct fuel as [|fuel]; [lia|]. cbn [strip_loop].
  rewrite <- !app_assoc, find_line_start_at by auto using eol_Forall.
  assert (Hall : forall i, (length b <= i < length (b ++ j ++ e))%nat ->
    header_start tokens (drop i (b ++ j ++ e ++ post)) = false).
  { intros i Hi. rewrite drop_app_ge by lia. rewrite !length_app in Hi.
    specialize (Hq (i - length b)%nat ltac:(rewrite length_app; lia)).
    rewrite app_assoc, drop_app_le by (rewrite length_app; lia).
    destruct He as [->| ->]; simpl in Hi.
    - rewrite drop_app_le in Hq |- * by lia. rewrite <- app_assoc. simpl.
      by rewrite header_start_lf.
    - replace (j ++ [13; 10]) with ((j ++ [13]) ++ [10]) in * by (by rewrite <- app_assoc).
      rewrite drop_app_le in Hq |- * by (rewrite length_app; simpl; lia).
      rewrite <- app_assoc. simpl. by rewrite header_start_lf. }
  destruct Hj as (_ & c & Hc & _). apply last_Some in Hc as [j' ->].
  rewrite Hall by (rewrite !length_app; simpl; lia).
  assert (Htok : forall i t, (length b <= i < length (b ++ (j' ++ [c]) ++ e))%nat -> In t tokens ->
    strncaseeq (drop i (b ++ (j' ++ [c]) ++ e ++ post)) t (zlen t) = false).
  { intros i t Hi Ht. specialize (Hall i Hi). apply orb_false_elim in Hall as [Hall _].
    destruct (strncaseeq _ _ _) eqn:E; [|done].
    assert (has_token tokens (drop i (b ++ (j' ++ [c]) ++ e ++ post)) = true)
      by (apply existsb_exists; eauto). congruence. }
  replace (last_token _ _ _ _) with (@None nat); [done|]. symmetry. unfold last_token.
  replace (foldl _ None tokens) with (@None nat).
  - apply scan_last_None. intros i Hi1 Hi2. specialize (Hall i ltac:(lia)).
    by apply orb_false_elim in Hall as [_ ?].
  - clear Hall Hq Hlf. induction tokens as [|t tokens IH]; [done|]. simpl.
    rewrite scan_last_None; [apply IH; intros; apply Htok; simpl; auto|].
    intros i Hi1 Hi2. apply Htok; [|by left].
    destruct t as [|x t]; [|simpl in Hi2; lia].
    specialize (Htok (length b) [] ltac:(rewrite !length_app; simpl; lia) ltac:(by left)).
    done.
Qed.

Lemma strip_loop_lines fuel tokens noise lines l e post :
  Forall (fun t => 10 ∉ t) tokens -> quiet tokens noise ->
  Forall (header_row tokens) lines -> line_text l -> header_start tokens l = true ->
  Forall (fun c => c = 10 \/ c = 13) e ->
  (length (noise ++ text lines ++ l ++ e) < fuel)%nat ->
  strip_loop fuel tokens (noise ++ text lines ++ l ++ e ++ post)
    (length (noise ++ text lines ++ l ++ e)) = Some (length noise).
Proof.
  intros Hlf Hq. revert fuel l e post.
  induction lines as [|[l2 e2] lines IH] using rev_ind; intros fuel l e post Hls Hl Hs He Hf;
    (destruct fuel as [|fuel]; [lia|]); cbn [strip_loop];
    rewrite !(app_assoc noise (text _)), find_line_start_at by eauto using text_break;
    rewrite drop_app_length, (header_start_app tokens l) by done.
  - rewrite !app_nil_r in *. destruct (length noise) as [|n] eqn:E; [done|]. rewrite <- E.
    apply strip_loop_noise; [done..| |rewrite length_app in Hf; lia].
    intros ->. discriminate E.
  - apply Forall_app in Hls as [Hls Hl2]. apply Forall_cons in Hl2 as [(Hl2 & He2 & Hs2) _].
    simpl in *. rewrite text_snoc in *. rewrite <- !app_assoc in *.
    destruct (length (noise ++ text lines ++ l2 ++ e2)) as [|n] eqn:E.
    { exfalso. destruct He2 as [->| ->]; rewrite !length_app in E; simpl in E; lia. }
    rewrite <- E. apply IH; try done; [by apply eol_Forall|].
    destruct Hl as (_ & c & Hc & _). apply last_Some in Hc as [l' ->].
    rewrite !length_app in *. simpl in *. lia.
Qed.

(** C31: the search for the header always ends, and the position it
    returns lies within the output, not behind the blank line that ends the
    header. *)
Theorem strip_cgi_prefix_total on tokens buf :
  exists k, strip_cgi_prefix on tokens buf = Some k /\
    (k = O \/ exists a, find_anchor buf = Some a /\ Z.of_nat k <= a).
Proof.
  unfold strip_cgi_prefix. destruct on; simpl; [|eauto].
  destruct (find_anchor buf) as [a|] eqn:Ea; [|eauto].
  destruct (strip_loop_total (S (Z.to_nat a)) tokens buf (Z.to_nat a)) as (k & Hk & Hle); [lia|].
  exists k. split; [done|]. destruct (decide (k = O)); [by left|].
  right. exists a. split; [done|lia].
Qed.

(** When the script prints noise, then header lines and a blank
    line, exactly the noise is stripped, provided nothing in the last line of the
    noise looks like a header; in particular a header without noise is not
    touched. *)
Theorem strip_finds_header tokens noise lines rest :
  Forall (fun t => 10 ∉ t) tokens -> quiet tokens noise -> lines <> [] ->
  Forall (header_row tokens) lines ->
  find_anchor (noise ++ text lines ++ rest) = Some (zlen (noise ++ text lines) - 1) ->
  strip_cgi_prefix true tokens (noise ++ text lines ++ rest) = Some (length noise).
Proof.
  intros Hlf Hq Hne Hl Ha. unfold strip_cgi_prefix. cbn [negb]. rewrite Ha.
  destruct lines as [|[l e] lines _] using rev_ind; [done|].
  apply Forall_app in Hl as [Hl H]. apply Forall_cons in H as [(Ht & He & Hs) _].
  simpl in Ht, He, Hs. rewrite text_snoc in *. clear Ha. unfold zlen.
  assert (exists e', e = e' ++ [10] /\ Forall (fun c => c = 10 \/ c = 13) e') as (e' & -> & He').
  { destruct He as [->| ->]; [exists []|exists [13]]; rewrite ?Forall_cons, Forall_nil; auto. }
  rewrite !app_assoc, length_app, <- !app_assoc. cbn [length app].
  replace (Z.to_nat _) with (length (noise ++ text lines ++ l ++ e'))
    by lia.
  apply (strip_loop_lines _ tokens noise lines l e' (10 :: rest)); auto.
Qed.

Lemma strip_finds_header_witness :
  strip_cgi_prefix true cgi_strip_builtin
    ((bs "Warning in line 7" ++ LF)
     ++ text [(bs "X-Powered-By: PHP", CRLF); (bs "Content-Type: text/html", CRLF)]
     ++ CRLF ++ bs "<html>") = Some 18%nat.
Proof.
  apply (strip_finds_header cgi_strip_builtin (bs "Warning in line 7" ++ LF)
    [(bs "X-Powered-By: PHP", CRLF); (bs "Content-Type: text/html", CRLF)]).
  - apply (bool_decide_unpack _). vm_compute. reflexivity.
  - right. exists [], (bs "Warning in line 7"), LF. split_and!; [done|by left| |by left|].
    + split; [apply (bool_decide_unpack _); vm_compute; reflexivity|].
      exists 55. split; [reflexivity|lia].
    + intros i Hi. change (length _) with 18%nat in Hi.
      do 18 (destruct i as [|i]; [vm_compute; reflexivity|]). lia.
  - discriminate.
  - rewrite !Forall_cons, Forall_nil. split_and!; [..|done]; cbn [fst snd];
      (split_and!; [split|by right|vm_compute; reflexivity];
       [apply (bool_decide_unpack _); vm_compute; reflexivity|
        eexists; split; [reflexivity|by vm_compute]]).
  - vm_compute. reflexivity.
Defined.

(** When the header starts in the middle of a line, the search
    for extension headers overrides the token that was found, because every
    suffix of a header name that starts with a letter looks like an extension
    header: of "Content-Type" only the last letter is left. *)
Theorem strip_mangles_token :
  let buf := bs "<br>Content-Type: text/html" ++ LF ++ LF in
  strip_cgi_prefix true cgi_strip_builtin buf = Some 15%nat /\
  drop 4 buf = bs "Content-Type: text/html" ++ LF ++ LF /\
  drop 15 buf = bs "e: text/html" ++ LF ++ LF.
Proof. vm_compute. done. Qed.
