(* ===== verification/Cgi.v ===== *)
(** cgi.c: the environment of CGI scripts and the start of a script: [init_cgi] in
    the server, and [cgi_child], what its child does until it becomes the script. *)

From S2P Require Import Prelude Types Machine Buffer Util Dates Hash Response Alias.
From S2P Require Import Pointer Signals.

Definition COMMON_CGI_COUNT : Z := 7.
Definition DEFAULT_PATH : bytes := bs "/bin:/sbin:/usr/bin:/usr/sbin".
Definition DEFAULT_LD_LIBRARY_PATH : bytes := bs "/lib:/usr/lib".

(** The words of an index query, at most CGI_ARGC_MAX - 1 of them. *)
Fixpoint argv_loop (fuel : nat) (q : bytes) (aargc : Z) : list bytes :=
  match fuel with
  | O => []
  | S fuel' =>
      if aargc <? CGI_ARGC_MAX then
        let '(r, rest) :=
          match strchr q 43 with
          | Some k => (ztake k q, Some (zdrop (k + 1) q))
          | None => (q, None)
          end in
        let '(word, ok, _) := unescape_uri r in
        let more n := match rest with Some q' => argv_loop fuel' q' n | None => [] end in
        if (ok : bool) then word :: more (aargc + 1) else more aargc
      else []
  end.

Section cgi.
Context {os : OS}.

(** "key=value", or NULL when malloc fails; the prefix of [extra] bytes is filled
    in by the caller. *)
Definition env_gen_extra (key : bytes) (value : option bytes) (extra : Z) : M (option bytes) :=
  let value := default [] value in
  ok ← call (os_malloc (extra + zlen key + zlen value + 2));
  mret (if (ok : bool) then Some (key ++ [61] ++ value) else None).

Definition create_common_env : M unit :=
  g ← srv;
  ok ← call (os_malloc ((COMMON_CGI_COUNT + 1) * 8));
  if negb ok then die
  else
    e0 ← env_gen_extra (bs "PATH") (Some (default DEFAULT_PATH (cgi_path g))) 0;
    e1 ← env_gen_extra (bs "SERVER_SOFTWARE") (Some SERVER_VERSION) 0;
    e2 ← env_gen_extra (bs "SERVER_NAME") (Some (server_name g)) 0;
    e3 ← env_gen_extra (bs "GATEWAY_INTERFACE") (Some CGI_VERSION) 0;
    e4 ← env_gen_extra (bs "SERVER_PORT") (Some (simple_itoa (server_port g))) 0;
    e5 ← env_gen_extra (bs "LD_LIBRARY_PATH")
           (Some (default DEFAULT_LD_LIBRARY_PATH (cgi_ld_library_path g))) 0;
    e6 ← env_gen_extra (bs "SERVER_ADMIN") (server_admin g) 0;
    let env := [e0; e1; e2; e3; e4; e5; e6] in
    upd_srv (set_common_cgi_env (env ++ [None])) ;;
    upd_srv (set_common_cgi_env_count (zlen env)) ;;
    if negb (zlen env =? COMMON_CGI_COUNT) then die
    else if forallb (fun e => bool_decide (is_Some e)) env then mret tt else die.

Definition add_to_common_env (key value : bytes) : M unit :=
  g ← srv;
  let n := common_cgi_env_count g in
  ok ← call (os_malloc ((n + 2) * 8));
  if negb ok then die
  else
    e ← env_gen_extra key (Some value) 0;
    match e with
    | None => die
    | Some _ =>
        upd_srv (set_common_cgi_env (ztake n (common_cgi_env g) ++ [e; None])) ;;
        upd_srv (set_common_cgi_env_count (n + 1)) ;;
        if CGI_ENV_MAX <? n + 1 then die else mret tt
    end.

Definition clear_common_env : M unit :=
  g ← srv;
  env ← checked (blit (common_cgi_env g) 0
                   (replicate (Z.to_nat (COMMON_CGI_COUNT + 1)) None));
  upd_srv (set_common_cgi_env env).

(** [req->cgi_env[i] = v]. *)
Definition set_env (i : Z) (v : option bytes) : M unit :=
  r ← req;
  env ← checked (blit (cgi_env r) i [v]);
  upd (set_cgi_env env).

(** 1 for success, 0 when there is no space. *)
Definition add_cgi_env (key value : bytes) (http_prefix : bool) : M Z :=
  r ← req;
  let prefix := if http_prefix then bs "HTTP_" else [] in
  if cgi_env_index r <? CGI_ENV_MAX then
    p ← env_gen_extra key (Some value) (zlen prefix);
    match p with
    | None => mret 0
    | Some p =>
        set_env (cgi_env_index r) (Some (prefix ++ p)) ;;
        upd (set_cgi_env_index (cgi_env_index r + 1)) ;;
        mret 1
    end
  else mret 0.

(** A list of variables; the first failure ends it, as [my_add_cgi_env] does. *)
Fixpoint add_all (l : list (bytes * bytes)) : M Z :=
  match l with
  | [] => mret 1
  | (k, v) :: l' =>
      ok ← add_cgi_env k v false;
      if ok =? 0 then mret 0 else add_all l'
  end.

(** for (i = 0; common_cgi_env[i]; i++) req->cgi_env[i] = common_cgi_env[i]; *)
Fixpoint copy_common (env : list (option bytes)) (i : Z) : M unit :=
  match env with
  | Some e :: env' => set_env i (Some e) ;; copy_common env' (i + 1)
  | None :: _ => mret tt
  | [] => undef
  end.

Definition method_name (m : HTTP_METHOD) : bytes :=
  match m with
  | M_POST => bs "POST" | M_HEAD => bs "HEAD" | M_GET => bs "GET"
  | _ => bs "UNKNOWN"
  end.

(** A variable that is set when the pointer is not NULL. *)
Definition env_ptr (k : bytes) (p : ptr) : M (list (bytes * bytes)) :=
  match p with Pnull => mret [] | _ => v ← pstr p; mret [(k, v)] end.
Definition env_opt (k : bytes) (o : option bytes) : list (bytes * bytes) :=
  match o with Some v => [(k, v)] | None => [] end.

(** The variables of the request, in the order of the code. *)
Definition request_env : M (list (bytes * bytes)) :=
  r ← req; g ← srv;
  u ← uri;
  hh ← env_ptr (bs "HTTP_HOST") (header_host r);
  qs ← env_ptr (bs "QUERY_STRING") (query_string r);
  post ← (if bool_decide (method r = M_POST) then
            ct ← env_ptr (bs "CONTENT_TYPE") (content_type r);
            cl ← env_ptr (bs "CONTENT_LENGTH") (content_length r);
            mret ((match ct with [] => [(bs "CONTENT_TYPE", default_type g)] | _ => ct end)
                  ++ cl)
          else mret []);
  mret ([(bs "REQUEST_METHOD", method_name (method r))] ++ hh
        ++ [(bs "SERVER_ADDR", local_ip_addr r);
            (bs "SERVER_PROTOCOL", http_ver_string (http_version r));
            (bs "REQUEST_URI", u)]
        ++ env_opt (bs "PATH_INFO") (path_info r)
        ++ env_opt (bs "PATH_TRANSLATED") (path_translated r)
        ++ [(bs "SCRIPT_NAME", default [] (script_name r))]
        ++ qs
        ++ [(bs "REMOTE_ADDR", remote_ip_addr r);
            (bs "REMOTE_PORT", simple_itoa (remote_port r))]
        ++ post).

Definition complete_env : M Z :=
  g ← srv;
  copy_common (common_cgi_env g) 0 ;;
  env ← request_env;
  ok ← add_all env;
  if ok =? 0 then mret 0
  else
    r ← req;
    if cgi_env_index r <? CGI_ENV_MAX + 1 then
      set_env (cgi_env_index r) None ;; mret 1
    else mret 0.

(** The argument vector of the script (in the child). *)
Definition create_argv : M (list bytes) :=
  r ← req;
  path ← checked (pathname r);
  match query_string r with
  | Pnull => mret [path]
  | p =>
      q ← pstr p;
      match strchr q 61 with
      | Some _ => mret [path]
      | None =>
          ok ← call (os_malloc (zlen q + 1));
          if negb ok then die else mret (path :: argv_loop (S (length q)) q 1)
      end
  end.

(** The last character of [req->pathname] is '/'. *)
Definition path_is_dir : M bool :=
  r ← req;
  path ← checked (pathname r);
  c ← checked (zget path (zlen path - 1));
  mret (c =? 47).

(** What the child executes; without [envp] it passes its own environment on. *)
Record exec_call := Exec {
  exec_path : bytes; exec_argv : list bytes; exec_envp : option (list (option bytes))
}.

(** A call of the child that must not fail. *)
Definition must (c : boot_call) : M unit :=
  ok ← call (os_boot c); if ok =? -1 then die else mret tt.

(** The child goes to the directory of the script. *)
Definition enter_directory : M unit :=
  r ← req;
  path ← checked (pathname r);
  match strrchr path 47 with
  | None => die
  | Some c =>
      ok ← call (os_chdir (ztake c path));
      match ok with
      | SErr _ => die
      | SOk _ =>
          let name := zdrop (c + 1) path in
          ok ← call (os_malloc (zlen name + 3));
          if negb ok then die else upd (set_pathname (Some (bs "./" ++ name)))
      end
  end.

(** The descriptors of the script: 1 is the pipe or the client, 0 the body of a
    POST, 2 the CGI log. *)
Definition tie_stdout (pipes : option (Z * Z)) : M unit :=
  match pipes with
  | Some (p0, p1) => call_ (os_close p0) ;; must (Dup2 p1 1) ;; call_ (os_close p1)
  | None => r ← req; must (Dup2 (fd r) 1) ;; call_ (os_close (fd r))
  end.

Definition tie_stdin : M unit :=
  r ← req;
  if bool_decide (method r = M_POST) then
    call (os_lseek (post_data_fd r) 0) ;;
    call (os_boot (Dup2 (post_data_fd r) 0)) ;;
    call_ (os_close (post_data_fd r))
  else mret tt.

Definition tie_stderr : M unit :=
  g ← srv;
  if cgi_log_fd g =? 0 then mret tt else call (os_boot (Dup2 (cgi_log_fd g) 2)) ;; mret tt.

Definition cgi_exec : M exec_call :=
  r ← req;
  path ← checked (pathname r);
  if bool_decide (cgi_type r = CGI_none) then
    dir ← path_is_dir;
    if (dir : bool) then
      g ← srv;
      d ← checked (dirmaker g);
      u ← pstr (Puri 0);
      mret (Exec d [d; path; u] None)
    else mret (Exec os_gunzip [os_gunzip; bs "--stdout"; bs "--decompress"; path] None)
  else
    argv ← create_argv;
    mret (Exec path argv (Some (cgi_env r))).

(** The child of [init_cgi]; the result is what it executes. *)
Definition cgi_child (pipes : option (Z * Z)) : M exec_call :=
  reset_signals ;;
  r ← req;
  (if bool_decide (cgi_type r = CGI) || bool_decide (cgi_type r = NPH)
   then enter_directory else mret tt) ;;
  tie_stdout pipes ;;
  must (Block 1) ;;
  tie_stdin ;;
  g ← srv;
  call (os_boot (Umask (cgi_umask g))) ;;
  tie_stderr ;;
  cgi_exec.

(** The parent after fork; [pipes]: the script writes into a pipe. *)
Definition init_cgi_parent (pipes : option (Z * Z)) : M Z :=
  r ← req;
  (if bool_decide (method r = M_POST) then
     call_ (os_close (post_data_fd r)) ;; upd (set_post_data_fd 0)
   else mret tt) ;;
  match pipes with
  | None => mret 0
  | Some (p0, p1) =>
      call_ (os_close p1) ;;
      upd (set_data_fd p0) ;;
      upd (set_status PIPE_READ) ;;
      (if bool_decide (cgi_type r = CGI) then
         upd (set_cgi_status CGI_PARSE) ;;
         upd (set_header_end (Pbuf (BUFFER_SIZE / 2))) ;;
         upd (set_header_line (Pbuf (BUFFER_SIZE / 2)))
       else
         upd (set_cgi_status CGI_BUFFER) ;;
         upd (set_header_end (Pbuf 0)) ;;
         upd (set_header_line (Pbuf 0))) ;;
      upd (set_filepos 0) ;;
      mret 1
  end.

(** The pipe, when the script needs one; [None]: an error. *)
Definition cgi_pipes (use_pipes : bool) : M (option (option (Z * Z))) :=
  if negb use_pipes then mret (Some None)
  else
    p ← call os_pipe;
    match p with
    | SErr _ => mret None
    | SOk (p0, p1) =>
        ok ← call (os_nonblock p0);
        if (ok : bool) then mret (Some (Some (p0, p1)))
        else call_ (os_close p0) ;; call_ (os_close p1) ;; mret None
    end.

(** 0: error or NPH, either way the socket is closed; 1: success. *)
Definition init_cgi : M Z :=
  SQUASH_KA ;;
  r ← req;
  ok ← (if bool_decide (cgi_type r = CGI_none) then mret 1 else complete_env);
  if ok =? 0 then mret 0
  else
    use_pipes ←
      (if bool_decide (cgi_type r = CGI) then mret true
       else if bool_decide (cgi_type r = CGI_none) then path_is_dir
       else mret false);
    ps ← cgi_pipes use_pipes;
    match ps with
    | None => mret 0
    | Some pipes =>
        child_pid ← call os_fork;
        match child_pid with
        | SErr _ =>
            boa_perror ;;
            (match pipes with
             | Some (p0, p1) => call_ (os_close p0) ;; call_ (os_close p1)
             | None => mret tt
             end) ;;
            mret 0
        | SOk pid => if pid =? 0 then cgi_child pipes ;; die else init_cgi_parent pipes
        end
    end.
End cgi.
