(* ===== verification/Pipe.v ===== *)
(** pipe.c: data from a CGI pipe or from a large file to the client. *)

From S2P Require Import Prelude Types Machine Buffer Util Dates Hash Response Pointer.
From S2P Require Import CgiHeader.

Section pipe.
Context {os : OS}.

(** -1: blocked, 0: EOF or error, 1: successful write. *)
Definition write_from_pipe : M Z :=
  r ← req;
  d ← pdiff (header_end r) (header_line r);
  let bytes_to_write := u64 d in
  let restart : M unit :=
    upd (set_status PIPE_READ) ;;
    upd (set_header_line (Pbuf 0)) ;;
    upd (set_header_end (Pbuf 0)) in
  if bytes_to_write =? 0 then
    if bool_decide (cgi_status r = CGI_DONE) then mret 0
    else restart ;; mret 1
  else
    l ← pload (header_line r) bytes_to_write;
    res ← call (os_write (fd r) l);
    match res with
    | SErr EAGAIN => mret (-1)
    | SErr EINTR => mret 1
    | SErr _ => upd (set_status DEAD) ;; mret 0
    | SOk n =>
        upd (set_header_line (padd (header_line r) n)) ;;
        upd (set_bytes_written (u64 (bytes_written r + n))) ;;
        (if n =? bytes_to_write then restart else mret tt) ;;
        mret 1
    end.

(** -1: blocked, 0: EOF or error, 1: successful read. *)
Definition read_from_pipe : M Z :=
  r ← req;
  ofs ← pdiff (header_end r) (Pbuf 0);
  let bytes_to_read := u32 (BUFFER_SIZE - (ofs - 1)) in
  if bytes_to_read =? 0 then
    if bool_decide (cgi_status r = CGI_PARSE) then
      upd (set_cgi_status CGI_BUFFER) ;;
      pstore (header_end r) [0] ;;
      process_cgi_header
    else upd (set_status PIPE_WRITE) ;; mret 1
  else
    res ← call (os_read (data_fd r) bytes_to_read);
    match res with
    | SErr EINTR => mret 1
    | SErr EAGAIN => mret (-1)
    | SErr _ => upd (set_status DEAD) ;; mret 0
    | SOk l =>
        let bytes_read := zlen l in
        pstore (header_end r) l ;;
        pstore (padd (header_end r) bytes_read) [0] ;;
        if bytes_read =? 0 then
          upd (set_status PIPE_WRITE) ;;
          if bool_decide (cgi_status r = CGI_PARSE) then
            upd (set_cgi_status CGI_DONE) ;;
            pstore (header_end r) [0] ;;
            process_cgi_header
          else upd (set_cgi_status CGI_DONE) ;; mret 1
        else
          upd (set_header_end (padd (header_end r) bytes_read)) ;;
          if negb (bool_decide (cgi_status r = CGI_PARSE)) then write_from_pipe
          else
            buf ← pstr (header_line r);
            match strstr buf [10; 13; 10], strstr buf [10; 10] with
            | None, None => mret 1
            | _, _ =>
                upd (set_cgi_status CGI_DONE) ;;
                pstore (padd (header_end r) bytes_read) [0] ;;
                process_cgi_header
            end
    end.

(** [req->ranges->start = v]. *)
Definition set_first_start (v : Z) : M unit :=
  r ← req;
  match ranges r with
  | rg :: l => upd (set_ranges (mkRange v (stop rg) :: l))
  | [] => undef
  end.

(** The call of sendfile, repeated when it is interrupted; [None]: the request
    failed. *)
Fixpoint sendfile_retry (fuel : nat) (bytes_to_write : Z) : M (option (sys Z)) :=
  match fuel with
  | O => undef
  | S fuel' =>
      if bytes_to_write =? 0 then mret (Some (SOk 0))
      else
        r ← req;
        rg ← first_range;
        let sendfile_offset := i64 (start rg) in
        if sendfile_offset <? 0 then upd (set_status DEAD) ;; mret None
        else
          '(res, sendfile_offset) ←
            call (fun w => let '(res, ofs, w') :=
                             os_sendfile (fd r) (data_fd r) sendfile_offset bytes_to_write w in
                           ((res, ofs), w'));
          if sendfile_offset <? 0 then upd (set_status DEAD) ;; mret None
          else
            set_first_start (u64 sendfile_offset) ;;
            match res with
            | SErr EINTR => sendfile_retry fuel' bytes_to_write
            | res => mret (Some res)
            end
  end.

(** One more call than there are signals that can interrupt it. *)
Definition signal_fuel : M nat := ask (fun w => S (os_signals w)).

Definition io_shuffle_sendfile : M Z :=
  r ← req; g ← srv;
  if bool_decide (method r = M_HEAD) then complete_response
  else
    rg ← first_range;
    let bytes_to_write := u64 (u64 (stop rg - start rg) + 1) in
    let bytes_to_write :=
      if system_bufsize g <? bytes_to_write then system_bufsize g else bytes_to_write in
    fuel ← signal_fuel;
    res ← sendfile_retry fuel bytes_to_write;
    match res with
    | None => mret 0
    | Some (SErr EAGAIN) => mret (-1)
    | Some (SErr _) => upd (set_status DEAD) ;; mret 0
    | Some (SOk n) =>
        let bytes_written' := i32 n in
        if negb (bytes_to_write =? 0) && (bytes_written' =? 0) then mret (-1)
        else
          r ← req;
          upd (set_bytes_written (u64 (bytes_written r + bytes_written'))) ;;
          rg ← first_range;
          if u64 (stop rg + 1) <=? start rg then complete_response else mret 1
    end.

(** read and write, repeated when interrupted. *)
Fixpoint read_retry (fuel : nat) (fd n : Z) : M (sys bytes) :=
  match fuel with
  | O => undef
  | S fuel' =>
      res ← call (os_read fd n);
      match res with SErr EINTR => read_retry fuel' fd n | res => mret res end
  end.
Fixpoint write_retry (fuel : nat) (fd : Z) (l : bytes) : M (sys Z) :=
  match fuel with
  | O => undef
  | S fuel' =>
      res ← call (os_write fd l);
      match res with SErr EINTR => write_retry fuel' fd l | res => mret res end
  end.

(** What [io_shuffle] does after it has read. *)
Definition shuffle_write : M Z :=
  r ← req;
  let bytes_to_write := buffer_end r - buffer_start r in
  if bytes_to_write =? 0 then
    if data_fd r =? 0 then mret 0
    else upd (set_buffer_start 0) ;; upd (set_buffer_end 0) ;; mret 1
  else
    l ← load (buffer r) (buffer_start r) bytes_to_write;
    fuel ← signal_fuel;
    res ← write_retry fuel (fd r) l;
    match res with
    | SErr EAGAIN => mret (-1)
    | SErr _ => upd (set_status DEAD) ;; mret 0
    | SOk n =>
        upd (set_buffer_start (buffer_start r + n)) ;;
        upd (set_bytes_written (u64 (bytes_written r + n))) ;;
        (if bytes_to_write =? n then upd (set_buffer_start 0) ;; upd (set_buffer_end 0)
         else mret tt) ;;
        mret 1
    end.

(** Used where there is no sendfile. *)
Definition io_shuffle : M Z :=
  r ← req;
  if bool_decide (method r = M_HEAD) then complete_response
  else
    rg ← first_range;
    let bytes_to_read := BUFFER_SIZE - buffer_end r - 256 in
    let bytes_to_write := i32 (u64 (stop rg - start rg) + 1) in
    let bytes_to_read := if bytes_to_write <? bytes_to_read then bytes_to_write
                         else bytes_to_read in
    if (0 <? bytes_to_read) && negb (data_fd r =? 0) then
      ok ← call (os_lseek (data_fd r) (i64 (start rg)));
      if negb ok then upd (set_status DEAD) ;; mret 0
      else
        fuel ← signal_fuel;
        res ← read_retry fuel (data_fd r) bytes_to_read;
        match res with
        | SErr EAGAIN =>
            if buffer_end r - buffer_start r =? 0 then mret (-1) else shuffle_write
        | SErr _ => upd (set_status DEAD) ;; mret 0
        | SOk [] =>
            call_ (os_close (data_fd r)) ;;
            upd (set_data_fd 0) ;;
            shuffle_write
        | SOk l =>
            buffer_write (buffer_end r) l ;;
            upd (set_buffer_end (buffer_end r + zlen l)) ;;
            set_first_start (u64 (start rg + zlen l)) ;;
            if u64 (stop rg + 1 - u64 (start rg + zlen l)) =? 0 then complete_response
            else shuffle_write
        end
    else shuffle_write.
End pipe.
