(* ===== verification/Get.v ===== *)
(** get.c: GET and HEAD for files and directories.  The file is mapped when it is
    small, and otherwise sent with sendfile. *)

From S2P Require Import Prelude Types Machine Buffer Util Dates Hash Response Range.
From S2P Require Import Access Mmap.
From S2P Require Import Alias Pointer Log Cgi Pipe.

Section get.
Context {os : OS}.

(** [req->pathname], which must not be NULL. *)
Definition path_of : M bytes := r ← req; checked (pathname r).

(** [memcpy (req->request_uri, s, strlen (s) + 1)]. *)
Definition copy_uri (s : bytes) : M unit :=
  r ← req;
  a ← checked (blit (request_uri r) 0 (s ++ [0]));
  upd (set_request_uri a).

(** A page is sent, the request ends. *)
Definition fail_with (m : M unit) : M Z := m ;; mret 0.

(** * process_get *)

Definition process_get : M Z :=
  r ← req; g ← srv;
  if bool_decide (method r = M_HEAD) then complete_response
  else
    rg ← first_range;
    let n := u32 (u64 (stop rg - start rg) + 1) in
    let bytes_to_write := if system_bufsize g <? n then system_bufsize g else n in
    bus ← call os_sigbus;
    if (bus : bool) then upd (set_status DEAD) ;; mret 0
    else
      mem ← checked (data_mem r);
      l ← load mem (start rg) bytes_to_write;
      res ← call (os_write (fd r) l);
      match res with
      | SErr EAGAIN => mret (-1)
      | SErr _ => upd (set_status DEAD) ;; mret 0
      | SOk n =>
          upd (set_bytes_written (u64 (bytes_written r + n))) ;;
          set_first_start (u64 (start rg + n)) ;;
          if u64 (stop rg + 1 - u64 (start rg + n)) =? 0 then complete_response
          else mret 1
      end.

(** * Directories *)

(** The page that [index_directory] writes. *)
Definition index_entry (tab : list Z) (name : bytes) : bytes :=
  if streq name (bs ".") then []
  else if streq name (bs "..") then
    bs " [DIR] <A HREF=" ++ DQ ++ bs "../" ++ DQ ++ bs ">Parent Directory</A>" ++ LF
  else bs " <A HREF=" ++ DQ ++ Escape.escape_bytes tab name ++ DQ ++ bs ">" ++ name
       ++ bs "</A>" ++ LF.

Definition index_page (tab : list Z) (u : bytes) (names : list bytes) : bytes :=
  bs "<HTML><HEAD>" ++ LF ++ bs "<TITLE>Index of " ++ u ++ bs "</TITLE>" ++ LF
  ++ bs "</HEAD>" ++ LF ++ LF
  ++ bs "<BODY>" ++ LF ++ LF ++ bs "<H2>Index of " ++ u ++ bs "</H2>" ++ LF ++ LF
  ++ bs "<PRE>" ++ LF
  ++ flat_map (index_entry tab) names
  ++ bs "</PRE>" ++ LF ++ LF ++ bs "</BODY>" ++ LF ++ bs "</HTML>" ++ LF.

(** An entry for which escape_string cannot allocate is left out. *)
Fixpoint listed (names : list bytes) : M (list bytes) :=
  match names with
  | [] => mret []
  | name :: names' =>
      keep ← (if streq name (bs ".") || streq name (bs "..") then mret true
              else e ← escape_string name false; mret (bool_decide (is_Some e)));
      l ← listed names';
      mret (if (keep : bool) then name :: l else l)
  end.

(** -1 for problem, else 0. *)
Definition index_directory (dest_filename : bytes) : M Z :=
  path ← path_of;
  g ← srv;
  cd ← call (os_chdir path);
  match cd with
  | SErr EACCES | SErr EPERM => send_r_forbidden ;; mret (-1)
  | SErr _ => send_r_bad_request ;; mret (-1)
  | SOk _ =>
      dir ← call (os_readdir (bs "."));
      match dir with
      | None => send_r_error ;; mret (-1)
      | Some names =>
          names ← listed names;
          u ← uri;
          let page := index_page (needs_escape_tab g) u names in
          ok ← call (os_create dest_filename page);
          if negb ok then boa_perror ;; mret (-1)
          else
            root ← checked (server_root g);
            call (os_chdir root) ;;
            upd (set_filesize (zlen page)) ;;
            mret 0
      end
  end.

Definition set_st_mtime (t : Z) (s : stat) : stat :=
  mkStat (st_mode s) (st_size s) t (st_dev s) (st_ino s).

(** The cached index of a directory: descriptor (or -1) and its attributes. *)
Definition get_cachedir_file (cdir : bytes) (statbuf : stat) : M (Z * stat) :=
  g ← srv;
  let real_dir_mtime := st_mtime statbuf in
  let name := ztake (MAX_PATH_LENGTH - 1)
    (cdir ++ bs "/dir." ++ print_long (i32 (st_dev statbuf)) ++ bs "."
     ++ print_long (i64 (st_ino statbuf))) in
  res ← call (os_open name);
  fresh ← (match res with
           | SErr _ => mret None
           | SOk data_fd =>
               st ← call (os_fstat data_fd);
               if real_dir_mtime <? st_mtime st then mret (Some (data_fd, st))
               else
                 call_ (os_close data_fd) ;;
                 call (os_unlink name) ;;
                 mret None
           end);
  match fresh with
  | Some (data_fd, st) =>
      di ← checked (directory_index g);
      copy_uri di ;;
      mret (data_fd, set_st_mtime real_dir_mtime st)
  | None =>
      made ← index_directory name;
      if made =? -1 then mret (-1, statbuf)
      else
        res ← call (os_open name);
        match res with
        | SErr _ => boa_perror ;; mret (-1, statbuf)
        | SOk data_fd =>
            di ← checked (directory_index g);
            copy_uri di ;;
            st ← call (os_fstat data_fd);
            mret (data_fd, set_st_mtime real_dir_mtime st)
        end
  end.

(** The header of a response that another program continues. *)
Definition gunzip_headers (m : M unit) : M unit :=
  unless_http09 (put_status (bs " 200 OK-GUNZIP" ++ CRLF) ;; print_http_headers ;; m ;; flush_).

(** HEAD is done with the header; otherwise the program is started. *)
Definition run_unless_head : M Z :=
  r ← req; if bool_decide (method r = M_HEAD) then mret 0 else init_cgi.

(** The index page of a directory is generated, by a program or into a cache. *)
Definition make_index (statbuf : stat) : M (Z * stat) :=
  g ← srv;
  match dirmaker g, cachedir g with
  | Some _, _ =>
      upd (set_response_status R_REQUEST_OK) ;;
      SQUASH_KA ;;
      unless_http09
        (put_status (bs " 200 OK" ++ CRLF) ;;
         print_http_headers ;;
         print_last_modified ;;
         put (bs "Content-Type: text/html" ++ CRLF ++ CRLF) ;;
         flush_) ;;
      x ← run_unless_head; mret (x, statbuf)
  | None, Some cdir => get_cachedir_file cdir statbuf
  | None, None => send_r_forbidden ;; mret (-1, statbuf)
  end.

(** -1: error; 0, 1: result of a program; otherwise a descriptor.  The attributes
    are those of the file. *)
Definition get_dir (statbuf : stat) : M (Z * stat) :=
  g ← srv;
  path ← path_of;
  match directory_index g with
  | None => make_index statbuf
  | Some di =>
      if MAX_PATH_LENGTH <? u32 (zlen path + zlen di + 3 + 1) then
        boa_perror ;; mret (-1, statbuf)
      else
        let name := path ++ di in
        res ← call (os_open name);
        match res with
        | SOk data_fd =>
            copy_uri di ;;
            st ← call (os_fstat data_fd);
            mret (data_fd, st)
        | SErr EACCES => send_r_forbidden ;; mret (-1, statbuf)
        | SErr ENOENT =>
            let gz := name ++ bs ".gz" in
            res ← call (os_open gz);
            match res with
            | SErr _ => make_index statbuf
            | SOk data_fd =>
                call_ (os_close data_fd) ;;
                upd (set_response_status R_REQUEST_OK) ;;
                SQUASH_KA ;;
                ok ← strdup_to set_pathname gz;
                if negb ok then mret (0, statbuf)
                else
                  gunzip_headers
                    (print_last_modified ;;
                     put (bs "Content-Type: ") ;;
                     mime ← get_mime_type di;
                     put mime ;;
                     put (CRLF ++ CRLF)) ;;
                  x ← run_unless_head; mret (x, statbuf)
            end
        | SErr _ => send_r_not_found ;; mret (-1, statbuf)
        end
  end.

(** The URI of a directory lacks its final '/'. *)
Definition redirect_directory : M Z :=
  r ← req; g ← srv;
  u ← uri;
  let size := 3 * MAX_PATH_LENGTH + 128 in
  let host := default (server_name g) (host r) in
  let finish (need : Z) (url : bytes) : M Z :=
    if size <? u32 need then fail_with boa_perror
    else if size <? zlen url + 1 then undef
    else fail_with (send_r_moved_perm url) in
  if negb (server_port g =? 80) then
    let port := simple_itoa (server_port g) in
    ok ← call (os_malloc (zlen port + 1));
    if negb ok then fail_with boa_perror
    else finish (7 + zlen host + 1 + zlen port + zlen u + 1)
           (bs "http://" ++ host ++ bs ":" ++ port ++ u ++ bs "/")
  else finish (7 + zlen host + zlen u + 1) (bs "http://" ++ host ++ u ++ bs "/").

(** * init_get *)

(** The default range is the whole file. *)
Definition whole_file : M bool :=
  range_pool_pop ;;
  upd (set_ranges [mkRange 0 (u64 (-1))]) ;;
  ok ← ranges_fixup;
  if ok =? 0 then mret false else send_r_request_ok ;; mret true.

(** How much of the mapped file goes into the buffer right away. *)
Definition init_get_fill : M Z :=
  r ← req;
  match data_mem r with
  | None => mret 1
  | Some mem =>
      let bytes_free := u32 (BUFFER_SIZE - buffer_end r) in
      if 256 <? bytes_free then
        rg ← first_range;
        let want := u32 (u64 (stop rg - start rg) + 1) in
        let bytes_free := if want <? bytes_free then want else bytes_free in
        bus ← call os_sigbus;
        if (bus : bool) then reset_output_buffer ;; fail_with send_r_error
        else
          l ← load mem (start rg) bytes_free;
          buffer_write (buffer_end r) l ;;
          upd (set_buffer_end (buffer_end r + bytes_free)) ;;
          upd (set_bytes_written (u64 (bytes_written r + bytes_free))) ;;
          set_first_start (u64 (start rg + bytes_free)) ;;
          if bytes_free =? want then complete_response else mret 1
      else mret 1
  end.

(** The file is there: choose how to send it, send the header. *)
Definition init_get_send (data_fd : Z) (statbuf : stat) : M Z :=
  r ← req;
  (if MAX_FILE_MMAP <? filesize r then
     upd (set_data_fd data_fd) ;; upd (set_status IOSHUFFLE)
   else
     e ← find_mmap data_fd statbuf;
     upd (set_mmap_entry_var e) ;;
     match e with
     | None => upd (set_data_fd data_fd) ;; upd (set_status IOSHUFFLE)
     | Some i =>
         e ← entry i;
         upd (set_data_mem (Some (mmap e))) ;;
         call_ (os_close data_fd)
     end) ;;
  r ← req;
  ok ← (match ranges r with
        | [] => whole_file
        | _ => send_r_partial_content ;; mret true
        end);
  if negb ok then mret 0
  else if bool_decide (method r = M_HEAD) then complete_response
  else init_get_fill.

(** A file that is sent: its size and the ranges. *)
Definition init_get_changed (data_fd : Z) (statbuf : stat) : M Z :=
  let close_with (m : M unit) : M Z := m ;; call_ (os_close data_fd) ;; mret 0 in
  upd (set_filesize (u64 (st_size statbuf))) ;;
  upd (set_last_modified (st_mtime statbuf)) ;;
  upd (set_header_ifrange Pnull) ;;
  r ← req;
  if filesize r =? 0 then
    if http_version_num (http_version r) <? http_version_num HTTP11
    then close_with send_r_request_ok else close_with send_r_no_content
  else
    ok ← (match ranges r with [] => mret 1 | _ => ranges_fixup end);
    if ok =? 0 then close_with (mret tt)
    else init_get_send data_fd statbuf.

(** The checks on a regular file, whose date may not have changed. *)
Definition init_get_file (data_fd : Z) (statbuf : stat) : M Z :=
  let close_with (m : M unit) : M Z := m ;; call_ (os_close data_fd) ;; mret 0 in
  r ← req;
  if negb (bool_decide (st_mode statbuf = S_REG)) then close_with send_r_bad_request
  else
    modified ←
      (match if_modified_since r with
       | Pnull => mret 1
       | p => s ← pstr p; checked (modified_since (st_mtime statbuf) s)
       end);
    if modified =? 0 then close_with send_r_not_modified
    else init_get_changed data_fd statbuf.

(** A file that does not exist may exist as .gz: [Some] is the result. *)
Definition try_gunzip (path : bytes) : M (option Z) :=
  if MAX_PATH_LENGTH <? u32 (zlen path + 4) then
    send_r_bad_request ;; mret (Some 0)
  else
    res ← call (os_open (path ++ bs ".gz"));
    match res with
    | SErr _ => mret None
    | SOk data_fd =>
        call_ (os_close data_fd) ;;
        upd (set_response_status R_REQUEST_OK) ;;
        ok ← strdup_to set_pathname (path ++ bs ".gz");
        if negb ok then mret (Some 0)
        else
          gunzip_headers (print_content_type ;; print_last_modified ;; put CRLF) ;;
          x ← run_unless_head; mret (Some x)
    end.

Definition open_failed (e : errno) : M Z :=
  match e with
  | ENOENT => fail_with send_r_not_found
  | EACCES => fail_with send_r_forbidden
  | _ => fail_with send_r_bad_request
  end.

(** 0: finished or error; 1: successfully initialized. *)
Definition init_get : M Z :=
  path ← path_of;
  res ← call (os_open path);
  match res with
  | SErr e =>
      gz ← (if bool_decide (e = ENOENT) then try_gunzip path else mret None);
      match gz with Some x => mret x | None => open_failed e end
  | SOk data_fd =>
      access ← access_allow path;
      match access with
      | ACCESS_DENY => fail_with send_r_forbidden
      | ACCESS_ALLOW =>
          statbuf ← call (os_fstat data_fd);
          if bool_decide (st_mode statbuf = S_DIR) then
            call_ (os_close data_fd) ;;
            c ← checked (zget path (zlen path - 1));
            if negb (c =? 47) then redirect_directory
            else
              '(data_fd, statbuf) ← get_dir statbuf;
              if data_fd <? 0 then mret 0
              else if (data_fd =? 0) || (data_fd =? 1) then mret data_fd
              else init_get_file data_fd statbuf
          else init_get_file data_fd statbuf
      end
  end.
End get.
