(* ===== verification/Parse.v ===== *)
(** The parsing functions of request.c: the request line, the header lines and
    the checks at the end of the header.  They work in place on [client_stream]
    and [request_uri]. *)

From S2P Require Import Prelude Types Machine Buffer Util Dates Hash Response Range.
From S2P Require Import Access.
From S2P Require Import Alias Pointer Cgi Get.

(** ["HTTP/%u.%u"] of sscanf: an unsigned number, read by strtoul, which gives ULONG_MAX
    for a number that is too large, with or without a minus sign. *)
Definition scan_uint (s : bytes) : option (Z * bytes) :=
  match skip_spaces s with
  | c :: s' =>
      let clamp v := Z.min v ULONG_MAX in
      if c =? 45 then
        '(v, r) ← scan_digits s'; Some (u32 (if ULONG_MAX <? v then ULONG_MAX else - v), r)
      else if c =? 43 then '(v, r) ← scan_digits s'; Some (u32 (clamp v), r)
      else '(v, r) ← scan_digits (c :: s'); Some (u32 (clamp v), r)
  | [] => None
  end.

Definition scan_version (s : bytes) : option (Z * Z) :=
  if is_prefix (bs "HTTP/") s then
    '(p1, s1) ← scan_uint (zdrop 5 s);
    match s1 with
    | c :: s2 => if c =? 46 then '(p2, _) ← scan_uint s2; Some (p1, p2) else None
    | [] => None
    end
  else None.

(** The version at the end of the request line, without leading blanks; [None]:
    a bogus one. *)
Definition http_version_of (s : bytes) : option HTTP_VERSION :=
  match s with
  | [] => Some HTTP09
  | _ =>
      match scan_version s with
      | Some (p1, p2) =>
          if (p1 =? 0) && (p2 =? 9) then Some HTTP09
          else if (p1 =? 1) && (p2 =? 0) then Some HTTP10
          else if (p1 =? 1) && (p2 =? 1) then Some HTTP11
          else None
      | None => None
      end
  end.

Fixpoint skip_blanks (s : bytes) : bytes :=
  match s with
  | c :: s' => if c =? 32 then skip_blanks s' else s
  | [] => []
  end.

(** The characters up to the first one of [stops]. *)
Fixpoint span_until (stops : list Z) (s : bytes) : bytes :=
  match s with
  | c :: s' => if existsb (Z.eqb c) stops then [] else c :: span_until stops s'
  | [] => []
  end.

(** The method and the offset behind its name. *)
Definition parse_method (line : bytes) : option (HTTP_METHOD * Z) :=
  if is_prefix (bs "GET ") line then Some (M_GET, 3)
  else if is_prefix (bs "HEAD ") line then Some (M_HEAD, 4)
  else if is_prefix (bs "POST ") line then Some (M_POST, 4)
  else None.

Section parse.
Context {os : OS}.

(** "http://host/path": the host goes to [header_host], the rest is the URI.
    [word] is the word at offset [stop] of the line. *)
Definition absolute_uri (stop : Z) (word : bytes) : M bool :=
  let host := zdrop 7 word in
  let name := span_until [47] host in
  match host with
  | [] => send_r_bad_request ;; mret false
  | c :: _ =>
      if c =? 47 then send_r_bad_request ;; mret false
      else if zlen name =? zlen host then send_r_bad_request ;; mret false
      else
        copy_uri (zdrop (zlen name) host) ;;
        pstore (Pstream (stop + 7 + zlen name)) [0] ;;
        upd (set_header_host (Pstream (stop + 7))) ;;
        mret true
  end.

(** The end of [process_logline]: the version. *)
Definition logline_version (s : bytes) : M Z :=
  match http_version_of (skip_blanks s) with
  | None => send_r_bad_request ;; mret 0
  | Some v =>
      upd (set_http_version v) ;;
      (if bool_decide (v = HTTP11) then upd (set_keepalive KA_ACTIVE) else mret tt) ;;
      r ← req; g ← srv;
      if bool_decide (method r = M_HEAD) && bool_decide (http_version r = HTTP09) then
        send_r_bad_request ;; mret 0
      else
        upd (set_cgi_env_index (common_cgi_env_count g)) ;; mret 1
  end.

Definition process_logline : M Z :=
  upd (set_logline (Pstream 0)) ;;
  line ← pstr (Pstream 0);
  if zlen line <? 5 then send_r_bad_request ;; mret 0
  else
    match parse_method line with
    | None => send_r_not_implemented ;; mret 0
    | Some (m, k) =>
        upd (set_method m) ;;
        upd (set_http_version HTTP10) ;;
        let rest := skip_blanks (zdrop (k + 1) line) in
        let stop := zlen line - zlen rest in
        let word := span_until [32] rest in
        if MAX_HEADER_LENGTH <? zlen word then send_r_bad_request ;; mret 0
        else
          ok ← (if is_prefix (SERVER_METHOD ++ bs "://") word then absolute_uri stop word
                else copy_uri word ;; mret true);
          if negb ok then mret 0 else logline_version (zdrop (zlen word) rest)
    end.

(** * process_option_line *)

(** What is done with the header [name] whose value is the string [v] at
    [value]; [None]: the header goes to the environment of scripts. *)
Definition known_option (name : bytes) (value : ptr) (v : bytes) : M (option Z) :=
  r ← req; g ← srv;
  let unset (p : ptr) := bool_decide (p = Pnull) in
  let store (set : ptr -> request -> request) : M (option Z) :=
    upd (set value) ;; mret (Some 1) in
  if streq name (bs "ACCEPT") then mret (Some 1)
  else if streq name (bs "CONTENT_TYPE") && unset (content_type r) then store set_content_type
  else if streq name (bs "CONTENT_LENGTH") && unset (content_length r) then
    store set_content_length
  else if streq name (bs "CONNECTION") && negb (ka_max g =? 0)
          && negb (bool_decide (keepalive r = KA_STOPPED)) then
    upd (set_keepalive (if strncaseeq v (bs "Keep-Alive") 10 then KA_ACTIVE else KA_STOPPED)) ;;
    mret (Some 1)
  else if streq name (bs "HOST") && unset (header_host r) then store set_header_host
  else if streq name (bs "IF_MODIFIED_SINCE") && unset (if_modified_since r) then
    store set_if_modified_since
  else if streq name (bs "REFERER") then
    upd (set_header_referer value) ;;
    ok ← add_cgi_env (bs "REFERER") v true;
    mret (if ok =? 0 then Some 0 else None)
  else if streq name (bs "RANGE") then
    if bool_decide (stop <$> head (ranges r) = Some INT_MAX) then mret (Some 1)
    else
      ok ← range_parse v;
      if ok =? 0 then send_r_invalid_range ;; mret (Some 0) else mret None
  else if streq name (bs "USER_AGENT") then
    upd (set_header_user_agent value) ;;
    ok ← add_cgi_env (bs "USER_AGENT") v true;
    mret (Some (if ok =? 0 then 0 else 1))
  else mret None.

Fixpoint skip_lws (s : bytes) : bytes :=
  match s with
  | c :: s' => if (c =? 32) || (c =? 9) then skip_lws s' else s
  | [] => []
  end.

Definition process_option_line : M Z :=
  r ← req;
  line ← pstr (header_line r);
  match strchr line 58 with
  | None => mret 0
  | Some k =>
      let name := to_upper (ztake k line) in
      pstore (header_line r) (name ++ [0]) ;;
      let v := skip_lws (zdrop (k + 1) line) in
      let value := padd (header_line r) (zlen line - zlen v) in
      if zlen v =? 0 then mret 1
      else
        done ← known_option name value v;
        match done with
        | Some x => mret x
        | None => add_cgi_env name v true
        end
  end.

(** * process_header_end *)

(** The host name of the request, for virtual hosts. *)
Definition resolve_host : M bool :=
  r ← req; g ← srv;
  h ← (match header_host r with Pnull => mret (default_vhost g) | p => pstr p end);
  ok ← call (os_malloc (zlen h + 1));
  if negb ok then send_r_error ;; mret false
  else
    let h := span_until [58] (strlower h) in
    upd (set_host (Some h)) ;;
    if check_host h <? 1 then send_r_bad_request ;; mret false else mret true.

(** Decoding and cleaning the URI in place. *)
Definition decode_uri : M bool :=
  r ← req;
  u ← uri;
  let '(o, ok, q) := unescape_uri u in
  a ← checked (blit (request_uri r) 0 (o ++ [0]));
  upd (set_request_uri a) ;;
  (match q with Some i => upd (set_query_string (Puri i)) | None => mret tt end) ;;
  if negb ok then send_r_bad_request ;; mret false
  else
    a ← checked (clean_pathname_mem a);
    upd (set_request_uri a) ;;
    u ← uri;
    if negb (default 0 (head u) =? 47) then send_r_bad_request ;; mret false
    else mret true.

(** A file for the body of a POST. *)
Definition open_post_file : M Z :=
  '(d, _) ← create_temporary_file true None;
  upd (set_post_data_fd d) ;;
  if d =? 0 then send_r_error ;; mret 0
  else
    ok ← call (os_cloexec d);
    if negb ok then
      boa_perror ;; call_ (os_close d) ;; upd (set_post_data_fd 0) ;; mret 0
    else mret 1.

(** Access control applies to every method. *)
Definition path_allowed : M bool :=
  r ← req;
  match pathname r with
  | None => mret true
  | Some path => a ← access_allow path; mret (bool_decide (a = ACCESS_ALLOW))
  end.

Definition start_response : M Z :=
  r ← req;
  if bool_decide (method r = M_POST) then open_post_file
  else if negb (bool_decide (cgi_type r = CGI_none)) then init_cgi
  else upd (set_status WRITE) ;; init_get.

(** 0: error or NPH; 1: success. *)
Definition process_header_end : M Z :=
  r ← req; g ← srv;
  if bool_decide (logline r = Pnull) then send_r_error ;; mret 0
  else
    ok ← decode_uri;
    if negb ok then mret 0
    else
      ok ← (match vhost_root g with Some _ => resolve_host | None => mret true end);
      if negb ok then mret 0
      else
        ok ← translate_uri;
        if ok =? 0 then SQUASH_KA ;; mret 0
        else
          allowed ← path_allowed;
          if negb allowed then send_r_forbidden ;; mret 0
          else start_response.
End parse.
