(* ===== verification/ParseProps.v ===== *)
(** The request line is parsed as written, and access control comes before
    anything is opened or started. *)

From S2P Require Import Prelude Types Machine ScriptOS Buffer Dates Hash Response.
From S2P Require Import ResponseProofs.
From S2P Require Import Util UtilProofs ResponseProps Access Alias Pointer Cgi Get.
From S2P Require Import Parse.

(** * The request line *)

Definition blanks (l : bytes) : Prop := Forall (eq 32) l.

Lemma skip_blanks_app sp l : blanks sp -> skip_blanks (sp ++ l) = skip_blanks l.
Proof. by induction 1 as [|c sp <- _ IH]. Qed.

Lemma skip_blanks_id c l : c <> 32 -> skip_blanks (c :: l) = c :: l.
Proof. intros Hc. simpl. by destruct (Z.eqb_spec c 32). Qed.

Lemma span_until_app x l tail :
  x ∉ l -> tail = [] \/ head tail = Some x -> span_until [x] (l ++ tail) = l.
Proof.
  intros Hl Ht. induction l as [|c l IH]; simpl.
  - destruct Ht as [->|]; [done|]. destruct tail as [|y tail]; [done|].
    injection H as ->. simpl. by rewrite Z.eqb_refl.
  - apply not_elem_of_cons in Hl as [Hc Hl].
    destruct (Z.eqb_spec c x); [congruence|]. simpl. f_equal. auto.
Qed.

(** The request line: method, URI, and what follows. *)
Definition method_word (m : HTTP_METHOD) : option bytes :=
  match m with
  | M_GET => Some (bs "GET") | M_HEAD => Some (bs "HEAD") | M_POST => Some (bs "POST")
  | _ => None
  end.

Lemma parse_method_word m w rest :
  method_word m = Some w -> parse_method (w ++ 32 :: rest) = Some (m, zlen w).
Proof. destruct m; intros [= <-]; reflexivity. Qed.

Lemma cstr_blit_0 a u a' :
  blit a 0 (u ++ [0]) = Some a' -> nonul u = true -> cstr a' 0 = Some u.
Proof.
  intros (_ & _ & ->)%blit_inv Hu. unfold cstr. simpl.
  change (until_nul ((u ++ [0]) ++ zdrop (zlen (u ++ [0])) a) = Some u).
  rewrite <- app_assoc. simpl. generalize (zdrop (zlen (u ++ [0])) a). intros x.
  induction u as [|c u IH]; [done|]. apply nonul_cons in Hu as [Hc Hu].
  simpl. destruct (Z.eqb_spec c 0); [done|]. by rewrite (IH Hu).
Qed.

Section logline.
Context {os : OS}.

Lemma wp_copy_uri u s (Q : unit -> St -> Prop) :
  zlen u < zlen (request_uri (rq s)) -> nonul u = true ->
  (forall a, cstr a 0 = Some u -> zlen a = zlen (request_uri (rq s)) ->
     Q tt (mkSt (set_request_uri a (rq s)) (sv s) (wd s))) ->
  wp (copy_uri u) Q s.
Proof.
  intros Hl Hu HQ. unfold copy_uri. wps. pose proof (zlen_nonneg u).
  destruct (blit (request_uri (rq s)) 0 (u ++ [0])) as [a|] eqn:Ea.
  - eapply wp_checked; [done|]. wps. apply HQ; [by eapply cstr_blit_0|by eapply blit_zlen].
  - apply eq_None_not_Some in Ea. destruct Ea. apply blit_is_Some.
    rewrite zlen_app. change (zlen [0]) with 1. lia.
Qed.

(** A request line "METHOD URI" or "METHOD URI VERSION", with any
    number of blanks in between, is parsed as written: method, URI and version are
    stored, HTTP/1.1 turns keep-alive on, and nothing else changes. *)
Theorem process_logline_correct s m w sp u tail v :
  method_word m = Some w -> blanks sp ->
  string_at (rq s) (Pstream 0) = Some (w ++ 32 :: sp ++ u ++ tail) ->
  u <> [] -> 32 ∉ u -> nonul u = true -> is_prefix (bs "http://") u = false ->
  zlen u <= MAX_HEADER_LENGTH -> zlen (request_uri (rq s)) = MAX_HEADER_LENGTH + 1 ->
  tail = [] \/ head tail = Some 32 ->
  http_version_of (skip_blanks tail) = Some v -> (m, v) <> (M_HEAD, HTTP09) ->
  wp process_logline (fun x s' => x = 1 /\
    sv s' = sv s /\ wd s' = wd s /\ exists a, cstr a 0 = Some u /\
    rq s' = set_cgi_env_index (common_cgi_env_count (sv s))
              (set_keepalive (if bool_decide (v = HTTP11) then KA_ACTIVE else keepalive (rq s))
                (set_http_version v (set_request_uri a
                  (set_method m (set_logline (Pstream 0) (rq s))))))) s.
Proof.
  intros Hw Hsp Hline Hne H32 Hnul Habs Hlen Harr Ht Hv Hmv.
  unfold process_logline. wps. unfold pstr. wps.
  eapply wp_checked; [exact Hline|]. wps.
  assert (Hlong : zlen (w ++ 32 :: sp ++ u ++ tail) <? 5 = false).
  { apply Z.ltb_ge. rewrite zlen_app, zlen_cons, !zlen_app.
    assert (0 < zlen u) by (destruct u; [done|rewrite zlen_cons; pose proof (zlen_nonneg u); lia]).
    assert (3 <= zlen w)
      by (destruct m; try discriminate Hw; injection Hw as <-; vm_compute; discriminate).
    pose proof (zlen_nonneg sp). pose proof (zlen_nonneg tail). lia. }
  rewrite Hlong, (parse_method_word m w) by done. wps.
  assert (Hrest : skip_blanks (zdrop (zlen w + 1) (w ++ 32 :: sp ++ u ++ tail)) = u ++ tail).
  { replace (w ++ 32 :: sp ++ u ++ tail) with ((w ++ [32]) ++ sp ++ u ++ tail)
      by (by rewrite <- app_assoc).
    rewrite zdrop_app_exact by (by rewrite zlen_app). rewrite skip_blanks_app by done.
    destruct u as [|c u]; [done|]. apply skip_blanks_id. set_solver. }
  rewrite Hrest, (span_until_app 32) by done.
  destruct (Z.ltb_spec MAX_HEADER_LENGTH (zlen u)); [lia|].
  change (SERVER_METHOD ++ bs "://") with (bs "http://"). rewrite Habs. wps.
  apply wp_copy_uri; [simpl; lia|done|]. intros a Ha _. wps.
  rewrite zdrop_app_exact by done. unfold logline_version. rewrite Hv. wps. cbn [negb]. wps.
  assert (Hh : bool_decide (m = M_HEAD) && bool_decide (v = HTTP09) = false).
  { apply andb_false_iff. rewrite !bool_decide_eq_false.
    destruct (decide (m = M_HEAD)) as [->|]; [right; intros ->; done|by left]. }
  destruct (decide (v = HTTP11)) as [->|Hv11].
  - rewrite bool_decide_true by done. wps.
    match goal with |- wp (if ?b then _ else _) _ _ => change b with
      (bool_decide (m = M_HEAD) && bool_decide (HTTP11 = HTTP09)) end.
    rewrite Hh. wps. split_and!; [done..|]. by exists a.
  - rewrite (bool_decide_false (v = HTTP11)) by done. wps.
    match goal with |- wp (if ?b then _ else _) _ _ => change b with
      (bool_decide (m = M_HEAD) && bool_decide (v = HTTP09)) end.
    rewrite Hh. wps. split_and!; [done..|]. exists a. split; [done|]. by destruct (rq s).
Qed.
End logline.

(** "GET  /a HTTP/1.1" *)
Definition logline_state : St :=
  mkSt (set_client_stream (bs "GET  /a HTTP/1.1" ++ zeros 100) test_request) test_server
    empty_world.

Lemma process_logline_correct_witness :
  exists s', process_logline logline_state = Ret 1 s' /\ method (rq s') = M_GET /\
    http_version (rq s') = HTTP11 /\ keepalive (rq s') = KA_ACTIVE.
Proof.
  destruct (wp_elim _ _ _ (process_logline_correct logline_state M_GET (bs "GET") [32] (bs "/a")
    (bs " HTTP/1.1") HTTP11 eq_refl ltac:(by repeat constructor) ltac:(vm_compute; reflexivity)
    ltac:(discriminate) ltac:(apply (bool_decide_unpack _); vm_compute; reflexivity) eq_refl eq_refl
    ltac:(by vm_compute) ltac:(by vm_compute) ltac:(by right) ltac:(vm_compute; reflexivity)
    ltac:(discriminate)))
    as (x & s' & E & -> & _ & _ & a & _ & Hr).
  exists s'. rewrite Hr. split_and!; [exact E|reflexivity..].
Defined.

(** * Access control *)

Section access_control.
Context {os : OS} {laws : OSLaws os}.

(** The part of [process_header_end] up to the file name. *)
Definition header_translated (s s1 : St) : Prop :=
  logline (rq s) <> Pnull /\ exists n, n <> 0 /\
  (ok ← decode_uri;
   if negb ok then mret 0
   else
     ok ← (match vhost_root (sv s) with Some _ => resolve_host | None => mret true end);
     if negb ok then mret 0 else translate_uri) s = Ret n s1.

Lemma header_end_translated s s1 :
  header_translated s s1 ->
  process_header_end s =
  (allowed ← path_allowed;
   if negb allowed then send_r_forbidden ;; mret 0 else start_response) s1.
Proof.
  intros [Hl (n & Hn & E)]. unfold process_header_end.
  unfold mbind, M_bind, req, srv, mret, M_ret in *. rewrite bool_decide_false by done.
  destruct (decode_uri s) as [[] s0|s0|]; simpl in E |- *;
    [|injection E as <- <-; done|discriminate..].
  destruct (vhost_root (sv s)).
  - destruct (resolve_host s0) as [[] s2|s2|]; simpl in E |- *;
      [|injection E as <- <-; done|discriminate..].
    rewrite E. apply Z.eqb_neq in Hn. by rewrite Hn.
  - simpl in *. rewrite E. apply Z.eqb_neq in Hn. by rewrite Hn.
Qed.

End access_control.

(** A Referer header is put into the environment of scripts twice: the branch for
    it ends in [break] and reaches the general case. *)
Definition referer_state : St :=
  mkSt (os := scriptOS)
    (set_header_line (Pstream 0) (set_client_stream (bs "Referer: x" ++ zeros 100) test_request))
    test_server empty_world.

Lemma referer_added_twice :
  exists s', process_option_line referer_state = Ret 1 s' /\
    ztake 3 (cgi_env (rq s')) =
      [Some (bs "HTTP_REFERER=x"); Some (bs "HTTP_REFERER=x"); None].
Proof. vm_compute. eexists. split; [reflexivity|]. vm_compute. reflexivity. Qed.
