(* ===== verification/Read.v ===== *)
(** read.c: the header is read and cut into lines by a state machine; the body of
    a POST is copied to a temporary file. *)

From S2P Require Import Prelude Types Machine Buffer Util Dates Hash Response Alias.
From S2P Require Import Pointer Cgi Parse.

(** * The state machine *)

(** Characters that may occur in a header. *)
Definition legal_char (uc : Z) : bool :=
  (uc =? 13) || (uc =? 10) || (uc =? 9) || negb ((uc <? 32) || (127 <? uc)).

(** One character in a status; the flag says that [header_end] is set here. *)
Definition header_step (st : REQ_STATUS) (uc : Z) : REQ_STATUS * bool :=
  match st with
  | READ_HEADER =>
      if uc =? 13 then (ONE_CR, true)
      else if uc =? 10 then (ONE_LF, true) else (st, false)
  | ONE_CR =>
      if uc =? 10 then (ONE_LF, false)
      else if negb (uc =? 13) then (READ_HEADER, false) else (st, false)
  | ONE_LF =>
      if uc =? 13 then (TWO_CR, false)
      else if uc =? 10 then (BODY_READ, false) else (READ_HEADER, false)
  | TWO_CR =>
      if uc =? 10 then (BODY_READ, false)
      else if negb (uc =? 13) then (READ_HEADER, false) else (st, false)
  | _ => (st, false)
  end.

Section read.
Context {os : OS}.

(** A line is complete; [Some]: [read_header] returns. *)
Definition header_line_done : M (option Z) :=
  r ← req;
  pstore (header_end r) [0] ;;
  d ← pdiff (header_end r) (header_line r);
  if MAX_HEADER_LENGTH <=? d then send_r_bad_request ;; mret (Some 0)
  else if negb (bool_decide (logline r = Pnull)) then
    ok ← process_option_line;
    if ok =? 0 then mret (Some 0)
    else r ← req; upd (set_header_line (Pstream (parse_pos r))) ;; mret None
  else
    ok ← process_logline;
    if ok =? 0 then mret (Some 0)
    else
      r ← req;
      if bool_decide (http_version r = HTTP09) then
        x ← process_header_end; mret (Some x)
      else upd (set_header_line (Pstream (parse_pos r))) ;; mret None.

(** The length of the body; 0 is an error. *)
Definition post_length (retval : Z) : M Z :=
  r ← req; g ← srv;
  match content_length r with
  | Pnull => send_r_bad_request ;; mret 0
  | p =>
      s ← pstr p;
      let n := boa_atoi s in
      if n <? 0 then send_r_bad_request ;; mret 0
      else if negb (single_post_limit g =? 0) && (single_post_limit g <? n) then
        send_r_bad_request ;; mret 0
      else
        upd (set_filesize n) ;;
        upd (set_filepos 0) ;;
        d ← pdiff (header_end r) (header_line r);
        (if n <? u32 d then upd (set_header_end (padd (header_line r) n)) else mret tt) ;;
        mret retval
  end.

(** The empty line was read. *)
Definition header_done : M Z :=
  retval ← process_header_end;
  r ← req;
  if negb (retval =? 0) && bool_decide (method r = M_POST) then
    upd (set_header_line (Pstream (parse_pos r))) ;;
    upd (set_header_end (Pstream (client_stream_pos r))) ;;
    upd (set_status BODY_WRITE) ;;
    post_length retval
  else mret retval.

(** The loop over the characters that are there; [None]: it came to their end. *)
Fixpoint header_loop (fuel : nat) : M (option Z) :=
  match fuel with
  | O => mret None
  | S fuel' =>
      r ← req;
      uc ← checked (zget (client_stream r) (parse_pos r));
      if negb (legal_char uc) then send_r_bad_request ;; mret (Some 0)
      else
        let '(st, mark) := header_step (status r) uc in
        upd (set_status st) ;;
        (if (mark : bool) then upd (set_header_end (Pstream (parse_pos r))) else mret tt) ;;
        upd (set_parse_pos (parse_pos r + 1)) ;;
        match st with
        | ONE_LF =>
            x ← header_line_done;
            match x with Some x => mret (Some x) | None => header_loop fuel' end
        | BODY_READ => x ← header_done; mret (Some x)
        | _ => header_loop fuel'
        end
  end.

(** More of the header is read from the socket. *)
Definition header_read : M Z :=
  r ← req;
  let buf_bytes_left := u32 (CLIENT_STREAM_SIZE - client_stream_pos r) in
  if (buf_bytes_left <? 1) || (CLIENT_STREAM_SIZE <? buf_bytes_left) then
    upd (set_response_status 400) ;; upd (set_status DEAD) ;; mret 0
  else
    res ← call (os_read (fd r) buf_bytes_left);
    match res with
    | SErr EINTR => mret 1
    | SErr EAGAIN => mret (-1)
    | SErr _ => upd (set_response_status 400) ;; mret 0
    | SOk [] => upd (set_response_status 400) ;; mret 0
    | SOk l =>
        pstore (Pstream (client_stream_pos r)) l ;;
        upd (set_client_stream_pos (client_stream_pos r + zlen l)) ;;
        mret 1
    end.

(** -1: blocked, 0: done, 1: more to do. *)
Definition read_header : M Z :=
  r ← req;
  x ← header_loop (Z.to_nat (client_stream_pos r - parse_pos r));
  match x with
  | Some x => mret x
  | None =>
      r ← req;
      if status_num (status r) <? status_num BODY_READ then header_read else mret 1
  end.

(** * The body *)

Definition read_body : M Z :=
  r ← req;
  d ← pdiff (header_end r) (header_line r);
  let bytes_free := u32 (BUFFER_SIZE - d) in
  let n := u32 (filesize r - filepos r) in
  let bytes_to_read := if bytes_free <? n then bytes_free else n in
  if bytes_to_read <=? 0 then upd (set_status BODY_WRITE) ;; mret 1
  else
    res ← call (os_read (fd r) bytes_to_read);
    match res with
    | SErr EAGAIN => mret (-1)
    | SErr _ => boa_perror ;; upd (set_response_status 400) ;; mret 0
    | SOk [] => send_r_bad_request ;; mret 0
    | SOk l =>
        pstore (header_end r) l ;;
        upd (set_status BODY_WRITE) ;;
        upd (set_header_end (padd (header_end r) (zlen l))) ;;
        mret 1
    end.

Definition write_body : M Z :=
  r ← req;
  d ← pdiff (header_end r) (header_line r);
  let n := u32 d in
  let bytes_to_write :=
    if filesize r <? u64 (filepos r + n) then u32 (filesize r - filepos r) else n in
  if bytes_to_write =? 0 then
    upd (set_header_end (Pbuf 0)) ;;
    upd (set_header_line (Pbuf 0)) ;;
    if filesize r <=? filepos r then init_cgi
    else upd (set_status BODY_READ) ;; mret 1
  else
    l ← pload (header_line r) bytes_to_write;
    res ← call (os_write (post_data_fd r) l);
    match res with
    | SErr EAGAIN => mret (-1)
    | SErr EINTR => mret 1
    | SErr _ => boa_perror ;; mret 0
    | SOk n =>
        upd (set_filepos (u64 (filepos r + n))) ;;
        upd (set_header_line (padd (header_line r) n)) ;;
        mret 1
    end.
End read.
