(* ===== verification/ReadProps.v ===== *)
(** The header state machine: which streams end a header, and how the loop over
    the characters cuts the stream into lines. *)

From S2P Require Import Prelude Types Machine ScriptOS Response Alias Pointer Cgi Parse.
From S2P Require Import Read.

(** * The state machine on a string *)

(** The status after [l] and the position of the last mark. *)
Fixpoint header_run (st : REQ_STATUS) (pos : Z) (mark : option Z) (l : bytes) :
    REQ_STATUS * option Z :=
  match l with
  | [] => (st, mark)
  | c :: l' =>
      let '(st', m) := header_step st c in
      header_run st' (pos + 1) (if m then Some pos else mark) l'
  end.

Definition header_status (st : REQ_STATUS) (l : bytes) : REQ_STATUS :=
  foldl (fun st c => fst (header_step st c)) st l.

Lemma header_run_status st pos mark l : fst (header_run st pos mark l) = header_status st l.
Proof.
  revert st pos mark. induction l as [|c l IH]; intros st pos mark; simpl; [done|].
  destruct (header_step st c) as [st' m]. apply IH.
Qed.

Definition all_cr (l : bytes) : Prop := Forall (eq 13) l.

(** What the status says about the characters read so far. *)
Definition says (st : REQ_STATUS) (l : bytes) : Prop :=
  match st with
  | READ_HEADER => True
  | ONE_CR => True
  | ONE_LF => exists pre, l = pre ++ [10]
  | TWO_CR => exists pre crs, l = pre ++ 10 :: crs /\ all_cr crs
  | BODY_READ => exists pre crs post, l = pre ++ 10 :: crs ++ 10 :: post /\ all_cr crs
  | _ => False
  end.

Lemma header_status_app st l1 l2 :
  header_status st (l1 ++ l2) = header_status (header_status st l1) l2.
Proof. unfold header_status. by rewrite foldl_app. Qed.

Lemma header_status_snoc st l c :
  header_status st (l ++ [c]) = fst (header_step (header_status st l) c).
Proof. unfold header_status. by rewrite foldl_app. Qed.

Lemma header_says l : says (header_status READ_HEADER l) l.
Proof.
  induction l as [|c l IH] using rev_ind; [done|]. rewrite header_status_snoc.
  destruct (header_status READ_HEADER l); simpl in *; try done.
  - destruct (Z.eqb_spec c 13), (Z.eqb_spec c 10); subst; simpl; eauto; lia.
  - destruct (Z.eqb_spec c 10), (Z.eqb_spec c 13); subst; simpl; eauto; lia.
  - destruct IH as [pre ->]. destruct (Z.eqb_spec c 13); subst; simpl.
    { exists pre, [13]. rewrite <- app_assoc. split; [done|]. by repeat constructor. }
    destruct (Z.eqb_spec c 10); subst; simpl; [|done].
    exists pre, [], []. rewrite <- app_assoc. split; [done|constructor].
  - destruct IH as (pre & crs & -> & Hcr). destruct (Z.eqb_spec c 10); subst; simpl.
    { exists pre, crs, []. by rewrite <- app_assoc. }
    destruct (Z.eqb_spec c 13); subst; simpl; [|done].
    exists pre, (crs ++ [13]). rewrite <- app_assoc. split; [done|].
    apply Forall_app. split; [done|]. by repeat constructor.
  - destruct IH as (pre & crs & post & -> & ?). exists pre, crs, (post ++ [c]).
    rewrite <- app_assoc. simpl. by rewrite <- app_assoc.
Qed.

Lemma header_done_absorbs l : header_status BODY_READ l = BODY_READ.
Proof. induction l; simpl; auto. Qed.

(** The statuses in which the header is read. *)
Definition reading (st : REQ_STATUS) : Prop :=
  st = READ_HEADER \/ st = ONE_CR \/ st = ONE_LF \/ st = TWO_CR \/ st = BODY_READ.

Lemma header_reading st l : reading st -> reading (header_status st l).
Proof.
  revert st. induction l as [|c l IH]; intros st Hst; simpl; [done|]. apply IH.
  unfold reading in *. destruct Hst as [->|[->|[->|[->| ->]]]]; simpl;
    destruct (c =? 13), (c =? 10); simpl; tauto.
Qed.

(** A line feed ends a line, or the header. *)
Lemma header_status_lf st :
  reading st -> header_status st [10] = ONE_LF \/ header_status st [10] = BODY_READ.
Proof. intros [->|[->|[->|[->| ->]]]]; simpl; auto. Qed.

Lemma header_status_blank st crs :
  st = ONE_LF \/ st = TWO_CR -> all_cr crs -> header_status st (crs ++ [10]) = BODY_READ.
Proof.
  intros Hst Hcr. revert st Hst. induction Hcr as [|c crs <- Hcr IH]; intros st Hst.
  - by destruct Hst as [->| ->].
  - simpl. destruct Hst as [->| ->]; simpl; apply IH; auto.
Qed.

(** C11: the state machine recognizes the end of a header exactly: after
    reading a text it is in BODY_READ if and only if the text contains a line
    feed that is followed, but for carriage returns, by another one.  How the text
    was split over packets does not matter. *)
Theorem header_fsm_correct l1 l2 :
  header_status (header_status READ_HEADER l1) l2 = header_status READ_HEADER (l1 ++ l2) /\
  (header_status READ_HEADER (l1 ++ l2) = BODY_READ <->
   exists pre crs post, l1 ++ l2 = pre ++ 10 :: crs ++ 10 :: post /\ all_cr crs).
Proof.
  split; [by rewrite header_status_app|]. split.
  - intros E. pose proof (header_says (l1 ++ l2)) as H. by rewrite E in H.
  - intros (pre & crs & post & -> & Hcr).
    replace (pre ++ 10 :: crs ++ 10 :: post) with (pre ++ [10] ++ (crs ++ [10]) ++ post)
      by (by rewrite <- !app_assoc).
    rewrite (header_status_app _ pre), (header_status_app _ [10]),
      (header_status_app _ (crs ++ [10])).
    destruct (header_status_lf (header_status READ_HEADER pre)) as [-> | ->].
    + apply header_reading. by left.
    + rewrite header_status_blank by auto. apply header_done_absorbs.
    + by rewrite !header_done_absorbs.
Qed.

(** * Lines *)

Definition idle (st : REQ_STATUS) : Prop := st = READ_HEADER \/ st = ONE_CR.

Lemma header_run_app st pos mark l1 l2 :
  header_run st pos mark (l1 ++ l2) =
  let '(st1, m1) := header_run st pos mark l1 in header_run st1 (pos + zlen l1) m1 l2.
Proof.
  revert st pos mark. induction l1 as [|c l1 IH]; intros st pos mark; simpl.
  { by rewrite Z.add_0_r. }
  destruct (header_step st c) as [st' m]. rewrite IH, zlen_cons.
  destruct (header_run _ _ _ l1). f_equal. lia.
Qed.

Lemma header_step_idle st c : idle st -> c <> 10 -> idle (fst (header_step st c)).
Proof.
  intros [-> | ->] Hc; unfold idle; simpl; apply Z.eqb_neq in Hc; rewrite Hc;
    destruct (c =? 13); simpl; auto.
Qed.

Lemma header_run_idle st pos mark l : idle st -> 10 ∉ l -> idle (fst (header_run st pos mark l)).
Proof.
  revert st pos mark. induction l as [|c l IH]; intros st pos mark Hst Hl; simpl; [done|].
  apply not_elem_of_cons in Hl as [Hc Hl]. pose proof (header_step_idle st c Hst) as H.
  destruct (header_step st c) as [st' m]. apply IH; [apply H; congruence|done].
Qed.

(** A line's text without its carriage returns. *)
Definition line_body (body : bytes) : Prop :=
  10 ∉ body /\ (body = [] \/ exists b c, body = b ++ [c] /\ c <> 13).

Lemma header_run_body pos mark body :
  line_body body -> exists m, header_run READ_HEADER pos mark body = (READ_HEADER, m).
Proof.
  intros [Hlf [->|(b & c & -> & Hc)]]; [by exists mark|].
  apply not_elem_of_app in Hlf as [Hb Hc2]. rewrite header_run_app.
  pose proof (header_run_idle READ_HEADER pos mark b (or_introl eq_refl) Hb) as Hi.
  destruct (header_run READ_HEADER pos mark b) as [st m]. simpl in Hi.
  assert (c <> 10) by set_solver. exists m. simpl.
  apply Z.eqb_neq in Hc, H. destruct Hi as [-> | ->]; simpl; by rewrite Hc, H.
Qed.

Lemma header_run_cr pos mark crs :
  all_cr crs -> header_run ONE_CR pos mark (crs ++ [10]) = (ONE_LF, mark).
Proof. intros Hcr. revert pos. induction Hcr as [|c crs <- Hcr IH]; intros pos; [done|]. apply IH. Qed.

(** The line end: the mark is at the first carriage return. *)
Lemma header_run_eol pos mark crs :
  all_cr crs -> header_run READ_HEADER pos mark (crs ++ [10]) = (ONE_LF, Some pos).
Proof. intros Hcr. destruct Hcr as [|c crs <- Hcr]; [done|]. by apply header_run_cr. Qed.

Lemma header_run_last pos mark crs :
  all_cr crs ->
  exists st m, header_run READ_HEADER pos mark crs = (st, m) /\ idle st /\
    header_step st 10 = (ONE_LF, bool_decide (crs = [])) /\
    m = match crs with [] => mark | _ => Some pos end.
Proof.
  intros Hcr. destruct Hcr as [|c crs <- Hcr].
  - exists READ_HEADER, mark. split_and!; try done. by left.
  - exists ONE_CR, (Some pos). split_and!; try done; [|by right]. simpl.
    generalize (pos + 1) (Some pos). induction Hcr as [|c crs <- Hcr IH]; intros p m; [done|].
    apply IH.
Qed.

(** * The loop *)

Definition mark_at (m : option Z) (r : request) : request :=
  match m with Some p => set_header_end (Pstream p) r | None => r end.

(** The request after the state machine has read to [pos]. *)
Definition advanced (x : REQ_STATUS * option Z) (pos : Z) (r : request) : request :=
  set_parse_pos pos (mark_at x.2 (set_status x.1 r)).

Lemma zget_zdrop_head (a : bytes) p c rest : 0 <= p -> zdrop p a = c :: rest -> zget a p = Some c.
Proof.
  intros Hp H. unfold zget, zdrop in *. destruct (Z.leb_spec 0 p); [|lia].
  rewrite <- (Nat.add_0_r (Z.to_nat p)), <- lookup_drop. by rewrite H.
Qed.

Lemma zdrop_tail (a : bytes) p c rest : 0 <= p -> zdrop p a = c :: rest -> zdrop (p + 1) a = rest.
Proof.
  intros Hp H. rewrite <- (zdrop_zdrop 1 p) by lia. by rewrite H.
Qed.

Lemma until_nul_legal l x : forallb legal_char l = true -> until_nul (l ++ 0 :: x) = Some l.
Proof.
  induction l as [|c l IH]; simpl; [done|]. intros [Hc Hl]%andb_prop.
  destruct (Z.eqb_spec c 0) as [->|]; [done|]. by rewrite (IH Hl).
Qed.

Section loop.
Context {os : OS}.

(** One character that does not end a line. *)
Lemma header_loop_char fuel s c rest st m :
  0 <= parse_pos (rq s) -> zdrop (parse_pos (rq s)) (client_stream (rq s)) = c :: rest ->
  legal_char c = true -> header_step (status (rq s)) c = (st, m) -> idle st ->
  header_loop (S fuel) s =
  header_loop fuel (mkSt (advanced (st, if m then Some (parse_pos (rq s)) else None)
                            (parse_pos (rq s) + 1) (rq s)) (sv s) (wd s)).
Proof.
  intros Hp Hd Hc Hs Hi. cbn [header_loop]. unfold mbind, M_bind, req. cbn [rq].
  rewrite (zget_zdrop_head _ _ _ _ Hp Hd). cbn [checked mret M_ret].
  unfold mret, M_ret. rewrite Hc, Hs. cbn [negb].
  destruct m, Hi as [-> | ->]; reflexivity.
Qed.

Lemma advanced_twice st1 m1 p1 x p r :
  advanced (st1, m1) p (advanced x p1 r) =
  advanced (st1, match m1 with Some q => Some q | None => x.2 end) p r.
Proof. destruct x as [st [q|]], m1; reflexivity. Qed.

Lemma header_run_mark st pos mark l :
  header_run st pos mark l =
  let '(st', m) := header_run st pos None l in
  (st', match m with Some q => Some q | None => mark end).
Proof.
  revert st pos mark. induction l as [|c l IH]; intros st pos mark; simpl; [done|].
  destruct (header_step st c) as [st' m]. rewrite IH, (IH _ _ (if m then _ else _)).
  destruct (header_run st' (pos + 1) None l) as [? [|]]; [done|]. by destruct m.
Qed.

(** Characters without a line feed. *)
Lemma header_loop_text l fuel s rest :
  0 <= parse_pos (rq s) -> zdrop (parse_pos (rq s)) (client_stream (rq s)) = l ++ rest ->
  forallb legal_char l = true -> idle (status (rq s)) -> 10 ∉ l ->
  header_loop (length l + fuel) s =
  header_loop fuel (mkSt (advanced (header_run (status (rq s)) (parse_pos (rq s)) None l)
                            (parse_pos (rq s) + zlen l) (rq s)) (sv s) (wd s)).
Proof.
  revert s. induction l as [|c l IH]; intros s Hp Hd Hl Hi Hlf.
  { simpl. f_equal. destruct s as [r g w]. simpl. f_equal. rewrite zlen_nil, Z.add_0_r.
    by destruct r. }
  simpl in Hl. apply andb_prop in Hl as [Hc Hl]. apply not_elem_of_cons in Hlf as [Hc10 Hlf].
  pose proof (header_step_idle (status (rq s)) c Hi) as Hst.
  destruct (header_step (status (rq s)) c) as [st m] eqn:Es.
  assert (Hidle : idle st) by (apply Hst; congruence).
  change (length (c :: l) + fuel)%nat with (S (length l + fuel)).
  rewrite (header_loop_char _ _ c (l ++ rest) st m) by done.
  set (s1 := mkSt _ _ _). assert (Hp1 : parse_pos (rq s1) = parse_pos (rq s) + 1)
    by (by destruct m).
  assert (Hc1 : client_stream (rq s1) = client_stream (rq s)) by (by destruct m).
  assert (Hs1 : status (rq s1) = st) by (by destruct m).
  rewrite IH; rewrite ?Hp1, ?Hc1, ?Hs1; try done; [|lia|by eapply zdrop_tail].
  f_equal. subst s1. cbn [rq sv wd]. f_equal. cbn [header_run]. rewrite Es.
  rewrite (header_run_mark st _ (if m then _ else _)).
  destruct (header_run st (parse_pos (rq s) + 1) None l) as [st2 m2].
  rewrite advanced_twice, zlen_cons. cbn [snd]. f_equal. lia.
Qed.

(** The line feed that ends a line. *)
Lemma header_loop_lf fuel s rest m :
  0 <= parse_pos (rq s) -> zdrop (parse_pos (rq s)) (client_stream (rq s)) = 10 :: rest ->
  header_step (status (rq s)) 10 = (ONE_LF, m) ->
  header_loop (S fuel) s =
  (x ← header_line_done;
   match x with Some x => mret (Some x) | None => header_loop fuel end)
    (mkSt (advanced (ONE_LF, if m then Some (parse_pos (rq s)) else None)
             (parse_pos (rq s) + 1) (rq s)) (sv s) (wd s)).
Proof.
  intros Hp Hd Hs. cbn [header_loop]. unfold mbind at 1 2, M_bind at 1 2, req at 1. cbn [rq].
  rewrite (zget_zdrop_head _ _ _ _ Hp Hd). cbn [checked mret M_ret].
  unfold mret at 1, M_ret at 1. rewrite Hs. by destruct m.
Qed.

(** The first character of a further line, behind the line feed. *)
Definition starts_line (st : REQ_STATUS) (body : bytes) : Prop :=
  st = READ_HEADER \/ (st = ONE_LF /\ exists c b, body = c :: b /\ c <> 13).

Lemma header_loop_body s body rest fuel :
  0 <= parse_pos (rq s) -> zdrop (parse_pos (rq s)) (client_stream (rq s)) = body ++ rest ->
  forallb legal_char body = true -> line_body body -> starts_line (status (rq s)) body ->
  exists m, header_loop (length body + fuel) s =
    header_loop fuel (mkSt (advanced (READ_HEADER, m) (parse_pos (rq s) + zlen body) (rq s))
                        (sv s) (wd s)).
Proof.
  intros Hp Hd Hl Hb Hst.
  assert (Hidle : forall s, 0 <= parse_pos (rq s) ->
    zdrop (parse_pos (rq s)) (client_stream (rq s)) = body ++ rest ->
    status (rq s) = READ_HEADER ->
    exists m, header_loop (length body + fuel) s =
      header_loop fuel (mkSt (advanced (READ_HEADER, m) (parse_pos (rq s) + zlen body) (rq s))
                          (sv s) (wd s))).
  { clear s Hp Hd Hst. intros s Hp Hd Hst.
    destruct (header_run_body (parse_pos (rq s)) None body Hb) as [m Hm].
    exists m. rewrite (header_loop_text body fuel s rest); [by rewrite Hst, Hm|done..| |].
    - by left.
    - apply Hb. }
  destruct Hst as [Hst|(Hst & c & b & -> & Hc)]; [by apply Hidle|]. clear Hidle.
  destruct Hb as [Hlf Hlast]. apply not_elem_of_cons in Hlf as [Hc10 Hlf].
  simpl in Hl. apply andb_prop in Hl as [Hlc Hl].
  assert (Hb : line_body b).
  { split; [done|]. destruct Hlast as [?|([|x b'] & c' & [= -> ->] & ?)]; [done|by left|].
    right. by exists b', c'. }
  change (length (c :: b) + fuel)%nat with (S (length b + fuel)).
  rewrite (header_loop_char _ _ c (b ++ rest) READ_HEADER false); [|done..| |by left].
  2:{ rewrite Hst. simpl. apply Z.eqb_neq in Hc. rewrite Hc.
      destruct (Z.eqb_spec c 10); [congruence|done]. }
  set (s1 := mkSt _ _ _).
  destruct (header_run_body (parse_pos (rq s1)) None b Hb) as [m Hm]. exists m.
  rewrite (header_loop_text b fuel s1 rest).
  - subst s1. cbn [rq sv wd advanced mark_at status set_status set_parse_pos fst snd] in *.
    change (status _) with READ_HEADER. rewrite Hm. f_equal. f_equal.
    rewrite (advanced_twice READ_HEADER m _ (READ_HEADER, None)). rewrite zlen_cons.
    destruct m; unfold advanced; f_equal; simpl; lia.
  - subst s1. simpl. lia.
  - subst s1. simpl. by eapply zdrop_tail.
  - done.
  - by left.
  - done.
Qed.

(** The end of a line, behind its text. *)
Lemma header_loop_eol fuel s crs rest :
  0 <= parse_pos (rq s) ->
  zdrop (parse_pos (rq s)) (client_stream (rq s)) = crs ++ 10 :: rest -> all_cr crs ->
  status (rq s) = READ_HEADER ->
  header_loop (length crs + S fuel) s =
    (x ← header_line_done;
     match x with Some x => mret (Some x) | None => header_loop fuel end)
      (mkSt (set_parse_pos (parse_pos (rq s) + zlen crs + 1)
               (set_header_end (Pstream (parse_pos (rq s))) (set_status ONE_LF (rq s))))
         (sv s) (wd s)).
Proof.
  intros Hp Hd Hcr Hst. pose proof (zlen_nonneg crs).
  rewrite (header_loop_text crs (S fuel) s (10 :: rest)); rewrite ?Hst; try done.
  2:{ clear -Hcr. induction Hcr as [|? ? <-]; done. }
  2: by left.
  2:{ intros Hin. eapply Forall_forall in Hcr; [|done]. done. }
  destruct (header_run_last (parse_pos (rq s)) None crs Hcr) as (st & m & -> & Hi & Hs & ->).
  set (s2 := mkSt _ _ _).
  assert (Hp2 : parse_pos (rq s2) = parse_pos (rq s) + zlen crs) by (by destruct crs).
  assert (Hc2 : client_stream (rq s2) = client_stream (rq s)) by (by destruct crs).
  assert (Hs2 : status (rq s2) = st) by (by destruct crs).
  rewrite (header_loop_lf fuel s2 rest (bool_decide (crs = []))); rewrite ?Hp2, ?Hc2, ?Hs2;
    [|lia| |done].
  2:{ rewrite <- (zdrop_zdrop (zlen crs)) by lia. rewrite Hd. by apply zdrop_app_exact. }
  f_equal. f_equal. subst s2. cbn [rq sv wd].
  destruct crs as [|x crs]; cbn [bool_decide]; rewrite !advanced_twice; cbn [snd];
    unfold advanced, mark_at; cbn [fst snd]; [rewrite zlen_nil, Z.add_0_r|]; done.
Qed.

(** The string of a line whose end is marked. *)
Lemma marked_line r pos body rest c :
  0 <= pos -> zdrop pos (client_stream r) = body ++ c :: rest -> forallb legal_char body = true ->
  exists r2, write_at r (Pstream (pos + zlen body)) [0] = Some r2 /\
    string_at r2 (Pstream pos) = Some body.
Proof.
  intros Hp Hd Hl. pose proof (zlen_nonneg body).
  assert (is_Some (blit (client_stream r) (pos + zlen body) [0])) as [a Ea].
  { apply blit_is_Some. pose proof (f_equal zlen Hd) as E.
    rewrite zlen_zdrop, zlen_app, zlen_cons in E by done.
    pose proof (zlen_nonneg rest). change (zlen [0]) with 1. lia. }
  exists (set_client_stream a r). split; [simpl; by rewrite Ea|].
  unfold string_at. simpl. unfold cstr. destruct (Z.leb_spec 0 pos); [|lia].
  rewrite (zdrop_blit_tail _ _ _ _ _ _ _ Hp Hd Ea). by apply until_nul_legal.
Qed.

(** When the unread part of the stream starts with a line, text without
    line feeds and a line end of any number of carriage returns and a line feed,
    the loop reads exactly this line, marks its end before the carriage returns
    and hands it over to be processed; the string at its beginning is then the
    text of the line. *)
Theorem header_loop_cuts_line s body crs rest fuel :
  0 <= parse_pos (rq s) ->
  zdrop (parse_pos (rq s)) (client_stream (rq s)) = body ++ crs ++ 10 :: rest ->
  forallb legal_char body = true -> line_body body -> all_cr crs ->
  starts_line (status (rq s)) body ->
  let pos := parse_pos (rq s) in
  let r1 := set_parse_pos (pos + zlen body + zlen crs + 1)
              (set_header_end (Pstream (pos + zlen body)) (set_status ONE_LF (rq s))) in
  header_loop (length body + (length crs + S fuel)) s =
    (x ← header_line_done;
     match x with Some x => mret (Some x) | None => header_loop fuel end)
      (mkSt r1 (sv s) (wd s)) /\
  exists r2, write_at r1 (header_end r1) [0] = Some r2 /\ string_at r2 (Pstream pos) = Some body.
Proof.
  intros Hp Hd Hl Hb Hcr Hst pos r1. split.
  - destruct (header_loop_body s body (crs ++ 10 :: rest) (length crs + S fuel) Hp Hd Hl Hb Hst)
      as [m ->].
    set (s1 := mkSt _ _ _).
    assert (Hc1 : client_stream (rq s1) = client_stream (rq s)) by (by destruct m).
    pose proof (zlen_nonneg body).
    rewrite (header_loop_eol fuel s1 crs rest); rewrite ?Hc1; [|simpl; lia| |done|by destruct m].
    2:{ simpl. rewrite <- (zdrop_zdrop (zlen body)) by done. rewrite Hd. by apply zdrop_app_exact. }
    f_equal. subst s1 r1. by destruct m.
  - destruct crs as [|x crs]; by eapply marked_line.
Qed.
End loop.

(** The second line of a request, at offset 16. *)
Definition line_state : St :=
  let stream := bs "GET / HTTP/1.0" ++ CRLF ++ bs "Host: a" ++ CRLF ++ CRLF in
  mkSt (set_parse_pos 16 (set_status ONE_LF (set_client_stream stream test_request)))
    test_server empty_world.

Lemma header_loop_cuts_line_witness :
  exists r2, string_at r2 (Pstream 16) = Some (bs "Host: a") /\
    header_loop 12 line_state =
      (x ← header_line_done;
       match x with Some x => mret (Some x) | None => header_loop 3 end)
        (mkSt (set_parse_pos 25 (set_header_end (Pstream 23) (set_status ONE_LF (rq line_state))))
           test_server empty_world).
Proof.
  destruct (header_loop_cuts_line line_state (bs "Host: a") [13] CRLF 3) as (E & r2 & _ & Hr).
  - vm_compute. discriminate.
  - vm_compute. reflexivity.
  - vm_compute. reflexivity.
  - split; [apply (bool_decide_unpack _); vm_compute; reflexivity|].
    right. exists (bs "Host: "), 97. split; [reflexivity|lia].
  - by repeat constructor.
  - right. split; [reflexivity|]. exists 72, (bs "ost: a"). split; [reflexivity|lia].
  - exists r2. split; [exact Hr|exact E].
Defined.
