(* ===== verification/Config.v ===== *)
(** config.c: the configuration file.  Lines are read into a local array of 1025
    bytes that keeps what earlier lines left in it, and the code walks over that
    array with pointers; so the array, whose first contents are indeterminate, is
    passed along here, and an access behind its end is [Undef].  A function
    pointer of the keyword table is a function; the pointer to the variable it
    sets is part of it. *)

From S2P Require Import Prelude Types Machine Buffer Util Hash Access Alias CgiHeader.
From S2P Require Import Cgi.

(** * The C library *)

(** [strcasecmp (s, t) == 0]. *)
Definition strcaseeq (s t : bytes) : bool :=
  bool_decide (tolower <$> s = tolower <$> t).

(** The first line of a text, at most [n] characters of it, and the rest. *)
Fixpoint fgets_line (n : nat) (text : bytes) : bytes * bytes :=
  match n, text with
  | O, _ | _, [] => ([], text)
  | S n', c :: t =>
      if c =? 10 then ([c], t)
      else let '(l, r) := fgets_line n' t in (c :: l, r)
  end.

(** [fgets (buf, size, f)]: the array and the rest of the stream; [None] at the
    end of the file. *)
Definition fgets (size : Z) (buf : bytes) (text : bytes) : option (option bytes * bytes) :=
  match text with
  | [] => None
  | _ => let '(l, rest) := fgets_line (Z.to_nat (size - 1)) text in
         Some (blit buf 0 (l ++ [0]), rest)
  end.

(** A digit of strtol, in a base up to 16. *)
Definition digit_of (base c : Z) : option Z :=
  let d := if isdigit c then c - 48
           else if isalpha c then tolower c - 97 + 10
           else base in
  if d <? base then Some d else None.

Fixpoint strtol_digits (base : Z) (s : bytes) (acc : Z) : Z * bytes :=
  match s with
  | [] => (acc, [])
  | c :: s' =>
      match digit_of base c with
      | Some d => strtol_digits base s' (acc * base + d)
      | None => (acc, s)
      end
  end.

(** [strtol (s, &endptr, 0)]: the number and what is behind it; without a digit
    nothing is read. *)
Definition strtol (s : bytes) : Z * bytes :=
  let s1 := skip_spaces s in
  let '(neg, s2) := match s1 with
                    | 45 :: t => (true, t)
                    | 43 :: t => (false, t)
                    | _ => (false, s1)
                    end in
  let hex := match s2 with
             | 48 :: x :: d :: _ =>
                 (tolower x =? 120) && bool_decide (is_Some (digit_of 16 d))
             | _ => false
             end in
  let '(base, s3) := if hex then (16, zdrop 2 s2)
                     else match s2 with 48 :: _ => (8, s2) | _ => (10, s2) end in
  match s3 with
  | c :: _ =>
      match digit_of base c with
      | None => (0, s)
      | Some _ =>
          let '(n, rest) := strtol_digits base s3 0 in
          (long_clamp (if (neg : bool) then - n else n), rest)
      end
  | [] => (0, s)
  end.

(** The number a whole string stands for: [*v1 != 0 && *endptr == 0]. *)
Definition strtol_all (s : bytes) : option Z :=
  match s with
  | [] => None
  | _ => let '(n, rest) := strtol s in
         match rest with [] => Some (i32 n) | _ => None end
  end.

(** * Pointers into the line *)

(** [while (!isspace ( *c)) ++c]: it does not stop at a NUL. *)
Fixpoint find_space (fuel : nat) (a : bytes) (c : Z) : option Z :=
  match fuel with
  | O => None
  | S fuel' => x ← zget a c; if isspace x then Some c else find_space fuel' a (c + 1)
  end.

(** [while (isspace ( *c)) ++c]. *)
Fixpoint skip_space (fuel : nat) (a : bytes) (c : Z) : option Z :=
  match fuel with
  | O => None
  | S fuel' => x ← zget a c; if isspace x then skip_space fuel' a (c + 1) else Some c
  end.

(** The loop of [trim] from the position [c] on, backwards. *)
Fixpoint trim_loop (fuel : nat) (a : bytes) (c : Z) : option bytes :=
  match fuel with
  | O => None
  | S fuel' =>
      x ← zget a c;
      if isspace x && (0 <? c) then a' ← blit a c [0]; trim_loop fuel' a' (c - 1)
      else Some a
  end.

Definition trim (a : bytes) : option bytes :=
  s ← cstr a 0; trim_loop (length a) a (zlen s - 1).

Section config.
Context {os : OS}.

(** An uninitialized local array. *)
Definition local_array (n : Z) : M bytes :=
  ask (fun w => (fun i => u8 (os_stack w (Z.of_nat i))) <$> seq 0 (Z.to_nat n)).

(** * The actions *)

Definition action : Type := option bytes -> option bytes -> M unit.

Definition c_add_cgi_env : action := fun v1 v2 =>
  k ← checked v1; add_to_common_env k (default [] v2).

(** [c_set_user] and [c_set_group]: a number or a name; an unknown name is fatal
    for root. *)
Definition c_set_id (lookup : bytes -> world -> option Z * world)
    (set : Z -> server -> server) : action := fun v1 _ =>
  v ← checked v1;
  match strtol_all v with
  | Some i => upd_srv (set (u32 i))
  | None =>
      id ← call (lookup v);
      match id with
      | Some i => upd_srv (set i)
      | None => g ← srv; if negb (current_uid g =? 0) then mret tt else die
      end
  end.
Definition c_set_user : action := c_set_id os_pwnam_uid set_server_uid.
Definition c_set_group : action := c_set_id os_grnam_gid set_server_gid.

(** [at_] is where the old string is: a literal must not be freed. *)
Definition c_set_string (at_ : server -> storage) (set : bytes -> server -> server) : action :=
  fun v1 _ =>
  v ← checked v1;
  g ← srv;
  match at_ g with
  | Literal => undef
  | _ =>
      ok ← call (os_malloc (zlen v + 1));
      if negb ok then die else upd_srv (set v)
  end.

Definition c_set_int (set : Z -> server -> server) : action := fun v1 _ =>
  v ← checked v1;
  match strtol_all v with
  | Some i => upd_srv (set i)
  | None => mret tt
  end.

Definition c_set_unity (set : bool -> server -> server) : action := fun _ _ => upd_srv (set true).

Definition c_add_mime_type : action := fun v1 v2 =>
  t ← checked v1;
  match v2 with
  | Some e => add_mime_type e t
  | None => die
  end.

Definition c_add_alias (type : ALIAS_TYPE) : action := fun v1 v2 =>
  f ← checked v1;
  match v2 with
  | Some r => add_alias f r type
  | None => die
  end.

Definition c_add_access (type : access_type) : action := fun v1 _ =>
  p ← checked v1; access_add p type.

Definition c_set_cgi_strip_token : action := fun v1 _ =>
  t ← checked v1; cgi_strip_add_token t.

(** The types of a line of the mime.types file, behind its array position [p]: the
    characters up to one of [alnum]. *)
Fixpoint next_extension (fuel : nat) (a : bytes) (p : Z) : option Z :=
  match fuel with
  | O => None
  | S fuel' =>
      x ← zget a p;
      if (x =? 0) || isalnum x then Some p else next_extension fuel' a (p + 1)
  end.

(** [strcspn (s, "\t ")]. *)
Fixpoint word_length (s : bytes) : Z :=
  match s with
  | [] => 0
  | c :: s' => if (c =? 9) || (c =? 32) then 0 else 1 + word_length s'
  end.

(** The loop over the extensions at [p]. *)
Fixpoint add_extensions (fuel : nat) (type : bytes) (a : bytes) (p : Z) : M bytes :=
  match fuel with
  | O => undef
  | S fuel' =>
      s ← checked (cstr a p);
      let len := word_length s in
      if len =? 0 then mret a
      else
        a' ← checked (blit a (p + len) [0]);
        e ← checked (cstr a' p);
        add_mime_type e type ;;
        p' ← checked (next_extension (length a') a' (p + len + 1));
        add_extensions fuel' type a' p'
  end.

(** One line of the file. *)
Definition mime_line (a : bytes) : M bytes :=
  s ← checked (cstr a 0);
  match s with
  | [] => mret a
  | c :: _ =>
      if (c =? 35) || (c =? 10) then mret a
      else
        a ← checked (match strchr s 10 with Some i => blit a i [0] | None => Some a end);
        s ← checked (cstr a 0);
        let len := word_length s in
        if len =? 0 then mret a
        else
          a ← checked (blit a len [0]);
          type ← checked (cstr a 0);
          p ← checked (next_extension (length a) a (len + 1));
          add_extensions (length a) type a p
  end.

Fixpoint mime_lines (fuel : nat) (a text : bytes) : M unit :=
  match fgets 255 a text with
  | None => mret tt
  | Some (a, rest) =>
      match fuel with
      | O => undef
      | S fuel' => a ← checked a; a ← mime_line a; mime_lines fuel' a rest
      end
  end.

Definition c_add_mime_types_file : action := fun v1 _ =>
  path ← checked v1;
  f ← call (os_text path);
  match f with
  | None => die
  | Some text => a ← local_array 256; mime_lines (length text) a text
  end.

(** * The keywords *)

Inductive stmt := STMT_NO_ARGS | STMT_ONE_ARG | STMT_TWO_ARGS.

Record ccommand := mkCommand { keyword : bytes; type : stmt; act : action }.

(** A variable that is NULL or points to a string of strdup. *)
Definition opt_string (set : option bytes -> server -> server) : action :=
  c_set_string (fun _ => Malloced) (fun v => set (Some v)).

Definition set_server_name_var (v : bytes) (g : server) : server :=
  set_server_name_at Malloced (set_server_name v g).
Definition set_default_type_var (v : bytes) (g : server) : server :=
  set_default_type_at Malloced (set_default_type v g).
Definition set_default_vhost_var (v : bytes) (g : server) : server :=
  set_default_vhost_at Malloced (set_default_vhost v g).

(** A variable of type unsigned. *)
Definition set_unsigned (set : Z -> server -> server) : action :=
  c_set_int (fun i => set (u32 i)).

Definition clist : list ccommand := [
  mkCommand (bs "Port") STMT_ONE_ARG (set_unsigned set_server_port);
  mkCommand (bs "Listen") STMT_ONE_ARG (opt_string set_server_ip);
  mkCommand (bs "BackLog") STMT_ONE_ARG (c_set_int set_backlog);
  mkCommand (bs "User") STMT_ONE_ARG c_set_user;
  mkCommand (bs "Group") STMT_ONE_ARG c_set_group;
  mkCommand (bs "ServerAdmin") STMT_ONE_ARG (opt_string set_server_admin);
  mkCommand (bs "ServerRoot") STMT_ONE_ARG (opt_string set_server_root);
  mkCommand (bs "UseLocaltime") STMT_NO_ARGS (c_set_unity set_use_localtime);
  mkCommand (bs "ErrorLog") STMT_ONE_ARG (opt_string set_error_log_name);
  mkCommand (bs "AccessLog") STMT_ONE_ARG (opt_string set_access_log_name);
  mkCommand (bs "CgiLog") STMT_ONE_ARG (opt_string set_cgi_log_name);
  mkCommand (bs "CGILog") STMT_ONE_ARG (opt_string set_cgi_log_name);
  mkCommand (bs "VerboseCGILogs") STMT_NO_ARGS (c_set_unity set_verbose_cgi_logs);
  mkCommand (bs "ServerName") STMT_ONE_ARG (c_set_string server_name_at set_server_name_var);
  mkCommand (bs "VirtualHost") STMT_NO_ARGS (c_set_unity set_virtualhost);
  mkCommand (bs "VHostRoot") STMT_ONE_ARG (opt_string set_vhost_root);
  mkCommand (bs "DefaultVHost") STMT_ONE_ARG
    (c_set_string default_vhost_at set_default_vhost_var);
  mkCommand (bs "DocumentRoot") STMT_ONE_ARG (opt_string set_document_root);
  mkCommand (bs "UserDir") STMT_ONE_ARG (opt_string set_user_dir);
  mkCommand (bs "DirectoryIndex") STMT_ONE_ARG (opt_string set_directory_index);
  mkCommand (bs "DirectoryMaker") STMT_ONE_ARG (opt_string set_dirmaker);
  mkCommand (bs "DirectoryCache") STMT_ONE_ARG (opt_string set_cachedir);
  mkCommand (bs "PidFile") STMT_ONE_ARG (opt_string set_pid_file);
  mkCommand (bs "KeepAliveMax") STMT_ONE_ARG (set_unsigned set_ka_max);
  mkCommand (bs "KeepAliveTimeout") STMT_ONE_ARG (c_set_int set_ka_timeout);
  mkCommand (bs "MimeTypes") STMT_ONE_ARG c_add_mime_types_file;
  mkCommand (bs "DefaultType") STMT_ONE_ARG (c_set_string default_type_at set_default_type_var);
  mkCommand (bs "DefaultCharset") STMT_ONE_ARG (opt_string set_default_charset);
  mkCommand (bs "AddType") STMT_TWO_ARGS c_add_mime_type;
  mkCommand (bs "ScriptAlias") STMT_TWO_ARGS (c_add_alias SCRIPTALIAS);
  mkCommand (bs "Redirect") STMT_TWO_ARGS (c_add_alias REDIRECT);
  mkCommand (bs "Alias") STMT_TWO_ARGS (c_add_alias ALIAS);
  mkCommand (bs "SinglePostLimit") STMT_ONE_ARG (c_set_int set_single_post_limit);
  mkCommand (bs "CGIPath") STMT_ONE_ARG (opt_string set_cgi_path);
  mkCommand (bs "CGILdLibraryPath") STMT_ONE_ARG (opt_string set_cgi_ld_library_path);
  mkCommand (bs "CGIumask") STMT_ONE_ARG (set_unsigned set_cgi_umask);
  mkCommand (bs "MaxConnections") STMT_ONE_ARG (set_unsigned set_max_connections);
  mkCommand (bs "ConcealServerIdentity") STMT_NO_ARGS (c_set_unity set_conceal_server_identity);
  mkCommand (bs "Allow") STMT_ONE_ARG (c_add_access ACCESS_ALLOW);
  mkCommand (bs "Deny") STMT_ONE_ARG (c_add_access ACCESS_DENY);
  mkCommand (bs "CGIEnv") STMT_TWO_ARGS c_add_cgi_env;
  mkCommand (bs "CGIStripPrefix") STMT_NO_ARGS (c_set_unity set_cgi_strip_prefix);
  mkCommand (bs "CGIStripToken") STMT_ONE_ARG c_set_cgi_strip_token
].

Definition lookup_keyword (c : bytes) : option ccommand :=
  List.find (fun p => strcaseeq c (keyword p)) clist.

(** * Lines *)

(** [args] is a position of the array. *)
Definition apply_command (p : ccommand) (a : bytes) (args : Z) : M bytes :=
  match type p with
  | STMT_NO_ARGS => act p None None ;; mret a
  | STMT_ONE_ARG => v ← checked (cstr a args); act p (Some v) None ;; mret a
  | STMT_TWO_ARGS =>
      args ← checked (skip_space (length a) a args);
      x ← checked (zget a args);
      if x =? 0 then die
      else
        second ← checked (find_space (length a) a args);
        a ← checked (blit a second [0]);
        second ← checked (skip_space (length a) a (second + 1));
        v1 ← checked (cstr a args);
        v2 ← checked (cstr a second);
        act p (Some v1) (match v2 with [] => None | _ => Some v2 end) ;;
        mret a
  end.

(** The body of the loop of [parse]. *)
Definition parse_line (a : bytes) : M bytes :=
  x ← checked (zget a 0);
  if (x =? 0) || (x =? 35) || (x =? 10) then mret a
  else
    a ← checked (trim a);
    x ← checked (zget a 0);
    if x =? 0 then mret a
    else
      c ← checked (find_space (length a) a 0);
      a ← checked (blit a c [0]);
      k ← checked (cstr a 0);
      match lookup_keyword k with
      | None => die
      | Some p => apply_command p a (c + 1)
      end.

Fixpoint parse_lines (fuel : nat) (a text : bytes) : M unit :=
  match fgets 1024 a text with
  | None => mret tt
  | Some (a, rest) =>
      match fuel with
      | O => undef
      | S fuel' => a ← checked a; a ← parse_line a; parse_lines fuel' a rest
      end
  end.

Definition parse (text : bytes) : M unit :=
  a ← local_array 1025;
  uid ← ask os_getuid;
  upd_srv (set_current_uid uid) ;;
  parse_lines (length text) a text.

(** * read_config_files *)

Definition DEFAULT_VHOST : bytes := bs "default".
Definition DEFAULT_CONFIG_FILE : bytes := bs "boa.conf".

Definition find_server_name : M unit :=
  g ← srv;
  match server_name_at g with
  | Null =>
      n ← call os_gethostname;
      match n with
      | None => die
      | Some n =>
          he ← call (os_gethostbyname n);
          match he with
          | None => die
          | Some h =>
              ok ← call (os_malloc (zlen h + 1));
              if negb ok then die else upd_srv (set_server_name_var h)
          end
      end
  | _ => mret tt
  end.

Definition find_tempdir : M unit :=
  tmp ← ask (os_getenv (bs "TMP"));
  upd_srv (set_tempdir (default (bs "/tmp") tmp)).

Definition find_default_vhost : M unit :=
  g ← srv;
  match default_vhost_at g with
  | Null => upd_srv (fun g => set_default_vhost_at Literal (set_default_vhost DEFAULT_VHOST g))
  | _ => mret tt
  end.

(** The number of connections is limited by the descriptors of select. *)
Definition limit_connections : M unit :=
  g ← srv;
  (if max_connections g <? 1 then
     c ← ask os_rlimit_nofile;
     match c with
     | None => die
     | Some n => upd_srv (set_max_connections (u32 n))
     end
   else mret tt) ;;
  g ← srv;
  if FD_SETSIZE - 20 <? max_connections g
  then upd_srv (set_max_connections (FD_SETSIZE - 20)) else mret tt.

(** The values that are checked, adjusted or required. *)
Definition check_config : M unit :=
  find_server_name ;;
  find_tempdir ;;
  g ← srv;
  if single_post_limit g <? 0 then die
  else if bool_decide (is_Some (vhost_root g)) && virtualhost g then die
  else if bool_decide (is_Some (vhost_root g)) && bool_decide (is_Some (document_root g)) then die
  else
    find_default_vhost ;;
    limit_connections ;;
    g ← srv;
    (if ka_timeout g <? 0 then upd_srv (set_ka_timeout 0) else mret tt) ;;
    g ← srv;
    upd_srv (set_default_timeout (if ka_timeout g =? 0 then REQUEST_TIMEOUT else ka_timeout g)) ;;
    g ← srv;
    if bool_decide (default_type_at g = Null) then die else mret tt.

Definition read_config_files : M unit :=
  uid ← ask os_getuid;
  upd_srv (set_current_uid uid) ;;
  upd_srv (fun g => match config_file_name g with
                    | None => set_config_file_name (Some DEFAULT_CONFIG_FILE) g
                    | Some _ => g
                    end) ;;
  access_init ;;
  g ← srv;
  name ← checked (config_file_name g);
  config ← call (os_text name);
  match config with
  | None => die
  | Some text => parse text ;; check_config
  end.
End config.
