(* ===== verification/Frame.v ===== *)
(** What the handlers of a request leave alone: the heap, the queues and the
    number of connections, and the links of the request they work on.  The
    statements are used by the proofs about the queues. *)

From S2P Require Import Prelude Types Machine Buffer Util Dates Hash Response Range.
From S2P Require Import Access Mmap Alias Pointer Log Signals CgiHeader Cgi Pipe Get.
From S2P Require Import Parse Read.
From S2P Require Import Config.

(** The part of the globals that belongs to the queues. *)
Definition queue_view (g : server) :=
  (heap g, fresh g, (request_ready g, request_block g, request_free g), total_connections g).

Create HintDb keeps.

Section frame.
Context {os : OS}.

(** [wlp m Q s]: if [m] returns when it is run from [s], it does so in a state
    that satisfies [Q].  What a handler leaves alone is stated this way, because
    some of them have runs that do not return. *)
Definition wlp {A} (m : M A) (Q : A -> St -> Prop) (s : St) : Prop :=
  match m s with Ret a s' => Q a s' | _ => True end.

Lemma wlp_ret {A} (a : A) (Q : A -> St -> Prop) s : Q a s -> wlp (mret a) Q s.
Proof. done. Qed.

Lemma wlp_bind {A B} (m : M A) (k : A -> M B) (Q : B -> St -> Prop) s :
  wlp m (fun a s' => wlp (k a) Q s') s -> wlp (m ≫= k) Q s.
Proof. unfold wlp, mbind, M_bind. by destruct (m s). Qed.

Lemma wlp_mono {A} (m : M A) (Q Q' : A -> St -> Prop) s :
  wlp m Q s -> (forall a s', Q a s' -> Q' a s') -> wlp m Q' s.
Proof. unfold wlp. destruct (m s); eauto. Qed.

Lemma wlp_call {A} (f : world -> A * world) (Q : A -> St -> Prop) s :
  (forall a w, Q a (mkSt (rq s) (sv s) w)) -> wlp (call f) Q s.
Proof. unfold wlp, call. destruct (f (wd s)). eauto. Qed.

Lemma wlp_call_eq {A} (f : world -> A * world) (Q : A -> St -> Prop) s :
  (forall a w, f (wd s) = (a, w) -> Q a (mkSt (rq s) (sv s) w)) -> wlp (call f) Q s.
Proof. unfold wlp, call. destruct (f (wd s)). eauto. Qed.

Lemma wlp_ask {A} (f : world -> A) (Q : A -> St -> Prop) s : Q (f (wd s)) s -> wlp (ask f) Q s.
Proof. done. Qed.

Lemma wlp_req (Q : request -> St -> Prop) s : Q (rq s) s -> wlp req Q s.
Proof. done. Qed.

Lemma wlp_srv (Q : server -> St -> Prop) s : Q (sv s) s -> wlp srv Q s.
Proof. done. Qed.

Lemma wlp_upd_srv f (Q : unit -> St -> Prop) s :
  Q tt (mkSt (rq s) (f (sv s)) (wd s)) -> wlp (upd_srv f) Q s.
Proof. done. Qed.

Lemma wlp_checked {A} (o : option A) (Q : A -> St -> Prop) s :
  (forall a, o = Some a -> Q a s) -> wlp (checked o) Q s.
Proof. unfold wlp. destruct o; simpl; auto. Qed.

Definition kept (s s' : St) : Prop :=
  queue_view (sv s') = queue_view (sv s) /\
  next (rq s') = next (rq s) /\ prev (rq s') = prev (rq s).

(** [m] leaves the queues and the links alone. *)
Definition keeps {A} (m : M A) : Prop := forall s, wlp m (fun _ => kept s) s.

Lemma kept_refl s : kept s s.
Proof. done. Qed.

Lemma kept_trans s1 s2 s3 : kept s1 s2 -> kept s2 s3 -> kept s1 s3.
Proof. unfold kept. intuition congruence. Qed.

Lemma keeps_ret {A} (a : A) : keeps (mret a).
Proof. intros s. apply kept_refl. Qed.

Lemma keeps_bind {A B} (m : M A) (k : A -> M B) :
  keeps m -> (forall a, keeps (k a)) -> keeps (m ≫= k).
Proof.
  intros Hm Hk s. apply wlp_bind. eapply wlp_mono; [apply Hm|]. intros a s1 H1.
  eapply wlp_mono; [apply Hk|]. intros b s2. by apply kept_trans.
Qed.

Lemma keeps_req : keeps req.
Proof. intros s. apply kept_refl. Qed.
Lemma keeps_srv : keeps srv.
Proof. intros s. apply kept_refl. Qed.
Lemma keeps_call {A} (f : world -> A * world) : keeps (call f).
Proof. intros s. by apply wlp_call. Qed.
Lemma keeps_call_ f : keeps (call_ f).
Proof. by intros s. Qed.
Lemma keeps_die {A} : keeps (die (A := A)).
Proof. done. Qed.
Lemma keeps_undef {A} : keeps (undef (A := A)).
Proof. done. Qed.
Lemma keeps_checked {A} (o : option A) : keeps (checked o).
Proof. intros s. by apply wlp_checked. Qed.

Lemma keeps_upd f :
  (forall r, next (f r) = next r /\ prev (f r) = prev r) -> keeps (upd f).
Proof. intros H s. split; [done|apply H]. Qed.

Lemma keeps_upd_srv f :
  (forall g, queue_view (f g) = queue_view g) -> keeps (upd_srv f).
Proof. intros H s. split; [apply H|done]. Qed.

(** A read of the world. *)
Lemma keeps_world {A} (f : world -> A) : keeps (ask f).
Proof. intros s. apply kept_refl. Qed.
End frame.

#[export] Hint Resolve keeps_ret keeps_req keeps_srv keeps_call keeps_call_ keeps_die
  keeps_undef keeps_checked keeps_world : keeps.

(** The composition rules along the program text; a function that is not in the
    database is unfolded. *)
Ltac unfold_head t :=
  lazymatch t with
  | ?f _ => unfold_head f
  | _ => unfold t
  end.
Ltac keeps_step :=
  lazymatch goal with
  | |- keeps (mbind _ _) => apply keeps_bind; [|intros ?]
  | |- keeps (upd _) =>
      apply keeps_upd; let r := fresh "r" in intros r;
      repeat match goal with |- context [match ?x with _ => _ end] => destruct x end; split; done
  | |- keeps (upd_srv _) =>
      apply keeps_upd_srv; let g := fresh "g" in intros g;
      repeat match goal with |- context [match ?x with _ => _ end] => destruct x end; done
  | |- keeps (match ?x with _ => _ end) => destruct x
  | |- keeps (let _ := _ in _) => cbv zeta
  | |- keeps ?m => first [solve [auto 1 with keeps nocore] | unfold_head m]
  end.
Ltac keeps := intros; repeat keeps_step.

(** Symbolic execution for [wlp], up to the next part that needs an argument. *)
Ltac wlp_step :=
  lazymatch goal with
  | |- wlp (mbind _ req) _ _ => apply wlp_bind, wlp_req
  | |- wlp (mbind _ srv) _ _ => apply wlp_bind, wlp_srv
  | |- wlp (mbind _ (upd_srv _)) _ _ => apply wlp_bind, wlp_upd_srv
  | |- wlp (mbind _ (ask _)) _ _ => apply wlp_bind, wlp_ask
  | |- wlp (mbind _ (checked _)) _ _ => apply wlp_bind, wlp_checked
  | |- wlp (mbind _ (call _)) _ _ => apply wlp_bind, wlp_call
  | |- wlp (mbind _ (mret _)) _ _ => apply wlp_bind, wlp_ret
  | |- wlp (mret _) _ _ => apply wlp_ret
  | |- wlp (upd_srv _) _ _ => apply wlp_upd_srv
  | |- wlp (let _ := _ in _) _ _ => cbv zeta
  end; cbn [rq sv wd].
Ltac wlps := repeat wlp_step.

Section handlers.
Context {os : OS}.

(** ** buffer.c *)

Lemma keeps_buffer_write i l : keeps (buffer_write i l).
Proof. keeps. Qed.
#[local] Hint Resolve keeps_buffer_write : keeps.

Lemma keeps_req_write l : keeps (req_write l).
Proof. keeps. Qed.
#[local] Hint Resolve keeps_req_write : keeps.

Lemma keeps_req_write_escape_http l : keeps (req_write_escape_http l).
Proof. keeps. Qed.
#[local] Hint Resolve keeps_req_write_escape_http : keeps.

Lemma keeps_req_write_escape_html l : keeps (req_write_escape_html l).
Proof. keeps. Qed.
#[local] Hint Resolve keeps_req_write_escape_html : keeps.

Lemma keeps_load a i n : keeps (load a i n).
Proof. keeps. Qed.
#[local] Hint Resolve keeps_load : keeps.

Lemma keeps_req_flush : keeps req_flush.
Proof. keeps. Qed.
#[local] Hint Resolve keeps_req_flush : keeps.

Lemma keeps_escape_string inp given : keeps (escape_string inp given).
Proof. keeps. Qed.
#[local] Hint Resolve keeps_escape_string : keeps.

(** ** util.c, hash.c *)

Lemma keeps_create_temporary_file w st : keeps (create_temporary_file w st).
Proof. keeps. Qed.
#[local] Hint Resolve keeps_create_temporary_file : keeps.

Lemma keeps_hash_insert t h k v : keeps (hash_insert t h k v).
Proof. keeps. Qed.
#[local] Hint Resolve keeps_hash_insert : keeps.

Lemma keeps_hash_find t k h : keeps (hash_find t k h).
Proof. keeps. Qed.
#[local] Hint Resolve keeps_hash_find : keeps.

Lemma keeps_get_mime_type f : keeps (get_mime_type f).
Proof. keeps. Qed.
#[local] Hint Resolve keeps_get_mime_type : keeps.

Lemma keeps_get_home_dir n : keeps (get_home_dir n).
Proof. keeps. Qed.
#[local] Hint Resolve keeps_get_home_dir : keeps.

(** ** response.c *)

Lemma keeps_put msg : keeps (put msg).
Proof. keeps. Qed.
#[local] Hint Resolve keeps_put : keeps.

Lemma keeps_put_html msg : keeps (put_html msg).
Proof. keeps. Qed.
#[local] Hint Resolve keeps_put_html : keeps.

Lemma keeps_put_http msg : keeps (put_http msg).
Proof. keeps. Qed.
#[local] Hint Resolve keeps_put_http : keeps.

Lemma keeps_flush_ : keeps flush_.
Proof. keeps. Qed.
#[local] Hint Resolve keeps_flush_ : keeps.

Lemma keeps_SQUASH_KA : keeps SQUASH_KA.
Proof. keeps. Qed.
#[local] Hint Resolve keeps_SQUASH_KA : keeps.

Lemma keeps_uri : keeps uri.
Proof. keeps. Qed.
#[local] Hint Resolve keeps_uri : keeps.

Lemma keeps_print_content_type : keeps print_content_type.
Proof. keeps. Qed.
#[local] Hint Resolve keeps_print_content_type : keeps.

Lemma keeps_print_content_length : keeps print_content_length.
Proof. keeps. Qed.
#[local] Hint Resolve keeps_print_content_length : keeps.

Lemma keeps_print_last_modified : keeps print_last_modified.
Proof. keeps. Qed.
#[local] Hint Resolve keeps_print_last_modified : keeps.

Lemma keeps_print_ka_phrase : keeps print_ka_phrase.
Proof. keeps. Qed.
#[local] Hint Resolve keeps_print_ka_phrase : keeps.

Lemma keeps_print_http_headers : keeps print_http_headers.
Proof. keeps. Qed.
#[local] Hint Resolve keeps_print_http_headers : keeps.

Lemma keeps_first_range : keeps first_range.
Proof. keeps. Qed.
#[local] Hint Resolve keeps_first_range : keeps.

Lemma keeps_print_content_range : keeps print_content_range.
Proof. keeps. Qed.
#[local] Hint Resolve keeps_print_content_range : keeps.

Lemma keeps_print_partial_content_continue : keeps print_partial_content_continue.
Proof. keeps. Qed.
#[local] Hint Resolve keeps_print_partial_content_continue : keeps.

Lemma keeps_print_partial_content_done : keeps print_partial_content_done.
Proof. keeps. Qed.
#[local] Hint Resolve keeps_print_partial_content_done : keeps.

Lemma keeps_range_pool_push rg : keeps (range_pool_push rg).
Proof. keeps. Qed.
#[local] Hint Resolve keeps_range_pool_push : keeps.

Lemma keeps_complete_response : keeps complete_response.
Proof. keeps. Qed.
#[local] Hint Resolve keeps_complete_response : keeps.

Lemma keeps_put_status msg : keeps (put_status msg).
Proof. keeps. Qed.
#[local] Hint Resolve keeps_put_status : keeps.

Lemma keeps_unless_http09 m : keeps m -> keeps (unless_http09 m).
Proof. keeps. Qed.
#[local] Hint Resolve keeps_unless_http09 : keeps.

Lemma keeps_unless_head m : keeps m -> keeps (unless_head m).
Proof. keeps. Qed.
#[local] Hint Resolve keeps_unless_head : keeps.

Lemma keeps_send_r_continue : keeps send_r_continue.
Proof. keeps. Qed.
#[local] Hint Resolve keeps_send_r_continue : keeps.

Lemma keeps_send_r_request_ok : keeps send_r_request_ok.
Proof. keeps. Qed.
#[local] Hint Resolve keeps_send_r_request_ok : keeps.

Lemma keeps_send_r_no_content : keeps send_r_no_content.
Proof. keeps. Qed.
#[local] Hint Resolve keeps_send_r_no_content : keeps.

Lemma keeps_send_r_partial_content : keeps send_r_partial_content.
Proof. keeps. Qed.
#[local] Hint Resolve keeps_send_r_partial_content : keeps.

Lemma keeps_send_r_moved_perm u : keeps (send_r_moved_perm u).
Proof. keeps. Qed.
#[local] Hint Resolve keeps_send_r_moved_perm : keeps.

Lemma keeps_send_r_moved_temp u h : keeps (send_r_moved_temp u h).
Proof. keeps. Qed.
#[local] Hint Resolve keeps_send_r_moved_temp : keeps.

Lemma keeps_send_r_not_modified : keeps send_r_not_modified.
Proof. keeps. Qed.
#[local] Hint Resolve keeps_send_r_not_modified : keeps.

Lemma keeps_send_r_bad_request : keeps send_r_bad_request.
Proof. keeps. Qed.
#[local] Hint Resolve keeps_send_r_bad_request : keeps.

Lemma keeps_send_r_unauthorized n : keeps (send_r_unauthorized n).
Proof. keeps. Qed.
#[local] Hint Resolve keeps_send_r_unauthorized : keeps.

Lemma keeps_send_r_forbidden : keeps send_r_forbidden.
Proof. keeps. Qed.
#[local] Hint Resolve keeps_send_r_forbidden : keeps.

Lemma keeps_send_r_not_found : keeps send_r_not_found.
Proof. keeps. Qed.
#[local] Hint Resolve keeps_send_r_not_found : keeps.

Lemma keeps_send_r_length_required : keeps send_r_length_required.
Proof. keeps. Qed.
#[local] Hint Resolve keeps_send_r_length_required : keeps.

Lemma keeps_send_r_precondition_failed : keeps send_r_precondition_failed.
Proof. keeps. Qed.
#[local] Hint Resolve keeps_send_r_precondition_failed : keeps.

Lemma keeps_send_r_request_uri_too_long : keeps send_r_request_uri_too_long.
Proof. keeps. Qed.
#[local] Hint Resolve keeps_send_r_request_uri_too_long : keeps.

Lemma keeps_send_r_invalid_range : keeps send_r_invalid_range.
Proof. keeps. Qed.
#[local] Hint Resolve keeps_send_r_invalid_range : keeps.

Lemma keeps_send_r_error : keeps send_r_error.
Proof. keeps. Qed.
#[local] Hint Resolve keeps_send_r_error : keeps.

Lemma keeps_send_r_not_implemented : keeps send_r_not_implemented.
Proof. keeps. Qed.
#[local] Hint Resolve keeps_send_r_not_implemented : keeps.

Lemma keeps_send_r_bad_gateway : keeps send_r_bad_gateway.
Proof. keeps. Qed.
#[local] Hint Resolve keeps_send_r_bad_gateway : keeps.

Lemma keeps_send_r_service_unavailable : keeps send_r_service_unavailable.
Proof. keeps. Qed.
#[local] Hint Resolve keeps_send_r_service_unavailable : keeps.

Lemma keeps_send_r_bad_version v : keeps (send_r_bad_version v).
Proof. keeps. Qed.
#[local] Hint Resolve keeps_send_r_bad_version : keeps.

(** ** range.c *)

Lemma keeps_ranges_reset : keeps ranges_reset.
Proof. keeps. Qed.
#[local] Hint Resolve keeps_ranges_reset : keeps.

Lemma keeps_range_abort : keeps range_abort.
Proof. keeps. Qed.
#[local] Hint Resolve keeps_range_abort : keeps.

Lemma keeps_range_add a b : keeps (range_add a b).
Proof. keeps. Qed.
#[local] Hint Resolve keeps_range_add : keeps.

Lemma keeps_fixup_loop n l : keeps (fixup_loop n l).
Proof. induction l; simpl; keeps. Qed.
#[local] Hint Resolve keeps_fixup_loop : keeps.

Lemma keeps_push_all l : keeps (push_all l).
Proof. induction l; simpl; keeps. Qed.
#[local] Hint Resolve keeps_push_all : keeps.

Lemma keeps_ranges_fixup : keeps ranges_fixup.
Proof. keeps. Qed.
#[local] Hint Resolve keeps_ranges_fixup : keeps.

Lemma keeps_range_loop s m a b : keeps (range_loop s m a b).
Proof. revert m a b; induction s; intros; simpl; keeps. Qed.
#[local] Hint Resolve keeps_range_loop : keeps.

Lemma keeps_range_parse s : keeps (range_parse s).
Proof. keeps. Qed.
#[local] Hint Resolve keeps_range_parse : keeps.

(** ** access.c, mmap_cache.c *)

Lemma keeps_access_allow f : keeps (access_allow f).
Proof. keeps. Qed.
#[local] Hint Resolve keeps_access_allow : keeps.

Lemma keeps_mmap_probe fuel st a i : keeps (mmap_probe fuel st a i).
Proof. revert i; induction fuel; intros; simpl; keeps. Qed.
#[local] Hint Resolve keeps_mmap_probe : keeps.

Lemma keeps_find_mmap d st : keeps (find_mmap d st).
Proof. keeps. Qed.
#[local] Hint Resolve keeps_find_mmap : keeps.

Lemma keeps_release_mmap e : keeps (release_mmap e).
Proof. keeps. Qed.
#[local] Hint Resolve keeps_release_mmap : keeps.

(** ** alias.c *)

Lemma keeps_boa_perror : keeps boa_perror.
Proof. keeps. Qed.
#[local] Hint Resolve keeps_boa_perror : keeps.

Lemma keeps_strdup_to set v :
  (forall o r, next (set o r) = next r /\ prev (set o r) = prev r) -> keeps (strdup_to set v).
Proof. intros H. unfold strdup_to. keeps; apply keeps_upd; auto. Qed.
#[local] Hint Extern 1 (keeps (strdup_to _ _)) => apply keeps_strdup_to; done : keeps.

Lemma keeps_find_alias u : keeps (find_alias u).
Proof. keeps. Qed.
#[local] Hint Resolve keeps_find_alias : keeps.

Lemma keeps_poke i c : keeps (poke i c).
Proof. keeps. Qed.
#[local] Hint Resolve keeps_poke : keeps.

Lemma keeps_peek i : keeps (peek i).
Proof. keeps. Qed.
#[local] Hint Resolve keeps_peek : keeps.

Lemma keeps_script_fill a n : keeps (script_fill a n).
Proof. keeps. Qed.
#[local] Hint Resolve keeps_script_fill : keeps.

Lemma keeps_script_scan fuel i : keeps (script_scan fuel i).
Proof. revert i; induction fuel; intros; simpl; keeps. Qed.
#[local] Hint Resolve keeps_script_scan : keeps.

Lemma keeps_realias b p : keeps (realias b p).
Proof. revert p; induction b; intros; simpl; keeps. Qed.
#[local] Hint Resolve keeps_realias : keeps.

Lemma keeps_script_whole : keeps script_whole.
Proof. keeps. Qed.
#[local] Hint Resolve keeps_script_whole : keeps.

Lemma keeps_translate_userdir i u : keeps (translate_userdir i u).
Proof. keeps. Qed.
#[local] Hint Resolve keeps_translate_userdir : keeps.

Lemma keeps_script_path_info i : keeps (script_path_info i).
Proof. keeps. Qed.
#[local] Hint Resolve keeps_script_path_info : keeps.

Lemma keeps_init_script_alias a n : keeps (init_script_alias a n).
Proof. keeps. Qed.
#[local] Hint Resolve keeps_init_script_alias : keeps.

Lemma keeps_translate_uri : keeps translate_uri.
Proof. keeps. Qed.
#[local] Hint Resolve keeps_translate_uri : keeps.

(** ** log.c and the pointers of a request *)

Lemma keeps_pstr p : keeps (pstr p).
Proof. keeps. Qed.
#[local] Hint Resolve keeps_pstr : keeps.

Lemma keeps_pload p n : keeps (pload p n).
Proof. keeps. Qed.
#[local] Hint Resolve keeps_pload : keeps.

Lemma keeps_pstore p l : keeps (pstore p l).
Proof.
  intros s. unfold pstore. wlps. intros r E.
  destruct p; simpl in E; [done|apply fmap_Some in E as (a & _ & ->)..]; done.
Qed.
#[local] Hint Resolve keeps_pstore : keeps.

Lemma keeps_pdiff p q : keeps (pdiff p q).
Proof. keeps. Qed.
#[local] Hint Resolve keeps_pdiff : keeps.

Lemma keeps_pstr_or p d : keeps (pstr_or p d).
Proof. keeps. Qed.
#[local] Hint Resolve keeps_pstr_or : keeps.

Lemma keeps_log_access : keeps log_access.
Proof. keeps. Qed.
#[local] Hint Resolve keeps_log_access : keeps.

(** ** cgi_header.c, cgi.c *)

Lemma keeps_buf_offset p : keeps (buf_offset p).
Proof. keeps. Qed.
#[local] Hint Resolve keeps_buf_offset : keeps.

Lemma keeps_cgi_redirect u : keeps (cgi_redirect u).
Proof. keeps. Qed.
#[local] Hint Resolve keeps_cgi_redirect : keeps.

Lemma keeps_cgi_location b l : keeps (cgi_location b l).
Proof. keeps. Qed.
#[local] Hint Resolve keeps_cgi_location : keeps.

Lemma keeps_cgi_plain c cr : keeps (cgi_plain c cr).
Proof. keeps. Qed.
#[local] Hint Resolve keeps_cgi_plain : keeps.

Lemma keeps_process_cgi_header : keeps process_cgi_header.
Proof. keeps. Qed.
#[local] Hint Resolve keeps_process_cgi_header : keeps.

Lemma keeps_set_env i v : keeps (set_env i v).
Proof. keeps. Qed.
#[local] Hint Resolve keeps_set_env : keeps.

Lemma keeps_add_cgi_env n v b : keeps (add_cgi_env n v b).
Proof. keeps. Qed.
#[local] Hint Resolve keeps_add_cgi_env : keeps.

Lemma keeps_add_all l : keeps (add_all l).
Proof. induction l as [|[]]; simpl; keeps. Qed.
#[local] Hint Resolve keeps_add_all : keeps.

Lemma keeps_copy_common e i : keeps (copy_common e i).
Proof. revert i; induction e; intros; simpl; keeps. Qed.
#[local] Hint Resolve keeps_copy_common : keeps.

Lemma keeps_env_ptr n p : keeps (env_ptr n p).
Proof. keeps. Qed.
#[local] Hint Resolve keeps_env_ptr : keeps.

Lemma keeps_request_env : keeps request_env.
Proof. keeps. Qed.
#[local] Hint Resolve keeps_request_env : keeps.

Lemma keeps_complete_env : keeps complete_env.
Proof. keeps. Qed.
#[local] Hint Resolve keeps_complete_env : keeps.

Lemma keeps_create_argv : keeps create_argv.
Proof. keeps. Qed.
#[local] Hint Resolve keeps_create_argv : keeps.

Lemma keeps_path_is_dir : keeps path_is_dir.
Proof. keeps. Qed.
#[local] Hint Resolve keeps_path_is_dir : keeps.

Lemma keeps_set_handlers l : keeps (set_handlers l).
Proof. induction l as [|p l IH]; simpl; [keeps|]. by apply keeps_bind; [keeps|]. Qed.
#[local] Hint Resolve keeps_set_handlers : keeps.

Lemma keeps_init_cgi_parent p : keeps (init_cgi_parent p).
Proof. keeps. Qed.
#[local] Hint Resolve keeps_init_cgi_parent : keeps.

Lemma keeps_cgi_pipes u : keeps (cgi_pipes u).
Proof. keeps. Qed.
#[local] Hint Resolve keeps_cgi_pipes : keeps.

Lemma keeps_init_cgi : keeps init_cgi.
Proof. keeps. Qed.
#[local] Hint Resolve keeps_init_cgi : keeps.

(** ** pipe.c *)

Lemma keeps_write_from_pipe : keeps write_from_pipe.
Proof. keeps. Qed.
#[local] Hint Resolve keeps_write_from_pipe : keeps.

Lemma keeps_read_from_pipe : keeps read_from_pipe.
Proof. keeps. Qed.
#[local] Hint Resolve keeps_read_from_pipe : keeps.

Lemma keeps_set_first_start v : keeps (set_first_start v).
Proof. keeps. Qed.
#[local] Hint Resolve keeps_set_first_start : keeps.

Lemma keeps_sendfile_retry fuel n : keeps (sendfile_retry fuel n).
Proof. induction fuel; simpl; keeps. Qed.
#[local] Hint Resolve keeps_sendfile_retry : keeps.

Lemma keeps_signal_fuel : keeps signal_fuel.
Proof. keeps. Qed.
#[local] Hint Resolve keeps_signal_fuel : keeps.

Lemma keeps_read_retry fuel d n : keeps (read_retry fuel d n).
Proof. induction fuel; simpl; keeps. Qed.
#[local] Hint Resolve keeps_read_retry : keeps.

Lemma keeps_write_retry fuel d l : keeps (write_retry fuel d l).
Proof. induction fuel; simpl; keeps. Qed.
#[local] Hint Resolve keeps_write_retry : keeps.

Lemma keeps_shuffle_write : keeps shuffle_write.
Proof. keeps. Qed.
#[local] Hint Resolve keeps_shuffle_write : keeps.

Lemma keeps_io_shuffle : keeps io_shuffle.
Proof. keeps. Qed.
#[local] Hint Resolve keeps_io_shuffle : keeps.

Lemma keeps_io_shuffle_sendfile : keeps io_shuffle_sendfile.
Proof. keeps. Qed.
#[local] Hint Resolve keeps_io_shuffle_sendfile : keeps.

(** ** get.c *)

Lemma keeps_copy_uri u : keeps (copy_uri u).
Proof. keeps. Qed.
#[local] Hint Resolve keeps_copy_uri : keeps.

Lemma keeps_fail_with m : keeps m -> keeps (fail_with m).
Proof. keeps. Qed.
#[local] Hint Resolve keeps_fail_with : keeps.

Lemma keeps_process_get : keeps process_get.
Proof. keeps. Qed.
#[local] Hint Resolve keeps_process_get : keeps.

Lemma keeps_listed l : keeps (listed l).
Proof. induction l; simpl; keeps. Qed.
#[local] Hint Resolve keeps_listed : keeps.

Lemma keeps_index_directory d : keeps (index_directory d).
Proof. keeps. Qed.
#[local] Hint Resolve keeps_index_directory : keeps.

Lemma keeps_get_cachedir_file c st : keeps (get_cachedir_file c st).
Proof. keeps. Qed.
#[local] Hint Resolve keeps_get_cachedir_file : keeps.

Lemma keeps_gunzip_headers m : keeps m -> keeps (gunzip_headers m).
Proof. keeps. Qed.
#[local] Hint Resolve keeps_gunzip_headers : keeps.

Lemma keeps_run_unless_head : keeps run_unless_head.
Proof. keeps. Qed.
#[local] Hint Resolve keeps_run_unless_head : keeps.

Lemma keeps_make_index st : keeps (make_index st).
Proof. keeps. Qed.
#[local] Hint Resolve keeps_make_index : keeps.

Lemma keeps_get_dir st : keeps (get_dir st).
Proof. keeps. Qed.
#[local] Hint Resolve keeps_get_dir : keeps.

Lemma keeps_redirect_directory : keeps redirect_directory.
Proof. keeps. Qed.
#[local] Hint Resolve keeps_redirect_directory : keeps.

Lemma keeps_whole_file : keeps whole_file.
Proof. keeps. Qed.
#[local] Hint Resolve keeps_whole_file : keeps.

Lemma keeps_init_get_fill : keeps init_get_fill.
Proof. keeps. Qed.
#[local] Hint Resolve keeps_init_get_fill : keeps.

Lemma keeps_init_get_send d st : keeps (init_get_send d st).
Proof. keeps. Qed.
#[local] Hint Resolve keeps_init_get_send : keeps.

Lemma keeps_init_get_changed d st : keeps (init_get_changed d st).
Proof. keeps. Qed.
#[local] Hint Resolve keeps_init_get_changed : keeps.

Lemma keeps_init_get_file d st : keeps (init_get_file d st).
Proof. keeps. Qed.
#[local] Hint Resolve keeps_init_get_file : keeps.

Lemma keeps_try_gunzip p : keeps (try_gunzip p).
Proof. keeps. Qed.
#[local] Hint Resolve keeps_try_gunzip : keeps.

Lemma keeps_open_failed e : keeps (open_failed e).
Proof. keeps. Qed.
#[local] Hint Resolve keeps_open_failed : keeps.

Lemma keeps_init_get : keeps init_get.
Proof. keeps. Qed.
#[local] Hint Resolve keeps_init_get : keeps.

(** ** request.c: the parsing functions *)

Lemma keeps_absolute_uri i w : keeps (absolute_uri i w).
Proof. keeps. Qed.
#[local] Hint Resolve keeps_absolute_uri : keeps.

Lemma keeps_logline_version s : keeps (logline_version s).
Proof. keeps. Qed.
#[local] Hint Resolve keeps_logline_version : keeps.

Lemma keeps_process_logline : keeps process_logline.
Proof. keeps. Qed.
#[local] Hint Resolve keeps_process_logline : keeps.

Lemma keeps_known_option n p v : keeps (known_option n p v).
Proof. keeps. Qed.
#[local] Hint Resolve keeps_known_option : keeps.

Lemma keeps_process_option_line : keeps process_option_line.
Proof. keeps. Qed.
#[local] Hint Resolve keeps_process_option_line : keeps.

Lemma keeps_resolve_host : keeps resolve_host.
Proof. keeps. Qed.
#[local] Hint Resolve keeps_resolve_host : keeps.

Lemma keeps_decode_uri : keeps decode_uri.
Proof. keeps. Qed.
#[local] Hint Resolve keeps_decode_uri : keeps.

Lemma keeps_open_post_file : keeps open_post_file.
Proof. keeps. Qed.
#[local] Hint Resolve keeps_open_post_file : keeps.

Lemma keeps_path_allowed : keeps path_allowed.
Proof. keeps. Qed.
#[local] Hint Resolve keeps_path_allowed : keeps.

Lemma keeps_start_response : keeps start_response.
Proof. keeps. Qed.
#[local] Hint Resolve keeps_start_response : keeps.

Lemma keeps_process_header_end : keeps process_header_end.
Proof. keeps. Qed.
#[local] Hint Resolve keeps_process_header_end : keeps.

(** ** read.c *)

Lemma keeps_header_line_done : keeps header_line_done.
Proof. keeps. Qed.
#[local] Hint Resolve keeps_header_line_done : keeps.

Lemma keeps_post_length n : keeps (post_length n).
Proof. keeps. Qed.
#[local] Hint Resolve keeps_post_length : keeps.

Lemma keeps_header_done : keeps header_done.
Proof. keeps. Qed.
#[local] Hint Resolve keeps_header_done : keeps.

Lemma keeps_header_loop fuel : keeps (header_loop fuel).
Proof. induction fuel; simpl; keeps. Qed.
#[local] Hint Resolve keeps_header_loop : keeps.

Lemma keeps_header_read : keeps header_read.
Proof. keeps. Qed.
#[local] Hint Resolve keeps_header_read : keeps.

Lemma keeps_read_header : keeps read_header.
Proof. keeps. Qed.
#[local] Hint Resolve keeps_read_header : keeps.

Lemma keeps_read_body : keeps read_body.
Proof. keeps. Qed.
#[local] Hint Resolve keeps_read_body : keeps.

Lemma keeps_write_body : keeps write_body.
Proof. keeps. Qed.
#[local] Hint Resolve keeps_write_body : keeps.
(** ** config.c *)

Lemma keeps_add_mime_type e v : keeps (add_mime_type e v).
Proof. keeps. Qed.
#[local] Hint Resolve keeps_add_mime_type : keeps.

Lemma keeps_add_extensions fuel v a p : keeps (add_extensions fuel v a p).
Proof. revert a p. induction fuel; intros; simpl; keeps. Qed.
#[local] Hint Resolve keeps_add_extensions : keeps.

Lemma keeps_mime_line a : keeps (mime_line a).
Proof. keeps. Qed.
#[local] Hint Resolve keeps_mime_line : keeps.

Lemma keeps_mime_lines fuel a text : keeps (mime_lines fuel a text).
Proof. revert a text. induction fuel; intros; simpl; keeps. Qed.
#[local] Hint Resolve keeps_mime_lines : keeps.

Lemma keeps_local_array n : keeps (local_array n).
Proof. intros s. apply kept_refl. Qed.
#[local] Hint Resolve keeps_local_array : keeps.

Lemma keeps_clist : Forall (fun p => forall v1 v2, keeps (act p v1 v2)) clist.
Proof. unfold clist. repeat (apply Forall_cons_2; [cbn [act]; keeps|]). by apply Forall_nil. Qed.

Lemma keeps_apply_command k p a i : lookup_keyword k = Some p -> keeps (apply_command p a i).
Proof.
  intros H. apply find_some in H as [H%list_elem_of_In _].
  pose proof (proj1 (Forall_forall _ _) keeps_clist p H) as K. cbv beta in K.
  unfold apply_command. destruct (type p); keeps; apply K.
Qed.

Lemma keeps_parse_line a : keeps (parse_line a).
Proof.
  assert (B : forall A B (o : option A) (k : A -> M B), (forall x, keeps (k x)) -> keeps (checked o ≫= k))
    by (intros; apply keeps_bind; auto with keeps).
  unfold parse_line. apply B. intros x. destruct (_ || _ || _); [keeps|].
  apply B. intros a1. apply B. intros x1. destruct (x1 =? 0); [keeps|].
  do 3 (apply B; intros ?). destruct (lookup_keyword _) eqn:E; [|keeps].
  by eapply keeps_apply_command.
Qed.
#[local] Hint Resolve keeps_parse_line : keeps.

Lemma keeps_parse_lines fuel a text : keeps (parse_lines fuel a text).
Proof. revert a text. induction fuel; intros; simpl; keeps. Qed.
#[local] Hint Resolve keeps_parse_lines : keeps.

Lemma keeps_find_tempdir : keeps find_tempdir.
Proof. by intros s. Qed.
#[local] Hint Resolve keeps_find_tempdir : keeps.

Lemma keeps_read_config_files : keeps read_config_files.
Proof. keeps. Qed.
End handlers.

#[export] Hint Resolve keeps_req_flush keeps_SQUASH_KA keeps_ranges_reset keeps_release_mmap
  keeps_log_access keeps_send_r_service_unavailable keeps_read_header keeps_read_body
  keeps_write_body keeps_process_get keeps_read_from_pipe keeps_write_from_pipe
  keeps_io_shuffle_sendfile keeps_read_config_files : keeps.

(** * Parts that keep a property of the globals *)

Section stable.
Context {os : OS}.

(** [m] keeps a property of the globals. *)
Definition stable {A} (P : server -> Prop) (m : M A) : Prop :=
  forall s, P (sv s) -> wlp m (fun _ s' => P (sv s')) s.

Lemma stable_bind {A B} P (m : M A) (k : A -> M B) :
  stable P m -> (forall a, stable P (k a)) -> stable P (m ≫= k).
Proof.
  intros Hm Hk s H. apply wlp_bind. eapply wlp_mono; [by apply Hm|]. intros a s'. apply Hk.
Qed.

Lemma stable_then {A B} P (m : M A) (k : A -> M B) Q s :
  stable P m -> P (sv s) -> (forall a s', P (sv s') -> wlp (k a) Q s') -> wlp (m ≫= k) Q s.
Proof. intros Hm H Hk. apply wlp_bind. eapply wlp_mono; [by apply Hm|exact Hk]. Qed.

Lemma stable_same {A} P (m : M A) :
  (forall s, wlp m (fun _ s' => sv s' = sv s) s) -> stable P m.
Proof. intros Hm s H. eapply wlp_mono; [apply Hm|]. by intros a s' ->. Qed.

Lemma stable_upd_srv P f : (forall g, P g -> P (f g)) -> stable P (upd_srv f).
Proof. intros Hf s. apply Hf. Qed.

Lemma stable_call {A} P (f : world -> A * world) : stable P (call f).
Proof. intros s H. by apply wlp_call. Qed.
End stable.

(** Along the program text; the updates are left. *)
Ltac stable_step :=
  lazymatch goal with
  | |- stable _ (mbind _ _) => apply stable_bind; [|intros ?]
  | |- stable _ (upd_srv _) => apply stable_upd_srv
  | |- stable _ (call _) => apply stable_call
  | |- stable _ (call_ _) => by intros ? ?
  | |- stable _ (ask _) => by intros ? ?
  | |- stable _ srv => by intros ? ?
  | |- stable _ (mret _) => by intros ? ?
  | |- stable _ die => done
  | |- stable _ undef => done
  | |- stable _ (checked ?o) => destruct o; [by intros ? ?|done]
  | |- stable _ (match ?x with _ => _ end) => destruct x
  | |- stable _ (let _ := _ in _) => cbv zeta
  | |- stable _ ?m => unfold_head m
  end.
Ltac stable := repeat stable_step.

(** * Parts that leave the request alone *)

Section same_request.
Context {os : OS}.

Definition same_request {A} (m : M A) : Prop := forall s, wlp m (fun _ s' => rq s' = rq s) s.

Lemma same_request_bind {A B} (m : M A) (k : A -> M B) :
  same_request m -> (forall a, same_request (k a)) -> same_request (m ≫= k).
Proof.
  intros Hm Hk s. apply wlp_bind. eapply wlp_mono; [apply Hm|]. intros a s1 H1.
  eapply wlp_mono; [apply Hk|]. simpl. congruence.
Qed.

Lemma same_request_then {A B} (m : M A) (k : A -> M B) Q s :
  same_request m -> (forall a s', rq s' = rq s -> wlp (k a) Q s') -> wlp (m ≫= k) Q s.
Proof. intros Hm Hk. apply wlp_bind. eapply wlp_mono; [apply Hm|exact Hk]. Qed.

Lemma same_request_call {A} (f : world -> A * world) : same_request (call f).
Proof. intros s. by apply wlp_call. Qed.

Lemma same_request_checked {A} (o : option A) : same_request (checked o).
Proof. intros s. by apply wlp_checked. Qed.

(** Any postcondition that holds everywhere. *)
Lemma wlp_any {A} (m : M A) (Q : A -> St -> Prop) s : (forall a s', Q a s') -> wlp m Q s.
Proof. intros H. unfold wlp. destruct (m s); auto. Qed.
End same_request.

(** Along the program text. *)
Ltac same_request_step :=
  lazymatch goal with
  | |- same_request (mbind _ _) => apply same_request_bind; [|intros ?]
  | |- same_request (call _) => apply same_request_call
  | |- same_request (checked _) => apply same_request_checked
  | |- same_request (match ?x with _ => _ end) => destruct x
  | |- same_request (let _ := _ in _) => cbv zeta
  | |- same_request _ => by intros ?
  end.
Ltac same_request := repeat same_request_step.

(** * Looking at a run *)

Section seen.
Context {os : OS}.

(** What a run returns, seen through [f]. *)
Definition seen {A B} (f : A -> St -> B) (o : out A) : option B :=
  match o with Ret a s => Some (f a s) | _ => None end.

Lemma seen_Ret {A B} (f : A -> St -> B) (o : out A) b :
  seen f o = Some b -> exists a s, o = Ret a s /\ f a s = b.
Proof. destruct o as [a s| |]; simpl; [|done..]. intros [= <-]. by exists a, s. Qed.

Lemma seen_bind {A B C} (f : B -> St -> C) (m : M A) (k : A -> M B) s c :
  seen f ((m ≫= k) s) = Some c ->
  exists a s1 b s2, m s = Ret a s1 /\ k a s1 = Ret b s2 /\ f b s2 = c.
Proof.
  unfold mbind, M_bind. destruct (m s) as [a s1| |]; [|done..]. intros H.
  destruct (seen_Ret _ _ _ H) as (b & s2 & E & Ef). by exists a, s1, b, s2.
Qed.
End seen.
