(* ===== verification/Denied.v ===== *)
(** A request for a path that the access rules deny: what it is answered, and what the
    server asks the system for on the way. *)

From S2P Require Import Prelude Types Machine Escape ScriptOS Buffer Util Dates Hash.
From S2P Require Import Response ResponseProofs ResponseProps Access Alias Pointer Cgi.
From S2P Require Import Get.
From S2P Require Import Parse ParseProps Frame.

(** * Runs that only ask *)

Section asking.
Context {os : OS}.

(** The calls that open nothing and start nothing: memory, questions about files and
    users, and output on the connection [d] of the client. *)
Inductive asking (d : Z) : world -> world -> Prop :=
  | ask_malloc n w b w' : os_malloc n w = (b, w') -> asking d w w'
  | ask_stat path w st w' : os_stat path w = (st, w') -> asking d w w'
  | ask_access path w b w' : os_access path w = (b, w') -> asking d w w'
  | ask_getpwnam name w h w' : os_getpwnam name w = (h, w') -> asking d w w'
  | ask_write l w r w' : os_write d l w = (r, w') -> asking d w w'.

(** [s'] is reached from [s] by such calls alone. *)
Definition asked (s s' : St) : Prop :=
  fd (rq s') = fd (rq s) /\ rtc (asking (fd (rq s))) (wd s) (wd s').

#[export] Instance asked_preorder : PreOrder asked.
Proof.
  split; [split; [done|apply rtc_refl]|]. intros s1 s2 s3 [E1 H1] [E2 H2].
  split; [congruence|]. rewrite E1 in H2. by etransitivity.
Qed.

Definition asks {A} (m : M A) : Prop := forall s, wlp m (fun _ => asked s) s.

Lemma asks_ret {A} (a : A) : asks (mret a).
Proof. by intros s. Qed.

Lemma asks_bind {A B} (m : M A) (k : A -> M B) :
  asks m -> (forall a, asks (k a)) -> asks (m ≫= k).
Proof.
  intros Hm Hk s. apply wlp_bind. eapply wlp_mono; [apply Hm|]. intros a s1 H1.
  eapply wlp_mono; [apply Hk|]. intros b s2 H2. by transitivity s1.
Qed.

Lemma asks_req : asks req.
Proof. by intros s. Qed.
Lemma asks_srv : asks srv.
Proof. by intros s. Qed.
Lemma asks_undef {A} : asks (undef (A := A)).
Proof. done. Qed.
Lemma asks_checked {A} (o : option A) : asks (checked o).
Proof. intros s. by apply wlp_checked. Qed.
Lemma asks_upd f : (forall r, fd (f r) = fd r) -> asks (upd f).
Proof. intros H s. split; [apply H|apply rtc_refl]. Qed.
Lemma asks_upd_srv f : asks (upd_srv f).
Proof. by intros s. Qed.

Lemma asks_call {A} (f : world -> A * world) (P : forall d w a w', f w = (a, w') -> asking d w w') :
  asks (call f).
Proof. intros s. apply wlp_call_eq. intros a w E. split; [done|]. apply rtc_once. by eapply P. Qed.

Lemma asks_malloc n : asks (call (os_malloc n)).
Proof. apply asks_call. intros. by eapply ask_malloc. Qed.
Lemma asks_stat p : asks (call (os_stat p)).
Proof. apply asks_call. intros. by eapply ask_stat. Qed.
Lemma asks_access p : asks (call (os_access p)).
Proof. apply asks_call. intros. by eapply ask_access. Qed.
Lemma asks_getpwnam n : asks (call (os_getpwnam n)).
Proof. apply asks_call. intros. by eapply ask_getpwnam. Qed.
End asking.

Create HintDb asks.
#[export] Hint Resolve asks_ret asks_req asks_srv asks_undef asks_checked asks_upd_srv
  asks_malloc asks_stat asks_access asks_getpwnam : asks.

Ltac asks_step :=
  lazymatch goal with
  | |- asks (mbind _ _) => apply asks_bind; [|intros ?]
  | |- asks (upd _) =>
      apply asks_upd; let r := fresh "r" in intros r;
      repeat match goal with |- context [match ?x with _ => _ end] => destruct x end; done
  | |- asks (match ?x with _ => _ end) => destruct x
  | |- asks (let _ := _ in _) => cbv zeta
  | |- asks ?m => first [solve [auto 1 with asks nocore] | unfold_head m]
  end.
Ltac asks := intros; repeat asks_step.

Section denied.
Context {os : OS}.

(** The only output is on the connection of the request. *)
Lemma asks_req_flush : asks req_flush.
Proof.
  intros s. unfold req_flush. wlps. destruct (_ <? _); [by wlps|].
  assert (He : asks req_flush_end) by asks.
  destruct (_ =? 0); [apply He|]. apply wlp_bind. unfold load.
  destruct (_ && _); [|done]. apply wlp_ret, wlp_bind, wlp_call_eq. intros res w E.
  assert (H : asked s (mkSt (rq s) (sv s) w)).
  { split; [done|]. apply rtc_once. by eapply ask_write. }
  assert (Hk : forall m : M Z, asks m -> wlp m (fun _ => asked s) (mkSt (rq s) (sv s) w)).
  { intros m Hm. eapply wlp_mono; [apply Hm|]. intros a s' H'. by etransitivity. }
  apply Hk. destruct res as [n|[]]; asks.
Qed.

#[local] Hint Resolve asks_req_flush : asks.

Lemma asks_put msg : asks (put msg).
Proof. asks. Qed.
Lemma asks_put_html msg : asks (put_html msg).
Proof. asks. Qed.
Lemma asks_put_http msg : asks (put_http msg).
Proof. asks. Qed.
Lemma asks_uri : asks uri.
Proof. asks. Qed.
Lemma asks_put_status msg : asks (put_status msg).
Proof. asks. Qed.
#[local] Hint Resolve asks_put asks_put_html asks_put_http asks_uri asks_put_status : asks.
Lemma asks_print_http_headers : asks print_http_headers.
Proof. asks. Qed.
#[local] Hint Resolve asks_print_http_headers : asks.

Lemma asks_page p : asks (page_send p).
Proof. destruct p; asks. Qed.
Lemma asks_bad_request : asks send_r_bad_request.
Proof. apply (asks_page Bad_request). Qed.
Lemma asks_forbidden : asks send_r_forbidden.
Proof. apply (asks_page Forbidden). Qed.
Lemma asks_not_found : asks send_r_not_found.
Proof. apply (asks_page Not_found). Qed.
Lemma asks_error : asks send_r_error.
Proof. apply (asks_page Server_error). Qed.
Lemma asks_moved_temp u h : asks (send_r_moved_temp u h).
Proof. asks. Qed.
#[local] Hint Resolve asks_bad_request asks_forbidden asks_not_found asks_error
  asks_moved_temp : asks.

Lemma asks_strdup_to set v :
  (forall x r, fd (set x r) = fd r) -> asks (strdup_to set v).
Proof. intros H. unfold strdup_to. asks; apply asks_upd; intros; apply H. Qed.

(** ** hash.c and alias.c *)

Lemma asks_hash_insert t h k v : asks (hash_insert t h k v).
Proof. asks. Qed.
Lemma asks_hash_find t k h : asks (hash_find t k h).
Proof. asks. Qed.
#[local] Hint Resolve asks_hash_insert asks_hash_find : asks.
Lemma asks_get_home_dir n : asks (get_home_dir n).
Proof. asks. Qed.
Lemma asks_get_mime_type n : asks (get_mime_type n).
Proof. asks. Qed.
#[local] Hint Resolve asks_get_home_dir asks_get_mime_type : asks.
#[local] Hint Extern 1 (asks (strdup_to _ _)) => apply asks_strdup_to; done : asks.

Lemma asks_poke i c : asks (poke i c).
Proof. asks. Qed.
Lemma asks_peek i : asks (peek i).
Proof. asks. Qed.
Lemma asks_fits n p : asks (fits n p).
Proof. asks. Qed.
#[local] Hint Resolve asks_poke asks_peek asks_fits : asks.

Lemma asks_script_scan fuel i : asks (script_scan fuel i).
Proof. revert i. induction fuel as [|fuel IH]; intros i; simpl; asks; apply IH. Qed.
Lemma asks_script_whole : asks script_whole.
Proof. asks. Qed.
Lemma asks_realias b p : asks (realias b p).
Proof. induction b; simpl; asks; done. Qed.
Lemma asks_translate_userdir i u : asks (translate_userdir i u).
Proof. asks. Qed.
#[local] Hint Resolve asks_script_scan asks_script_whole asks_realias
  asks_translate_userdir : asks.
Lemma asks_script_path_info i : asks (script_path_info i).
Proof. asks. Qed.
Lemma asks_script_fill a n : asks (script_fill a n).
Proof. asks. Qed.
#[local] Hint Resolve asks_script_path_info asks_script_fill : asks.
Lemma asks_init_script_alias a n : asks (init_script_alias a n).
Proof. asks. Qed.
#[local] Hint Resolve asks_init_script_alias : asks.
Lemma asks_translate_alias a u : asks (translate_alias a u).
Proof. asks. Qed.
Lemma asks_plain_path u : asks (plain_path u).
Proof. asks. Qed.
Lemma asks_classify p u : asks (classify p u).
Proof. asks. Qed.
Lemma asks_find_alias u : asks (find_alias u).
Proof. asks. Qed.
#[local] Hint Resolve asks_translate_alias asks_plain_path asks_classify asks_find_alias : asks.
Lemma asks_translate_uri : asks translate_uri.
Proof. asks. Qed.

(** ** request.c *)

Lemma asks_decode_uri : asks decode_uri.
Proof. asks. Qed.
Lemma asks_resolve_host : asks resolve_host.
Proof. asks. Qed.
Lemma asks_path_allowed : asks path_allowed.
Proof. asks. Qed.
#[local] Hint Resolve asks_translate_uri asks_decode_uri asks_resolve_host : asks.

Lemma wp_of_wlp {A} (m : M A) (Q Q' : A -> St -> Prop) s : wp m Q s -> wlp m Q' s -> wp m Q' s.
Proof. unfold wp, wlp. by destruct (m s). Qed.

(** Translating a request only asks. *)
Lemma translated_asked s s1 : header_translated s s1 -> asked s s1.
Proof.
  intros (_ & n & _ & E).
  assert (H : asks (ok ← decode_uri;
     if negb ok then mret 0
     else
       ok ← (match vhost_root (sv s) with Some _ => resolve_host | None => mret true end);
       if negb ok then mret 0 else translate_uri)) by asks.
  specialize (H s). unfold wlp in H. by rewrite E in H.
Qed.

(** * The answer *)

Context {laws : OSLaws os}.

(** C5: whatever the method, when the file or script that a request translates to is
    denied by the rules, the answer is exactly the 403 page, with the URI HTML-escaped in
    it (header only for HEAD, page only for HTTP/0.9), unless the request dies for lack of
    buffer space or of a connection; keep-alive is stopped, the server's data are those of
    the translation, and from the first byte of the translation to the end the process only
    allocates memory, asks about files and users, and writes to this client: no file is
    opened, no script is started. *)
Theorem access_denied_forbidden s s1 path :
  header_translated s s1 -> pathname (rq s1) = Some path ->
  access_search (nodes (sv s1)) path = ACCESS_DENY -> printable s1 ->
  wp process_header_end
    (fun n s' => n = 0 /\ response_status (rq s') = 403 /\ keepalive (rq s') = KA_STOPPED /\
       sv s' = sv s1 /\ rtc (asking (fd (rq s))) (wd s) (wd s') /\
       (status (rq s') = DEAD \/
        stream s' = stream s1 ++
          (if bool_decide (http_version (rq s1) = HTTP09) then []
           else closing_head (bs "403 Forbidden") (rq s1) (sv s1)
                ++ bs "Content-Type: " ++ HTML ++ CRLF ++ CRLF) ++
          (if bool_decide (method (rq s1) = M_HEAD) then []
           else bs "<HTML><HEAD><TITLE>403 Forbidden</TITLE></HEAD>" ++ LF
                ++ bs "<BODY><H1>403 Forbidden</H1>" ++ LF
                ++ bs "Your client does not have permission to get URL "
                ++ flat_map html_char (uri_of (rq s1)) ++ bs " from this server." ++ LF
                ++ bs "</BODY></HTML>" ++ LF))) s.
Proof.
  intros Ht Hp Ha Hs. pose proof (translated_asked s s1 Ht) as Hask.
  unfold wp. rewrite (header_end_translated s s1 Ht).
  match goal with |- match ?m s1 with Ret a s' => @?Q a s' | _ => _ end => change (wp m Q s1) end.
  wps. unfold path_allowed. wps. rewrite Hp. unfold access_allow. wps. rewrite Ha.
  rewrite bool_decide_false by done. cbn [negb]. wps.
  eapply wp_mono.
  { apply wp_and; [by apply (page_sent_wp Forbidden)|].
    apply (wp_of_wlp _ _ _ _ (page_sent_wp Forbidden s1 Hs) (asks_forbidden s1)). }
  intros [] s' [Ho Hw]. wps. apply page_wrote in Ho as (_ & ? & ? & ? & Hout).
  pose proof (transitivity Hask Hw) as [_ Hr]. split_and!; [done..|].
  destruct Hout as [|Ho]; [by left|right]. rewrite Ho. unfold page_sent, page_body.
  rewrite page_title_eq. cbn -[bs closing_head]. rewrite andb_true_r.
  repeat (rewrite <- ?app_assoc; cbn [app]). done.
Qed.
End denied.

(** A HEAD request for a file that is denied. *)
Definition denied_server : server :=
  set_nodes [mkAccess (bs "/www/secret.html") ACCESS_DENY] test_server.
Definition denied_state : St :=
  mkSt (set_logline (Pstream 0) (set_method M_HEAD
          (set_request_uri (bs "/%73ecret.html" ++ zeros 100) test_request)))
    denied_server empty_world.
Definition denied_translated : St :=
  match translate_uri (mkSt (set_request_uri
          (bs "/secret.html" ++ [0; 108] ++ zeros 100) (rq denied_state))
          denied_server empty_world) with
  | Ret _ s => s | _ => denied_state
  end.

Lemma denied_printable : printable denied_translated.
Proof.
  split_and!; [split; vm_compute; congruence|vm_compute; discriminate|].
  destruct (test_resp_ok (view denied_translated)).
  - exists (bs "/secret.html"). vm_compute. reflexivity.
  - vm_compute. eauto.
  - by split.
Qed.

Lemma access_denied_forbidden_witness :
  exists s', process_header_end denied_state = Ret 0 s' /\ response_status (rq s') = 403.
Proof.
  destruct (wp_elim _ _ _ (access_denied_forbidden denied_state denied_translated
    (bs "/www/secret.html")
    ltac:(split; [discriminate|exists 1; split; [discriminate|vm_compute; reflexivity]])
    ltac:(vm_compute; reflexivity) ltac:(vm_compute; reflexivity)
    denied_printable))
    as (n & s' & E & -> & H & _).
  exists s'. split; [exact E|exact H].
Defined.

