(* ===== verification/ConfigProps.v ===== *)
(** What a configuration file means: each line is one directive, run in the order
    of the file; a keyword without an argument; and what holds of the variables
    once the configuration was accepted. *)

From S2P Require Import Prelude Types Machine ScriptOS Buffer Util UtilProofs Hash.
From S2P Require Import Access.
From S2P Require Import Alias CgiHeader Cgi Config Frame.

(** * Walking over the array *)

Lemma zget_middle {A} (pre : list A) x r : zget (pre ++ x :: r) (zlen pre) = Some x.
Proof.
  unfold zget, zlen. destruct (Z.leb_spec 0 (Z.of_nat (length pre))); [|lia].
  rewrite Nat2Z.id. by rewrite lookup_app_r, Nat.sub_diag by lia.
Qed.

Lemma zget_end {A} (l : list A) : zget l (zlen l) = None.
Proof.
  unfold zget, zlen. destruct (_ <=? _); [|done]. rewrite Nat2Z.id. by apply lookup_ge_None.
Qed.

Lemma blit_middle {A} (pre : list A) x r y :
  blit (pre ++ x :: r) (zlen pre) [y] = Some (pre ++ y :: r).
Proof.
  rewrite blit_Some; [|apply zlen_nonneg|].
  - rewrite ztake_app_exact by done. do 2 f_equal.
    rewrite (cons_middle x), app_assoc. rewrite (zdrop_app_exact (pre ++ [x])); [done|].
    by rewrite zlen_app.
  - change (zlen [y]) with 1. rewrite zlen_app, zlen_cons. pose proof (zlen_nonneg r). lia.
Qed.

Lemma zlen_snoc {A} (l : list A) x : zlen (l ++ [x]) = zlen l + 1.
Proof. by rewrite zlen_app. Qed.

Definition no_space (l : bytes) : Prop := Forall (fun c => isspace c = false) l.
Definition all_space (l : bytes) : Prop := Forall (fun c => isspace c = true) l.

Lemma find_space_app pre l c r fuel :
  no_space l -> isspace c = true -> (length l < fuel)%nat ->
  find_space fuel (pre ++ l ++ c :: r) (zlen pre) = Some (zlen pre + zlen l).
Proof.
  intros Hl Hc. revert pre fuel. induction Hl as [|x l Hx Hl IH]; intros pre fuel Hf.
  - destruct fuel; [simpl in Hf; lia|]. simpl. rewrite zget_middle. simpl. rewrite Hc.
    f_equal. rewrite zlen_nil. lia.
  - destruct fuel; [lia|]. simpl. rewrite zget_middle. simpl. rewrite Hx.
    rewrite cons_middle, app_assoc, <- (zlen_snoc pre x). rewrite IH by (simpl in Hf; lia).
    f_equal. rewrite zlen_snoc, zlen_cons. lia.
Qed.

Lemma find_space_none pre l fuel : no_space l -> find_space fuel (pre ++ l) (zlen pre) = None.
Proof.
  intros Hl. revert pre fuel. induction Hl as [|x l Hx Hl IH]; intros pre fuel.
  - destruct fuel; simpl; [done|]. by rewrite app_nil_r, zget_end.
  - destruct fuel; simpl; [done|]. rewrite zget_middle. simpl. rewrite Hx.
    rewrite cons_middle, app_assoc, <- (zlen_snoc pre x). apply IH.
Qed.

Lemma skip_space_app pre l c r fuel :
  all_space l -> isspace c = false -> (length l < fuel)%nat ->
  skip_space fuel (pre ++ l ++ c :: r) (zlen pre) = Some (zlen pre + zlen l).
Proof.
  intros Hl Hc. revert pre fuel. induction Hl as [|x l Hx Hl IH]; intros pre fuel Hf.
  - destruct fuel; [simpl in Hf; lia|]. simpl. rewrite zget_middle. simpl. rewrite Hc.
    f_equal. rewrite zlen_nil. lia.
  - destruct fuel; [lia|]. simpl. rewrite zget_middle. simpl. rewrite Hx.
    rewrite cons_middle, app_assoc, <- (zlen_snoc pre x). rewrite IH by (simpl in Hf; lia).
    f_equal. rewrite zlen_snoc, zlen_cons. lia.
Qed.

(** [trim] writes NULs over the blanks at the end. *)
Lemma trim_loop_app l c ws r fuel :
  isspace c = false -> all_space ws -> (length ws < fuel)%nat ->
  trim_loop fuel ((l ++ [c]) ++ ws ++ r) (zlen l + zlen ws) =
  Some ((l ++ [c]) ++ replicate (length ws) 0 ++ r).
Proof.
  intros Hc. revert r fuel. induction ws as [|x ws IH] using rev_ind; intros r fuel Hw Hf.
  - destruct fuel; [simpl in Hf; lia|]. change (zlen (@nil Z)) with 0. rewrite Z.add_0_r.
    rewrite <- !app_assoc. cbn [trim_loop app]. rewrite zget_middle. simpl. by rewrite Hc.
  - apply Forall_app in Hw as [Hw [Hx _]%Forall_cons].
    rewrite length_app in Hf. simpl in Hf. destruct fuel as [|fuel]; [lia|]. cbn [trim_loop].
    replace (zlen l + zlen (ws ++ [x])) with (zlen ((l ++ [c]) ++ ws))
      by (rewrite !zlen_app; change (zlen [c]) with 1; change (zlen [x]) with 1; lia).
    rewrite <- (app_assoc ws), (app_assoc (l ++ [c])). cbn [app].
    rewrite zget_middle. cbn [mbind option_bind]. rewrite Hx.
    destruct (Z.ltb_spec 0 (zlen ((l ++ [c]) ++ ws))) as [_|Hneg].
    2:{ rewrite !zlen_app in Hneg. change (zlen [c]) with 1 in Hneg.
        pose proof (zlen_nonneg l). pose proof (zlen_nonneg ws). lia. }
    cbn [andb]. rewrite blit_middle. cbn [mbind option_bind].
    rewrite <- (app_assoc (l ++ [c])).
    replace (zlen ((l ++ [c]) ++ ws) - 1) with (zlen l + zlen ws)
      by (rewrite !zlen_app; change (zlen [c]) with 1; lia).
    rewrite IH by (done || lia). f_equal. f_equal.
    rewrite length_app, replicate_add, <- app_assoc. done.
Qed.

(** * What a line stands for *)

(** A line: a keyword, one blank, the text behind it, and blanks at the end. *)
Record config_line := mkLine { word : bytes; sep : Z; arg : bytes; trail : bytes }.

Definition line_text (l : config_line) : bytes := word l ++ sep l :: arg l ++ trail l ++ [10].

(** The text up to the first blank, and from it on. *)
Fixpoint first_word (s : bytes) : bytes * bytes :=
  match s with
  | [] => ([], [])
  | c :: s' => if isspace c then ([], s) else let '(w, r) := first_word s' in (c :: w, r)
  end.

(** The two arguments in a text. *)
Definition two_args (s : bytes) : bytes * bytes :=
  let '(w, r) := first_word (skip_spaces s) in (w, skip_spaces r).

Lemma until_nul_app s r : 0 ∉ s -> until_nul (s ++ 0 :: r) = Some s.
Proof.
  induction s as [|c s IH]; intros H; simpl; [done|].
  apply not_elem_of_cons in H as [Hc H]. destruct (Z.eqb_spec c 0); [congruence|].
  by rewrite IH.
Qed.

Lemma cstr_app pre s r : 0 ∉ s -> cstr (pre ++ s ++ 0 :: r) (zlen pre) = Some s.
Proof.
  intros H. unfold cstr. pose proof (zlen_nonneg pre). destruct (Z.leb_spec 0 (zlen pre)); [|lia].
  rewrite zdrop_app_exact by done. by apply until_nul_app.
Qed.

Lemma cstr_start s r : 0 ∉ s -> cstr (s ++ 0 :: r) 0 = Some s.
Proof. apply (cstr_app []). Qed.

Lemma skip_spaces_split s :
  exists b, s = b ++ skip_spaces s /\ all_space b /\
    match skip_spaces s with [] => True | c :: _ => isspace c = false end.
Proof.
  induction s as [|c s (b & E & Hb & Hs)]; simpl.
  { exists []. split; [done|]. split; [constructor|done]. }
  destruct (isspace c) eqn:Ec.
  - exists (c :: b). split; [simpl; by rewrite <- E|]. split; [by constructor|done].
  - exists []. split; [done|]. split; [constructor|done].
Qed.

Lemma first_word_split s :
  let '(w, r) := first_word s in s = w ++ r /\ no_space w /\
    match r with [] => True | c :: _ => isspace c = true end.
Proof.
  induction s as [|c s IH]; simpl; [by split; [|split; [constructor|]]|].
  destruct (isspace c) eqn:Ec; [by split; [|split; [constructor|]]|].
  destruct (first_word s) as [w r]. destruct IH as (-> & Hw & Hr).
  split; [done|]. split; [by constructor|done].
Qed.

(** The shape of a text with two arguments. *)
Lemma two_args_split s :
  snd (two_args s) <> [] ->
  exists b1 w1 sp b2 w2 x1 x2,
    s = b1 ++ w1 ++ sp :: b2 ++ w2 /\ two_args s = (w1, w2) /\
    all_space b1 /\ no_space w1 /\ isspace sp = true /\ all_space b2 /\
    head w1 = Some x1 /\ isspace x1 = false /\ head w2 = Some x2 /\ isspace x2 = false.
Proof.
  unfold two_args. destruct (skip_spaces_split s) as (b1 & E1 & H1 & Hh1).
  pose proof (first_word_split (skip_spaces s)) as Hw.
  destruct (first_word (skip_spaces s)) as [w1 r] eqn:Ew. destruct Hw as (E2 & H2 & Hr).
  destruct r as [|sp r]; [simpl; done|]. simpl. rewrite Hr. intros Hne.
  destruct (skip_spaces_split r) as (b2 & E3 & H3 & Hh3).
  destruct w1 as [|x1 w1].
  { rewrite E2 in Hh1. simpl in Hh1. congruence. }
  destruct (skip_spaces r) as [|x2 w2] eqn:Er; [done|].
  exists b1, (x1 :: w1), sp, b2, (x2 :: w2), x1, x2. split_and!; try done.
  - rewrite E1, E2, E3. done.
  - by apply Forall_cons in H2 as [].
Qed.

Section config_props.
Context {os : OS}.

(** A line of the form the parser expects: its keyword does not begin a comment,
    it has an argument, two when they are needed, and it fits the array. *)
Record good_line (l : config_line) : Prop := {
  gl_word : no_space (word l) /\ 0 ∉ word l;
  gl_start : exists c w, word l = c :: w /\ c <> 35;
  gl_sep : isspace (sep l) = true /\ sep l <> 10;
  gl_arg : 0 ∉ arg l /\ 10 ∉ arg l;
  gl_end : exists b c, arg l = b ++ [c] /\ isspace c = false;
  gl_trail : all_space (trail l) /\ 10 ∉ trail l;
  gl_size : zlen (line_text l) <= 1023;
  gl_two : forall p, lookup_keyword (word l) = Some p -> type p = STMT_TWO_ARGS ->
    snd (two_args (arg l)) <> []
}.

(** The meaning of a line: the action of its keyword on its arguments. *)
Definition directive (l : config_line) : M unit :=
  match lookup_keyword (word l) with
  | None => die
  | Some p =>
      match type p with
      | STMT_NO_ARGS => act p None None
      | STMT_ONE_ARG => act p (Some (arg l)) None
      | STMT_TWO_ARGS => let '(v1, v2) := two_args (arg l) in act p (Some v1) (Some v2)
      end
  end.

(** A check that succeeds. *)
Lemma checked_then {A B} (o : option A) x (k : A -> M B) s :
  o = Some x -> (checked o ≫= k) s = k x s.
Proof. by intros ->. Qed.

Lemma apply_two p pre b1 w1 sp b2 w2 x1 x2 rest s :
  let a := pre ++ b1 ++ w1 ++ sp :: b2 ++ w2 ++ 0 :: rest in
  type p = STMT_TWO_ARGS -> all_space b1 -> no_space w1 -> isspace sp = true -> all_space b2 ->
  head w1 = Some x1 -> isspace x1 = false -> head w2 = Some x2 -> isspace x2 = false ->
  0 ∉ w1 -> 0 ∉ w2 ->
  exists a', length a' = length a /\
    apply_command p a (zlen pre) s = (act p (Some w1) (Some w2) ;; mret a') s.
Proof.
  intros a Ht Hb1 Hw1 Hsp Hb2 E1 Hx1 E2 Hx2 H1 H2.
  destruct w1 as [|y1 w1]; [done|]. injection E1 as ->.
  destruct w2 as [|y2 w2]; [done|]. injection E2 as ->.
  set (W1 := x1 :: w1) in *. set (W2 := x2 :: w2) in *.
  assert (Hx10 : x1 <> 0) by (intros ->; apply H1; set_solver).
  set (a1 := (pre ++ b1) ++ W1 ++ 0 :: b2 ++ W2 ++ 0 :: rest).
  assert (Ea : a = (pre ++ b1) ++ W1 ++ sp :: b2 ++ W2 ++ 0 :: rest)
    by (unfold a; by rewrite <- app_assoc).
  assert (El : length a1 = length a) by (unfold a1; rewrite Ea, !length_app; simpl; lia).
  exists a1. split; [done|]. unfold apply_command. rewrite Ht.
  etransitivity.
  { apply checked_then. unfold a. apply (skip_space_app pre b1 x1); [done..|].
    rewrite !length_app. simpl. lia. }
  rewrite <- zlen_app. etransitivity.
  { apply checked_then. rewrite Ea. apply (zget_middle (pre ++ b1) x1). }
  destruct (Z.eqb_spec x1 0); [done|]. etransitivity.
  { apply checked_then. rewrite Ea at 2. apply find_space_app; [done..|].
    rewrite Ea, !length_app. simpl. lia. }
  etransitivity.
  { apply checked_then. rewrite Ea, app_assoc, <- (zlen_app _ W1), blit_middle, <- app_assoc.
    reflexivity. }
  fold a1. etransitivity.
  { apply checked_then. unfold a1. rewrite cons_middle, (app_assoc W1), (app_assoc (pre ++ b1)).
    replace (zlen (pre ++ b1) + zlen W1 + 1) with (zlen ((pre ++ b1) ++ W1 ++ [0]))
      by (rewrite !(zlen_app (pre ++ b1)), zlen_snoc; lia).
    apply (skip_space_app _ b2 x2); [done..|]. rewrite !length_app. simpl. lia. }
  etransitivity. { apply checked_then. by apply cstr_app. }
  etransitivity.
  { apply checked_then. rewrite <- zlen_app. unfold a1.
    rewrite cons_middle, (app_assoc W1), (app_assoc (pre ++ b1)), (app_assoc _ b2).
    by apply cstr_app. }
  done.
Qed.

(** After [trim], the blanks at the end are NULs. *)
Lemma trim_app l c ws rest :
  isspace c = false -> all_space ws -> 0 ∉ l ++ [c] ->
  trim ((l ++ [c]) ++ ws ++ 0 :: rest) =
  Some ((l ++ [c]) ++ replicate (length ws) 0 ++ 0 :: rest).
Proof.
  intros Hc Hw H0. unfold trim. rewrite (app_assoc _ ws), cstr_start.
  2:{ apply not_elem_of_app. split; [done|]. intros H. eapply Forall_forall in Hw; [|exact H]. done. }
  cbn [mbind option_bind].
  replace (zlen ((l ++ [c]) ++ ws) - 1) with (zlen l + zlen ws)
    by (rewrite !zlen_app; change (zlen [c]) with 1; lia).
  rewrite <- (app_assoc _ ws). apply trim_loop_app; [done|done|]. rewrite !length_app. simpl. lia.
Qed.

Lemma trim_line l rest :
  good_line l ->
  trim (line_text l ++ 0 :: rest) =
  Some (word l ++ sep l :: arg l ++ replicate (length (trail l ++ [10])) 0 ++ 0 :: rest).
Proof.
  intros [[Hw Hw0] _ [Hs Hs10] [Ha0 Ha10] (b & c & Ea & Hc) [Ht Ht10] _ _].
  replace (line_text l ++ 0 :: rest)
    with (((word l ++ sep l :: b) ++ [c]) ++ (trail l ++ [10]) ++ 0 :: rest)
    by (unfold line_text; rewrite Ea; by repeat (rewrite <- app_assoc; simpl)).
  rewrite trim_app; [|done| |].
  - rewrite Ea. f_equal. by repeat (rewrite <- app_assoc; simpl).
  - apply Forall_app. split; [done|]. by repeat constructor.
  - rewrite Ea in Ha0. assert (sep l <> 0) by (by intros E; rewrite E in Hs). set_solver.
Qed.

(** A line does what its directive says, whatever the array held before. *)
Lemma parse_line_good l rest s :
  good_line l ->
  exists a', length a' = length (line_text l ++ 0 :: rest) /\
    parse_line (line_text l ++ 0 :: rest) s = (directive l ;; mret a') s.
Proof.
  intros G. pose proof G as [[Hw Hw0] (x & w & Ew & Hx) [Hs Hs10] [Ha0 _] _ _ _ H2].
  assert (Hx0 : x <> 0) by (intros ->; rewrite Ew in Hw0; set_solver).
  assert (Hx10 : x <> 10).
  { intros ->. rewrite Ew in Hw. apply Forall_cons in Hw as [H _]. done. }
  set (zs := replicate (length (trail l ++ [10])) 0).
  assert (Hlen : forall y, length (word l ++ y :: arg l ++ zs ++ 0 :: rest) =
                           length (line_text l ++ 0 :: rest)).
  { intros y. unfold line_text, zs. repeat (rewrite ?length_app, ?length_replicate; simpl). lia. }
  assert (Hzs : exists zs', zs ++ 0 :: rest = 0 :: zs').
  { unfold zs. rewrite length_app, Nat.add_comm. simpl. eauto. }
  destruct Hzs as [zs' Ezs].
  assert (P : exists a', length a' = length (line_text l ++ 0 :: rest) /\
    match lookup_keyword (word l) with
    | None => die
    | Some p => apply_command p (word l ++ 0 :: arg l ++ zs ++ 0 :: rest) (zlen (word l) + 1)
    end s = (directive l ;; mret a') s).
  { unfold directive. destruct (lookup_keyword (word l)) as [p|] eqn:Ek.
    2:{ by exists (line_text l ++ 0 :: rest). }
    set (A := word l ++ 0 :: arg l ++ zs ++ 0 :: rest).
    assert (EA : A = (word l ++ [0]) ++ arg l ++ 0 :: zs')
      by (unfold A; by rewrite Ezs, <- app_assoc).
    replace (zlen (word l) + 1) with (zlen (word l ++ [0])) by (by rewrite zlen_snoc).
    destruct (type p) eqn:Et.
    - exists A. split; [apply Hlen|]. unfold apply_command. by rewrite Et.
    - exists A. split; [apply Hlen|]. unfold apply_command. rewrite Et.
      etransitivity; [apply checked_then; rewrite EA; by apply cstr_app|]. done.
    - destruct (two_args_split (arg l) (H2 _ eq_refl Et))
        as (b1 & w1 & sp & b2 & w2 & x1 & x2 & Earg & Etwo & ? & ? & ? & ? & ? & ? & ? & ?).
      assert (EA2 : A = (word l ++ [0]) ++ b1 ++ w1 ++ sp :: b2 ++ w2 ++ 0 :: zs').
      { rewrite EA, Earg. by repeat (rewrite <- ?app_assoc; simpl). }
      rewrite Etwo, EA2. rewrite <- (Hlen 0). fold A. rewrite EA2.
      eapply apply_two; try done; rewrite Earg in Ha0; set_solver. }
  destruct P as (a' & El & P). exists a'. split; [done|]. rewrite <- P. unfold parse_line.
  etransitivity.
  { apply checked_then. unfold line_text. rewrite Ew. apply zget_0. }
  destruct (Z.eqb_spec x 0), (Z.eqb_spec x 35), (Z.eqb_spec x 10); try done. cbn [orb].
  etransitivity; [apply checked_then; by apply trim_line|]. fold zs.
  etransitivity; [apply checked_then; rewrite Ew; apply zget_0|].
  destruct (Z.eqb_spec x 0); [done|]. etransitivity.
  { apply checked_then. apply (find_space_app []); [done..|]. rewrite length_app. simpl. lia. }
  rewrite zlen_nil, Z.add_0_l.
  etransitivity; [apply checked_then, blit_middle|].
  etransitivity; [apply checked_then; by apply cstr_start|]. done.
Qed.

(** ** The file *)

Lemma fgets_line_lf l rest n :
  10 ∉ l -> (length l < n)%nat -> fgets_line n (l ++ 10 :: rest) = (l ++ [10], rest).
Proof.
  revert n. induction l as [|c l IH]; intros n Hl Hn; destruct n as [|n]; simpl in Hn; try lia.
  - done.
  - apply not_elem_of_cons in Hl as [Hc Hl]. simpl.
    destruct (Z.eqb_spec c 10); [congruence|]. by rewrite IH by (done || lia).
Qed.

(** What fgets leaves in the array of [parse]. *)
Lemma fgets_good a l rest :
  zlen a = 1025 -> 10 ∉ l -> zlen l <= 1022 ->
  exists r, fgets 1024 a (l ++ 10 :: rest) = Some (Some ((l ++ [10]) ++ 0 :: r), rest) /\
    length ((l ++ [10]) ++ 0 :: r) = length a.
Proof.
  intros Ha Hl Hs. pose proof (zlen_nonneg l).
  exists (zdrop (zlen (l ++ [10; 0])) a).
  assert (Hb : blit a 0 ((l ++ [10]) ++ [0]) =
               Some ((l ++ [10]) ++ 0 :: zdrop (zlen (l ++ [10; 0])) a)).
  { rewrite blit_Some; [|lia|].
    - rewrite Z.add_0_l, <- !app_assoc. done.
    - rewrite !zlen_app, Ha. change (zlen [10]) with 1. change (zlen [0]) with 1. lia. }
  split.
  - unfold fgets. destruct (l ++ 10 :: rest) eqn:E; [by destruct l|]. rewrite <- E.
    rewrite fgets_line_lf; [|done|unfold zlen in Hs; lia]. by rewrite Hb.
  - apply blit_zlen in Hb. by apply Nat2Z.inj.
Qed.

(** A file: lines with directives, comments and empty lines. *)
Inductive config_item := Directive (l : config_line) | Comment (t : bytes) | Blank.

Definition item_text (i : config_item) : bytes :=
  match i with
  | Directive l => line_text l
  | Comment t => 35 :: t ++ [10]
  | Blank => [10]
  end.

Definition good_item (i : config_item) : Prop :=
  match i with
  | Directive l => good_line l
  | Comment t => 10 ∉ t /\ zlen t <= 1021
  | Blank => True
  end.

Definition run_item (i : config_item) : M unit :=
  match i with Directive l => directive l | _ => mret tt end.

Definition run_items (l : list config_item) : M unit :=
  foldr (fun i k => run_item i ;; k) (mret tt) l.

Definition config_text (l : list config_item) : bytes := concat (item_text <$> l).

(** Each text is one line. *)
Lemma item_line i :
  good_item i -> exists l, item_text i = l ++ [10] /\ 10 ∉ l /\ zlen l <= 1022.
Proof.
  destruct i as [l|t|]; simpl.
  - intros [[Hw _] _ [_ Hs] [_ Ha] _ [_ Ht] Hsize _].
    exists (word l ++ sep l :: arg l ++ trail l). unfold line_text in *. split_and!.
    + by repeat (rewrite <- app_assoc; simpl).
    + rewrite !not_elem_of_app, not_elem_of_cons, !not_elem_of_app. split_and!; try done.
      intros H. eapply Forall_forall in Hw; [|exact H]. done.
    + revert Hsize. rewrite !zlen_app, !zlen_cons, !zlen_app. change (zlen [10]) with 1. lia.
  - intros [Ht Hs]. exists (35 :: t). split; [done|]. split; [set_solver|]. rewrite zlen_cons. lia.
  - intros _. exists []. split; [done|]. split; [set_solver|]. rewrite zlen_nil. lia.
Qed.

Lemma parse_line_item i rest s :
  good_item i ->
  exists a', length a' = length (item_text i ++ 0 :: rest) /\
    parse_line (item_text i ++ 0 :: rest) s = (run_item i ;; mret a') s.
Proof.
  destruct i as [l|t|]; simpl; intros G; [by apply parse_line_good|..];
    (eexists; split; [|reflexivity]; done).
Qed.

Lemma parse_lines_items l a fuel s :
  Forall good_item l -> zlen a = 1025 -> (length l <= fuel)%nat ->
  parse_lines fuel a (config_text l) s = run_items l s.
Proof.
  revert a fuel s. induction l as [|i l IH]; intros a fuel s Hl Ha Hf.
  { by destruct fuel. }
  apply Forall_cons in Hl as [Hi Hl]. destruct (item_line i Hi) as (t & Et & Ht & Hs).
  change (config_text (i :: l)) with (item_text i ++ config_text l).
  destruct (fgets_good a t (config_text l) Ha Ht Hs) as (r & Eg & Er).
  destruct fuel as [|fuel]; [simpl in Hf; lia|]. cbn [parse_lines].
  rewrite Et, <- app_assoc. cbn [app]. rewrite Eg, <- Et.
  cbn [checked]. unfold mbind, M_bind, mret, M_ret.
  destruct (parse_line_item i r s Hi) as (a' & Ea & ->).
  change (run_items (i :: l) s) with ((run_item i ;; run_items l) s).
  unfold mbind, M_bind, mret, M_ret. destruct (run_item i s) as [[] s'| |]; [|done..].
  apply IH; [done| |simpl in Hf; lia]. rewrite Et in Ea. unfold zlen in *. lia.
Qed.

Lemma local_array_length n s : exists a, local_array n s = Ret a s /\ length a = Z.to_nat n.
Proof.
  eexists. split; [reflexivity|]. by rewrite length_fmap, length_seq.
Qed.

Lemma items_length l : (length l <= length (config_text l))%nat.
Proof.
  induction l as [|i l IH]; [simpl; lia|].
  change (config_text (i :: l)) with (item_text i ++ config_text l). rewrite length_app. simpl.
  assert (1 <= length (item_text i))%nat; [|lia].
  destruct i as [x|t|]; simpl; try lia. unfold line_text. rewrite length_app. simpl. lia.
Qed.

(** C13: a configuration file is read as the sequence of its directives: each
    line "Keyword arguments" runs the action of its keyword on exactly the
    arguments that are written there, comments and empty lines are skipped, and
    what the array on the stack or earlier lines have left does not matter.  The
    run of [parse] is the run of these actions, in their order: it returns when
    all of them do, and it ends where the first of them ends that does not (a
    keyword that is not known, or an argument that an action refuses, exits). *)
Theorem parse_correct l s :
  Forall good_item l ->
  parse (config_text l) s =
  (uid ← ask os_getuid; upd_srv (set_current_uid uid) ;; run_items l) s.
Proof.
  intros Hl. unfold parse. destruct (local_array_length 1025 s) as (a & Ea & Hlen).
  unfold mbind at 1, M_bind at 1. rewrite Ea. unfold mbind, M_bind, ask. cbn [upd_srv].
  apply parse_lines_items; [done|unfold zlen; lia|apply items_length].
Qed.

(** ** A keyword without an argument *)

(** C36: behind a keyword that stands alone on its line, the search for the
    blank runs over the NUL into what the array held before.  Without a blank
    there it leaves the array; with one, a keyword without arguments works, and
    a keyword with an argument gets the stale text behind the blank for it. *)
Theorem bare_keyword w rest s :
  no_space w -> 0 ∉ w -> (exists c w', w = c :: w' /\ c <> 35) ->
  (no_space rest -> parse_line (w ++ 10 :: 0 :: rest) s = Undef) /\
  (forall p r1 sp v r2, rest = r1 ++ sp :: v ++ 0 :: r2 ->
     no_space r1 -> isspace sp = true -> 0 ∉ v -> lookup_keyword w = Some p ->
     type p <> STMT_TWO_ARGS ->
     parse_line (w ++ 10 :: 0 :: rest) s =
     (act p (match type p with STMT_NO_ARGS => None | _ => Some v end) None ;;
      mret (w ++ 0 :: 0 :: r1 ++ 0 :: v ++ 0 :: r2)) s).
Proof.
  intros Hw H0 (x & w' & Ew & Hx).
  assert (Hx0 : x <> 0) by (intros ->; rewrite Ew in H0; set_solver).
  assert (Hx10 : x <> 10) by (intros ->; rewrite Ew in Hw; by apply Forall_cons in Hw as [H _]).
  assert (T : trim (w ++ 10 :: 0 :: rest) = Some (w ++ 0 :: 0 :: rest)).
  { destruct (exists_last (l := w)) as (l & c & E); [by rewrite Ew|]. rewrite E in *.
    apply Forall_app in Hw as [_ [Hc _]%Forall_cons].
    apply (trim_app l c [10]); [done|by repeat constructor|done]. }
  set (k := fun c : Z =>
    a ← checked (blit (w ++ 0 :: 0 :: rest) c [0]);
    k ← checked (cstr a 0);
    match lookup_keyword k with None => die | Some p => apply_command p a (c + 1) end).
  assert (P : parse_line (w ++ 10 :: 0 :: rest) s =
    (c ← checked (find_space (length (w ++ 0 :: 0 :: rest)) (w ++ 0 :: 0 :: rest) 0); k c) s).
  { unfold parse_line. etransitivity; [apply checked_then; rewrite Ew; apply zget_0|].
    destruct (Z.eqb_spec x 0), (Z.eqb_spec x 35), (Z.eqb_spec x 10); try done. cbn [orb].
    etransitivity; [apply checked_then, T|].
    etransitivity; [apply checked_then; rewrite Ew; apply zget_0|].
    by destruct (Z.eqb_spec x 0). }
  rewrite P. clear P. split.
  - intros Hr. rewrite (find_space_none [] (w ++ 0 :: 0 :: rest)); [done|].
    apply Forall_app. split; [done|]. by repeat constructor.
  - intros p r1 sp v r2 -> Hr1 Hsp Hv Hk Ht.
    etransitivity.
    { apply checked_then.
      change (w ++ 0 :: 0 :: r1 ++ sp :: v ++ 0 :: r2) with ([] ++ w ++ ([0; 0] ++ r1) ++ sp :: v ++ 0 :: r2).
      rewrite (app_assoc w). apply find_space_app; [|done|].
      - apply Forall_app. split; [done|]. by repeat constructor.
      - rewrite !length_app. simpl. lia. }
    unfold k. rewrite zlen_nil, Z.add_0_l. etransitivity.
    { apply checked_then. change (0 :: 0 :: r1 ++ sp :: v ++ 0 :: r2) with (([0; 0] ++ r1) ++ sp :: v ++ 0 :: r2).
      rewrite (app_assoc w). apply blit_middle. }
    etransitivity.
    { apply checked_then. rewrite <- app_assoc. by apply cstr_start. }
    rewrite Hk. unfold apply_command. rewrite <- zlen_snoc with (x := 0).
    destruct (type p); [| |done].
    + rewrite <- app_assoc. done.
    + etransitivity; [apply checked_then; rewrite (cons_middle 0), app_assoc; by apply cstr_app|].
      rewrite <- app_assoc. done.
Qed.

(** ** What holds once the configuration was accepted *)

Record config_ok (g : server) : Prop := {
  co_name : server_name_at g <> Null;
  co_type : default_type_at g <> Null;
  co_vhost : default_vhost_at g <> Null;
  co_limit : 0 <= single_post_limit g;
  co_roots : vhost_root g = None \/ virtualhost g = false /\ document_root g = None;
  co_conns : max_connections g <= FD_SETSIZE - 20;
  co_ka : 0 <= ka_timeout g;
  co_timeout : 0 < default_timeout g
}.

(** What the first half of [check_config] establishes. *)
Definition checked_vars (g : server) : Prop :=
  server_name_at g <> Null /\ 0 <= single_post_limit g /\
  (vhost_root g = None \/ virtualhost g = false /\ document_root g = None).

Lemma find_server_name_ok s : wlp find_server_name (fun _ s' => server_name_at (sv s') <> Null) s.
Proof.
  unfold find_server_name. wlps. destruct (server_name_at (sv s)) eqn:E; [|wlps; congruence..].
  wlps. intros [n|] w; [|done]. wlps. intros [h|] w'; [|done]. wlps. intros ok w2.
  by destruct ok.
Qed.

Lemma find_default_vhost_ok s :
  checked_vars (sv s) ->
  wlp find_default_vhost
    (fun _ s' => checked_vars (sv s') /\ default_vhost_at (sv s') <> Null) s.
Proof.
  intros H. unfold find_default_vhost. wlps.
  destruct (default_vhost_at (sv s)) eqn:E; wlps; (split; [exact H|simpl; congruence]).
Qed.

Lemma limit_connections_ok s :
  checked_vars (sv s) /\ default_vhost_at (sv s) <> Null ->
  wlp limit_connections
    (fun _ s' => (checked_vars (sv s') /\ default_vhost_at (sv s') <> Null) /\
                 max_connections (sv s') <= FD_SETSIZE - 20) s.
Proof.
  intros H. unfold limit_connections. wlps. apply wlp_bind.
  eapply (wlp_mono _ (fun _ s' => checked_vars (sv s') /\ default_vhost_at (sv s') <> Null)).
  { destruct (max_connections (sv s) <? 1); [|exact H]. wlps.
    destruct (os_rlimit_nofile (wd s)); [wlps; exact H|done]. }
  intros ? s1 H1. wlps. destruct (Z.ltb_spec (FD_SETSIZE - 20) (max_connections (sv s1))); wlps.
  - split; [exact H1|]. simpl. lia.
  - by split.
Qed.

Lemma check_config_ok s : wlp check_config (fun _ s' => config_ok (sv s')) s.
Proof.
  unfold check_config. apply wlp_bind. eapply wlp_mono; [apply find_server_name_ok|].
  intros ? s1 H1. apply wlp_bind.
  eapply (wlp_mono _ (fun _ s' => server_name_at (sv s') <> Null)); [exact H1|].
  intros ? s2 H2. wlps.
  destruct (Z.ltb_spec (single_post_limit (sv s2)) 0) as [|Hl]; [done|].
  destruct (bool_decide (is_Some (vhost_root (sv s2))) && virtualhost (sv s2)) eqn:E1; [done|].
  destruct (bool_decide (is_Some (vhost_root (sv s2)))
            && bool_decide (is_Some (document_root (sv s2)))) eqn:E2; [done|].
  assert (Hv : checked_vars (sv s2)).
  { split; [done|]. split; [done|]. destruct (vhost_root (sv s2)); [|by left]. right.
    destruct (virtualhost (sv s2)), (document_root (sv s2)); simpl in *; try done. }
  apply wlp_bind. eapply wlp_mono; [by apply find_default_vhost_ok|]. intros ? s3 H3.
  apply wlp_bind. eapply wlp_mono; [by apply limit_connections_ok|]. intros ? s4 (((?&?&?)&?)&?).
  wlps. apply wlp_bind. eapply (wlp_mono _ (fun _ s' =>
    ((checked_vars (sv s') /\ default_vhost_at (sv s') <> Null) /\
     max_connections (sv s') <= FD_SETSIZE - 20) /\ 0 <= ka_timeout (sv s'))).
  { destruct (Z.ltb_spec (ka_timeout (sv s4)) 0); wlps; done. }
  clear. intros ? s5 (((H1 & H2) & H3) & H4). wlps. cbn [default_type_at set_default_timeout].
  case_bool_decide as Ht; [done|]. wlps. destruct H1 as (? & ? & ?).
  split; try done. simpl. destruct (Z.eqb_spec (ka_timeout (sv s5)) 0); [done|]. lia.
Qed.

Lemma read_config_files_wlp s : wlp read_config_files (fun _ s' => config_ok (sv s')) s.
Proof.
  unfold read_config_files. wlps. apply wlp_bind.
  eapply (wlp_mono _ (fun _ _ => True)); [by unfold wlp; case_match|]. intros ? s1 _. wlps.
  intros name _. wlps. intros [text|] w1; [|done]. apply wlp_bind.
  eapply (wlp_mono _ (fun _ _ => True)); [by unfold wlp; case_match|]. intros ? s2 _.
  apply check_config_ok.
Qed.

(** C25: when [read_config_files] returns, the variables the server relies
    on are set and consistent: the name, the default type and the default virtual
    host are there, the POST limit and the timeouts are not negative, VHostRoot
    excludes VirtualHost and DocumentRoot, and all connections fit the sets of
    select. *)
Theorem read_config_files_ok s s' :
  read_config_files s = Ret tt s' -> config_ok (sv s').
Proof.
  pose proof (read_config_files_wlp s) as H. unfold wlp in H. intros E. by rewrite E in H.
Qed.
End config_props.

(** * Instances *)

Definition port_line : config_line := mkLine (bs "Port") 32 (bs "8080") [].
Definition alias_line : config_line := mkLine (bs "Alias") 32 (bs "/doc	 /usr/doc") [32].

Definition test_items : list config_item :=
  [Comment (bs " the server"); Directive port_line; Blank; Directive alias_line].

(** The server after a run. *)
Definition server_after {A} (m : M A) (s : St) : option server :=
  match m s with Ret _ s' => Some (sv s') | _ => None end.

Lemma good_lineI l :
  forallb (fun c => negb (isspace c) && negb (c =? 0)) (word l) = true ->
  (match word l with c :: _ => negb (c =? 35) | [] => false end) = true ->
  isspace (sep l) && negb (sep l =? 10) = true ->
  forallb (fun c => negb (c =? 0) && negb (c =? 10)) (arg l) = true ->
  (match List.rev (arg l) with c :: _ => negb (isspace c) | [] => false end) = true ->
  forallb (fun c => isspace c && negb (c =? 10)) (trail l) = true ->
  (zlen (line_text l) <=? 1023) = true ->
  (match snd (two_args (arg l)) with [] => false | _ => true end) = true \/
  (forall p, lookup_keyword (word l) = Some p -> type p <> STMT_TWO_ARGS) -> good_line l.
Proof.
  rewrite !forallb_forall. setoid_rewrite andb_true_iff. setoid_rewrite negb_true_iff.
  intros H1 H2 [H3 H3'] H4 H5 H6 H7 H8. split.
  - split.
    + apply Forall_forall. intros c Hc%list_elem_of_In. by apply H1.
    + intros Hc%list_elem_of_In. by apply H1 in Hc as [_ ?].
  - destruct (word l) as [|c w]; [done|]. exists c, w. split; [done|]. intros ->. done.
  - split; [done|]. by apply Z.eqb_neq.
  - split; intros Hc%list_elem_of_In; apply H4 in Hc as [? ?]; done.
  - destruct (List.rev (arg l)) as [|c b] eqn:E; [done|]. exists (List.rev b), c.
    split; [by rewrite <- (rev_involutive (arg l)), E|]. by apply negb_true_iff.
  - split.
    + apply Forall_forall. intros c Hc%list_elem_of_In. by apply H6.
    + intros Hc%list_elem_of_In. by apply H6 in Hc as [_ ?].
  - by apply Z.leb_le.
  - intros p Hp Ht. destruct H8 as [H8|H8]; [|by destruct (H8 p Hp)]. by destruct (snd _).
Qed.

Lemma port_line_good : good_line port_line.
Proof.
  apply good_lineI; try reflexivity. right. intros p.
  change (Some (mkCommand (bs "Port") STMT_ONE_ARG (set_unsigned set_server_port)) = Some p ->
          type p <> STMT_TWO_ARGS).
  by intros [= <-].
Qed.

Lemma alias_line_good : good_line alias_line.
Proof. apply good_lineI; try reflexivity. by left. Qed.

Lemma test_items_good : Forall good_item test_items.
Proof.
  apply Forall_cons_2; [split; [apply (bool_decide_unpack _); by vm_compute|done]|].
  apply Forall_cons_2; [exact port_line_good|]. apply Forall_cons_2; [exact I|].
  apply Forall_cons_2; [exact alias_line_good|by apply Forall_nil].
Qed.

Lemma parse_correct_witness :
  (fun g => (server_port g, alias_hashtable g !! 0%nat)) <$>
    server_after (parse (config_text test_items)) test_state =
  Some (8080, Some [mkAlias (bs "/doc") (bs "/usr/doc") ALIAS 4 8]).
Proof.
  unfold server_after. rewrite (parse_correct test_items test_state test_items_good).
  vm_compute. reflexivity.
Defined.

(** The keyword Port alone, on an array where other text was before: the port is
    taken from it, or the array is left. *)
Lemma bare_keyword_witness :
  server_port <$> server_after (parse_line (bs "Port" ++ 10 :: 0 :: bs "x 80" ++ [0])) test_state =
    Some 80 /\
  parse_line (bs "Port" ++ 10 :: 0 :: bs "x80") test_state = Undef.
Proof.
  assert (Hw : no_space (bs "Port")) by by repeat constructor.
  assert (H0 : 0 ∉ bs "Port") by (apply (bool_decide_unpack _); by vm_compute).
  assert (Hs : exists c w', bs "Port" = c :: w' /\ c <> 35) by by eexists _, _.
  split.
  - destruct (bare_keyword (bs "Port") (bs "x 80" ++ [0]) test_state Hw H0 Hs) as [_ H].
    unfold server_after.
    rewrite (H (mkCommand (bs "Port") STMT_ONE_ARG (set_unsigned set_server_port))
               (bs "x") 32 (bs "80") []); [vm_compute; reflexivity|try reflexivity..].
    + by repeat constructor.
    + apply (bool_decide_unpack _). by vm_compute.
    + discriminate.
  - apply (bare_keyword (bs "Port") (bs "x80") test_state Hw H0 Hs). by repeat constructor.
Defined.

Definition conf_world : script :=
  mkScript [mkFile (bs "boa.conf") no_stat (config_text test_items)] [] 100 [] [] [] 0 [] [] [] 1000 1000.

Definition conf_state : St :=
  mkSt test_request (set_document_root None test_server) conf_world.

Lemma read_config_files_ok_witness :
  exists s', read_config_files conf_state = Ret tt s' /\ config_ok (sv s') /\
    server_port (sv s') = 8080.
Proof.
  destruct (read_config_files conf_state) as [[] s'| |] eqn:E; [|vm_compute in E; discriminate..].
  exists s'. split; [reflexivity|]. split; [exact (read_config_files_ok _ _ E)|].
  vm_compute in E. by injection E as <-.
Defined.
