(* ===== verification/Request.v ===== *)
(** request.c: the life of a connection.  The requests live in the heap; the one
    that is worked on is taken out of it with [on_request].  [process_one] is one
    turn of the loop of [process_requests]. *)

From S2P Require Import Prelude Types Machine Buffer Util Dates Addr Hash Response.
From S2P Require Import Range.
From S2P Require Import Mmap Queue.
From S2P Require Import Alias Pointer Log Cgi Pipe Get Parse Read.

Definition SOCKETBUF_SIZE : Z := 32768.

(** What malloc gives for a request; the contents are not used before they are
    set. *)
Definition fresh_request : request :=
  clear_request (mkRequest READ_HEADER KA_INACTIVE HTTP_unset M_unset 0 CGI_none CGI_PARSE
    None [] 0 0 0 0 0 None Pnull Pnull Pnull 0 0 0 Pnull 0 0 Pnull
    Pnull Pnull Pnull None 0 None None None Pnull Pnull Pnull None
    0 0 [] [] 0 0 0
    (replicate (Z.to_nat (BUFFER_SIZE + 1)) 0) (replicate (Z.to_nat (MAX_HEADER_LENGTH + 1)) 0)
    (replicate (Z.to_nat CLIENT_STREAM_SIZE) 0)
    (replicate (Z.to_nat (CGI_ENV_MAX + 4)) None) None None).

(** The bytes that were read behind this request are kept for the next one;
    [None]: the move leaves the array. *)
Definition keep_unparsed (r : request) : option request :=
  let bytes_to_move := u32 (client_stream_pos r - parse_pos r) in
  if (0 <=? parse_pos r) && (parse_pos r + bytes_to_move <=? zlen (client_stream r)) then
    a ← blit (client_stream r) 0 (slice (client_stream r) (parse_pos r) bytes_to_move);
    Some (set_client_stream_pos (i32 bytes_to_move) (set_client_stream a r))
  else None.

Definition sanitize_request (new_req : bool) (g : server) (r : request) : option request :=
  r ← (if new_req then
         Some (set_client_stream_pos 0 (set_time_last (current_time g) (set_kacount (ka_max g) r)))
       else keep_unparsed r);
  Some (set_header_line (Pstream 0) (set_status READ_HEADER (clear_request r))).

Section request.
Context {os : OS}.

(** [m] on the request at [p]. *)
Definition on_request {A} (p : positive) (m : M A) : M A :=
  g ← srv;
  r ← checked (heap g !! p);
  upd (fun _ => r) ;;
  a ← m;
  r ← req; g ← srv;
  upd_srv (set_heap (<[p := r]> (heap g))) ;;
  mret a.

(** An operation of queue.c. *)
Definition queue_op (f : server -> option server) : M unit :=
  g ← srv; g' ← checked (f g); upd_srv (fun _ => g').

Definition free_list_push (p : positive) (g : server) : option server :=
  '(h, f) ← enqueue (heap g) (request_free g) p;
  Some (set_request_free f (set_heap h g)).
Definition ready_push (p : positive) (g : server) : option server :=
  '(h, f) ← enqueue (heap g) (request_ready g) p;
  Some (set_request_ready f (set_heap h g)).
Definition block_push (p : positive) (g : server) : option server :=
  '(h, f) ← enqueue (heap g) (request_block g) p;
  Some (set_request_block f (set_heap h g)).
Definition ready_remove (p : positive) (g : server) : option server :=
  '(h, f) ← dequeue (heap g) (request_ready g) p;
  Some (set_request_ready f (set_heap h g)).

Definition sanitize (new_req : bool) : M unit :=
  r ← req; g ← srv;
  r' ← checked (sanitize_request new_req g r);
  upd (fun _ => r').

(** A structure from the free list, or a new one. *)
Definition new_request : M (option positive) :=
  g ← srv;
  match request_free g with
  | Some p =>
      queue_op (fun g =>
        '(h, f) ← dequeue (heap g) (request_free g) p;
        Some (set_request_free f (set_heap h g))) ;;
      on_request p (sanitize true) ;;
      mret (Some p)
  | None =>
      ok ← call (os_malloc 16384);
      if negb ok then mret None
      else
        let p := fresh g in
        upd_srv (fun g => set_fresh (Pos.succ p) (set_heap (<[p := fresh_request]> (heap g)) g)) ;;
        on_request p (sanitize true) ;;
        mret (Some p)
  end.

(** The size of the socket buffer. *)
Definition tune_sndbuf (d : Z) : M unit :=
  g ← srv;
  (if system_bufsize g =? 0 then
     n ← call (os_sndbuf d);
     upd_srv (set_system_bufsize (match n with Some n => u32 n | None => 1 end))
   else mret tt) ;;
  g ← srv;
  if system_bufsize g <? SOCKETBUF_SIZE then
    call (os_set_sndbuf d SOCKETBUF_SIZE) ;; mret tt
  else mret tt.

(** Too many connections: the client gets a 503. *)
Definition over_limit : M unit :=
  upd (set_http_version HTTP10) ;;
  upd (set_method M_GET) ;;
  send_r_service_unavailable ;;
  upd (set_status DONE).

Definition turn_away (d : Z) (conn : positive) : M unit :=
  call_ (os_close d) ;; queue_op (free_list_push conn).

(** The new connection is ready, and counted. *)
Definition count_connection (remote : bytes) (port : Z) (conn : positive) : M unit :=
  on_request conn (upd (set_remote_ip_addr remote) ;; upd (set_remote_port port)) ;;
  g ← srv;
  upd_srv (set_status_requests (status_requests g + 1)) ;;
  let n := u32 (total_connections g + 1) in
  upd_srv (set_total_connections n) ;;
  (if max_connections g <? n then
     upd_srv (set_pending_requests false) ;;
     on_request conn over_limit
   else mret tt) ;;
  queue_op (ready_push conn).

(** The new connection, once its structure is there. *)
Definition init_connection (d : Z) (salocal remote_addr : sockaddr) (conn : positive) : M unit :=
  g ← srv;
  on_request conn
    (upd (set_fd d) ;; upd (set_status READ_HEADER) ;; upd (set_header_line (Pstream 0)) ;;
     upd (set_time_last (current_time g)) ;; upd (set_kacount (ka_max g))) ;;
  match ascii_sockaddr salocal BOA_NI_MAXHOST with
  | None => turn_away d conn
  | Some local =>
      on_request conn (upd (set_local_ip_addr local)) ;;
      ok ← call (os_nonblock d);
      if negb ok then turn_away d conn
      else
        ok ← call (os_cloexec d);
        if negb ok then turn_away d conn
        else
          tune_sndbuf d ;;
          match ascii_sockaddr remote_addr BOA_NI_MAXHOST with
          | None => turn_away d conn
          | Some remote => count_connection remote (net_port remote_addr) conn
          end
  end.

Definition get_request (server_sock : Z) : M unit :=
  res ← call (os_accept server_sock);
  match res with
  | SErr _ => upd_srv (set_pending_requests false)
  | SOk (d, remote_addr) =>
      if FD_SETSIZE <=? d then call_ (os_close d)
      else
        salocal ← call (os_getsockname d);
        match salocal with
        | None => call_ (os_close d)
        | Some salocal =>
            conn ← new_request;
            match conn with
            | None => call_ (os_close d)
            | Some conn => init_connection d salocal remote_addr conn
            end
        end
  end.

(** * free_request *)

(** What is left in the buffer is sent; [true]: the request stays. *)
Definition free_flush : M bool :=
  r ← req;
  if negb (buffer_end r =? 0) && (status_num (status r) <? status_num TIMED_OUT) then
    upd (set_status DONE) ;;
    i ← req_flush;
    if i =? -2 then upd (set_status DEAD) ;; mret false
    else mret (0 <? i)
  else mret false.

(** A descriptor of the request is closed. *)
Definition close_fd (d : Z) (write : bool) : M unit :=
  if d =? 0 then mret tt
  else call_ (os_close d) ;; upd_srv (BOA_FD_CLR d write).

(** The request is logged and its resources are released. *)
Definition free_resources : M unit :=
  r ← req; g ← srv;
  (if bool_decide (status r = TIMED_OUT) && (response_status r =? 0)
   then upd (set_response_status 408) else mret tt) ;;
  (if (kacount r <? ka_max g) && bool_decide (logline r = Pnull) && (client_stream_pos r =? 0)
   then mret tt else log_access) ;;
  (match mmap_entry_var r with
   | Some _ => release_mmap (mmap_entry_var r)
   | None => match data_mem r with
             | Some m => call_ (os_munmap m (filesize r))
             | None => mret tt
             end
   end) ;;
  close_fd (data_fd r) false ;;
  close_fd (post_data_fd r) true ;;
  r ← req; g ← srv;
  (if 400 <=? response_status r then upd_srv (set_status_errors (status_errors g + 1))
   else mret tt) ;;
  match ranges r with [] => mret tt | _ => ranges_reset end.

(** May the connection be used for another request? *)
Definition reusable (r : request) : bool :=
  (status_num (status r) <? status_num TIMED_OUT) && bool_decide (keepalive r = KA_ACTIVE)
  && (response_status r <? 500) && negb (response_status r =? 0) && (0 <? kacount r).

Definition keep_connection (p : positive) : M unit :=
  on_request p
    (sanitize false ;;
     r ← req; upd (set_kacount (u32 (kacount r - 1)))) ;;
  g ← srv;
  upd_srv (set_status_requests (status_requests g + 1)) ;;
  queue_op (block_push p) ;;
  g ← srv;
  r ← checked (heap g !! p);
  upd_srv (BOA_FD_SET (fd r) false) ;;
  upd_srv (BOA_FD_CLR (fd r) true).

Definition close_connection (p : positive) : M unit :=
  g ← srv;
  r ← checked (heap g !! p);
  (if bool_decide (method r = M_POST) then call (os_read (fd r) 32768) ;; mret tt
   else mret tt) ;;
  call_ (os_close (fd r)) ;;
  upd_srv (BOA_FD_CLR (fd r) false) ;;
  upd_srv (BOA_FD_CLR (fd r) true) ;;
  g ← srv;
  upd_srv (set_total_connections (u32 (total_connections g - 1))) ;;
  queue_op (free_list_push p).

Definition free_request (p : positive) : M unit :=
  stay ← on_request p free_flush;
  if (stay : bool) then mret tt
  else
    queue_op (ready_remove p) ;;
    on_request p free_resources ;;
    g ← srv;
    r ← checked (heap g !! p);
    if reusable r then keep_connection p else close_connection p.

(** * process_requests *)

(** Buffered output goes out first; the result tells whether to go on. *)
Definition flush_first : M Z :=
  r ← req;
  if negb (buffer_end r =? 0) && (status_num (status r) <? status_num TIMED_OUT) then
    retval ← req_flush;
    if retval =? -2 then upd (set_status DEAD) ;; mret 0
    else mret (if 0 <=? retval then 1 else retval)
  else mret 1.

(** The handler of the status. *)
Definition dispatch : M Z :=
  r ← req;
  match status r with
  | READ_HEADER | ONE_CR | ONE_LF | TWO_CR => read_header
  | BODY_READ => read_body
  | BODY_WRITE => write_body
  | WRITE => process_get
  | PIPE_READ => read_from_pipe
  | PIPE_WRITE => write_from_pipe
  | IOSHUFFLE => io_shuffle_sendfile
  | DONE =>
      retval ← req_flush;
      if retval =? -2 then upd (set_status DEAD) ;; mret 0
      else mret (if 0 <? retval then 1 else retval)
  | TIMED_OUT | DEAD => upd (set_buffer_end 0) ;; SQUASH_KA ;; mret 0
  end.

Definition handle : M Z :=
  retval ← flush_first;
  retval ← (if retval =? 1 then dispatch else mret retval);
  g ← srv;
  (if negb (sigterm_flag g =? 0) then SQUASH_KA else mret tt) ;;
  mret retval.

(** [current->next]. *)
Definition next_of (p : positive) : M (option positive) :=
  g ← srv; r ← checked (heap g !! p); mret (next r).

Definition touch (p : positive) : M unit :=
  g ← srv; on_request p (upd (set_time_last (current_time g))).

(** One turn of the loop; the result is the next request. *)
Definition process_one (server_sock : Z) (current : positive) : M (option positive) :=
  now ← call os_time;
  upd_srv (set_current_time now) ;;
  retval ← on_request current handle;
  g ← srv;
  (if pending_requests g then get_request server_sock else mret tt) ;;
  if retval =? -1 then
    n ← next_of current; queue_op (block_request current) ;; mret n
  else if retval =? 0 then
    touch current ;; n ← next_of current; free_request current ;; mret n
  else if retval =? 1 then
    touch current ;; next_of current
  else
    on_request current (upd (set_status DEAD)) ;; next_of current.

(** Each request of the ready queue is visited once: new ones are put in front of
    the current one.  The fuel is the number of structures. *)
Fixpoint process_loop (fuel : nat) (server_sock : Z) (current : option positive) : M unit :=
  match current with
  | None => mret tt
  | Some p =>
      match fuel with
      | O => undef
      | S fuel' => n ← process_one server_sock p; process_loop fuel' server_sock n
      end
  end.

Definition process_requests (server_sock : Z) : M unit :=
  g ← srv;
  (if pending_requests g then get_request server_sock else mret tt) ;;
  g ← srv;
  process_loop (size (heap g)) server_sock (request_ready g).

(** [free_requests]: every structure of the free list is freed. *)
Fixpoint free_requests_loop (fuel : nat) (p : option positive) : M unit :=
  match p with
  | None => mret tt
  | Some q =>
      match fuel with
      | O => undef
      | S fuel' =>
          g ← srv;
          r ← checked (heap g !! q);
          upd_srv (set_heap (base.delete q (heap g))) ;;
          free_requests_loop fuel' (next r)
      end
  end.

Definition free_requests : M unit :=
  g ← srv;
  free_requests_loop (size (heap g)) (request_free g) ;;
  upd_srv (set_request_free None).
End request.
