(* ===== verification/Select.v ===== *)
(** select.c: the main loop, and what signals.c does in it.  The signal handlers
    only set flags; [loop_once], one turn of the loop, looks at them first. *)

From S2P Require Import Prelude Types Machine Buffer Hash Response Queue Alias.
From S2P Require Import CgiHeader Cgi Config.
From S2P Require Import Read Request.

(** The signal handlers. *)
Definition sigterm (g : server) : server :=
  if sigterm_flag g =? 0 then set_sigterm_flag 1 g else g.
Definition sighup : server -> server := set_sighup_flag true.
Definition sigchld : server -> server := set_sigchld_flag true.
Definition sigalrm : server -> server := set_sigalrm_flag true.

(** Is the request, when it is blocked for [time_since] seconds, given up? *)
Definition timed_out (g : server) (r : request) (time_since : Z) : bool :=
  ((kacount r <? ka_max g) && (ka_timeout g <=? time_since) && bool_decide (logline r = Pnull))
  || (REQUEST_TIMEOUT <? time_since).

(** What [fdset_update] waits for: a descriptor and whether to write to it;
    [None]: the request is ready in any case. *)
Definition blocked_on (r : request) : option (Z * bool) :=
  if negb (buffer_end r =? 0) && (status_num (status r) <? status_num DONE) then
    Some (fd r, true)
  else
    match status r with
    | IOSHUFFLE | WRITE | PIPE_WRITE | DONE => Some (fd r, true)
    | BODY_WRITE => Some (post_data_fd r, true)
    | PIPE_READ => Some (data_fd r, false)
    | TIMED_OUT | DEAD => None
    | _ => Some (fd r, false)
    end.

(** [FD_ISSET]. *)
Definition fd_isset (g : server) (d : Z) (write : bool) : bool :=
  bool_decide (d ∈ if write then block_write_fdset g else block_read_fdset g).

Section select.
Context {os : OS}.

Definition update_one (p : positive) : M unit :=
  g ← srv;
  r ← checked (heap g !! p);
  let time_since := current_time g - time_last r in
  (if timed_out g r time_since then on_request p (upd (set_status TIMED_OUT)) else mret tt) ;;
  g ← srv;
  r ← checked (heap g !! p);
  match blocked_on r with
  | None => queue_op (ready_request p)
  | Some (d, write) =>
      if fd_isset g d write then queue_op (ready_request p)
      else upd_srv (BOA_FD_SET d write)
  end.

Fixpoint update_loop (fuel : nat) (current : option positive) : M unit :=
  match current with
  | None => mret tt
  | Some p =>
      match fuel with
      | O => undef
      | S fuel' => n ← next_of p; update_one p ;; update_loop fuel' n
      end
  end.

Definition fdset_update : M unit :=
  now ← call os_time;
  upd_srv (set_current_time now) ;;
  g ← srv;
  update_loop (size (heap g)) (request_block g).

(** The descriptors that select leaves in the sets. *)
Definition select_sets : M unit :=
  w ← ask (fun w => w);
  upd_srv (fun g =>
    set_block_read_fdset (filter (fun d => os_selected_read d w = true) (block_read_fdset g))
      (set_block_write_fdset
         (filter (fun d => os_selected_write d w = true) (block_write_fdset g)) g)).

Definition sigterm_stage1_run : M unit :=
  now ← call os_time; upd_srv (set_current_time now) ;; upd_srv (set_sigterm_flag 2).

(** The end of the server. *)
Definition sigterm_stage2_run : M unit :=
  g ← srv;
  call (os_chdir (tempdir g)) ;;
  clear_common_env ;;
  cgi_strip_cleanup ;;
  dump_mime ;;
  dump_passwd ;;
  dump_alias ;;
  free_requests ;;
  Range.range_pool_empty ;;
  die.

(** The configuration is read again. *)
Definition sighup_run : M unit :=
  upd_srv (set_sighup_flag false) ;;
  now ← call os_time;
  upd_srv (set_current_time now) ;;
  dump_mime ;;
  dump_passwd ;;
  dump_alias ;;
  free_requests ;;
  Range.range_pool_empty ;;
  read_config_files.

(** [while ((pid = waitpid ( -1, &status, WNOHANG)) > 0)]. *)
Fixpoint reap (fuel : nat) : M unit :=
  match fuel with
  | O => undef
  | S fuel' =>
      pid ← call os_waitpid;
      if 0 <? pid then
        g ← srv;
        (if verbose_cgi_logs g then now ← call os_time; upd_srv (set_current_time now)
         else mret tt) ;;
        reap fuel'
      else mret tt
  end.

Definition sigchld_run : M unit :=
  upd_srv (set_sigchld_flag false) ;;
  n ← ask os_children;
  reap (S n).

(** The statistics go to stderr. *)
Definition sigalrm_run : M unit :=
  now ← call os_time; upd_srv (set_current_time now) ;; upd_srv (set_sigalrm_flag false).

Definition run_signals : M unit :=
  g ← srv;
  (if sighup_flag g then sighup_run else mret tt) ;;
  g ← srv;
  (if sigchld_flag g then sigchld_run else mret tt) ;;
  g ← srv;
  if sigalrm_flag g then sigalrm_run else mret tt.

(** Shutdown, and whether new connections are wanted; the result is the server
    socket, -1 once it is closed. *)
Definition loop_signals (server_s : Z) : M Z :=
  g ← srv;
  if negb (sigterm_flag g =? 0) then
    server_s ←
      (if sigterm_flag g =? 1 then
         sigterm_stage1_run ;;
         upd_srv (BOA_FD_CLR server_s false) ;;
         call_ (os_close server_s) ;;
         mret (-1)
       else mret server_s);
    g ← srv;
    (if (sigterm_flag g =? 2) && bool_decide (request_ready g = None)
        && bool_decide (request_block g = None)
     then sigterm_stage2_run else mret tt) ;;
    mret server_s
  else
    upd_srv (if max_connections g <? total_connections g then BOA_FD_CLR server_s false
             else BOA_FD_SET server_s false) ;;
    mret server_s.

(** The call of select; [false]: it was interrupted. *)
Definition loop_select (server_s : Z) : M bool :=
  g ← srv;
  if max_fd g =? 0 then mret true
  else
    res ← call (os_select (max_fd g));
    let finish : M bool :=
      g ← srv;
      (if (sigterm_flag g =? 0) && fd_isset g server_s false
       then upd_srv (set_pending_requests true) else mret tt) ;;
      now ← call os_time;
      upd_srv (set_current_time now) ;;
      mret true in
    match res with
    | SOk _ => select_sets ;; finish
    | SErr EINTR => mret false
    | SErr EBADF => finish
    | SErr _ => die
    end.

Definition loop_once (server_s : Z) : M Z :=
  run_signals ;;
  server_s ← loop_signals server_s;
  upd_srv (set_pending_requests false) ;;
  go ← loop_select server_s;
  if negb go then mret server_s
  else
    upd_srv (set_max_fd (-1)) ;;
    g ← srv;
    (match request_block g with Some _ => fdset_update | None => mret tt end) ;;
    g ← srv;
    (if pending_requests g || bool_decide (is_Some (request_ready g))
     then process_requests server_s else mret tt) ;;
    mret server_s.
End select.
