(* ===== verification/TransferProps.v ===== *)
(** File data goes out byte by byte as it is in the file, from the mapping
    ([process_get]) and with sendfile ([io_shuffle_sendfile]). *)

From S2P Require Import Prelude Types Machine ScriptOS Buffer Response Pointer.
From S2P Require Import CgiHeader Pipe Get.

(** One call of a transfer function for the range [rg] of [src], behind which the
    ranges [l] wait: it sends the next [k] bytes of the range and moves its start
    by [k]; the response is complete exactly when the last byte was sent. *)
Definition transfer {os : OS} {laws : OSLaws os} (src : bytes) (rg : Range) (l : list Range)
    (s : St) (n : Z) (s' : St) : Prop :=
  exists k, 0 <= k <= stop rg - start rg + 1 /\
    sent (fd (rq s)) (wd s') = sent (fd (rq s)) (wd s) ++ slice src (start rg) k /\
    zlen (slice src (start rg) k) = k /\
    file_data (data_fd (rq s)) (wd s') = file_data (data_fd (rq s)) (wd s) /\
    ((n = -1 /\ k = 0 /\ rq s' = rq s) \/
     (n = 0 /\ k = 0 /\ rq s' = set_status DEAD (rq s)) \/
     (n = 1 /\ k < stop rg - start rg + 1 /\
      rq s' = set_ranges (mkRange (start rg + k) (stop rg) :: l)
                (set_bytes_written (u64 (bytes_written (rq s) + k)) (rq s))) \/
     (n = 0 /\ k = stop rg - start rg + 1 /\
      rq s' = set_status DONE (set_ranges l
                (set_bytes_written (u64 (bytes_written (rq s) + k)) (rq s))))).

(** One range is sent, as the whole file or as a part. *)
Definition single (r : request) : Prop := response_status r <> R_PARTIAL_CONTENT \/ numranges r <= 1.

Section transfer.
Context {os : OS} {laws : OSLaws os}.

Lemma complete_single s rg l (Q : Z -> St -> Prop) :
  single (rq s) -> ranges (rq s) = rg :: l ->
  (forall g, Q 0 (mkSt (set_status DONE (set_ranges l (rq s))) g (wd s))) ->
  wp complete_response Q s.
Proof.
  intros Hs Hr HQ. unfold complete_response, first_range. wps. rewrite Hr.
  eapply wp_checked; [done|]. wps. rewrite Hr. unfold range_pool_push. wps.
  replace ((response_status _ =? _) && (1 <? _)) with false.
  { wps. apply HQ. }
  symmetry. apply andb_false_iff. cbn [response_status set_ranges].
  change (response_status (set_ranges _ _)) with (response_status (rq s)).
  change (numranges (set_ranges _ _)) with (numranges (rq s)).
  destruct Hs; [left; by apply Z.eqb_neq|right; by apply Z.ltb_ge].
Qed.

(** Sending from the mapped file. *)
Theorem process_get_correct s mem rg l :
  is_conn (fd (rq s)) (wd s) ->
  method (rq s) <> M_HEAD -> ranges (rq s) = rg :: l -> data_mem (rq s) = Some mem ->
  0 <= start rg <= stop rg -> stop rg < zlen mem -> zlen mem <= MAX_FILE_MMAP ->
  0 <= system_bufsize (sv s) < 2 ^ 32 -> single (rq s) ->
  wp process_get (transfer mem rg l s) s.
Proof.
  intros Hconn Hm Hr Hd Hrg Hlen Hmax Hsys Hsingle. unfold MAX_FILE_MMAP in Hmax.
  unfold process_get, first_range. wps. rewrite bool_decide_false by done. wps. rewrite Hr.
  eapply wp_checked; [done|]. wps.
  rewrite (u64_small (stop rg - start rg)), (u32_small (stop rg - start rg + 1)) by lia.
  set (want := if _ <? _ then _ else _).
  assert (Hwant : 0 <= want <= stop rg - start rg + 1)
    by (subst want; destruct (Z.ltb_spec (system_bufsize (sv s)) (stop rg - start rg + 1)); lia).
  assert (Hslice : zlen (slice mem (start rg) want) = want) by (apply zlen_slice; lia).
  apply wp_call. intros bus w Hbus. wps. pose proof (sigbus_data _ _ _ Hbus (data_fd (rq s))) as Hdat.
  pose proof (conn_sigbus _ _ _ _ Hbus Hconn) as Hconn'.
  apply (sigbus_sent (fd (rq s))) in Hbus. simpl in Hbus, Hdat.
  destruct bus; wps.
  { exists 0. rewrite slice_0, app_nil_r by done. split_and!; [lia|lia|done|done|done|]. right. by left. }
  rewrite Hd. eapply wp_checked; [done|]. wps. unfold load.
  replace (_ && _ && _) with true.
  2:{ symmetry. rewrite !andb_true_iff, !Z.leb_le. lia. }
  wps. apply wp_call. intros res w' Hw. wps.
  pose proof (write_data _ (data_fd (rq s)) _ _ _ _ Hconn' Hw) as Hdat'. cbn [wd] in Hdat'.
  rewrite Hdat in Hdat'.
  destruct res as [k|e]; wps.
  - pose proof (write_bound _ _ _ _ _ Hw) as Hk. rewrite Hslice in Hk.
    apply sent_write in Hw. rewrite ztake_slice in Hw by lia. cbn [wd rq] in Hw.
    rewrite Hbus in Hw. unfold set_first_start. wps.
    change (ranges (set_bytes_written _ _)) with (ranges (rq s)). rewrite Hr. wps.
    rewrite !u64_small by (rewrite ?u64_small; lia).
    assert (Hz : zlen (slice mem (start rg) k) = k) by (apply zlen_slice; lia).
    destruct (Z.eqb_spec (stop rg + 1 - (start rg + k)) 0) as [E|E].
    + eapply complete_single; [done|reflexivity|]. intros g. exists k.
      split_and!; [lia|lia|done|done|done|]. right. right. right. split_and!; [done|lia|done].
    + wps. exists k. split_and!; [lia|lia|done|done|done|]. right. right. left. split_and!; [done|lia|done].
  - apply sent_write_err with (fd := fd (rq s)) in Hw || apply sent_write_err in Hw.
    cbn [wd rq] in Hw. rewrite Hbus in Hw.
    destruct e; wps; exists 0; rewrite slice_0, app_nil_r by done;
      (split_and!; [lia|lia|done|done|done|]); [by left|right; by left..].
Qed.

(** Storing the start of a range unchanged changes nothing. *)
Lemma set_start_same r rg l : ranges r = rg :: l -> set_ranges (mkRange (start rg) (stop rg) :: l) r = r.
Proof. destruct r, rg. simpl. by intros ->. Qed.

(** The call of sendfile, once it is not interrupted any more. *)
Lemma sendfile_retry_wp fuel n s rg l :
  is_conn (fd (rq s)) (wd s) -> ranges (rq s) = rg :: l -> 0 <= start rg -> 0 <= n -> start rg + n < 2 ^ 63 ->
  (os_signals (wd s) < fuel)%nat ->
  wp (sendfile_retry fuel n) (fun res s' => exists k,
    0 <= k <= n /\ rq s' = set_ranges (mkRange (start rg + k) (stop rg) :: l) (rq s) /\
    sent (fd (rq s)) (wd s') =
      sent (fd (rq s)) (wd s) ++ slice (file_data (data_fd (rq s)) (wd s)) (start rg) k /\
    zlen (slice (file_data (data_fd (rq s)) (wd s)) (start rg) k) = k /\
    file_data (data_fd (rq s)) (wd s') = file_data (data_fd (rq s)) (wd s) /\
    (res = Some (SOk k) \/ k = 0 /\ exists e, res = Some (SErr e))) s.
Proof.
  revert s. induction fuel as [|fuel IH]; intros s Hconn Hr Hs Hn Hmax Hf; [lia|].
  cbn [sendfile_retry]. destruct (Z.eqb_spec n 0) as [->|Hn0]; wps.
  { exists 0. rewrite slice_0, app_nil_r, Z.add_0_r by done.
    rewrite set_start_same by done. split_and!; try lia; auto. }
  unfold first_range. wps. rewrite Hr. eapply wp_checked; [done|]. wps.
  rewrite i64_small by lia. destruct (Z.ltb_spec (start rg) 0); [lia|]. wps.
  apply wp_call. intros [res ofs] w Hc.
  destruct (os_sendfile _ _ _ _ _) as [[res' ofs'] w'] eqn:E. injection Hc as -> -> ->. wps.
  assert (Hofs : exists k, 0 <= k <= n /\ ofs = start rg + k /\
    zlen (slice (file_data (data_fd (rq s)) (wd s)) (start rg) k) = k /\
    sent (fd (rq s)) w = sent (fd (rq s)) (wd s)
      ++ slice (file_data (data_fd (rq s)) (wd s)) (start rg) k /\
    match res with SOk m => m = k | SErr _ => k = 0 end).
  { destruct res as [m|e].
    - apply sendfile_ok in E as (? & ? & ? & ?); [|lia..]. by exists m.
    - apply sendfile_err in E as [-> ->]. exists 0. rewrite slice_0, app_nil_r by done.
      split_and!; try done; lia. }
  destruct Hofs as (k & Hk & -> & Hz & Hsent & Hres).
  destruct (Z.ltb_spec (start rg + k) 0); [lia|]. unfold set_first_start. wps.
  rewrite Hr. wps. rewrite u64_small by lia.
  pose proof (sendfile_data _ _ _ _ _ _ _ _ Hconn E) as Hdata.
  destruct res as [m|e].
  { wps. exists k. rewrite Hres. split_and!; try lia; auto. }
  subst k. destruct (decide (e = EINTR)) as [->|He].
  - pose proof (sendfile_signal _ _ _ _ _ _ _ E) as Hsig.
    rewrite Z.add_0_r, set_start_same by done.
    pose proof (conn_sendfile _ _ _ _ _ _ _ _ _ E Hconn) as Hconn'.
    eapply wp_mono; [apply IH; cbn [rq sv wd]; (done || lia)|].
    intros r' s' (k & H1 & H2 & H3 & H4 & H5 & H6). cbn [rq sv wd] in *.
    rewrite Hdata, Hsent, slice_0, app_nil_r in * by done. by exists k.
  - destruct e; try congruence; wps; exists 0; rewrite Hsent; split_and!; try lia; eauto.
Qed.

(** Sending from a large file with sendfile; a call that signals
    interrupt is repeated until it is done, and the function returns. *)
Theorem io_shuffle_sendfile_correct s rg l :
  is_conn (fd (rq s)) (wd s) ->
  method (rq s) <> M_HEAD -> ranges (rq s) = rg :: l ->
  0 <= start rg <= stop rg -> stop rg + 1 < 2 ^ 62 ->
  0 <= system_bufsize (sv s) < 2 ^ 31 -> single (rq s) ->
  wp io_shuffle_sendfile (transfer (file_data (data_fd (rq s)) (wd s)) rg l s) s.
Proof.
  intros Hconn Hm Hr Hrg Hmax Hsys Hsingle.
  unfold io_shuffle_sendfile, signal_fuel, first_range. wps.
  rewrite bool_decide_false by done. wps. rewrite Hr. eapply wp_checked; [done|]. wps.
  rewrite (u64_small (stop rg - start rg)), (u64_small (stop rg - start rg + 1)) by lia.
  set (want := if _ <? _ then _ else _).
  assert (Hwant : 0 <= want <= stop rg - start rg + 1 /\ want < 2 ^ 31 + 1)
    by (subst want; destruct (Z.ltb_spec (system_bufsize (sv s)) (stop rg - start rg + 1)); lia).
  assert (Hw31 : want <= system_bufsize (sv s))
    by (subst want; destruct (Z.ltb_spec (system_bufsize (sv s)) (stop rg - start rg + 1)); lia).
  clearbody want. refine (wp_mono _ _ _ s (sendfile_retry_wp _ want s rg l Hconn Hr _ _ _ _) _);
    [lia..|]. intros res s' (k & Hk & Hs' & Hsent & Hz & Hdat & Hres).
  destruct Hres as [->|(-> & e & ->)].
  - rewrite i32_small by lia. destruct (Z.eqb_spec want 0), (Z.eqb_spec k 0); cbn [negb andb]; wps.
    2: lia.
    2:{ exists 0. subst k. rewrite Hs', Z.add_0_r, set_start_same by done.
        split_and!; [lia|lia|done|done|done|]. by left. }
    all: rewrite Hs'; eapply wp_checked; [reflexivity|]; wps.
    all: cbn [start stop]; rewrite (u64_small (stop rg + 1)) by lia.
    all: destruct (Z.leb_spec (stop rg + 1) (start rg + k)).
    all: try (eapply complete_single; [done|reflexivity|]; intros g; exists k;
      split_and!; [lia|lia|done|done|done|]; right; right; right; split_and!; [done|lia|done]).
    all: wps; exists k; (split_and!; [lia|lia|done|done|done|]); right; right; left;
      (split_and!; [done|lia|done]).
  - rewrite Z.add_0_r, set_start_same in Hs' by done.
    destruct e; wps; exists 0; rewrite ?Hs';
      (split_and!; [lia|lia|done|done|done|]); [by left|right; by left..].
Qed.
End transfer.

(** * Witnesses *)

(** On [scriptOS] a descriptor without a file is a connection. *)
Lemma free_conn d (w : script) : find_fd d w = None -> is_conn (os := scriptOS) d w.
Proof. done. Qed.

Definition transfer_state : St :=
  mkSt (set_ranges [mkRange 1 3] (set_data_mem (Some (bs "hello")) (set_data_fd 5
          (set_response_status 200 test_request))))
    (set_system_bufsize 2 test_server)
    (set_open_fds [(5, mkFile (bs "/f") (mkStat S_REG 5 1 1 1) (bs "hello"))]
       (set_writes [SErr EINTR] empty_world)).

(** The same without a signal. *)
Definition calm_state : St := mkSt (os := scriptOS) (rq transfer_state) (sv transfer_state) empty_world.

Definition ret_of {A} (o : out A) : option A := match o with Ret a _ => Some a | _ => None end.
Definition sent_of {A} (d : Z) (o : out A) : bytes :=
  match o with Ret _ s => sent_on d (wd s) | _ => [] end.

Lemma process_get_correct_witness :
  exists s', process_get calm_state = Ret 1 s' /\
    sent 7 (wd s') = bs "el".
Proof.
  destruct (wp_elim _ _ _ (process_get_correct
    calm_state (bs "hello") (mkRange 1 3) [] (free_conn 7 (wd calm_state) eq_refl)
    ltac:(discriminate) eq_refl eq_refl ltac:(by vm_compute) ltac:(by vm_compute)
    ltac:(by vm_compute) ltac:(by vm_compute) ltac:(by left)))
    as (n & s' & E & k & _ & Hs & _).
  assert (n = 1) as -> by (apply (f_equal ret_of) in E; vm_compute in E; congruence).
  exists s'. split; [exact E|]. change (sent 7 (wd s')) with (sent_of 7 (Ret 1 s')).
  rewrite <- E. vm_compute. reflexivity.
Defined.

Lemma io_shuffle_sendfile_correct_witness :
  exists s', io_shuffle_sendfile transfer_state = Ret 1 s' /\ sent 7 (wd s') = bs "el".
Proof.
  destruct (wp_elim _ _ _ (io_shuffle_sendfile_correct transfer_state (mkRange 1 3) [] (free_conn 7 (wd transfer_state) eq_refl)
    ltac:(discriminate) eq_refl ltac:(by vm_compute) ltac:(by vm_compute)
    ltac:(by vm_compute) ltac:(by left)))
    as (n & s' & E & _).
  assert (n = 1) as -> by (apply (f_equal ret_of) in E; vm_compute in E; congruence).
  exists s'. split; [exact E|]. change (sent 7 (wd s')) with (sent_of 7 (Ret 1 s')).
  rewrite <- E. vm_compute. reflexivity.
Defined.
