(* ===== verification/CgiProps.v ===== *)
(** The environment a script gets. *)

From S2P Require Import Prelude Types Machine ScriptOS Util Response ResponseProofs.
From S2P Require Import Alias.
From S2P Require Import Pointer Log Cgi.

(** * Specification *)

Definition var (kv : bytes * bytes) : option bytes := Some (kv.1 ++ 61 :: kv.2).

Definition ptr_var (r : request) (k : bytes) (p : ptr) : list (bytes * bytes) :=
  match p with Pnull => [] | _ => [(k, string_or r p [])] end.

(** The variables that describe the request. *)
Definition env_vars (r : request) (g : server) : list (bytes * bytes) :=
  [(bs "REQUEST_METHOD", method_name (method r))]
  ++ ptr_var r (bs "HTTP_HOST") (header_host r)
  ++ [(bs "SERVER_ADDR", local_ip_addr r);
      (bs "SERVER_PROTOCOL", http_ver_string (http_version r));
      (bs "REQUEST_URI", uri_of r)]
  ++ env_opt (bs "PATH_INFO") (path_info r)
  ++ env_opt (bs "PATH_TRANSLATED") (path_translated r)
  ++ [(bs "SCRIPT_NAME", default [] (script_name r))]
  ++ ptr_var r (bs "QUERY_STRING") (query_string r)
  ++ [(bs "REMOTE_ADDR", remote_ip_addr r);
      (bs "REMOTE_PORT", simple_itoa (remote_port r))]
  ++ (if bool_decide (method r = M_POST) then
        (match content_type r with
         | Pnull => [(bs "CONTENT_TYPE", default_type g)]
         | p => ptr_var r (bs "CONTENT_TYPE") p
         end) ++ ptr_var r (bs "CONTENT_LENGTH") (content_length r)
      else []).

(** The strings of the request are there. *)
Record env_ready (r : request) : Prop := {
  er_uri : exists u, cstr (request_uri r) 0 = Some u;
  er_host : ptr_ok r (header_host r);
  er_query : ptr_ok r (query_string r);
  er_type : ptr_ok r (content_type r);
  er_length : ptr_ok r (content_length r);
  er_size : zlen (cgi_env r) = CGI_ENV_MAX + 4
}.

Section cgi_props.
Context {os : OS}.

Lemma env_ptr_wp k p (Q : list (bytes * bytes) -> St -> Prop) s :
  ptr_ok (rq s) p -> Q (ptr_var (rq s) k p) s -> wp (env_ptr k p) Q s.
Proof.
  intros [->|[v Hv]] HQ; [by apply wp_ret|]. unfold env_ptr, pstr.
  destruct p; simpl in Hv; [done|..]; wps; (eapply wp_checked; [exact Hv|]); wps;
    simpl in HQ; by rewrite Hv in HQ.
Qed.

Lemma request_env_wp (Q : list (bytes * bytes) -> St -> Prop) s :
  env_ready (rq s) -> Q (env_vars (rq s) (sv s)) s -> wp request_env Q s.
Proof.
  intros [[u Hu] Hh Hq Ht Hl _] HQ. unfold request_env, uri. wps.
  eapply wp_checked; [exact Hu|]. wps.
  apply env_ptr_wp; [done|]. wps. apply env_ptr_wp; [done|]. wps.
  unfold env_vars, uri_of in HQ. rewrite Hu in HQ.
  destruct (bool_decide (method (rq s) = M_POST)); wps; [|exact HQ].
  apply env_ptr_wp; [done|]. wps. apply env_ptr_wp; [done|]. wps.
  destruct (content_type (rq s)); exact HQ.
Qed.

Lemma set_env_wp i v (Q : unit -> St -> Prop) s :
  0 <= i < zlen (cgi_env (rq s)) ->
  (forall e, blit (cgi_env (rq s)) i [v] = Some e ->
     Q tt (mkSt (set_cgi_env e (rq s)) (sv s) (wd s))) ->
  wp (set_env i v) Q s.
Proof.
  intros Hi HQ. unfold set_env. wps.
  destruct (blit (cgi_env (rq s)) i [v]) as [e|] eqn:E.
  - eapply wp_checked; [done|]. wps. by apply HQ.
  - apply eq_None_not_Some in E. destruct E. apply blit_is_Some. change (zlen [v]) with 1. lia.
Qed.

Lemma blit_nil {A} (a : list A) i : 0 <= i <= zlen a -> blit a i [] = Some a.
Proof.
  intros. rewrite blit_Some by (rewrite ?zlen_nil; lia). simpl.
  by rewrite zlen_nil, Z.add_0_r, ztake_zdrop.
Qed.

Lemma copy_common_wp c i (Q : unit -> St -> Prop) s :
  0 <= i -> i + zlen c <= zlen (cgi_env (rq s)) ->
  (forall e, blit (cgi_env (rq s)) i (Some <$> c) = Some e ->
     Q tt (mkSt (set_cgi_env e (rq s)) (sv s) (wd s))) ->
  wp (copy_common ((Some <$> c) ++ [None]) i) Q s.
Proof.
  revert i s. induction c as [|x c IH]; intros i s Hi Hl HQ; simpl.
  - apply wp_ret. replace s with (mkSt (set_cgi_env (cgi_env (rq s)) (rq s)) (sv s) (wd s)).
    + apply HQ. apply blit_nil. rewrite zlen_nil in Hl. lia.
    + destruct s as [[] ? ?]. done.
  - rewrite zlen_cons in Hl. pose proof (zlen_nonneg c). wps. apply set_env_wp; [lia|].
    intros e He. pose proof (blit_zlen _ _ _ _ He) as Hlen.
    apply IH; simpl; [lia|lia|]. intros e2 He2. cbn [rq sv wd].
    apply (HQ e2). change (Some <$> x :: c) with ([Some x] ++ (Some <$> c)).
    by rewrite <- (blit_blit _ _ _ _ _ He).
Qed.

Lemma zlen_fmap {A B} (f : A -> B) (l : list A) : zlen (f <$> l) = zlen l.
Proof. unfold zlen. by rewrite length_fmap. Qed.

Lemma set_env_same r :
  set_cgi_env_index (cgi_env_index r + 0) (set_cgi_env (cgi_env r) r) = r.
Proof. rewrite Z.add_0_r. by destruct r. Qed.

(** The outcome of adding variables: all of them, or 0. *)
Lemma add_all_wp l (Q : Z -> St -> Prop) s :
  zlen (cgi_env (rq s)) = CGI_ENV_MAX + 4 ->
  0 <= cgi_env_index (rq s) <= CGI_ENV_MAX ->
  (forall r w, Q 0 (mkSt r (sv s) w)) ->
  (forall e w, blit (cgi_env (rq s)) (cgi_env_index (rq s)) (var <$> l) = Some e ->
     cgi_env_index (rq s) + zlen l <= CGI_ENV_MAX ->
     Q 1 (mkSt (set_cgi_env_index (cgi_env_index (rq s) + zlen l) (set_cgi_env e (rq s)))
            (sv s) w)) ->
  wp (add_all l) Q s.
Proof.
  revert s. induction l as [|[k v] l IH]; intros s Hlen Hi HQ0 HQ1; cbn [add_all].
  - apply wp_ret.
    destruct s as [r g w]. cbn [rq sv wd] in *. specialize (HQ1 (cgi_env r) w).
    rewrite zlen_nil, set_env_same in HQ1. apply HQ1; [apply blit_nil; lia|lia].
  - unfold add_cgi_env, env_gen_extra. wps.
    destruct (Z.ltb_spec (cgi_env_index (rq s)) CGI_ENV_MAX); wps; [|destruct s; apply HQ0].
    apply wp_call. intros ok w _. wps. destruct ok; wps; [|apply HQ0].
    apply set_env_wp; [simpl; lia|]. intros e He. cbn [rq sv wd] in *. wps.
    pose proof (blit_zlen _ _ _ _ He) as Hl2. apply IH; simpl; try lia; [auto|].
    intros e2 w2 He2 Hmax. rewrite zlen_cons in *.
    replace (cgi_env_index (rq s) + (zlen l + 1)) with (cgi_env_index (rq s) + 1 + zlen l) in * by lia.
    apply (HQ1 e2); [|lia]. change (var <$> (k, v) :: l) with ([var (k, v)] ++ (var <$> l)).
    rewrite <- (blit_blit _ _ _ _ _ He). exact He2.
Qed.

(** C24: the environment of a script is the common variables, the headers of
    the request that were collected while it was read, and the variables that
    describe it, terminated by NULL; it never leaves its array, and when there is
    no room for all variables the script is not started. *)
Theorem complete_env_correct s c :
  env_ready (rq s) -> common_cgi_env (sv s) = (Some <$> c) ++ [None] ->
  zlen c <= cgi_env_index (rq s) <= CGI_ENV_MAX ->
  wp complete_env (fun x s' => sv s' = sv s /\
    (x = 0 \/
     let vars := env_vars (rq s) (sv s) in
     let n := cgi_env_index (rq s) + zlen vars in
     x = 1 /\ n <= CGI_ENV_MAX /\ cgi_env_index (rq s') = n /\
     ztake (n + 1) (cgi_env (rq s')) =
       (Some <$> c) ++ slice (cgi_env (rq s)) (zlen c) (cgi_env_index (rq s) - zlen c)
       ++ (var <$> vars) ++ [None])) s.
Proof.
  intros Hr Hc Hi. pose proof (er_size _ Hr) as Hlen. pose proof (zlen_nonneg c).
  unfold complete_env. wps. rewrite Hc. unfold CGI_ENV_MAX in *.
  apply copy_common_wp; [lia|lia|]. intros e1 He1. wps.
  pose proof (blit_zlen _ _ _ _ He1) as Hl1.
  set (s1 := mkSt _ _ _). apply request_env_wp.
  { destruct Hr as [H1 H2 H3 H4 H5 H6]. split; [exact H1|exact H2|exact H3|exact H4|exact H5|].
    cbn. congruence. }
  wps.
  change (env_vars (rq s1) (sv s1)) with (env_vars (rq s) (sv s)).
  set (vars := env_vars (rq s) (sv s)). pose proof (zlen_nonneg vars).
  apply add_all_wp; [simpl; unfold CGI_ENV_MAX in *; lia|simpl; unfold CGI_ENV_MAX in *; lia| |].
  { intros r w. wps. split; [done|by left]. }
  intros e2 w He2 Hmax. cbn [rq sv wd cgi_env_index cgi_env] in *.
  change (1 =? 0) with false. wps. subst s1.
  cbn [rq sv wd] in *. unfold CGI_ENV_MAX in *.
  change (cgi_env_index (set_cgi_env e1 (rq s))) with (cgi_env_index (rq s)) in *.
  change (cgi_env (set_cgi_env e1 (rq s))) with e1 in *.
  change (cgi_env_index (set_cgi_env_index ?x _)) with x.
  destruct (Z.ltb_spec (cgi_env_index (rq s) + zlen vars) (100 + 1)); [|lia]. wps.
  pose proof (blit_zlen _ _ _ _ He2) as Hl2.
  apply set_env_wp.
  { change (cgi_env (rq _)) with e2. lia. }
  intros e3 He3. cbn [rq sv wd] in *. wps. change (cgi_env (set_cgi_env_index _ _)) with e2 in He3.
  split; [done|]. right. split_and!; [done|lia|done|].
  change (cgi_env (set_cgi_env e3 _)) with e3.
  rewrite <- (zlen_fmap var vars) in He3 |- *. rewrite (blit_blit _ _ _ _ _ He2) in He3.
  apply blit_inv in He3 as (_ & Hb & ->). rewrite !app_assoc.
  rewrite ztake_app_exact.
  2:{ rewrite !zlen_app, zlen_ztake by lia. change (zlen [None]) with 1. lia. }
  rewrite <- !app_assoc.
  rewrite <- (ztake_zdrop (zlen c) (ztake (cgi_env_index (rq s)) e1)), <- app_assoc. f_equal.
  - pose proof (slice_blit_eq _ _ _ _ He1) as E. rewrite zlen_fmap in E. rewrite <- E.
    unfold slice, ztake, zdrop. simpl. rewrite take_take. f_equal. lia.
  - f_equal. unfold slice, ztake, zdrop. rewrite skipn_firstn_comm.
    apply (zdrop_blit_after _ _ _ _ (zlen c)) in He1; [|rewrite zlen_fmap; lia].
    unfold zdrop in He1. rewrite He1. f_equal. lia.
Qed.
End cgi_props.

(** A GET with a query, for a server whose only common variable is PATH. *)
Definition env_state : St :=
  mkSt (os := scriptOS)
    (set_method M_GET (set_http_version HTTP11 (set_cgi_env_index 1 (set_query_string (Puri 3)
       (set_script_name (Some (bs "/a"))
         (set_request_uri (bs "/a" ++ [0] ++ bs "x=1" ++ zeros 100) test_request))))))
    (set_common_cgi_env_count 1 (set_common_cgi_env [Some (bs "PATH=/bin"); None] test_server))
    empty_world.

Definition env_of {A} (o : out A) : list (option bytes) :=
  match o with Ret _ s => ztake 10 (cgi_env (rq s)) | _ => [] end.

Lemma env_state_ready : env_ready (rq env_state).
Proof.
  split; [exists (bs "/a"); vm_compute; reflexivity|by left| |by left|by left|vm_compute; reflexivity].
  right. vm_compute. eauto.
Qed.

Lemma complete_env_correct_witness :
  exists s', complete_env env_state = Ret 1 s' /\
    ztake 10 (cgi_env (rq s')) = (Some <$>
      [bs "PATH=/bin"; bs "REQUEST_METHOD=GET"; bs "SERVER_ADDR=10.0.0.1";
       bs "SERVER_PROTOCOL=HTTP/1.1"; bs "REQUEST_URI=/a"; bs "SCRIPT_NAME=/a";
       bs "QUERY_STRING=x=1"; bs "REMOTE_ADDR=10.0.0.2"; bs "REMOTE_PORT=4000"]) ++ [None].
Proof.
  destruct (wp_elim _ _ _ (complete_env_correct env_state [bs "PATH=/bin"] env_state_ready
    eq_refl ltac:(by vm_compute))) as (x & s' & E & _ & [->|(-> & _ & _ & H)]).
  - exfalso. apply (f_equal (fun o => match o with Ret x _ => x | _ => 1 end)) in E.
    vm_compute in E. discriminate E.
  - exists s'. split; [exact E|]. exact H.
Defined.
