(* ===== verification/PipeProps.v ===== *)
(** A step of the copying of a POST body to its file, and the limits of the buffer when a
    script's output is read. *)

From S2P Require Import Prelude Types Machine ScriptOS Buffer Dates Hash Response.
From S2P Require Import ResponseProofs.
From S2P Require Import ResponseProps Alias Pointer CgiHeader Cgi Pipe Parse Read.
From S2P Require Import TransferProps.

Section pipe_props.
Context {os : OS} {laws : OSLaws os}.

(** The part of the body that is in memory at [p]. *)
Definition in_memory (r : request) (p : ptr) (d : Z) (data : bytes) : Prop :=
  exists a i, parray r p = Some (a, i) /\ 0 <= i /\ 0 <= d /\ i + d <= zlen a /\
    data = slice a i d.

Lemma pload_wp p n d data (Q : bytes -> St -> Prop) s :
  in_memory (rq s) p d data -> 0 <= n <= d -> Q (ztake n data) s -> wp (pload p n) Q s.
Proof.
  intros (a & i & Hp & Hi & Hd & Hl & ->) Hn HQ. unfold pload. wps.
  eapply wp_checked; [exact Hp|]. cbv beta iota.
  replace (_ && _ && _) with true by (symmetry; rewrite !andb_true_iff, !Z.leb_le; lia).
  wps. by rewrite ztake_slice in HQ by lia.
Qed.

(** A step that copies the body of a POST writes a prefix of what is in
    memory to the file, never more than the rest of the announced length, and
    advances both positions by what was written; if the file takes nothing, nothing
    changes, and if it fails, the request ends. *)
Theorem write_body_correct s p d data :
  header_line (rq s) = p -> psub (header_end (rq s)) p = Some d ->
  in_memory (rq s) p d data -> 0 < d < 2 ^ 31 ->
  0 <= filepos (rq s) < filesize (rq s) -> filesize (rq s) < 2 ^ 63 -> printable s ->
  wp write_body (fun n s' =>
    n = 0 \/
    (n = -1 \/ n = 1) /\ exists k,
      0 <= k <= d /\ filepos (rq s) + k <= filesize (rq s) /\
      sent (post_data_fd (rq s)) (wd s') = sent (post_data_fd (rq s)) (wd s) ++ ztake k data /\
      (n = -1 -> k = 0) /\ sv s' = sv s /\
      (exists l res, os_write (post_data_fd (rq s)) l (wd s) = (res, wd s')) /\
      (rq s' = set_header_line (padd p k) (set_filepos (filepos (rq s) + k) (rq s)) \/
       k = 0 /\ rq s' = rq s)) s.
Proof.
  intros Hp Hd Hmem Hd31 Hpos Hsize Hs. unfold write_body, pdiff. wps. rewrite Hp.
  eapply wp_checked; [exact Hd|]. wps.
  rewrite (u32_small d), (u64_small (filepos (rq s) + d)) by lia.
  set (n := if _ <? _ then _ else _).
  assert (Hn : 0 < n <= d /\ filepos (rq s) + n <= filesize (rq s)).
  { subst n. destruct (Z.ltb_spec (filesize (rq s)) (filepos (rq s) + d)); [|lia].
    rewrite u32_small; lia. }
  clearbody n. destruct (Z.eqb_spec n 0); [lia|]. wps.
  eapply pload_wp; [exact Hmem|lia|]. wps. apply wp_call. intros res w Hw. wps.
  assert (Hz : zlen data = d).
  { destruct Hmem as (a & i & _ & ? & ? & ? & ->). by apply zlen_slice. }
  destruct res as [k|e]; wps.
  - pose proof (write_bound _ _ _ _ _ Hw) as Hk. rewrite zlen_ztake, Hz in Hk by lia.
    pose proof (sent_write _ _ _ _ _ Hw) as Hse. right. split; [by right|]. exists k.
    split_and!; try lia.
    + rewrite Hse. f_equal. unfold ztake. rewrite take_take. f_equal. lia.
    + done.
    + by eexists _, _.
    + left. rewrite u64_small by lia. by rewrite <- Hp.
  - pose proof (sent_write_err _ _ _ _ _ Hw) as He.
    destruct e; wps; try (right; split; [tauto|]; exists 0; rewrite ztake_neg, app_nil_r by done;
      (split_and!; [lia..|exact He|lia|done|by eexists _, _|by right])).
    all: eapply wp_mono;
      [apply (page_send_wp Server_error); destruct s;
       apply (printable_upd (fun r => r)); [done|exact Hs]|];
      intros [] s' _; wps; by left.
Qed.

(** C37: when a read fills the space that [read_from_pipe] asks for, the
    NUL behind the data is stored at buffer[BUFFER_SIZE + 1], outside the
    array. *)
Theorem read_from_pipe_overflow s ofs l w :
  header_end (rq s) = Pbuf ofs -> 0 <= ofs <= BUFFER_SIZE ->
  zlen (buffer (rq s)) = BUFFER_SIZE + 1 ->
  os_read (data_fd (rq s)) (BUFFER_SIZE + 1 - ofs) (wd s) = (SOk l, w) ->
  zlen l = BUFFER_SIZE + 1 - ofs ->
  read_from_pipe s = Undef.
Proof.
  intros He Ho Hb Hr Hl. unfold BUFFER_SIZE in *. unfold read_from_pipe, pdiff.
  unfold mbind, M_bind, req at 1. rewrite He. simpl psub. cbn [checked mret M_ret].
  unfold mret, M_ret. unfold BUFFER_SIZE.
  replace (u32 (4096 - (ofs - 0 - 1))) with (4096 + 1 - ofs) by (rewrite u32_small; lia).
  destruct (Z.eqb_spec (4096 + 1 - ofs) 0); [lia|].
  unfold call. cbn [wd rq sv]. rewrite Hr.
  assert (Hne : blit (buffer (rq s)) ofs l <> None).
  { intros E. apply eq_None_not_Some in E. destruct E. apply blit_is_Some. lia. }
  unfold pstore, req, upd, mbind, M_bind. cbn [rq sv wd write_at].
  destruct (blit (buffer (rq s)) ofs l) as [b|] eqn:Eb; [|done].
  cbn [fmap option_fmap option_map checked mret M_ret]. unfold mret, M_ret.
  cbn [rq sv wd padd write_at]. apply blit_zlen in Eb.
  change (buffer (set_buffer b (rq s))) with b.
  destruct (blit b (ofs + zlen l) [0]) as [b2|] eqn:Eb2; [|done].
  exfalso. apply blit_inv in Eb2 as (_ & H & _). change (zlen [0]) with 1 in H. lia.
Qed.
End pipe_props.

(** * Witnesses *)

(** Five bytes are in memory, three of them belong to the body. *)
Definition body_state : St :=
  mkSt (os := scriptOS)
    (set_header_line (Pstream 2) (set_header_end (Pstream 7) (set_filesize 3 (set_post_data_fd 9
       (set_client_stream (bs "xxhello" ++ zeros 100) test_request)))))
    test_server empty_world.

Lemma body_in_memory : in_memory (rq body_state) (Pstream 2) 5 (bs "hello").
Proof.
  exists (bs "xxhello" ++ zeros 100), 2. split_and!; [reflexivity|lia|lia|by vm_compute|reflexivity].
Qed.

Lemma body_printable : printable body_state.
Proof. exact (printable_upd (fun r => set_header_line (Pstream 2) (set_header_end (Pstream 7)
  (set_filesize 3 (set_post_data_fd 9 (set_client_stream (bs "xxhello" ++ zeros 100) r)))))
  test_state empty_world ltac:(intros r; by split_and!) test_printable). Qed.

Lemma write_body_correct_witness :
  exists s', write_body body_state = Ret 1 s' /\ sent_of 9 (Ret 1 s') = bs "hel" /\
    filepos (rq body_state) + 3 <= filesize (rq body_state).
Proof.
  destruct (wp_elim _ _ _ (write_body_correct body_state (Pstream 2) 5 (bs "hello") eq_refl eq_refl
    body_in_memory ltac:(lia) ltac:(by vm_compute) ltac:(by vm_compute) body_printable))
    as (n & s' & E & _).
  assert (n = 1) as -> by (apply (f_equal ret_of) in E; vm_compute in E; congruence).
  exists s'. split; [exact E|]. rewrite <- E. vm_compute. split; congruence.
Defined.

(** A script that prints 2049 bytes at once. *)
Definition full_pipe : St :=
  mkSt (os := scriptOS)
    (set_header_end (Pbuf 2048) (set_header_line (Pbuf 2048) (set_data_fd 5 test_request)))
    test_server (set_input [(5, [replicate 2049 88])] empty_world).

Lemma read_from_pipe_overflow_witness : read_from_pipe full_pipe = Undef.
Proof.
  apply (read_from_pipe_overflow full_pipe 2048 (replicate 2049 88)
    (set_input [(5, [])] empty_world)).
  - reflexivity.
  - by vm_compute.
  - by vm_compute.
  - vm_compute. reflexivity.
  - by vm_compute.
Defined.
