(* ===== verification/RequestProps.v ===== *)
(** The reuse of a connection, and what happens when the socket takes only a part
    of the buffered output. *)

From S2P Require Import Prelude Types Machine ScriptOS Buffer Hash Response Range Queue.
From S2P Require Import Alias.
From S2P Require Import Pointer Get Parse Read Request TransferProps Select.

(** C21: when a connection is used again, the bytes that were read behind the
    finished request are moved to the front of the stream and nothing else of the
    stream is taken over; the state machine starts over, the output buffer is
    empty, the fields of the finished request are cleared and the connection's own
    fields are kept. *)
Theorem sanitize_keeps_pipelined g r :
  zlen (client_stream r) = CLIENT_STREAM_SIZE ->
  0 <= parse_pos r <= client_stream_pos r -> client_stream_pos r <= CLIENT_STREAM_SIZE ->
  exists r', sanitize_request false g r = Some r' /\
    client_stream_pos r' = client_stream_pos r - parse_pos r /\
    ztake (client_stream_pos r') (client_stream r') =
      slice (client_stream r) (parse_pos r) (client_stream_pos r - parse_pos r) /\
    zlen (client_stream r') = CLIENT_STREAM_SIZE /\
    status r' = READ_HEADER /\ parse_pos r' = 0 /\ header_line r' = Pstream 0 /\
    logline r' = Pnull /\ buffer_start r' = 0 /\ buffer_end r' = 0 /\
    pathname r' = None /\ ranges r' = [] /\ cgi_type r' = CGI_none /\ data_mem r' = None /\
    fd r' = fd r /\ kacount r' = kacount r /\ remote_ip_addr r' = remote_ip_addr r /\
    next r' = next r /\ prev r' = prev r.
Proof.
  unfold CLIENT_STREAM_SIZE. intros Hl Hp Hc. unfold sanitize_request, keep_unparsed.
  rewrite u32_small by lia. set (n := client_stream_pos r - parse_pos r).
  assert (Hslice : zlen (slice (client_stream r) (parse_pos r) n) = n)
    by (apply zlen_slice; unfold n; lia).
  replace (_ && _) with true
    by (symmetry; rewrite andb_true_iff, !Z.leb_le; unfold n; lia).
  destruct (blit (client_stream r) 0 (slice (client_stream r) (parse_pos r) n)) as [a|] eqn:Ea.
  2:{ apply eq_None_not_Some in Ea. destruct Ea. apply blit_is_Some. unfold n in *. lia. }
  cbn [mbind option_bind]. eexists. split; [reflexivity|]. cbn -[blit slice ztake zlen].
  rewrite i32_small by (unfold n; lia). split_and!; try done.
  - apply slice_blit_eq in Ea. rewrite Hslice in Ea. exact Ea.
  - rewrite (blit_zlen _ _ _ _ Ea). exact Hl.
Qed.

Lemma sanitize_keeps_pipelined_witness :
  let stream := bs "GET /a HTTP/1.1" ++ CRLF ++ CRLF ++ bs "GET /b" in
  let r := set_client_stream_pos 25 (set_parse_pos 19
             (set_client_stream (stream ++ zeros (CLIENT_STREAM_SIZE - 25)) test_request)) in
  exists r', sanitize_request false test_server r = Some r' /\
    ztake 6 (client_stream r') = bs "GET /b".
Proof.
  cbv zeta. match goal with |- context [sanitize_request false _ ?r] =>
    destruct (sanitize_keeps_pipelined test_server r) as (r' & E & Hpos & H & _) end.
  - vm_compute. reflexivity.
  - vm_compute. split; congruence.
  - vm_compute. congruence.
  - exists r'. split; [exact E|]. rewrite Hpos in H. exact H.
Defined.

(** * Partial writes *)

(** A response whose header is still in the buffer: the file is mapped. *)
Definition half_sent (ws : list (sys Z)) : St :=
  mkSt (os := scriptOS)
    (set_status WRITE (set_buffer (bs "HEADER" ++ zeros (BUFFER_SIZE - 5)) (set_buffer_end 6
      (set_ranges [mkRange 0 4] (set_data_mem (Some (bs "hello")) (set_method M_GET
        (set_response_status 200 test_request)))))))
    (set_system_bufsize 16384 test_server) (set_writes ws empty_world).

Definition then_state {A} (o : out (os := scriptOS) A) (m : M Z) : out Z :=
  match o with Ret _ s => m s | Exit s => Exit s | Undef => Undef end.

(** When the socket takes only a part of the buffered header and then
    has room again, file data overtakes the rest of the header: the client
    receives the bytes in the wrong order. *)
Theorem partial_flush_reorders :
  sent_of 7 (handle (half_sent [])) = bs "HEADERhello" /\
  sent_of 7 (then_state (handle (half_sent [SOk 3])) handle) = bs "HEAhelloDER".
Proof. vm_compute. done. Qed.

(** One request, alone in the ready queue. *)
Definition one_request (r : request) (ws : list (sys Z)) : St :=
  mkSt (os := scriptOS) r
    (set_total_connections 1 (set_request_ready (Some 1%positive)
       (set_heap {[ 1%positive := r ]} test_server)))
    (set_writes ws empty_world).

Definition final {A} (o : out (os := scriptOS) A) : option St :=
  match o with Ret _ s => Some s | _ => None end.

(** A request that ends while the socket is blocked loses its
    buffered output: [free_request] closes the connection although nothing of the
    response was sent. *)
Theorem blocked_output_dropped :
  let r := set_response_status 404 (set_status DONE
             (set_buffer (bs "404 page" ++ zeros (BUFFER_SIZE - 7)) (set_buffer_end 8
               test_request))) in
  exists s', free_request 1 (one_request r [SErr EAGAIN]) = Ret tt s' /\
    sent_on 7 (wd s') = [] /\ total_connections (sv s') = 0 /\
    request_ready (sv s') = None /\ request_free (sv s') = Some 1%positive.
Proof. vm_compute. eexists. split; [reflexivity|]. vm_compute. done. Qed.

(** A complete request that was read together with the one before it
    is put to sleep: the connection waits for more input in the blocked queue. *)
Lemma pipelined_request_waits :
  let stream := bs "GET /b HTTP/1.0" ++ CRLF ++ CRLF in
  let r := set_response_status 200 (set_keepalive KA_ACTIVE (set_status DONE
             (set_client_stream_pos 19 (set_parse_pos 0
               (set_client_stream (stream ++ zeros (CLIENT_STREAM_SIZE - 19)) test_request))))) in
  exists s' r', free_request 1 (one_request r []) = Ret tt s' /\
    heap (sv s') !! 1%positive = Some r' /\ request_block (sv s') = Some 1%positive /\
    request_ready (sv s') = None /\
    ztake (client_stream_pos r') (client_stream r') = stream /\
    blocked_on r' = Some (fd r', false).
Proof. vm_compute. do 2 eexists. split; [reflexivity|]. vm_compute. done. Qed.
