(* ===== verification/Pool.v ===== *)
(** The request structures of the server: every one is in exactly one of the
    three queues, or in none while it is moved from one to another.  [pool]
    states this; the operations of queue.c preserve it. *)

From S2P Require Import Prelude Types Machine Buffer Queue QueueProps Frame Request.

(** The requests of the three queues, and those in none of them. *)
Record pool (g : server) (lr lb lf lo : list positive) : Prop := {
  p_ready : dlist (heap g) (request_ready g) lr;
  p_block : dlist (heap g) (request_block g) lb;
  p_free : dlist (heap g) (request_free g) lf;
  p_nodup : NoDup (lr ++ lb ++ lf ++ lo);
  p_all : forall p, is_Some (heap g !! p) <-> p ∈ lr ++ lb ++ lf ++ lo;
  p_fresh : forall p, is_Some (heap g !! p) -> (p < fresh g)%positive
}.

(** No request is lost or in two queues, and the open connections are counted. *)
Definition conns (g : server) (lr lb lf : list positive) : Prop :=
  pool g lr lb lf [] /\ total_connections g = u32 (zlen lr + zlen lb).

Lemma pool_view g g' lr lb lf lo :
  queue_view g' = queue_view g -> pool g lr lb lf lo -> pool g' lr lb lf lo.
Proof.
  unfold queue_view. intros [= Eh Ef Er Eb Efr _] [].
  split; rewrite ?Eh, ?Ef, ?Er, ?Eb, ?Efr; auto.
Qed.

Lemma contents_some h h' q :
  contents h' q = contents h q -> is_Some (h' !! q) <-> is_Some (h !! q).
Proof.
  unfold contents. destruct (h' !! q), (h !! q); simpl; intros [=]; split; intros []; eauto; done.
Qed.

(** A step that keeps the structures and moves them between the queues. *)
Lemma pool_move g g' lr lb lf lo lr' lb' lf' lo' :
  pool g lr lb lf lo ->
  dlist (heap g') (request_ready g') lr' -> dlist (heap g') (request_block g') lb' ->
  dlist (heap g') (request_free g') lf' ->
  (forall q, contents (heap g') q = contents (heap g) q) -> fresh g' = fresh g ->
  lr' ++ lb' ++ lf' ++ lo' ≡ₚ lr ++ lb ++ lf ++ lo -> pool g' lr' lb' lf' lo'.
Proof.
  intros [? ? ? Hnd Hall Hfr] ? ? ? Hc Ef HP. split; auto.
  - by rewrite HP.
  - intros p. rewrite HP, <- Hall. apply contents_some, Hc.
  - intros p Hp. rewrite Ef. apply Hfr. by apply (contents_some _ _ _ (Hc p)).
Qed.

(** ** One request out of a queue, or into one *)

Lemma NoDup_part {A} (l k : list A) : l ⊆+ k -> NoDup k -> NoDup l.
Proof. intros [x ->]%submseteq_Permutation Hk. by apply NoDup_app in Hk as (? & _ & _). Qed.

Lemma NoDup_sep {A} (l k m : list A) x :
  NoDup m -> l ++ k ⊆+ m -> x ∈ l -> x ∉ k.
Proof. intros Hm Hs. eapply NoDup_app_disjoint, NoDup_part; done. Qed.

Lemma take_out h from l1 p l2 o1 k1 o2 k2 m :
  dlist h from (l1 ++ p :: l2) -> dlist h o1 k1 -> dlist h o2 k2 ->
  NoDup m -> (l1 ++ p :: l2) ++ k1 ++ k2 ⊆+ m ->
  exists h' from', dequeue h from p = Some (h', from') /\
    dlist h' from' (l1 ++ l2) /\ dlist h' o1 k1 /\ dlist h' o2 k2 /\
    (forall q, contents h' q = contents h q).
Proof.
  intros Hf H1 H2 Hm Hs.
  destruct (dequeue_dlist _ _ _ _ _ Hf) as (h' & from' & E & D & _ & R).
  exists h', from'. split_and!; auto.
  - eapply dlist_relinked; [exact R| |done]. intros q Hq Hq'.
    eapply NoDup_sep in Hs; [|done|exact Hq']. set_solver.
  - eapply dlist_relinked; [exact R| |done]. intros q Hq Hq'.
    eapply NoDup_sep in Hs; [|done|exact Hq']. set_solver.
  - apply R.
Qed.

Lemma put_in h to l p o1 k1 o2 k2 m :
  is_Some (h !! p) -> dlist h to l -> dlist h o1 k1 -> dlist h o2 k2 ->
  NoDup m -> (p :: l) ++ k1 ++ k2 ⊆+ m ->
  exists h', enqueue h to p = Some (h', Some p) /\
    dlist h' (Some p) (p :: l) /\ dlist h' o1 k1 /\ dlist h' o2 k2 /\
    (forall q, contents h' q = contents h q).
Proof.
  intros [r Hr] Ht H1 H2 Hm Hs.
  assert (Hl : links h p = Some (next r, prev r)) by (unfold links; by rewrite Hr).
  assert (Hp : p ∉ l).
  { pose proof (NoDup_part _ _ Hs Hm) as N. by apply NoDup_app in N as ([? _]%NoDup_cons & _). }
  destruct (enqueue_dlist h to l p _ Ht Hp Hl) as (h' & E & D & R).
  exists h'. split_and!; auto.
  - eapply dlist_relinked; [exact R| |done]. intros q Hq Hq'.
    eapply NoDup_sep in Hs; [|done|exact Hq']. set_solver.
  - eapply dlist_relinked; [exact R| |done]. intros q Hq Hq'.
    eapply NoDup_sep in Hs; [|done|exact Hq']. set_solver.
  - apply R.
Qed.

Ltac pool_list := first [solve_submseteq | solve_Permutation].
(** The end of the proof that an operation moves requests between the queues. *)
Ltac pool_moved H :=
  eexists; split; [reflexivity|]; split; [|done]; eapply pool_move; [exact H|done..|pool_list].

Lemma pool_ready_remove g l1 p l2 lb lf lo :
  pool g (l1 ++ p :: l2) lb lf lo ->
  exists g', ready_remove p g = Some g' /\ pool g' (l1 ++ l2) lb lf (p :: lo) /\
    total_connections g' = total_connections g.
Proof.
  intros H. pose proof H as [Hr Hb Hf Hn _ _].
  destruct (take_out _ _ _ _ _ _ _ _ _ _ Hr Hb Hf Hn) as (h' & fr & E & ? & ? & ? & ?);
    [pool_list|].
  unfold ready_remove. rewrite E. pool_moved H.
Qed.

Lemma pool_is_some g lr lb lf lo p : pool g lr lb lf lo -> p ∈ lr ++ lb ++ lf ++ lo -> is_Some (heap g !! p).
Proof. intros H. apply (p_all _ _ _ _ _ H). Qed.

Lemma pool_ready_push g lr lb lf p lo :
  pool g lr lb lf (p :: lo) ->
  exists g', ready_push p g = Some g' /\ pool g' (p :: lr) lb lf lo /\
    total_connections g' = total_connections g.
Proof.
  intros H. pose proof H as [Hr Hb Hf Hn _ _].
  destruct (put_in _ _ _ p _ _ _ _ _ (pool_is_some _ _ _ _ _ p H ltac:(set_solver)) Hr Hb Hf Hn)
    as (h' & E & ? & ? & ? & ?); [pool_list|].
  unfold ready_push. rewrite E. pool_moved H.
Qed.

Lemma pool_block_push g lr lb lf p lo :
  pool g lr lb lf (p :: lo) ->
  exists g', block_push p g = Some g' /\ pool g' lr (p :: lb) lf lo /\
    total_connections g' = total_connections g.
Proof.
  intros H. pose proof H as [Hr Hb Hf Hn _ _].
  destruct (put_in _ _ _ p _ _ _ _ _ (pool_is_some _ _ _ _ _ p H ltac:(set_solver)) Hb Hr Hf Hn)
    as (h' & E & ? & ? & ? & ?); [pool_list|].
  unfold block_push. rewrite E. pool_moved H.
Qed.

Lemma pool_free_push g lr lb lf p lo :
  pool g lr lb lf (p :: lo) ->
  exists g', free_list_push p g = Some g' /\ pool g' lr lb (p :: lf) lo /\
    total_connections g' = total_connections g.
Proof.
  intros H. pose proof H as [Hr Hb Hf Hn _ _].
  destruct (put_in _ _ _ p _ _ _ _ _ (pool_is_some _ _ _ _ _ p H ltac:(set_solver)) Hf Hr Hb Hn)
    as (h' & E & ? & ? & ? & ?); [pool_list|].
  unfold free_list_push. rewrite E. pool_moved H.
Qed.

(** The head of the free list is taken from it. *)
Lemma pool_free_pop g lr lb p lf lo :
  pool g lr lb (p :: lf) lo ->
  exists h' f', dequeue (heap g) (request_free g) p = Some (h', f') /\
    pool (set_request_free f' (set_heap h' g)) lr lb lf (p :: lo).
Proof.
  intros H. pose proof H as [Hr Hb Hf Hn _ _].
  destruct (take_out _ _ [] _ _ _ _ _ _ _ Hf Hr Hb Hn) as (h' & fr & E & ? & ? & ? & ?);
    [pool_list|].
  exists h', fr. split; [exact E|]. eapply pool_move; [exact H|done..|pool_list].
Qed.

Lemma view_FD_SET d w g : queue_view (BOA_FD_SET d w g) = queue_view g.
Proof. unfold BOA_FD_SET. destruct w; simpl; by destruct (_ <? _). Qed.

Lemma view_FD_CLR d w g : queue_view (BOA_FD_CLR d w g) = queue_view g.
Proof. by destruct w. Qed.

(** Out of one queue and into another. *)
Lemma pool_block g l1 p l2 lb lf lo :
  pool g (l1 ++ p :: l2) lb lf lo ->
  exists g', block_request p g = Some g' /\ pool g' (l1 ++ l2) (p :: lb) lf lo /\
    total_connections g' = total_connections g.
Proof.
  intros H. pose proof H as [Hr Hb Hf Hn _ _].
  destruct (move_dlist _ _ _ _ _ _ _ _ _ Hr Hb Hf) as (h1 & rd & h2 & E1 & E2 & ? & D2 & ? & ?).
  { eapply NoDup_part; [|exact Hn]. pool_list. }
  pose proof D2 as [_ (_ & nx & (r & Er & _)%links_Some & _)].
  unfold block_request. rewrite E1. simpl. rewrite E2. simpl. rewrite Er. simpl.
  destruct (wait_for r) as [d w]. eexists. split; [reflexivity|].
  pose proof (view_FD_SET d w
    (set_request_block (Some p) (set_request_ready rd (set_heap h2 g)))) as V.
  split; [|by injection V].
  eapply pool_view; [exact V|]. eapply pool_move; [exact H|done..|pool_list].
Qed.

(** The blocked request [p] becomes ready; apart from the queues only the
    descriptor it waited for changes. *)
Lemma ready_request_pool g lr l1 p l2 lf lo r :
  pool g lr (l1 ++ p :: l2) lf lo -> heap g !! p = Some r ->
  exists h bl, ready_request p g =
    Some (BOA_FD_CLR (wait_for r).1 (wait_for r).2
            (set_request_block bl (set_request_ready (Some p) (set_heap h g)))) /\
  pool (set_request_block bl (set_request_ready (Some p) (set_heap h g)))
    (p :: lr) (l1 ++ l2) lf lo /\
  forall q, contents h q = contents (heap g) q.
Proof.
  intros H Er. pose proof H as [Hr Hb Hf Hn _ _].
  destruct (move_dlist _ _ _ _ _ _ _ _ _ Hb Hr Hf) as (h1 & bl & h2 & E1 & E2 & ? & D2 & ? & C).
  { eapply NoDup_part; [|exact Hn]. pool_list. }
  pose proof D2 as [_ (_ & nx & (r' & Er' & _)%links_Some & _)].
  destruct (wait_for_contents _ _ _ _ (C p) Er') as (r0 & Er0 & Ew).
  assert (r0 = r) as -> by congruence.
  exists h2, bl. split_and!; [|eapply pool_move; [exact H|done..|pool_list]|exact C].
  unfold ready_request. rewrite E1. simpl. rewrite E2. simpl. rewrite Er'. simpl. rewrite Ew.
  by destruct (wait_for r').
Qed.
