(* ===== verification/Loop.v ===== *)
(** The main loop as a whole: [process_requests] gives every ready request one
    turn although the turns change the queues, and no turn of the loop loses a
    request or miscounts the connections. *)

From S2P Require Import Prelude Types Machine ScriptOS Buffer Response Queue QueueProps.
From S2P Require Import Addr Frame Read Request Pool Select.

Section loop.
Context {os : OS}.

(** The queues in a state, with [n] connections counted. *)
Definition holds (lr lb lf lo : list positive) (n : Z) (s : St) : Prop :=
  pool (sv s) lr lb lf lo /\ total_connections (sv s) = u32 n.

Lemma holds_view lr lb lf lo n s s' :
  queue_view (sv s') = queue_view (sv s) -> holds lr lb lf lo n s -> holds lr lb lf lo n s'.
Proof.
  intros V [H E]. split; [by eapply pool_view|]. rewrite <- E. by injection V.
Qed.

(** A part of the program that does not touch the queues. *)
Lemma holds_keeps {A} (m : M A) lr lb lf lo n s :
  keeps m -> holds lr lb lf lo n s -> wlp m (fun _ => holds lr lb lf lo n) s.
Proof.
  intros K H. eapply wlp_mono; [apply K|]. intros a s' [V _]. by eapply holds_view.
Qed.

(** The request is stored back with its links. *)
Lemma pool_store g p r r' lr lb lf lo :
  heap g !! p = Some r -> next r' = next r -> prev r' = prev r ->
  pool g lr lb lf lo -> pool (set_heap (<[p := r']> (heap g)) g) lr lb lf lo.
Proof.
  intros Er En Ep [[? Hr] [? Hb] [? Hf] ? Hall Hfr].
  assert (L : forall q, links (<[p := r']> (heap g)) q = links (heap g) q).
  { intros q. unfold links. destruct (decide (p = q)) as [->|].
    - rewrite lookup_insert_eq, Er. simpl. by rewrite En, Ep.
    - by rewrite lookup_insert_ne. }
  assert (S : forall q, is_Some (<[p := r']> (heap g) !! q) <-> is_Some (heap g !! q)).
  { intros q. rewrite lookup_insert_is_Some. split; [|destruct (decide (p = q)); auto].
    intros [<-|[_ ?]]; eauto. }
  split; simpl; auto; try (split; [done|]; eapply dseg_frame; [|eassumption]; auto).
  - intros q. by rewrite S.
  - intros q Hq. by apply Hfr, S.
Qed.

Lemma holds_on_request {A} p (m : M A) lr lb lf lo n s :
  keeps m -> holds lr lb lf lo n s -> wlp (on_request p m) (fun _ => holds lr lb lf lo n) s.
Proof.
  intros K [H E]. unfold on_request. wlps. intros r Er.
  apply wlp_bind, wlp_bind. eapply wlp_mono; [apply K|]. intros a s1 (V & En & Ep).
  simpl in V, En, Ep. assert (Eh : heap (sv s1) = heap (sv s)) by (by injection V).
  split; simpl.
  - eapply pool_store; [by rewrite Eh|done..|by eapply pool_view].
  - rewrite <- E. by injection V.
Qed.

(** The same within a sequence. *)
Lemma holds_then {A B} (m : M A) (k : A -> M B) Q lr lb lf lo n s :
  keeps m -> holds lr lb lf lo n s ->
  (forall a s', holds lr lb lf lo n s' -> wlp (k a) Q s') -> wlp (m ≫= k) Q s.
Proof.
  intros K H Hk. apply wlp_bind. eapply wlp_mono; [by apply holds_keeps|exact Hk].
Qed.

Lemma holds_on_then {A B} p (m : M A) (k : A -> M B) Q lr lb lf lo n s :
  keeps m -> holds lr lb lf lo n s ->
  (forall a s', holds lr lb lf lo n s' -> wlp (k a) Q s') ->
  wlp (on_request p m ≫= k) Q s.
Proof.
  intros K H Hk. apply wlp_bind. eapply wlp_mono; [by apply holds_on_request|exact Hk].
Qed.

(** An operation on the queues, alone and within a sequence. *)
Lemma op_holds f lr lb lf lo lr' lb' lf' lo' n s :
  holds lr lb lf lo n s ->
  (exists g', f (sv s) = Some g' /\ pool g' lr' lb' lf' lo' /\
     total_connections g' = total_connections (sv s)) ->
  wlp (queue_op f) (fun _ => holds lr' lb' lf' lo' n) s.
Proof.
  intros [_ En] (g' & E & H & Et). unfold queue_op. wlps. intros g1 E1. wlps.
  split; simpl; [|congruence]. by assert (g1 = g') as -> by congruence.
Qed.

Lemma op_then {B} f (k : unit -> M B) Q lr lb lf lo lr' lb' lf' lo' n s :
  holds lr lb lf lo n s ->
  (exists g', f (sv s) = Some g' /\ pool g' lr' lb' lf' lo' /\
     total_connections g' = total_connections (sv s)) ->
  (forall s', holds lr' lb' lf' lo' n s' -> wlp (k tt) Q s') -> wlp (queue_op f ≫= k) Q s.
Proof.
  intros H He Hk. apply wlp_bind. eapply wlp_mono; [by eapply op_holds|]. intros []. apply Hk.
Qed.

(** ** The parts of request.c that do not touch the queues *)

Lemma keeps_sanitize b : keeps (sanitize b).
Proof.
  intros s. unfold sanitize. wlps. intros r E.
  split; [done|]. unfold sanitize_request, keep_unparsed in E.
  destruct b; simpl in E; [by injection E as <-|]. destruct (_ && _); [|done].
  simpl in E. destruct (blit _ _ _); [|done]. simpl in E. by injection E as <-.
Qed.
#[local] Hint Resolve keeps_sanitize : keeps.

Lemma keeps_tune_sndbuf d : keeps (tune_sndbuf d).
Proof. keeps. Qed.
#[local] Hint Resolve keeps_tune_sndbuf : keeps.

Lemma keeps_over_limit : keeps over_limit.
Proof. keeps. Qed.
#[local] Hint Resolve keeps_over_limit : keeps.

Lemma keeps_FD_SET d w : keeps (upd_srv (BOA_FD_SET d w)).
Proof. apply keeps_upd_srv. intros g. apply view_FD_SET. Qed.
Lemma keeps_FD_CLR d w : keeps (upd_srv (BOA_FD_CLR d w)).
Proof. apply keeps_upd_srv. intros g. apply view_FD_CLR. Qed.
#[local] Hint Resolve keeps_FD_SET keeps_FD_CLR : keeps.

Lemma keeps_close_fd d w : keeps (close_fd d w).
Proof. unfold close_fd. destruct (d =? 0); auto with keeps. apply keeps_bind; auto with keeps. Qed.
#[local] Hint Resolve keeps_close_fd : keeps.

Lemma keeps_free_flush : keeps free_flush.
Proof. keeps. Qed.
Lemma keeps_free_resources : keeps free_resources.
Proof. keeps. Qed.
Lemma keeps_handle : keeps handle.
Proof. keeps. Qed.
#[local] Hint Resolve keeps_free_flush keeps_free_resources keeps_handle : keeps.

(** ** New connections *)

Lemma pool_malloc g lr lb lf :
  pool g lr lb lf [] ->
  pool (set_fresh (Pos.succ (fresh g)) (set_heap (<[fresh g := fresh_request]> (heap g)) g))
    lr lb lf [fresh g].
Proof.
  intros [[? Hr] [? Hb] [? Hf] Hn Hall Hfr].
  assert (Hq : forall q, q ∈ lr ++ lb ++ lf ++ [] -> (q < fresh g)%positive).
  { intros q Hq. by apply Hfr, Hall. }
  assert (Hi : fresh g ∉ lr ++ lb ++ lf ++ []) by (intros Hi; specialize (Hq _ Hi); lia).
  assert (L : forall l h, dseg (heap g) None h l None ->
    (forall q, q ∈ l -> q ∈ lr ++ lb ++ lf ++ []) ->
    dseg (<[fresh g := fresh_request]> (heap g)) None h l None).
  { intros l h Hd Hl. eapply dseg_frame; [|exact Hd]. intros q Hx. unfold links.
    rewrite lookup_insert_ne; [done|]. intros <-. by apply Hi, Hl. }
  split; simpl; try (split; [done|]; apply L; [done|set_solver]).
  - rewrite app_nil_r in *. rewrite !app_assoc in *. apply NoDup_app. split_and!; auto.
    + intros x Hx. rewrite list_elem_of_singleton. intros ->. done.
    + apply NoDup_singleton.
  - intros q. rewrite lookup_insert_is_Some, Hall. split; [set_solver|].
    intros Hx. destruct (decide (fresh g = q)); [by left|]. right. set_solver.
  - intros q [<-|[_ Hx]]%lookup_insert_is_Some; [lia|]. apply Hfr in Hx. lia.
Qed.

(** [new_request] gives a structure that is in no queue. *)
Lemma new_request_holds lr lb lf n s :
  holds lr lb lf [] n s ->
  wlp new_request (fun c s' =>
    match c with
    | Some p => exists lf', holds lr lb lf' [p] n s'
    | None => holds lr lb lf [] n s'
    end) s.
Proof.
  intros [H E]. unfold new_request. wlps.
  destruct (request_free (sv s)) as [p|] eqn:Ef.
  - destruct lf as [|q lf].
    { pose proof (p_free _ _ _ _ _ H) as [_ Hd]. simpl in Hd. congruence. }
    assert (q = p) as ->.
    { pose proof (p_free _ _ _ _ _ H) as [_ (Hd & _)]. congruence. }
    destruct (pool_free_pop _ _ _ _ _ _ H) as (h' & f' & Ed & H').
    eapply op_then; [by split|eexists; split; [by rewrite Ed|by split]|].
    intros s1 H1. apply wlp_bind.
    eapply wlp_mono; [apply holds_on_request; [|exact H1]|].
    2:{ intros a s2 H2. apply wlp_ret. by exists lf. }
    keeps.
  - apply wlp_bind, wlp_call. intros [] w; simpl; [|by apply wlp_ret; split].
    apply wlp_bind. apply pool_malloc in H.
    apply wlp_bind. eapply wlp_mono; [apply holds_on_request; [|split; [exact H|exact E]]|].
    2:{ intros a s2 H2. apply wlp_ret. by exists lf. }
    keeps.
Qed.

Lemma turn_away_holds d lr lb lf p n s :
  holds lr lb lf [p] n s -> wlp (turn_away d p) (fun _ => holds lr lb (p :: lf) [] n) s.
Proof.
  intros H. eapply holds_then; [apply keeps_call_|exact H|]. intros [] s1 H1.
  eapply op_holds; [exact H1|apply pool_free_push, H1].
Qed.

(** A connection more, or the structure is free again. *)
Definition connected (lr lb : list positive) (n : Z) (s : St) : Prop :=
  exists new lf, holds (new ++ lr) lb lf [] (n + zlen new) s /\ (length new <= 1)%nat.

Lemma not_connected lr lb lf n s : holds lr lb lf [] n s -> connected lr lb n s.
Proof. intros H. exists [], lf. rewrite zlen_nil, Z.add_0_r. split; [exact H|simpl; lia]. Qed.

Lemma u32_succ n : u32 (u32 n + 1) = u32 (n + 1).
Proof. apply Z.add_mod_idemp_l. lia. Qed.
Lemma u32_pred n : u32 (u32 n - 1) = u32 (n - 1).
Proof. apply Zminus_mod_idemp_l. Qed.

Lemma turned_away d lr lb lf p n s :
  holds lr lb lf [p] n s -> wlp (turn_away d p) (fun _ => connected lr lb n) s.
Proof.
  intros H. eapply wlp_mono; [by apply turn_away_holds|]. intros ? s'. apply not_connected.
Qed.

Lemma count_connection_holds re port lr lb lf p n s :
  holds lr lb lf [p] n s ->
  wlp (count_connection re port p) (fun _ => connected lr lb n) s.
Proof.
  intros H. unfold count_connection.
  eapply holds_on_then; [keeps|exact H|]. clear H. intros [] s5 H.
  wlps.
  match goal with |- wlp _ _ ?s' => assert (H1 : holds lr lb lf [p] (n + 1) s') end.
  { destruct H as [[] E]. split; [by split|]. simpl. by rewrite E, u32_succ. }
  apply wlp_bind. eapply (wlp_mono _ (fun _ => holds lr lb lf [p] (n + 1))).
  { case_match; [|exact H1].
    eapply holds_then; [keeps|exact H1|]. intros [] s6.
    apply holds_on_request. keeps. }
  clear H H1. intros [] s6 H.
  eapply wlp_mono; [eapply op_holds; [exact H|apply pool_ready_push, H]|].
  intros ? s' H'. exists [p], lf. split; [exact H'|simpl; lia].
Qed.

Lemma init_connection_holds d lo re lr lb lf p n s :
  holds lr lb lf [p] n s ->
  wlp (init_connection d lo re p) (fun _ => connected lr lb n) s.
Proof.
  intros H. unfold init_connection. wlps.
  eapply holds_on_then; [keeps|exact H|]. clear H. intros a s1 H.
  destruct (ascii_sockaddr lo _) as [local|]; [|by eapply turned_away].
  eapply holds_on_then; [keeps|exact H|]. clear H. intros ? s2 H.
  eapply holds_then; [keeps|exact H|]. clear H. intros ok1 s3 H.
  destruct (negb ok1); [by eapply turned_away|].
  eapply holds_then; [keeps|exact H|]. clear H. intros ok2 s4 H.
  destruct (negb ok2); [by eapply turned_away|].
  eapply holds_then; [auto with keeps|exact H|]. clear H. intros [] s5 H.
  destruct (ascii_sockaddr re _) as [remote|]; [by eapply count_connection_holds|by eapply turned_away].
Qed.

Lemma get_request_holds sock lr lb lf n s :
  holds lr lb lf [] n s -> wlp (get_request sock) (fun _ => connected lr lb n) s.
Proof.
  intros H. unfold get_request. wlps. intros res w.
  assert (Hw : holds lr lb lf [] n (mkSt (rq s) (sv s) w)) by exact H.
  assert (Hc : forall d, wlp (call_ (os_close d)) (fun _ => connected lr lb n)
                           (mkSt (rq s) (sv s) w)).
  { intros d. eapply wlp_mono; [apply holds_keeps; [keeps|exact Hw]|]. intros ? ?. apply not_connected. }
  destruct res as [[d remote]|e].
  2:{ eapply wlp_mono; [apply holds_keeps; [keeps|exact Hw]|]. intros ? ?. apply not_connected. }
  destruct (FD_SETSIZE <=? d); [apply Hc|].
  eapply holds_then; [keeps|exact Hw|]. intros [lo|] s1 H1.
  2:{ eapply wlp_mono; [apply holds_keeps; [keeps|exact H1]|]. intros ? ?. apply not_connected. }
  apply wlp_bind. eapply wlp_mono; [by apply new_request_holds|]. intros [p|] s2.
  - intros [lf' H2]. by eapply init_connection_holds.
  - intros H2. eapply wlp_mono; [apply holds_keeps; [keeps|exact H2]|].
    intros ? ?. apply not_connected.
Qed.

(** ** The end of a request *)

(** The queues at the end of a turn of the request [p]: it is still ready, or it
    was taken out; no connection was added. *)
Definition turned (l1 : list positive) (p : positive) (l2 lb : list positive) (s : St) : Prop :=
  exists l1' lb' lf, (length l1' + length lb' <= S (length l1 + length lb))%nat /\
    conns (sv s) (l1' ++ l2) lb' lf.

Lemma keep_connection_holds p lr lb lf n s :
  holds lr lb lf [p] n s ->
  wlp (keep_connection p) (fun _ => holds lr (p :: lb) lf [] n) s.
Proof.
  intros H. unfold keep_connection.
  eapply holds_on_then; [keeps|exact H|]. clear H. intros ? s0 H. apply wlp_bind, wlp_srv.
  eapply holds_then; [keeps|exact H|]. clear H. intros ? s1 H1.
  eapply op_then; [exact H1|apply pool_block_push, H1|]. intros s2 H2. wlps. intros r Er. 
  eapply holds_then; [auto with keeps|exact H2|]. intros ? s3 H3.
  apply holds_keeps; [auto with keeps|exact H3].
Qed.

Lemma close_connection_holds p lr lb lf n s :
  holds lr lb lf [p] n s ->
  wlp (close_connection p) (fun _ => holds lr lb (p :: lf) [] (n - 1)) s.
Proof.
  intros H. unfold close_connection. wlps. intros r Er.
  eapply holds_then; [keeps|exact H|]. clear H. intros ? s1 H.
  eapply holds_then; [keeps|exact H|]. clear H. intros ? s2 H.
  eapply holds_then; [auto with keeps|exact H|]. clear H. intros ? s3 H.
  eapply holds_then; [auto with keeps|exact H|]. clear H. intros ? s4 H. wlps.
  eapply op_holds.
  - destruct H as [[] E]. split; [by split|]. simpl. by rewrite E, u32_pred.
  - apply pool_free_push. by destruct H as [[] _].
Qed.

Lemma free_request_holds l1 p l2 lb lf s :
  conns (sv s) (l1 ++ p :: l2) lb lf -> wlp (free_request p) (fun _ => turned l1 p l2 lb) s.
Proof.
  intros H. unfold free_request.
  assert (H0 : holds (l1 ++ p :: l2) lb lf [] (zlen (l1 ++ p :: l2) + zlen lb) s) by exact H.
  eapply holds_on_then; [auto with keeps|exact H0|]. clear H H0. intros [] s1 H.
  { wlps. exists (l1 ++ [p]), lb, lf. split; [rewrite length_app; simpl; lia|].
    by rewrite <- app_assoc. }
  eapply op_then; [exact H|apply pool_ready_remove, H|]. clear H. intros s2 H.
  eapply holds_on_then; [auto with keeps|exact H|]. clear H. intros ? s3 H. wlps. intros r Er.
  rewrite zlen_app, zlen_cons in H.
  destruct (reusable r).
  - eapply wlp_mono; [by apply keep_connection_holds|]. intros ? s4 [H4 E4].
    exists l1, (p :: lb), lf. split; [simpl; lia|]. split; [done|].
    rewrite E4. rewrite zlen_app, zlen_cons. f_equal. lia.
  - eapply wlp_mono; [by apply close_connection_holds|]. intros ? s4 [H4 E4].
    exists l1, lb, (p :: lf). split; [simpl; lia|]. split; [done|].
    rewrite E4. rewrite zlen_app. f_equal. lia.
Qed.

(** ** One turn *)

(** [current->next] is the request behind [p] in its queue. *)
Lemma queue_next h hd l1 p l2 :
  dlist h hd (l1 ++ p :: l2) -> exists r, h !! p = Some r /\ next r = head l2.
Proof.
  intros [_ (mid & _ & -> & nx & (r & Er & En & _)%links_Some & H)%dseg_app].
  exists r. split; [done|]. destruct l2; simpl in *; [congruence|]. destruct H. congruence.
Qed.

Lemma next_of_ready l1 p l2 lb lf lo s :
  pool (sv s) (l1 ++ p :: l2) lb lf lo -> next_of p s = Ret (head l2) s.
Proof.
  intros H. destruct (queue_next _ _ _ _ _ (p_ready _ _ _ _ _ H)) as (r & Er & En).
  unfold next_of, mbind, M_bind, srv. rewrite Er. simpl. unfold mret, M_ret. by rewrite En.
Qed.

Lemma next_then {B} (k : option positive -> M B) Q l1 p l2 lb lf s :
  conns (sv s) (l1 ++ p :: l2) lb lf -> wlp (k (head l2)) Q s -> wlp (next_of p ≫= k) Q s.
Proof.
  intros [H _] Hk. apply wlp_bind. unfold wlp. by rewrite (next_of_ready _ _ _ _ _ _ _ H).
Qed.

Lemma keeps_touch_upd t : keeps (upd (set_time_last t)).
Proof. keeps. Qed.

Lemma touch_conns p lr lb lf s :
  conns (sv s) lr lb lf -> wlp (touch p) (fun _ s' => conns (sv s') lr lb lf) s.
Proof. intros H. unfold touch. wlps. apply holds_on_request; [keeps|exact H]. Qed.

(** Whatever the turn does, the queue behind the request stays, and the loop goes
    on with the request that was behind it; at most one connection was accepted. *)
Lemma process_one_turn sock l1 p l2 lb lf s :
  conns (sv s) (l1 ++ p :: l2) lb lf ->
  wlp (process_one sock p)
    (fun n s' => n = head l2 /\ exists l1' lb' lf', conns (sv s') (l1' ++ l2) lb' lf' /\
       (length l1' + length lb' <= 2 + (length l1 + length lb))%nat) s.
Proof.
  intros H. unfold process_one. wlps. intros now w.
  eapply holds_then; [keeps|exact H|]. clear H. intros ? s1 H.
  eapply holds_on_then; [auto with keeps|exact H|]. clear H. intros v s2 H. wlps.
  apply wlp_bind. eapply (wlp_mono _ (fun _ s' => exists l0 lf', conns (sv s') (l0 ++ p :: l2) lb lf' /\
    (length l0 <= S (length l1))%nat)).
  { destruct (pending_requests _); [|exists l1, lf; split; [done|lia]].
    eapply wlp_mono; [by eapply get_request_holds|]. intros ? s3 (new & lf' & [H3 E3] & Hn).
    exists (new ++ l1), lf'. rewrite <- app_assoc, length_app. split; [|lia]. split; [done|].
    rewrite E3, !zlen_app. f_equal. lia. }
  clear H. intros ? s3 (l0 & lf' & H & Hl0).
  destruct (v =? -1); [|destruct (v =? 0); [|destruct (v =? 1)]].
  - eapply next_then; [exact H|].
    eapply op_then; [exact H|apply pool_block, H|]. intros s4 [H4 E4]. wlps.
    split; [done|]. exists l0, (p :: lb), lf'. split; [|simpl; lia]. split; [done|]. rewrite E4.
    rewrite !zlen_app, !zlen_cons. f_equal. lia.
  - apply wlp_bind. eapply wlp_mono; [by apply touch_conns|]. clear H. intros ? s4 H.
    eapply next_then; [exact H|]. apply wlp_bind.
    eapply wlp_mono; [exact (free_request_holds _ _ _ _ _ _ H)|]. intros ? s5 (l1' & lb' & lf2 & Hl & H5).
    wlps. split; [done|]. exists l1', lb', lf2. split; [done|lia].
  - apply wlp_bind. eapply wlp_mono; [by apply touch_conns|]. clear H. intros ? s4 H.
    unfold wlp. rewrite (next_of_ready _ _ _ _ _ _ _ (proj1 H)).
    split; [done|]. exists (l0 ++ [p]), lb, lf'. rewrite <- app_assoc, length_app.
    split; [done|simpl; lia].
  - eapply holds_on_then; [keeps|exact H|]. clear H. intros ? s4 H.
    unfold wlp. rewrite (next_of_ready _ _ _ _ _ _ _ (proj1 H)).
    split; [done|]. exists (l0 ++ [p]), lb, lf'. rewrite <- app_assoc, length_app.
    split; [done|simpl; lia].
Qed.

(** ** The loop *)

(** A turn for each request of a list, in its order. *)
Fixpoint visit (sock : Z) (l : list positive) : M unit :=
  match l with [] => mret tt | p :: l' => process_one sock p ;; visit sock l' end.

Lemma process_loop_visit sock fuel l1 l2 lb lf s :
  conns (sv s) (l1 ++ l2) lb lf -> (length l2 <= fuel)%nat ->
  process_loop fuel sock (head l2) s = visit sock l2 s.
Proof.
  revert fuel l1 lb lf s. induction l2 as [|p l2 IH]; intros fuel l1 lb lf s H Hf; simpl in Hf.
  { by destruct fuel. }
  destruct fuel as [|fuel]; [lia|]. simpl. pose proof (process_one_turn sock _ _ _ _ _ _ H) as T.
  unfold wlp in T. unfold mbind, M_bind. destruct (process_one sock p s) as [n s'| |]; [|done..].
  destruct T as (-> & l1' & lb' & lf' & H' & _). eapply IH; [exact H'|lia].
Qed.

Lemma visit_conns sock l1 l2 lb lf s :
  conns (sv s) (l1 ++ l2) lb lf ->
  wlp (visit sock l2) (fun _ s' => exists lr' lb' lf', conns (sv s') lr' lb' lf' /\
    (length lr' + length lb' <= length l1 + length lb + 2 * length l2)%nat) s.
Proof.
  revert l1 lb lf s. induction l2 as [|p l2 IH]; intros l1 lb lf s H; simpl.
  { rewrite app_nil_r in H. wlps. exists l1, lb, lf. split; [done|lia]. }
  apply wlp_bind. eapply wlp_mono; [exact (process_one_turn _ _ _ _ _ _ _ H)|].
  intros n s' (_ & l1' & lb' & lf' & H' & Hl).
  eapply wlp_mono; [by eapply IH|]. intros ? s2 (lr2 & lb2 & lf2 & H2 & Hl2).
  exists lr2, lb2, lf2. split; [done|lia].
Qed.

Lemma ready_size g lr lb lf lo : pool g lr lb lf lo -> (length lr <= size (heap g))%nat.
Proof.
  intros H. assert (Hs : list_to_set lr ⊆ dom (heap g)).
  { intros p. rewrite elem_of_list_to_set. intros Hp. apply elem_of_dom, (p_all _ _ _ _ _ H).
    set_solver. }
  apply subseteq_size in Hs. rewrite size_dom, size_list_to_set in Hs; [done|].
  eapply (p_ready _ _ _ _ _ H).
Qed.
End loop.
