(* ===== verification/Wakeup.v ===== *)
(** select.c, [fdset_update]: which of the blocked requests become ready, and that
    the others are waited for. *)

From S2P Require Import Prelude Types Machine ScriptOS Buffer Response Queue QueueProps.
From S2P Require Import Frame Read Request Pool Select Loop.

(** What a request may wait for, timed out or not. *)
Definition waits (r : request) : list (Z * bool) :=
  [wait_for r; wait_for (set_status TIMED_OUT r)].

(** The blocked requests wait for different descriptors: those of different
    connections. *)
Definition separate (h : heap_t) (l : list positive) : Prop :=
  forall p q r r' x, p ∈ l -> q ∈ l -> p <> q ->
    contents h p = Some r -> contents h q = Some r' -> x ∈ waits r -> x ∉ waits r'.

(** Does [fdset_update] make the request ready? *)
Definition wakes (g : server) (r : request) : bool :=
  timed_out g r (current_time g - time_last r) ||
  match blocked_on r with None => true | Some (d, w) => fd_isset g d w end.

(** The request is in the sets that are passed to select. *)
Definition waited_for (g : server) (r : request) : Prop :=
  exists d w, blocked_on r = Some (d, w) /\ fd_isset g d w = true /\ d <= max_fd g.

(** The same for the request at [p]. *)
Definition wakes_at (g : server) (p : positive) : bool :=
  match contents (heap g) p with Some r => wakes g r | None => false end.
Definition waited_at (g : server) (p : positive) : Prop :=
  exists r, contents (heap g) p = Some r /\ waited_for g r.

Lemma blocked_on_waits r x : blocked_on r = Some x -> x = wait_for r.
Proof.
  unfold blocked_on, wait_for. destruct (negb (buffer_end r =? 0)), (status r); simpl; congruence.
Qed.

Lemma blocked_on_timed_out r : blocked_on (set_status TIMED_OUT r) = None.
Proof. unfold blocked_on. simpl. by rewrite andb_false_r. Qed.

Lemma isset_SET d w g d' w' :
  fd_isset (BOA_FD_SET d w g) d' w' = true <->
  (d, w) = (d', w') \/ fd_isset g d' w' = true.
Proof.
  unfold BOA_FD_SET, fd_isset. rewrite !bool_decide_eq_true.
  destruct w, w'; simpl; destruct (_ <? _); simpl; set_solver.
Qed.

Lemma isset_CLR d w g d' w' :
  fd_isset (BOA_FD_CLR d w g) d' w' = true <->
  (d, w) <> (d', w') /\ fd_isset g d' w' = true.
Proof.
  unfold BOA_FD_CLR, fd_isset. rewrite !bool_decide_eq_true.
  destruct w, w'; simpl; set_solver.
Qed.

Lemma max_fd_SET d w g : max_fd g <= max_fd (BOA_FD_SET d w g) /\ d <= max_fd (BOA_FD_SET d w g).
Proof. unfold BOA_FD_SET. destruct w; simpl; destruct (Z.ltb_spec (max_fd g) d); simpl; lia. Qed.

(** What the work on a request leaves alone: the other requests, the clock and the
    limits, and the descriptors it does not wait for. *)
Record spares (p : positive) (r : request) (g g' : server) : Prop := {
  sp_contents : forall q, q <> p -> contents (heap g') q = contents (heap g) q;
  sp_time : current_time g' = current_time g;
  sp_ka : ka_max g' = ka_max g /\ ka_timeout g' = ka_timeout g;
  sp_max : max_fd g <= max_fd g';
  sp_isset : forall d w, (d, w) ∉ waits r -> fd_isset g' d w = fd_isset g d w
}.

Section wakeup.
Context {os : OS}.

Lemma on_request_upd p f s r :
  heap (sv s) !! p = Some r ->
  on_request p (upd f) s =
  Ret tt (mkSt (f r) (set_heap (<[p := f r]> (heap (sv s))) (sv s)) (wd s)).
Proof. intros E. unfold on_request, mbind, M_bind, srv. by rewrite E. Qed.

(** The request as [update_one] leaves it. *)
Definition aged (g : server) (r : request) : request :=
  if timed_out g r (current_time g - time_last r) then set_status TIMED_OUT r else r.

Lemma aged_waits g r : wait_for (aged g r) ∈ waits r.
Proof. unfold aged, waits. destruct (timed_out _ _ _); set_solver. Qed.

Lemma wakes_aged g r :
  wakes g r = match blocked_on (aged g r) with None => true | Some (d, w) => fd_isset g d w end.
Proof.
  unfold wakes, aged. destruct (timed_out _ _ _); simpl; [|done]. by rewrite blocked_on_timed_out.
Qed.

Lemma isset_eq g g' d w :
  (fd_isset g' d w = true <-> fd_isset g d w = true) -> fd_isset g' d w = fd_isset g d w.
Proof. destruct (fd_isset g' d w), (fd_isset g d w); intuition congruence. Qed.

(** The two outcomes. *)
Lemma wake_step g lr l1 p l2 lf r :
  pool g lr (l1 ++ p :: l2) lf [] -> heap g !! p = Some r ->
  let g1 := set_heap (<[p := aged g r]> (heap g)) g in
  exists g', ready_request p g1 = Some g' /\ pool g' (p :: lr) (l1 ++ l2) lf [] /\
    total_connections g' = total_connections g /\ spares p r g g'.
Proof.
  intros H Er g1.
  assert (next (aged g r) = next r /\ prev (aged g r) = prev r) as [En Ep]
    by (unfold aged; by destruct (timed_out _ _ _)).
  assert (H1 : pool g1 lr (l1 ++ p :: l2) lf []) by (exact (pool_store _ _ _ _ _ _ _ _ Er En Ep H)).
  destruct (ready_request_pool g1 lr l1 p l2 lf [] (aged g r) H1) as (h & bl & E & P & C).
  { apply lookup_insert_eq. }
  pose proof (aged_waits g r) as Hw. destruct (wait_for (aged g r)) as [d w].
  eexists. split; [exact E|]. split; [eapply pool_view; [apply view_FD_CLR|exact P]|].
  split; [by destruct w|]. split; try (by destruct w).
  - intros q Hq. replace (heap (BOA_FD_CLR _ _ _)) with h by (by destruct w).
    rewrite C. unfold contents. simpl. by rewrite lookup_insert_ne.
  - intros d' w' Hn. apply isset_eq. rewrite isset_CLR. split; [by intros [_ ?]|].
    intros Hs. split; [|exact Hs]. by intros [= -> ->].
Qed.

Lemma update_one_wp s lr l1 p l2 lf r :
  conns (sv s) lr (l1 ++ p :: l2) lf -> heap (sv s) !! p = Some r ->
  wp (update_one p) (fun _ s' => spares p r (sv s) (sv s') /\
    if wakes (sv s) r then conns (sv s') (p :: lr) (l1 ++ l2) lf
    else conns (sv s') lr (l1 ++ p :: l2) lf /\ heap (sv s') !! p = Some r /\
         waited_for (sv s') r) s.
Proof.
  intros [H E] Er. destruct (wake_step (sv s) lr l1 p l2 lf r H Er) as (g' & Eg & P & Et & Sp).
  assert (Q : forall s1, sv s1 = set_heap (<[p := aged (sv s) r]> (heap (sv s))) (sv s) ->
    wp (queue_op (ready_request p)) (fun _ s' => spares p r (sv s) (sv s') /\
      conns (sv s') (p :: lr) (l1 ++ l2) lf) s1).
  { intros s1 E1. unfold queue_op. wps. eapply wp_checked; [by rewrite E1|]. wps.
    split; [done|]. split; [done|]. rewrite Et, E. rewrite !zlen_app, !zlen_cons. f_equal. lia. }
  unfold update_one. wps. eapply wp_checked; [exact Er|]. wps.
  rewrite wakes_aged. unfold aged in Q |- *. destruct (timed_out _ _ _) eqn:Eo.
  - unfold wp at 1. rewrite (on_request_upd _ _ _ _ Er). wps.
    eapply wp_checked; [apply lookup_insert_eq|].
    rewrite blocked_on_timed_out. by apply Q.
  - wps. eapply wp_checked; [exact Er|].
    assert (Q1 := Q s ltac:(rewrite insert_id by done; by destruct (sv s))).
    destruct (blocked_on r) as [[d w]|] eqn:Eb; [|exact Q1].
    destruct (fd_isset (sv s) d w) eqn:Es; [exact Q1|]. wps.
    pose proof (view_FD_SET d w (sv s)) as V. pose proof (max_fd_SET d w (sv s)) as [Hm Hd].
    assert (Hh : heap (BOA_FD_SET d w (sv s)) = heap (sv s)) by (by injection V).
    split; [|split_and!; [split; [by eapply pool_view|rewrite <- E; by injection V]|by rewrite Hh|]].
    + split; [by rewrite Hh|by unfold BOA_FD_SET; destruct w; simpl; destruct (_ <? _)..|done|].
      intros d' w' Hn. apply isset_eq. rewrite isset_SET. split; [|by right]. intros [[= -> ->]|?]; [|done].
      exfalso. apply Hn. rewrite (blocked_on_waits _ _ Eb). set_solver.
    + exists d, w. split_and!; [done| |done]. apply isset_SET. by left.
Qed.

Lemma contents_lookup h p r : h !! p = Some r -> contents h p = Some (unlinked r).
Proof. unfold contents. by intros ->. Qed.

(** The work on [p] does not change what happens to [q]. *)
Lemma spares_wakes p q r g g' l :
  spares p r g g' -> contents (heap g) p = Some (unlinked r) -> separate (heap g) l ->
  p ∈ l -> q ∈ l -> q <> p -> wakes_at g' q = wakes_at g q.
Proof.
  intros [C T [K1 K2] M I] Ep Hs Hp Hq Hne. unfold wakes_at. rewrite C by done.
  destruct (contents (heap g) q) as [r'|] eqn:Eq; [|done].
  unfold wakes, timed_out. rewrite T, K1, K2. f_equal.
  destruct (blocked_on r') as [[d w]|] eqn:Eb; [|done]. apply I. intros Hw.
  apply (Hs p q (unlinked r) r' (d, w)); auto.
  rewrite (blocked_on_waits _ _ Eb). set_solver.
Qed.

Lemma spares_waited p q r g g' l :
  spares p r g g' -> contents (heap g) p = Some (unlinked r) -> separate (heap g) l ->
  p ∈ l -> q ∈ l -> q <> p -> waited_at g q -> waited_at g' q.
Proof.
  intros [C T K M I] Ep Hs Hp Hq Hne (r' & Eq & d & w & Eb & Ew & Hd).
  exists r'. rewrite C by done. split; [done|]. exists d, w. split; [done|]. split; [|lia].
  rewrite I; [done|]. intros Hw. apply (Hs p q (unlinked r) r' (d, w)); auto.
  rewrite (blocked_on_waits _ _ Eb). set_solver.
Qed.

Lemma separate_mono h h' l l' :
  (forall q, q ∈ l' -> q ∈ l /\ contents h' q = contents h q) -> separate h l -> separate h' l'.
Proof.
  intros Hc Hs p q r r' x Hp Hq Hne Er Er'.
  destruct (Hc p Hp) as [? E1], (Hc q Hq) as [? E2]. rewrite E1 in Er. rewrite E2 in Er'.
  by apply (Hs p q).
Qed.

Definition woken (g : server) (l : list positive) : list positive := List.filter (wakes_at g) l.
Definition kept_waiting (g : server) (l : list positive) : list positive :=
  List.filter (fun p => negb (wakes_at g p)) l.

Lemma filter_agree {A} (f f' : A -> bool) l :
  (forall x, x ∈ l -> f' x = f x) -> List.filter f' l = List.filter f l.
Proof.
  induction l as [|x l IH]; intros H; simpl; [done|].
  rewrite H by set_solver. rewrite IH by (intros; apply H; set_solver). done.
Qed.

Lemma filter_in {A} (f : A -> bool) l x : x ∈ List.filter f l -> x ∈ l.
Proof. rewrite !list_elem_of_In, filter_In. by intros [? _]. Qed.

Lemma next_of_blocked lr l1 p l2 lf lo s :
  pool (sv s) lr (l1 ++ p :: l2) lf lo -> next_of p s = Ret (head l2) s.
Proof.
  intros H. destruct (queue_next _ _ _ _ _ (p_block _ _ _ _ _ H)) as (r & Er & En).
  unfold next_of, mbind, M_bind, srv. rewrite Er. simpl. unfold mret, M_ret. by rewrite En.
Qed.

Lemma q_nodup g lr l1 p l2 lf lo :
  pool g lr (l1 ++ p :: l2) lf lo -> p ∉ l1 /\ p ∉ l2.
Proof.
  intros H. pose proof (p_block _ _ _ _ _ H) as [(_ & Hx & [? _]%NoDup_cons)%NoDup_app _].
  split; [|done]. intros Hp. apply (Hx p Hp). set_solver.
Qed.

Lemma update_loop_wp l2 fuel lr l1 lf s :
  conns (sv s) lr (l1 ++ l2) lf -> separate (heap (sv s)) (l1 ++ l2) ->
  (length l2 <= fuel)%nat -> (forall p, p ∈ l1 -> waited_at (sv s) p) ->
  wp (update_loop fuel (head l2)) (fun _ s' =>
    conns (sv s') (rev (woken (sv s) l2) ++ lr) (l1 ++ kept_waiting (sv s) l2) lf /\
    forall p, p ∈ l1 ++ kept_waiting (sv s) l2 ->
      waited_at (sv s') p /\ contents (heap (sv s')) p = contents (heap (sv s)) p) s.
Proof.
  revert fuel lr l1 s. induction l2 as [|p l2 IH]; intros fuel lr l1 s H Hs Hf Hw.
  { destruct fuel; apply wp_ret; simpl; rewrite !app_nil_r in *; auto. }
  destruct fuel as [|fuel]; [simpl in Hf; lia|]. cbn [head update_loop].
  destruct (pool_is_some _ _ _ _ _ p (proj1 H)) as [r Er]; [set_solver|].
  pose proof (contents_lookup _ _ _ Er) as Ec.
  apply wp_bind. unfold wp at 1. rewrite (next_of_blocked _ _ _ _ _ _ _ (proj1 H)).
  apply wp_bind. eapply wp_mono; [exact (update_one_wp _ _ _ _ _ _ _ H Er)|].
  intros [] s' [Sp Hs'].
  pose proof (q_nodup _ _ _ _ _ _ _ (proj1 H)) as [Hp1 Hp2].
  assert (Ha : forall q, q ∈ l2 -> wakes_at (sv s') q = wakes_at (sv s) q).
  { intros q Hq. eapply spares_wakes; [done..| | |]; set_solver. }
  assert (Hwt : forall q, q ∈ l1 -> waited_at (sv s') q).
  { intros q Hq. eapply spares_waited; [done..| | | |by apply Hw]; set_solver. }
  unfold woken, kept_waiting. cbn [List.filter].
  replace (wakes_at (sv s) p) with (wakes (sv s) r) by (unfold wakes_at; by rewrite Ec).
  rewrite <- (filter_agree _ _ l2 Ha),
    <- (filter_agree (fun q => negb (wakes_at (sv s) q)) _ l2 (fun q Hq => f_equal negb (Ha q Hq))).
  destruct (wakes (sv s) r); cbn [negb].
  - eapply wp_mono; [apply (IH fuel (p :: lr) l1 s'); auto|].
    + eapply separate_mono; [|exact Hs]. intros q Hq. split; [set_solver|]. apply Sp. set_solver.
    + simpl in Hf. lia.
    + intros ? s2 [H2 H2']. cbn [rev]. rewrite <- app_assoc. split; [exact H2|].
      intros q Hq. destruct (H2' q Hq) as [? ->]. split; [done|]. apply Sp.
      intros ->. apply elem_of_app in Hq as [?|Hq%filter_in]; done.
  - destruct Hs' as (Hc & Er' & Hw').
    assert (Hcs : forall q, contents (heap (sv s')) q = contents (heap (sv s)) q).
    { intros q. destruct (decide (q = p)) as [->|]; [|by apply Sp].
      by rewrite (contents_lookup _ _ _ Er'), Ec. }
    eapply wp_mono; [apply (IH fuel lr (l1 ++ [p]) s'); rewrite <- ?app_assoc; auto|].
    + eapply separate_mono; [|exact Hs]. auto.
    + simpl in Hf. lia.
    + intros q [Hq| ->%list_elem_of_singleton]%elem_of_app; [auto|].
      exists (unlinked r). split; [by apply contents_lookup|exact Hw'].
    + intros ? s2 [H2 H2']. rewrite <- app_assoc in H2. split; [exact H2|].
      intros q Hq. rewrite <- Hcs. apply H2'. by rewrite <- app_assoc.
Qed.
End wakeup.
