(* ===== verification/MainLoop.v ===== *)
(** The main loop of the server: [process_requests] gives every ready request one
    turn, [fdset_update] forgets no blocked one, and any number of turns of
    [loop_once], with signals between them, keeps the queues in order. *)

From S2P Require Import Prelude Types Machine ScriptOS Buffer Response Range Queue.
From S2P Require Import QueueProps.
From S2P Require Import Mmap Hash Alias Config Frame Read Request Pool Select Loop.
From S2P Require Import Wakeup.

Section main_loop.
Context {os : OS}.

(** ** process_requests *)

Definition new_connections (sock : Z) : M unit :=
  g ← srv; if pending_requests g then get_request sock else mret tt.

Lemma new_connections_conns sock lr lb lf s :
  conns (sv s) lr lb lf ->
  wlp (new_connections sock) (fun _ s' => exists new lf',
    conns (sv s') (new ++ lr) lb lf' /\ (length new <= 1)%nat) s.
Proof.
  intros H. unfold new_connections. wlps. destruct (pending_requests (sv s)).
  - eapply wlp_mono; [by eapply get_request_holds|]. intros ? s' (new & lf' & [H' E] & Hn).
    exists new, lf'. split; [|done]. split; [done|]. rewrite E, zlen_app. f_equal. lia.
  - wlps. exists [], lf. split; [done|simpl; lia].
Qed.

Lemma conns_view g g' lr lb lf :
  queue_view g' = queue_view g -> conns g lr lb lf -> conns g' lr lb lf.
Proof. intros V [H E]. split; [by eapply pool_view|]. rewrite <- E. by injection V. Qed.

Lemma dlist_head h hd l : dlist h hd l -> hd = head l.
Proof. intros [_ H]. destruct l; simpl in *; [done|]. by destruct H. Qed.

Lemma process_requests_conns sock lr lb lf s :
  conns (sv s) lr lb lf ->
  wlp (process_requests sock) (fun _ s' => exists lr' lb' lf', conns (sv s') lr' lb' lf') s.
Proof.
  intros H. change (process_requests sock) with
    (g ← srv; (if pending_requests g then get_request sock else mret tt) ;;
     g ← srv; process_loop (size (heap g)) sock (request_ready g)).
  wlps. apply wlp_bind.
  eapply (wlp_mono (if pending_requests (sv s) then get_request sock else mret tt)).
  { exact (new_connections_conns sock _ _ _ _ H). }
  clear H. intros ? s1 (new & lf' & H & _). wlps.
  rewrite (dlist_head _ _ _ (p_ready _ _ _ _ _ (proj1 H))).
  unfold wlp. rewrite (process_loop_visit sock _ [] (new ++ lr) lb lf' s1 H).
  - eapply wlp_mono; [exact (visit_conns sock [] _ _ _ _ H)|]. intros ? s2 (? & ? & ? & ? & _). eauto.
  - eapply ready_size, H.
Qed.

(** ** SIGHUP: the free list is given back *)

Definition delete_all (h : heap_t) (l : list positive) : heap_t :=
  fold_left (fun h p => base.delete p h) l h.

Lemma delete_all_out h l q : q ∉ l -> delete_all h l !! q = h !! q.
Proof.
  revert h. induction l as [|p l IH]; intros h Hq; simpl; [done|].
  apply not_elem_of_cons in Hq as [Hp Hq]. rewrite IH by done. by rewrite lookup_delete_ne.
Qed.

Lemma delete_all_in h l q : q ∈ l -> delete_all h l !! q = None.
Proof.
  revert h. induction l as [|p l IH]; intros h Hq; simpl; [set_solver|].
  destruct (decide (q ∈ l)) as [Hl|Hl]; [auto|]. apply elem_of_cons in Hq as [->|?]; [|done].
  rewrite delete_all_out by done. apply lookup_delete_eq.
Qed.

Lemma free_requests_loop_wp l fuel h pv s :
  dseg (heap (sv s)) pv h l None -> NoDup l -> (length l <= fuel)%nat ->
  wp (free_requests_loop fuel h)
    (fun _ s' => sv s' = set_heap (delete_all (heap (sv s)) l) (sv s)) s.
Proof.
  revert fuel h pv s. induction l as [|p l IH]; intros fuel h pv s Hd Hn Hf.
  { simpl in Hd. subst h. destruct fuel; apply wp_ret; by destruct (sv s). }
  destruct Hd as (-> & nx & (r & Er & En & _)%links_Some & Hd).
  apply NoDup_cons in Hn as [Hp Hn]. destruct fuel as [|fuel]; [simpl in Hf; lia|]. simpl.
  wps. eapply wp_checked; [exact Er|]. wps. rewrite En.
  eapply wp_mono; [apply (IH fuel nx (Some p))|].
  - simpl. eapply dseg_frame; [|exact Hd]. intros q Hq. unfold links.
    rewrite lookup_delete_ne; [done|]. by intros ->.
  - done.
  - simpl in Hf. lia.
  - intros ? s' ->. done.
Qed.

Lemma free_requests_wp lr lb lf s :
  conns (sv s) lr lb lf -> wp free_requests (fun _ s' => conns (sv s') lr lb []) s.
Proof.
  intros [[[Hnr Hr] [Hnb Hb] [Hnf Hf] Hn Hall Hfr] E]. unfold free_requests. wps.
  eapply wp_mono; [eapply free_requests_loop_wp; [exact Hf|done|]|].
  { assert (Hs : list_to_set lf ⊆ dom (heap (sv s))).
    { intros p. rewrite elem_of_list_to_set. intros Hp. apply elem_of_dom, Hall. set_solver. }
    apply subseteq_size in Hs. by rewrite size_dom, size_list_to_set in Hs. }
  intros ? s' Es. wps. rewrite Es.
  assert (Hd : forall q, q ∈ lr ++ lb -> q ∉ lf).
  { intros q Hq. rewrite app_nil_r, app_assoc in Hn. by apply (NoDup_app_disjoint _ _ _ Hn). }
  assert (Hl : forall q, q ∈ lr ++ lb -> links (delete_all (heap (sv s)) lf) q = links (heap (sv s)) q).
  { intros q Hq. unfold links. by rewrite delete_all_out by auto. }
  split; [|exact E]. split; simpl.
  - split; [done|]. eapply dseg_frame; [|exact Hr]. set_solver.
  - split; [done|]. eapply dseg_frame; [|exact Hb]. set_solver.
  - split; [constructor|done].
  - rewrite !app_nil_r in *. rewrite app_assoc in Hn. by apply NoDup_app in Hn as (? & _ & _).
  - intros p. rewrite !app_nil_r. destruct (decide (p ∈ lf)) as [Hp|Hp].
    + rewrite delete_all_in by done. split; [by intros []|]. intros Hq. by destruct (Hd p Hq).
    + rewrite delete_all_out, Hall by done. set_solver.
  - intros p Hp. apply Hfr. destruct (decide (p ∈ lf)); [|by rewrite <- (delete_all_out _ lf)].
    rewrite delete_all_in in Hp by done. by destruct Hp.
Qed.

(** Parts that do not touch the queues, for [conns]. *)
Lemma conns_then {A B} (m : M A) (k : A -> M B) Q lr lb lf s :
  keeps m -> conns (sv s) lr lb lf ->
  (forall a s', conns (sv s') lr lb lf -> wlp (k a) Q s') -> wlp (m ≫= k) Q s.
Proof. apply holds_then. Qed.

Lemma conns_keeps {A} (m : M A) lr lb lf s :
  keeps m -> conns (sv s) lr lb lf -> wlp m (fun _ s' => conns (sv s') lr lb lf) s.
Proof. apply holds_keeps. Qed.

(** The queues are in order, whatever they hold. *)
Definition in_order (s : St) : Prop := exists lr lb lf, conns (sv s) lr lb lf.

Lemma wlp_wp {A} (m : M A) Q s : wp m Q s -> wlp m Q s.
Proof. unfold wp, wlp. by destruct (m s). Qed.

Lemma in_order_keeps {A} (m : M A) s : keeps m -> in_order s -> wlp m (fun _ => in_order) s.
Proof.
  intros K (lr & lb & lf & H). eapply wlp_mono; [by apply (conns_keeps m)|].
  intros a s' H'. by exists lr, lb, lf.
Qed.

Lemma in_order_then {A B} (m : M A) (k : A -> M B) Q s :
  wlp m (fun _ => in_order) s -> (forall a s', in_order s' -> wlp (k a) Q s') ->
  wlp (m ≫= k) Q s.
Proof. intros Hm Hk. apply wlp_bind. eapply wlp_mono; [exact Hm|exact Hk]. Qed.

Lemma keeps_dump_mime : keeps dump_mime.
Proof. keeps. Qed.
Lemma keeps_dump_passwd : keeps dump_passwd.
Proof. keeps. Qed.
Lemma keeps_dump_alias : keeps dump_alias.
Proof. keeps. Qed.
Lemma keeps_range_pool_empty : keeps range_pool_empty.
Proof. keeps. Qed.
#[local] Hint Resolve keeps_dump_mime keeps_dump_passwd keeps_dump_alias keeps_range_pool_empty
  : keeps.

Lemma sighup_run_in_order s : in_order s -> wlp sighup_run (fun _ => in_order) s.
Proof.
  intros H. unfold sighup_run.
  do 6 (apply in_order_then; [apply in_order_keeps; [keeps|done]|]; clear H; intros ? ? H).
  apply in_order_then.
  { destruct H as (lr & lb & lf & H). apply wlp_wp. eapply wp_mono; [by eapply free_requests_wp|].
    intros ? s9 H9. by exists lr, lb, []. }
  clear H. intros ? ? H.
  apply in_order_then; [apply in_order_keeps; [keeps|done]|]. clear H. intros ? ? H.
  apply in_order_keeps; [auto with keeps|done].
Qed.

Lemma keeps_reap fuel : keeps (reap fuel).
Proof. induction fuel; simpl; keeps. Qed.
#[local] Hint Resolve keeps_reap : keeps.

Lemma run_signals_in_order s : in_order s -> wlp run_signals (fun _ => in_order) s.
Proof.
  intros H. unfold run_signals. wlps. apply in_order_then.
  { destruct (sighup_flag (sv s)); [by apply sighup_run_in_order|exact H]. }
  clear H. intros ? s1 H. apply in_order_keeps; [|exact H]. keeps.
Qed.

(** A run that ends with exit. *)
Lemma wlp_never {A B} (m : M A) (k : A -> M B) Q s :
  (forall a s', wlp (k a) Q s') -> wlp (m ≫= k) Q s.
Proof. intros H. apply wlp_bind. unfold wlp at 1. destruct (m s); auto. Qed.

Lemma sigterm_stage2_run_exits Q s : wlp sigterm_stage2_run Q s.
Proof. unfold sigterm_stage2_run. repeat (apply wlp_never; intros ? ?). done. Qed.

Lemma loop_signals_in_order sock s : in_order s -> wlp (loop_signals sock) (fun _ => in_order) s.
Proof.
  intros H. unfold loop_signals. wlps. destruct (negb (sigterm_flag (sv s) =? 0)).
  - apply in_order_then.
    { apply in_order_keeps; [|exact H]. destruct (sigterm_flag (sv s) =? 1); [|keeps].
      apply keeps_bind; [keeps|intros ?]. apply keeps_bind; [apply keeps_FD_CLR|intros ?]. keeps. }
    clear H. intros a s1 H. wlps. apply in_order_then.
    { case_match; [apply sigterm_stage2_run_exits|exact H]. }
    clear H. intros ? s2 H. exact H.
  - apply in_order_then; [|intros ? s1 H1; exact H1]. apply in_order_keeps; [|exact H].
    apply keeps_upd_srv. intros g. destruct (_ <? _); [apply view_FD_CLR|apply view_FD_SET].
Qed.

Lemma loop_select_in_order sock s : in_order s -> wlp (loop_select sock) (fun _ => in_order) s.
Proof.
  intros H. apply in_order_keeps; [|exact H]. unfold loop_select.
  apply keeps_bind; [keeps|intros g]. destruct (max_fd g =? 0); [keeps|].
  apply keeps_bind; [keeps|intros res]. cbv zeta.
  assert (F : keeps (g ← srv;
      (if (sigterm_flag g =? 0) && fd_isset g sock false
       then upd_srv (set_pending_requests true) else mret tt) ;;
      now ← call os_time; upd_srv (set_current_time now) ;; mret true)) by keeps.
  destruct res as [a|[]]; try exact F; keeps.
Qed.

Lemma update_one_in_order lr l1 p l2 lf s :
  conns (sv s) lr (l1 ++ p :: l2) lf ->
  wlp (update_one p) (fun _ s' => exists lr' l1', conns (sv s') lr' (l1' ++ l2) lf) s.
Proof.
  intros H. destruct (pool_is_some _ _ _ _ _ p (proj1 H)) as [r Er]; [set_solver|].
  apply wlp_wp. eapply wp_mono; [exact (update_one_wp _ _ _ _ _ _ _ H Er)|].
  intros ? s' [_ Hs]. destruct (wakes (sv s) r); [by exists (p :: lr), l1|].
  exists lr, (l1 ++ [p]). rewrite <- app_assoc. apply Hs.
Qed.

Lemma update_loop_in_order fuel l2 lr l1 lf s :
  conns (sv s) lr (l1 ++ l2) lf -> wlp (update_loop fuel (head l2)) (fun _ => in_order) s.
Proof.
  revert fuel lr l1 s. induction l2 as [|p l2 IH]; intros fuel lr l1 s H; destruct fuel; try done.
  - exists lr, (l1 ++ []), lf. exact H.
  - exists lr, (l1 ++ []), lf. exact H.
  - simpl. apply wlp_bind. unfold wlp at 1.
    rewrite (next_of_blocked _ _ _ _ _ _ _ (proj1 H)). apply wlp_bind.
    eapply wlp_mono; [exact (update_one_in_order _ _ _ _ _ _ H)|].
    intros ? s' (lr' & l1' & H'). by eapply IH.
Qed.

Lemma fdset_update_in_order s : in_order s -> wlp fdset_update (fun _ => in_order) s.
Proof.
  intros H. unfold fdset_update. wlps. intros now w. wlps.
  destruct H as (lr & lb & lf & H).
  change (request_block (set_current_time now (sv s))) with (request_block (sv s)).
  rewrite (dlist_head _ _ _ (p_block _ _ _ _ _ (proj1 H))).
  eapply (update_loop_in_order _ lb lr []). by eapply conns_view; [|exact H].
Qed.

Lemma loop_once_in_order sock s : in_order s -> wlp (loop_once sock) (fun _ => in_order) s.
Proof.
  intros H. unfold loop_once. apply in_order_then; [by apply run_signals_in_order|].
  clear H. intros ? s1 H. apply in_order_then; [by apply loop_signals_in_order|].
  clear H. intros sock' s2 H.
  apply in_order_then; [apply in_order_keeps; [keeps|done]|]. clear H. intros ? s3 H.
  apply in_order_then; [by apply loop_select_in_order|]. clear H. intros go s4 H.
  destruct go; cbn [negb]; [|exact H].
  apply in_order_then; [apply in_order_keeps; [keeps|done]|]. clear H. intros ? s5 H. wlps.
  apply in_order_then.
  { destruct (request_block (sv s5)); [by apply fdset_update_in_order|exact H]. }
  clear H. intros ? s6 H. wlps. apply in_order_then; [|intros ? s7 H7; exact H7].
  case_match; [|exact H]. destruct H as (lr & lb & lf & H).
  eapply wlp_mono; [by eapply process_requests_conns|]. by intros.
Qed.

(** ** Runs of the server *)

(** What happens to the server, with the socket it listens on: a turn of the loop;
    a signal, whose handler sets a flag; or anything in the outside world. *)
Inductive event : Z * St -> Z * St -> Prop :=
  | event_turn sock s sock' s' : loop_once sock s = Ret sock' s' -> event (sock, s) (sock', s')
  | event_signal sock s f : f ∈ [sigterm; sighup; sigchld; sigalrm] ->
      event (sock, s) (sock, mkSt (rq s) (f (sv s)) (wd s))
  | event_world sock s w : event (sock, s) (sock, mkSt (rq s) (sv s) w).

Lemma event_in_order x y : event x y -> in_order x.2 -> in_order y.2.
Proof.
  intros [sock s sock' s' E|sock s f Hf|sock s w] H; simpl in *.
  - pose proof (loop_once_in_order sock s H) as W. unfold wlp in W. by rewrite E in W.
  - destruct H as (lr & lb & lf & H). exists lr, lb, lf. simpl.
    assert (V : queue_view (f (sv s)) = queue_view (sv s)).
    { repeat (apply elem_of_cons in Hf as [->|Hf]; [try done|]); [|set_solver].
      unfold sigterm. by destruct (_ =? 0). }
    by apply (conns_view _ _ _ _ _ V).
  - exact H.
Qed.

(** ** The claims *)

(** C6: [process_requests] first takes one waiting connection, if any, and then gives each
    request of the ready queue exactly one turn, in the order of the queue; the walk along
    the linked list is not disturbed by what the turns do to it, requests that block, end,
    or are put in front.  Each turn may take one more connection, whose request is put in
    front and has no turn in this walk: when the walk is over, the queues are in order and
    hold at most as many connections as before, and one for the first, and one for each
    turn. *)
Theorem process_requests_visits sock lr lb lf s :
  conns (sv s) lr lb lf ->
  exists new, (length new <= 1)%nat /\
    process_requests sock s = (new_connections sock ;; visit sock (new ++ lr)) s /\
    wlp (process_requests sock) (fun _ s' => exists lr' lb' lf', conns (sv s') lr' lb' lf' /\
      (length lr' + length lb' <= length lr + length lb + (1 + length (new ++ lr)))%nat) s.
Proof.
  intros H. pose proof (new_connections_conns sock _ _ _ _ H) as W.
  assert (E : process_requests sock s =
    (new_connections sock ;; g ← srv; process_loop (size (heap g)) sock (request_ready g)) s)
    by done.
  unfold wlp in W. unfold wlp. rewrite E. clear E. unfold mbind at 1 3 4, M_bind at 1 3 4.
  destruct (new_connections sock s) as [[] s1| |]; [|by exists []; simpl; auto with lia..].
  destruct W as (new & lf' & H1 & Hn). exists new. split; [done|].
  assert (Ev : (g ← srv; process_loop (size (heap g)) sock (request_ready g)) s1
    = visit sock (new ++ lr) s1).
  { unfold mbind, M_bind, srv. rewrite (dlist_head _ _ _ (p_ready _ _ _ _ _ (proj1 H1))).
    eapply (process_loop_visit sock _ []); [exact H1|]. eapply ready_size, H1. }
  split; [exact Ev|]. cbv beta. rewrite Ev.
  refine (wlp_mono (visit sock (new ++ lr)) _ _ _ (visit_conns sock [] _ _ _ _ H1) _).
  intros ? s2 (lr2 & lb2 & lf2 & H2 & Hl). exists lr2, lb2, lf2. split; [done|].
  rewrite length_app in *. simpl in Hl. lia.
Qed.

(** C12: when the blocked requests wait for different descriptors,
    [fdset_update] makes exactly those ready that select reported, that have timed
    out or that are at their end, and every other one stays blocked with its
    descriptor in the sets for the next select: none is forgotten. *)
Theorem fdset_update_correct lr lb lf s :
  conns (sv s) lr lb lf -> separate (heap (sv s)) lb ->
  let g := set_current_time (fst (os_time (wd s))) (sv s) in
  wp fdset_update (fun _ s' =>
    conns (sv s') (rev (woken g lb) ++ lr) (kept_waiting g lb) lf /\
    forall p, p ∈ kept_waiting g lb ->
      waited_at (sv s') p /\ contents (heap (sv s')) p = contents (heap (sv s)) p) s.
Proof.
  intros H Hs g. unfold fdset_update. wps. apply wp_call. intros now w Ew. wps.
  replace now with (fst (os_time (wd s))) by (by rewrite Ew). fold g.
  assert (Hg : conns g lr lb lf) by (by eapply conns_view; [|exact H]).
  change (heap g) with (heap (sv s)).
  replace (request_block g) with (head lb)
    by (symmetry; apply (dlist_head _ _ _ (p_block _ _ _ _ _ (proj1 Hg)))).
  apply (update_loop_wp lb _ lr [] lf (mkSt (rq s) g w) Hg Hs).
  - assert (Hl : list_to_set lb ⊆ dom (heap (sv s))).
    { intros p. rewrite elem_of_list_to_set. intros Hp.
      apply elem_of_dom, (p_all _ _ _ _ _ (proj1 H)). set_solver. }
    apply subseteq_size in Hl. rewrite size_dom, size_list_to_set in Hl; [done|].
    eapply (p_block _ _ _ _ _ (proj1 H)).
  - set_solver.
Qed.

Lemma run_in_order x y : rtc event x y -> in_order x.2 -> in_order y.2.
Proof.
  intros R. induction R as [|x y z E R IH]; [done|]. intros H. apply IH. by eapply event_in_order.
Qed.
End main_loop.

(** * Instances *)

(** Two requests that are ready, and two that are blocked. *)
Definition loop_server (g : server) : server := set_fresh 3%positive (set_total_connections 2 g).

Lemma queue_heap_all p : is_Some (queue_heap !! p) <-> p ∈ [1%positive; 2%positive].
Proof.
  unfold queue_heap. rewrite lookup_insert_is_Some, lookup_singleton_is_Some, !elem_of_cons.
  split; [intros [<-|[_ <-]]; auto|]. intros [->|[->|[]%elem_of_nil]]; [by left|].
  by right.
Qed.

Lemma ready_conns : conns (loop_server ready_server) [1%positive; 2%positive] [] [].
Proof.
  split; [|done]. split; auto using dlist_nil, queue_heap_ok, NoDup_12.
  - intros p. apply queue_heap_all.
  - intros p [->|[->|[]%elem_of_nil]%elem_of_cons]%queue_heap_all%elem_of_cons; simpl; lia.
Qed.

Lemma blocked_conns : conns (loop_server blocked_server) [] [1%positive; 2%positive] [].
Proof.
  split; [|done]. split; auto using dlist_nil, queue_heap_ok, NoDup_12.
  - intros p. apply queue_heap_all.
  - intros p [->|[->|[]%elem_of_nil]%elem_of_cons]%queue_heap_all%elem_of_cons; simpl; lia.
Qed.

Lemma process_requests_visits_witness :
  let s := mkSt test_request (loop_server ready_server) empty_world in
  exists new, (length new <= 1)%nat /\
    process_requests 3 s = (new_connections 3 ;; visit 3 (new ++ [1%positive; 2%positive])) s /\
    wlp (process_requests 3) (fun _ s' => exists lr lb lf, conns (sv s') lr lb lf /\
      (length lr + length lb <= 3 + length (new ++ [1%positive; 2%positive]))%nat) s.
Proof.
  exact (process_requests_visits 3 _ _ _
           (mkSt test_request (loop_server ready_server) empty_world) ready_conns).
Defined.

(** Two blocked connections on the descriptors 7 and 8; select reports 7. *)
Definition two_blocked : heap_t :=
  {[ 1%positive := set_next (Some 2%positive) test_request;
     2%positive := set_prev (Some 1%positive) (set_fd 8 test_request) ]}.

Definition select_server : server :=
  set_block_read_fdset {[7]}
    (set_heap two_blocked (set_request_block (Some 1%positive) (loop_server test_server))).

Definition select_state : St := mkSt test_request select_server empty_world.

Lemma select_conns : conns (sv select_state) [] [1%positive; 2%positive] [].
Proof.
  assert (Hall : forall p, is_Some (two_blocked !! p) <-> p ∈ [1%positive; 2%positive]).
  { intros p. unfold two_blocked.
    rewrite lookup_insert_is_Some, lookup_singleton_is_Some, !elem_of_cons.
    split; [intros [<-|[_ <-]]; auto|]. intros [->|[->|[]%elem_of_nil]]; [by left|by right]. }
  split; [|done]. split; auto using dlist_nil, NoDup_12.
  - split; [apply NoDup_12|]. split; [done|]. exists (Some 2%positive). split; [done|].
    split; [done|]. by exists None.
  - intros p [->|[->|[]%elem_of_nil]%elem_of_cons]%Hall%elem_of_cons; simpl; lia.
Qed.

Lemma select_separate : separate (heap (sv select_state)) [1%positive; 2%positive].
Proof.
  intros p q r r' x Hp Hq Hne Er Er' Hx Hx'.
  apply elem_of_cons in Hp as [->|[->|[]%elem_of_nil]%elem_of_cons];
    apply elem_of_cons in Hq as [->|[->|[]%elem_of_nil]%elem_of_cons]; try done;
    injection Er as <-; injection Er' as <-;
    apply elem_of_cons in Hx as [->|[->|[]%elem_of_nil]%elem_of_cons];
    apply elem_of_cons in Hx' as [Hx'|[Hx'|[]%elem_of_nil]%elem_of_cons]; discriminate.
Qed.

Lemma fdset_update_correct_witness :
  exists s', fdset_update select_state = Ret tt s' /\
    conns (sv s') [1%positive] [2%positive] [] /\ waited_at (sv s') 2%positive.
Proof.
  destruct (wp_elim _ _ _ (fdset_update_correct _ _ _ select_state select_conns select_separate))
    as ([] & s' & E & H & W).
  exists s'. split; [exact E|]. split; [exact H|]. apply W. vm_compute. constructor.
Defined.
