(* ===== verification/Boot.v ===== *)
(** boa.c: the start of the server up to the first turn of the loop, with the parts
    of log.c, sublog.c and ip.c that only the start uses.  [main] takes what getopt
    delivers, and its result is the server socket.  A process that becomes the
    parent of the server, or the child that runs a log program, ends with [Exit]
    here. *)

From S2P Require Import Prelude Types Machine Escape Buffer Util CgiHeader Cgi Config.
From S2P Require Import Signals Select.

Definition SERVER_ROOT : bytes := bs "/etc/boa".
Definition SO_MAXCONN : Z := 250.
Definition SINGLE_POST_LIMIT_DEFAULT : Z := 1024 * 1024.

(** The variables as the program starts: zero, but for those with an initializer. *)
Definition initial_server : server :=
  mkServer 0 0 [] 0 None None None [] None None None None [] false
    SINGLE_POST_LIMIT_DEFAULT false None [] 0 false [] [] 0 None None None None
    (replicate (Z.to_nat ((NEEDS_ESCAPE_BITS + NEEDS_ESCAPE_WORD_LENGTH - 1)
                            / NEEDS_ESCAPE_WORD_LENGTH)) 0)
    (replicate (Z.to_nat MIME_HASHTABLE_SIZE) [])
    (replicate (Z.to_nat PASSWD_HASHTABLE_SIZE) [])
    (replicate (Z.to_nat ALIAS_HASHTABLE_SIZE) [])
    (replicate (Z.to_nat (MAX_HEADER_LENGTH + 1)) 0) [] []
    (replicate (Z.to_nat MMAP_LIST_SIZE) (mkMmap 0 0 [] 0 0)) 0 0 0
    0 0 false 0 0 0 0 [] ∅ 1%positive None None None ∅ ∅ 0
    None SO_MAXCONN 0 0 0 false false None None None 23 0 0 None Null Null Null
    false false false 0 true.

Section boot.
Context {os : OS}.

(** * sublog.c *)

(** A log program behind a pipe; its child ends with exec. *)
Definition open_pipe_fd (command : bytes) : M Z :=
  p ← call os_pipe;
  match p with
  | SErr _ => mret (-1)
  | SOk (p0, p1) =>
      pid ← call os_fork;
      match pid with
      | SOk 0 =>
          call_ (os_close p1) ;;
          (if p0 =? 0 then mret tt
           else call (os_boot (Dup2 p0 0)) ;; call_ (os_close p0)) ;;
          die
      | SOk _ => call_ (os_close p0) ;; mret p1
      | SErr _ => call_ (os_close p0) ;; call_ (os_close p1) ;; mret (-1)
      end
  end.

(** [strtol (p, NULL, 10)]. *)
Definition strtol10 (s : bytes) : Z :=
  let '(neg, s1) := match skip_spaces s with
                    | 45 :: t => (true, t)
                    | 43 :: t => (false, t)
                    | t => (false, t)
                    end in
  let n := fst (strtol_digits 10 s1 0) in
  long_clamp (if (neg : bool) then - n else n).

(** A log server; the colon behind the host is overwritten in the string. *)
Definition open_net_fd (spec : bytes) : M (Z * bytes) :=
  match strchr spec 58 with
  | None => mret (-1, spec)
  | Some p =>
      let host := ztake p spec in
      let port := u16 (i32 (strtol10 (zdrop (p + 1) spec))) in
      he ← call (os_gethostbyname host);
      match he with
      | None => mret (-1, host)
      | Some _ =>
          fd ← call (os_boot Socket);
          if fd <? 0 then mret (fd, host)
          else
            r ← call (os_boot (Connect fd host port));
            mret (if r <? 0 then -1 else fd, host)
      end
  end.

(** The descriptor, and what is left of the string. *)
Definition open_gen_fd (spec : bytes) : M (Z * bytes) :=
  match spec with
  | 124 :: command => fd ← open_pipe_fd command; mret (fd, spec)
  | 58 :: net => '(fd, net) ← open_net_fd net; mret (fd, 58 :: net)
  | _ => fd ← call (os_boot (Open_append spec)); mret (fd, spec)
  end.

(** * log.c *)

Definition open_error_log : M unit :=
  g ← srv;
  match error_log_name g with
  | None => mret tt
  | Some name =>
      '(fd, name) ← open_gen_fd name;
      upd_srv (set_error_log_name (Some name)) ;;
      if fd <? 0 then die
      else must (Dup2 fd 2) ;; call_ (os_close fd)
  end.

Definition open_access_log : M unit :=
  g ← srv;
  access_log ←
    match access_log_name g with
    | Some name =>
        '(fd, name) ← open_gen_fd name;
        upd_srv (set_access_log_name (Some name)) ;;
        mret fd
    | None => call (os_boot Open_null)
    end;
  if access_log <? 0 then die
  else
    must (Dup2 access_log 1) ;;
    ok ← call (os_cloexec access_log);
    if negb ok then die else call_ (os_close access_log).

Definition open_cgi_log : M unit :=
  g ← srv;
  match cgi_log_name g with
  | None => mret tt
  | Some name =>
      '(fd, name) ← open_gen_fd name;
      upd_srv (set_cgi_log_name (Some name)) ;;
      upd_srv (set_cgi_log_fd fd) ;;
      if fd =? -1 then upd_srv (set_cgi_log_name None) ;; upd_srv (set_cgi_log_fd 0)
      else
        ok ← call (os_cloexec fd);
        if (ok : bool) then mret tt
        else
          upd_srv (set_cgi_log_name None) ;;
          call_ (os_close fd) ;;
          upd_srv (set_cgi_log_fd 0)
  end.

Definition open_logs : M unit := open_error_log ;; open_access_log ;; open_cgi_log.

(** * boa.c *)

(** One option of the command line, and the debug level. *)
Definition parse_option (c : Z) (optarg : bytes) (level : Z) : M Z :=
  if c =? 99 then
    ok ← call (os_malloc (zlen optarg + 1));
    if negb ok then die else upd_srv (set_server_root (Some optarg)) ;; mret level
  else if c =? 100 then upd_srv (set_do_fork false) ;; mret level
  else if c =? 102 then upd_srv (set_config_file_name (Some optarg)) ;; mret level
  else if c =? 114 then
    r ← call (os_chdir optarg);
    match r with
    | SErr _ => die
    | SOk _ =>
        must (Chroot optarg) ;;
        r ← call (os_chdir (bs "/"));
        match r with SErr _ => die | SOk _ => mret level end
    end
  else if c =? 108 then
    match parse_debug optarg level with None => die | Some l => mret l end
  else die.

Fixpoint parse_commandline (opts : list (Z * bytes)) (level : Z) : M Z :=
  match opts with
  | [] => mret level
  | (c, optarg) :: opts => level ← parse_option c optarg level; parse_commandline opts level
  end.

Definition fixup_server_root : M unit :=
  g ← srv;
  root ←
    match server_root g with
    | Some root => mret root
    | None =>
        ok ← call (os_malloc (zlen SERVER_ROOT + 1));
        if negb ok then die
        else upd_srv (set_server_root (Some SERVER_ROOT)) ;; mret SERVER_ROOT
    end;
  r ← call (os_chdir root);
  match r with SErr _ => die | SOk _ => mret tt end.

(** [bind_server] of ip.c; the text of the address is for inet_aton. *)
Definition bind_server (sock : Z) (ip : option bytes) (port : Z) : M Z :=
  call (os_boot (Bind sock ip (u16 port))).

Definition create_server_socket : M Z :=
  server_s ← call (os_boot Socket);
  if server_s =? -1 then die
  else
    ok ← call (os_nonblock server_s);
    if negb ok then die
    else
      ok ← call (os_cloexec server_s);
      if negb ok then die
      else
        must (Reuseaddr server_s) ;;
        g ← srv;
        r ← bind_server server_s (server_ip g) (server_port g);
        if r =? -1 then die
        else must (Listen server_s (backlog g)) ;; mret server_s.

(** The rights of root are given up for good. *)
Definition drop_privs : M unit :=
  uid ← ask os_getuid;
  g ← srv;
  if uid =? 0 then
    must (Getpwuid (server_uid g)) ;;
    must (Initgroups (server_uid g)) ;;
    must (Setgid (server_gid g)) ;;
    must (Setuid (server_uid g)) ;;
    if negb (server_uid g =? 0) then
      r ← call (os_boot (Setuid 0));
      if r =? -1 then mret tt else die
    else mret tt
  else
    gid ← ask os_getgid;
    upd_srv (set_server_gid gid) ;;
    upd_srv (set_server_uid uid).

(** stdin from /dev/null. *)
Definition null_stdin : M unit :=
  devnullfd ← call (os_boot Open_null);
  if devnullfd =? -1 then die
  else must (Dup2 devnullfd 0) ;; call_ (os_close devnullfd).

Definition write_pid_file (pid : Z) : M unit :=
  g ← srv;
  match pid_file g with
  | None => mret tt
  | Some f => call (os_create f (simple_itoa pid)) ;; mret tt
  end.

(** The server goes to the background: the parent writes the file and exits. *)
Definition background : M unit :=
  g ← srv;
  pid ← (if do_fork g then call os_fork else pid ← call (os_boot Getpid); mret (SOk pid));
  match pid with
  | SErr _ => die
  | SOk 0 => mret tt
  | SOk pid =>
      write_pid_file pid ;;
      g ← srv;
      if do_fork g then die else mret tt
  end.

(** [loop] before its first turn. *)
Definition loop_start : M unit :=
  upd_srv (set_block_read_fdset ∅) ;;
  upd_srv (set_block_write_fdset ∅) ;;
  upd_srv (set_max_fd (-1)).

(** What the configuration needs. *)
Definition boot_config (opts : list (Z * bytes)) : M unit :=
  call (os_boot (Umask 63)) ;;
  now ← call os_time;
  upd_srv (set_current_time now) ;;
  null_stdin ;;
  parse_commandline opts 0 ;;
  fixup_server_root ;;
  read_config_files.

(** And what is built from it, while the rights are those of the caller. *)
Definition boot_setup : M Z :=
  create_common_env ;;
  g ← srv;
  (if cgi_strip_prefix g then cgi_strip_init else mret tt) ;;
  open_logs ;;
  server_s ← create_server_socket;
  init_signals ;;
  tab ← checked build_needs_escape;
  upd_srv (set_needs_escape_tab tab) ;;
  background ;;
  mret server_s.

Definition main (opts : list (Z * bytes)) : M Z :=
  boot_config opts ;;
  server_s ← boot_setup;
  drop_privs ;;
  upd_srv (fun g => set_start_time (current_time g)
                      (set_status_errors 0 (set_status_requests 0 g))) ;;
  loop_start ;;
  mret server_s.
End boot.
