(* ===== verification/BootProps.v ===== *)
(** The start of the server: the rights of root are given up before the first turn of
    the loop, the loop starts from a complete configuration and empty queues, and
    what becomes of the CGIEnv lines of the configuration file. *)

From S2P Require Import Prelude Types Machine ScriptOS Escape Buffer Util CgiHeader Cgi.
From S2P Require Import Config Frame ConfigProps Queue QueueProps Select Pool MainLoop.
From S2P Require Import Signals Boot.

Section boot.
Context {os : OS}.

(** ** The variables of a script that all scripts share *)

Definition common_env (g : server) : list (option bytes) :=
  Some <$> [bs "PATH=" ++ default DEFAULT_PATH (cgi_path g);
            bs "SERVER_SOFTWARE=" ++ SERVER_VERSION;
            bs "SERVER_NAME=" ++ server_name g;
            bs "GATEWAY_INTERFACE=" ++ CGI_VERSION;
            bs "SERVER_PORT=" ++ simple_itoa (server_port g);
            bs "LD_LIBRARY_PATH=" ++ default DEFAULT_LD_LIBRARY_PATH (cgi_ld_library_path g);
            bs "SERVER_ADMIN=" ++ default [] (server_admin g)].

Lemma env_gen_extra_ok key value n s :
  wlp (env_gen_extra key value n) (fun e s' => sv s' = sv s /\
    (e = None \/ e = Some (key ++ [61] ++ default [] value))) s.
Proof.
  unfold env_gen_extra. wlps. intros ok w. wlps. split; [done|]. destruct ok; auto.
Qed.

(** What [main] hands to the loop. *)
Record ready (g : server) : Prop := {
  rd_config : config_ok g;
  rd_env : common_cgi_env g = common_env g ++ [None];
  rd_count : common_cgi_env_count g = COMMON_CGI_COUNT
}.

Lemma create_common_env_ready s :
  config_ok (sv s) -> wlp create_common_env (fun _ s' => ready (sv s')) s.
Proof.
  intros H. unfold create_common_env. wlps. intros ok w. destruct ok; [cbn [negb]|done].
  do 7 (apply wlp_bind; eapply wlp_mono; [apply env_gen_extra_ok|];
        let E := fresh "E" in intros ? ? [E ?]; cbn [rq sv wd] in E).
  wlps. change (negb _) with false. cbv iota.
  repeat match goal with
  | He : ?e = None \/ _ |- _ => destruct He as [-> | ->]; [done|]
  end.
  wlps.
  repeat match goal with E : sv ?x = _ |- context [sv ?x] => rewrite E; clear E end.
  split; [by destruct H|done|done].
Qed.

Lemma stable_add_token t : stable ready (cgi_strip_add_token t).
Proof. stable. intros g [[] ? ?]. by repeat split. Qed.

Lemma stable_strip_init : stable ready cgi_strip_init.
Proof.
  unfold cgi_strip_init. induction cgi_strip_builtin as [|t l IH]; simpl; [by intros ? ?|].
  apply stable_bind; [apply stable_add_token|]. by intros ?.
Qed.

Lemma stable_set_handlers P l : stable P (set_handlers l).
Proof. induction l as [|p l IH]; simpl; [by intros ? ?|]. apply stable_bind; [stable|by intros ?]. Qed.

Lemma stable_open_gen_fd P spec : stable P (open_gen_fd spec).
Proof. stable. Qed.

Lemma stable_open_logs : stable ready open_logs.
Proof.
  unfold open_logs, open_error_log, open_access_log, open_cgi_log.
  repeat first [apply stable_open_gen_fd|stable_step]; by intros g [[] ? ?]; repeat split.
Qed.

Lemma stable_create_server_socket P : stable P create_server_socket.
Proof. stable. Qed.

Lemma stable_background P : stable P background.
Proof. stable. Qed.

(** The table of characters is built last. *)
Definition set_up (g : server) : Prop :=
  ready g /\ build_needs_escape = Some (needs_escape_tab g).

Lemma boot_setup_ready s :
  config_ok (sv s) -> wlp boot_setup (fun _ s' => set_up (sv s')) s.
Proof.
  intros H. unfold boot_setup. apply wlp_bind.
  eapply wlp_mono; [by apply create_common_env_ready|]. intros ? s1 H1.
  wlps. apply (stable_then ready); [|done|].
  { destruct (cgi_strip_prefix (sv s1)); [apply stable_strip_init|by intros ? ?]. }
  clear H1. intros ? s2 H2. apply (stable_then ready); [apply stable_open_logs|done|].
  clear H2. intros ? s3 H3. apply (stable_then ready); [apply stable_create_server_socket|done|].
  clear H3. intros sock s4 H4. apply (stable_then ready); [apply stable_set_handlers|done|].
  clear H4. intros ? s4' H4. wlps. intros tab Et. wlps.
  apply (stable_then set_up); [apply stable_background| |].
  { split; [|exact Et]. destruct H4 as [[] ? ?]. by repeat split. }
  intros ? s5 H5. exact H5.
Qed.

(** ** Giving up the rights of root *)

Context `{!OSLaws os}.

(** What [drop_privs] leaves of the globals. *)
Definition same_but_ids (g g' : server) : Prop :=
  g' = set_server_uid (server_uid g') (set_server_gid (server_gid g') g).

Lemma must_inv c (Q : unit -> St -> Prop) s :
  (forall r w, os_boot c (wd s) = (r, w) -> r <> -1 -> Q tt (mkSt (rq s) (sv s) w)) ->
  wlp (must c) Q s.
Proof.
  intros H. unfold must, wlp, mbind, M_bind, call.
  destruct (os_boot c (wd s)) as [r w] eqn:E. destruct (Z.eqb_spec r (-1)); [done|]. by apply (H r).
Qed.

(** The process runs as the user and the group of the variables, and a process of
    root that was given another user cannot return. *)
Lemma drop_privs_wlp s :
  wlp drop_privs (fun _ s' =>
    os_getuid (wd s') = server_uid (sv s') /\ os_getgid (wd s') = server_gid (sv s') /\
    same_but_ids (sv s) (sv s') /\
    (os_getuid (wd s) = 0 -> sv s' = sv s)) s.
Proof.
  unfold drop_privs. wlps. destruct (Z.eqb_spec (os_getuid (wd s)) 0) as [E0|E0].
  2:{ wlps. repeat split. done. }
  apply wlp_bind, must_inv. intros r1 w1 E1 _. cbn [rq sv wd] in *.
  apply (groups_ids _ (server_uid (sv s))) in E1 as [U1 G1]; [|by left].
  apply wlp_bind, must_inv. intros r2 w2 E2 _. cbn [rq sv wd] in *.
  apply (groups_ids _ (server_uid (sv s))) in E2 as [U2 G2]; [|by right].
  apply wlp_bind, must_inv. intros r3 w3 E3 N3. cbn [rq sv wd] in *.
  apply setgid_root in E3 as [G3 U3]; [|congruence..].
  apply wlp_bind, must_inv. intros r4 w4 E4 N4. cbn [rq sv wd] in *.
  apply setuid_root in E4 as [U4 G4]; [|congruence..].
  assert (Hsame : same_but_ids (sv s) (sv s)) by (unfold same_but_ids; by destruct (sv s)).
  destruct (negb (server_uid (sv s) =? 0)).
  2:{ wlps. split_and!; [congruence|congruence|done|done]. }
  apply wlp_bind, wlp_call_eq. intros r w E5. destruct (Z.eqb_spec r (-1)) as [->|]; [|done].
  apply setuid_fails in E5 as [U5 G5]. cbn [rq sv wd] in *.
  wlps. split_and!; [congruence|congruence|done|done].
Qed.

(** ** main *)

Lemma keeps_open_gen_fd spec : keeps (open_gen_fd spec).
Proof. keeps. Qed.
#[local] Hint Resolve keeps_open_gen_fd keeps_read_config_files : keeps.

Lemma keeps_boot_config opts : keeps (boot_config opts).
Proof.
  assert (keeps_parse_commandline : forall l, keeps (parse_commandline opts l)).
  { induction opts as [|[c a] l IH]; intros level; simpl; [keeps|].
    apply keeps_bind; [keeps|intros ?; apply IH]. }
  keeps.
Qed.

Lemma keeps_add_token t : keeps (cgi_strip_add_token t).
Proof. keeps. Qed.
#[local] Hint Resolve keeps_add_token : keeps.

Lemma keeps_strip_init : keeps cgi_strip_init.
Proof.
  unfold cgi_strip_init. induction cgi_strip_builtin as [|t l IH]; simpl; [keeps|].
  apply keeps_bind; [keeps|done].
Qed.
#[local] Hint Resolve keeps_strip_init : keeps.

#[local] Hint Resolve keeps_set_handlers : keeps.

Lemma keeps_boot_setup : keeps boot_setup.
Proof. keeps. Qed.
#[local] Hint Resolve keeps_boot_config keeps_boot_setup : keeps.

Lemma keeps_main opts : keeps (main opts).
Proof. keeps. Qed.

Lemma initial_conns g : queue_view g = queue_view initial_server -> conns g [] [] [].
Proof.
  intros V. eapply conns_view; [exact V|]. split; [|done].
  split; auto using dlist_nil; [constructor|..]; intros p;
    change (heap initial_server) with (∅ : heap_t); rewrite lookup_empty.
  - split; [by intros []|set_solver].
  - by intros [].
Qed.

(** The state in which the loop takes its first turn. *)
Record started (s : St) : Prop := {
  sd_set_up : set_up (sv s);
  sd_uid : os_getuid (wd s) = server_uid (sv s);
  sd_gid : os_getgid (wd s) = server_gid (sv s);
  sd_conns : conns (sv s) [] [] [];
  sd_sets : block_read_fdset (sv s) = ∅ /\ block_write_fdset (sv s) = ∅
}.

Lemma main_wlp opts s : sv s = initial_server -> wlp (main opts) (fun _ => started) s.
Proof.
  intros E0. assert (W : wlp (main opts) (fun _ s' => set_up (sv s') /\
    os_getuid (wd s') = server_uid (sv s') /\ os_getgid (wd s') = server_gid (sv s') /\
    block_read_fdset (sv s') = ∅ /\ block_write_fdset (sv s') = ∅) s).
  { unfold main. apply wlp_bind. eapply (wlp_mono _ (fun _ s' => config_ok (sv s'))).
    { unfold boot_config. do 6 (apply wlp_never; intros ? ?). apply read_config_files_wlp. }
    intros ? s1 H1. apply wlp_bind. eapply wlp_mono; [by apply boot_setup_ready|].
    intros sock s2 H2. apply wlp_bind. eapply wlp_mono; [apply drop_privs_wlp|].
    intros ? s3 (U & G & E & _). unfold loop_start. wlps. apply wlp_bind. wlps.
    split_and!; try done. cbn [rq sv wd] in *. rewrite E. destruct H2 as [[[] ? ?] ?].
    by repeat split. }
  pose proof (keeps_main opts s) as K. unfold wlp in *.
  destruct (main opts s) as [sock s'| |]; [|done..].
  destruct W as (H & U & G & F), K as [K _]. rewrite E0 in K.
  split; [done|done|done|by apply initial_conns|done].
Qed.

(** ** The claims *)

(** C1: from the start of the program on, with any command line and any
    configuration file, no request is ever lost: when [main] reached the loop, after
    any number of turns of the loop, signals and outside events, every request
    structure is in exactly one of the three queues, the queues are well-formed
    linked lists, and [total_connections] counts the ready and the blocked ones. *)
Theorem requests_never_lost opts s0 sock1 s1 sock s :
  sv s0 = initial_server -> main opts s0 = Ret sock1 s1 ->
  rtc event (sock1, s1) (sock, s) ->
  exists lr lb lf, conns (sv s) lr lb lf.
Proof.
  intros E0 Em R. pose proof (main_wlp opts s0 E0) as W. unfold wlp in W. rewrite Em in W.
  apply (run_in_order _ _ R). exists [], [], []. apply W.
Qed.

(** C8: when [drop_privs] returns, the process runs as the user and the group
    of the configuration (or, if it was not started by root, the variables say whom
    it runs as): the groups and the group are given up before the user, and that the
    way back is closed was tried. *)
Theorem drop_privs_correct s s' :
  drop_privs s = Ret tt s' ->
  os_getuid (wd s') = server_uid (sv s') /\ os_getgid (wd s') = server_gid (sv s') /\
  (os_getuid (wd s) = 0 -> sv s' = sv s) /\ same_but_ids (sv s) (sv s').
Proof.
  intros E. pose proof (drop_privs_wlp s) as W. unfold wlp in W. rewrite E in W. tauto.
Qed.

(** C18: the loop starts with an accepted configuration, the table of
    characters, empty queues and descriptor sets, and as the configured user. *)
Theorem main_started opts s sock s' :
  sv s = initial_server -> main opts s = Ret sock s' -> started s'.
Proof.
  intros E0 Em. pose proof (main_wlp opts s E0) as W. unfold wlp in W. by rewrite Em in W.
Qed.
End boot.

(** * Instances *)

(** Root starts the server with a user, a script variable and a connection that
    waits. *)
Definition boot_lines : bytes :=
  bs "Port 80
User 33
Group 34
DefaultType text/plain
CGIEnv FOO bar
".

Definition boot_state : St :=
  mkSt test_request initial_server
    (mkScript [mkFile (bs "boa.conf") no_stat boot_lines] [] 100 [] [] [] 0 []
       [(9, mkSockaddr [10; 0; 0; 9] (19, 136))] [] 0 0).

Definition boot_options : list (Z * bytes) := [(99, bs "/etc/boa"); (100, [])].

Definition ids_and_env (_ : Z) (s : St) : Z * Z * Z :=
  (server_uid (sv s), server_gid (sv s), common_cgi_env_count (sv s)).

Lemma boot_run : seen ids_and_env (main boot_options boot_state) = Some (33, 34, 7).
Proof. vm_compute. reflexivity. Qed.

Lemma boot_runs : exists sock s, main boot_options boot_state = Ret sock s /\
  server_uid (sv s) = 33 /\ server_gid (sv s) = 34 /\ common_cgi_env_count (sv s) = 7.
Proof.
  destruct (seen_Ret _ _ _ boot_run) as (sock & s & E & F).
  injection F as F1 F2 F3. exists sock, s. exact (conj E (conj F1 (conj F2 F3))).
Qed.

Definition connections (_ : Z) (s : St) : Z := total_connections (sv s).

Lemma boot_turn :
  seen connections ((main boot_options ≫= loop_once) boot_state) = Some 1.
Proof. vm_compute. reflexivity. Qed.

Lemma main_started_witness : exists sock s,
  main boot_options boot_state = Ret sock s /\ started s /\ server_uid (sv s) = 33.
Proof.
  destruct boot_runs as (sock & s & E & U & _). exists sock, s. split; [exact E|].
  split; [exact (main_started boot_options boot_state sock s eq_refl E)|exact U].
Defined.

Lemma requests_never_lost_witness : exists sock1 s1 sock s lr lb lf,
  main boot_options boot_state = Ret sock1 s1 /\ rtc event (sock1, s1) (sock, s) /\
  conns (sv s) lr lb lf /\ total_connections (sv s) = 1.
Proof.
  destruct (seen_bind _ _ _ _ _ boot_turn) as (sock1 & s1 & sock & s & Em & E & T).
  assert (R : rtc event (sock1, s1) (sock, s)) by (by apply rtc_once, event_turn).
  destruct (requests_never_lost boot_options boot_state sock1 s1 sock s eq_refl Em R)
    as (lr & lb & lf & H).
  exists sock1, s1, sock, s, lr, lb, lf.
  exact (conj Em (conj R (conj H T))).
Defined.

Definition privs_state : St :=
  mkSt test_request (set_server_uid 33 (set_server_gid 34 test_server))
    (set_uid 0 (set_gid 0 empty_world)).

Lemma drop_privs_correct_witness : exists s,
  drop_privs privs_state = Ret tt s /\ os_getuid (wd s) = 33 /\ os_getgid (wd s) = 34.
Proof.
  destruct (drop_privs privs_state) as [[] s| |] eqn:E; [|vm_compute in E; discriminate..].
  exists s. split; [done|].
  destruct (drop_privs_correct _ _ E) as (U & G & H & _). rewrite U, G, H by done. done.
Defined.
