(* ===== verification/ChildProps.v ===== *)
(** What the child of [init_cgi] executes. *)

From S2P Require Import Prelude Types Machine ScriptOS Util Response Alias Pointer.
From S2P Require Import Signals Cgi.
From S2P Require Import Frame.

(** The position that [strrchr] finds splits the string before a part without the
    character. *)
Lemma strrchr_None l c : strrchr l c = None -> c ∉ l.
Proof.
  induction l as [|x l IH]; simpl; [set_solver|].
  destruct (strrchr l c); [done|]. destruct (Z.eqb_spec x c); [done|]. set_solver.
Qed.

Lemma strrchr_Some l c i :
  strrchr l c = Some i -> exists a b, l = a ++ c :: b /\ i = zlen a /\ c ∉ b.
Proof.
  revert i. induction l as [|x l IH]; intros i; simpl; [done|].
  destruct (strrchr l c) as [k|] eqn:E.
  - intros [= <-]. destruct (IH _ eq_refl) as (a & b & -> & -> & Hb).
    exists (x :: a), b. split; [done|]. split; [by rewrite zlen_cons|done].
  - destruct (Z.eqb_spec x c) as [->|]; [|done]. intros [= <-].
    exists [], l. split; [done|]. split; [done|by apply strrchr_None].
Qed.

(** The words of a query fit the array of arguments, with its NULL. *)
Lemma argv_loop_bound fuel q n :
  zlen (argv_loop fuel q n) <= Z.max 0 (CGI_ARGC_MAX - n).
Proof.
  revert q n. induction fuel as [|fuel IH]; intros q n; cbn [argv_loop]; [rewrite zlen_nil; lia|].
  destruct (Z.ltb_spec n CGI_ARGC_MAX); [|rewrite zlen_nil; lia].
  destruct (match strchr q 43 with Some k => _ | None => _ end) as [r rest].
  destruct (unescape_uri r) as [[word ok] x].
  assert (H1 : forall m, n <= m -> zlen (match rest with Some q' => argv_loop fuel q' m | None => [] end)
    <= Z.max 0 (CGI_ARGC_MAX - m)).
  { intros m Hm. destruct rest as [q'|]; [apply IH|rewrite zlen_nil; lia]. }
  destruct ok; [|by apply H1]. rewrite zlen_cons. specialize (H1 (n + 1)). lia.
Qed.

Section child.
Context {os : OS}.

Lemma same_request_handlers l : same_request (set_handlers l).
Proof.
  induction l as [|p l IH]; simpl; [by intros ?|]. apply same_request_bind; [|by intros ?].
  apply same_request_call.
Qed.

Lemma same_request_must c : same_request (must c).
Proof.
  apply same_request_bind; [apply same_request_call|]. intros ok s. by destruct (ok =? -1).
Qed.

Lemma same_request_stdout pipes : same_request (tie_stdout pipes).
Proof.
  destruct pipes as [[p0 p1]|]; (apply same_request_bind; [by intros ?|]; intros ?;
    apply same_request_bind; [apply same_request_must|by intros ? ?]).
Qed.

Lemma same_request_stdin : same_request tie_stdin.
Proof.
  apply same_request_bind; [by intros ?|]. intros r. case_bool_decide; [|by intros ?].
  repeat (apply same_request_bind; [apply same_request_call|intros ?]). by intros ?.
Qed.

Lemma same_request_stderr : same_request tie_stderr.
Proof.
  apply same_request_bind; [by intros ?|]. intros g. destruct (_ =? 0); [by intros ?|].
  apply same_request_bind; [apply same_request_call|by intros ? ?].
Qed.

(** The directory is entered, and the script is named in it. *)
Lemma enter_directory_wlp path s :
  pathname (rq s) = Some path ->
  wlp enter_directory (fun _ s' => exists dir name w w',
    path = dir ++ 47 :: name /\ 47 ∉ name /\ os_chdir dir w = (SOk tt, w') /\
    rq s' = set_pathname (Some (bs "./" ++ name)) (rq s)) s.
Proof.
  intros Hp. unfold enter_directory. wlps. intros p E. rewrite Hp in E. injection E as <-.
  destruct (strrchr path 47) as [c|] eqn:Ec; [|done].
  apply strrchr_Some in Ec as (dir & name & -> & -> & Hn).
  rewrite ztake_app_exact by done.
  apply wlp_bind, wlp_call_eq. intros r w' E. destruct r as [[]|]; [|done].
  wlps. intros ok w2. destruct ok; [|done]. cbn [negb].
  exists dir, name, (wd s), w'. split; [done|]. split; [done|]. split; [done|].
  replace (zdrop (zlen dir + 1) (dir ++ 47 :: name)) with name; [done|].
  rewrite cons_middle, app_assoc. symmetry. apply zdrop_app_exact. by rewrite zlen_app.
Qed.

Lemma create_argv_wlp path s :
  pathname (rq s) = Some path ->
  wlp create_argv (fun argv s' => rq s' = rq s /\ head argv = Some path /\
    zlen argv <= CGI_ARGC_MAX) s.
Proof.
  intros Hp. unfold create_argv. wlps. intros p E. rewrite Hp in E. injection E as <-.
  assert (Hone : zlen [path] <= CGI_ARGC_MAX) by done.
  assert (Hmany : forall q, wlp (match strchr q 61 with
      | Some _ => mret [path]
      | None => ok ← call (os_malloc (zlen q + 1));
                if negb ok then die else mret (path :: argv_loop (S (length q)) q 1)
      end) (fun argv s' => rq s' = rq s /\ head argv = Some path /\ zlen argv <= CGI_ARGC_MAX) s).
  { intros q. destruct (strchr q 61); wlps; [done|]. intros ok w. destruct ok; [|done].
    cbn [negb]. wlps. split; [done|]. split; [done|]. rewrite zlen_cons.
    pose proof (argv_loop_bound (S (length q)) q 1). unfold CGI_ARGC_MAX in *. lia. }
  destruct (query_string (rq s)); [wlps; done|..];
    (unfold pstr; apply wlp_bind; wlps; apply wlp_checked; intros q _; apply Hmany).
Qed.

(** C9: the child that runs a script does so in the directory of the script,
    under the name it has there, so that no search path is used; the environment is
    the one that was built for the request, and the arguments, of which the name is
    the first, fit their array. *)
Theorem cgi_child_execs pipes path s e s' :
  pathname (rq s) = Some path -> cgi_type (rq s) = CGI \/ cgi_type (rq s) = NPH ->
  cgi_child pipes s = Ret e s' ->
  exists dir name w w', path = dir ++ 47 :: name /\ 47 ∉ name /\
    os_chdir dir w = (SOk tt, w') /\
    exec_path e = bs "./" ++ name /\ head (exec_argv e) = Some (exec_path e) /\
    zlen (exec_argv e) <= CGI_ARGC_MAX /\ exec_envp e = Some (cgi_env (rq s)).
Proof.
  intros Hp Ht E.
  cut (wlp (cgi_child pipes) (fun e _ => exists dir name w w', path = dir ++ 47 :: name /\
    47 ∉ name /\ os_chdir dir w = (SOk tt, w') /\
    exec_path e = bs "./" ++ name /\ head (exec_argv e) = Some (exec_path e) /\
    zlen (exec_argv e) <= CGI_ARGC_MAX /\ exec_envp e = Some (cgi_env (rq s))) s).
  { unfold wlp. by rewrite E. }
  clear E. unfold cgi_child.
  apply same_request_then; [apply same_request_handlers|]. intros ? s0 E0. wlps. rewrite E0.
  replace (_ || _) with true by (by destruct Ht as [-> | ->]). apply wlp_bind.
  eapply wlp_mono; [apply (enter_directory_wlp path); by rewrite E0|].
  intros ? s1 (dir & name & w & w' & -> & Hn & Hc & E1). cbn [rq] in E1.
  apply same_request_then; [apply same_request_stdout|]. intros ? s2 E2.
  apply same_request_then; [apply same_request_must|]. intros ? s3 E3.
  apply same_request_then; [apply same_request_stdin|]. intros ? s4 E4.
  wlps. intros x2 w2.
  apply same_request_then; [apply same_request_stderr|]. intros ? s5 E5. cbn [rq] in E5.
  assert (Er : rq s5 = set_pathname (Some (bs "./" ++ name)) (rq s)) by congruence.
  unfold cgi_exec. wlps. intros p Ep. rewrite Er in Ep |- *. injection Ep as <-.
  change (cgi_type (set_pathname _ _)) with (cgi_type (rq s)).
  rewrite bool_decide_false by (by destruct Ht as [-> | ->]).
  apply wlp_bind. eapply wlp_mono; [apply (create_argv_wlp (bs "./" ++ name)); by rewrite Er|].
  intros argv s6 (_ & Hh & Hb). wlps. by exists dir, name, w, w'.
Qed.
End child.

(** A script with an index query. *)
Definition child_state : St :=
  mkSt (set_cgi_type CGI (set_pathname (Some (bs "/cgi/bin/prog"))
          (set_query_string (Puri 3)
             (set_request_uri (bs "/p" ++ [0] ++ bs "a+b" ++ zeros 100) test_request))))
    test_server empty_world.

Lemma cgi_child_execs_witness : exists e s,
  cgi_child (Some (5, 6)) child_state = Ret e s /\
  exec_path e = bs "./prog" /\ exec_argv e = [bs "./prog"; bs "a"; bs "b"] /\
  exec_envp e = Some (cgi_env (rq child_state)).
Proof.
  destruct (cgi_child (Some (5, 6)) child_state) as [e s| |] eqn:E;
    [|vm_compute in E; discriminate..].
  exists e, s. split; [done|].
  destruct (cgi_child_execs (Some (5, 6)) (bs "/cgi/bin/prog") child_state e s eq_refl
              ltac:(by left) E) as (dir & name & w & w' & _ & _ & _ & _ & _ & _ & Ee).
  split_and!; [by vm_compute in E; injection E as <- _..|exact Ee].
Defined.
