(* ===== verification/IndexDir.v ===== *)
(** index_dir.c: the program that prints the listing of a directory.  It is a process
    of its own: its functions return the text they print.  The names go through
    local arrays whose sizes are part of the model: a text that does not fit is
    [Undef]. *)

From S2P Require Import Prelude Types Machine Escape Util Dates Log.

Definition MAXNAMLEN : Z := 255.
Definition MAX_FILE_LENGTH : Z := MAXNAMLEN.

(** [INT_TO_HEX] of this file: in upper case. *)
Definition index_hex (x : Z) : Z := if 0 <=? x - 10 then 65 + (x - 10) else 48 + x.

(** The characters [html_escape_string] writes for one. *)
Definition index_html_char (c : Z) : bytes :=
  if c =? 62 then bs "&gt;"
  else if c =? 60 then bs "&lt;"
  else if c =? 38 then bs "&amp;"
  else if c =? 34 then bs "&quot;"
  else [c].

Definition html_escape_string (inp : bytes) : bytes := flat_map index_html_char inp.

(** The loop of [http_escape_string]; [buf] is what was written, [found] whether a
    colon was seen: the first one that is not at the start puts "./" in front. *)
Fixpoint http_escape_loop (tab : list Z) (inp buf : bytes) (found : bool) : bytes :=
  match inp with
  | [] => buf
  | c :: inp' =>
      if (c =? 58) && negb found && (0 <? zlen buf) then
        http_escape_loop tab inp' (bs "./" ++ buf ++ [58]) true
      else if needs_escape tab c || (c =? 63) then
        http_escape_loop tab inp'
          (buf ++ [37; index_hex (Z.land (Z.shiftr c 4) 15); index_hex (Z.land c 15)]) found
      else http_escape_loop tab inp' (buf ++ [c]) found
  end.

Definition http_escape_string (tab : list Z) (inp : bytes) : bytes :=
  http_escape_loop tab inp [] false.

(** A text that is put into an array of [n] bytes, with its NUL. *)
Definition fits (n : Z) (l : bytes) : option bytes := if zlen l <? n then Some l else None.

Definition send_error (error : Z) : bytes :=
  let the_error :=
    if error =? 1 then bs "Not enough arguments were passed to the indexer."
    else if error =? 2 then bs "The Directory Sorter ran out of Memory"
    else if error =? 3 then bs "The was a problem changing to the appropriate directory."
    else if (error =? 4) || (error =? 5) then bs "Too many arguments were passed to the indexer."
    else if error =? 6 then bs "No files in this directory."
    else bs "An unknown error occurred producing the directory." in
  bs "<html>" ++ LF ++ bs "<head>" ++ LF ++ bs "<title>" ++ LF ++ the_error ++ LF
  ++ bs "</title>" ++ LF ++ bs "<body>" ++ LF ++ the_error ++ LF
  ++ bs "</body>" ++ LF ++ bs "</html>" ++ LF.

Definition select_files (name : bytes) : bool :=
  match name with 46 :: _ => false | _ => true end.

(** [strcmp (a, b) <= 0], which alphasort is in the C locale. *)
Fixpoint name_le (a b : bytes) : bool :=
  match a, b with
  | [], _ => true
  | _ :: _, [] => false
  | x :: a', y :: b' => (x <? y) || ((x =? y) && name_le a' b')
  end.

(** [qsort] with alphasort. *)
Fixpoint insert_name (n : bytes) (l : list bytes) : list bytes :=
  match l with
  | [] => [n]
  | m :: l' => if name_le n m then n :: l else m :: insert_name n l'
  end.

Definition sort_names (l : list bytes) : list bytes := foldr insert_name [] l.

(** [asctime] of the C library. *)
Definition asctime (t : tm) : bytes :=
  ztake 3 (zdrop (4 * tm_wday t) day_tab) ++ [32]
  ++ ztake 3 (zdrop (4 * tm_mon t) month_tab)
  ++ (if tm_mday t <? 10 then [32; 32; 48 + tm_mday t] else 32 :: two (tm_mday t))
  ++ [32] ++ two (tm_hour t) ++ [58] ++ two (tm_min t) ++ [58] ++ two (tm_sec t)
  ++ [32] ++ print_long (1900 + tm_year t) ++ LF.

(** * The rows *)

Definition row_start : bytes := bs "<tr><td width=" ++ DQ ++ bs "40%" ++ DQ ++ bs "><a href=" ++ DQ.

Definition row_end (time : bytes) (size : Z) : bytes :=
  bs "<td align=right>" ++ time ++ bs "</td><td align=right>" ++ print_long size
  ++ bs " bytes</td></tr>" ++ LF.

Definition directory_row (href name time : bytes) (size : Z) : bytes :=
  row_start ++ href ++ bs "/" ++ DQ ++ bs ">" ++ name ++ bs "/</a></td>" ++ row_end time size.

Definition file_row (href name time : bytes) (size : Z) : bytes :=
  row_start ++ href ++ DQ ++ bs ">" ++ name ++ bs "</a></td>" ++ row_end time size.

Definition gunzip_row (href name packed time : bytes) (size : Z) : bytes :=
  row_start ++ href ++ DQ ++ bs ">" ++ name ++ bs "</a> <a href=" ++ DQ ++ packed
  ++ bs ".gz" ++ DQ ++ bs ">(.gz)</a></td>" ++ row_end time size.

Definition page_start (title : bytes) (root : bool) : bytes :=
  bs "<html>" ++ LF ++ bs "<head>" ++ LF ++ bs "<title>Index of " ++ title
  ++ bs "</title>" ++ LF ++ bs "</head>" ++ LF ++ LF
  ++ bs "<body bgcolor=" ++ DQ ++ bs "#ffffff" ++ DQ ++ bs ">" ++ LF
  ++ bs "<H2>Index of " ++ title ++ bs "</H2>" ++ LF ++ bs "<table>" ++ LF
  ++ (if root then []
      else bs "<tr><td colspan=3><h3>Directories</h3></td></tr><tr><td colspan=3><a href="
           ++ DQ ++ bs "../" ++ DQ ++ bs ">Parent Directory</a></td></tr>" ++ LF).

Definition files_start : bytes :=
  bs "<tr><td colspan=3>&nbsp;</td></tr>" ++ LF
  ++ bs "<tr><td colspan=3><h3>Files</h3></td></tr>" ++ LF.

Definition page_end (now : bytes) : bytes :=
  bs "</table>" ++ LF ++ bs "<hr noshade>" ++ LF ++ bs "Index generated " ++ now ++ bs " UTC"
  ++ LF ++ bs "<!-- This program is part of the YABWF project -->" ++ LF
  ++ bs "</body>" ++ LF ++ bs "</html>" ++ LF.

(** The length of a name with its ending .gz. *)
Definition ends_gz (l : bytes) : bool :=
  (3 <? zlen l) && streq (zdrop (zlen l - 3) l) (bs ".gz").

Section indexer.
Context {os : OS}.

(** One turn of the first loop, which prints the directories. *)
Definition list_directory (tab : list Z) (name : bytes) : M bytes :=
  st ← call (os_stat name);
  match st with
  | None => mret []
  | Some st =>
      if negb (bool_decide (st_mode st = S_DIR)) then mret []
      else
        html_filename ← checked (fits (MAX_FILE_LENGTH * 6) (html_escape_string name));
        http_filename ← checked (fits (MAX_FILE_LENGTH * 3) (http_escape_string tab name));
        escaped ← checked (fits (MAX_FILE_LENGTH * 18) (html_escape_string http_filename));
        time ← ask (os_ctime (st_mtime st));
        mret (directory_row escaped html_filename time (st_size st))
  end.

(** And of the second one, which prints the other files. *)
Definition list_file (tab : list Z) (name : bytes) : M bytes :=
  st ← call (os_stat name);
  match st with
  | None => mret []
  | Some st =>
      if bool_decide (st_mode st = S_DIR) then mret []
      else
        html_filename ← checked (fits (MAX_FILE_LENGTH * 6) (html_escape_string name));
        http_filename ← checked (fits (MAX_FILE_LENGTH * 3) (http_escape_string tab name));
        time ← ask (os_ctime (st_mtime st));
        if ends_gz http_filename then
          let http_filename := ztake (zlen http_filename - 3) http_filename in
          let html_filename := ztake (zlen html_filename - 3) html_filename in
          escaped ← checked (fits (MAX_FILE_LENGTH * 18) (html_escape_string http_filename));
          mret (gunzip_row escaped html_filename http_filename time (st_size st))
        else
          escaped ← checked (fits (MAX_FILE_LENGTH * 18) (html_escape_string http_filename));
          mret (file_row escaped html_filename time (st_size st))
  end.

Fixpoint list_all (one : bytes -> M bytes) (names : list bytes) : M bytes :=
  match names with
  | [] => mret []
  | n :: names => row ← one n; rows ← list_all one names; mret (row ++ rows)
  end.

(** The text, and whether it is complete. *)
Definition index_directory (tab : list Z) (dir title : bytes) : M (bytes * bool) :=
  ok ← call (os_chdir dir);
  match ok with
  | SErr _ => mret (send_error 3, false)
  | SOk _ =>
      names ← call (os_readdir (bs "."));
      match names with
      | None => mret (send_error 2, false)
      | Some names =>
          let array := sort_names (List.filter select_files names) in
          html_filename ← checked (fits (MAX_FILE_LENGTH * 6) (html_escape_string title));
          dirs ← list_all (list_directory tab) array;
          others ← list_all (list_file tab) array;
          mret (page_start html_filename (streq title (bs "/")) ++ dirs ++ files_start ++ others,
                true)
      end
  end.

(** [argv]: with the name of the program.  The result is what is printed and the
    exit status. *)
Definition index_main (argv : list bytes) : M (bytes * Z) :=
  match argv with
  | [] | [_] | [_; _] => mret (send_error 1, -1)
  | [_; dir; title] =>
      tab ← checked build_needs_escape;
      '(page, _) ← index_directory tab dir title;
      timep ← call os_time;
      let text := asctime (gmtime timep) in
      ok ← call (os_malloc (zlen text + 1));
      if negb ok then mret (page, -1)
      else mret (page ++ page_end (ztake (zlen text - 1) text), 0)
  | _ => mret (send_error 5, -1)
  end.
End indexer.
