(* ===== verification/IndexProps.v ===== *)
(** The directory listing: the links it prints lead back to the files, which names
    and titles fit its arrays, and what it prints for a directory. *)

From Stdlib Require Import Sorting.Sorted.
From S2P Require Import Prelude Types Machine ScriptOS Escape Util UtilProofs Dates Log.
From S2P Require Import IndexDir.

(** * Names in links *)

(** What is printed for one character, but for the first colon. *)
Definition index_char (tab : list Z) (c : Z) : bytes :=
  if needs_escape tab c || (c =? 63)
  then [37; index_hex (Z.land (Z.shiftr c 4) 15); index_hex (Z.land c 15)] else [c].

(** A colon behind the first character. *)
Definition late_colon (name : bytes) : bool := bool_decide (58 ∈ tail name).

Definition dot_slash (name : bytes) : bytes := if late_colon name then bs "./" else [].

Lemma index_char_colon tab : escape_table_ok tab -> index_char tab 58 = [58].
Proof. intros Ht. unfold index_char. by rewrite Ht. Qed.

Lemma index_char_length tab c : 1 <= zlen (index_char tab c) <= 3.
Proof. unfold index_char. destruct (_ || _); done. Qed.

Lemma http_escape_found tab inp buf :
  escape_table_ok tab ->
  http_escape_loop tab inp buf true = buf ++ flat_map (index_char tab) inp.
Proof.
  intros Ht. revert buf. induction inp as [|c inp IH]; intros buf; cbn [http_escape_loop flat_map].
  - by rewrite app_nil_r.
  - rewrite andb_false_r. cbn [andb]. unfold index_char at 1.
    destruct (_ || _); by rewrite IH, <- app_assoc.
Qed.

Lemma http_escape_search tab inp buf :
  escape_table_ok tab -> 0 < zlen buf ->
  http_escape_loop tab inp buf false =
  (if bool_decide (58 ∈ inp) then bs "./" else []) ++ buf ++ flat_map (index_char tab) inp.
Proof.
  intros Ht. revert buf. induction inp as [|c inp IH]; intros buf Hb; cbn [http_escape_loop flat_map].
  - by rewrite app_nil_r.
  - destruct (Z.ltb_spec 0 (zlen buf)); [|lia]. destruct (Z.eqb_spec c 58) as [->|Hc]; cbn [andb negb].
    + rewrite http_escape_found, index_char_colon by done.
      rewrite bool_decide_true by set_solver. by rewrite <- !app_assoc.
    + replace (bool_decide (58 ∈ c :: inp)) with (bool_decide (58 ∈ inp))
        by (apply bool_decide_ext; set_solver).
      unfold index_char at 1.
      destruct (_ || _); rewrite IH by (rewrite zlen_app; change (zlen [_; _; _]) with 3
        || change (zlen [_]) with 1; lia); by rewrite <- !app_assoc.
Qed.

Lemma http_escape_string_eq tab name :
  escape_table_ok tab ->
  http_escape_string tab name = dot_slash name ++ flat_map (index_char tab) name.
Proof.
  intros Ht. unfold http_escape_string, dot_slash, late_colon. destruct name as [|c name]; [done|].
  cbn [http_escape_loop flat_map tail]. rewrite andb_false_r. cbn [andb].
  unfold index_char at 1. destruct (_ || _); by rewrite http_escape_search by done.
Qed.

(** The digits of this program, read by the server. *)
Lemma index_percent_decode c :
  byte_ok c = true ->
  u8 (HEX_TO_DECIMAL (schar (index_hex (Z.land (Z.shiftr c 4) 15)))
        (schar (index_hex (Z.land c 15)))) = c.
Proof.
  intros Hc. apply Z.eqb_eq. revert c Hc. apply all_bytes_forallb. vm_compute. reflexivity.
Qed.

Lemma isprint_schar c :
  byte_ok c = true -> (schar c <? 32) || (126 <? schar c) = negb (isprint c).
Proof.
  intros Hc. apply eqb_prop. revert c Hc. apply all_bytes_forallb. vm_compute. reflexivity.
Qed.

Lemma noescape_print c : byte_ok c = true -> noescape c = true -> isprint c = true.
Proof.
  intros Hc Hn. pose proof (noescape_isgraph c Hc Hn) as Hg. apply isgraph_range in Hg.
  unfold isprint. zcases.
Qed.

(** A name survives exactly when all its characters are printable; otherwise the
    server refuses the link. *)
Lemma unescape_index tab s pos :
  escape_table_ok tab -> forallb byte_ok s = true ->
  exists o q, unescape_loop (flat_map (index_char tab) s) pos = (o, forallb isprint s, q) /\
    (forallb isprint s = true -> o = s /\ q = None).
Proof.
  intros Ht. revert pos. induction s as [|c s IH]; intros pos Hs; [by exists [], None|].
  simpl in Hs. bprop. cbn [flat_map forallb]. unfold index_char at 1. rewrite Ht by done.
  destruct (negb (noescape c) || (c =? 63)) eqn:E.
  - cbn -[HEX_TO_DECIMAL]. rewrite index_percent_decode, isprint_schar by done.
    destruct (isprint c); cbn [negb andb]; [|by exists [], None].
    destruct (IH (pos + 3)) as (o & q & -> & Ho); [done|]. exists (c :: o), q. split; [done|].
    intros Hp. by destruct (Ho Hp) as [-> ->].
  - apply orb_false_iff in E as [En E63]. apply negb_false_iff in En.
    rewrite noescape_print by done. cbn [andb].
    destruct (noescape_plain c) as [H37 H35]; [done|done|]. cbn.
    rewrite E63. do 2 (zcase; [done|]).
    destruct (IH (pos + 1)) as (o & q & -> & Ho); [done|]. exists (c :: o), q. split; [done|].
    intros Hp. by destruct (Ho Hp) as [-> ->].
Qed.

Lemma clean_loop_fuel n l : (length l <= n)%nat -> clean_loop n l = clean_loop (length l) l.
Proof.
  revert l. induction n as [n IH] using lt_wf_ind; intros l Hn.
  destruct n, l as [|c l]; simpl in *; try done; [lia|]. f_equal.
  pose proof (clean_next_length c l) as Hl. unfold clean_next in Hl.
  rewrite (IH n) by lia. destruct (decide (n = length l)) as [->|]; [|rewrite (IH (length l)); try lia; done].
  symmetry. apply IH; lia.
Qed.

(** "/./name" is cleaned to "/name". *)
Lemma clean_dot_slash name :
  clean_pathname (47 :: dot_slash name ++ name) = clean_pathname (47 :: name).
Proof.
  unfold dot_slash. destruct (late_colon name); [|done]. unfold clean_pathname.
  change (47 :: clean_loop (S (S (length name))) (skip_dots name) =
          47 :: clean_loop (length name) (skip_dots name)). f_equal.
  assert (Hl : (length (skip_dots name) <= length name)%nat)
    by exact (clean_next_length 47 name).
  rewrite (clean_loop_fuel (S (S (length name)))), (clean_loop_fuel (length name)) by lia. done.
Qed.

(** * Sizes *)

Lemma zlen_flat_map (f : Z -> bytes) k l :
  (forall c, zlen (f c) <= k) -> zlen (flat_map f l) <= k * zlen l.
Proof.
  intros Hf. induction l as [|c l IH]; simpl; [rewrite zlen_nil; lia|].
  rewrite zlen_app, zlen_cons. specialize (Hf c). lia.
Qed.

Lemma zlen_flat_map_ge (f : Z -> bytes) l :
  (forall c, 1 <= zlen (f c)) -> zlen l <= zlen (flat_map f l).
Proof.
  intros Hf. induction l as [|c l IH]; simpl; [rewrite zlen_nil; lia|].
  rewrite zlen_app, zlen_cons. specialize (Hf c). lia.
Qed.

Lemma html_char_size c : 1 <= zlen (index_html_char c) <= 6.
Proof.
  unfold index_html_char.
  destruct (c =? 62), (c =? 60), (c =? 38), (c =? 34); by vm_compute.
Qed.

Lemma html_escape_size l : zlen l <= zlen (html_escape_string l) <= 6 * zlen l.
Proof.
  split; [apply zlen_flat_map_ge|apply zlen_flat_map]; intros c; apply html_char_size.
Qed.

(** "./" is only put in front when a colon took one character instead of three. *)
Lemma http_escape_size tab l :
  escape_table_ok tab -> zlen (http_escape_string tab l) <= 3 * zlen l.
Proof.
  intros Ht. rewrite http_escape_string_eq by done. unfold dot_slash, late_colon.
  assert (Hf : forall k, zlen (flat_map (index_char tab) k) <= 3 * zlen k)
    by (intros k; apply zlen_flat_map, index_char_length).
  case_bool_decide as Hc; [|apply Hf].
  assert (Hin : 58 ∈ l) by (destruct l; [done|set_solver]).
  apply list_elem_of_split in Hin as (a & b & ->).
  rewrite zlen_app, flat_map_app. cbn [flat_map]. rewrite index_char_colon by done.
  pose proof (Hf a). pose proof (Hf b). rewrite !zlen_app, (zlen_cons 58 b).
  change (zlen (bs "./")) with 2. change (zlen [58]) with 1. lia.
Qed.

(** * No markup *)

Definition markup_free (l : bytes) : Prop := 60 ∉ l /\ 62 ∉ l /\ 34 ∉ l.

Lemma markup_free_app a b : markup_free a -> markup_free b -> markup_free (a ++ b).
Proof. unfold markup_free. rewrite !not_elem_of_app. tauto. Qed.

Lemma markup_free_flat_map (f : Z -> bytes) l :
  (forall c, markup_free (f c)) -> markup_free (flat_map f l).
Proof.
  intros Hf. induction l as [|c l IH]; simpl; [split_and!; apply not_elem_of_nil|].
  by apply markup_free_app.
Qed.

Lemma html_escape_markup_free l : markup_free (html_escape_string l).
Proof.
  apply markup_free_flat_map. intros c. unfold index_html_char.
  destruct (Z.eqb_spec c 62), (Z.eqb_spec c 60), (Z.eqb_spec c 38), (Z.eqb_spec c 34);
    unfold markup_free; split_and!; try (apply (bool_decide_unpack _); by vm_compute);
    intros [Hx|[]%elem_of_nil]%elem_of_cons; congruence.
Qed.

Lemma http_escape_markup_free tab l :
  escape_table_ok tab -> forallb byte_ok l = true -> markup_free (http_escape_string tab l).
Proof.
  intros Ht Hl. rewrite http_escape_string_eq by done.
  assert (Hd : markup_free (dot_slash l)).
  { unfold dot_slash. destruct (late_colon l); unfold markup_free;
      split_and!; apply (bool_decide_unpack _); by vm_compute. }
  assert (Hb : forall c, byte_ok c = true -> markup_free (index_char tab c)).
  { intros c Hc. unfold index_char, markup_free. rewrite Ht by done.
    set (l0 := if _ : bool then _ else _).
    cut (negb (existsb (fun x => (x =? 60) || (x =? 62) || (x =? 34)) l0) = true).
    { rewrite negb_true_iff. intros H.
      split_and!; intros Hin%list_elem_of_In; (assert (Hex : existsb (fun x => (x =? 60) || (x =? 62) || (x =? 34)) l0 = true);
        [apply existsb_exists; eexists; split; [exact Hin|done]|congruence]). }
    subst l0. revert c Hc. apply all_bytes_forallb. vm_compute. reflexivity. }
  assert (Hf : markup_free (flat_map (index_char tab) l)).
  { clear Hd. induction l as [|c l IH]; [split_and!; apply not_elem_of_nil|]. simpl in Hl. bprop.
    cbn [flat_map]. apply markup_free_app; auto. }
  by apply markup_free_app.
Qed.

(** * The order of the names *)

Lemma name_le_total a b : name_le a b = false -> name_le b a = true.
Proof.
  revert b. induction a as [|x a IH]; intros [|y b]; simpl; try done.
  destruct (Z.ltb_spec x y); [done|]. destruct (Z.eqb_spec x y) as [->|]; simpl.
  - intros Hle. rewrite Z.eqb_refl, (IH _ Hle). by rewrite orb_true_r.
  - intros _. destruct (Z.ltb_spec y x); [done|lia].
Qed.

Lemma insert_name_permutation n l : insert_name n l ≡ₚ n :: l.
Proof.
  induction l as [|m l IH]; simpl; [done|]. destruct (name_le n m); [done|].
  rewrite IH. apply Permutation_swap.
Qed.

Lemma sort_names_permutation l : sort_names l ≡ₚ l.
Proof. induction l as [|n l IH]; simpl; [done|]. by rewrite insert_name_permutation, IH. Qed.

Definition in_order (l : list bytes) : Prop := Sorted (fun a b => name_le a b = true) l.

Lemma insert_name_order n l : in_order l -> in_order (insert_name n l).
Proof.
  unfold in_order. intros H. induction H as [|m l Hl IH Hm]; simpl; [repeat constructor|].
  destruct (name_le n m) eqn:E; [by repeat constructor|].
  constructor; [done|]. destruct Hm as [|k l Hk]; simpl; [constructor; by apply name_le_total|].
  destruct (name_le n k); constructor; [by apply name_le_total|done].
Qed.

Lemma sort_names_order l : in_order (sort_names l).
Proof. induction l as [|n l IH]; simpl; [constructor|]. by apply insert_name_order. Qed.

Section listing.
Context {os : OS}.
(** The directory does not change while it is listed: in a [calm] world, which looking
    at a file does not disturb, the files have fixed attributes. *)
Context (calm : world -> Prop) (attributes : bytes -> option stat) (ctime : Z -> bytes).
Hypothesis stat_stable : forall n w, calm w ->
  fst (os_stat n w) = attributes n /\ calm (snd (os_stat n w)).
Hypothesis ctime_stable : forall t w, calm w -> os_ctime t w = ctime t.

(** The row of a directory, and of another file. *)
Definition directory_entry (tab : list Z) (n : bytes) : bytes :=
  match attributes n with
  | Some st =>
      if bool_decide (st_mode st = S_DIR) then
        directory_row (html_escape_string (http_escape_string tab n)) (html_escape_string n)
          (ctime (st_mtime st)) (st_size st)
      else []
  | None => []
  end.

(** A packed file has two links, to be unpacked and as it is. *)
Definition file_entry (tab : list Z) (n : bytes) : bytes :=
  match attributes n with
  | Some st =>
      if bool_decide (st_mode st = S_DIR) then []
      else
        let href := http_escape_string tab n in
        let text := html_escape_string n in
        if ends_gz href then
          let bare := ztake (zlen href - 3) href in
          gunzip_row (html_escape_string bare) (ztake (zlen text - 3) text) bare
            (ctime (st_mtime st)) (st_size st)
        else file_row (html_escape_string href) text (ctime (st_mtime st)) (st_size st)
  | None => []
  end.

(** A name of at most 254 bytes fits all arrays. *)
Definition short (n : bytes) : Prop := zlen n <= 254.

Lemma fits_ok n l : zlen l < n -> fits n l = Some l.
Proof. intros H. unfold fits. by destruct (Z.ltb_spec (zlen l) n); [|lia]. Qed.

Lemma list_directory_wp tab n (Q : bytes -> St -> Prop) s :
  escape_table_ok tab -> short n -> calm (wd s) ->
  (forall w, calm w -> Q (directory_entry tab n) (mkSt (rq s) (sv s) w)) ->
  wp (list_directory tab n) Q s.
Proof.
  intros Ht Hn Hc HQ. unfold list_directory. wps. apply wp_call. intros st w E.
  destruct (stat_stable n (wd s) Hc) as [Hst Hw]. rewrite E in Hst, Hw. simpl in Hst, Hw. subst st.
  unfold directory_entry in HQ. destruct (attributes n) as [st|]; [|wps; by apply HQ].
  case_bool_decide; cbn [negb]; [|wps; by apply HQ].
  pose proof (html_escape_size n). pose proof (http_escape_size tab n Ht).
  pose proof (html_escape_size (http_escape_string tab n)).
  unfold short, MAX_FILE_LENGTH, MAXNAMLEN in *.
  wps. eapply wp_checked; [apply fits_ok; lia|]. wps. eapply wp_checked; [apply fits_ok; lia|].
  wps. eapply wp_checked; [apply fits_ok; lia|]. wps. rewrite ctime_stable by done. by apply HQ.
Qed.

Lemma list_file_wp tab n (Q : bytes -> St -> Prop) s :
  escape_table_ok tab -> short n -> calm (wd s) ->
  (forall w, calm w -> Q (file_entry tab n) (mkSt (rq s) (sv s) w)) -> wp (list_file tab n) Q s.
Proof.
  intros Ht Hn Hc HQ. unfold list_file. wps. apply wp_call. intros st w E.
  destruct (stat_stable n (wd s) Hc) as [Hst Hw]. rewrite E in Hst, Hw. simpl in Hst, Hw. subst st.
  unfold file_entry in HQ. destruct (attributes n) as [st|]; [|wps; by apply HQ].
  case_bool_decide; cbn [negb]; [wps; by apply HQ|].
  pose proof (html_escape_size n). pose proof (http_escape_size tab n Ht).
  set (href := http_escape_string tab n) in *.
  pose proof (html_escape_size href). pose proof (html_escape_size (ztake (zlen href - 3) href)).
  unfold short, MAX_FILE_LENGTH, MAXNAMLEN in *.
  wps. eapply wp_checked; [apply fits_ok; lia|]. wps. eapply wp_checked; [apply fits_ok; lia|].
  wps. rewrite ctime_stable by done. destruct (ends_gz href) eqn:Eg; wps.
  - assert (zlen (ztake (zlen href - 3) href) <= zlen href)
      by (unfold ztake, zlen; rewrite length_firstn; lia).
    eapply wp_checked; [apply fits_ok; lia|]. wps. by apply HQ.
  - eapply wp_checked; [apply fits_ok; lia|]. wps. by apply HQ.
Qed.

Lemma list_all_wp one entry l (Q : bytes -> St -> Prop) s :
  (forall n (Q' : bytes -> St -> Prop) s', n ∈ l -> calm (wd s') ->
    (forall w, calm w -> Q' (entry n) (mkSt (rq s') (sv s') w)) -> wp (one n) Q' s') ->
  calm (wd s) ->
  (forall w, calm w -> Q (flat_map entry l) (mkSt (rq s) (sv s) w)) -> wp (list_all one l) Q s.
Proof.
  intros H. revert Q s. induction l as [|n l IH]; intros Q s Hc HQ; simpl.
  - wps. destruct s. by apply HQ.
  - wps. apply H; [set_solver|done|]. intros w Hw. wps.
    apply IH; [intros; apply H; [set_solver|done..]|done|].
    intros w' Hw'. wps. by apply HQ.
Qed.

(** C19: for a directory that does not change meanwhile, with a title and names of
    at most 254 bytes, the listing is complete and stays inside its arrays: the
    directories and then the other files, each exactly once, without those whose
    names begin with a dot, in the order of their names; and no name or title can
    put a tag or a quote into the page. *)
Theorem index_directory_correct tab dir title names s w1 w2 :
  escape_table_ok tab -> os_chdir dir (wd s) = (SOk tt, w1) ->
  os_readdir (bs ".") w1 = (Some names, w2) -> calm w2 ->
  short title -> Forall short names -> Forall (fun n => forallb byte_ok n = true) names ->
  exists l, l ≡ₚ List.filter select_files names /\ in_order l /\
    wp (index_directory tab dir title) (fun r _ =>
      r = (page_start (html_escape_string title) (streq title (bs "/"))
           ++ flat_map (directory_entry tab) l ++ files_start ++ flat_map (file_entry tab) l,
           true)) s /\
    markup_free (html_escape_string title) /\
    Forall (fun n => markup_free (html_escape_string n) /\
                     markup_free (http_escape_string tab n)) l.
Proof.
  intros Ht Ec Er Hw2 Hti Hn Hb. set (l := sort_names (List.filter select_files names)). exists l.
  assert (Hl : l ≡ₚ List.filter select_files names) by apply sort_names_permutation.
  assert (Hin : forall n, n ∈ l -> short n /\ forallb byte_ok n = true).
  { intros n. rewrite Hl, list_elem_of_In, filter_In, <- list_elem_of_In. intros [Hi _].
    rewrite Forall_forall in Hn, Hb. auto. }
  split; [done|]. split; [apply sort_names_order|]. split_and!.
  - unfold index_directory. wps. apply wp_call. intros ok w E. rewrite Ec in E.
    injection E as <- <-. wps. apply wp_call. intros o w E. cbn [wd] in E. rewrite Er in E.
    injection E as <- <-. wps. pose proof (html_escape_size title).
    unfold short, MAX_FILE_LENGTH, MAXNAMLEN in *.
    eapply wp_checked; [apply fits_ok; lia|]. wps. fold l.
    apply (list_all_wp _ (directory_entry tab)).
    { intros n Q s' Hni Hc HQ. apply list_directory_wp; [done|by apply Hin|done|done]. }
    { done. }
    intros w Hw. wps. apply (list_all_wp _ (file_entry tab)).
    { intros n Q s' Hni Hc HQ. apply list_file_wp; [done|by apply Hin|done|done]. }
    { done. }
    intros w' _. wps. done.
  - apply html_escape_markup_free.
  - apply Forall_forall. intros n Hni. split; [apply html_escape_markup_free|].
    apply http_escape_markup_free; [done|by apply Hin].
Qed.
End listing.

(** C10: a link of the listing leads back to its file: the server decodes it to
    the name, with "./" in front when there is a colon behind the first character,
    which the cleaning of the path takes away again.  This holds exactly for names of
    printable characters: the server refuses the links of all others. *)
Theorem index_link_roundtrip name :
  forallb byte_ok name = true ->
  exists tab, build_needs_escape = Some tab /\
    let '(o, ok, q) := unescape_uri (http_escape_string tab name) in
    ok = forallb isprint name /\
    (ok = true -> o = dot_slash name ++ name /\ q = None /\
                  clean_pathname (47 :: o) = clean_pathname (47 :: name)).
Proof.
  intros Hb. destruct build_needs_escape_ok as (tab & E & Ht). exists tab. split; [done|].
  rewrite http_escape_string_eq by done. unfold unescape_uri.
  assert (Hd : exists o q, unescape_loop (dot_slash name ++ flat_map (index_char tab) name) 0 =
    (dot_slash name ++ o, forallb isprint name, q) /\
    (forallb isprint name = true -> o = name /\ q = None)).
  { unfold dot_slash. destruct (late_colon name).
    - destruct (unescape_index tab name 2 Ht Hb) as (o & q & Eo & Ho). exists o, q.
      split; [|done]. change (unescape_loop (bs "./" ++ flat_map (index_char tab) name) 0) with
        (let '(o, ok, q) :=
           let '(o, ok, q) := unescape_loop (flat_map (index_char tab) name) 2 in (47 :: o, ok, q)
         in (46 :: o, ok, q)). by rewrite Eo.
    - apply unescape_index; done. }
  destruct Hd as (o & q & -> & Ho). split; [done|]. intros Hp. destruct (Ho Hp) as [-> ->].
  split; [done|]. split; [done|]. apply clean_dot_slash.
Qed.

(** A title of 1530 or more bytes, which is the URI of the request, is
    written beyond the end of the array for its HTML form. *)
Theorem index_title_overflow {os : OS} tab dir title names s w1 w2 :
  os_chdir dir (wd s) = (SOk tt, w1) -> os_readdir (bs ".") w1 = (Some names, w2) ->
  1530 <= zlen title -> index_directory tab dir title s = Undef.
Proof.
  intros Ec Er Hti. unfold index_directory, mbind, M_bind, call. rewrite Ec. cbn [wd]. rewrite Er.
  unfold fits, MAX_FILE_LENGTH, MAXNAMLEN. pose proof (html_escape_size title).
  destruct (Z.ltb_spec (zlen (html_escape_string title)) (255 * 6)); [lia|done].
Qed.

(** * Instances *)

Definition index_world : script :=
  mkScript
    [mkFile (bs "b:<c>") (mkStat S_REG 5 1 1 1) []; mkFile (bs ".hidden") (mkStat S_REG 1 1 1 2) [];
     mkFile (bs "sub") (mkStat S_DIR 0 1 1 3) []; mkFile (bs "a.gz") (mkStat S_REG 7 1 1 4) []]
    [] 100 [] [] [] 0 [] [] [] 1000 1000.

Definition index_state : St := mkSt test_request test_server index_world.

Lemma index_table_ok : escape_table_ok test_table.
Proof.
  destruct build_needs_escape_ok as (tab & E & Ht). unfold test_table. by rewrite E.
Qed.

Definition index_stat (n : bytes) : option stat := f_stat <$> find_file n index_world.
Definition index_time (_ : Z) : bytes := bs "Mon Jan  1 00:00:00 2024" ++ LF.

Lemma index_directory_correct_witness : exists l s,
  index_directory test_table (bs "/d") (bs "/d/") index_state =
    Ret (page_start (bs "/d/") false
         ++ flat_map (directory_entry index_stat index_time test_table) l ++ files_start
         ++ flat_map (file_entry index_stat index_time test_table) l, true) s /\
  l ≡ₚ [bs "b:<c>"; bs "sub"; bs "a.gz"] /\ in_order l.
Proof.
  destruct (@index_directory_correct scriptOS (eq index_world)
    index_stat index_time ltac:(by intros n w <-) ltac:(by intros t w <-)
    test_table (bs "/d") (bs "/d/") (f_path <$> files index_world) index_state
    index_world index_world index_table_ok eq_refl eq_refl eq_refl)
    as (l & Hp & Ho & W & _).
  - by vm_compute.
  - by repeat constructor.
  - by repeat constructor.
  - destruct (wp_elim _ _ _ W) as (r & s & E & ->). exists l, s.
    split; [exact E|]. split; [exact Hp|exact Ho].
Defined.

Lemma index_link_roundtrip_witness :
  exists tab, build_needs_escape = Some tab /\
    unescape_uri (http_escape_string tab (bs "a:b c")) = (bs "./a:b c", true, None) /\
    snd (fst (unescape_uri (http_escape_string tab [99; 195; 169]))) = false.
Proof.
  destruct (index_link_roundtrip (bs "a:b c") eq_refl) as (tab & E & H).
  destruct (index_link_roundtrip [99; 195; 169] eq_refl) as (tab' & E' & H').
  rewrite E in E'. injection E' as <-. exists tab. split; [exact E|].
  destruct (unescape_uri (http_escape_string tab (bs "a:b c"))) as [[o ok] q].
  destruct (unescape_uri (http_escape_string tab [99; 195; 169])) as [[o' ok'] q'].
  destruct H as [-> H], H' as [-> _]. destruct (H eq_refl) as (-> & -> & _). by split.
Defined.

Lemma index_title_overflow_witness :
  index_directory test_table (bs "/d") (replicate 1530 97) index_state = Undef.
Proof.
  apply (index_title_overflow (os := scriptOS) _ _ _ (f_path <$> files index_world) _ index_world index_world);
    [reflexivity|reflexivity|by vm_compute].
Defined.
