(* ===== verification/Serve.v ===== *)
(** A static file from the request to the last byte: what [init_get] prepares for a
    small file, and what the turns of the main loop make of it. *)

From S2P Require Import Prelude Types Machine Escape ScriptOS Buffer Util Dates Hash.
From S2P Require Import Response.
From S2P Require Import ResponseProofs ResponseProps Range RangeProofs Mmap Alias.
From S2P Require Import Pointer CgiHeader.
From S2P Require Import Pipe.
From S2P Require Import Get TransferProps Frame Read Request.

(** * The cache of mapped files *)

(** Only the fields of the cache differ. *)
Definition mmap_only (g g' : server) : Prop :=
  exists l u t b, g' = set_mmap_list l (set_mmap_list_entries_used u
    (set_mmap_list_total_requests t (set_mmap_list_hash_bounces b g))).

(** Entries of the file [st] that are in use hold [mem]. *)
Definition caches (g : server) (st : stat) (mem : bytes) : Prop :=
  forall i e, zget (mmap_list g) i = Some e -> use_count e <> 0 -> same_file e st = true ->
    mmap e = mem.

Lemma zget_insert {A} (l : list A) i e e' :
  zget l i = Some e -> zget (<[Z.to_nat i := e']> l) i = Some e'.
Proof.
  intros He. pose proof (zget_lt _ _ _ He) as Hi. unfold zget.
  destruct (Z.leb_spec 0 i); [|lia]. apply list_lookup_insert_eq. unfold zlen in *. lia.
Qed.

(** A call that sends nothing and leaves the open files as they are. *)
Definition quiet {os : OS} {laws : OSLaws os} (w w' : world) : Prop :=
  (forall d, sent d w' = sent d w) /\ forall d, file_data d w' = file_data d w.

Section mmap.
Context {os : OS} {laws : OSLaws os}.

Lemma quiet_refl (w : world) : quiet w w.
Proof. done. Qed.

Lemma quiet_trans (w1 w2 w3 : world) : quiet w1 w2 -> quiet w2 w3 -> quiet w1 w3.
Proof. intros [H1 H2] [H3 H4]. split; intros d; congruence. Qed.

Lemma find_mmap_content data_fd st s :
  mmap_ok (sv s) ->
  let mem := ztake (st_size st) (file_data data_fd (wd s)) in
  caches (sv s) st mem ->
  wp (find_mmap data_fd st) (fun r s' =>
    rq s' = rq s /\ mmap_only (sv s) (sv s') /\ quiet (wd s) (wd s') /\
    match r with
    | Some i => exists e, zget (mmap_list (sv s')) i = Some e /\ mmap e = mem
    | None => True
    end) s.
Proof.
  intros Hok mem Hc. pose proof Hok as [Hl _ _ _]. unfold find_mmap. wps.
  set (s0 := mkSt _ _ _).
  assert (Hst : 0 <= MMAP_LIST_HASH (st_dev st) (st_ino st) (st_size st) < 256).
  { unfold MMAP_LIST_HASH, MMAP_LIST_MASK. change 255 with (Z.ones 8).
    rewrite Z.land_ones by lia. apply Z.mod_pos_bound. lia. }
  rewrite <- (Z.mod_small _ _ Hst) at 2.
  rewrite <- (Z.add_0_r (MMAP_LIST_HASH _ _ _)) at 2.
  eapply wp_mono; [by apply (mmap_probe_wp _ _ _ 0)|]. intros p s1 Hp.
  assert (Hsame : forall b, mmap_only (sv s) (set_mmap_list_hash_bounces b
    (set_mmap_list_total_requests (mmap_list_total_requests (sv s) + 1) (sv s)))).
  { intros b. by exists (mmap_list (sv s)), (mmap_list_entries_used (sv s)),
      (mmap_list_total_requests (sv s) + 1), b. }
  destruct p as [i|i|]; simpl in Hp.
  - destruct Hp as (e & He & Hne & Hf & b & ->). wps. split; [done|].
    split; [by exists (<[Z.to_nat i := set_use_count (use_count e + 1) e]> (mmap_list (sv s))),
              (mmap_list_entries_used (sv s)), (mmap_list_total_requests (sv s) + 1), b|].
    split; [apply quiet_refl|]. exists (set_use_count (use_count e + 1) e).
    split; [by eapply zget_insert|exact (Hc i e He Hne Hf)].
  - destruct Hp as ((b & ->) & e & He & He0). wps. simpl.
    destruct (_ <? _); wps; [split; [done|]; split; [apply Hsame|]; split; [apply quiet_refl|done]|].
    apply wp_call. intros r w Em. cbn [wd] in Em.
    assert (Q1 : quiet (wd s) w) by (split; intros d; apply (mmap_quiet d _ d _ _ _ _ Em)).
    destruct r as [m|er]; wps; [|split; [done|]; split; [apply Hsame|]; by split].
    apply mmap_data in Em. apply wp_call. intros ok w' Ea. cbn [wd] in Ea.
    assert (Q2 : quiet w w') by (split; intros d; apply (madvise_quiet d d _ _ _ _ _ Ea)).
    pose proof (quiet_trans _ _ _ Q1 Q2) as Q3.
    destruct ok; simpl; wps.
    2:{ unfold call_. wps. split; [done|]. split; [apply Hsame|]. split; [|done].
        eapply quiet_trans; [exact Q3|]. split; intros d; apply (munmap_quiet d d). }
    unfold set_entry. wps. split; [done|].
    split; [|split; [exact Q3|]].
    { by exists (<[Z.to_nat i := mkMmap (st_dev st) (st_ino st) m 1 (st_size st)]>
                   (mmap_list (sv s))), (mmap_list_entries_used (sv s) + 1),
                (mmap_list_total_requests (sv s) + 1), b. }
    exists (mkMmap (st_dev st) (st_ino st) m 1 (st_size st)).
    split; [by eapply zget_insert|exact Em].
  - destruct Hp as (b & ->). wps. split; [done|]. split; [apply Hsame|].
    split; [apply quiet_refl|done].
Qed.
End mmap.

(** * The header and the first bytes *)

Definition ok_header (r : request) (g : server) : bytes :=
  (http_ver_string (http_version r) ++ (bs " 200 OK" ++ CRLF)) ++ headers_text r g
  ++ (bs "Content-Length: " ++ simple_itoa (filesize r) ++ CRLF)
  ++ (bs "Last-Modified: " ++
      default [] (rfc822_time_buf (current_time g) (last_modified r)) ++ CRLF)
  ++ content_type_text r g ++ CRLF.

Section start.
Context {os : OS} {laws : OSLaws os}.

Lemma printable_status c s :
  printable s -> printable (mkSt (set_response_status c (rq s)) (sv s) (wd s)).
Proof. intros ([] & ? & []). split_and!; [by split|done|by split]. Qed.

(** [send_r_request_ok] writes the header and nothing else, when there is room. *)
Lemma send_r_request_ok_wp s :
  printable s -> http_version (rq s) <> HTTP09 -> cgi_type (rq s) = CGI_none ->
  let r := set_response_status R_REQUEST_OK (rq s) in
  wp send_r_request_ok (fun _ s' =>
    wroteq true (ok_header r (sv s)) (mkSt r (sv s) (wd s)) s') s.
Proof.
  intros Hs Hv Hc r. unfold send_r_request_ok. wps.
  rewrite bool_decide_false by done.
  pose proof (emits_http_headers true) as H1. pose proof (emits_content_length true) as H2.
  pose proof (emits_last_modified true) as H3. pose proof (emits_content_type true) as H4.
  change (cgi_type (set_response_status _ _)) with (cgi_type (rq s)).
  rewrite bool_decide_true by done.
  eapply emits_useq; [emit|by apply printable_status|].
  reflexivity.
Qed.

(** The bytes [a .. b] of the file [mem] are being sent behind the text [pre]: the
    client has got, and the buffer holds, the text and the bytes before [k]; the rest
    is in the range.  Small files are sent from memory, others from their descriptor. *)
Definition sending (mem : bytes) (a b : Z) (pre : bytes) (k : Z) (s : St) : Prop :=
  method (rq s) <> M_HEAD /\ single (rq s) /\
  0 <= a <= k /\ k <= b < zlen mem /\ ranges (rq s) = [mkRange k b] /\
  stream s = pre ++ slice mem a (k - a) /\
  (status (rq s) = WRITE /\ data_mem (rq s) = Some mem /\ zlen mem <= MAX_FILE_MMAP \/
   status (rq s) = IOSHUFFLE /\ data_mem (rq s) = None /\
   file_data (data_fd (rq s)) (wd s) = mem /\ zlen mem < 2 ^ 62).

(** All the states of the request until it is freed. *)
Definition serving (mem : bytes) (a b : Z) (pre : bytes) (s : St) : Prop :=
  let all := pre ++ slice mem a (b - a + 1) in
  status (rq s) = DEAD /\ prefix (sent (fd (rq s)) (wd s)) all \/
  buf_ok (rq s) /\
  (status (rq s) = DONE /\ stream s = all \/ exists k, sending mem a b pre k s).

(** The work on the request [r] that [r'] continues. *)
Definition continues (r r' : request) : Prop :=
  method r' = method r /\ response_status r' = response_status r /\
  numranges r' = numranges r /\ status r' = status r /\ data_mem r' = data_mem r /\
  data_fd r' = data_fd r.

Lemma sending_rest mem a b pre k j s r g w :
  sending mem a b pre k s -> buf_ok r -> 0 <= j -> k + j <= b -> continues (rq s) r ->
  ranges r = [mkRange (k + j) b] ->
  sent (fd r) w ++ pending r = stream s ++ slice mem k j ->
  (status (rq s) = IOSHUFFLE ->
   file_data (data_fd (rq s)) w = file_data (data_fd (rq s)) (wd s)) ->
  serving mem a b pre (mkSt r g w).
Proof.
  intros (Hm & Hrs & Hk & Hb & Hr & Hstr & Hmode) Hok Hj Hkj (Em & Er & En & Est & Ed & Ef) Erg Es Ew.
  right. split; [done|]. right. exists (k + j). unfold sending, single in *. cbn [rq wd].
  rewrite Em, Er, En, Est, Ed, Ef. split_and!; try done; try lia.
  2:{ destruct Hmode as [H|(H1 & H2 & H3 & H4)]; [by left|right]. by rewrite Ew. }
  unfold stream. simpl. rewrite Es, Hstr, <- app_assoc. f_equal.
  replace (k + j - a) with (k - a + j) by lia.
  rewrite (slice_app mem a (k - a)) by lia. by replace (a + (k - a)) with k by lia.
Qed.

Lemma sending_end mem a b pre k s r g w :
  sending mem a b pre k s -> buf_ok r ->
  sent (fd r) w ++ pending r = stream s ++ slice mem k (b - k + 1) ->
  status r = DONE -> serving mem a b pre (mkSt r g w).
Proof.
  intros (_ & _ & Hk & Hb & _ & Hstr & _) Hok Es Est. right. split; [done|]. left. split; [done|].
  unfold stream. simpl. rewrite Es, Hstr, <- app_assoc. f_equal.
  replace (b - a + 1) with (k - a + (b - k + 1)) by lia.
  rewrite (slice_app mem a (k - a)) by lia. by replace (a + (k - a)) with k by lia.
Qed.

Lemma init_get_fill_wp mem pre s :
  (forall w, fst (os_sigbus w) = false) -> buf_ok (rq s) -> sending mem 0 (zlen mem - 1) pre 0 s ->
  wp init_get_fill (fun _ s' => fd (rq s') = fd (rq s) /\
    method (rq s') = method (rq s) /\ serving mem 0 (zlen mem - 1) pre s') s.
Proof.
  intros Hbus Hok Hsend. pose proof Hok as [Hl Hs Ho He].
  pose proof Hsend as (_ & Hrs & _ & Hz & Hr & _ & Hmode). unfold MAX_FILE_MMAP in Hmode.
  assert (H0 : serving mem 0 (zlen mem - 1) pre s) by (right; split; [done|]; right; by exists 0).
  unfold init_get_fill. wps.
  destruct Hmode as [(Est & -> & Hmax)|(_ & -> & _)]; [|by wps].
  rewrite (u32_small (BUFFER_SIZE - buffer_end (rq s))) by (unfold BUFFER_SIZE in *; lia).
  destruct (Z.ltb_spec 256 (BUFFER_SIZE - buffer_end (rq s))); wps; [|done].
  unfold first_range. wps. rewrite Hr. eapply wp_checked; [done|]. wps. cbn [start stop].
  rewrite (u64_small (zlen mem - 1 - 0)), (u32_small (zlen mem - 1 - 0 + 1)) by lia.
  set (k := if _ <? _ then _ else _).
  assert (Hk : 0 < k <= zlen mem /\ buffer_end (rq s) + k <= BUFFER_SIZE).
  { subst k. destruct (Z.ltb_spec (zlen mem - 1 - 0 + 1) (BUFFER_SIZE - buffer_end (rq s)));
      unfold BUFFER_SIZE in *; lia. }
  clearbody k. apply wp_call. intros bus w Eb.
  pose proof (Hbus (wd s)) as Hb. rewrite Eb in Hb. simpl in Hb. subst bus.
  pose proof (sigbus_sent (fd (rq s)) _ _ _ Eb) as Es. pose proof (sigbus_data _ _ _ Eb) as Ew.
  wps. apply load_wp; [lia|lia|lia|]. wps.
  assert (Hzk : zlen (slice mem 0 k) = k) by (apply zlen_slice; lia).
  apply (wp_buffer_append (slice mem 0 k) (mkSt (rq s) (sv s) w)); [done|simpl; lia|].
  intros b Hb'. cbn [rq sv wd] in *. wps. unfold set_first_start. wps.
  change (ranges (set_bytes_written _ _)) with (ranges (rq s)). rewrite Hr. wps.
  cbn [start stop]. rewrite (u64_small (0 + k)) by lia.
  destruct (pending_append (rq s) b (slice mem 0 k) Hok) as [Hok' Hp]; [lia|done|].
  rewrite Hzk in Hok', Hp.
  assert (Estream : sent (fd (rq s)) w ++ pending (set_buffer_end (buffer_end (rq s) + k)
                      (set_buffer b (rq s))) = stream s ++ slice mem 0 k).
  { rewrite Hp, Es. unfold stream. by rewrite app_assoc. }
  destruct (Z.eqb_spec k (zlen mem - 1 - 0 + 1)) as [Ek|Ek].
  - eapply complete_single; [exact Hrs|reflexivity|]. intros g.
    split; [done|]. split; [done|]. eapply sending_end; [exact Hsend|by destruct Hok'; split| |done].
    replace (zlen mem - 1 - 0 + 1) with k by lia. exact Estream.
  - wps. split; [done|]. split; [done|]. eapply (sending_rest _ _ _ _ 0 k); try exact Hsend; try done; try lia.
    by destruct Hok'; split.
Qed.

(** [whole_file]: one range for the file, and the header. *)
Lemma whole_file_wp s :
  (forall n w, fst (os_malloc n w) = true) ->
  printable s -> http_version (rq s) <> HTTP09 -> cgi_type (rq s) = CGI_none ->
  0 < filesize (rq s) < 2 ^ 62 ->
  let r := set_response_status R_REQUEST_OK
             (set_ranges [mkRange 0 (filesize (rq s) - 1)] (rq s)) in
  wp whole_file (fun ok s' => ok = true /\ exists p w, quiet (wd s) w /\
    wroteq true (ok_header r (sv s)) (mkSt r (set_range_pool p (sv s)) w) s') s.
Proof.
  intros Hmalloc Hs Hv Hc Hz r. unfold whole_file.
  apply wp_bind. apply (wp_mono _ (fun _ s1 => exists p w, quiet (wd s) w /\
    s1 = mkSt (rq s) (set_range_pool p (sv s)) w)).
  { unfold range_pool_pop. wps. destruct (range_pool (sv s)) as [|x p].
    - wps. apply wp_call. intros ok w Em. pose proof (Hmalloc 24 (wd s)) as Ht.
      rewrite Em in Ht. simpl in Ht. subst ok. wps. exists (range_pool (sv s)), w.
      split; [split; intros d; apply (malloc_quiet d d _ _ _ _ Em)|].
      by rewrite set_range_pool_id.
    - wps. by exists p, (wd s). }
  intros ? s1 (p & w & Hq & ->). wps. unfold ranges_fixup. wps.
  change (filesize (set_ranges _ _)) with (filesize (rq s)).
  destruct (Z.eqb_spec (filesize (rq s)) 0); [lia|].
  eapply wp_mono; [apply fixup_loop_wp|]. intros kept s2 (-> & (Er & Ew & q & Eq) & _).
  assert (Hkept : kept_ranges (filesize (rq s)) [mkRange 0 (u64 (-1))]
                  = [mkRange 0 (filesize (rq s) - 1)]).
  { unfold kept_ranges, fix_range. cbn [List.filter List.map start stop].
    change (u64 (-1)) with (2 ^ 64 - 1). unfold UINT_MAX.
    destruct (Z.leb_spec (filesize (rq s)) (2 ^ 64 - 1)); [|lia].
    rewrite orb_true_r, (u64_small (filesize (rq s) - 1)) by lia.
    change (i64 0 =? -1) with false. unfold range_valid. cbn [start stop].
    destruct (Z.ltb_spec (filesize (rq s) - 1) 0); [lia|done]. }
  cbn [rq] in *. change (ranges (set_ranges ?l _)) with l. rewrite Hkept. wps.
  apply wp_bind. cbn [rq sv wd] in *.
  eapply wp_mono; [apply send_r_request_ok_wp; rewrite Er, Eq; simpl; try done|].
  - destruct Hs as ([] & ? & []). split_and!; [by split|done|by split].
  - intros [] s3 H3. wps. split; [done|]. exists q, w. split; [done|].
    rewrite Er, Eq, Ew in H3. exact H3.
Qed.

(** A GET of the whole of a regular file. *)
Definition file_request (st : stat) (r : request) : request :=
  set_response_status R_REQUEST_OK
    (set_last_modified (st_mtime st) (set_filesize (st_size st) r)).

Record plain_get (data_fd : Z) (st : stat) (s : St) : Prop := {
  get_printable : printable s;
  get_status : status (rq s) = WRITE;
  get_method : method (rq s) <> M_HEAD;
  get_version : http_version (rq s) <> HTTP09;
  get_script : cgi_type (rq s) = CGI_none;
  get_mem : data_mem (rq s) = None;
  get_ranges : ranges (rq s) = [];
  get_always : if_modified_since (rq s) = Pnull;
  get_regular : st_mode st = S_REG;
  get_size : 0 < st_size st < 2 ^ 62;
  get_data : zlen (file_data data_fd (wd s)) = st_size st;
  get_date : is_Some (rfc822_time_buf (current_time (sv s)) (st_mtime st));
  get_cache : mmap_ok (sv s);
  get_caches : caches (sv s) st (file_data data_fd (wd s));
  get_room : buffer_end (rq s) + zlen (ok_header (file_request st (rq s)) (sv s))
             <= BUFFER_SIZE
}.

(** The choice of [init_get_send]: from memory or from the descriptor. *)
Definition source_chosen (data_fd : Z) (mem : bytes) (s s' : St) : Prop :=
  mmap_only (sv s) (sv s') /\ (forall d, sent d (wd s') = sent d (wd s)) /\
  exists e, 
  (zlen mem <= MAX_FILE_MMAP /\ rq s' = set_data_mem (Some mem) (set_mmap_entry_var e (rq s)) \/
   file_data data_fd (wd s') = mem /\
   rq s' = set_status IOSHUFFLE (set_data_fd data_fd (set_mmap_entry_var e (rq s)))).

Lemma mmap_only_refl g : mmap_only g g.
Proof.
  exists (mmap_list g), (mmap_list_entries_used g), (mmap_list_total_requests g),
    (mmap_list_hash_bounces g). by destruct g.
Qed.

Lemma choose_source data_fd st s :
  mmap_ok (sv s) -> caches (sv s) st (file_data data_fd (wd s)) ->
  zlen (file_data data_fd (wd s)) = st_size st -> filesize (rq s) = st_size st ->
  wp (if MAX_FILE_MMAP <? filesize (rq s) then
        upd (set_data_fd data_fd) ;; upd (set_status IOSHUFFLE)
      else
        e ← find_mmap data_fd st;
        upd (set_mmap_entry_var e) ;;
        match e with
        | None => upd (set_data_fd data_fd) ;; upd (set_status IOSHUFFLE)
        | Some i =>
            e ← entry i;
            upd (set_data_mem (Some (mmap e))) ;;
            call_ (os_close data_fd)
        end)
    (fun _ s' => source_chosen data_fd (file_data data_fd (wd s)) s s') s.
Proof.
  intros Hok Hc Hz Hf. destruct (Z.ltb_spec MAX_FILE_MMAP (filesize (rq s))) as [|Hs]; wps.
  { split; [apply mmap_only_refl|]. split; [done|]. exists (mmap_entry_var (rq s)). right.
    split; [done|]. by destruct (rq s). }
  pose proof (find_mmap_content data_fd st s Hok) as Hm. cbv zeta in Hm.
  rewrite ztake_ge in Hm by lia. eapply wp_mono; [by apply Hm|].
  intros e s1 (Er & Hg & [Q1 Q2] & He). wps. rewrite Er. destruct e as [i|].
  - destruct He as (e & Ei & Em). unfold entry. wps. cbn [sv]. rewrite Ei.
    unfold call_. wps. split; [done|]. split.
    { intros d. simpl. by rewrite close_sent. }
    exists (Some i). left. rewrite Em. split; [lia|done].
  - wps. split; [done|]. split; [done|]. exists None. right. by rewrite Q2.
Qed.

(** The fields that count for the rest of the work, after the source was chosen. *)
Definition prepared (st : stat) (mem : bytes) (dfd : Z) (r r' : request) : Prop :=
  buffer r' = buffer r /\ buffer_start r' = buffer_start r /\ buffer_end r' = buffer_end r /\
  request_uri r' = request_uri r /\ fd r' = fd r /\ method r' = method r /\
  ranges r' = [] /\ http_version r' = http_version r /\ cgi_type r' = CGI_none /\
  filesize r' = st_size st /\ last_modified r' = st_mtime st /\
  (kacount r', keepalive r') = (kacount r, keepalive r) /\
  (status r' = WRITE /\ data_mem r' = Some mem /\ zlen mem <= MAX_FILE_MMAP \/
   status r' = IOSHUFFLE /\ data_mem r' = None /\ data_fd r' = dfd).

Lemma prepared_header st mem dfd r r' l g g' :
  prepared st mem dfd r r' -> mmap_only g g' ->
  ok_header (set_response_status R_REQUEST_OK (set_ranges l r')) g' =
  ok_header (file_request st r) g.
Proof.
  intros (_ & _ & _ & Eu & _ & _ & _ & Ev & _ & Ef & El & Ek & _) (a & u & t & b & ->).
  injection Ek as Ek1 Ek2. destruct r', r. simpl in *. subst. reflexivity.
Qed.

Lemma source_prepared data_fd st s s1 :
  plain_get data_fd st s ->
  source_chosen data_fd (file_data data_fd (wd s))
    (mkSt (set_header_ifrange Pnull (set_last_modified (st_mtime st)
       (set_filesize (st_size st) (rq s)))) (sv s) (wd s)) s1 ->
  prepared st (file_data data_fd (wd s)) data_fd (rq s) (rq s1) /\ printable s1 /\
  mmap_only (sv s) (sv s1) /\ (forall d, sent d (wd s1) = sent d (wd s)) /\
  (status (rq s1) = IOSHUFFLE -> file_data data_fd (wd s1) = file_data data_fd (wd s)).
Proof.
  intros [Hp Hst Hm Hv Hcg Hdm Hrg Hif Hreg Hz Hdata Hdate Hok Hc Hroom] (Hg & Hs & e & He).
  cbn [rq sv wd] in *.
  assert (Hprep : prepared st (file_data data_fd (wd s)) data_fd (rq s) (rq s1)).
  { destruct He as [(Hl & ->)|(Hf & ->)]; repeat split; try done; [left|right]; done. }
  split; [done|]. split_and!; [|done|done|].
  - destruct s1 as [r1 g1 w1]. cbn [rq sv wd] in *. destruct Hg as (a & u & t & b & ->).
    destruct Hp as ([] & Ht & []).
    destruct He as [(_ & ->)|(_ & ->)]; (split_and!; [by split| |by split]); simpl; congruence.
  - intros E. destruct He as [(_ & Er)|(Hf & _)]; [|done]. rewrite Er in E. simpl in E. congruence.
Qed.

Lemma send_prepared data_fd st s s1 :
  (forall n w, fst (os_malloc n w) = true) -> (forall w, fst (os_sigbus w) = false) ->
  plain_get data_fd st s ->
  let mem := file_data data_fd (wd s) in
  prepared st mem data_fd (rq s) (rq s1) -> printable s1 -> mmap_only (sv s) (sv s1) ->
  (forall d, sent d (wd s1) = sent d (wd s)) ->
  (status (rq s1) = IOSHUFFLE -> file_data data_fd (wd s1) = mem) ->
  wp (ok ← whole_file;
      if negb ok then mret 0
      else if bool_decide (method (rq s1) = M_HEAD) then complete_response
      else init_get_fill)
    (fun _ s' => fd (rq s') = fd (rq s) /\ method (rq s') = method (rq s) /\
      serving mem 0 (zlen mem - 1) (stream s ++ ok_header (file_request st (rq s)) (sv s)) s') s1.
Proof.
  intros Hmalloc Hbus Hget mem Hprep Hp Hg Hsent Hdat.
  pose proof (prepared_header st mem data_fd (rq s) (rq s1) [mkRange 0 (zlen mem - 1)] _ _ Hprep Hg)
    as Hhdr.
  destruct Hget as [_ _ Hm Hv _ _ _ _ _ Hz Hdata _ _ _ Hroom].
  destruct Hprep as (Eb & Ebs & Ebe & _ & Efd & Em & Erg & Ev & Ec & Efs & _ & _ & Hmode).
  apply wp_bind. eapply wp_mono; [apply whole_file_wp; try done; [congruence|lia]|].
  intros ok s2 (-> & p & w & [Q1 Q2] & [B F S O] & R1 & R2). rewrite Efs, <- Hdata in *.
  change (zlen (file_data data_fd (wd s))) with (zlen mem) in *.
  rewrite Hhdr in O, R2. cbn [rq sv wd] in *. wps. rewrite bool_decide_false by congruence.
  destruct R2 as [St Be].
  { simpl. destruct Hmode as [(E & _)|(E & _)]; rewrite E; by vm_compute. }
  { simpl. by rewrite Ebe. }
  destruct O as [E|[_ O]].
  { simpl in St. destruct Hmode as [(E' & _)|(E' & _)]; congruence. }
  assert (Efd' : fd (rq s2) = fd (rq s)) by (rewrite (same_fd _ _ F); exact Efd).
  assert (Hstream : stream s2 = stream s ++ ok_header (file_request st (rq s)) (sv s)).
  { rewrite O. f_equal. unfold stream, pending. simpl. rewrite Eb, Ebs, Ebe, Efd, Q1, Hsent. done. }
  apply (wp_mono _ (fun _ s' => fd (rq s') = fd (rq s2) /\
    method (rq s') = method (rq s2) /\ serving mem 0 (zlen mem - 1) (stream s ++ ok_header (file_request st (rq s)) (sv s)) s')).
  2:{ intros n s' (E & E' & H). split; [congruence|]. split; [|exact H].
    rewrite E'. transitivity (method (rq s1)); [exact (f_equal method F)|done]. }
  apply init_get_fill_wp; [done|done|].
  unfold sending, single. rewrite Hstream. change (slice mem 0 (0 - 0)) with (@nil Z).
  rewrite app_nil_r.
  assert (F1 : method (rq s2) = method (rq s1)) by exact (f_equal method F).
  assert (F2 : response_status (rq s2) = R_REQUEST_OK) by exact (f_equal response_status F).
  assert (F3 : ranges (rq s2) = [mkRange 0 (zlen mem - 1)]) by exact (f_equal ranges F).
  assert (F4 : data_mem (rq s2) = data_mem (rq s1)) by exact (f_equal data_mem F).
  assert (F5 : Types.data_fd (rq s2) = Types.data_fd (rq s1)) by exact (f_equal Types.data_fd F).
  simpl in St.
  rewrite R1. cbn [wd]. rewrite F2. split_and!; try done; try congruence; try lia; [by left|].
  rewrite St, F4, F5, Q2. destruct Hmode as [H|(E1 & E2 & ->)]; [by left|right].
  split_and!; [done|done|by apply Hdat|lia].
Qed.

Lemma init_get_file_wp data_fd st s :
  (forall n w, fst (os_malloc n w) = true) -> (forall w, fst (os_sigbus w) = false) ->
  plain_get data_fd st s ->
  wp (init_get_file data_fd st) (fun _ s' =>
    fd (rq s') = fd (rq s) /\ method (rq s') = method (rq s) /\
    let mem := file_data data_fd (wd s) in
    serving mem 0 (zlen mem - 1)
      (stream s ++ ok_header (file_request st (rq s)) (sv s)) s') s.
Proof.
  intros Hmalloc Hbus Hget.
  pose proof Hget as [_ _ _ _ _ _ Hrg Hif Hreg Hz Hdata _ Hok Hc _].
  unfold init_get_file. wps. rewrite Hreg, bool_decide_true by done. cbn [negb]. rewrite Hif. wps.
  change (1 =? 0) with false. unfold init_get_changed. wps. rewrite (u64_small (st_size st)) by lia.
  change (filesize (set_header_ifrange _ _)) with (st_size st).
  destruct (Z.eqb_spec (st_size st) 0); [lia|].
  change (ranges (set_header_ifrange _ _)) with (ranges (rq s)). rewrite Hrg. wps.
  change (1 =? 0) with false. unfold init_get_send. wps.
  eapply wp_mono; [by apply (choose_source data_fd st (mkSt _ _ _))|].
  intros ? s1 Hs1. cbn [wd] in Hs1.
  destruct (source_prepared _ _ _ _ Hget Hs1) as (Hprep & Hp & Hg & Hsent & Hdat). wps.
  pose proof Hprep as (_ & _ & _ & _ & _ & _ & -> & _).
  pose proof (send_prepared data_fd st s s1 Hmalloc Hbus Hget Hprep Hp Hg Hsent Hdat) as H.
  apply wp_bind_inv in H. exact H.
Qed.
End start.

(** * The turns of the main loop *)

Section turns.
Context {os : OS} {laws : OSLaws os}.

(** A condition on a turn that begins in [s]: a write of what the buffer holds is not
    short.  It may fail or be refused, but when it succeeds it takes all of it.  The manual
    page of write does not promise this for a non-blocking socket, and the code depends on
    it: after a short write [req_flush] returns what is left as if the buffer had been
    emptied, and the handler sends file data in front of it ([short_flush_reorders]). *)
Definition flushes_whole (s : St) : Prop :=
  forall n w', os_write (fd (rq s)) (pending (rq s)) (wd s) = (SOk n, w') ->
    n = zlen (pending (rq s)).

Lemma flush_drains s :
  buf_ok (rq s) -> flushes_whole s -> wp req_flush (fun n s' => 0 <= n -> pending (rq s') = []) s.
Proof.
  intros Hok Ht. pose proof Hok as [Hl Hs Ho He]. unfold req_flush. wps.
  rewrite (u32_small (buffer_end (rq s) - buffer_start (rq s))) by (unfold BUFFER_SIZE in *; lia).
  destruct (_ <? _); wps; [lia|].
  destruct (Z.eqb_spec (buffer_end (rq s) - buffer_start (rq s)) 0) as [E0|E0].
  { apply wp_flush_finish; [done|]. intros r' _ _ _ Hp _. cbn [rq].
    rewrite Hp. unfold pending. apply slice_0. lia. }
  wps. apply load_wp; [lia|lia|unfold BUFFER_SIZE in *; lia|]. wps.
  apply wp_call. intros res w Hres.
  destruct res as [n|e]; [|destruct e; wps; lia].
  apply Ht in Hres as ->. rewrite zlen_pending by done. wps.
  apply wp_flush_finish; simpl; [split; simpl; lia || done|].
  intros r' _ _ _ Hp _. cbn [rq]. rewrite Hp. unfold pending. simpl. apply slice_0. lia.
Qed.

(** Sending to the client changes no file. *)
Lemma flush_files s :
  buf_ok (rq s) -> is_conn (fd (rq s)) (wd s) ->
  wp req_flush (fun _ s' => is_conn (fd (rq s)) (wd s') /\
    forall d, file_data d (wd s') = file_data d (wd s)) s.
Proof.
  intros Hok Hc. pose proof Hok as [Hl Hs Ho He]. unfold req_flush. wps.
  rewrite (u32_small (buffer_end (rq s) - buffer_start (rq s))) by (unfold BUFFER_SIZE in *; lia).
  destruct (_ <? _); wps; [by split|].
  destruct (Z.eqb_spec (buffer_end (rq s) - buffer_start (rq s)) 0) as [E0|E0].
  { apply wp_flush_finish; [done|]. by intros r'. }
  wps. apply load_wp; [lia|lia|unfold BUFFER_SIZE in *; lia|]. wps.
  apply wp_call. intros res w Hres.
  pose proof (write_bound (fd (rq s)) (slice (buffer (rq s)) (buffer_start (rq s))
                      (buffer_end (rq s) - buffer_start (rq s))) (wd s)) as Hb.
  rewrite zlen_slice in Hb by (unfold BUFFER_SIZE in *; lia).
  assert (Hw : is_conn (fd (rq s)) w /\ forall d, file_data d w = file_data d (wd s)).
  { split; [by eapply conn_write|]. intros d. by eapply write_data. }
  destruct res as [n|e]; [|destruct e; by wps].
  specialize (Hb n w Hres). wps. apply wp_flush_finish; simpl; [split; simpl; lia || done|].
  by intros r'.
Qed.

(** One transfer moves the work forward. *)
Lemma transfer_serving mem a b pre k s n s' :
  buf_ok (rq s) -> pending (rq s) = [] -> sending mem a b pre k s ->
  transfer mem (mkRange k b) [] s n s' ->
  fd (rq s') = fd (rq s) /\ serving mem a b pre s'.
Proof.
  intros Hok Hp Hsend (j & Hj & Hsent & Hz & Hdat & Hcase). cbn [start stop] in *.
  pose proof Hsend as (_ & _ & Hk & Hb & Hr & Hstr & _).
  assert (Hstream : stream s = sent (fd (rq s)) (wd s)).
  { unfold stream. by rewrite Hp, app_nil_r. }
  destruct s' as [r g w]. cbn [rq wd] in *.
  destruct Hcase as [(-> & -> & ->)|[(-> & -> & ->)|[(-> & Hj' & ->)|(-> & -> & ->)]]];
    (split; [done|]).
  - eapply (sending_rest _ _ _ _ k 0); try exact Hsend; try done; try lia.
    + by rewrite Z.add_0_r.
    + rewrite Hsent, slice_0, Hstream, Hp by done. by rewrite !app_nil_r.
  - left. split; [done|]. simpl.
    rewrite Hsent, slice_0, app_nil_r, <- Hstream, Hstr by done.
    exists (slice mem k (b - k + 1)). rewrite <- app_assoc. f_equal.
    replace (b - a + 1) with (k - a + (b - k + 1)) by lia.
    rewrite (slice_app mem a (k - a)) by lia. by replace (a + (k - a)) with k by lia.
  - eapply (sending_rest _ _ _ _ k j); try exact Hsend; try done; try lia.
    + by destruct Hok; split.
    + rewrite Hstream. simpl. rewrite Hsent.
      change (pending _) with (pending (rq s)). by rewrite Hp, app_nil_r.
  - eapply sending_end; [exact Hsend|by destruct Hok; split| |done].
    rewrite Hstream. simpl. rewrite Hsent.
    change (pending _) with (pending (rq s)). by rewrite Hp, app_nil_r.
Qed.

Lemma dead_prefix mem a b pre s s' :
  serving mem a b pre s -> sent (fd (rq s')) (wd s') = sent (fd (rq s)) (wd s) ->
  status (rq s') = DEAD -> serving mem a b pre s'.
Proof.
  intros H Es Hd. left. split; [done|]. rewrite Es.
  destruct H as [[_ H]|[_ [[_ H]|[k (_ & _ & Hk & Hb & _ & H & _)]]]]; [done|..].
  - rewrite <- H. unfold stream. by apply prefix_app_r.
  - transitivity (stream s); [unfold stream; by apply prefix_app_r|]. rewrite H.
    apply prefix_app. replace (b - a + 1) with (k - a + (b - k + 1)) by lia.
    rewrite (slice_app mem a (k - a)) by lia. by apply prefix_app_r.
Qed.

Lemma serving_moved mem a b pre s s' :
  serving mem a b pre s -> status (rq s) <> DEAD -> buf_ok (rq s') ->
  same_but_buffer (rq s) (rq s') -> status (rq s') = status (rq s) -> stream s' = stream s ->
  (forall d, file_data d (wd s') = file_data d (wd s)) -> serving mem a b pre s'.
Proof.
  intros H Hd Hok F Est Es Ew.
  destruct H as [[? _]|[_ H]]; [done|]. right. split; [done|]. rewrite Est, Es.
  destruct H as [H|[k H]]; [by left|right]. exists k.
  unfold sending, single in *. rewrite Est, Es, Ew.
  assert (method (rq s') = method (rq s)) as -> by exact (f_equal method F).
  assert (response_status (rq s') = response_status (rq s)) as ->
    by exact (f_equal response_status F).
  assert (numranges (rq s') = numranges (rq s)) as -> by exact (f_equal numranges F).
  assert (ranges (rq s') = ranges (rq s)) as -> by exact (f_equal ranges F).
  assert (data_mem (rq s') = data_mem (rq s)) as -> by exact (f_equal data_mem F).
  by assert (data_fd (rq s') = data_fd (rq s)) as -> by exact (f_equal data_fd F).
Qed.

Lemma flush_serving mem a b pre s :
  flushes_whole s -> is_conn (fd (rq s)) (wd s) ->
  serving mem a b pre s -> status (rq s) <> DEAD ->
  status_num (status (rq s)) <= status_num DONE ->
  wp req_flush (fun n s' => fd (rq s') = fd (rq s) /\ sv s' = sv s /\
    is_conn (fd (rq s)) (wd s') /\
    serving mem a b pre s' /\
    (n = -2 /\ status (rq s') = DEAD \/
     n = -1 \/
     0 <= n /\ status (rq s') = status (rq s) /\ pending (rq s') = [])) s.
Proof.
  intros Ht Hc Hs Hd Hle. assert (Hok : buf_ok (rq s)) by (destruct Hs as [[? _]|[? _]]; done).
  eapply wp_mono; [apply wp_and; [by apply req_flush_live|
    apply wp_and; [by apply flush_drains|by apply flush_files]]|].
  intros n s' [(Esv & F & Hok' & H) [Hp [Hc' Hw]]].
  assert (Efd : fd (rq s') = fd (rq s)) by (by apply same_fd). split_and!; try done.
  - destruct H as [(-> & Hdead & _ & Es)|[(-> & Er & Es)|(-> & Est & Hn & Es)]].
    + eapply dead_prefix; try done. by rewrite Efd.
    + eapply serving_moved; try done; [by rewrite Er|]. unfold stream. by rewrite Er, Es.
    + eapply serving_moved; try done. unfold stream. by rewrite Efd.
  - destruct H as [(-> & Hdead & _)|[(-> & _)|(-> & Est & Hn & _)]]; auto 8.
Qed.

(** The handler of one turn, behind the flush. *)
Lemma dispatch_serving mem a b pre s :
  is_conn (fd (rq s)) (wd s) -> 0 <= system_bufsize (sv s) < 2 ^ 31 ->
  serving mem a b pre s -> (status (rq s) <> DEAD -> pending (rq s) = []) ->
  wp dispatch (fun _ s' => fd (rq s') = fd (rq s) /\ serving mem a b pre s') s.
Proof.
  intros Hc Hsys Hs Hp. unfold dispatch. wps.
  destruct Hs as [[Hd H]|[Hok [[Hd H]|[k Hsend]]]].
  - rewrite Hd. unfold SQUASH_KA. wps. split; [done|]. by left.
  - rewrite Hd. wps. assert (Hs : serving mem a b pre s) by (right; auto).
    eapply wp_mono; [apply req_flush_live; [done|by rewrite Hd]|].
    intros n s' (_ & F & Hok' & Hn). assert (Efd : fd (rq s') = fd (rq s)) by (by apply same_fd).
    wps. destruct Hn as [(-> & _ & _ & Es)|[(-> & Er & Es)|(-> & Est & Hn & Es)]].
    + wps. split; [done|]. eapply dead_prefix; [exact Hs| |done]. simpl. by rewrite Efd.
    + wps. split; [done|]. right. split; [done|]. left. rewrite Er. split; [done|].
      unfold stream. by rewrite Er, Es.
    + destruct (Z.eqb_spec (buffer_end (rq s')) (-2)); [lia|]. wps. split; [done|].
      right. split; [done|]. left. split; [congruence|]. unfold stream. by rewrite Efd, Es.
  - pose proof Hsend as (Hm & Hsingle & Hk & Hb & Hr & _ & Hmode). unfold MAX_FILE_MMAP in *.
    destruct Hmode as [(Est & Hd & Hz)|(Est & _ & Hd & Hz)]; rewrite Est in *.
    + eapply wp_mono; [eapply (process_get_correct s mem (mkRange k b) []); simpl; try done; lia|].
      intros n s'. apply transfer_serving; [done|by apply Hp|done].
    + eapply wp_mono;
        [eapply (io_shuffle_sendfile_correct s (mkRange k b) []); simpl; try done; lia|].
      rewrite Hd. intros n s'. apply transfer_serving; [done|by apply Hp|done].
Qed.

(** One turn, in which the buffer is not written in part. *)
Lemma handle_serving mem a b pre s :
  flushes_whole s -> is_conn (fd (rq s)) (wd s) -> 0 <= system_bufsize (sv s) < 2 ^ 31 ->
  serving mem a b pre s ->
  wp handle (fun _ s' => fd (rq s') = fd (rq s) /\ serving mem a b pre s') s.
Proof.
  intros Ht Hc Hsys Hs. unfold handle. apply wp_bind.
  apply (wp_mono _ (fun n s' => fd (rq s') = fd (rq s) /\ sv s' = sv s /\
    is_conn (fd (rq s)) (wd s') /\ serving mem a b pre s' /\
    (n = 1 -> status (rq s') <> DEAD -> pending (rq s') = []))).
  { unfold flush_first. wps. destruct (Z.eqb_spec (buffer_end (rq s)) 0) as [E|E]; cbn [negb andb].
    - wps. split_and!; try done. intros _ Hd. destruct Hs as [[? _]|[Hok _]]; [done|].
      destruct Hok. apply slice_0. lia.
    - destruct (decide (status (rq s) = DEAD)) as [Ed|Ed].
      { rewrite Ed. wps. split_and!; try done. }
      assert (Hle : status_num (status (rq s)) <= status_num DONE).
      { destruct Hs as [[? _]|[_ [[-> _]|[k (_ & _ & _ & _ & _ & _ & H)]]]]; [done|done|].
        destruct H as [[-> _]|[-> _]]; by vm_compute. }
      replace (status_num (status (rq s)) <? status_num TIMED_OUT) with true.
      2:{ symmetry. apply Z.ltb_lt. change (status_num TIMED_OUT) with (status_num DONE + 1). lia. }
      wps. eapply wp_mono; [by apply (flush_serving mem a b pre s Ht Hc Hs)|].
      intros n s' (Efd & Esv & Hc' & Hs' & Hn). wps.
      destruct Hn as [(-> & Hd)|[->|(Hn & Est & Hp)]].
      + wps. split_and!; try done. by eapply dead_prefix.
      + wps. split_and!; try done.
      + destruct (Z.eqb_spec n (-2)); [lia|]. wps. split_and!; try done. }
  intros n s1 (Efd & Esv & Hc1 & Hs1 & Hp). apply wp_bind.
  apply (wp_mono _ (fun _ s' => fd (rq s') = fd (rq s) /\ serving mem a b pre s')).
  { destruct (Z.eqb_spec n 1) as [->|]; [|by wps]. rewrite <- Efd.
    apply dispatch_serving; [by rewrite Efd|by rewrite Esv|done|by apply Hp]. }
  intros n' s2 (Efd2 & Hs2). wps. unfold SQUASH_KA.
  destruct (negb _); wps; [|done]. split; [done|].
  destruct Hs2 as [H|[Hok H]]; [by left|]. right. split; [by destruct Hok; split|].
  destruct H as [H|[k H]]; [by left|right; by exists k].
Qed.

(** A turn of the request in which its buffer is not written in part, or what happens
    between two turns: the globals change, and the system, but nobody else writes to this
    connection or to the file. *)
Inductive turn : St -> St -> Prop :=
  | turn_handle s n s' :
      flushes_whole s -> is_conn (fd (rq s)) (wd s) -> 0 <= system_bufsize (sv s) < 2 ^ 31 ->
      handle s = Ret n s' -> turn s s'
  | turn_others s g w :
      sent (fd (rq s)) w = sent (fd (rq s)) (wd s) ->
      file_data (data_fd (rq s)) w = file_data (data_fd (rq s)) (wd s) ->
      turn s (mkSt (rq s) g w).

Lemma turns_serving mem a b pre s s' :
  rtc turn s s' -> serving mem a b pre s ->
  fd (rq s') = fd (rq s) /\ serving mem a b pre s'.
Proof.
  induction 1 as [s|s s1 s2 H _ IH]; [done|]. intros Hs.
  assert (H1 : fd (rq s1) = fd (rq s) /\ serving mem a b pre s1).
  { destruct H as [s n s1 Ht Hc Hb E|s g w Es Ew].
    - destruct (wp_elim _ _ _ (handle_serving _ _ _ _ _ Ht Hc Hb Hs)) as (n' & s' & E' & H').
      rewrite E in E'. by injection E' as -> ->.
    - split; [done|]. destruct Hs as [[Hd Hs]|[Hok [[Hd Hs]|[k Hs]]]].
      + left. simpl. by rewrite Es.
      + right. split; [done|]. left. unfold stream in *. simpl. by rewrite Es.
      + right. split; [done|]. right. exists k. unfold sending, stream in *. simpl.
        by rewrite Es, Ew. }
  destruct H1 as [E1 H1]. destruct (IH H1) as [E2 H2]. split; [congruence|done].
Qed.

(** What [serving] means for the client. *)
Definition delivered (all : bytes) (s s' : St) : Prop :=
  prefix (sent (fd (rq s)) (wd s')) all /\
  (status (rq s') = DONE -> sent (fd (rq s)) (wd s') ++ pending (rq s') = all).

Lemma serving_delivered mem a b pre s s' :
  fd (rq s') = fd (rq s) -> serving mem a b pre s' ->
  delivered (pre ++ slice mem a (b - a + 1)) s s'.
Proof.
  intros Efd Hs. unfold delivered. rewrite <- Efd. split.
  - destruct (dead_prefix mem a b pre s' (mkSt (set_status DEAD (rq s')) (sv s') (wd s')))
      as [[_ H]|[_ H]]; try done.
    destruct H as [[H _]|[k (_ & _ & _ & _ & _ & _ & [[H _]|[H _]])]]; done.
  - intros Hd. destruct Hs as [[H _]|[_ [[_ H]|[k (_ & _ & _ & _ & _ & _ & H)]]]]; [congruence|done|].
    rewrite Hd in H. by destruct H as [[H _]|[H _]].
Qed.

(** C7: a run of turns that sends one range of a file, from memory or from a descriptor,
    hands the bytes of the range over in order and without a gap, behind what was in the
    buffer; when the request is done, exactly these bytes are out or wait in the buffer.
    File data may go out in pieces of any size.  The one condition on the run is that in
    no turn a write of the buffer itself is short ([flushes_whole]), without which the
    statement is false of the code ([short_flush_reorders]); between the turns nobody
    else writes to the connection or to the file. *)
Theorem range_served mem a b pre s s' :
  buf_ok (rq s) -> sending mem a b pre a s -> rtc turn s s' ->
  delivered (pre ++ slice mem a (b - a + 1)) s s'.
Proof.
  intros Hok Hs Hr. destruct (turns_serving mem a b pre _ _ Hr) as [Efd H].
  { right. split; [done|]. right. by exists a. }
  by apply serving_delivered.
Qed.

(** A GET of a whole file of any size below 2^62: [init_get_file] returns,
    and the turns of the main loop that follow, if in none of them a write of the buffer is
    short, deliver the header of a 200 answer and the bytes of the file, in order and
    nothing else, behind what was already on the way. *)
Theorem file_served data_fd st s :
  (forall n w, fst (os_malloc n w) = true) -> (forall w, fst (os_sigbus w) = false) ->
  plain_get data_fd st s ->
  exists n s1, init_get_file data_fd st s = Ret n s1 /\
    forall s', rtc turn s1 s' ->
      delivered (stream s ++ ok_header (file_request st (rq s)) (sv s)
                 ++ file_data data_fd (wd s)) s s'.
Proof.
  intros Hmalloc Hbus Hget.
  destruct (wp_elim _ _ _ (init_get_file_wp _ _ _ Hmalloc Hbus Hget)) as (n & s1 & E & Efd & _ & Hs).
  exists n, s1. split; [done|]. intros s' Hr. cbv zeta in Hs.
  destruct (turns_serving _ _ _ _ _ _ Hr Hs) as [Efd' H].
  apply (serving_delivered _ _ _ _ s) in H; [|congruence].
  replace (zlen _ - 1 - 0 + 1) with (zlen (file_data data_fd (wd s))) in H by lia.
  change (slice ?l 0 ?n) with (ztake n l) in H. by rewrite ztake_ge, <- app_assoc in H by lia.
Qed.
End turns.

(** * A short write of the buffer *)

Section short.
Context {os : OS} {laws : OSLaws os}.

(** The flush of the buffer, cut short, leaves the rest in it and says "go on". *)
Lemma short_flush s n w :
  buf_ok (rq s) -> status_num (status (rq s)) <= status_num DONE ->
  os_write (fd (rq s)) (pending (rq s)) (wd s) = (SOk n, w) ->
  0 <= n < zlen (pending (rq s)) ->
  wp flush_first (fun v s' => v = 1 /\ buf_ok (rq s') /\ wd s' = w /\ sv s' = sv s /\
    rq s' = set_buffer_start (buffer_start (rq s) + n) (rq s)) s.
Proof.
  intros Hok Hst Hw Hn. rewrite zlen_pending in Hn by done.
  pose proof Hok as [Hl Hs Ho He]. unfold flush_first. wps.
  destruct (Z.eqb_spec (buffer_end (rq s)) 0); [lia|]. cbn [negb andb].
  replace (status_num (status (rq s)) <? status_num TIMED_OUT) with true.
  2:{ symmetry. apply Z.ltb_lt. change (status_num TIMED_OUT) with (status_num DONE + 1). lia. }
  wps. unfold req_flush. wps.
  rewrite (u32_small (buffer_end (rq s) - buffer_start (rq s))) by (unfold BUFFER_SIZE in *; lia).
  destruct (Z.ltb_spec (status_num DONE) (status_num (status (rq s)))); [lia|].
  destruct (Z.eqb_spec (buffer_end (rq s) - buffer_start (rq s)) 0); [lia|].
  wps. apply load_wp; [lia|lia|unfold BUFFER_SIZE in *; lia|]. wps.
  apply wp_call. intros res w1 E. unfold pending in Hw. rewrite Hw in E. injection E as <- <-.
  wps. unfold req_flush_end. wps. cbn [buffer_start set_buffer_start].
  change (buffer_end (set_buffer_start _ _)) with (buffer_end (rq s)).
  destruct (Z.eqb_spec (buffer_start (rq s) + n) (buffer_end (rq s))); [lia|]. wps.
  change (buffer_end (set_buffer_start _ _)) with (buffer_end (rq s)).
  destruct (Z.eqb_spec (buffer_end (rq s)) (-2)); [lia|]. wps.
  destruct (Z.leb_spec 0 (buffer_end (rq s))); [|lia]. split_and!; try done.
  split; simpl; (lia || exact Hl).
Qed.

(** A request that sends a mapped file from [k] on. *)
Definition mapped (mem : bytes) (k b : Z) (s : St) : Prop :=
  status (rq s) = WRITE /\ method (rq s) <> M_HEAD /\ single (rq s) /\
  data_mem (rq s) = Some mem /\ ranges (rq s) = [mkRange k b] /\
  0 <= k <= b /\ b < zlen mem <= MAX_FILE_MMAP /\ 0 < system_bufsize (sv s) < 2 ^ 32.

Lemma mapped_sends mem k b s w w' :
  mapped mem k b s -> os_sigbus (wd s) = (false, w) ->
  let want := Z.min (system_bufsize (sv s)) (b - k + 1) in
  os_write (fd (rq s)) (slice mem k want) w = (SOk want, w') ->
  wp process_get (fun _ s' => wd s' = w' /\ fd (rq s') = fd (rq s) /\
    pending (rq s') = pending (rq s)) s.
Proof.
  intros (_ & Hm & Hsingle & Hd & Hr & Hk & Hb & Hsys) Hbus want Hw.
  unfold MAX_FILE_MMAP in Hb. unfold process_get, first_range. wps.
  rewrite bool_decide_false by done. wps. rewrite Hr. eapply wp_checked; [done|]. wps.
  cbn [start stop]. rewrite (u64_small (b - k)), (u32_small (b - k + 1)) by lia.
  replace (if _ <? _ then _ else _) with want.
  2:{ subst want. destruct (Z.ltb_spec (system_bufsize (sv s)) (b - k + 1)); lia. }
  assert (Hwant : 0 < want <= b - k + 1) by (subst want; lia). clearbody want.
  apply wp_call. intros bus w1 E. rewrite Hbus in E. injection E as <- <-. wps. rewrite Hd.
  eapply wp_checked; [done|]. wps. apply load_wp; [lia..|]. wps.
  apply wp_call. intros res w2 E. cbn [wd] in E. rewrite Hw in E. injection E as <- <-.
  wps. unfold set_first_start. wps.
  change (ranges (set_bytes_written _ _)) with (ranges (rq s)). rewrite Hr. wps.
  destruct (_ =? 0); [|by wps]. eapply complete_single; [exact Hsingle|reflexivity|].
  by intros g.
Qed.

End short.

(** * Witnesses *)

Definition served_file : stat := mkStat S_REG 5 1 1 1.

Definition served_fields (r : request) : request :=
  set_status WRITE (set_method M_GET (set_http_version HTTP11 r)).

Definition served_state : St :=
  mkSt (os := scriptOS) (served_fields test_request) (set_system_bufsize 65536 test_server)
    (set_open_fds [(5, mkFile (bs "/f") served_file (bs "hello"))] empty_world).

Lemma served_printable : printable served_state.
Proof.
  destruct test_printable as (_ & _ & []).
  split_and!; [split; vm_compute; congruence|discriminate|by split].
Qed.

Lemma served_caches : caches (sv served_state) served_file (bs "hello").
Proof.
  intros i e He Hu. exfalso. apply Hu. unfold zget in He. case_match; [|done].
  by apply lookup_replicate in He as [-> _].
Qed.

Lemma served_mmap_ok : mmap_ok (sv served_state).
Proof. by destruct test_mmap_ok; split. Qed.

Lemma served_plain : plain_get 5 served_file served_state.
Proof.
  split.
  - exact served_printable.
  - reflexivity.
  - discriminate.
  - discriminate.
  - reflexivity.
  - reflexivity.
  - reflexivity.
  - reflexivity.
  - reflexivity.
  - by vm_compute.
  - reflexivity.
  - eexists. reflexivity.
  - exact served_mmap_ok.
  - exact served_caches.
  - vm_compute. discriminate.
Qed.

Lemma served_whole (s : St (os := scriptOS)) : writes (wd s) = [] -> flushes_whole s.
Proof.
  intros Hw n w' H. simpl in H. unfold script_write in H. rewrite Hw in H.
  injection H as <- _. rewrite Z.min_id. pose proof (zlen_nonneg (pending (rq s))). lia.
Qed.

(** What is left of the script of writes, the size of a write of file data, the
    descriptor of the request and the file opened on it. *)
Definition socket_state (_ : Z) (s : St) : list (sys Z) * Z * Z * option file :=
  (writes (wd s), system_bufsize (sv s), fd (rq s), find_fd (fd (rq s)) (wd s)).

Lemma small_bufsize b : (0 <=? b) && (b <? 2 ^ 31) = true -> 0 <= b < 2 ^ 31.
Proof. rewrite andb_true_iff, Z.leb_le, Z.ltb_lt. done. Qed.

Lemma calm_turn n b s m s' :
  seen socket_state (Ret n s) = Some ([], b, 7, None) -> 0 <= b < 2 ^ 31 ->
  handle s = Ret m s' -> turn s s'.
Proof.
  intros [= Ew Eb Ef Ec] Hb E. apply (turn_handle s m s'); [exact (served_whole _ Ew)|exact (free_conn _ _ Ec)|lia|exact E].
Qed.

Lemma served_start :
  seen socket_state (init_get_file 5 served_file served_state) = Some ([], 65536, 7, None).
Proof. vm_compute. reflexivity. Qed.

Lemma served_stream : stream served_state = [].
Proof. vm_compute. reflexivity. Qed.

Lemma served_fd : fd (rq served_state) = 7.
Proof. vm_compute. reflexivity. Qed.

Lemma served_data : file_data 5 (wd served_state) = bs "hello".
Proof. reflexivity. Qed.

Definition all_out (_ : Z) (s : St) : REQ_STATUS * bytes := (status (rq s), pending (rq s)).

Lemma served_turn :
  seen all_out ((init_get_file 5 served_file ≫= fun _ => handle) served_state) = Some (DONE, []).
Proof. vm_compute. reflexivity. Qed.

(** The header is written and the file with it; the turn after it sends both. *)
Lemma file_served_witness : exists n s1 m s2,
  init_get_file 5 served_file served_state = Ret n s1 /\ handle s1 = Ret m s2 /\
  sent 7 (wd s2) = ok_header (file_request served_file (rq served_state)) (sv served_state)
                   ++ bs "hello".
Proof.
  destruct (file_served 5 served_file served_state (fun _ _ => eq_refl) (fun _ => eq_refl)
    served_plain) as (n & s1 & E & H).
  destruct (seen_bind _ _ _ _ _ served_turn) as (n' & s1' & m & s2 & E1 & E2 & Eo).
  rewrite E in E1. injection E1 as <- <-. injection Eo as Ed Ep.
  pose proof served_start as Es. rewrite E in Es.
  exists n, s1, m, s2. split; [exact E|]. split; [exact E2|].
  destruct (H s2 (rtc_once _ _ (calm_turn n 65536 s1 m s2 Es (small_bufsize 65536 eq_refl) E2))) as [_ Hd].
  specialize (Hd Ed). rewrite Ep, app_nil_r, served_stream, app_nil_l, served_fd, served_data in Hd.
  exact Hd.
Defined.

(** Bytes 1 to 3 of a file, two bytes in each turn. *)
Definition range_state : St :=
  mkSt (os := scriptOS) (set_status WRITE (set_method M_GET (rq calm_state))) (sv calm_state)
    empty_world.

Lemma range_sending : sending (bs "hello") 1 3 [] 1 range_state.
Proof.
  split_and!; try done; [by left|]. left. by split_and!.
Qed.

Lemma range_buf : buf_ok (rq range_state).
Proof. split; vm_compute; congruence. Qed.

Lemma range_first :
  seen socket_state (handle range_state) = Some ([], 2, 7, None).
Proof. vm_compute. reflexivity. Qed.

Lemma range_second : seen all_out ((handle ≫= fun _ => handle) range_state) = Some (DONE, []).
Proof. vm_compute. reflexivity. Qed.

Lemma range_served_witness : exists n s1 m s2,
  handle range_state = Ret n s1 /\ handle s1 = Ret m s2 /\ sent 7 (wd s2) = bs "ell".
Proof.
  destruct (seen_bind _ _ _ _ _ range_second) as (n & s1 & m & s2 & E1 & E2 & Eo).
  injection Eo as Ed Ep. pose proof range_first as Es. rewrite E1 in Es.
  exists n, s1, m, s2. split; [exact E1|]. split; [exact E2|].
  assert (R : rtc turn range_state s2).
  { apply (rtc_l _ _ s1); [exact (calm_turn 0 2 range_state n s1 eq_refl (small_bufsize 2 eq_refl) E1)|].
    exact (rtc_once _ _ (calm_turn n 2 s1 m s2 Es (small_bufsize 2 eq_refl) E2)). }
  destruct (range_served (bs "hello") 1 3 [] range_state s2 range_buf range_sending R) as [_ H].
  specialize (H Ed). rewrite Ep, app_nil_r, app_nil_l in H. exact H.
Defined.

(** "HEADER" is in the buffer, the socket takes three bytes of it, and then everything. *)
Definition short_state : St :=
  mkSt (os := scriptOS)
    (set_status WRITE (set_buffer (bs "HEADER" ++ zeros (BUFFER_SIZE - 5)) (set_buffer_end 6
      (set_ranges [mkRange 0 4] (set_data_mem (Some (bs "hello")) (set_method M_GET
        (set_response_status 200 test_request)))))))
    (set_system_bufsize 16384 test_server) (set_writes [SOk 3] empty_world).

Lemma short_buf : buf_ok (rq short_state).
Proof. split; vm_compute; congruence. Qed.

Lemma short_mapped : mapped (bs "hello") 0 4 short_state.
Proof. split_and!; try done. by left. Qed.

Lemma short_sent : sent 7 (wd short_state) = [] /\ fd (rq short_state) = 7 /\
  pending (rq short_state) = bs "HEADER".
Proof. vm_compute. done. Qed.

