(* ===== verification/Confine.v ===== *)
(** Whatever the client asks for, the file or script that is served lies below one of
    the directories the configuration names: alias.c and the URI decoding of
    request.c together. *)

From S2P Require Import Prelude Types Machine Escape ScriptOS Buffer Util UtilProofs.
From S2P Require Import Dates Hash Response Access Alias AliasProofs Pointer Parse.
From S2P Require Import ParseProps.
From S2P Require Import Frame.

(** * Paths that do not climb *)

(** "../" is not a component: it occurs only behind another character of a name. *)
Definition no_climb (rest : bytes) : Prop :=
  forall a b, rest = a ++ bs "../" ++ b -> a <> [] /\ List.last a 0 <> 47.

(** [rest] is a part of the URI [u] that begins at a component. *)
Definition part_of (rest u : bytes) : Prop :=
  exists pre suf, u = pre ++ rest ++ suf /\
    (rest = [] \/ head rest = Some 47 \/ List.last pre 0 = 47).

Lemma last_snoc (l : bytes) : List.last l 0 = 47 -> exists l', l = l' ++ [47].
Proof.
  intros H. destruct l as [|x l _] using rev_ind; [done|].
  rewrite List.last_last in H. subst. by exists l.
Qed.

Lemma head_zdrop (l : bytes) i : 0 <= i -> head (zdrop i l) = zget l i.
Proof.
  intros H. unfold zdrop, zget. destruct (Z.leb_spec 0 i); [|lia].
  by rewrite head_lookup, lookup_drop, Nat.add_0_r.
Qed.

(** The part of a clean URI does not climb. *)
Lemma part_no_climb rest u : dot_free u -> part_of rest u -> no_climb rest.
Proof.
  intros Hu (pre & suf & -> & Hb) a b ->.
  assert (Hno : forall p, pre ++ a = p ++ [47] -> False).
  { intros p E. pose proof (Hu p ((bs "../" ++ b) ++ suf)) as H.
    rewrite <- !app_assoc in H. rewrite (app_assoc pre), E, <- app_assoc in H.
    specialize (H eq_refl). discriminate H. }
  assert (Ha : List.last a 0 <> 47).
  { intros [a' ->]%last_snoc. apply (Hno (pre ++ a')). by rewrite app_assoc. }
  split; [|done]. intros ->. destruct Hb as [|[|[p ->]%last_snoc]]; try done.
  by apply (Hno p), app_nil_r.
Qed.

Lemma part_prefix rest k u : part_of rest u -> part_of (ztake k rest) u.
Proof.
  intros (pre & suf & -> & Hb). exists pre, (zdrop k rest ++ suf).
  rewrite (app_assoc (ztake k rest)), ztake_zdrop. split; [done|].
  destruct Hb as [->|[Hb|Hb]]; [left|..|auto].
  - unfold ztake. by rewrite take_nil.
  - destruct (ztake k rest) eqn:E; [by left|]. right. left.
    rewrite <- (ztake_zdrop k rest), E in Hb. exact Hb.
Qed.

(** * The directories of the configuration *)

Section confine.
Context {os : OS}.

(** The calls made between the request and the file that was found: memory, and
    questions about files and users. *)
Inductive look : world -> world -> Prop :=
  | look_malloc n w b w' : os_malloc n w = (b, w') -> look w w'
  | look_stat path w st w' : os_stat path w = (st, w') -> look w w'
  | look_access path w b w' : os_access path w = (b, w') -> look w w'.

Definition looked : world -> world -> Prop := rtc look.

(** The home directory of a user: what the system answers for this very name, or what
    the server kept of such an answer. *)
Inductive home_of (g : server) (w : world) (name : bytes) : bytes -> Prop :=
  | home_kept i b e :
      passwd_hashtable g !! i = Some b -> e ∈ b -> key e = name ->
      home_of g w name (value e)
  | home_asked w1 home w2 :
      looked w w1 -> os_getpwnam name w1 = (Some home, w2) -> home_of g w name home.

(** The name of the user in a URI "/~name" or "/~name/...". *)
Definition user_in (u name : bytes) : Prop :=
  exists p, u = bs "/~" ++ name ++ p /\ 47 ∉ name /\ (p = [] \/ head p = Some 47).

(** The directory of a script alias in a virtual host. *)
Definition script_dir (g : server) (ip : bytes) (host : option bytes) (u base : bytes) : Prop :=
  exists a i b vr h,
    alias_hashtable g !! i = Some b /\ a ∈ b /\ covers a u /\ atype a = SCRIPTALIAS /\
    vhost_root g = Some vr /\ host = Some h /\
    base = vr ++ [47] ++ ip ++ [47] ++ h ++ [47] ++ realname a.

(** The directories that the request for [u] may be served from; [ip] is the address the
    client connected to, [host] the checked name of the virtual host and [w] the world
    the request is translated in. *)
Inductive base_of (g : server) (w : world) (ip : bytes) (host : option bytes) (u : bytes) :
    bytes -> Prop :=
  | base_root d :
      vhost_root g = None -> document_root g = Some d -> virtualhost g = false ->
      base_of g w ip host u d
  | base_address d :
      vhost_root g = None -> document_root g = Some d -> virtualhost g = true ->
      base_of g w ip host u (d ++ [47] ++ ip)
  | base_host vr h :
      vhost_root g = Some vr -> host = Some h ->
      base_of g w ip host u (vr ++ [47] ++ ip ++ [47] ++ h ++ [47] ++ bs "htdocs")
  | base_user udir name home :
      user_dir g = Some udir -> user_in u name -> home_of g w name home ->
      base_of g w ip host u (home ++ [47] ++ udir)
  | base_alias a i b :
      alias_hashtable g !! i = Some b -> a ∈ b -> covers a u ->
      (vhost_root g = None \/ atype a = ALIAS) ->
      base_of g w ip host u (realname a)
  | base_script base : script_dir g ip host u base -> base_of g w ip host u base.

(** stat and access call the file a regular and executable one. *)
Definition executable (w : world) (path : bytes) : Prop :=
  exists w1 st w2 w3, looked w w1 /\ os_stat path w1 = (Some st, w2) /\
    st_mode st = S_REG /\ os_access path w2 = (true, w3).

(** The path [base] up to one of its slashes. *)
Definition above (path base : bytes) : Prop := exists t, base = path ++ [47] ++ t.

(** The path lies below one of the directories, by a part of the URI that does not climb;
    or a component of what should be the directory is a script itself (the search of
    [init_script_alias] begins [real_len] bytes into the path, which in a virtual host
    is in the middle of the directory). *)
Inductive confined (g : server) (w : world) (ip : bytes) (host : option bytes) (u : bytes) :
    bytes -> Prop :=
  | confined_below base rest :
      base_of g w ip host u base -> part_of rest u ->
      confined g w ip host u (base ++ rest)
  | confined_above base path :
      script_dir g ip host u base -> above path base -> executable w path ->
      confined g w ip host u path.

(** A result other than 0 promises [P]. *)
Definition answers (P : St -> Prop) (m : M Z) (s : St) : Prop :=
  wlp m (fun n s' => n <> 0 -> P s') s.

Lemma wlp_upd f (Q : unit -> St -> Prop) s :
  Q tt (mkSt (f (rq s)) (sv s) (wd s)) -> wlp (upd f) Q s.
Proof. done. Qed.

Lemma answers_page P (m : M unit) s : answers P (m ;; mret 0) s.
Proof. apply wlp_bind, wlp_any. intros [] s'. by apply wlp_ret. Qed.

Lemma strdup_wlp set v (Q : bool -> St -> Prop) s :
  (forall w, Q true (mkSt (set (Some v) (rq s)) (sv s) w)) -> (forall s', Q false s') ->
  wlp (strdup_to set v) Q s.
Proof.
  intros Ht Hf. unfold strdup_to. wlps. intros [] w.
  - unfold wlp. simpl. apply Ht.
  - apply wlp_bind, wlp_upd. cbn [rq sv wd]. apply wlp_bind, wlp_any. intros ? s'.
    apply wlp_ret, Hf.
Qed.

Lemma uri_wlp (Q : bytes -> St -> Prop) s :
  (forall u, cstr (request_uri (rq s)) 0 = Some u -> Q u s) -> wlp uri Q s.
Proof. intros H. unfold uri. wlps. by apply wlp_checked. Qed.

(** * The plain branches *)

Lemma fits_wlp size path (Q : option bytes -> St -> Prop) s :
  (forall s', Q None s') -> Q (Some path) s -> wlp (fits size path) Q s.
Proof.
  intros Hn Hs. unfold fits. destruct (_ <? _); [|done].
  apply wlp_bind, wlp_any. intros ? s'. by apply wlp_ret.
Qed.

Lemma part_all u : head u = Some 47 -> part_of u u.
Proof. exists [], []. rewrite app_nil_r. auto. Qed.

(** [confined] for the state at the start of [translate_uri]. *)
Definition below (s : St) (u path : bytes) : Prop :=
  confined (sv s) (wd s) (local_ip_addr (rq s)) (host (rq s)) u path.

(** A file name was found, or a page was sent. *)
Definition found (s : St) (u : bytes) (b : option bytes) (s' : St) : Prop :=
  forall path, b = Some path -> rq s' = rq s /\ below s u path.

Lemma root_path_wlp u s :
  head u = Some 47 -> wlp (root_path u) (found s u) s.
Proof.
  intros Hu. unfold root_path. wlps.
  assert (Hc : forall base, base_of (sv s) (wd s) (local_ip_addr (rq s)) (host (rq s)) u base ->
    found s u (Some (base ++ u)) s).
  { intros base Hb path [= <-]. split; [done|]. apply confined_below; auto using part_all. }
  destruct (vhost_root (sv s)) as [vr|] eqn:Hvr.
  - wlps. intros h Hh. apply fits_wlp; [done|].
    replace (vr ++ [47] ++ local_ip_addr (rq s) ++ [47] ++ h ++ [47] ++ bs "htdocs" ++ u)
      with ((vr ++ [47] ++ local_ip_addr (rq s) ++ [47] ++ h ++ [47] ++ bs "htdocs") ++ u)
      by (by rewrite <- !app_assoc).
    apply Hc. by eapply base_host.
  - destruct (document_root (sv s)) as [d|] eqn:Hd.
    + destruct (virtualhost (sv s)) eqn:Hv; (apply fits_wlp; [done|]).
      * replace (d ++ [47] ++ local_ip_addr (rq s) ++ u)
          with ((d ++ [47] ++ local_ip_addr (rq s)) ++ u) by (by rewrite <- !app_assoc).
        by apply Hc, base_address.
      * by apply Hc, base_root.
    + apply wlp_bind, wlp_any. intros ? s'. by apply wlp_ret.
Qed.

Lemma same_request_get_home_dir name : same_request (get_home_dir name).
Proof. unfold get_home_dir, hash_find, hash_insert. same_request. Qed.

Lemma bucket_find_kept g i b w name e :
  passwd_hashtable g !! i = Some b -> bucket_find b name = Some e -> home_of g w name (value e).
Proof.
  intros Hb [Hin Hk]%find_some. apply list_elem_of_In in Hin.
  eapply home_kept; [exact Hb|exact Hin|]. by apply bool_decide_eq_true_1 in Hk.
Qed.

Lemma wlp_both {A} (m : M A) (Q Q' : A -> St -> Prop) s :
  wlp m Q s -> wlp m Q' s -> wlp m (fun a s' => Q a s' /\ Q' a s') s.
Proof. unfold wlp. destruct (m s); eauto. Qed.

Lemma zget_lookup {A} (l : list A) i x : zget l i = Some x -> l !! Z.to_nat i = Some x.
Proof. unfold zget. by destruct (0 <=? i). Qed.

(** What [hash_insert] says of the entry: its value is the one inserted, or one that the
    bucket had. *)
Lemma hash_insert_wlp g w name home i (Q : table * option hash_struct -> St -> Prop) s :
  home_of g w name home ->
  (forall t e s', (forall v, value <$> e = Some v -> home_of g w name v) -> Q (t, e) s') ->
  wlp (hash_insert (passwd_hashtable g) i (Some name) (Some home)) Q s.
Proof.
  intros Hh HQ. unfold hash_insert.
  destruct name as [|x l]; [apply wlp_ret, HQ; done|].
  destruct home as [|y home]; [apply wlp_ret, HQ; done|]. wlps. intros b Hb%zget_lookup.
  destruct (bucket_find b (x :: l)) as [e|] eqn:Ef.
  - apply wlp_ret, HQ. intros v [= <-]. by eapply bucket_find_kept.
  - wlps. intros [] w1; cbn [negb]; [|by apply wlp_ret, HQ]. wlps. intros ok1 w2. wlps.
    intros ok2 w3. destruct (_ || _); [by apply wlp_ret, HQ|]. wlps. apply HQ.
    by intros v [= <-].
Qed.

(** [get_home_dir] gives the home directory of the very user it is asked for. *)
Lemma get_home_dir_wlp name s :
  wlp (get_home_dir name) (fun r s' => rq s' = rq s /\
    forall home, r = Some home -> home_of (sv s) (wd s) name home) s.
Proof.
  apply wlp_both; [apply same_request_get_home_dir|]. unfold get_home_dir. wlps.
  apply wlp_bind. unfold hash_find. wlps. intros b Hb%zget_lookup.
  destruct name as [|x l].
  - wlps. intros [home|] w; by wlps.
  - wlps. destruct (bucket_find b (x :: l)) as [e|] eqn:Ef.
    { wlps. intros home [= <-]. by eapply bucket_find_kept. }
    apply wlp_bind, wlp_call_eq. intros [home|] w E; [|by wlps].
    apply wlp_bind, (hash_insert_wlp (sv s) (wd s) (x :: l) home); [|intros t e s' He; by wlps].
    eapply home_asked; [apply rtc_refl|exact E].
Qed.

Lemma strchr_None l c : strchr l c = None -> c ∉ l.
Proof.
  induction l as [|x l IH]; simpl; [intros _; apply not_elem_of_nil|].
  destruct (Z.eqb_spec x c); [done|]. intros H%fmap_None. rewrite elem_of_cons. naive_solver.
Qed.

Lemma strchr_first l c k : strchr l c = Some k -> c ∉ ztake k l.
Proof.
  revert k. induction l as [|x l IH]; intros k; simpl; [done|].
  destruct (Z.eqb_spec x c); [intros [= <-]; apply not_elem_of_nil|].
  intros (j & Hj & ->)%fmap_Some. pose proof (strchr_Some _ _ _ Hj) as [? _].
  unfold ztake. replace (Z.to_nat (Z.succ j)) with (S (Z.to_nat j)) by lia. simpl.
  rewrite elem_of_cons. specialize (IH j Hj). naive_solver.
Qed.

Lemma same_request_get_mime_type name : same_request (get_mime_type name).
Proof. unfold get_mime_type, hash_find. same_request. Qed.

Lemma user_split u :
  head u = Some 47 -> zget u 1 = Some 126 ->
  let req_urip := zdrop 2 u in
  let np := match strchr req_urip 47 with
            | Some k => (ztake k req_urip, zdrop k req_urip)
            | None => (req_urip, [])
            end in
  user_in u np.1 /\ part_of np.2 u.
Proof.
  intros H0 H1 req_urip np.
  assert (Eu : u = bs "/~" ++ req_urip).
  { destruct u as [|a [|b u]]; try done. simpl in H0. injection H0 as ->.
    unfold zget in H1. simpl in H1. by injection H1 as ->. }
  subst np. destruct (strchr req_urip 47) as [k|] eqn:Ek; simpl.
  - pose proof (strchr_Some _ _ _ Ek) as [Hk Hat].
    assert (Hh : head (zdrop k req_urip) = Some 47) by (by rewrite head_zdrop by lia).
    split.
    + exists (zdrop k req_urip). rewrite ztake_zdrop. split_and!; [done| |by right].
      by apply strchr_first.
    + exists (ztake 2 u ++ ztake k req_urip), [].
      rewrite app_nil_r, <- app_assoc, ztake_zdrop. split; [symmetry; apply ztake_zdrop|auto].
  - split; [|exists u, []; rewrite app_nil_r; auto].
    exists []. rewrite app_nil_r. split_and!; [done|by apply strchr_None|by left].
Qed.

Lemma userdir_path_wlp udir u s :
  user_dir (sv s) = Some udir -> head u = Some 47 -> zget u 1 = Some 126 ->
  wlp (userdir_path udir u) (found s u) s.
Proof.
  intros Hud H0 H1. unfold userdir_path. destruct (zlen u =? 2).
  { apply wlp_bind, wlp_any. intros ? s'. by apply wlp_ret. }
  cbv zeta. pose proof (user_split u H0 H1) as Hs. cbv zeta in Hs.
  destruct (match strchr (zdrop 2 u) 47 with Some k => _ | None => _ end) as [name p].
  destruct Hs as [Hname Hp]. simpl in Hname, Hp.
  apply wlp_bind. eapply wlp_mono; [apply get_home_dir_wlp|]. intros [home|] s1 [Er Hh].
  - apply fits_wlp; [done|]. intros path [= <-]. split; [done|]. unfold below.
    change (home ++ 47 :: udir ++ p) with (home ++ [47] ++ udir ++ p).
    rewrite (app_assoc [47]), (app_assoc home).
    apply confined_below; [|done]. eapply base_user; eauto.
  - apply wlp_bind, wlp_any. intros ? s'. by apply wlp_ret.
Qed.

Lemma plain_path_wlp u s : head u = Some 47 -> wlp (plain_path u) (found s u) s.
Proof.
  intros Hu. unfold plain_path. wlps. destruct (user_dir (sv s)) as [udir|] eqn:Hud;
    [|by apply root_path_wlp].
  destruct (Z.eqb_spec (default 0 (zget u 1)) 126) as [E|]; [|by apply root_path_wlp].
  apply userdir_path_wlp; [done|done|]. destruct (zget u 1); [simpl in E; by subst|done].
Qed.

(** The file name in the request lies below a directory of the configuration. *)
Definition placed (s : St) (u : bytes) (s' : St) : Prop :=
  exists path, pathname (rq s') = Some path /\ below s u path.

Lemma classify_wlp path u s P :
  (forall s', pathname (rq s') = pathname (rq s) -> P s') -> answers P (classify path u) s.
Proof.
  intros HP. unfold answers, classify.
  apply same_request_then; [apply same_request_get_mime_type|]. intros mime s1 E1. wlps.
  destruct (streq CGI_MIME_TYPE mime).
  - apply wlp_bind. apply strdup_wlp; [|intros s2; cbn [negb]; by wlps]. intros w. cbn [negb].
    apply wlp_bind, wlp_upd. cbn [rq sv wd]. wlps. intros _. apply HP. by rewrite <- E1.
  - case_bool_decide; [apply wlp_bind, wlp_any; intros ? s2; wlps; done|].
    wlps. intros _. apply HP. by rewrite E1.
Qed.

Lemma plain_answers u s :
  head u = Some 47 ->
  answers (placed s u)
    (b ← plain_path u;
     match b with
     | None => mret 0
     | Some buffer =>
         ok ← strdup_to set_pathname buffer;
         if negb ok then mret 0 else classify buffer u
     end) s.
Proof.
  intros Hu. apply wlp_bind. eapply wlp_mono; [by apply plain_path_wlp|].
  intros [path|] s1 Hf; [|by wlps]. destruct (Hf path eq_refl) as [E Hb].
  apply wlp_bind, strdup_wlp; [|intros s2; cbn [negb]; by wlps]. intros w. cbn [negb].
  apply classify_wlp. intros s2 E2. exists path. split; [by rewrite E2|exact Hb].
Qed.

(** * Aliases *)

(** The alias [a] of the table covers the URI. *)
Definition alias_for (g : server) (u : bytes) (a : alias) : Prop :=
  covers a u /\ fake_len a = zlen (fakename a) /\ real_len a = zlen (realname a) /\
  exists i b, alias_hashtable g !! i = Some b /\ a ∈ b.

Lemma find_alias_wlp u s :
  alias_ok (alias_hashtable (sv s)) -> nonul u = true ->
  wlp (find_alias u) (fun r s' => s' = s /\ forall a, r = Some a -> alias_for (sv s) u a) s.
Proof.
  intros [Hl He] Hn. unfold find_alias. wlps. intros b Hb. wlps. split; [done|].
  intros a Hf. apply find_some in Hf as [Hin Hm]. apply list_elem_of_In in Hin.
  assert (Hb' : alias_hashtable (sv s) !! Z.to_nat (get_alias_hash_value u) = Some b).
  { unfold zget in Hb. by destruct (Z.leb_spec 0 (get_alias_hash_value u)). }
  destruct (He _ _ _ Hb' Hin) as (_ & ? & ? & ?).
  split_and!; [by apply alias_match_covers|done|done|eauto].
Qed.

(** What is behind the name of the alias begins at a component. *)
Lemma covers_part a u :
  covers a u -> fake_len a = zlen (fakename a) -> part_of (zdrop (fake_len a) u) u.
Proof.
  intros (t & -> & Ht) ->. rewrite zdrop_app_exact by done.
  exists (fakename a), []. rewrite app_nil_r. split; [done|]. tauto.
Qed.

Lemma alias_answers u a s :
  alias_for (sv s) u a -> atype a = ALIAS -> answers (placed s u) (translate_alias a u) s.
Proof.
  intros (Hc & Hf & Hr & i & b & Hi & Ha) Ht. unfold answers, translate_alias. wlps.
  rewrite Ht. apply wlp_bind, fits_wlp; [intros s'; by wlps|].
  apply wlp_bind, strdup_wlp; [|intros s'; cbn [negb]; by wlps]. intros w. wlps. intros _.
  eexists. split; [done|]. apply confined_below; [|by apply covers_part].
  eapply base_alias; eauto.
Qed.
End confine.

(** * The buffer of init_script_alias *)

(** The buffer holds the string [X], ended by a NUL at [i] in place of what [X] has
    there. *)
Definition script_buf (X : bytes) (i : Z) (a : bytes) : Prop :=
  forall j, 0 <= j <= zlen X -> zget a j = if decide (j = i) then Some 0 else zget (X ++ [0]) j.

Lemma zget_app_l (l r : bytes) j : 0 <= j < zlen l -> zget (l ++ r) j = zget l j.
Proof.
  intros H. unfold zget. destruct (Z.leb_spec 0 j); [|lia]. apply lookup_app_l. zlia.
Qed.

Lemma zget_blit1 (a b : bytes) i x j :
  blit a i [x] = Some b -> zget b j = if decide (j = i) then Some x else zget a j.
Proof.
  intros (Hi & Hl & ->)%blit_inv. change (zlen [x]) with 1 in *. unfold zget.
  assert (E : ztake i a ++ [x] ++ zdrop (i + 1) a = <[Z.to_nat i := x]> a).
  { rewrite insert_take_drop by zlia. unfold ztake, zdrop.
    by replace (Z.to_nat (i + 1)) with (S (Z.to_nat i)) by lia. }
  rewrite E. destruct (Z.leb_spec 0 j); case_decide; try lia; [|..|done].
  - subst. apply list_lookup_insert_eq. zlia.
  - apply list_lookup_insert_ne. lia.
Qed.

Lemma nonul_zget (l : bytes) j : nonul l = true -> zget l j <> Some 0.
Proof.
  unfold nonul, zget. rewrite forallb_forall. intros H E. case_match; [|done].
  apply list_elem_of_lookup_2, list_elem_of_In, H in E. done.
Qed.

Lemma zget_snoc (X : bytes) c : zget (X ++ [c]) (zlen X) = Some c.
Proof. by rewrite zget_app_next. Qed.

(** The string in the buffer is what is before the cut. *)
Lemma script_buf_cstr X i a p :
  nonul X = true -> 0 <= i -> script_buf X i a -> cstr a 0 = Some p -> p = ztake i X.
Proof.
  intros HX Hi Hbuf Hp. unfold cstr in Hp. simpl in Hp.
  change (zdrop 0 a) with a in Hp. apply until_nul_split in Hp as (Hn & r & ->).
  pose proof (zlen_nonneg p). pose proof (zlen_nonneg X).
  assert (Hz : zget (p ++ 0 :: r) (zlen p) = Some 0) by (by rewrite zget_app_next).
  assert (Hc : forall k, 0 <= k < zlen p -> zget p k <> Some 0) by (intros; by apply nonul_zget).
  assert (Hnul : forall k, 0 <= k <= zlen X -> k < zlen p ->
    k <> i /\ zget p k = zget (X ++ [0]) k).
  { intros k Hk Hkp. pose proof (Hbuf k Hk) as E. rewrite zget_app_l in E by lia.
    case_decide; [|done]. by apply Hc in E; [|lia]. }
  assert (Hle : zlen p <= Z.min i (zlen X)).
  { apply Z.nlt_ge. intros Hlt. destruct (Z.le_gt_cases i (zlen X)).
    - by destruct (Hnul i) as [? _]; [lia..|].
    - destruct (Hnul (zlen X)) as [_ E]; [lia..|]. rewrite zget_snoc in E.
      by apply Hc in E; [|lia]. }
  assert (El : zlen p = Z.min i (zlen X)).
  { apply Z.le_antisymm; [done|]. apply Z.nlt_ge. intros Hlt.
    pose proof (Hbuf (zlen p) ltac:(lia)) as E. rewrite Hz in E. case_decide; [lia|].
    rewrite zget_app_l in E by lia. by apply (nonul_zget X (zlen p)). }
  apply list_eq. intros j. unfold ztake. destruct (decide (j < length p)%nat) as [Hj|Hj].
  - rewrite lookup_take_lt by zlia. destruct (Hnul (Z.of_nat j)) as [_ E]; [zlia..|].
    rewrite zget_app_l in E by zlia. unfold zget in E.
    destruct (Z.leb_spec 0 (Z.of_nat j)); [|lia]. by rewrite Nat2Z.id in E.
  - rewrite lookup_ge_None_2 by lia. symmetry. apply lookup_ge_None_2.
    rewrite length_take. zlia.
Qed.

(** A NUL at [i], and the slash put back. *)
Lemma script_buf_cut X a i b :
  script_buf X (zlen X) a -> blit a i [0] = Some b -> script_buf X i b.
Proof.
  intros Hbuf Hb j Hj. rewrite (zget_blit1 _ _ _ _ _ Hb). case_decide; [done|].
  rewrite (Hbuf j Hj). case_decide; [subst; by rewrite zget_snoc|done].
Qed.

Lemma script_buf_restore X a i b c :
  script_buf X (zlen X) a -> zget a i = Some 47 -> blit a i [0] = Some b ->
  blit b i [47] = Some c -> script_buf X (zlen X) c.
Proof.
  intros Hbuf Hi Hb Hc j Hj. rewrite (zget_blit1 _ _ _ _ _ Hc), (zget_blit1 _ _ _ _ _ Hb).
  rewrite <- (Hbuf j Hj). case_decide; [by subst|done].
Qed.

Lemma script_buf_fill X a b : blit a 0 (X ++ [0]) = Some b -> script_buf X (zlen X) b.
Proof.
  intros (_ & Hl & ->)%blit_inv j Hj. change (ztake 0 a) with (@nil Z). cbn [app].
  rewrite zget_app_l by (rewrite zlen_app; change (zlen [0]) with 1; lia).
  case_decide; [subst; apply zget_snoc|done].
Qed.

(** A slash of the buffer is one of [X]. *)
Lemma script_buf_at X a i c :
  script_buf X (zlen X) a -> 0 <= i <= zlen X -> zget a i = Some c -> zget (X ++ [0]) i = Some c.
Proof.
  intros Hbuf Hi Hc. rewrite (Hbuf i Hi) in Hc. case_decide; [subst; by rewrite zget_snoc|done].
Qed.

Section scripts.
Context {os : OS}.

Definition buf_inv (X : bytes) (s : St) : Prop :=
  script_buf X (zlen X) (script_pathname (sv s)).

Lemma poke_wlp i c (Q : unit -> St -> Prop) s :
  (forall a, blit (script_pathname (sv s)) i [c] = Some a ->
     Q tt (mkSt (rq s) (set_script_pathname a (sv s)) (wd s))) -> wlp (poke i c) Q s.
Proof. intros H. unfold poke. wlps. intros a Ha. wlps. by apply H. Qed.

Lemma peek_wlp i (Q : bytes -> St -> Prop) s :
  (forall p, cstr (script_pathname (sv s)) i = Some p -> Q p s) -> wlp (peek i) Q s.
Proof. intros H. unfold peek. wlps. by apply wlp_checked. Qed.

Lemma looked_step w0 w w' : looked w0 w -> look w w' -> looked w0 w'.
Proof. intros H1 H2. by eapply rtc_r. Qed.

(** Where the search stops: at the end of the string, or at a slash behind the name of an
    executable file. *)
Definition stopped (w0 : world) (X : bytes) (i c : Z) (s : St) : Prop :=
  c = 0 \/ c = 47 /\ zget (script_pathname (sv s)) i = Some 47 /\ executable w0 (ztake i X).

Lemma script_scan_wlp X m w0 fuel i s :
  nonul X = true -> buf_inv X s -> 0 <= m <= i -> looked w0 (wd s) ->
  wlp (script_scan fuel i) (fun r s' => forall i' c, r = Some (i', c) ->
    rq s' = rq s /\ buf_inv X s' /\ m < i' /\ stopped w0 X i' c s') s.
Proof.
  intros HX. revert i s. induction fuel as [|fuel IH]; intros i s Hb Hi Hw; [done|].
  cbn [script_scan]. wlps. intros c Hc. destruct (Z.eqb_spec c 47) as [->|].
  - apply wlp_bind, poke_wlp. intros a Ha. apply wlp_bind, peek_wlp. cbn [sv].
    intros path Hpath.
    assert (Hcut : script_buf X (i + 1) a) by (by eapply script_buf_cut).
    apply (script_buf_cstr X (i + 1)) in Hpath as ->; [|done|lia|done].
    apply wlp_bind, wlp_call_eq. cbn [rq sv wd]. intros st w1 Est.
    assert (Hw1 : looked w0 w1) by (eapply looked_step; [exact Hw|by eapply look_stat]).
    destruct st as [st|]; [|apply wlp_bind, wlp_any; intros ? s'; by wlps].
    case_bool_decide as Hdir.
    + apply wlp_bind, poke_wlp. intros b Hb2. cbn [sv] in Hb2.
      refine (wlp_mono _ _ _ _ (IH (i + 1) _ _ _ _) _);
        [exact (script_buf_restore X _ _ _ _ Hb Hc Ha Hb2)|lia|exact Hw1|done].
    + apply wlp_bind. eapply wlp_mono.
      { instantiate (1 := fun ok s' => rq s' = rq s /\ script_pathname (sv s') = a /\
          (ok = true -> executable w0 (ztake (i + 1) X))).
        case_bool_decide; [|by wlps]. apply wlp_call_eq. cbn [rq sv wd]. intros [] w2 Eac;
          (split_and!; [done|done|]); [|done]. intros _. exists (wd s), st, w1, w2. auto. }
      intros ok s' (Er & Es & Hx). destruct ok; cbn [negb];
        [|apply wlp_bind, wlp_any; intros ? s2; by wlps].
      apply wlp_bind, poke_wlp. rewrite Es. intros b Hb2. wlps. intros i' c [= <- <-].
      split_and!; [done|exact (script_buf_restore X _ _ _ _ Hb Hc Ha Hb2)|lia|].
      right. split_and!; [done| |by apply Hx]. cbn [sv script_pathname set_script_pathname].
      rewrite (zget_blit1 _ _ _ _ _ Hb2). by rewrite decide_True.
  - destruct (Z.eqb_spec c 0) as [->|]; [|by apply IH; [|lia|]].
    wlps. intros i' c' [= <- <-]. split_and!; [done|done|lia|by left].
Qed.

(** The directories the script is looked for below, and the rest of the URI. *)
Definition script_base (g : server) (r : request) (a : alias) : bytes :=
  match vhost_root g with
  | Some vr =>
      vr ++ [47] ++ local_ip_addr r ++ [47] ++ default [] (host r) ++ [47] ++ realname a
  | None => realname a
  end.

Lemma script_base_length g r a : real_len a = zlen (realname a) -> real_len a <= zlen (script_base g r a).
Proof.
  intros ->. unfold script_base. destruct (vhost_root g) as [b0|]; [|lia].
  rewrite !zlen_app. pose proof (zlen_nonneg b0). pose proof (zlen_nonneg (local_ip_addr r)).
  pose proof (zlen_nonneg (default [] (host r))). change (zlen [47]) with 1. lia.
Qed.

Lemma page_false (m : M unit) (Q : bool -> St -> Prop) s :
  (forall s', Q false s') -> wlp (m ;; mret false) Q s.
Proof. intros H. apply wlp_bind, wlp_any. intros ? s'. apply wlp_ret, H. Qed.

Lemma script_fill_wlp a n u s :
  cstr (request_uri (rq s)) 0 = Some u -> real_len a = zlen (realname a) ->
  wlp (script_fill a n) (fun ok s' => ok = true -> rq s' = rq s /\ wd s' = wd s /\
    (vhost_root (sv s) <> None -> host (rq s) <> None) /\
    buf_inv (script_base (sv s) (rq s) a ++ zdrop (fake_len a) u) s') s.
Proof.
  intros Hu Hr. unfold script_fill. wlps. apply wlp_bind, uri_wlp. intros u' Hu'.
  assert (u' = u) as -> by congruence.
  unfold script_base in *. destruct (vhost_root (sv s)) as [vr|].
  - wlps. intros h Hh. rewrite Hh in *. cbn [default] in *.
    destruct (_ <? _); [by apply page_false|]. wlps. intros b Hb. wlps. intros _.
    split_and!; [done|done|done|]. refine (script_buf_fill _ (script_pathname (sv s)) b _).
    rewrite <- Hb. by rewrite <- !app_assoc.
  - destruct (_ <? _); [by apply page_false|]. wlps. intros b Hb. wlps. intros _.
    split_and!; [done|done|done|]. refine (script_buf_fill _ (script_pathname (sv s)) b _).
    rewrite <- Hb. by rewrite <- !app_assoc.
Qed.

Lemma script_whole_wlp s :
  wlp script_whole (fun ok s' => ok = true -> rq s' = rq s /\ sv s' = sv s) s.
Proof.
  unfold script_whole. apply wlp_bind, peek_wlp. intros path _. wlps. intros [st|] w;
    [|by apply page_false].
  case_bool_decide; [by apply page_false|]. apply wlp_bind.
  case_bool_decide; [apply wlp_call; intros [] w'|apply wlp_ret]; cbn [negb];
    solve [by apply page_false|by wlps].
Qed.

Lemma realias_wlp X i b pinfo s :
  script_buf X i (script_pathname (sv s)) ->
  wlp (realias b pinfo) (fun ok s' => ok = true -> script_buf X i (script_pathname (sv s'))) s.
Proof.
  intros Hb. induction b as [|a b IH]; simpl; [by wlps|].
  destruct (is_prefix _ _); [|exact IH]. destruct (_ <? _); [by apply page_false|].
  by apply strdup_wlp.
Qed.

Lemma stable_get_home_dir X i name : stable (fun g => script_buf X i (script_pathname g)) (get_home_dir name).
Proof. stable. intros g. done. Qed.

Lemma script_path_info_wlp X i s :
  buf_inv X s ->
  wlp (script_path_info i)
    (fun ok s' => ok = true -> script_buf X i (script_pathname (sv s'))) s.
Proof.
  intros Hb. unfold script_path_info. apply wlp_bind, peek_wlp. intros pinfo _.
  apply wlp_bind, strdup_wlp; [|intros s'; cbn [negb]; by wlps]. intros w. cbn [negb].
  apply wlp_bind, poke_wlp. intros a Ha. wlps. intros sn _. apply wlp_bind.
  assert (Hcut : script_buf X i a) by (eapply script_buf_cut; [exact Hb|exact Ha]).
  destruct (_ <? 0); [done|]. apply wlp_upd. wlps. intros b _. apply wlp_bind.
  eapply (wlp_mono _ (fun ok s' => ok = true -> script_buf X i (script_pathname (sv s')))).
  { destruct (path_translated _); [by wlps|by apply realias_wlp]. }
  intros ok s2 H2. destruct ok; cbn [negb]; [|by wlps]. specialize (H2 eq_refl). wlps.
  destruct (path_translated (rq s2)); [by wlps|].
  destruct (user_dir _) as [udir|]; [destruct (_ =? 126)|].
  - unfold translate_userdir. apply wlp_bind, peek_wlp. intros rest _.
    destruct (match strchr rest 47 with Some k => _ | None => _ end) as [user p].
    apply stable_then with (P := fun g => script_buf X i (script_pathname g));
      [apply stable_get_home_dir|exact H2|]. intros [home|] s3 H3; [|by apply page_false].
    by apply strdup_wlp.
  - destruct (document_root _); [by apply strdup_wlp|by wlps].
  - destruct (document_root _); [by apply strdup_wlp|by wlps].
Qed.

(** The strings of the configuration and of the connection have no NUL. *)
Record c_strings (g : server) (r : request) : Prop := {
  cs_vhost : forall vr, vhost_root g = Some vr -> nonul vr = true;
  cs_ip : nonul (local_ip_addr r) = true;
  cs_host : forall h, host r = Some h -> nonul h = true;
  cs_alias : forall i b a, alias_hashtable g !! i = Some b -> a ∈ b -> nonul (realname a) = true
}.

Lemma nonul_app a b : nonul (a ++ b) = nonul a && nonul b.
Proof. apply forallb_app. Qed.

Lemma script_base_nonul g r a u :
  c_strings g r -> alias_for g u a -> nonul (script_base g r a) = true.
Proof.
  intros [H1 H2 H3 H4] (_ & _ & _ & i & b & Hi & Ha). specialize (H4 i b a Hi Ha).
  unfold script_base. destruct (vhost_root g) as [vr|]; [|done].
  rewrite !nonul_app, H4, (H1 vr), H2 by done. simpl. rewrite andb_true_r.
  destruct (host r) as [h|]; [by apply H3|done].
Qed.

Lemma nonul_zdrop k u : nonul u = true -> nonul (zdrop k u) = true.
Proof.
  intros H. rewrite <- (ztake_zdrop k u), nonul_app in H. by apply andb_prop in H as [_ H].
Qed.

Lemma above_cut k (P t : bytes) :
  0 <= k < zlen P -> zget (P ++ t) k = Some 47 -> above (ztake k (P ++ t)) P.
Proof.
  intros Hk Hg. rewrite zget_app_l in Hg by lia. rewrite ztake_app_le by lia.
  exists (zdrop (k + 1) P). rewrite <- (ztake_zdrop k P) at 1. f_equal.
  unfold zget, ztake, zdrop in *. destruct (Z.leb_spec 0 k); [|lia].
  rewrite (drop_S _ _ _ Hg). by replace (Z.to_nat (k + 1)) with (S (Z.to_nat k)) by lia.
Qed.

Lemma script_base_dir g r a u vr :
  alias_for g u a -> atype a = SCRIPTALIAS -> vhost_root g = Some vr -> host r <> None ->
  script_dir g (local_ip_addr r) (host r) u (script_base g r a).
Proof.
  intros (Hc & _ & _ & i & b & Hi & Ha) Ht Hvr Hh. unfold script_base. rewrite Hvr.
  destruct (host r) as [h|]; [|done]. exists a, i, b, vr, h. by split_and!.
Qed.

(** The string in the buffer, up to the place where the search stopped, is a file below
    the directory, or a script in the path of the directory itself. *)
Lemma script_below a u s k :
  alias_for (sv s) u a -> atype a = SCRIPTALIAS ->
  (vhost_root (sv s) <> None -> host (rq s) <> None) ->
  let P := script_base (sv s) (rq s) a in
  let X := P ++ zdrop (fake_len a) u in
  real_len a < k -> (k < zlen P -> zget X k = Some 47 /\ executable (wd s) (ztake k X)) ->
  below s u (ztake k X).
Proof.
  intros Hal Ht Hv P X Hk Hcut. unfold below.
  pose proof Hal as (Hc & Hf & Hr & i & b & Hi & Ha).
  pose proof (covers_part a u Hc Hf) as Hp. pose proof (zlen_nonneg (realname a)).
  destruct (Z.le_gt_cases (zlen P) k) as [Hle|Hlt].
  - unfold X. rewrite ztake_app_ge by lia. apply confined_below; [|by apply part_prefix].
    destruct (vhost_root (sv s)) as [vr|] eqn:Hvr.
    + apply base_script. unfold P. eapply script_base_dir; [done..|by apply Hv].
    + unfold P, script_base. rewrite Hvr. eapply base_alias; eauto.
  - destruct (Hcut Hlt) as [Hg Hx]. apply confined_above with (base := P);
      [|apply above_cut; [lia|done]|done].
    destruct (vhost_root (sv s)) as [vr|] eqn:Hvr.
    + unfold P. eapply script_base_dir; [done..|by apply Hv].
    + unfold P, script_base in Hlt. rewrite Hvr in Hlt. lia.
Qed.

(** The whole string, or the part before the slash. *)
Lemma script_stop a u s s2 i c :
  alias_for (sv s) u a -> atype a = SCRIPTALIAS ->
  (vhost_root (sv s) <> None -> host (rq s) <> None) ->
  let X := script_base (sv s) (rq s) a ++ zdrop (fake_len a) u in
  buf_inv X s2 -> real_len a < i -> stopped (wd s) X i c s2 ->
  below s u (ztake (if c =? 0 then zlen X else i) X).
Proof.
  intros Ha Ht Hv X Hb Hi Hs. pose proof Ha as (_ & _ & Hr & _).
  pose proof (script_base_length (sv s) (rq s) a Hr).
  pose proof (zlen_nonneg (zdrop (fake_len a) u)). pose proof (zlen_nonneg (realname a)).
  assert (HlX : zlen X = zlen (script_base (sv s) (rq s) a) + zlen (zdrop (fake_len a) u))
    by apply zlen_app.
  destruct Hs as [->|(-> & Hg & Hx)].
  - change (0 =? 0) with true. cbn match.
    replace (ztake (zlen X) X) with (ztake (Z.max (zlen X) (real_len a + 1)) X)
      by (by rewrite !ztake_ge by lia).
    apply script_below; [done|done|done|lia|lia].
  - change (47 =? 0) with false. cbn match. apply script_below; [done..|].
    intros Hlt. fold X. split; [|done].
    assert (Hg' : zget (X ++ [0]) i = Some 47) by (eapply script_buf_at; [exact Hb|lia|done]).
    by rewrite zget_app_l in Hg' by lia.
Qed.

Lemma script_answers u a s :
  cstr (request_uri (rq s)) 0 = Some u -> nonul u = true -> c_strings (sv s) (rq s) ->
  alias_for (sv s) u a -> atype a = SCRIPTALIAS ->
  answers (placed s u) (init_script_alias a (zlen u)) s.
Proof.
  intros Hu Hn Hcs Ha Ht. pose proof Ha as (_ & _ & Hr & _).
  set (X := script_base (sv s) (rq s) a ++ zdrop (fake_len a) u).
  assert (HX : nonul X = true).
  { unfold X. rewrite nonul_app, nonul_zdrop by done. by erewrite script_base_nonul. }
  unfold answers, init_script_alias. apply wlp_bind.
  eapply wlp_mono; [by apply (script_fill_wlp a (zlen u) u)|].
  intros ok s1 H1. destruct ok; cbn [negb]; [|by wlps].
  destruct (H1 eq_refl) as (E1 & Ew & Hv & Hb). clear H1. fold X in Hb. wlps.
  pose proof (zlen_nonneg (realname a)).
  apply wlp_bind, peek_wlp. intros tail _. apply wlp_bind, wlp_upd. cbn [rq sv wd].
  apply wlp_bind. eapply wlp_mono.
  { apply (script_scan_wlp X (real_len a) (wd s)); [done|exact Hb|lia|].
    cbn [wd]. rewrite Ew. apply rtc_refl. }
  intros [[i c]|] s2 H2; [|by wlps]. destruct (H2 i c eq_refl) as (_ & Hb2 & Hi & Hstop).
  clear H2. apply wlp_bind, uri_wlp. intros u2 _.
  apply wlp_bind, strdup_wlp; [|intros s'; cbn [negb]; by wlps]. intros w. cbn [negb].
  set (k := if c =? 0 then zlen X else i).
  apply wlp_bind.
  eapply (wlp_mono _ (fun ok s' => ok = true -> script_buf X k (script_pathname (sv s')))).
  { subst k. destruct (c =? 0); [|by apply script_path_info_wlp].
    eapply wlp_mono; [apply script_whole_wlp|]. intros ok s3 H3 Eok.
    destruct (H3 Eok) as [_ E3]. rewrite E3. exact Hb2. }
  intros ok s3 H3. destruct ok; cbn [negb]; [|by wlps]. specialize (H3 eq_refl).
  apply wlp_bind, peek_wlp. intros path Hpath.
  apply wlp_bind, strdup_wlp; [|intros s'; by wlps]. intros w'. wlps. intros _.
  pose proof (zlen_nonneg X).
  apply (script_buf_cstr X k) in Hpath as ->; [|done|subst k; case_match; lia|done].
  eexists. split; [done|]. by apply (script_stop a u s s2 i c).
Qed.
End scripts.

(** * From the request to the file *)

Section requests.
Context {os : OS}.

Lemma translate_answers u s :
  cstr (request_uri (rq s)) 0 = Some u -> nonul u = true ->
  alias_ok (alias_hashtable (sv s)) -> c_strings (sv s) (rq s) ->
  answers (placed s u) translate_uri s.
Proof.
  intros Hu Hn Hal Hcs. unfold answers, translate_uri. apply wlp_bind, uri_wlp. intros u' Hu'.
  assert (u' = u) as -> by congruence.
  destruct (Z.eqb_spec (default 0 (head u)) 47) as [Hh|]; cbn [negb]; [|by apply answers_page].
  assert (Hhd : head u = Some 47) by (destruct (head u); [simpl in Hh; by subst|done]).
  apply wlp_bind. eapply wlp_mono; [by apply find_alias_wlp|].
  intros [a|] s1 [-> Ha]; [|by apply plain_answers].
  specialize (Ha a eq_refl). unfold translate_alias. wlps.
  destruct (atype a) eqn:Et.
  - pose proof (alias_answers u a s Ha Et) as H. unfold answers, translate_alias in H.
    rewrite Et in H. exact H.
  - by apply script_answers.
  - apply wlp_bind, fits_wlp; [intros s'; by wlps|].
    case_bool_decide; apply wlp_bind, wlp_any; intros ? s'; by wlps.
Qed.

(** The URI after it was decoded and cleaned. *)
Definition decoded (s : St) (u : bytes) : Prop :=
  exists u0 o q, cstr (request_uri (rq s)) 0 = Some u0 /\ unescape_uri u0 = (o, true, q) /\
    u = clean_pathname o.

Lemma cstr_nonul a i u : cstr a i = Some u -> nonul u = true.
Proof.
  unfold cstr. destruct (0 <=? i); [|done]. intros H. by apply until_nul_split in H as [H _].
Qed.

Lemma unescape_nonul u o ok q :
  unescape_uri u = (o, ok, q) -> nonul u = true -> nonul o = true.
Proof.
  intros E Hn. apply unescape_uri_safe in E as (_ & H & _). unfold nonul in *.
  rewrite forallb_forall in *. intros c Hc. apply list_elem_of_In in Hc.
  destruct (H c Hc) as [Hin|Hp]; [by apply Hn, list_elem_of_In|].
  unfold isprint in Hp. apply andb_prop in Hp as [Hp _]. apply Z.leb_le in Hp.
  destruct (Z.eqb_spec c 0); [lia|done].
Qed.

Lemma clean_loop_nonul n l : nonul l = true -> nonul (clean_loop n l) = true.
Proof.
  revert l. induction n as [|n IH]; intros [|c l] H; simpl; try done.
  apply nonul_cons in H as [Hc Hl]. apply nonul_cons. split; [done|].
  apply IH. destruct (c =? 47); [by apply skip_dots_nonul|done].
Qed.

(** [clean_pathname] in place, seen as strings. *)
Lemma clean_mem_cstr o rest b :
  nonul o = true -> clean_pathname_mem (o ++ 0 :: rest) = Some b ->
  cstr b 0 = Some (clean_pathname o).
Proof.
  intros Hn Hb. unfold clean_pathname_mem in Hb.
  destruct (clean_mem_spec (length o) (S (length (o ++ 0 :: rest))) (o ++ 0 :: rest) 0 0
              o rest) as (b' & H1 & H2); try done.
  { rewrite length_app. lia. }
  assert (b' = b) as -> by congruence.
  eapply cstr_blit_0; [exact H2|by apply clean_loop_nonul].
Qed.

Lemma decode_uri_wlp s :
  wlp decode_uri (fun ok s' => ok = true -> exists u, decoded s u /\
    cstr (request_uri (rq s')) 0 = Some u /\ nonul u = true /\ dot_free u /\ sv s' = sv s /\ wd s' = wd s /\
    local_ip_addr (rq s') = local_ip_addr (rq s) /\ host (rq s') = host (rq s)) s.
Proof.
  unfold decode_uri. wlps. apply wlp_bind, uri_wlp. intros u0 Hu0.
  destruct (unescape_uri u0) as [[o ok] q] eqn:Eu. wlps. intros a Ha.
  apply wlp_bind, wlp_upd. cbn [rq sv wd]. apply wlp_bind.
  set (r1 := set_request_uri a (rq s)).
  apply (wlp_mono _ (fun _ s' => sv s' = sv s /\ wd s' = wd s /\ request_uri (rq s') = a /\
    local_ip_addr (rq s') = local_ip_addr (rq s) /\ host (rq s') = host (rq s))).
  { destruct q; [apply wlp_upd|apply wlp_ret]; done. }
  intros ? s1 (Es & Ew & Ea & Eip & Eh). destruct ok; cbn [negb]; [|by apply page_false].
  wlps. intros b Hb. apply wlp_bind, wlp_upd. cbn [rq sv wd].
  apply wlp_bind, uri_wlp. cbn [rq]. intros u Hu.
  destruct (negb _); [by apply page_false|]. wlps. intros _. exists u.
  assert (Hn : nonul o = true) by (eapply unescape_nonul; [exact Eu|by eapply cstr_nonul]).
  assert (u = clean_pathname o) as ->.
  { apply blit_inv in Ha as (_ & _ & Ea'). change (ztake 0 _) with (@nil Z) in Ea'.
    cbn [app] in Ea'. rewrite <- app_assoc in Ea'. cbn [app] in Ea'. subst a.
    apply clean_mem_cstr in Hb; [|done]. simpl in Hu. congruence. }
  split_and!; try done.
  - by exists u0, o, q.
  - by apply clean_loop_nonul.
  - by apply clean_loop_dot_free.
Qed.

(** A checked host name is one path component: it has no slash, and it does not begin
    with a dot. *)
Definition host_name (h : bytes) : Prop :=
  nonul h = true /\ 47 ∉ h /\ exists c, head h = Some c /\ isalnum c = true.

Lemma host_char_plain c : host_char c = true -> c <> 0 /\ c <> 47.
Proof. intros H. split; intros ->; discriminate H. Qed.

Lemma check_host_name h : (check_host h <? 1) = false -> host_name h.
Proof.
  intros H. apply Z.ltb_ge in H. destruct (check_host_safe h) as [E|(_ & _ & Hc & _ & _ & Hh & _)];
    [lia|]. rewrite forallb_forall in Hc. split_and!; [| |done].
  - apply forallb_forall. intros c Hin%Hc%host_char_plain. destruct (Z.eqb_spec c 0); tauto.
  - intros Hin%list_elem_of_In%Hc%host_char_plain. tauto.
Qed.

Lemma resolve_host_wlp s :
  wlp resolve_host (fun ok s' => ok = true -> exists h, host_name h /\ sv s' = sv s /\
    rq s' = set_host (Some h) (rq s) /\ looked (wd s) (wd s')) s.
Proof.
  unfold resolve_host. wlps. apply wlp_bind.
  apply (wlp_mono _ (fun _ s' => s' = s)).
  { destruct (header_host (rq s)); [done|..]; unfold pstr; wlps; by apply wlp_checked. }
  intros h s1 ->. apply wlp_bind, wlp_call_eq. intros [] w Ew; cbn [negb]; [|by apply page_false].
  apply wlp_bind, wlp_upd. cbn [rq sv wd].
  destruct (check_host _ <? 1) eqn:E; [by apply page_false|]. wlps. intros _.
  eexists. split_and!; [by apply check_host_name|done|done|].
  apply rtc_once. by eapply look_malloc.
Qed.

(** What [process_header_end] found for the request [s] with the decoded URI [u]: a path
    [base ++ rest], where [base] is a directory of the configuration and [rest] a part of
    [u] that does not climb; or a script that is a component of the directory itself. *)
Definition served_below (s : St) (path : bytes) : Prop :=
  exists host u, decoded s u /\
    (vhost_root (sv s) <> None -> exists h, host = Some h /\ host_name h) /\
    ((exists base rest, path = base ++ rest /\
        base_of (sv s) (wd s) (local_ip_addr (rq s)) host u base /\
        part_of rest u /\ no_climb rest) \/
     (exists base, script_dir (sv s) (local_ip_addr (rq s)) host u base /\
        above path base /\ executable (wd s) path)).

Lemma home_of_earlier g w w' name home : looked w w' -> home_of g w' name home -> home_of g w name home.
Proof.
  intros Hw [i b e ? ? ?|w1 home' w2 Hw1 ?]; [by eapply home_kept|].
  eapply home_asked; [|done]. by transitivity w'.
Qed.

Lemma base_of_earlier g w w' ip host u base :
  looked w w' -> base_of g w' ip host u base -> base_of g w ip host u base.
Proof.
  intros Hw []; [by apply base_root|by apply base_address|by apply base_host| | |].
  - eapply base_user; [done..|]. by eapply home_of_earlier.
  - by eapply base_alias.
  - by apply base_script.
Qed.

Lemma executable_earlier w w' path : looked w w' -> executable w' path -> executable w path.
Proof.
  intros Hw (w1 & st & w2 & w3 & H1 & H). exists w1, st, w2, w3.
  split; [by transitivity w'|done].
Qed.

Lemma below_served s s0 u path :
  decoded s u -> dot_free u -> sv s0 = sv s -> local_ip_addr (rq s0) = local_ip_addr (rq s) ->
  looked (wd s) (wd s0) ->
  (vhost_root (sv s) <> None -> exists h, host (rq s0) = Some h /\ host_name h) ->
  below s0 u path -> served_below s path.
Proof.
  unfold below. intros Hd Hf -> -> Hw Hh Hb. exists (host (rq s0)), u.
  split_and!; [done|done|]. destruct Hb as [base rest Hb Hp|base path Hb Ha Hx].
  - left. exists base, rest. split_and!; [done|by eapply base_of_earlier|done|].
    by eapply part_no_climb.
  - right. exists base. split_and!; [done|done|by eapply executable_earlier].
Qed.

(** C3: when a request was translated, whatever its bytes are (percent encodings and dots
    included), the path that will be opened or executed is a directory followed by a part
    of the decoded URI in which no component but the very last is "..".  The directory is
    the document root, the directory of the address or of a virtual host (whose name is a
    single component), the target of an alias that covers the URI, or the user directory
    in the home of the very user the URI names, as getpwnam gives it or the server's
    table has it.  The one exception, with virtual hosts and script aliases: a component
    of the alias's directory, cut at a slash, that stat and access call an executable
    regular file. *)
Theorem requests_confined s s1 :
  header_translated s s1 -> alias_ok (alias_hashtable (sv s)) -> c_strings (sv s) (rq s) ->
  exists path, pathname (rq s1) = Some path /\ served_below s path.
Proof.
  intros (_ & n & Hn & E) Hal Hcs.
  assert (W : wlp (ok ← decode_uri;
     if negb ok then mret 0
     else
       ok ← (match vhost_root (sv s) with Some _ => resolve_host | None => mret true end);
       if negb ok then mret 0 else translate_uri)
    (fun n s1 => n <> 0 -> exists path, pathname (rq s1) = Some path /\ served_below s path) s).
  2:{ unfold wlp in W. rewrite E in W. by apply W. }
  apply wlp_bind. eapply wlp_mono; [apply decode_uri_wlp|]. intros ok s0 H0.
  destruct ok; cbn [negb]; [|by wlps].
  destruct (H0 eq_refl) as (u & Hd & Hu & Hnu & Hf & Es & Ew & Eip & Eh). apply wlp_bind.
  apply (wlp_mono _ (fun ok s' => ok = true -> sv s' = sv s /\
    cstr (request_uri (rq s')) 0 = Some u /\ local_ip_addr (rq s') = local_ip_addr (rq s) /\
    c_strings (sv s') (rq s') /\ looked (wd s) (wd s') /\
    (vhost_root (sv s) <> None -> exists h, host (rq s') = Some h /\ host_name h))).
  { destruct (vhost_root (sv s)) eqn:Ev.
    - eapply wlp_mono; [apply resolve_host_wlp|]. intros ok s' H Eok.
      destruct (H Eok) as (h & Hh & Es' & -> & Hw). rewrite Es', Es, <- Ew.
      split_and!; try done; [|intros _; by exists h].
      destruct Hcs as [H1 H2 H3 H4]. split; simpl; try done; [by rewrite Eip|].
      intros h' [= <-]. apply Hh.
    - wlps. intros _. rewrite Es, Ew. split_and!; try done.
      destruct Hcs as [H1 H2 H3 H4]. split; try done; [by rewrite Eip|by rewrite Eh]. }
  intros ok s2 H2. destruct ok; cbn [negb]; [|by wlps].
  destruct (H2 eq_refl) as (Es2 & Hu2 & Eip2 & Hcs2 & Hw2 & Hh2).
  rewrite <- Es2 in Hal. eapply wlp_mono; [by apply translate_answers|].
  intros n' s3 H3 Hn'. destruct (H3 Hn') as (path & Hp & Hb). exists path. split; [done|].
  by eapply below_served.
Qed.

(** The run that [header_translated] speaks of. *)
Definition header_run (s : St) : out Z :=
  (ok ← decode_uri;
   if negb ok then mret 0
   else
     ok ← (match vhost_root (sv s) with Some _ => resolve_host | None => mret true end);
     if negb ok then mret 0 else translate_uri) s.

Lemma translated_intro s s1 n :
  logline (rq s) <> Pnull -> n <> 0 -> header_run s = Ret n s1 -> header_translated s s1.
Proof. intros Hl Hn E. exact (conj Hl (ex_intro _ n (conj Hn E))). Qed.
End requests.

(** * Witness *)

(** "/a/%2e%2e/../b" is served from "/www/a/b". *)
Definition climbing_state : St :=
  mkSt (os := scriptOS) (set_logline (Pstream 0) (set_method M_GET
    (set_request_uri (bs "/a/%2e%2e/../b" ++ zeros 100) test_request))) test_server empty_world.

Lemma climbing_path : seen (fun n s => (n, pathname (rq s))) (header_run climbing_state) = Some (1, Some (bs "/www/a/b")).
Proof. vm_compute. reflexivity. Qed.

Lemma test_alias_ok : alias_ok (alias_hashtable test_server).
Proof.
  split; [reflexivity|]. intros i b a Hi Ha. apply lookup_replicate in Hi as [-> _].
  by apply elem_of_nil in Ha.
Qed.

Lemma is_one n : n = 1 -> n <> 0.
Proof. intros ->. discriminate. Qed.

Lemma climbing_logged : logline (rq climbing_state) <> Pnull.
Proof. discriminate. Qed.

Lemma climbing_strings : c_strings (sv climbing_state) (rq climbing_state).
Proof.
  split; try discriminate; [reflexivity|]. intros i b a Hi Ha.
  apply lookup_replicate in Hi as [-> _]. by apply elem_of_nil in Ha.
Qed.

Lemma requests_confined_witness : exists s1,
  header_translated climbing_state s1 /\ pathname (rq s1) = Some (bs "/www/a/b") /\
  served_below climbing_state (bs "/www/a/b").
Proof.
  destruct (seen_Ret _ _ _ climbing_path) as (n & s1 & E & F). injection F as Fn Fp.
  pose proof (translated_intro climbing_state s1 n climbing_logged (is_one n Fn) E) as H.
  exists s1. split; [exact H|]. split; [exact Fp|].
  destruct (requests_confined climbing_state s1 H test_alias_ok climbing_strings)
    as (path & Hp & Hs).
  rewrite Fp in Hp. injection Hp as <-. exact Hs.
Defined.
