(* ===== verification/Lines.v ===== *)
(** read.c and the parsing half of request.c together: a header that is in the
    stream is read line by line up to the empty line, whatever header lines it has, and
    what they can change is said. *)

From S2P Require Import Prelude Types Machine Buffer Util UtilProofs Dates Hash.
From S2P Require Import Response.
From S2P Require Import Range Access Alias Pointer Cgi CgiProps Get.
From S2P Require Import Parse ParseProps Read ReadProps.

(** * The header lines *)

(** The fields that a header line can change, but for those that change the answer:
    Connection, If-Modified-Since and Range. *)
Definition forget_options (r : request) : request :=
  set_client_stream [] (set_content_type Pnull (set_content_length Pnull
    (set_header_host Pnull (set_header_referer Pnull (set_header_user_agent Pnull
      (set_cgi_env [] (set_cgi_env_index 0 r))))))).

(** The name in front of the colon, as the code compares it. *)
Definition option_name (l : bytes) : bytes :=
  match strchr l 58 with Some k => to_upper (ztake k l) | None => [] end.

(** The names of the headers that change what is sent for a file. *)
Definition answer_options : list bytes := [bs "CONNECTION"; bs "IF_MODIFIED_SINCE"; bs "RANGE"].

(** There is room for [n] more variables. *)
Definition env_room (n : Z) (r : request) : Prop :=
  zlen (cgi_env r) = CGI_ENV_MAX + 4 /\ 0 <= cgi_env_index r /\ cgi_env_index r + n <= CGI_ENV_MAX.

(** From [r] to [r'] only such fields changed, and at most [n] variables were added. *)
Record opts (n : Z) (r r' : request) : Prop := {
  opts_rest : forget_options r' = forget_options r;
  opts_env : zlen (cgi_env r') = zlen (cgi_env r);
  opts_index : cgi_env_index r <= cgi_env_index r' <= cgi_env_index r + n
}.

Lemma opts_refl n r : 0 <= n -> opts n r r.
Proof. intros. split; try done. lia. Qed.

Lemma opts_trans n m r1 r2 r3 : opts n r1 r2 -> opts m r2 r3 -> opts (n + m) r1 r3.
Proof. intros [E1 Z1 I1] [E2 Z2 I2]. split; [congruence|congruence|lia]. Qed.

Lemma opts_mono n m r1 r2 : opts n r1 r2 -> n <= m -> opts m r1 r2.
Proof. intros [E Z I] H. split; [done|done|lia]. Qed.

Lemma opts_room n m r r' : opts n r r' -> env_room (n + m) r -> env_room m r'.
Proof. intros [_ Z I] (H1 & H2 & H3). split_and!; [congruence|lia|lia]. Qed.

(** The calls of malloc that lead from [w] to [w']; all of them succeeded. *)
Definition mallocs {os : OS} : world -> world -> Prop :=
  rtc (fun w w' => exists n, os_malloc n w = (true, w')).

Section options.
Context {os : OS}.
Variable memory : forall n w, fst (os_malloc n w) = true.

Lemma mallocs_step n w b w' : os_malloc n w = (b, w') -> b = true /\ mallocs w w'.
Proof.
  intros E. pose proof (memory n w) as H. rewrite E in H. simpl in H. subst b.
  split; [done|]. by apply rtc_once; exists n.
Qed.

Lemma add_cgi_env_wp key v b s :
  env_room 1 (rq s) ->
  wp (add_cgi_env key v b) (fun n s' => n = 1 /\ sv s' = sv s /\ mallocs (wd s) (wd s') /\
    opts 1 (rq s) (rq s') /\ client_stream (rq s') = client_stream (rq s)) s.
Proof.
  intros (Hl & Hi & Hm). unfold add_cgi_env, env_gen_extra. wps.
  destruct (Z.ltb_spec (cgi_env_index (rq s)) CGI_ENV_MAX); [|lia]. wps.
  apply wp_call. intros ok w [-> Hw]%mallocs_step. wps.
  apply set_env_wp; [simpl; lia|]. intros e He. wps.
  split_and!; try done. split; simpl; [done|by eapply blit_zlen|lia].
Qed.

(** One header, with its value at [value]. *)
Lemma known_option_wp name value v s :
  name ∉ answer_options -> env_room 1 (rq s) ->
  wp (known_option name value v) (fun x s' => (x = None \/ x = Some 1) /\
    sv s' = sv s /\ mallocs (wd s) (wd s') /\ opts 1 (rq s) (rq s') /\
    client_stream (rq s') = client_stream (rq s)) s.
Proof.
  intros Hn Hr. unfold known_option. wps.
  assert (Hne : forall x, x ∈ answer_options -> streq name x = false).
  { intros x Hx. unfold streq. apply bool_decide_false. by intros ->. }
  rewrite (Hne (bs "CONNECTION")), (Hne (bs "IF_MODIFIED_SINCE")), (Hne (bs "RANGE"))
    by (unfold answer_options; rewrite !elem_of_cons; auto).
  cbn [andb].
  assert (H0 : opts 1 (rq s) (rq s)) by (by apply opts_refl).
  assert (Hm : mallocs (wd s) (wd s)) by done.
  assert (Hset : forall r, forget_options r = forget_options (rq s) ->
    cgi_env r = cgi_env (rq s) -> cgi_env_index r = cgi_env_index (rq s) -> opts 1 (rq s) r).
  { intros r E1 E2 E3. split; [done|by rewrite E2|lia]. }
  repeat match goal with
  | |- wp (if streq name ?x then add_cgi_env _ _ _ else _) _ _ => fail 1
  | |- wp (if ?b then upd _ ;; mret _ else _) _ _ =>
      destruct b; [wps; split_and!; auto; by apply Hset|]
  | |- wp (if ?b then mret (Some 1) else _) _ _ =>
      destruct b; [wps; split_and!; auto|]
  end.
  destruct (streq name (bs "REFERER")).
  { wps. eapply wp_mono; [by apply add_cgi_env_wp|]. intros n s' (-> & Es & Hw & Ho & Ec).
    wps. split_and!; auto. destruct Ho. by split. }
  destruct (streq name (bs "USER_AGENT")).
  { wps. eapply wp_mono; [by apply add_cgi_env_wp|]. intros n s' (-> & Es & Hw & Ho & Ec).
    wps. split_and!; auto. destruct Ho. by split. }
  wps. split_and!; auto.
Qed.

(** A whole line, whose end is marked with a NUL: the rest of the stream stays. *)
Lemma process_option_line_wp s i l rest :
  header_line (rq s) = Pstream i -> 0 <= i ->
  zdrop i (client_stream (rq s)) = l ++ 0 :: rest -> forallb legal_char l = true ->
  is_Some (strchr l 58) -> option_name l ∉ answer_options -> env_room 2 (rq s) ->
  wp process_option_line (fun n s' => n = 1 /\ sv s' = sv s /\ mallocs (wd s) (wd s') /\
    opts 2 (rq s) (rq s') /\ zdrop (i + zlen l) (client_stream (rq s')) = 0 :: rest) s.
Proof.
  intros Hhl Hi Hd Hl [k Hk] Hn Hr. unfold process_option_line. wps. unfold pstr. wps.
  assert (Hstr : string_at (rq s) (header_line (rq s)) = Some l).
  { rewrite Hhl. unfold string_at. simpl. unfold cstr. destruct (Z.leb_spec 0 i); [|lia].
    rewrite Hd. by apply until_nul_legal. }
  eapply wp_checked; [exact Hstr|]. rewrite Hk. pose proof (strchr_Some _ _ _ Hk) as [Hk0 _].
  unfold option_name in Hn. rewrite Hk in Hn. wps. unfold pstore. wps.
  set (name := to_upper (ztake k l)) in *.
  assert (Hz : zlen name = k).
  { unfold name, to_upper. rewrite zlen_fmap, zlen_ztake by lia. lia. }
  pose proof (f_equal zlen Hd) as Hlen.
  rewrite zlen_zdrop, zlen_app, zlen_cons in Hlen by done. pose proof (zlen_nonneg rest).
  assert (is_Some (blit (client_stream (rq s)) i (name ++ [0]))) as [a Ha].
  { apply blit_is_Some. rewrite zlen_app, Hz. change (zlen [0]) with 1. lia. }
  eapply wp_checked; [rewrite Hhl; simpl; by rewrite Ha|]. wps.
  assert (Hrest : zdrop (i + zlen l) a = 0 :: rest).
  { rewrite (zdrop_blit_after _ _ _ _ _ Ha).
    - rewrite <- (zdrop_zdrop (zlen l)), Hd by zlia. by apply zdrop_app_exact.
    - rewrite zlen_app, Hz. change (zlen [0]) with 1. lia. }
  assert (H0 : opts 2 (rq s) (set_client_stream a (rq s))) by (split; simpl; try done; lia).
  destruct (zlen _ =? 0); [wps; by split_and!|]. wps.
  eapply wp_mono; [apply known_option_wp; [done|]|].
  { destruct Hr as (? & ? & ?). split_and!; simpl; try done. lia. }
  intros x s1 (Hx & Es & Hw & Ho & Ec). cbn [rq sv wd client_stream set_client_stream] in *.
  assert (Ho' : opts 1 (rq s) (rq s1)) by (destruct Ho; by split).
  destruct Hx as [-> | ->]; wps.
  - eapply wp_mono; [apply add_cgi_env_wp; eapply (opts_room 1 1); [exact Ho'|exact Hr]|].
    intros n s2 (-> & Es2 & Hw2 & Ho2 & Ec2). split_and!; try congruence.
    + by etrans.
    + by apply (opts_trans 1 1) with (rq s1).
  - split_and!; try congruence. by eapply opts_mono.
Qed.
End options.

(** * The loop over the lines *)

(** A line: its text and the carriage returns before its line feed. *)
Definition line_text (x : bytes * bytes) : bytes := x.1 ++ x.2 ++ [10].
Definition header_text (ls : list (bytes * bytes)) : bytes := concat (line_text <$> ls).

(** A line that the state machine takes as one. *)
Record good_line (x : bytes * bytes) : Prop := {
  line_legal : forallb legal_char x.1 = true;
  line_whole : line_body x.1;
  line_crs : all_cr x.2;
  line_starts : exists c b, x.1 = c :: b /\ c <> 13;
  line_size : zlen x.1 < MAX_HEADER_LENGTH
}.

(** A header line that does not change what is sent for a file. *)
Definition plain_option (x : bytes * bytes) : Prop :=
  good_line x /\ is_Some (strchr x.1 58) /\ option_name x.1 ∉ answer_options.

(** Besides, the fields that say how far the header has been read. *)
Definition forget_lines (r : request) : request :=
  set_status READ_HEADER (set_parse_pos 0 (set_header_line Pnull (set_header_end Pnull
    (forget_options r)))).

Lemma forget_lines_start p r : forget_lines (set_header_line p r) = forget_lines r.
Proof. by destruct r. Qed.

Lemma forget_lines_options r r' :
  forget_options r' = forget_options r -> forget_lines r' = forget_lines r.
Proof. unfold forget_lines. by intros ->. Qed.

Record lines (n : Z) (r r' : request) : Prop := {
  lines_rest : forget_lines r' = forget_lines r;
  lines_env : zlen (cgi_env r') = zlen (cgi_env r);
  lines_index : cgi_env_index r <= cgi_env_index r' <= cgi_env_index r + n
}.

Lemma lines_trans n m r1 r2 r3 : lines n r1 r2 -> lines m r2 r3 -> lines (n + m) r1 r3.
Proof. intros [E1 Z1 I1] [E2 Z2 I2]. split; [congruence|congruence|lia]. Qed.

Lemma lines_room n m r r' : lines n r r' -> env_room (n + m) r -> env_room m r'.
Proof. intros [_ Z I] (H1 & H2 & H3). split_and!; [congruence|lia|lia]. Qed.

(** The state machine is at the beginning of a line behind the first one; [rest] has
    not been read. *)
Record at_line (rest : bytes) (r : request) : Prop := {
  at_status : status r = ONE_LF;
  at_line_start : header_line r = Pstream (parse_pos r);
  at_pos : 0 <= parse_pos r;
  at_rest : zdrop (parse_pos r) (client_stream r) = rest;
  at_logline : logline r <> Pnull
}.

Lemma zdrop_crs (crs rest rest1 : bytes) x :
  x :: rest1 = crs ++ 10 :: rest -> zdrop (zlen crs) rest1 = rest.
Proof.
  destruct crs as [|c crs]; intros [= _ ->]; [done|]. rewrite zlen_cons.
  rewrite (cons_middle 10 crs rest), app_assoc. apply zdrop_app_exact. by rewrite zlen_app.
Qed.

Section lines.
Context {os : OS}.
Variable memory : forall n w, fst (os_malloc n w) = true.

(** The line that was just cut is marked and handed over: its mark goes over the first
    character behind it. *)
Lemma marked_rest (a : bytes) pos body crs rest :
  0 <= pos -> zdrop pos a = body ++ crs ++ 10 :: rest ->
  exists b rest1, blit a (pos + zlen body) [0] = Some b /\
    zdrop pos b = body ++ 0 :: rest1 /\ zdrop (zlen crs) rest1 = rest.
Proof.
  intros Hp Hd. destruct (crs ++ 10 :: rest) as [|x rest1] eqn:E; [by destruct crs|].
  assert (is_Some (blit a (pos + zlen body) [0])) as [b Hb].
  { apply blit_is_Some. pose proof (f_equal zlen Hd) as H.
    rewrite zlen_zdrop, zlen_app, zlen_cons in H by done.
    pose proof (zlen_nonneg rest1). pose proof (zlen_nonneg body). change (zlen [0]) with 1. lia. }
  exists b, rest1. split; [done|]. split; [by eapply zdrop_blit_tail|]. by eapply zdrop_crs.
Qed.

(** The next line starts behind the line feed. *)
Lemma next_line (a body crs rest rest1 : bytes) pos :
  0 <= pos -> zdrop (pos + zlen body) a = 0 :: rest1 -> zdrop (zlen crs) rest1 = rest ->
  zdrop (pos + zlen body + zlen crs + 1) a = rest.
Proof.
  intros Hp Ha <-. pose proof (zlen_nonneg body). pose proof (zlen_nonneg crs).
  replace (pos + zlen body + zlen crs + 1) with (pos + zlen body + 1 + zlen crs) by lia.
  rewrite <- (zdrop_zdrop (zlen crs)), <- (zdrop_zdrop 1), Ha by lia. done.
Qed.

Lemma option_line_done s x rest :
  plain_option x -> env_room 2 (rq s) -> logline (rq s) <> Pnull -> 
  header_line (rq s) = Pstream (parse_pos (rq s) - zlen (line_text x)) ->
  header_end (rq s) = padd (header_line (rq s)) (zlen x.1) ->
  zlen (line_text x) <= parse_pos (rq s) ->
  zdrop (parse_pos (rq s) - zlen (line_text x)) (client_stream (rq s)) = line_text x ++ rest ->
  wp header_line_done (fun y s' => y = None /\ sv s' = sv s /\ mallocs (wd s) (wd s') /\
    lines 2 (rq s) (rq s') /\ parse_pos (rq s') = parse_pos (rq s) /\
    status (rq s') = status (rq s) /\ logline (rq s') = logline (rq s) /\
    header_line (rq s') = Pstream (parse_pos (rq s)) /\
    zdrop (parse_pos (rq s)) (client_stream (rq s')) = rest) s.
Proof.
  destruct x as [body crs]. cbn [fst snd]. intros ([Hl _ _ _ Hz] & Hc & Hn) Hr Hll Hhl He Hpos Hd.
  cbn [fst snd] in *. set (pos := parse_pos (rq s) - zlen (line_text (body, crs))) in *.
  unfold line_text in Hd. cbn [fst snd] in Hd. rewrite <- !app_assoc in Hd.
  destruct (marked_rest _ pos body crs rest ltac:(lia) Hd) as (b & rest1 & Hb & Hd1 & Hd2).
  unfold header_line_done, pstore, pdiff. wps. rewrite He, Hhl. cbn [padd].
  eapply wp_checked; [simpl; by rewrite Hb|]. wps.
  eapply wp_checked; [reflexivity|].
  replace (pos + zlen body - pos) with (zlen body) by lia.
  destruct (Z.leb_spec MAX_HEADER_LENGTH (zlen body)); [lia|]. wps.
  rewrite bool_decide_false by done. cbn [negb]. wps.
  eapply wp_mono; [eapply (process_option_line_wp memory _ pos body rest1); try done; lia|].
  intros n s' (-> & Es & Hw & Ho & Ed). wps. cbn [rq sv wd] in *.
  destruct Ho as [O1 O2 O3].
  assert (E : forall {A} (f : request -> A), (forall r, f (forget_options r) = f r) ->
    f (rq s') = f (set_client_stream b (rq s))).
  { intros A f Hf. by rewrite <- Hf, O1, Hf. }
  pose proof (E _ parse_pos ltac:(done)) as Ep. simpl in Ep. split_and!; try done.
  - split; [|done|done]. cbn [rq]. rewrite forget_lines_start. by apply forget_lines_options.
  - by apply (E _ status).
  - by apply (E _ logline).
  - simpl. by rewrite Ep.
  - replace (parse_pos (rq s)) with (pos + zlen body + zlen crs + 1).
    + by eapply next_line; [lia|..].
    + unfold pos, line_text. cbn [fst snd]. rewrite !zlen_app. change (zlen [10]) with 1. lia.
Qed.

(** One header line in the loop. *)
Lemma header_loop_option s x rest fuel :
  at_line (line_text x ++ rest) (rq s) -> plain_option x -> env_room 2 (rq s) ->
  exists s', header_loop (length (line_text x) + fuel) s = header_loop fuel s' /\
    at_line rest (rq s') /\ lines 2 (rq s) (rq s') /\ sv s' = sv s /\ mallocs (wd s) (wd s').
Proof.
  destruct x as [body crs]. intros [Hst Hhl Hpos Hd Hll] Hx Hr.
  pose proof Hx as ([Hl Hw Hcr Hs _] & _). unfold line_text in *. cbn [fst snd] in *.
  rewrite <- !app_assoc in Hd. cbn [app] in Hd.
  destruct (header_loop_cuts_line s body crs rest fuel Hpos Hd Hl Hw Hcr) as [E _].
  { right. by split. }
  assert (length (body ++ crs ++ [10%Z]) + fuel = length body + (length crs + S fuel))%nat as ->.
  { rewrite !length_app. simpl. lia. }
  rewrite E. clear E. set (s1 := mkSt _ _ _).
  assert (Hz : zlen (body ++ crs ++ [10]) = zlen body + zlen crs + 1).
  { rewrite !zlen_app. change (zlen [10]) with 1. lia. }
  assert (Hp1 : parse_pos (rq s1) - zlen (body ++ crs ++ [10]) = parse_pos (rq s)) by (simpl; lia).
  assert (W : wp header_line_done (fun y s' => y = None /\ sv s' = sv s1 /\
    mallocs (wd s1) (wd s') /\ lines 2 (rq s1) (rq s') /\ parse_pos (rq s') = parse_pos (rq s1) /\
    status (rq s') = status (rq s1) /\ logline (rq s') = logline (rq s1) /\
    header_line (rq s') = Pstream (parse_pos (rq s1)) /\
    zdrop (parse_pos (rq s1)) (client_stream (rq s')) = rest) s1).
  { apply (option_line_done s1 (body, crs) rest Hx Hr Hll); unfold line_text; cbn [fst snd];
      rewrite ?Hp1.
    - exact Hhl.
    - change (header_line (rq s1)) with (header_line (rq s)). by rewrite Hhl.
    - simpl. lia.
    - change (client_stream (rq s1)) with (client_stream (rq s)). by rewrite Hd, <- !app_assoc. }
  destruct (wp_elim _ _ _ W) as (y & s' & E & -> & Es & Hm & Hlines & Ep & Est & El & Eh & Ed).
  exists s'. split; [unfold mbind at 1, M_bind at 1; by rewrite E|].
  split; [|split_and!; [|done..]].
  - split; [by rewrite Est|by rewrite Ep|rewrite Ep; simpl; zlia|by rewrite Ep|by rewrite El].
  - destruct Hlines as [L1 L2 L3]. split; [|done..]. rewrite L1. subst s1. cbn [rq].
    by destruct (rq s).
Qed.

(** All of them. *)
Lemma header_loop_options opts s rest fuel :
  at_line (header_text opts ++ rest) (rq s) -> Forall plain_option opts ->
  env_room (2 * zlen opts) (rq s) ->
  exists s', header_loop (length (header_text opts) + fuel) s = header_loop fuel s' /\
    at_line rest (rq s') /\ lines (2 * zlen opts) (rq s) (rq s') /\ sv s' = sv s /\
    mallocs (wd s) (wd s').
Proof.
  intros H Ho. revert s H. induction Ho as [|x opts Hx _ IH]; intros s H Hr.
  { exists s. split_and!; try done. split; try done. change (zlen []) with 0. lia. }
  rewrite zlen_cons in *. pose proof (zlen_nonneg opts). unfold header_text in *.
  cbn [fmap list_fmap concat] in *. rewrite <- app_assoc in H.
  destruct (header_loop_option s x _ (length (concat (line_text <$> opts)) + fuel) H Hx)
    as (s1 & E1 & H1 & L1 & Es1 & Hm1).
  { destruct Hr as (? & ? & ?). split_and!; lia. }
  destruct (IH s1 H1) as (s2 & E2 & H2 & L2 & Es2 & Hm2).
  { eapply lines_room; [exact L1|]. by replace (2 + 2 * zlen opts) with (2 * (zlen opts + 1)) by lia. }
  exists s2. split_and!.
  - by rewrite length_app, <- Nat.add_assoc, E1.
  - done.
  - replace (2 * (zlen opts + 1)) with (2 + 2 * zlen opts) by lia. by eapply lines_trans.
  - congruence.
  - by etrans.
Qed.

(** The empty line. *)
Lemma header_loop_crs s crs rest fuel :
  status (rq s) = TWO_CR -> 0 <= parse_pos (rq s) ->
  zdrop (parse_pos (rq s)) (client_stream (rq s)) = crs ++ 10 :: rest -> all_cr crs ->
  header_loop (length crs + S fuel) s =
  (x ← header_done; mret (Some x))
    (mkSt (set_parse_pos (parse_pos (rq s) + zlen crs + 1) (set_status BODY_READ (rq s)))
       (sv s) (wd s)).
Proof.
  intros Hst Hp Hd Hcr. revert s Hst Hp Hd.
  induction Hcr as [|c crs <- _ IH]; intros s Hst Hp Hd; cbn [length Nat.add header_loop];
    unfold mbind at 1 2, M_bind at 1 2, req at 1; cbn [rq];
    rewrite (zget_zdrop_head _ _ _ _ Hp Hd), Hst; cbn [checked mret M_ret].
  - unfold mret at 1, M_ret at 1. change (zlen []) with 0. by rewrite Z.add_0_r.
  - set (s1 := mkSt (set_parse_pos (parse_pos (rq s) + 1) (set_status TWO_CR (rq s))) (sv s) (wd s)).
    transitivity (header_loop (length crs + S fuel) s1); [done|]. rewrite IH; [|done|simpl; lia|].
    + subst s1. cbn [rq sv wd]. f_equal. f_equal. rewrite zlen_cons.
      transitivity (set_parse_pos (parse_pos (rq s) + 1 + zlen crs + 1) (set_status BODY_READ (rq s)));
        [by destruct (rq s)|]. f_equal. lia.
    + simpl. by eapply zdrop_tail.
Qed.

Lemma header_loop_empty s crs rest fuel :
  at_line (crs ++ 10 :: rest) (rq s) -> all_cr crs ->
  header_loop (length crs + S fuel) s =
  (x ← header_done; mret (Some x))
    (mkSt (set_parse_pos (parse_pos (rq s) + zlen crs + 1) (set_status BODY_READ (rq s)))
       (sv s) (wd s)).
Proof.
  intros [Hst _ Hp Hd _] Hcr. destruct Hcr as [|c crs <- Hcr]; cbn [length Nat.add header_loop];
    unfold mbind at 1 2, M_bind at 1 2, req at 1; cbn [rq];
    rewrite (zget_zdrop_head _ _ _ _ Hp Hd), Hst; cbn [checked mret M_ret].
  - unfold mret at 1, M_ret at 1. change (zlen []) with 0. by rewrite Z.add_0_r.
  - set (s1 := mkSt (set_parse_pos (parse_pos (rq s) + 1) (set_status TWO_CR (rq s))) (sv s) (wd s)).
    transitivity (header_loop (length crs + S fuel) s1); [done|].
    rewrite (header_loop_crs s1 crs rest); [|done|simpl; lia| |done].
    + subst s1. cbn [rq sv wd]. f_equal. f_equal. rewrite zlen_cons.
      transitivity (set_parse_pos (parse_pos (rq s) + 1 + zlen crs + 1) (set_status BODY_READ (rq s)));
        [by destruct (rq s)|]. f_equal. lia.
    + simpl. by eapply zdrop_tail.
Qed.
End lines.

(** * A whole header *)

(** The request line of a GET: blanks, the URI, and the version behind it. *)
Definition get_line (sp u tail : bytes) : bytes := bs "GET" ++ 32 :: sp ++ u ++ tail.

Record good_get (sp u tail : bytes) (v : HTTP_VERSION) : Prop := {
  gg_blanks : blanks sp;
  gg_uri : u <> [] /\ 32 ∉ u /\ is_prefix (bs "http://") u = false;
  gg_tail : head tail = Some 32;
  gg_version : http_version_of (skip_blanks tail) = Some v;
  gg_09 : v <> HTTP09;
  gg_legal : forallb legal_char (get_line sp u tail) = true;
  gg_line : line_body (get_line sp u tail);
  gg_size : zlen (get_line sp u tail) < MAX_HEADER_LENGTH
}.

(** A request before its first line. *)
Record unread (r : request) : Prop := {
  un_status : status r = READ_HEADER;
  un_pos : parse_pos r = 0;
  un_line : header_line r = Pstream 0;
  un_logline : logline r = Pnull;
  un_uri : zlen (request_uri r) = MAX_HEADER_LENGTH + 1
}.

(** What the request line says. *)
Definition asked (v : HTTP_VERSION) (a : bytes) (r : request) : request :=
  set_keepalive (if bool_decide (v = HTTP11) then KA_ACTIVE else keepalive r)
    (set_http_version v (set_request_uri a (set_method M_GET (set_logline (Pstream 0) r)))).

Lemma legal_nonul l : forallb legal_char l = true -> nonul l = true.
Proof.
  unfold nonul. rewrite !forallb_forall. intros H c Hc%H. by destruct (Z.eqb_spec c 0) as [->|].
Qed.

Section header.
Context {os : OS}.
Variable memory : forall n w, fst (os_malloc n w) = true.

Lemma request_line_done s sp u tail v crs rest :
  good_get sp u tail v -> logline (rq s) = Pnull -> header_line (rq s) = Pstream 0 ->
  header_end (rq s) = Pstream (zlen (get_line sp u tail)) ->
  zlen (request_uri (rq s)) = MAX_HEADER_LENGTH + 1 ->
  client_stream (rq s) = get_line sp u tail ++ crs ++ 10 :: rest ->
  parse_pos (rq s) = zlen (line_text (get_line sp u tail, crs)) ->
  wp header_line_done (fun y s' => y = None /\ sv s' = sv s /\ wd s' = wd s /\
    exists a b, cstr a 0 = Some u /\ zdrop (parse_pos (rq s)) b = rest /\
    rq s' = set_header_line (Pstream (parse_pos (rq s)))
      (set_cgi_env_index (common_cgi_env_count (sv s))
        (asked v a (set_client_stream b (rq s))))) s.
Proof.
  intros [Hsp (Hne & H32 & Habs) Ht Hv Hv9 Hl Hb Hz] Hll Hhl He Hu Hc Hp.
  destruct (marked_rest (client_stream (rq s)) 0 (get_line sp u tail) crs rest ltac:(lia) Hc)
    as (b & rest1 & Eb & Hd1 & Hd2).
  rewrite Z.add_0_l in Eb. unfold header_line_done, pstore, pdiff. wps. rewrite He.
  eapply wp_checked; [simpl; by rewrite Eb|]. wps.
  eapply wp_checked; [rewrite Hhl; reflexivity|]. rewrite Z.sub_0_r.
  destruct (Z.leb_spec MAX_HEADER_LENGTH (zlen (get_line sp u tail))); [lia|]. wps.
  change (logline (set_client_stream b (rq s))) with (logline (rq s)).
  rewrite bool_decide_true by done. cbn [negb]. wps.
  eapply wp_mono; [apply (process_logline_correct _ M_GET (bs "GET") sp u tail v); try done|].
  - unfold string_at. simpl. unfold cstr. simpl. change (zdrop 0 b) with b in Hd1. rewrite Hd1.
    by apply until_nul_legal.
  - pose proof (legal_nonul _ Hl) as Hn. unfold get_line, nonul in *. simpl in Hn.
    rewrite !forallb_app in Hn. by destruct (forallb _ sp), (forallb _ u).
  - unfold get_line in Hz. rewrite zlen_app, zlen_cons, !zlen_app in Hz.
    pose proof (zlen_nonneg sp). pose proof (zlen_nonneg tail). change (zlen (bs "GET")) with 3 in Hz.
    lia.
  - by right.
  - intros x s' (-> & Es & Ew & a & Ha & Er). change (1 =? 0) with false. wps.
    cbn [rq sv wd] in *. rewrite Er. cbn [http_version set_cgi_env_index set_keepalive set_http_version].
    change (bool_decide (http_version _ = HTTP09)) with (bool_decide (v = HTTP09)).
    rewrite bool_decide_false by done. wps. split_and!; try done.
    exists a, b. split; [done|]. split; [|by rewrite Er].
    rewrite Hp. unfold line_text. cbn [fst snd]. rewrite !zlen_app. change (zlen [10]) with 1.
    rewrite Z.add_assoc. apply (next_line b _ crs rest rest1 0); [lia| |done].
    change (zdrop 0 b) with b in Hd1. rewrite Hd1, Z.add_0_l. by apply zdrop_app_exact.
Qed.

Lemma header_loop_request_line s sp u tail v crs rest fuel :
  unread (rq s) -> good_get sp u tail v -> all_cr crs ->
  client_stream (rq s) = line_text (get_line sp u tail, crs) ++ rest ->
  exists s' a b, header_loop (length (line_text (get_line sp u tail, crs)) + fuel) s
      = header_loop fuel s' /\
    cstr a 0 = Some u /\ at_line rest (rq s') /\ sv s' = sv s /\ wd s' = wd s /\
    cgi_env (rq s') = cgi_env (rq s) /\ cgi_env_index (rq s') = common_cgi_env_count (sv s) /\
    forget_lines (rq s') = forget_lines (asked v a (set_client_stream b (rq s))).
Proof.
  intros [Hst Hpos Hhl Hll Hu] Hg Hcr Hc. pose proof Hg as [_ _ _ _ _ Hl Hb _].
  unfold line_text in Hc. cbn [fst snd] in Hc. rewrite <- !app_assoc in Hc. cbn [app] in Hc.
  destruct (header_loop_cuts_line s (get_line sp u tail) crs rest fuel) as [E _];
    rewrite ?Hpos; try done; [by left|].
  assert (length (line_text (get_line sp u tail, crs)) + fuel =
    length (get_line sp u tail) + (length crs + S fuel))%nat as ->.
  { unfold line_text. cbn [fst snd]. rewrite !length_app. simpl. lia. }
  rewrite E, Hpos, Z.add_0_l. clear E. set (s1 := mkSt _ _ _).
  assert (Hp1 : parse_pos (rq s1) = zlen (line_text (get_line sp u tail, crs))).
  { unfold line_text. cbn [fst snd]. rewrite !zlen_app, Z.add_assoc. done. }
  destruct (wp_elim _ _ _ (request_line_done s1 sp u tail v crs rest Hg Hll Hhl eq_refl Hu Hc Hp1))
    as (y & s' & E & -> & Es & Ew & a & b & Ha & Hd & Er).
  exists s', a, b. split; [unfold mbind at 1, M_bind at 1; by rewrite E|].
  rewrite Er. split_and!; try done.
  split; try done. cbn [parse_pos set_header_line set_cgi_env_index asked].
  change (0 <= parse_pos (rq s1)). rewrite Hp1. zlia.
Qed.

(** From the first byte of a GET to the empty line: header lines and the carriage
    returns do not matter. *)
Lemma header_loop_get s sp u tail v crs options crs' rest fuel :
  unread (rq s) -> good_get sp u tail v -> all_cr crs -> Forall plain_option options ->
  all_cr crs' ->
  client_stream (rq s) =
    line_text (get_line sp u tail, crs) ++ header_text options ++ crs' ++ 10 :: rest ->
  zlen (cgi_env (rq s)) = CGI_ENV_MAX + 4 -> 0 <= common_cgi_env_count (sv s) ->
  common_cgi_env_count (sv s) + 2 * zlen options <= CGI_ENV_MAX ->
  exists s' a, header_loop (length (line_text (get_line sp u tail, crs)) +
      (length (header_text options) + (length crs' + S fuel))) s =
      (x ← header_done; mret (Some x)) s' /\
    cstr a 0 = Some u /\ status (rq s') = BODY_READ /\
    forget_lines (rq s') = forget_lines (asked v a (rq s)) /\ sv s' = sv s /\
    mallocs (wd s) (wd s').
Proof.
  intros Hun Hg Hcr Ho Hcr' Hc Henv H0 Hmax.
  destruct (header_loop_request_line s sp u tail v crs _
    (length (header_text options) + (length crs' + S fuel)) Hun Hg Hcr Hc)
    as (s1 & a & b & E1 & Ha & Hat & Es1 & Ew1 & Ee & Ei & Ef).
  destruct (header_loop_options memory options s1 (crs' ++ 10 :: rest) (length crs' + S fuel) Hat Ho)
    as (s2 & E2 & Hat2 & [L _ _] & Es2 & Hm2).
  { split_and!; rewrite ?Ee, ?Ei; done. }
  eexists _, a. split; [rewrite E1, E2; by apply (header_loop_empty s2 crs' rest)|].
  cbn [rq sv wd]. split_and!; try done; try congruence.
  transitivity (forget_lines (rq s2)); [by destruct (rq s2)|]. rewrite L, Ef.
  by destruct (rq s).
Qed.
End header.
