(* ===== verification/Answer.v ===== *)
(** A GET from its first byte to the last byte of the file: read.c, request.c,
    util.c, alias.c, access.c, get.c, response.c and the turns of the main loop
    together. *)

From S2P Require Import Prelude Types Machine Escape ScriptOS Buffer Util UtilProofs.
From S2P Require Import Dates.
From S2P Require Import Hash Response ResponseProofs ResponseProps Range Access Mmap.
From S2P Require Import Alias.
From S2P Require Import AliasProofs Pointer Cgi Get TransferProps Parse ParseProps Read.
From S2P Require Import ReadProps.
From S2P Require Import Frame Request Confine Serve Lines.

(** * From the URI to the path *)

(** Besides, the fields that name the file. *)
Definition forget_target (r : request) : request :=
  set_query_string Pnull (set_request_uri [] (set_pathname None (forget_lines r))).

Lemma forget_target_lines r r' :
  forget_lines r' = forget_lines r -> forget_target r' = forget_target r.
Proof. unfold forget_target. by intros ->. Qed.

Lemma forget_target_uri a r : forget_target (set_request_uri a r) = forget_target r.
Proof. by destruct r. Qed.

Lemma forget_target_query q r : forget_target (set_query_string q r) = forget_target r.
Proof. by destruct r. Qed.

Lemma forget_target_path p r : forget_target (set_pathname p r) = forget_target r.
Proof. by destruct r. Qed.

(** The URI [u] of a request line names the file [path] below the document root: it
    decodes to the URI [u'], which no alias covers, and [path] is not a script. *)
Record names_file {os : OS} (g : server) (u u' path : bytes) : Prop := {
  nf_decoded : exists o q, unescape_uri u = (o, true, q) /\ u' = clean_pathname o;
  nf_slash : head u' = Some 47;
  nf_aliases : alias_ok (alias_hashtable g);
  nf_alias : forall i b a, alias_hashtable g !! i = Some b -> a ∈ b -> ~ covers a u';
  nf_users : user_dir g = None;
  nf_hosts : vhost_root g = None /\ virtualhost g = false;
  nf_root : exists d, document_root g = Some d /\ path = d ++ u' /\ zlen d < 2 ^ 31 /\
    zlen d + zlen u' + 2 <= path_size;
  nf_mime : table_ok MIME_HASHTABLE_SIZE (mime_hashtable g);
  nf_type : default (default_type g) (extension_of path ≫= mime_lookup g) <> CGI_MIME_TYPE;
  nf_allowed : access_search (nodes g) path = ACCESS_ALLOW
}.

Lemma clean_loop_length n l : (length (clean_loop n l) <= length l)%nat.
Proof.
  revert l. induction n as [|n IH]; intros [|c l]; simpl; try lia.
  destruct (c =? 47).
  - pose proof (IH (skip_dots l)). pose proof (skip_dots_length l). lia.
  - specialize (IH l). lia.
Qed.

Section target.
Context {os : OS}.
Variable memory : forall n w, fst (os_malloc n w) = true.

Lemma decode_uri_wp s u o q :
  cstr (request_uri (rq s)) 0 = Some u -> unescape_uri u = (o, true, q) ->
  head (clean_pathname o) = Some 47 ->
  wp decode_uri (fun ok s' => ok = true /\ sv s' = sv s /\ wd s' = wd s /\
    cstr (request_uri (rq s')) 0 = Some (clean_pathname o) /\
    forget_target (rq s') = forget_target (rq s)) s.
Proof.
  intros Hu Eo Hh. unfold decode_uri, uri. wps. rewrite Hu. apply wp_ret. rewrite Eo. wps.
  pose proof (cstr_nonul _ _ _ Hu) as Hnu. pose proof (unescape_nonul _ _ _ _ Eo Hnu) as Hno.
  destruct (unescape_uri_safe _ _ _ _ Eo) as (Hlen & _).
  assert (is_Some (blit (request_uri (rq s)) 0 (o ++ [0]))) as [a Ha].
  { apply blit_is_Some. unfold cstr in Hu. change (zdrop 0 ?a) with a in Hu.
    apply until_nul_split in Hu as (_ & r & ->). rewrite !zlen_app, (zlen_cons 0 r).
    change (zlen [0]) with 1. pose proof (zlen_nonneg r). lia. }
  rewrite Ha. apply wp_ret. wps.
  apply (wp_mono _ (fun _ s' => sv s' = sv s /\ wd s' = wd s /\ request_uri (rq s') = a /\
    forget_target (rq s') = forget_target (rq s))).
  { destruct q; wps; split_and!; try done; by rewrite ?forget_target_query, forget_target_uri. }
  intros ? s1 (Es & Ew & Ea & Ef). cbn [negb]. wps.
  pose proof (blit_inv _ _ _ _ Ha) as (_ & _ & Ea'). change (ztake 0 _) with (@nil Z) in Ea'.
  cbn [app] in Ea'. rewrite <- app_assoc in Ea'. cbn [app] in Ea'.
  destruct (clean_mem_spec (length o) (S (length a)) a 0 0 o
    (zdrop (0 + zlen (o ++ [0])) (request_uri (rq s)))) as (b & H1 & _); try done.
  { rewrite Ea', length_app. simpl. lia. }
  assert (Hb : cstr b 0 = Some (clean_pathname o)).
  { eapply clean_mem_cstr; [done|]. by rewrite <- Ea'. }
  eapply wp_checked; [exact H1|]. wps. cbn [rq request_uri set_request_uri].
  rewrite Hb. apply wp_ret. rewrite Hh. change (default 0 (Some 47) =? 47) with true.
  cbn [negb]. wps. split_and!; try done.
Qed.

Lemma translate_uri_wp s u u' path :
  names_file (sv s) u u' path -> nonul u' = true ->
  cstr (request_uri (rq s)) 0 = Some u' -> method (rq s) = M_GET ->
  wp translate_uri (fun n s' => n = 1 /\ sv s' = sv s /\ mallocs (wd s) (wd s') /\
    rq s' = set_pathname (Some path) (rq s)) s.
Proof.
  intros [_ Hhd Hal Hcov Hud [Hvr Hvh] (d & Hdr & -> & Hd & Hfit) Hmime Hty _] Hn Hu Hm.
  destruct (find_alias_none _ u' Hal Hn Hcov) as (b & Hb & Hfind).
  unfold translate_uri, uri, find_alias, plain_path, root_path, fits. wps.
  rewrite Hu. apply wp_ret. rewrite Hhd. change (default 0 (Some 47) =? 47) with true.
  cbn [negb]. wps. rewrite Hb. apply wp_ret. wps. rewrite Hfind. wps.
  rewrite Hud. wps. rewrite Hvr, Hdr, Hvh.
  pose proof (zlen_nonneg d). pose proof (zlen_nonneg u').
  assert (Hps : path_size < 2 ^ 32) by (by vm_compute).
  replace (u32 (zlen d + 1 + zlen u' + 0 + 1)) with (zlen d + zlen u' + 2)
    by (symmetry; unfold u32; rewrite Z.mod_small by lia; lia).
  destruct (Z.ltb_spec path_size (zlen d + zlen u' + 2)); [lia|]. wps.
  unfold strdup_to. wps. apply wp_call. intros ok w [-> Hw]%(mallocs_step memory). wps.
  cbn [negb]. unfold classify. wps. eapply wp_mono; [apply get_mime_type_wp; done|].
  intros mime s' [-> ->]. wps. unfold streq. rewrite bool_decide_false by congruence.
  cbn [rq]. change (method (set_pathname _ _)) with (method (rq s)). rewrite Hm. wps. done.
Qed.
End target.

(** The regular file at [path], whatever memory is allocated before it is opened. *)
Definition opens {os : OS} {laws : OSLaws os} (path : bytes) (st : stat) (data : bytes)
    (w : world) : Prop :=
  st_mode st = S_REG /\ forall w', mallocs w w' -> exists d w1 w2,
    os_open path w' = (SOk d, w1) /\ os_fstat d w1 = (st, w2) /\ file_data d w2 = data /\
    forall c, sent c w2 = sent c w'.

Section answer.
Context {os : OS} {laws : OSLaws os}.
Variable memory : forall n w, fst (os_malloc n w) = true.

Lemma mallocs_sent w w' : mallocs w w' -> forall c, sent c w' = sent c w.
Proof.
  induction 1 as [w|w w1 w2 [n Hn] _ IH]; intros c; [done|].
  rewrite IH. by apply (malloc_quiet c c) in Hn as [? _].
Qed.

Lemma target_field {A} (f : request -> A) r r' :
  (forall r, f (forget_target r) = f r) -> forget_target r' = forget_target r -> f r' = f r.
Proof. intros Hf E. by rewrite <- Hf, E, Hf. Qed.

(** A file that is not a script is opened. *)
Lemma start_response_file s path st d w1 w2 :
  method (rq s) = M_GET -> cgi_type (rq s) = CGI_none -> pathname (rq s) = Some path ->
  access_search (nodes (sv s)) path = ACCESS_ALLOW ->
  os_open path (wd s) = (SOk d, w1) -> os_fstat d w1 = (st, w2) -> st_mode st = S_REG ->
  start_response s = init_get_file d st (mkSt (set_status WRITE (rq s)) (sv s) w2).
Proof.
  intros Hm Hc Hp Ha Eop Est Hreg. unfold start_response, mbind, M_bind, req.
  rewrite Hm, Hc, (bool_decide_false (M_GET = M_POST)), (bool_decide_true (CGI_none = CGI_none)) by done.
  cbn [negb]. unfold upd. cbn [rq sv wd].
  unfold init_get, path_of, mbind, M_bind, req. cbn [rq sv wd].
  change (pathname (set_status WRITE (rq s))) with (pathname (rq s)). rewrite Hp.
  cbn [checked]. unfold mret at 1, M_ret at 1. unfold call at 1. cbn [rq sv wd]. rewrite Eop.
  unfold access_allow, mbind, M_bind, srv. cbn [rq sv wd]. unfold mret at 1, M_ret at 1. rewrite Ha.
  unfold call at 1. cbn [rq sv wd]. rewrite Est, Hreg. by rewrite bool_decide_false.
Qed.

(** The end of the header: the file is found, allowed and opened. *)
Lemma process_header_end_file s u u' path st data :
  logline (rq s) <> Pnull -> names_file (sv s) u u' path ->
  cstr (request_uri (rq s)) 0 = Some u -> method (rq s) = M_GET -> cgi_type (rq s) = CGI_none ->
  opens path st data (wd s) ->
  exists d s2, process_header_end s = init_get_file d st s2 /\ sv s2 = sv s /\
    (forall c, sent c (wd s2) = sent c (wd s)) /\ file_data d (wd s2) = data /\
    cstr (request_uri (rq s2)) 0 = Some u' /\ status (rq s2) = WRITE /\
    forget_target (rq s2) = forget_target (rq s).
Proof.
  intros Hll Hf Hu Hm Hc [Hreg Hopen]. pose proof Hf as [(o & q & Eo & Eu) Hh _ _ _ [Hv _] _ _ _ Ha].
  destruct (wp_elim _ _ _ (decode_uri_wp s u o q Hu Eo ltac:(congruence)))
    as (ok & s1 & E1 & -> & Es1 & Ew1 & Hu1 & Ef1).
  rewrite <- Eu in Hu1. rewrite <- Es1 in Hf.
  pose proof (target_field method _ _ ltac:(done) Ef1) as Em1. rewrite Hm in Em1.
  destruct (wp_elim _ _ _ (translate_uri_wp memory s1 u u' path Hf (cstr_nonul _ _ _ Hu1) Hu1 Em1))
    as (n & s2 & E2 & -> & Es2 & Hw2 & Er2).
  rewrite (header_end_translated s s2).
  2:{ split; [done|]. exists 1. split; [done|]. rewrite Hv.
      unfold mbind, M_bind, mret, M_ret. rewrite E1. exact E2. }
  rewrite Ew1 in Hw2. destruct (Hopen _ Hw2) as (d & w1 & w2 & Eop & Est & Ed & Esent).
  exists d, (mkSt (set_status WRITE (rq s2)) (sv s2) w2).
  assert (Ep : pathname (rq s2) = Some path) by (by rewrite Er2).
  assert (Ec : cgi_type (rq s2) = CGI_none).
  { rewrite Er2. change (cgi_type (rq s1) = CGI_none).
    by rewrite (target_field cgi_type _ _ ltac:(done) Ef1). }
  assert (Em2 : method (rq s2) = M_GET) by (by rewrite Er2).
  split_and!; try done.
  - assert (Eall : path_allowed s2 = Ret true s2).
    { unfold path_allowed, mbind, M_bind, req. rewrite Ep.
      change (access_allow path s2) with (Ret (access_search (nodes (sv s2)) path) s2).
      by rewrite Es2, Es1, Ha. }
    unfold mbind at 1, M_bind at 1. rewrite Eall. cbn [negb].
    by apply (start_response_file s2 path st d w1); rewrite ?Es2, ?Es1.
  - cbn [sv]. congruence.
  - intros c. cbn [wd]. rewrite Esent. by apply mallocs_sent.
  - cbn [rq]. change (cstr (request_uri (rq s2)) 0 = Some u'). by rewrite Er2.
  - cbn [rq]. transitivity (forget_target (rq s2)); [by destruct (rq s2)|].
    by rewrite Er2, forget_target_path, Ef1.
Qed.
End answer.

(** * From the first byte of the request to the last byte of the file *)

(** The connection has received a GET for [u]: the request line, any header lines that
    do not change the answer, the empty line. *)
Record get_received {os : OS} (s : St) (sp u tail : bytes) (v : HTTP_VERSION)
    (options : list (bytes * bytes)) : Prop := {
  gr_unread : unread (rq s);
  gr_line : good_get sp u tail v;
  gr_options : Forall plain_option options;
  gr_stream : exists crs crs' rest, all_cr crs /\ all_cr crs' /\
    client_stream (rq s) =
      line_text (get_line sp u tail, crs) ++ header_text options ++ crs' ++ 10 :: rest /\
    zlen (line_text (get_line sp u tail, crs) ++ header_text options ++ crs') < client_stream_pos (rq s);
  gr_env : zlen (cgi_env (rq s)) = CGI_ENV_MAX + 4;
  gr_count : 0 <= common_cgi_env_count (sv s) /\
    common_cgi_env_count (sv s) + 2 * zlen options <= CGI_ENV_MAX;
  gr_new : cgi_type (rq s) = CGI_none /\ data_mem (rq s) = None /\ ranges (rq s) = [] /\
    if_modified_since (rq s) = Pnull
}.

(** The header of the answer. *)
Definition answer_header (st : stat) (v : HTTP_VERSION) (u' : bytes) (r : request) (g : server) : bytes :=
  ok_header (file_request st (asked v (u' ++ [0]) r)) g.

(** The file can be sent. *)
Record sendable {os : OS} (s : St) (st : stat) (data header : bytes) : Prop := {
  se_size : 0 < st_size st < 2 ^ 62;
  se_data : zlen data = st_size st;
  se_date : is_Some (rfc822_time_buf (current_time (sv s)) (st_mtime st));
  se_cache : mmap_ok (sv s);
  se_caches : caches (sv s) st data;
  se_room : buffer_end (rq s) + zlen header <= BUFFER_SIZE
}.

Lemma file_header_same st r r' g :
  http_version r' = http_version r -> kacount r' = kacount r -> keepalive r' = keepalive r ->
  uri_of r' = uri_of r -> ok_header (file_request st r') g = ok_header (file_request st r) g.
Proof.
  intros E1 E2 E3 E4. unfold ok_header, headers_text, ka_text, content_type_text.
  change (http_version (file_request st ?r)) with (http_version r).
  change (kacount (file_request st ?r)) with (kacount r).
  change (keepalive (file_request st ?r)) with (keepalive r).
  change (uri_of (file_request st ?r)) with (uri_of r). rewrite E1, E2, E3, E4. reflexivity.
Qed.

Section served.
Context {os : OS} {laws : OSLaws os}.
Variable memory : forall n w, fst (os_malloc n w) = true.
Variable no_sigbus : forall w, fst (os_sigbus w) = false.

(** The state before the file is looked at. *)
Lemma plain_get_ready s s2 d st data v u' a :
  printable s -> st_mode st = S_REG -> v <> HTTP09 ->
  cgi_type (rq s) = CGI_none -> data_mem (rq s) = None -> ranges (rq s) = [] ->
  if_modified_since (rq s) = Pnull ->
  sendable s st data (answer_header st v u' (rq s) (sv s)) -> nonul u' = true ->
  sv s2 = sv s -> file_data d (wd s2) = data -> cstr (request_uri (rq s2)) 0 = Some u' ->
  status (rq s2) = WRITE -> forget_target (rq s2) = forget_target (asked v a (rq s)) ->
  plain_get d st s2 /\
  ok_header (file_request st (rq s2)) (sv s2) = answer_header st v u' (rq s) (sv s).
Proof.
  intros ([B1 B2 B3 B4] & _ & [R1 R2 R3 R4 R5 _ R6 R7]) Hreg Hv Hc Hdm Hrg Hif
    [S1 S2 S3 S4 S5 S6] Hn Es Ed Eu Est Ef.
  pose proof (fun A f H => target_field (A := A) f _ _ H Ef) as F.
  assert (Eh : ok_header (file_request st (rq s2)) (sv s2) = answer_header st v u' (rq s) (sv s)).
  { rewrite Es. apply file_header_same.
    - by rewrite (F _ http_version).
    - by rewrite (F _ kacount).
    - by rewrite (F _ keepalive).
    - unfold uri_of. rewrite Eu. cbn [request_uri asked set_keepalive set_http_version set_request_uri].
      change (cstr (u' ++ [0]) 0) with (until_nul (u' ++ [0])). by rewrite until_nul_nonul. }
  split; [|done].
  split; rewrite ?Es, ?Ed; try done.
  - split_and!; [|by rewrite Est|].
    + split; [by rewrite (F _ buffer)|by rewrite (F _ buffer_start)
        |by rewrite (F _ buffer_end), (F _ buffer_start)|by rewrite (F _ buffer_end)].
    + rewrite Es. split; try done; [by exists u'|].
      change (is_Some (rfc822_time_buf (current_time (sv s)) (last_modified (rq s2)))).
      by rewrite (F _ last_modified).
  - by rewrite (F _ method).
  - by rewrite (F _ http_version).
  - by rewrite (F _ cgi_type).
  - by rewrite (F _ data_mem).
  - by rewrite (F _ ranges).
  - by rewrite (F _ if_modified_since).
  - rewrite <- Es, Eh, (F _ buffer_end) by done. exact S6.
Qed.

(** The header is read up to its end. *)
Lemma read_header_get s sp u tail v options :
  get_received s sp u tail v options ->
  exists s' a, read_header s = header_done s' /\ cstr a 0 = Some u /\
    cstr (request_uri (rq s')) 0 = Some u /\
    forget_lines (rq s') = forget_lines (asked v a (rq s)) /\ sv s' = sv s /\
    mallocs (wd s) (wd s').
Proof.
  intros [Hun Hline Hopt (crs & crs' & rest & Hcr & Hcr' & Hs & Hpos) Henv [H0 Hmax] _].
  rewrite !zlen_app in Hpos.
  set (fuel := (Z.to_nat (client_stream_pos (rq s)) -
    S (length (line_text (get_line sp u tail, crs)) + length (header_text options) + length crs'))%nat).
  destruct (header_loop_get memory s sp u tail v crs options crs' rest fuel)
    as (s' & a & E & Ha & _ & Ef & Es & Hm); try done.
  exists s', a. split_and!; try done.
  - unfold read_header. unfold mbind at 1, M_bind at 1, req at 1. pose proof (un_pos _ Hun) as Hp.
    rewrite Hp, Z.sub_0_r.
    assert (Z.to_nat (client_stream_pos (rq s)) = length (line_text (get_line sp u tail, crs)) +
      (length (header_text options) + (length crs' + S fuel)))%nat as ->.
    { subst fuel. unfold zlen in Hpos. lia. }
    unfold mbind at 1, M_bind at 1. rewrite E. unfold mbind at 1, M_bind at 1.
    by destruct (header_done s').
  - change (request_uri (rq s')) with (request_uri (forget_lines (rq s'))). by rewrite Ef.
Qed.

(** The turn that reads the header starts to send the file. *)
Lemma read_header_file s sp u tail v options u' path st data :
  get_received s sp u tail v options -> names_file (sv s) u u' path ->
  opens path st data (wd s) -> printable s ->
  sendable s st data (answer_header st v u' (rq s) (sv s)) ->
  wp read_header (fun _ s' => fd (rq s') = fd (rq s) /\
    serving data 0 (zlen data - 1)
      (stream s ++ answer_header st v u' (rq s) (sv s)) s') s.
Proof.
  intros Hr Hf Ho Hp Hse. pose proof Hr as [Hun Hline _ _ _ _ (Hc & Hdm & Hrg & Hif)].
  destruct (read_header_get _ _ _ _ _ _ Hr) as (s1 & a & E & Ha & Hu1 & Ef1 & Es1 & Hm1).
  assert (F : forall {A} (f : request -> A), (forall r, f (forget_lines r) = f r) ->
    f (rq s1) = f (asked v a (rq s))) by (intros A f H; by rewrite <- H, Ef1, H).
  rewrite <- Es1 in Hf.
  destruct (process_header_end_file memory s1 u u' path st data) as
    (d & s2 & E2 & Es2 & Hsent & Hd & Hu2 & Hst & Ef2); try done.
  { by rewrite (F _ logline). }
  { by rewrite (F _ method). }
  { by rewrite (F _ cgi_type). }
  { destruct Ho as [Hreg Hopen]. split; [done|]. intros w' Hw'. apply Hopen. by etrans. }
  assert (Ef : forget_target (rq s2) = forget_target (asked v a (rq s))).
  { rewrite Ef2. by apply forget_target_lines. }
  pose proof Hf as [(o & q & Eo & Eu) _ _ _ _ _ _ _ _ _].
  assert (Hn : nonul u' = true).
  { by apply (cstr_nonul (request_uri (rq s2)) 0). }
  destruct (plain_get_ready s s2 d st data v u' a) as [Hpg Eh]; try done;
    [apply Ho|apply Hline|congruence|].
  destruct (wp_elim _ _ _ (init_get_file_wp d st s2 memory no_sigbus Hpg))
    as (n & s3 & E3 & Efd & Em & Hs3).
  assert (Hm3 : method (rq s3) = M_GET).
  { rewrite Em. by rewrite (target_field method _ _ ltac:(done) Ef). }
  unfold wp. rewrite E. unfold header_done. unfold mbind at 1, M_bind at 1. rewrite E2, E3.
  unfold mbind, M_bind, req. rewrite Hm3, (bool_decide_false (M_GET = M_POST)), andb_false_r by done.
  unfold mret, M_ret. split.
  - rewrite Efd. by apply (target_field fd _ _ ltac:(done) Ef).
  - cbv zeta in Hs3. rewrite Hd, Eh in Hs3. replace (stream s) with (stream s2); [done|].
    unfold stream, pending. rewrite Hsent, (mallocs_sent _ _ Hm1).
    by rewrite (target_field fd _ _ ltac:(done) Ef), (target_field buffer _ _ ltac:(done) Ef),
      (target_field buffer_start _ _ ltac:(done) Ef), (target_field buffer_end _ _ ltac:(done) Ef).
Qed.

Lemma serving_squashed mem a b pre s :
  serving mem a b pre s ->
  serving mem a b pre (mkSt (set_keepalive KA_STOPPED (rq s)) (sv s) (wd s)).
Proof.
  intros [H|[Hok H]]; [by left|]. right. split; [by destruct Hok; split|].
  destruct H as [H|[k H]]; [by left|right; by exists k].
Qed.

(** C2: a GET as clients send it (request line of HTTP/1.x, header lines that do not change
    the answer, empty line) for a regular file below the document root is answered with
    exactly the 200 header and the bytes of that file.  The server has neither virtual
    hosts nor user directories, no alias covers the URI, the rules allow the path, its type
    is not that of a script, the file is not empty, memory suffices, and no mapped file is
    cut short.  Then the turn that reads the end of the header returns; and as long as in none
    of the turns that follow a write of the output buffer is short ([flushes_whole]; file
    data may be sent in pieces of any size), what they have sent at any time is a prefix
    of the answer, and when the request is done it is all of it, but for what waits in the
    buffer.  After a short write of the buffer the order is lost
    ([short_flush_reorders]). *)
Theorem get_answered s sp u tail v options u' path st data :
  get_received s sp u tail v options -> names_file (sv s) u u' path ->
  opens path st data (wd s) -> printable s -> buffer_end (rq s) = 0 ->
  sendable s st data (answer_header st v u' (rq s) (sv s)) ->
  exists n s1, handle s = Ret n s1 /\
    forall s', rtc turn s1 s' ->
      delivered (stream s ++ answer_header st v u' (rq s) (sv s) ++ data) s s'.
Proof.
  intros Hr Hf Ho Hp Hb Hse. pose proof (read_header_file _ _ _ _ _ _ _ _ _ _ Hr Hf Ho Hp Hse) as W.
  assert (Wh : wp handle (fun _ s' => fd (rq s') = fd (rq s) /\
    serving data 0 (zlen data - 1) (stream s ++ answer_header st v u' (rq s) (sv s)) s') s).
  { unfold handle, flush_first. wps. rewrite Hb. change (0 =? 0) with true. cbn [negb andb]. wps.
    change (1 =? 1) with true. unfold dispatch. wps. rewrite (un_status _ (gr_unread _ _ _ _ _ _ Hr)).
    eapply wp_mono; [exact W|]. intros n s1 [Efd Hs1]. wps. unfold SQUASH_KA.
    destruct (negb _); wps; [|done]. split; [done|]. by apply serving_squashed. }
  destruct (wp_elim _ _ _ Wh) as (n & s1 & E & Efd & Hs1).
  exists n, s1. split; [done|]. intros s' Hr'.
  destruct (turns_serving _ _ _ _ _ _ Hr' Hs1) as [Efd' H].
  apply (serving_delivered _ _ _ _ s) in H; [|congruence].
  replace (zlen data - 1 - 0 + 1) with (zlen data) in H by lia.
  change (slice data 0 ?n) with (ztake n data) in H. by rewrite ztake_ge, <- app_assoc in H by lia.
Qed.
End served.

(** * Witness *)

Definition answer_text : bytes :=
  bs "GET /%2e%2e/f%20x HTTP/1.1" ++ CRLF ++ bs "Host: h" ++ CRLF ++ bs "User-Agent: u" ++ CRLF ++
  CRLF.

Definition answer_options_read : list (bytes * bytes) :=
  [(bs "Host: h", [13]); (bs "User-Agent: u", [13])].

Definition answer_state : St :=
  mkSt (os := scriptOS)
    (set_header_line (Pstream 0) (set_client_stream_pos 200
      (set_client_stream (answer_text ++ zeros 1000) test_request)))
    (set_system_bufsize 65536 test_server)
    (mkScript [mkFile (bs "/www/f x") served_file (bs "hello")] [] 100 [] [] [] 0 [] [] [] 1000 1000).

Lemma script_mallocs w w' : mallocs (os := scriptOS) w w' -> w' = w.
Proof. induction 1 as [|w w1 w2 [n Hn] _ ->]; [done|]. by injection Hn as ->. Qed.

Lemma answer_opens : opens (os := scriptOS) (bs "/www/f x") served_file (bs "hello") (wd answer_state).
Proof.
  split; [reflexivity|]. intros w' ->%script_mallocs. eexists _, _, _.
  split; [reflexivity|]. split; [reflexivity|]. split; reflexivity.
Qed.

Lemma answer_good : good_get [] (bs "/%2e%2e/f%20x") (bs " HTTP/1.1") HTTP11.
Proof.
  split; try reflexivity; try discriminate.
  - constructor.
  - split; [discriminate|]. split; [|reflexivity]. by apply (bool_decide_unpack _); vm_compute.
  - split; [by apply (bool_decide_unpack _); vm_compute|]. right.
    exists (bs "GET /%2e%2e/f%20x HTTP/1."), 49. split; [reflexivity|lia].
Qed.

(** A header line that ends with a carriage return and a line feed. *)
Lemma short_option c b l :
  forallb legal_char (c :: b ++ [l]) = true -> 10 ∉ c :: b ++ [l] -> c <> 13 -> l <> 13 ->
  zlen (c :: b ++ [l]) < MAX_HEADER_LENGTH -> is_Some (strchr (c :: b ++ [l]) 58) ->
  option_name (c :: b ++ [l]) ∉ answer_options -> plain_option (c :: b ++ [l], [13]).
Proof.
  intros Hl H10 Hc Hlast Hz Hs Hn. split; [|by split]. split; cbn [fst snd]; try done.
  - split; [done|]. right. by exists (c :: b), l.
  - by repeat constructor.
  - by exists c, (b ++ [l]).
Qed.

Lemma answer_received :
  get_received answer_state [] (bs "/%2e%2e/f%20x") (bs " HTTP/1.1") HTTP11 answer_options_read.
Proof.
  split.
  - split; reflexivity.
  - exact answer_good.
  - apply List.Forall_cons; [|apply List.Forall_cons; [|apply List.Forall_nil]].
    + apply (short_option 72 (bs "ost: ") 104); apply (bool_decide_unpack _); by vm_compute.
    + apply (short_option 85 (bs "ser-Agent: ") 117); apply (bool_decide_unpack _); by vm_compute.
  - exists [13], [13], (zeros 1000). split_and!.
    + repeat constructor.
    + repeat constructor.
    + reflexivity.
    + by vm_compute.
  - reflexivity.
  - vm_compute. split; discriminate.
  - split_and!; reflexivity.
Qed.

Lemma answer_names :
  names_file (sv answer_state) (bs "/%2e%2e/f%20x") (bs "/f x") (bs "/www/f x").
Proof.
  split.
  - eexists _, _. split; vm_compute; reflexivity.
  - reflexivity.
  - exact test_alias_ok.
  - intros i b a Hi Ha. apply lookup_replicate in Hi as [-> _]. by apply elem_of_nil in Ha.
  - reflexivity.
  - split; reflexivity.
  - exists (bs "/www"). split_and!; try reflexivity. vm_compute. discriminate.
  - destruct test_printable as (_ & _ & []). done.
  - vm_compute. discriminate.
  - reflexivity.
Qed.

Lemma answer_printable : printable answer_state.
Proof.
  destruct test_printable as (_ & _ & []).
  split_and!; [split; vm_compute; congruence|discriminate|by split].
Qed.

Lemma answer_sendable : sendable answer_state served_file (bs "hello")
  (answer_header served_file HTTP11 (bs "/f x") (rq answer_state) (sv answer_state)).
Proof.
  split.
  - by vm_compute.
  - reflexivity.
  - eexists. reflexivity.
  - by destruct test_mmap_ok; split.
  - exact served_caches.
  - vm_compute. discriminate.
Qed.

Lemma answer_start : seen socket_state (handle answer_state) = Some ([], 65536, 7, None).
Proof. vm_compute. reflexivity. Qed.

Lemma answer_turn : seen all_out ((handle ≫= fun _ => handle) answer_state) = Some (DONE, []).
Proof. vm_compute. reflexivity. Qed.

Lemma answer_stream : stream answer_state = [].
Proof. vm_compute. reflexivity. Qed.

Lemma answer_fd : fd (rq answer_state) = 7.
Proof. vm_compute. reflexivity. Qed.

(** The turn that reads the header, and the turn that sends the answer. *)
Lemma get_answered_witness : exists n s1 m s2,
  handle answer_state = Ret n s1 /\ handle s1 = Ret m s2 /\
  sent 7 (wd s2) =
    answer_header served_file HTTP11 (bs "/f x") (rq answer_state) (sv answer_state) ++ bs "hello".
Proof.
  destruct (get_answered (os := scriptOS) (fun _ _ => eq_refl) (fun _ => eq_refl) answer_state []
    (bs "/%2e%2e/f%20x") (bs " HTTP/1.1") HTTP11 answer_options_read (bs "/f x") (bs "/www/f x")
    served_file (bs "hello") answer_received answer_names answer_opens answer_printable eq_refl
    answer_sendable) as (n & s1 & E & H).
  destruct (seen_bind _ _ _ _ _ answer_turn) as (n' & s1' & m & s2 & E1 & E2 & Eo).
  rewrite E in E1. injection E1 as <- <-. injection Eo as Ed Ep.
  pose proof answer_start as Es. rewrite E in Es.
  exists n, s1, m, s2. split; [exact E|]. split; [exact E2|].
  destruct (H s2 (rtc_once _ _ (calm_turn n 65536 s1 m s2 Es (small_bufsize 65536 eq_refl) E2)))
    as [_ Hd].
  specialize (Hd Ed). rewrite Ep, app_nil_r, answer_stream, app_nil_l, answer_fd in Hd.
  exact Hd.
Defined.
