(* ===== verification/Poll.v ===== *)
(** poll.c: the main loop of a build with poll(2) instead of select(2), with the
    macros of defines.h for it.  A blocked request is an entry of the array that is
    passed to poll, and remembers its index there. *)

From S2P Require Import Prelude Types Machine Buffer Response Queue Read Request Select.

(** Bits of the events, from poll.h. *)
Definition POLLIN : Z := 1.
Definition POLLPRI : Z := 2.
Definition POLLOUT : Z := 4.
Definition POLLERR : Z := 8.
Definition POLLHUP : Z := 16.
Definition POLLNVAL : Z := 32.

Definition BOA_READ : Z := Z.lor (Z.lor POLLIN POLLPRI) POLLHUP.
Definition BOA_WRITE : Z := Z.lor POLLOUT POLLHUP.

Record pollfd := mkPollfd { pfd_fd : Z; pfd_events : Z; pfd_revents : Z }.

(** The variables of the loop: [pfds] is pfd1[which], which the global variable of
    this name points to whenever another function runs, and [other] is pfd1[other];
    [pollfd_id] holds the field of this name of the requests. *)
Record poller := mkPoller {
  pfds : list pollfd;
  other : list pollfd;
  pfd_len : Z;
  server_pfd : Z;
  watch_server : bool;
  pollfd_id : gmap positive Z
}.

Definition eta_poller (r : poller) : poller :=
  mkPoller r.(pfds) r.(other) r.(pfd_len) r.(server_pfd) r.(watch_server) r.(pollfd_id).
Definition set_pfds (v : list pollfd) (r : poller) : poller :=
  ltac:(setter (eta_poller r) (r.(pfds)) v).
Definition set_other (v : list pollfd) (r : poller) : poller :=
  ltac:(setter (eta_poller r) (r.(other)) v).
Definition set_pfd_len (v : Z) (r : poller) : poller :=
  ltac:(setter (eta_poller r) (r.(pfd_len)) v).
Definition set_server_pfd (v : Z) (r : poller) : poller :=
  ltac:(setter (eta_poller r) (r.(server_pfd)) v).
Definition set_watch_server (v : bool) (r : poller) : poller :=
  ltac:(setter (eta_poller r) (r.(watch_server)) v).
Definition set_pollfd_id (v : gmap positive Z) (r : poller) : poller :=
  ltac:(setter (eta_poller r) (r.(pollfd_id)) v).

(** pfd1[which] becomes pfd1[other] and the other way round. *)
Definition swap_pfds (ps : poller) : poller := set_pfds (other ps) (set_other (pfds ps) ps).

(** [a[i].fd = d; a[i].events = ev], outside of the array [None]. *)
Definition watch (a : list pollfd) (i d ev : Z) : option (list pollfd) :=
  e ← zget a i; Some (<[Z.to_nat i := mkPollfd d ev (pfd_revents e)]> a).

(** [BOA_FD_SET (req, thefd, where)].  The functions whose names begin with [poll_]
    are those of this build. *)
Definition poll_FD_SET (p : positive) (d : Z) (ev : Z) (ps : poller) : option poller :=
  a ← watch (pfds ps) (pfd_len ps) d ev;
  Some (set_pfd_len (pfd_len ps + 1)
          (set_pollfd_id (<[p := pfd_len ps]> (pollfd_id ps)) (set_pfds a ps))).

(** What a blocked request waits for. *)
Definition poll_for (r : request) : Z * Z :=
  let '(d, write) := wait_for r in (d, if (write : bool) then BOA_WRITE else BOA_READ).

(** * The state of the loop besides that of the server *)

Section poll_monad.
Context {os : OS}.

Definition PM (A : Type) : Type := poller -> M (A * poller).

#[export] Instance PM_ret : MRet PM := fun A a ps => mret (a, ps).
#[export] Instance PM_bind : MBind PM := fun A B k m ps =>
  x ← m ps; k (fst x) (snd x).

(** A part that does not know of poll. *)
Definition lift {A} (m : M A) : PM A := fun ps => a ← m; mret (a, ps).
Definition pget : PM poller := fun ps => mret (ps, ps).
Definition pupd (f : poller -> poller) : PM unit := fun ps => mret (tt, f ps).
Definition pchecked {A} (o : option A) : PM A := lift (checked o).
Definition pupd_checked (f : poller -> option poller) : PM unit :=
  fun ps => ps' ← checked (f ps); mret (tt, ps').
End poll_monad.

Section poll.
Context {os : OS}.

(** * queue.c and request.c with these macros

    [BOA_FD_CLR] does nothing in this build, and nobody reads the descriptor sets of the
    other one, which [close_connection] and [free_resources] still clear.  [heap] is the
    request structures without [pollfd_id], which only the poller knows of. *)

Definition poll_ready_request (p : positive) (g : server) : option server :=
  '(h1, block) ← dequeue (heap g) (request_block g) p;
  '(h2, ready) ← enqueue h1 (request_ready g) p;
  Some (set_request_block block (set_request_ready ready (set_heap h2 g))).

Definition block_move (p : positive) (g : server) : option server :=
  '(h1, ready) ← dequeue (heap g) (request_ready g) p;
  '(h2, block) ← enqueue h1 (request_block g) p;
  Some (set_request_block block (set_request_ready ready (set_heap h2 g))).

Definition poll_block_request (p : positive) : PM unit :=
  lift (queue_op (block_move p)) ;;
  g ← lift srv;
  r ← pchecked (heap g !! p);
  let '(d, ev) := poll_for r in
  pupd_checked (poll_FD_SET p d ev).

Definition poll_keep_connection (p : positive) : PM unit :=
  lift (on_request p
    (sanitize false ;;
     r ← req; upd (set_kacount (u32 (kacount r - 1))))) ;;
  g ← lift srv;
  lift (upd_srv (set_status_requests (status_requests g + 1))) ;;
  lift (queue_op (block_push p)) ;;
  g ← lift srv;
  r ← pchecked (heap g !! p);
  pupd_checked (poll_FD_SET p (fd r) BOA_READ).

Definition poll_free_request (p : positive) : PM unit :=
  stay ← lift (on_request p free_flush);
  if (stay : bool) then mret tt
  else
    lift (queue_op (ready_remove p)) ;;
    lift (on_request p free_resources) ;;
    g ← lift srv;
    r ← pchecked (heap g !! p);
    if reusable r then poll_keep_connection p else lift (close_connection p).

Definition poll_process_one (server_sock : Z) (current : positive) : PM (option positive) :=
  now ← lift (call os_time);
  lift (upd_srv (set_current_time now)) ;;
  retval ← lift (on_request current handle);
  g ← lift srv;
  lift (if pending_requests g then get_request server_sock else mret tt) ;;
  if retval =? -1 then
    n ← lift (next_of current); poll_block_request current ;; mret n
  else if retval =? 0 then
    lift (touch current) ;; n ← lift (next_of current); poll_free_request current ;; mret n
  else if retval =? 1 then
    lift (touch current) ;; lift (next_of current)
  else
    lift (on_request current (upd (set_status DEAD))) ;; lift (next_of current).

Fixpoint poll_process_loop (fuel : nat) (server_sock : Z) (current : option positive) : PM unit :=
  match current with
  | None => mret tt
  | Some p =>
      match fuel with
      | O => lift undef
      | S fuel' => n ← poll_process_one server_sock p; poll_process_loop fuel' server_sock n
      end
  end.

Definition poll_process_requests (server_sock : Z) : PM unit :=
  g ← lift srv;
  lift (if pending_requests g then get_request server_sock else mret tt) ;;
  g ← lift srv;
  poll_process_loop (size (heap g)) server_sock (request_ready g).

(** * update_blocked *)

(** What becomes of the blocked request, [None]: it stays blocked. *)
Definition poll_verdict (g : server) (r : request) (rev : Z) : option (request -> request) :=
  let time_since := current_time g - time_last r in
  if negb (Z.land rev (Z.lor POLLNVAL POLLERR) =? 0) then Some (set_status DEAD)
  else if REQUEST_TIMEOUT <? time_since then Some (set_status TIMED_OUT)
  else if (kacount r <? ka_max g) && (ka_timeout g <=? time_since)
          && bool_decide (logline r = Pnull) then Some (set_status TIMED_OUT)
  else if rev =? 0 then None
  else Some (fun r => r).

(** The entry [e] goes to the array for the next turn. *)
Definition still_blocked (p : positive) (e : pollfd) (ps : poller) : option poller :=
  a ← watch (other ps) (pfd_len ps) (pfd_fd e) (pfd_events e);
  Some (set_pfd_len (pfd_len ps + 1)
          (set_pollfd_id (<[p := pfd_len ps]> (pollfd_id ps)) (set_other a ps))).

Definition poll_update_one (p : positive) : PM unit :=
  g ← lift srv;
  r ← pchecked (heap g !! p);
  ps ← pget;
  id ← pchecked (pollfd_id ps !! p);
  e ← pchecked (zget (pfds ps) id);
  match poll_verdict g r (pfd_revents e) with
  | None => pupd_checked (still_blocked p e)
  | Some f => lift (on_request p (upd f)) ;; lift (queue_op (poll_ready_request p))
  end.

Fixpoint poll_update_loop (fuel : nat) (current : option positive) : PM unit :=
  match current with
  | None => mret tt
  | Some p =>
      match fuel with
      | O => lift undef
      | S fuel' => n ← lift (next_of p); poll_update_one p ;; poll_update_loop fuel' n
      end
  end.

Definition update_blocked : PM unit :=
  now ← lift (call os_time);
  lift (upd_srv (set_current_time now)) ;;
  g ← lift srv;
  poll_update_loop (size (heap g)) (request_block g).

(** * The loop *)

(** poll (pfds, nfds, timeout): the revents of the entries. *)
Variable os_poll : list (Z * Z) -> Z -> world -> sys (list Z) * world.

(** The entry of the server is removed: the others move to the other array. *)
Fixpoint copy_but (skip i : Z) (l : list pollfd) (j : Z) (to : list pollfd) :
    option (list pollfd * Z) :=
  match l with
  | [] => Some (to, j)
  | e :: l' =>
      if i =? skip then copy_but skip (i + 1) l' j to
      else to ← watch to j (pfd_fd e) (pfd_events e); copy_but skip (i + 1) l' (j + 1) to
  end.

Definition remove_server (ps : poller) : option poller :=
  '(a, j) ← copy_but (server_pfd ps) 0 (ztake (pfd_len ps) (pfds ps)) 0 (other ps);
  Some (set_watch_server false (swap_pfds (set_pfd_len j (set_other a ps)))).

(** The server socket is watched, too. *)
Definition add_server (server_s : Z) (ps : poller) : option poller :=
  a ← watch (pfds ps) (pfd_len ps) server_s BOA_READ;
  Some (set_watch_server true (set_pfd_len (pfd_len ps + 1)
          (set_server_pfd (pfd_len ps) (set_pfds a ps)))).

Definition poll_signals (server_s : Z) : PM Z :=
  g ← lift srv;
  if negb (sigterm_flag g =? 0) then
    server_s ←
      (if sigterm_flag g =? 1 then
         lift sigterm_stage1_run ;;
         lift (call_ (os_close server_s)) ;;
         pupd_checked remove_server ;;
         mret (-1)
       else mret server_s);
    g ← lift srv;
    lift (if (sigterm_flag g =? 2) && bool_decide (request_ready g = None)
             && bool_decide (request_block g = None)
          then sigterm_stage2_run else mret tt) ;;
    mret server_s
  else
    (if total_connections g <? max_connections g then pupd_checked (add_server server_s)
     else pupd (set_watch_server false)) ;;
    mret server_s.

(** The results of poll. *)
Fixpoint set_revents (l : list pollfd) (revs : list Z) : list pollfd :=
  match l, revs with
  | e :: l', rev :: revs' => mkPollfd (pfd_fd e) (pfd_events e) rev :: set_revents l' revs'
  | _, _ => l
  end.

(** The call of poll; [false]: it was interrupted.  In this build read_config_files
    multiplies [default_timeout] by 1000; the model of config.c keeps the seconds. *)
Definition loop_poll : PM bool :=
  ps ← pget;
  if pfd_len ps =? 0 then mret true
  else
    g ← lift srv;
    let timeout :=
      match request_ready g, request_block g with
      | Some _, _ => 0
      | None, Some _ => i32 (default_timeout g * 1000)
      | None, None => -1
      end in
    let nfds := ztake (pfd_len ps) (pfds ps) in
    res ← lift (call (os_poll ((fun e => (pfd_fd e, pfd_events e)) <$> nfds) timeout));
    match res with
    | SErr EINTR => mret false
    | _ =>
        pupd (set_pfds (set_revents (pfds ps) (match res with SOk revs => revs | _ => [] end))) ;;
        g ← lift srv;
        ps ← pget;
        (if (sigterm_flag g =? 0) && watch_server ps then
           e ← pchecked (zget (pfds ps) (server_pfd ps));
           if negb (Z.land (pfd_revents e) (Z.lor POLLNVAL POLLERR) =? 0) then lift die
           else if negb (Z.land (pfd_revents e) BOA_READ =? 0) then
             lift (upd_srv (set_pending_requests true))
           else mret tt
         else mret tt) ;;
        now ← lift (call os_time);
        lift (upd_srv (set_current_time now)) ;;
        mret true
    end.

Definition poll_loop_once (server_s : Z) : PM Z :=
  now ← lift (call os_time);
  lift (upd_srv (set_current_time now)) ;;
  lift run_signals ;;
  server_s ← poll_signals server_s;
  lift (upd_srv (set_pending_requests false)) ;;
  go ← loop_poll;
  if negb go then mret server_s
  else
    pupd (set_pfd_len 0) ;;
    g ← lift srv;
    (match request_block g with Some _ => update_blocked | None => mret tt end) ;;
    pupd swap_pfds ;;
    poll_process_requests server_s ;;
    mret server_s.
End poll.
