(* ===== verification/PollProps.v ===== *)
(** poll.c: [update_blocked] wakes up exactly the requests that poll reported or that
    have timed out, and hands the entries of the others over to the next call of poll. *)

From S2P Require Import Prelude Types Machine ScriptOS Buffer Response Queue QueueProps.
From S2P Require Import Frame Read Request Pool Select Loop Wakeup MainLoop Poll.

(** * Symbolic execution *)

Section pwp.
Context {os : OS}.

(** [m] returns when it is run from these states, and the results satisfy [Q]. *)
Definition pwp {A} (m : PM A) (Q : A -> poller -> St -> Prop) (ps : poller) (s : St) : Prop :=
  wp (m ps) (fun x s' => Q (fst x) (snd x) s') s.

Lemma pwp_ret {A} (a : A) (Q : A -> poller -> St -> Prop) ps s : Q a ps s -> pwp (mret a) Q ps s.
Proof. done. Qed.

Lemma pwp_bind {A B} (m : PM A) (k : A -> PM B) (Q : B -> poller -> St -> Prop) ps s :
  pwp m (fun a ps' s' => pwp (k a) Q ps' s') ps s -> pwp (m ≫= k) Q ps s.
Proof. intros H. by apply wp_bind. Qed.

Lemma pwp_mono {A} (m : PM A) (Q Q' : A -> poller -> St -> Prop) ps s :
  pwp m Q ps s -> (forall a ps' s', Q a ps' s' -> Q' a ps' s') -> pwp m Q' ps s.
Proof. intros H HQ. eapply wp_mono; [exact H|]. intros [a ps'] s'. apply HQ. Qed.

Lemma pwp_lift {A} (m : M A) (Q : A -> poller -> St -> Prop) ps s :
  wp m (fun a s' => Q a ps s') s -> pwp (lift m) Q ps s.
Proof. intros H. unfold pwp, lift. apply wp_bind. eapply wp_mono; [exact H|]. intros a s' Ha. done. Qed.

Lemma pwp_pget (Q : poller -> poller -> St -> Prop) ps s : Q ps ps s -> pwp pget Q ps s.
Proof. done. Qed.

Lemma pwp_checked {A} (o : option A) a (Q : A -> poller -> St -> Prop) ps s :
  o = Some a -> Q a ps s -> pwp (pchecked o) Q ps s.
Proof. intros E H. apply pwp_lift. by eapply wp_checked. Qed.

Lemma pwp_upd_checked f ps' (Q : unit -> poller -> St -> Prop) ps s :
  f ps = Some ps' -> Q tt ps' s -> pwp (pupd_checked f) Q ps s.
Proof. intros E H. unfold pwp, pupd_checked. rewrite E. by apply wp_bind, wp_ret. Qed.
End pwp.

Ltac pwp_step :=
  lazymatch goal with
  | |- pwp (mbind _ _) _ _ _ => apply pwp_bind
  | |- pwp (mret _) _ _ _ => apply pwp_ret
  | |- pwp (lift _) _ _ _ => apply pwp_lift; wps
  | |- pwp pget _ _ _ => apply pwp_pget
  | |- pwp (let _ := _ in _) _ _ _ => cbv zeta
  end.
Ltac pwps := repeat pwp_step.

(** * update_blocked *)

Lemma zget_insert_same {A} (a : list A) i x : 0 <= i < zlen a -> zget (<[Z.to_nat i := x]> a) i = Some x.
Proof.
  intros Hi. unfold zget. destruct (Z.leb_spec 0 i); [|lia].
  apply list_lookup_insert_eq. unfold zlen in Hi. lia.
Qed.

Lemma zget_insert_other {A} (a : list A) i j x :
  0 <= i -> i <> j -> zget (<[Z.to_nat i := x]> a) j = zget a j.
Proof.
  intros Hi Hij. unfold zget. destruct (Z.leb_spec 0 j); [|done].
  apply list_lookup_insert_ne. lia.
Qed.

Lemma watch_Some a i d ev :
  0 <= i < zlen a -> exists e, watch a i d ev = Some (<[Z.to_nat i := mkPollfd d ev (pfd_revents e)]> a).
Proof. intros Hi. unfold watch. destruct (zget_is_Some a i) as [e ->]; [done|]. by exists e. Qed.

(** The entry of the request in an array. *)
Definition entry_at (ids : gmap positive Z) (a : list pollfd) (p : positive) : option pollfd :=
  i ← ids !! p; zget a i.

(** The entries say the same about the descriptor; poll overwrites the rest. *)
Definition same_watch (e e' : pollfd) : Prop := pfd_fd e' = pfd_fd e /\ pfd_events e' = pfd_events e.

(** What [update_blocked] decides about the blocked request at [p]. *)
Definition verdict_at (g : server) (ps : poller) (p : positive) : option (request -> request) :=
  match contents (heap g) p, entry_at (pollfd_id ps) (pfds ps) p with
  | Some r, Some e => poll_verdict g r (pfd_revents e)
  | _, _ => None
  end.

Definition readied (g : server) (ps : poller) : list positive -> list positive :=
  List.filter (fun p => bool_decide (is_Some (verdict_at g ps p))).
Definition staying (g : server) (ps : poller) : list positive -> list positive :=
  List.filter (fun p => negb (bool_decide (is_Some (verdict_at g ps p)))).

(** The request at [p] is entry [k] of [a], as [e] was. *)
Definition entered (ps : poller) (a : list pollfd) (e : pollfd) (k : nat) (p : positive) : Prop :=
  pollfd_id ps !! p = Some (Z.of_nat k) /\ exists e', zget a (Z.of_nat k) = Some e' /\ same_watch e e'.

Lemma poll_verdict_unlinked g r rev : poll_verdict g (unlinked r) rev = poll_verdict g r rev.
Proof. done. Qed.

(** The verdict depends on these globals only. *)
Lemma poll_verdict_server g g' r rev :
  current_time g' = current_time g -> ka_max g' = ka_max g -> ka_timeout g' = ka_timeout g ->
  poll_verdict g' r rev = poll_verdict g r rev.
Proof. unfold poll_verdict. by intros -> -> ->. Qed.

(** The verdicts are changes of the status. *)
Lemma poll_verdict_links g r rev f :
  poll_verdict g r rev = Some f ->
  forall r, next (f r) = next r /\ prev (f r) = prev r /\ unlinked (f r) = f (unlinked r).
Proof.
  unfold poll_verdict. intros H. repeat case_match; try discriminate; by injection H as <-.
Qed.

(** The queues when a blocked request becomes ready. *)
Lemma poll_ready_pool g lr l1 p l2 lf lo :
  pool g lr (l1 ++ p :: l2) lf lo ->
  exists h bl, poll_ready_request p g =
    Some (set_request_block bl (set_request_ready (Some p) (set_heap h g))) /\
  pool (set_request_block bl (set_request_ready (Some p) (set_heap h g))) (p :: lr) (l1 ++ l2) lf lo /\
  forall q, contents h q = contents (heap g) q.
Proof.
  intros H. pose proof H as [Hr Hb Hf Hn _ _].
  destruct (move_dlist _ _ _ _ _ _ _ _ _ Hb Hr Hf) as (h1 & bl & h2 & E1 & E2 & ? & D2 & ? & C).
  { eapply NoDup_part; [|exact Hn]. pool_list. }
  exists h2, bl. split_and!; [|eapply pool_move; [exact H|done..|pool_list]|exact C].
  unfold poll_ready_request. rewrite E1. simpl. by rewrite E2.
Qed.

Section update.
Context {os : OS}.

(** In the middle of [update_blocked], which began with [g0] and [ps0]: [lw] have become
    ready, [l1] stay blocked, and [l2] have not been looked at. *)
Record halfway (g0 : server) (ps0 : poller) (lw l1 l2 : list positive) (ps : poller) (s : St) :
    Prop := {
  hw_pfds : pfds ps = pfds ps0;
  hw_other : zlen (other ps) = zlen (other ps0);
  hw_len : pfd_len ps = zlen l1;
  hw_time : current_time (sv s) = current_time g0 /\ ka_max (sv s) = ka_max g0 /\
    ka_timeout (sv s) = ka_timeout g0;
  hw_todo : forall q, q ∈ l2 ->
    pollfd_id ps !! q = pollfd_id ps0 !! q /\ contents (heap (sv s)) q = contents (heap g0) q;
  hw_kept : forall k q, l1 !! k = Some q -> contents (heap (sv s)) q = contents (heap g0) q /\
    exists e, entry_at (pollfd_id ps0) (pfds ps0) q = Some e /\ entered ps (other ps) e k q;
  hw_woken : forall q, q ∈ lw -> exists f, verdict_at g0 ps0 q = Some f /\
    contents (heap (sv s)) q = f <$> contents (heap g0) q
}.

Lemma halfway_verdict g0 ps0 lw l1 p l2 ps s r :
  halfway g0 ps0 lw l1 (p :: l2) ps s -> heap (sv s) !! p = Some r ->
  is_Some (entry_at (pollfd_id ps0) (pfds ps0) p) ->
  exists id e, pollfd_id ps !! p = Some id /\ zget (pfds ps) id = Some e /\
    entry_at (pollfd_id ps0) (pfds ps0) p = Some e /\ contents (heap g0) p = Some (unlinked r) /\
    poll_verdict (sv s) r (pfd_revents e) = verdict_at g0 ps0 p.
Proof.
  intros [Hp _ _ (T1 & T2 & T3) Ht _ _] Er [e He]. destruct (Ht p) as [Ei Ec]; [set_solver|].
  rewrite (contents_lookup _ _ _ Er) in Ec. pose proof He as He'. unfold entry_at in He'.
  destruct (pollfd_id ps0 !! p) as [id|] eqn:Eid; [|done].
  exists id, e. rewrite Hp, Ei. split_and!; try done.
  unfold verdict_at. rewrite <- Ec, He, poll_verdict_unlinked. symmetry. by apply poll_verdict_server.
Qed.

(** A request that stays blocked. *)
Lemma stays g0 ps0 lw l1 p l2 ps s e :
  halfway g0 ps0 lw l1 (p :: l2) ps s -> NoDup (l1 ++ p :: l2) ->
  entry_at (pollfd_id ps0) (pfds ps0) p = Some e -> zlen l1 < zlen (other ps0) ->
  exists ps', still_blocked p e ps = Some ps' /\ halfway g0 ps0 lw (l1 ++ [p]) l2 ps' s.
Proof.
  intros [Hp Ho Hl Hti Ht Hk Hw] (_ & Hx & [Hp2 _]%NoDup_cons)%NoDup_app He Hroom.
  pose proof (zlen_nonneg l1).
  destruct (watch_Some (other ps) (pfd_len ps) (pfd_fd e) (pfd_events e)) as [e0 Ew]; [lia|].
  eexists. split; [unfold still_blocked; by rewrite Ew|].
  split; cbn [pfds other pfd_len pollfd_id set_pfd_len set_pollfd_id set_other]; try done.
  - unfold zlen in *. by rewrite length_insert.
  - rewrite zlen_app. change (zlen [p]) with 1. lia.
  - intros q Hq. destruct (Ht q) as [H1 H2]; [set_solver|]. split; [|done].
    rewrite lookup_insert_ne; [done|]. by intros ->.
  - intros k q [Hkq|[Hge Hkq]]%lookup_app_Some.
    + destruct (Hk k q Hkq) as (Ec & e1 & He1 & Hid & e' & Hz & Hs). split; [done|].
      exists e1. split; [done|]. pose proof (lookup_lt_Some _ _ _ Hkq) as Hlt. split; cbn.
      * rewrite lookup_insert_ne; [done|]. intros ->. apply (Hx q); [by eapply list_elem_of_lookup_2|set_solver].
      * exists e'. split; [|done]. rewrite zget_insert_other; [done|lia|]. rewrite Hl. unfold zlen. lia.
    + apply list_lookup_singleton_Some in Hkq as [Hk0 <-].
      destruct (Ht p) as [_ Ec]; [set_solver|]. split; [done|]. exists e. split; [done|].
      assert (Z.of_nat k = pfd_len ps) as Ek by (rewrite Hl; unfold zlen; lia).
      split; cbn; rewrite Ek; [by rewrite lookup_insert_eq|].
      eexists. split; [apply zget_insert_same; lia|]. done.
Qed.

(** A request that becomes ready. *)
Lemma wakes_up g0 ps0 lw l1 p l2 lr lf ps s r f :
  halfway g0 ps0 lw l1 (p :: l2) ps s -> conns (sv s) lr (l1 ++ p :: l2) lf ->
  heap (sv s) !! p = Some r -> contents (heap g0) p = Some (unlinked r) ->
  verdict_at g0 ps0 p = Some f ->
  (forall r, next (f r) = next r /\ prev (f r) = prev r /\ unlinked (f r) = f (unlinked r)) ->
  wp (on_request p (upd f) ;; queue_op (poll_ready_request p)) (fun _ s' =>
    conns (sv s') (p :: lr) (l1 ++ l2) lf /\ halfway g0 ps0 (p :: lw) l1 l2 ps s') s.
Proof.
  intros [Hp Ho Hl Hti Ht Hk Hw] [H En] Er Ec Hv Hf. apply wp_bind.
  unfold wp at 1. rewrite (on_request_upd _ _ _ _ Er).
  destruct (Hf r) as (F1 & F2 & F3).
  assert (H1 := pool_store _ _ _ _ _ _ _ _ Er F1 F2 H).
  destruct (poll_ready_pool _ _ _ _ _ _ _ H1) as (h & bl & E & P & C).
  unfold queue_op. wps. eapply wp_checked; [exact E|]. wps.
  assert (Hc : forall q, contents h q = if decide (q = p) then Some (f (unlinked r))
                                       else contents (heap (sv s)) q).
  { intros q. rewrite C. cbn [heap set_heap]. unfold contents. destruct (decide (q = p)) as [->|].
    - rewrite lookup_insert_eq. simpl. by rewrite F3.
    - by rewrite lookup_insert_ne. }
  pose proof (p_nodup _ _ _ _ _ H) as Hnd.
  assert (Hne : forall q, q ∈ l1 ++ l2 -> q <> p).
  { intros q Hq ->. apply NoDup_app in Hnd as (_ & _ & (Hnb & _ & _)%NoDup_app).
    apply NoDup_app in Hnb as (_ & Hx & [Hp2 _]%NoDup_cons).
    apply elem_of_app in Hq as [Hq|Hq]; [|done]. apply (Hx p Hq). set_solver. }
  split; [split; [exact P|]; simpl; rewrite En, !zlen_app, !zlen_cons; f_equal; lia|].
  split; cbn [sv heap set_request_block set_request_ready set_heap]; try done.
  - intros q Hq. rewrite Hc, decide_False by (apply Hne; set_solver). apply Ht. set_solver.
  - intros k q Hkq. rewrite Hc, decide_False.
    + by apply Hk.
    + apply Hne. apply elem_of_app. left. by eapply list_elem_of_lookup_2.
  - intros q Hq. rewrite Hc. destruct (decide (q = p)) as [->|].
    + exists f. split; [done|]. by rewrite Ec.
    + apply Hw. set_solver.
Qed.

(** One request. *)
Lemma poll_update_one_pwp g0 ps0 lw l1 p l2 lr lf ps s :
  halfway g0 ps0 lw l1 (p :: l2) ps s -> conns (sv s) lr (l1 ++ p :: l2) lf ->
  is_Some (entry_at (pollfd_id ps0) (pfds ps0) p) -> zlen l1 < zlen (other ps0) ->
  pwp (poll_update_one p) (fun _ ps' s' =>
    if bool_decide (is_Some (verdict_at g0 ps0 p))
    then conns (sv s') (p :: lr) (l1 ++ l2) lf /\ halfway g0 ps0 (p :: lw) l1 l2 ps' s'
    else conns (sv s') lr (l1 ++ p :: l2) lf /\ halfway g0 ps0 lw (l1 ++ [p]) l2 ps' s') ps s.
Proof.
  intros Hh Hc He Hroom.
  destruct (pool_is_some _ _ _ _ _ p (proj1 Hc)) as [r Er]; [set_solver|].
  destruct (halfway_verdict _ _ _ _ _ _ _ _ _ Hh Er He) as (id & e & Eid & Ee & Ea & Ec & Ev).
  unfold poll_update_one. pwps. eapply pwp_checked; [exact Er|]. pwps.
  eapply pwp_checked; [exact Eid|]. pwps. eapply pwp_checked; [exact Ee|]. rewrite Ev.
  destruct (verdict_at g0 ps0 p) as [f|] eqn:Ef.
  - rewrite bool_decide_true by eauto.
    pose proof (poll_verdict_links _ _ _ _ Ev) as Hl.
    pose proof (wakes_up _ _ _ _ _ _ _ _ _ _ _ _ Hh Hc Er Ec Ef Hl) as W.
    apply wp_bind_inv in W. pwps. eapply wp_mono; [exact W|]. intros [] s1 W1.
    apply pwp_lift. exact W1.
  - rewrite bool_decide_false by (by intros []).
    destruct (stays _ _ _ _ _ _ _ _ e Hh) as (ps' & Es & Hh'); try done.
    { pose proof (p_nodup _ _ _ _ _ (proj1 Hc)) as Hnd.
      apply NoDup_app in Hnd as (_ & _ & (Hnb & _ & _)%NoDup_app). done. }
    eapply pwp_upd_checked; [exact Es|]. done.
Qed.

(** The walk along the queue of the blocked requests. *)
Lemma poll_update_loop_pwp g0 ps0 l2 fuel lw l1 lr lf ps s :
  halfway g0 ps0 lw l1 l2 ps s -> conns (sv s) lr (l1 ++ l2) lf ->
  (forall p, p ∈ l2 -> is_Some (entry_at (pollfd_id ps0) (pfds ps0) p)) ->
  zlen l1 + zlen l2 <= zlen (other ps0) -> (length l2 <= fuel)%nat ->
  pwp (poll_update_loop fuel (head l2)) (fun _ ps' s' =>
    conns (sv s') (rev (readied g0 ps0 l2) ++ lr) (l1 ++ staying g0 ps0 l2) lf /\
    halfway g0 ps0 (rev (readied g0 ps0 l2) ++ lw) (l1 ++ staying g0 ps0 l2) [] ps' s') ps s.
Proof.
  revert fuel lw l1 lr ps s. induction l2 as [|p l2 IH]; intros fuel lw l1 lr ps s Hh Hc He Hz Hf.
  { destruct fuel; apply pwp_ret; simpl; rewrite !app_nil_r in *; done. }
  destruct fuel as [|fuel]; [simpl in Hf; lia|]. cbn [head poll_update_loop].
  rewrite zlen_cons in Hz. pose proof (zlen_nonneg l2). simpl in Hf.
  apply pwp_bind, pwp_lift. unfold wp at 1. rewrite (next_of_blocked _ _ _ _ _ _ _ (proj1 Hc)).
  apply pwp_bind. eapply pwp_mono; [eapply poll_update_one_pwp; [done|done|apply He; set_solver|lia]|].
  intros [] ps1 s1. unfold readied, staying. cbn [List.filter].
  case_bool_decide; cbn [negb]; intros [Hc1 Hh1].
  - eapply pwp_mono; [apply (IH fuel (p :: lw) l1 (p :: lr) ps1 s1 Hh1 Hc1); [|lia|lia]|].
    { intros q Hq. apply He. set_solver. }
    intros [] ps2 s2 [Hc2 Hh2]. cbn [rev]. by rewrite <- !app_assoc.
  - eapply pwp_mono; [apply (IH fuel lw (l1 ++ [p]) lr ps1 s1 Hh1)|].
    + by rewrite <- app_assoc.
    + intros q Hq. apply He. set_solver.
    + rewrite zlen_app. change (zlen [p]) with 1. lia.
    + lia.
    + intros [] ps2 s2. by rewrite <- app_assoc.
Qed.

(** C39: [update_blocked] makes exactly those blocked requests ready that poll
    reported (with an error: to be closed) or that have timed out, whatever the
    descriptors are; each of the others is an entry of the array for the next call, in
    the order of the queue and without a gap, for the descriptor and the events it waited
    for, and knows its index; apart from the status of the first nothing in a request
    changes. *)
Theorem update_blocked_correct lr lb lf ps s :
  conns (sv s) lr lb lf -> pfd_len ps = 0 ->
  (forall p, p ∈ lb -> is_Some (entry_at (pollfd_id ps) (pfds ps) p)) ->
  zlen lb <= zlen (other ps) ->
  let g := set_current_time (fst (os_time (wd s))) (sv s) in
  pwp update_blocked (fun _ ps' s' =>
    conns (sv s') (rev (readied g ps lb) ++ lr) (staying g ps lb) lf /\
    pfd_len ps' = zlen (staying g ps lb) /\
    (forall k p, staying g ps lb !! k = Some p ->
       contents (heap (sv s')) p = contents (heap (sv s)) p /\
       exists e, entry_at (pollfd_id ps) (pfds ps) p = Some e /\ entered ps' (other ps') e k p) /\
    (forall p, p ∈ readied g ps lb -> exists f, verdict_at g ps p = Some f /\
       contents (heap (sv s')) p = f <$> contents (heap (sv s)) p)) ps s.
Proof.
  intros H H0 He Hz g. unfold update_blocked. pwps. apply wp_call. intros now w Ew. pwps.
  replace now with (fst (os_time (wd s))) by (by rewrite Ew). fold g.
  assert (Hg : conns g lr lb lf) by (by eapply conns_view; [|exact H]).
  replace (request_block g) with (head lb)
    by (symmetry; apply (dlist_head _ _ _ (p_block _ _ _ _ _ (proj1 Hg)))).
  eapply pwp_mono; [apply (poll_update_loop_pwp g ps lb _ [] [] lr lf ps (mkSt (rq s) g w))|].
  - split; try done. intros q Hq. by apply elem_of_nil in Hq.
  - exact Hg.
  - exact He.
  - change (zlen []) with 0. lia.
  - assert (Hl : list_to_set lb ⊆ dom (heap g)).
    { intros p. rewrite elem_of_list_to_set. intros Hp.
      apply elem_of_dom, (p_all _ _ _ _ _ (proj1 Hg)). set_solver. }
    apply subseteq_size in Hl. rewrite size_dom, size_list_to_set in Hl; [done|].
    eapply (p_block _ _ _ _ _ (proj1 H)).
  - intros [] ps' s' [Hc [_ _ Hl _ _ Hk Hw]]. cbn [app] in *. split_and!; try done.
    intros p Hp. apply Hw. rewrite app_nil_r. by apply list_elem_of_In, in_rev, list_elem_of_In; rewrite rev_involutive.
Qed.
End update.

(** * The end of the server socket *)

Lemma zget_ztake_lt {A} (l : list A) n i : i < n -> zget (ztake n l) i = zget l i.
Proof.
  intros Hi. unfold zget, ztake. destruct (Z.leb_spec 0 i); [|done].
  apply lookup_take_lt. lia.
Qed.

Lemma zget_of_zdrop {A} (l : list A) n i : 0 <= n -> 0 <= i -> zget (zdrop n l) i = zget l (n + i).
Proof.
  intros Hn Hi. unfold zget, zdrop.
  destruct (Z.leb_spec 0 i); [|lia]. destruct (Z.leb_spec 0 (n + i)); [|lia].
  rewrite lookup_drop. f_equal. lia.
Qed.

Lemma copy_but_app skip i l1 l2 j to :
  copy_but skip i (l1 ++ l2) j to =
  ('(to', j') ← copy_but skip i l1 j to; copy_but skip (i + zlen l1) l2 j' to').
Proof.
  revert i j to. induction l1 as [|e l1 IH]; intros i j to; cbn [copy_but app].
  { change (zlen []) with 0. by rewrite Z.add_0_r. }
  rewrite zlen_cons. replace (i + (zlen l1 + 1)) with (i + 1 + zlen l1) by lia.
  destruct (i =? skip); [apply IH|]. destruct (watch to j _ _); [|done]. apply IH.
Qed.

(** Entries that are all copied. *)
Lemma copy_but_all skip i l j to :
  skip < i \/ i + zlen l <= skip -> 0 <= j -> j + zlen l <= zlen to ->
  exists to', copy_but skip i l j to = Some (to', j + zlen l) /\ zlen to' = zlen to /\
    (forall k, k < j -> zget to' k = zget to k) /\
    (forall m e, zget l m = Some e -> exists e', zget to' (j + m) = Some e' /\ same_watch e e').
Proof.
  revert i j to. induction l as [|e l IH]; intros i j to Hs Hj Hl; cbn [copy_but].
  { exists to. rewrite zlen_nil, Z.add_0_r. split_and!; try done. intros m e He.
    unfold zget in He. by case_match. }
  rewrite zlen_cons in *. pose proof (zlen_nonneg l).
  destruct (Z.eqb_spec i skip); [lia|].
  destruct (watch_Some to j (pfd_fd e) (pfd_events e)) as [e0 ->]; [lia|]. simpl.
  set (to1 := <[_ := _]> to).
  assert (Hz1 : zlen to1 = zlen to) by (unfold to1, zlen; by rewrite length_insert).
  destruct (IH (i + 1) (j + 1) to1) as (to' & E & Hz & Hlt & He); [lia..|].
  exists to'. split; [rewrite E; do 2 f_equal; lia|]. split; [lia|]. split.
  - intros k Hk. rewrite Hlt by lia. apply zget_insert_other; lia.
  - intros m e1 Hm. destruct (Z.eq_dec m 0) as [->|Hm0].
    + injection Hm as <-. rewrite Z.add_0_r, Hlt by lia. unfold to1.
      rewrite zget_insert_same by lia. by eexists.
    + assert (0 <= m) by (unfold zget in Hm; destruct (Z.leb_spec 0 m); done).
      rewrite <- (Z.sub_add 1 m), zget_cons in Hm by lia.
      destruct (He _ _ Hm) as (e' & He' & Hsw). exists e'. split; [|done].
      by replace (j + m) with (j + 1 + (m - 1)) by lia.
Qed.

(** The entry [server_pfd] is taken out; those behind it move down. *)
Lemma remove_server_moves ps :
  0 <= server_pfd ps < pfd_len ps -> pfd_len ps <= zlen (pfds ps) ->
  pfd_len ps <= zlen (other ps) + 1 ->
  exists ps', remove_server ps = Some ps' /\ pfd_len ps' = pfd_len ps - 1 /\
    pollfd_id ps' = pollfd_id ps /\ watch_server ps' = false /\
    forall i e, zget (pfds ps) i = Some e -> i < pfd_len ps -> i <> server_pfd ps ->
      exists e', zget (pfds ps') (if i <? server_pfd ps then i else i - 1) = Some e' /\
                 same_watch e e'.
Proof.
  intros Hs Hp Ho. set (k := server_pfd ps) in *.
  set (l := ztake (pfd_len ps) (pfds ps)).
  assert (Hl : zlen l = pfd_len ps) by (unfold l; rewrite zlen_ztake by lia; lia).
  destruct (zget_is_Some l k) as [ek Hk]; [lia|].
  assert (El : l = ztake k l ++ ek :: zdrop (k + 1) l).
  { unfold ztake, zdrop, zget in *. destruct (Z.leb_spec 0 k); [|lia].
    replace (Z.to_nat (k + 1)) with (S (Z.to_nat k)) by lia. symmetry. by apply take_drop_middle. }
  assert (H1 : zlen (ztake k l) = k) by (rewrite zlen_ztake by lia; lia).
  assert (H2 : zlen (zdrop (k + 1) l) = pfd_len ps - k - 1) by (rewrite zlen_zdrop by lia; lia).
  destruct (copy_but_all k 0 (ztake k l) 0 (other ps)) as (to1 & E1 & Z1 & _ & G1); [lia..|].
  destruct (copy_but_all k (k + 1) (zdrop (k + 1) l) k to1) as (to2 & E2 & Z2 & L2 & G2); [lia..|].
  assert (E : copy_but k 0 l 0 (other ps) = Some (to2, pfd_len ps - 1)).
  { rewrite El, copy_but_app, E1, H1. cbn [copy_but mbind option_bind]. rewrite !Z.add_0_l.
    rewrite Z.eqb_refl, E2. do 2 f_equal. lia. }
  eexists. unfold remove_server. fold k. fold l. rewrite E. split; [reflexivity|].
  split_and!; try done. cbn [pfds swap_pfds set_pfds set_other set_pfd_len set_watch_server other].
  intros i e He Hi Hik. assert (Hi0 : 0 <= i) by (unfold zget in He; destruct (Z.leb_spec 0 i); done).
  destruct (Z.ltb_spec i k) as [Hlt|Hge].
  - rewrite L2 by lia. rewrite <- (Z.add_0_l i). apply G1.
    unfold l. by rewrite !zget_ztake_lt by lia.
  - replace (i - 1) with (k + (i - (k + 1))) by lia. apply G2.
    rewrite zget_of_zdrop by lia. replace (k + 1 + (i - (k + 1))) with i by lia.
    unfold l. by rewrite zget_ztake_lt by lia.
Qed.

(** C40: at the first SIGTERM the entry [server_pfd] is taken out of the array:
    the entries in front of it stay where they are, the ones behind it move down by one,
    and the indices that the requests remember stay.  So when the entry of the server is
    not the last one, as after a turn in which poll was not interrupted, a request whose
    index is not in front of it is looked up at the entry of its neighbour. *)
Theorem remove_server_misreads ps :
  0 <= server_pfd ps < pfd_len ps -> pfd_len ps <= zlen (pfds ps) ->
  pfd_len ps <= zlen (other ps) + 1 ->
  exists ps', remove_server ps = Some ps' /\ pfd_len ps' = pfd_len ps - 1 /\
    forall p id, pollfd_id ps !! p = Some id -> 0 <= id ->
      (id < server_pfd ps -> forall e, zget (pfds ps) id = Some e ->
         exists e', entry_at (pollfd_id ps') (pfds ps') p = Some e' /\ same_watch e e') /\
      (server_pfd ps <= id -> id + 1 < pfd_len ps -> forall e, zget (pfds ps) (id + 1) = Some e ->
         exists e', entry_at (pollfd_id ps') (pfds ps') p = Some e' /\ same_watch e e').
Proof.
  intros Hs Hp Ho. destruct (remove_server_moves ps Hs Hp Ho) as (ps' & E & El & Ei & _ & H).
  exists ps'. split; [done|]. split; [done|]. intros p id Hid H0. unfold entry_at. rewrite Ei, Hid.
  cbn [mbind option_bind]. split.
  - intros Hlt e He. destruct (H id e He) as (e' & He' & Hsw); [lia..|].
    destruct (Z.ltb_spec id (server_pfd ps)); [|lia]. by exists e'.
  - intros Hge Hlt e He. destruct (H (id + 1) e He) as (e' & He' & Hsw); [lia..|].
    destruct (Z.ltb_spec (id + 1) (server_pfd ps)); [lia|].
    rewrite Z.add_simpl_r in He'. by exists e'.
Qed.

(** * Witnesses *)

(** Two blocked connections on the descriptors 7 and 8; poll reports 7. *)
Definition poll_state : poller :=
  mkPoller [mkPollfd 7 BOA_READ POLLIN; mkPollfd 8 BOA_READ 0]
    (replicate 2 (mkPollfd 0 0 0)) 0 2 true {[ 1%positive := 0; 2%positive := 1 ]}.

Lemma poll_entries p :
  p ∈ [1%positive; 2%positive] -> is_Some (entry_at (pollfd_id poll_state) (pfds poll_state) p).
Proof.
  intros [->|[->|[]%elem_of_nil]%elem_of_cons]%elem_of_cons; vm_compute; eauto.
Qed.

Lemma update_blocked_correct_witness : exists ps' s',
  update_blocked poll_state select_state = Ret (tt, ps') s' /\
  conns (sv s') [1%positive] [2%positive] [] /\ pfd_len ps' = 1 /\
  exists e, zget (other ps') 0 = Some e /\ pfd_fd e = 8.
Proof.
  destruct (wp_elim _ _ _ (update_blocked_correct _ _ _ poll_state select_state select_conns eq_refl
    poll_entries ltac:(vm_compute; discriminate)))
    as ([[] ps'] & s' & E & H & Hl & Hk & _).
  exists ps', s'. split; [exact E|]. split; [exact H|]. split; [exact Hl|].
  destruct (Hk 0%nat 2%positive eq_refl) as (_ & e & He & _ & e' & Hz & Hf & _).
  exists e'. split; [exact Hz|]. rewrite Hf. injection He as <-. reflexivity.
Defined.

(** The server was entry 0 in the last turn, when nothing was blocked; now there are two
    connections, and the second one loses its descriptor. *)
Definition stale_state : poller :=
  mkPoller [mkPollfd 7 BOA_READ 0; mkPollfd 8 BOA_READ 0]
    (replicate 2 (mkPollfd 0 0 0)) 2 0 true {[ 1%positive := 0; 2%positive := 1 ]}.

Lemma remove_server_misreads_witness : exists ps' e',
  remove_server stale_state = Some ps' /\ pfd_len ps' = 1 /\
  entry_at (pollfd_id ps') (pfds ps') 1%positive = Some e' /\ pfd_fd e' = 8.
Proof.
  destruct (remove_server_misreads stale_state) as (ps' & E & El & H);
    [split; [reflexivity|reflexivity]|vm_compute; discriminate|vm_compute; discriminate|].
  destruct (H 1%positive 0 eq_refl (Z.le_refl 0)) as [_ H1].
  destruct (H1 (Z.le_refl 0) eq_refl _ eq_refl) as (e' & He & Hf & _).
  exists ps', e'. split; [exact E|]. split; [exact El|]. split; [exact He|]. exact Hf.
Defined.
