(* ===== verification/Body.v ===== *)
(** read.c: the body of a POST, from the bytes behind its header to the file that the
    script reads as its standard input. *)

From S2P Require Import Prelude Types Machine ScriptOS Buffer Util Response.
From S2P Require Import ResponseProofs.
From S2P Require Import ResponseProps Alias AliasProofs Pointer Cgi Pipe Parse Read.
From S2P Require Import PipeProps.
From S2P Require Import Hash Frame Request.

(** What is assumed of reading: [unread d] are the bytes that the other side of the
    descriptor [d] has sent, or will send, and that nobody has read.  read takes them
    from the front, and is no output; nothing is read only when they are at their end;
    writing takes none of them. *)
Class InputLaws (os : OS) (laws : OSLaws os) := {
  unread : Z -> world -> bytes;
  read_takes : forall d n w l w', os_read d n w = (SOk l, w') -> unread d w = l ++ unread d w';
  read_fails : forall d n w e w', os_read d n w = (SErr e, w') -> unread d w' = unread d w;
  read_eof : forall d n w w', 0 < n -> os_read d n w = (SOk [], w') -> unread d w = [];
  read_sends : forall d i n w res w', os_read i n w = (res, w') -> sent d w' = sent d w;
  write_unread : forall d i l w res w', os_write i l w = (res, w') -> unread d w' = unread d w
}.

Section body.
Context {os : OS} {laws : OSLaws os} {ins : InputLaws os laws}.

(** The copying of [body], of announced length [n]: [filepos] bytes of it are in the file,
    behind [base]; the next ones are in memory, and the others have not been read. *)
Record copying (n : Z) (body base : bytes) (file : Z) (s : St) : Prop := {
  co_printable : printable s;
  co_flushed : buffer_end (rq s) = 0;
  co_size : filesize (rq s) = n;
  co_pos : 0 <= filepos (rq s) <= zlen body /\ zlen body <= n < 2 ^ 31;
  co_mem : exists d data, psub (header_end (rq s)) (header_line (rq s)) = Some d /\
    in_memory (rq s) (header_line (rq s)) d data /\ filepos (rq s) + d <= n /\
    ztake (n - filepos (rq s)) (data ++ unread (fd (rq s)) (wd s))
      = zdrop (filepos (rq s)) body;
  co_file : post_data_fd (rq s) = file;
  co_sent : sent (post_data_fd (rq s)) (wd s) = base ++ ztake (filepos (rq s)) body;
  co_status : status (rq s) = BODY_WRITE \/
    status (rq s) = BODY_READ /\ header_line (rq s) = Pbuf 0 /\ header_end (rq s) = Pbuf 0 /\
    filepos (rq s) < n
}.

Lemma copying_squashed n body base file s :
  copying n body base file s ->
  copying n body base file (mkSt (set_keepalive KA_STOPPED (rq s)) (sv s) (wd s)).
Proof.
  intros [Hp Hb Hz Hpos Hm Hfd Hs Hst]. split; try done.
  by apply (printable_upd (set_keepalive KA_STOPPED)); [intros []|].
Qed.

Lemma psub_padd p q d k : psub p q = Some d -> psub p (padd q k) = Some (d - k).
Proof. destruct p, q; try done; simpl; intros [= <-]; f_equal; lia. Qed.

Lemma zlen_in_memory r p d data : in_memory r p d data -> zlen data = d.
Proof. intros (a & i & _ & ? & ? & ? & ->). by apply zlen_slice. Qed.

Lemma in_memory_drop r p d data k :
  in_memory r p d data -> 0 <= k <= d -> in_memory r (padd p k) (d - k) (zdrop k data).
Proof.
  intros (a & i & Ha & Hi & Hd & Hl & ->) Hk. exists a, (i + k).
  split; [destruct p; [done|..]; by injection Ha as <- <-|]. split_and!; try lia.
  by apply zdrop_slice.
Qed.

(** The first bytes that are in memory are the next ones of the body. *)
Lemma next_part m (data rest body : bytes) p k :
  ztake m (data ++ rest) = zdrop p body -> 0 <= p <= zlen body -> 0 <= k <= zlen data ->
  zlen data <= m -> p + k <= zlen body /\
  ztake (p + k) body = ztake p body ++ ztake k data /\
  ztake (m - k) (zdrop k data ++ rest) = zdrop (p + k) body.
Proof.
  intros E Hp Hk Hm. split_and!.
  - apply (f_equal zlen) in E. rewrite zlen_zdrop in E by lia.
    rewrite ztake_app_ge, zlen_app in E by lia. pose proof (zlen_nonneg (ztake (m - zlen data) rest)).
    lia.
  - change (ztake (p + k) body) with (slice body 0 (p + k)).
    rewrite slice_app by lia. change (slice body 0 p) with (ztake p body). f_equal.
    change (ztake k (zdrop p body) = ztake k data). rewrite <- E.
    change (ztake m (data ++ rest)) with (slice (data ++ rest) 0 m).
    rewrite ztake_slice by lia. change (ztake k (data ++ rest) = ztake k data).
    apply ztake_app_le. lia.
  - rewrite <- (zdrop_zdrop k p), <- E by lia.
    change (ztake m (data ++ rest)) with (slice (data ++ rest) 0 m).
    rewrite zdrop_slice by lia. unfold slice. by rewrite zdrop_app_le by lia.
Qed.

(** A turn that ends the request, or one after which the copying goes on. *)
Definition goes_on (n : Z) (body base : bytes) (file x : Z) (s : St) : Prop :=
  x = 0 \/ (x = 1 \/ x = -1) /\ copying n body base file s.

(** The page for an error ends the request. *)
Lemma error_ends p n body base file (k : unit -> M Z) s :
  printable s -> (forall s', wp (k tt) (fun x _ => x = 0) s') ->
  wp (page_send p ≫= k) (goes_on n body base file) s.
Proof.
  intros Hp Hk. apply wp_bind. eapply wp_mono; [by apply page_send_wp|]. intros [] s' _.
  eapply wp_mono; [apply Hk|]. intros x s'' ->. by left.
Qed.

Lemma write_copying n body base file s :
  copying n body base file s -> status (rq s) = BODY_WRITE -> filepos (rq s) < n ->
  wp write_body (goes_on n body base file) s.
Proof.
  intros [Hp Hb Hz Hpos (d & data & Hd & Hm & Hdn & Hu) Hfd Hs _] Est Hlt.
  pose proof (zlen_in_memory _ _ _ _ Hm) as Hdata. pose proof (zlen_nonneg data).
  destruct (Z.eq_dec d 0) as [->|Hd0].
  - destruct data; [|done]. unfold write_body, pdiff. wps. eapply wp_checked; [exact Hd|]. wps.
    change (u32 0) with 0. rewrite (u64_small (filepos (rq s) + 0)) by lia.
    destruct (Z.ltb_spec (filesize (rq s)) (filepos (rq s) + 0)); [lia|].
    change (0 =? 0) with true. wps.
    destruct (Z.leb_spec (filesize (rq s)) (filepos (rq s))); [lia|]. wps.
    right. split; [by left|]. split; try done.
    + destruct Hp as ([] & ? & []). split_and!; [by split|done|by split].
    + exists 0, []. split; [done|]. split_and!; [|simpl; lia|done].
      destruct Hp as ([] & _). exists (buffer (rq s)), 0. split_and!; try done. lia.
    + by right.
  - eapply wp_mono; [eapply write_body_correct; try done; lia|].
    intros x s' [->|(Hx & k & Hk & Hkn & Hw & Hk1 & Esv & (l & res & Ew) & Er)]; [by left|].
    right. split; [tauto|]. rewrite <- Hdata in Hk, Hdn.
    destruct (next_part _ _ _ _ _ k Hu) as (Hfit & Hsent & Hrest); [lia..|].
    assert (Hp' : forall f, print_inert f -> printable (mkSt (f (rq s)) (sv s') (wd s'))).
    { intros f Hf. rewrite Esv. by apply printable_upd. }
    assert (Eun : unread (fd (rq s)) (wd s') = unread (fd (rq s)) (wd s))
      by (by eapply write_unread).
    destruct s' as [r' g' w']. cbn [rq sv wd] in *. destruct Er as [->|[-> ->]].
    + split; try done.
      * apply (Hp' (fun r => set_header_line _ (set_filepos _ r))). by intros [].
      * cbn [rq filepos set_header_line set_filepos]. lia.
      * exists (d - k), (zdrop k data). cbn [rq wd header_end header_line set_header_line set_filepos filepos fd].
        rewrite Eun. split_and!; [|by apply (in_memory_drop (rq s) _ d); [|lia]|lia|].
        -- by apply psub_padd.
        -- replace (n - (filepos (rq s) + k)) with (n - filepos (rq s) - k) by lia. done.
      * cbn. by rewrite Hw, Hs, <- app_assoc, <- Hsent.
      * by left.
    + split; try done.
      * apply (Hp' id). by intros [].
      * exists d, data. cbn [rq wd]. rewrite Eun. split_and!; try done. lia.
      * cbn [rq wd]. by rewrite Hw, Hs, (ztake_neg 0), app_nil_r.
      * by left.
Qed.

Lemma read_copying n body base file s :
  copying n body base file s -> status (rq s) = BODY_READ ->
  wp read_body (goes_on n body base file) s.
Proof.
  intros [Hp Hb Hz Hpos (d & data & Hd & Hm & Hdn & Hu) Hfd Hs Hst] Est.
  destruct Hst as [?|(_ & El & Ee & Hlt)]; [congruence|].
  rewrite El, Ee in *. injection Hd as <-.
  pose proof (zlen_in_memory _ _ _ _ Hm) as Hdata. destruct data; [clear Hdata|by cbn in *].
  unfold read_body, pdiff. wps. rewrite El, Ee. eapply wp_checked; [done|]. wps.
  change (u32 (BUFFER_SIZE - (0 - 0))) with BUFFER_SIZE. rewrite (u32_small (_ - _)) by lia.
  set (m := if _ <? _ then _ else _).
  assert (Hmb : 0 < m <= BUFFER_SIZE /\ m <= n - filepos (rq s)).
  { subst m. unfold BUFFER_SIZE. destruct (Z.ltb_spec 4096 (filesize (rq s) - filepos (rq s))); lia. }
  clearbody m. destruct (Z.leb_spec m 0); [lia|]. wps. apply wp_call. intros res w Hr. wps.
  pose proof (read_sends (post_data_fd (rq s)) _ _ _ _ _ Hr) as Hsent.
  assert (Hp' : printable (mkSt (rq s) (sv s) w)) by (by apply (printable_upd id); [intros []|]).
  destruct res as [[|c l]|e].
  - by apply (error_ends Bad_request).
  - pose proof (read_takes _ _ _ _ _ Hr) as Ht. apply read_bound in Hr; [|lia].
    set (got := c :: l) in *. pose proof (zlen_nonneg got). destruct Hp' as (Hbuf & Hto & Hre).
    pose proof Hbuf as [Hl _ _ _].
    destruct (proj2 (blit_is_Some (buffer (rq s)) 0 got)) as [b Eb]; [cbn [rq] in Hl; lia|].
    unfold pstore. wps. eapply wp_checked; [simpl; by rewrite Eb|]. wps. right. split; [by left|].
    pose proof (blit_zlen _ _ _ _ Eb) as Hzb.
    split; try done.
    + split_and!; [destruct Hbuf; split; cbn in *; lia|done|by destruct Hre].
    + exists (zlen got), got. cbn [rq wd header_end header_line set_header_end set_status set_buffer
        padd psub filepos fd]. rewrite El. split_and!; [simpl; f_equal; lia| |lia|by rewrite <- Ht].
      exists b, 0. split_and!; try done; [cbn in Hl; lia|]. symmetry. by apply (slice_blit_eq _ _ _ _ Eb).
    + cbn. by rewrite Hsent, Hs.
    + by left.
  - apply read_fails in Hr. destruct e; try by apply (error_ends Server_error).
    right. split; [by right|]. split; try done.
    + exists 0, []. cbn [rq wd]. rewrite El, Ee, Hr. split_and!; done.
    + cbn. by rewrite Hsent, Hs.
    + by right.
Qed.

(** * The turns *)

(** A turn while the body is not complete. *)
Lemma handle_copying n body base file s :
  copying n body base file s -> filepos (rq s) < n -> wp handle (goes_on n body base file) s.
Proof.
  intros Hc Hlt. unfold handle, flush_first. wps. rewrite (co_flushed _ _ _ _ _ Hc).
  change (negb (0 =? 0)) with false. cbn [andb]. wps. change (1 =? 1) with true.
  apply wp_bind. apply (wp_mono _ (goes_on n body base file)).
  - unfold dispatch. wps. destruct (co_status _ _ _ _ _ Hc) as [E|[E _]]; rewrite E.
    + by apply write_copying.
    + by apply read_copying.
  - intros x s' H. wps. unfold SQUASH_KA. destruct (negb _); wps; [|done].
    destruct H as [->|[Hx H]]; [by left|right]. split; [done|]. by apply copying_squashed.
Qed.

(** When it is complete, the next call of [write_body] starts the script. *)
Lemma copied_starts n body base file s :
  copying n body base file s -> filepos (rq s) = n ->
  status (rq s) = BODY_WRITE /\
  sent (post_data_fd (rq s)) (wd s) = base ++ body /\ zlen body = n /\
  write_body s = init_cgi (mkSt (set_header_line (Pbuf 0) (set_header_end (Pbuf 0) (rq s)))
                             (sv s) (wd s)).
Proof.
  intros [Hp Hb Hz Hpos (d & data & Hd & Hm & Hdn & Hu) Hfd Hs Hst] E.
  pose proof (zlen_in_memory _ _ _ _ Hm). pose proof (zlen_nonneg data).
  assert (d = 0) as -> by lia.
  split_and!; [by destruct Hst as [|(_ & _ & _ & ?)]; [|lia]| |lia|].
  - rewrite Hs, E, ztake_ge by lia. done.
  - unfold write_body, pdiff, mbind, M_bind, req. rewrite Hd. cbn [checked mret M_ret].
    unfold mret, M_ret. change (u32 0) with 0. rewrite Hz, (u64_small (filepos (rq s) + 0)) by lia.
    destruct (Z.ltb_spec n (filepos (rq s) + 0)); [lia|]. change (0 =? 0) with true.
    unfold upd. cbn [rq sv wd]. destruct (Z.leb_spec n (filepos (rq s))); [done|lia].
Qed.

(** A turn of the request, or what happens between two of them: the globals change, and
    the system, but nobody else writes to the file or reads from this socket. *)
Inductive body_turn : St -> St -> Prop :=
  | body_handle s x s' :
      filepos (rq s) < filesize (rq s) -> handle s = Ret x s' -> x <> 0 -> body_turn s s'
  | body_others s g w :
      printable (mkSt (rq s) g w) ->
      sent (post_data_fd (rq s)) w = sent (post_data_fd (rq s)) (wd s) ->
      unread (fd (rq s)) w = unread (fd (rq s)) (wd s) ->
      body_turn s (mkSt (rq s) g w).

Lemma turns_copying n body base file s s' :
  rtc body_turn s s' -> copying n body base file s -> copying n body base file s'.
Proof.
  induction 1 as [s|s s1 s2 H _ IH]; [done|]. intros Hc. apply IH.
  destruct H as [s x s1 Hlt E Hx|s g w Hp Es Eu].
  - rewrite (co_size _ _ _ _ _ Hc) in Hlt.
    destruct (wp_elim _ _ _ (handle_copying _ _ _ _ _ Hc Hlt)) as (x' & s' & E' & H).
    rewrite E in E'. injection E' as <- <-. by destruct H as [?|[_ H]].
  - destruct Hc as [_ Hb Hz Hpos Hm Hfd Hs Hst]. split; try done; cbn [rq wd]; by rewrite ?Es, ?Eu.
Qed.

(** Behind the header of a POST, [data] of the body is in memory already. *)
Record post_received (s : St) (data text : bytes) (n : Z) : Prop := {
  po_printable : printable s;
  po_flushed : buffer_end (rq s) = 0;
  po_method : method (rq s) = M_POST;
  po_length : content_length (rq s) <> Pnull /\
    string_at (rq s) (content_length (rq s)) = Some text /\ boa_atoi text = n;
  po_bound : 0 <= n < 2 ^ 31;
  po_limit : single_post_limit (sv s) = 0 \/ n <= single_post_limit (sv s);
  po_stream : 0 <= parse_pos (rq s) /\ zlen data < 2 ^ 31 /\
    client_stream_pos (rq s) = parse_pos (rq s) + zlen data /\
    client_stream_pos (rq s) <= zlen (client_stream (rq s)) /\
    data = slice (client_stream (rq s)) (parse_pos (rq s)) (zlen data)
}.

(** The body, of which [data] is in memory. *)
Definition post_body (s : St) (data : bytes) (n : Z) : bytes :=
  ztake n (data ++ unread (fd (rq s)) (wd s)).

(** The start: no more than [n] bytes of [data] are kept. *)
Lemma copying_start s data text n p k :
  post_received s data text n -> k = Z.min n (zlen data) ->
  p = parse_pos (rq s) ->
  copying n (post_body s data n) (sent (post_data_fd (rq s)) (wd s)) (post_data_fd (rq s))
    (mkSt (set_header_end (Pstream (p + k)) (set_filepos 0 (set_filesize n (set_status BODY_WRITE
       (set_header_line (Pstream p) (rq s)))))) (sv s) (wd s)).
Proof.
  intros [Hp Hb _ _ Hr _ (H0 & H31 & Hpos & Hfit & Hd)] -> ->. pose proof (zlen_nonneg data).
  assert (Hz : zlen (post_body s data n) <= n).
  { unfold post_body. destruct (Z.le_ge_cases (zlen (data ++ unread (fd (rq s)) (wd s))) n) as [|Hge].
    - by rewrite ztake_ge.
    - rewrite zlen_ztake by lia. lia. }
  split; try done.
  - destruct Hp as ([] & ? & []). split_and!; [by split|done|by split].
  - cbn. pose proof (zlen_nonneg (post_body s data n)). lia.
  - exists (Z.min n (zlen data)), (ztake n data). cbn [rq wd header_end set_header_end header_line
      set_filepos set_filesize set_status set_header_line filepos fd psub].
    split_and!; [f_equal; lia| |lia|].
    + exists (client_stream (rq s)), (parse_pos (rq s)). split_and!; try done; try lia.
      rewrite Hd at 1. unfold slice, ztake. rewrite take_take. f_equal. lia.
    + change (zdrop 0 ?l) with l. rewrite Z.sub_0_r. unfold post_body.
      destruct (Z.le_ge_cases n (zlen data)) as [Hle|Hge]; [|by rewrite (ztake_ge n data)].
      rewrite !ztake_app_le by (rewrite ?zlen_ztake; lia). rewrite ztake_ge; [done|].
      rewrite zlen_ztake; lia.
  - cbn. by rewrite app_nil_r.
  - by left.
Qed.

(** The order of the assignments does not matter. *)
Lemma start_request n e e' p r :
  set_filepos 0 (set_filesize n (set_status BODY_WRITE (set_header_end e (set_header_line p r))))
  = set_header_end e (set_filepos 0 (set_filesize n (set_status BODY_WRITE (set_header_line p r)))) /\
  set_header_end e' (set_header_end e r) = set_header_end e' r.
Proof. by destruct r. Qed.

Lemma post_length_wp s data text n x :
  post_received s data text n ->
  wp (upd (set_header_line (Pstream (parse_pos (rq s)))) ;;
      upd (set_header_end (Pstream (client_stream_pos (rq s)))) ;;
      upd (set_status BODY_WRITE) ;; post_length x)
    (fun y s' => y = x /\
      copying n (post_body s data n) (sent (post_data_fd (rq s)) (wd s)) (post_data_fd (rq s)) s') s.
Proof.
  intros Hpo. pose proof Hpo as [Hp Hb _ (Hc & Ht & Hn) Hr Hl (H0 & H31 & Hpos & Hfit & Hd)].
  pose proof (copying_start s data text n _ _ Hpo eq_refl eq_refl) as Hstart.
  pose proof (zlen_nonneg data).
  wps. unfold post_length. wps. change (content_length _) with (content_length (rq s)).
  destruct (content_length (rq s)) as [|i|i|i]; [done|..].
  all: unfold pstr; wps; eapply wp_checked; [exact Ht|]; rewrite Hn.
  all: destruct (Z.ltb_spec n 0); [lia|].
  all: replace (negb _ && _) with false by
    (symmetry; apply andb_false_iff; rewrite negb_false_iff, Z.eqb_eq, Z.ltb_ge; lia).
  all: wps; unfold pdiff; eapply wp_checked; [done|]; wps.
  all: rewrite u32_small by lia; destruct (Z.ltb_spec n (client_stream_pos (rq s) - parse_pos (rq s)));
    wps; split_and!; try done.
  all: rewrite (proj1 (start_request n _ Pnull _ _)), ?(proj2 (start_request n _ _ Pnull _)).
  all: eapply eq_ind; [exact Hstart|]; do 2 f_equal; simpl; f_equal; lia.
Qed.

(** A number of turns. *)
Fixpoint run_turns (k : nat) : M unit :=
  match k with
  | O => mret tt
  | S k' =>
      r ← req;
      if filepos r <? filesize r then x ← handle; if x =? 0 then undef else run_turns k'
      else undef
  end.

Lemma run_turns_rtc k s s' : run_turns k s = Ret tt s' -> rtc body_turn s s'.
Proof.
  revert s. induction k as [|k IH]; intros s; cbn [run_turns]; unfold mbind, M_bind, req, mret, M_ret.
  { intros [= ->]. done. }
  destruct (Z.ltb_spec (filepos (rq s)) (filesize (rq s))) as [Hlt|]; [|done].
  destruct (handle s) as [x s1| |] eqn:E; [|done..]. destruct (Z.eqb_spec x 0) as [|Hx]; [done|].
  intros H. eapply rtc_l; [by eapply body_handle|by apply IH].
Qed.

(** C22: however the body of a POST is split into packets and however much of it the
    single calls of write take, when [header_done] returned, the turns that follow write
    a prefix of it, of no more than the announced length, to the file for the script's
    standard input, the bytes behind the header first, then those from the socket; no
    turn leaves the arrays; and when the announced length is reached, exactly the body
    is in the file, and the next turn of [write_body] starts the script. *)
Theorem post_body_copied s m s1 data text n :
  process_header_end s = Ret m s1 -> m <> 0 -> post_received s1 data text n ->
  let file := post_data_fd (rq s1) in
  let all := sent file (wd s1) ++ post_body s1 data n in
  exists s2, header_done s = Ret m s2 /\
    forall s', rtc body_turn s2 s' ->
      prefix (sent file (wd s')) all /\
      (filepos (rq s') < n -> exists x s'', handle s' = Ret x s'') /\
      (n <= filepos (rq s') ->
        sent file (wd s') = all /\ zlen (post_body s1 data n) = n /\ status (rq s') = BODY_WRITE /\
        write_body s' = init_cgi
          (mkSt (set_header_line (Pbuf 0) (set_header_end (Pbuf 0) (rq s'))) (sv s') (wd s'))).
Proof.
  intros E Hm Hpo file all.
  destruct (wp_elim _ _ _ (post_length_wp _ _ _ _ m Hpo)) as (y & s2 & E2 & -> & Hc).
  exists s2. split.
  { unfold header_done, mbind at 1, M_bind at 1. rewrite E. unfold mbind at 1, M_bind at 1, req at 1.
    destruct (Z.eqb_spec m 0); [done|]. rewrite bool_decide_true by apply Hpo. exact E2. }
  intros s' Hr. apply (turns_copying _ _ _ _ _ _ Hr) in Hc. fold file in Hc.
  pose proof Hc as [_ _ _ Hpos _ Hf Hs _]. rewrite Hf in Hs. split_and!.
  - rewrite Hs. apply prefix_app. exists (zdrop (filepos (rq s')) (post_body s1 data n)).
    by rewrite ztake_zdrop.
  - intros Hlt. destruct (wp_elim _ _ _ (handle_copying _ _ _ _ _ Hc Hlt)) as (x & s'' & Ex & _).
    by exists x, s''.
  - intros Hge. destruct (copied_starts _ _ _ _ _ Hc) as (H1 & H2 & H3 & H4); [lia|].
    rewrite Hf in H2. done.
Qed.
End body.

(** * Witness *)

(** What is left of the script for the descriptor. *)
Fixpoint until_eof (cs : list bytes) : bytes :=
  match cs with
  | [] => []
  | c :: cs' => match List.filter byte_ok c with [] => [] | c => c ++ until_eof cs' end
  end.

Definition unread_on (d : Z) (w : script) : bytes :=
  match List.find (fun p => fst p =? d) (input w) with
  | Some (_, cs) => until_eof cs
  | None => []
  end.

(** The bytes of a chunk are filtered already. *)
Lemma filter_zdrop n (l : bytes) :
  List.filter byte_ok (zdrop n (List.filter byte_ok l)) = zdrop n (List.filter byte_ok l).
Proof.
  apply List.forallb_filter_id. pose proof (List.forallb_filter byte_ok l) as H.
  rewrite <- (ztake_zdrop n (List.filter byte_ok l)), forallb_app in H.
  by apply andb_true_iff in H as [_ H].
Qed.

Lemma unread_read d n w l w' :
  script_read d n w = (SOk l, w') -> unread_on d w = l ++ unread_on d w'.
Proof.
  unfold script_read, unread_on.
  destruct (List.find _ (input w)) as [[d' [|c cs]]|] eqn:Ef; [done| |done].
  pose proof (filter_zdrop n c) as H. simpl.
  destruct (List.filter byte_ok c) as [|x c'] eqn:Ec; intros [= <- <-].
  { rewrite Ef. simpl. by rewrite Ec. }
  set (k := x :: c') in *. simpl. rewrite Z.eqb_refl.
  change (x :: c' ++ until_eof cs) with (k ++ until_eof cs).
  transitivity ((ztake n k ++ zdrop n k) ++ until_eof cs); [by rewrite ztake_zdrop|].
  rewrite <- app_assoc. f_equal. destruct (zdrop n k) as [|y r]; [done|].
  cbn [until_eof]. by rewrite H.
Qed.

Lemma unread_eof d n w w' : 0 < n -> script_read d n w = (SOk [], w') -> unread_on d w = [].
Proof.
  intros Hn. unfold script_read, unread_on.
  destruct (List.find _ (input w)) as [[d' [|c cs]]|]; [done| |done]. simpl.
  destruct (List.filter byte_ok c) as [|x c']; [done|]. intros [= H _].
  exfalso. unfold ztake in H. replace (Z.to_nat n) with (S (Z.to_nat (n - 1))) in H by lia. done.
Qed.

#[export] Instance script_input_laws : InputLaws scriptOS scriptOS_laws.
Proof.
  refine (Build_InputLaws scriptOS scriptOS_laws unread_on unread_read _ unread_eof _ _).
  - intros d n w e w'. simpl. unfold script_read. repeat case_match; by intros [= <- <-].
  - intros d i n w res w'. simpl. unfold script_read. repeat case_match; by intros [= <- <-].
  - intros d i l w res w'. simpl. unfold script_write, accept_bytes.
    repeat case_match; by intros [= <- <-].
Defined.

(** Three bytes of the body came with the header, and the client sends more than it
    announced. *)
Definition post_state : St :=
  mkSt (os := scriptOS)
    (set_logline (Pstream 0) (set_method M_POST (set_content_length (Pstream 0)
      (set_parse_pos 2 (set_client_stream_pos 5 (set_client_stream
        (bs "5" ++ [0] ++ bs "hel" ++ zeros 100) (request_for (bs "/cgi-bin/prog"))))))))
    stale_server (set_input [(7, [bs "l"; bs "o and more"])] stale_world).

(** What [post_received] looks at. *)
Definition post_view (m : Z) (s : St) :=
  (m, (zlen (buffer (rq s)), buffer_start (rq s), buffer_end (rq s), status (rq s)),
   (bool_decide (is_Some (cstr (request_uri (rq s)) 0)), last_modified (rq s)),
   (method (rq s), content_length (rq s), string_at (rq s) (content_length (rq s))),
   (parse_pos (rq s), client_stream_pos (rq s), zlen (client_stream (rq s)),
    slice (client_stream (rq s)) 2 3),
   (mime_hashtable (sv s), default_type (sv s), default_charset (sv s), needs_escape_tab (sv s),
    current_time (sv s), single_post_limit (sv s)),
   (fd (rq s), post_data_fd (rq s), unread_on 7 (wd s), sent_on 100 (wd s))).

Lemma post_header : seen post_view (process_header_end post_state) = Some
  (1, (BUFFER_SIZE + 1, 0, 0, READ_HEADER), (true, 0), (M_POST, Pstream 0, Some (bs "5")),
   (2, 5, 105, bs "hel"),
   (mime_hashtable test_server, default_type test_server, None, test_table,
    current_time test_server, 1024 * 1024), (7, 100, bs "lo and more", [])).
Proof. vm_compute. reflexivity. Qed.

Lemma resp_ok_view r g r' g' :
  mime_hashtable g' = mime_hashtable g -> default_type g' = default_type g ->
  default_charset g' = default_charset g -> needs_escape_tab g' = needs_escape_tab g ->
  current_time g' = current_time g -> is_Some (cstr (request_uri r') 0) ->
  last_modified r' = last_modified r -> resp_ok (forget_buffer r) g -> resp_ok (forget_buffer r') g'.
Proof.
  intros E1 E2 E3 E4 E5 Hu E6 [O1 O2 O3 O4 O5 O6 O7 O8]. simpl in *.
  split; unfold mime_lookup in *; simpl; by rewrite ?E1, ?E2, ?E3, ?E4, ?E5, ?E6.
Qed.

Lemma post_is_received m s :
  seen post_view (Ret m s) = seen post_view (process_header_end post_state) ->
  m = 1 /\ post_received s (bs "hel") (bs "5") 5 /\ fd (rq s) = 7 /\ post_data_fd (rq s) = 100 /\
  unread_on 7 (wd s) = bs "lo and more" /\ sent_on 100 (wd s) = [].
Proof.
  rewrite post_header. intros H%Some_inj. unfold post_view in H. rewrite !pair_equal_spec in H.
  destruct H as ((((((-> & ((E1 & E2) & E3) & E4) & E5 & E6) & (Em & Ec) & Et) &
    ((Ep & Es) & Ez) & Ed) & ((((G1 & G2) & G3) & G4) & G5) & G6) & ((F1 & F2) & F3) & F4).
  apply bool_decide_eq_true in E5.
  split; [reflexivity|]. split; [|exact (conj F1 (conj F2 (conj F3 F4)))].
  split.
  - split; [split; rewrite ?E1, ?E2, ?E3; unfold BUFFER_SIZE; lia|]. split; [rewrite E4; discriminate|].
    exact (resp_ok_view test_request test_server _ _ G1 G2 G3 G4 G5 E5 E6 (proj2 (proj2 test_printable))).
  - exact E3.
  - exact Em.
  - split; [rewrite Ec; discriminate|]. split; [exact Et|reflexivity].
  - lia.
  - right. rewrite G6. lia.
  - rewrite Ep, Es, Ez. change (zlen (bs "hel")) with 3. rewrite Ed. split_and!; [lia..|reflexivity].
Qed.

Lemma post_turns : seen (fun _ s => (filepos (rq s), sent_on 100 (wd s)))
  ((header_done ≫= fun _ => run_turns 7) post_state) = Some (5, bs "hello").
Proof. vm_compute. reflexivity. Qed.

(** "hello" arrives in three packets. *)
Lemma post_body_copied_witness : exists s2 s',
  header_done post_state = Ret 1 s2 /\ rtc body_turn s2 s' /\ sent 100 (wd s') = bs "hello" /\
  write_body s' = init_cgi
    (mkSt (set_header_line (Pbuf 0) (set_header_end (Pbuf 0) (rq s'))) (sv s') (wd s')).
Proof.
  destruct (seen_Ret _ _ _ post_header) as (m & s1 & E & _).
  destruct (post_is_received m s1) as (-> & Hpo & Hfd & Hfile & Hun & Hs); [by rewrite E|].
  destruct (post_body_copied (os := scriptOS) _ _ _ _ _ _ E ltac:(discriminate) Hpo)
    as (s2 & E2 & H).
  destruct (seen_bind _ _ _ _ _ post_turns) as (x & s2' & [] & s' & E2' & Et & Ev).
  rewrite E2 in E2'. injection E2' as <- <-. injection Ev as Ev _.
  pose proof (run_turns_rtc _ _ _ Et) as Hr. exists s2, s'. split; [exact E2|]. split; [exact Hr|].
  destruct (H s' Hr) as (_ & _ & Hd). destruct Hd as (Hd & _ & _ & Hw); [rewrite Ev; reflexivity|].
  rewrite Hfile in Hd. split; [|exact Hw]. rewrite Hd. unfold post_body. rewrite Hfd.
  change (sent 100 (wd s1)) with (sent_on 100 (wd s1)). rewrite Hs.
  change (unread 7 (wd s1)) with (unread_on 7 (wd s1)). rewrite Hun. reflexivity.
Defined.
