(* ===== verification/Relay.v ===== *)
(** pipe.c and cgi_header.c: what a script prints, from its first byte to the client. *)

From S2P Require Import Prelude Types Machine ScriptOS Buffer Util UtilProofs Dates.
From S2P Require Import Hash.
From S2P Require Import Response.
From S2P Require Import ResponseProofs ResponseProps Pointer CgiHeader CgiHeaderProps.
From S2P Require Import Cgi Pipe PipeProps.
From S2P Require Import Frame Read Request Serve Answer Body.

(** * The blank line behind the header *)

(** No blank line. *)
Definition no_blank (h : bytes) : Prop :=
  strstr h [10; 10] = None /\ strstr h [10; 13; 10] = None.

Definition blank (e : bytes) : Prop := e = [10] \/ e = [13; 10].

Lemma is_prefix_app n a b : is_prefix n a = true -> is_prefix n (a ++ b) = true.
Proof.
  revert a. induction n as [|x n IH]; intros [|y a]; simpl; try done.
  intros [-> H]%andb_true_iff. simpl. by apply IH.
Qed.

Lemma strstr_None_app n a b : strstr (a ++ b) n = None -> strstr a n = None.
Proof.
  induction a as [|c a IH]; simpl.
  - destruct n; [|done]. by destruct b.
  - destruct (is_prefix n (c :: a)) eqn:E; [by rewrite (is_prefix_app _ _ b E : is_prefix n (c :: a ++ b) = true)|].
    destruct (is_prefix n (c :: a ++ b)); [done|].
    destruct (strstr (a ++ b) n); [done|]. by rewrite IH.
Qed.

Lemma strstr_None_tail n a b : strstr (a ++ b) n = None -> strstr b n = None.
Proof.
  induction a as [|c a IH]; [done|]. cbn [app strstr]. destruct (is_prefix _ _); [done|].
  intros H. apply IH. by destruct (strstr (a ++ b) n).
Qed.

(** Behind a line, the search goes on at its end. *)
Lemma strstr_lf h y :
  strstr (h ++ [10]) [10; 10] = None ->
  strstr (h ++ 10 :: y) [10; 10] = Z.add (zlen h) <$> strstr (10 :: y) [10; 10].
Proof.
  induction h as [|c h IH].
  { intros _. simpl app. by destruct (strstr (10 :: y) _). }
  set (t := strstr (10 :: y) _) in *. clearbody t. intros H. rewrite zlen_cons.
  assert (E : is_prefix [10; 10] (c :: h ++ 10 :: y) = is_prefix [10; 10] (c :: h ++ [10]))
    by (by destruct h).
  cbn [app strstr] in H |- *. rewrite E. destruct (is_prefix _ _); [done|].
  destruct (strstr (h ++ [10]) _); [done|]. rewrite IH by done.
  destruct t; [|done]. simpl. f_equal. lia.
Qed.

Lemma strstr_crlf h y :
  strstr (h ++ [10]) [10; 13; 10] = None ->
  strstr (h ++ 10 :: y) [10; 13; 10] = Z.add (zlen h) <$> strstr (10 :: y) [10; 13; 10].
Proof.
  induction h as [|c h IH].
  { intros _. simpl app. by destruct (strstr (10 :: y) _). }
  set (t := strstr (10 :: y) _) in *. clearbody t. intros H. rewrite zlen_cons.
  assert (E : is_prefix [10; 13; 10] (c :: h ++ 10 :: y) = is_prefix [10; 13; 10] (c :: h ++ [10])).
  { destruct h as [|d [|d' h]]; simpl; try done. all: by destruct (10 =? c), y. }
  cbn [app strstr] in H |- *. rewrite E. destruct (is_prefix _ _); [done|].
  destruct (strstr (h ++ [10]) _); [done|]. rewrite IH by done.
  destruct t; [|done]. simpl. f_equal. lia.
Qed.

Lemma strstr_nonneg l n k : strstr l n = Some k -> 0 <= k.
Proof.
  revert k. induction l as [|c l IH]; simpl; intros k; (destruct (is_prefix _ _); [by intros [= <-]|]);
    [done|]. destruct (strstr l n) as [q|]; [|done]. intros [= <-]. pose proof (IH q eq_refl). lia.
Qed.

(** The first blank line. *)
Lemma blank_found h e rest :
  no_blank (h ++ [10]) -> blank e ->
  find_anchor ((h ++ [10]) ++ e ++ rest) = Some (zlen h) /\
  (is_Some (strstr ((h ++ [10]) ++ e ++ rest) [10; 13; 10]) \/
   is_Some (strstr ((h ++ [10]) ++ e ++ rest) [10; 10])).
Proof.
  intros [H1 H2] He. rewrite <- app_assoc. cbn [app]. unfold find_anchor.
  rewrite strstr_lf, strstr_crlf by done.
  destruct He as [->| ->]; cbn [app].
  - change (strstr (10 :: 10 :: rest) [10; 10]) with (Some 0).
    change (strstr (10 :: 10 :: rest) [10; 13; 10]) with (Z.succ <$> strstr (10 :: rest) [10; 13; 10]).
    destruct (strstr (10 :: rest) _) as [q|] eqn:E; simpl; rewrite Z.add_0_r; [|by eauto].
    apply strstr_nonneg in E. destruct (Z.ltb_spec (zlen h) (zlen h + Z.succ q)); [by eauto|lia].
  - change (strstr (10 :: 13 :: 10 :: rest) [10; 13; 10]) with (Some 0).
    destruct (strstr (10 :: 13 :: 10 :: rest) [10; 10]) as [q|] eqn:E; simpl; rewrite Z.add_0_r; [|by eauto].
    apply strstr_nonneg in E. destruct (Z.ltb_spec (zlen h + q) (zlen h)); [lia|by eauto].
Qed.

(** Before the blank line is complete there is none. *)
Lemma blank_incomplete h e p q :
  no_blank (h ++ [10]) -> blank e -> p ++ q = (h ++ [10]) ++ e -> q <> [] -> no_blank p.
Proof.
  intros [H1 H2] He E Hq. destruct (exists_last Hq) as (q' & x & ->).
  assert (Ep : exists r, (p ++ q') ++ r = h ++ [10] \/ p ++ q' = h ++ [10; 13]).
  { rewrite app_assoc in E. destruct He as [->| ->].
    - apply app_inj_tail in E as [E _]. exists []. left. by rewrite app_nil_r.
    - change [13; 10] with ([13] ++ [10]) in E. rewrite app_assoc in E.
      apply app_inj_tail in E as [E _]. exists []. right. by rewrite E, <- app_assoc. }
  destruct Ep as (r & [E'|E']).
  - rewrite <- app_assoc in E'. split; eapply strstr_None_app; by rewrite E'.
  - split; apply (strstr_None_app _ p q'); rewrite E'.
    + by rewrite strstr_lf.
    + by rewrite strstr_crlf.
Qed.

(** * Bytes behind bytes in an array *)

(** [l] is written behind [p], which starts at index [i]. *)
Lemma blit_behind (a b : bytes) i p t l :
  0 <= i -> zdrop i a = p ++ t -> blit a (i + zlen p) l = Some b ->
  zlen b = zlen a /\ zdrop i b = p ++ l ++ zdrop (zlen l) t /\ zlen l <= zlen t.
Proof.
  intros Hi Hd Hb. pose proof (blit_zlen _ _ _ _ Hb). pose proof (zlen_nonneg p).
  pose proof (zlen_nonneg l). split; [done|]. apply blit_inv in Hb as (_ & Hfit & ->).
  assert (Hz : zlen a - i = zlen p + zlen t).
  { apply (f_equal zlen) in Hd. rewrite zlen_app in Hd.
    destruct (Z.le_gt_cases i (zlen a)); [rewrite zlen_zdrop in Hd by lia; lia|lia]. }
  split; [|lia].
  assert (Ha : a = ztake i a ++ p ++ t) by (by rewrite <- Hd, ztake_zdrop).
  assert (Hzi : zlen (ztake i a) = i) by (rewrite zlen_ztake by lia; lia).
  remember (ztake i a) as pre. clear Heqpre Hd Hfit H Hz. subst a.
  rewrite ztake_app_ge, Hzi by lia. replace (i + zlen p - i) with (zlen p) by lia.
  rewrite ztake_app_exact by done. rewrite (zdrop_app_ge pre (p ++ t)), Hzi by lia.
  replace (i + zlen p + zlen l - i) with (zlen p + zlen l) by lia.
  rewrite (zdrop_app_ge p t) by lia. replace (zlen p + zlen l - zlen p) with (zlen l) by lia.
  rewrite <- app_assoc. by apply zdrop_app_exact.
Qed.

(** The string at the start of [p ++ r], up to a NUL in [r]. *)
Lemma until_nul_behind p r t :
  nonul p = true -> exists r1, until_nul (p ++ r ++ 0 :: t) = Some (p ++ r1).
Proof.
  intros Hp. assert (exists r1, until_nul (r ++ 0 :: t) = Some r1) as [r1 Er].
  { clear Hp. induction r as [|c r [r1 IH]]; simpl; [by exists []|].
    destruct (c =? 0); [by exists []|]. rewrite IH. by eexists. }
  exists r1. revert Hp. induction p as [|c p IH]; intros Hp; [done|].
  apply nonul_cons in Hp as [Hc Hp]. simpl. destruct (Z.eqb_spec c 0); [done|].
  by rewrite (IH Hp).
Qed.

(** * The output of the script *)

(** What a script prints: noise, header lines, a blank line, and the body. *)
Record prints (tokens : list bytes) (noise : bytes) (lines : list (bytes * bytes)) (e : bytes) :
    Prop := {
  sp_tokens : Forall (fun t => 10 ∉ t) tokens;
  sp_noise : CgiHeaderProps.quiet tokens noise;
  sp_some : lines <> [];
  sp_lines : Forall (header_row tokens) lines;
  sp_blank : blank e;
  sp_first : no_blank (noise ++ text lines);
  sp_nonul : nonul (noise ++ text lines ++ e) = true;
  sp_status : forall r, strncaseeq (text lines ++ e ++ r) (bs "Status: ") 8 = false;
  sp_location : forall r, strncaseeq (text lines ++ e ++ r) (bs "Location: ") 10 = false
}.

Lemma text_end tokens noise lines :
  lines <> [] -> Forall (header_row tokens) lines -> exists h, noise ++ text lines = h ++ [10].
Proof.
  destruct lines as [|[l e] lines _] using rev_ind; [done|].
  intros _ [_ [(_ & He & _) _]%Forall_cons]%Forall_app. rewrite text_snoc. cbn [snd] in He.
  destruct He as [->| ->]; [exists (noise ++ text lines ++ l)|exists (noise ++ text lines ++ l ++ [13])];
    by rewrite <- ?app_assoc.
Qed.

(** The noise is stripped, whatever stands behind the header. *)
Lemma noise_stripped tokens noise lines e rest :
  prints tokens noise lines e ->
  strip_cgi_prefix true tokens (noise ++ text lines ++ e ++ rest) = Some (length noise) /\
  (is_Some (strstr (text lines ++ e ++ rest) [10; 13; 10]) \/
   is_Some (strstr (text lines ++ e ++ rest) [10; 10])).
Proof.
  intros [Ht Hq Hne Hl He Hf _ _ _]. destruct (text_end tokens noise lines Hne Hl) as [h Eh].
  split.
  - apply strip_finds_header; try done. rewrite app_assoc, Eh, zlen_app. rewrite Eh in Hf.
    destruct (blank_found h e rest Hf He) as [-> _]. f_equal. change (zlen [10]) with 1. lia.
  - destruct (text_end tokens [] lines Hne Hl) as [h2 Eh2]. simpl in Eh2.
    assert (Hf2 : no_blank (h2 ++ [10])).
    { rewrite <- Eh2. destruct Hf as [H1 H2]. split; by eapply strstr_None_tail. }
    rewrite Eh2. by apply blank_found.
Qed.

(** A part of the output holds a blank line when it holds the whole header. *)
Lemma header_complete tokens noise lines e rest :
  prints tokens noise lines e ->
  is_Some (strstr (noise ++ text lines ++ e ++ rest) [10; 13; 10]) \/
  is_Some (strstr (noise ++ text lines ++ e ++ rest) [10; 10]).
Proof.
  intros [Ht Hq Hne Hl He Hf _ _ _]. destruct (text_end tokens noise lines Hne Hl) as [h Eh].
  rewrite app_assoc, Eh. rewrite Eh in Hf. by apply blank_found.
Qed.

Lemma header_incomplete tokens noise lines e p q :
  prints tokens noise lines e -> p ++ q = noise ++ text lines ++ e -> q <> [] -> no_blank p.
Proof.
  intros [Ht Hq Hne Hl He Hf _ _ _] E. destruct (text_end tokens noise lines Hne Hl) as [h Eh].
  rewrite app_assoc, Eh in E. rewrite Eh in Hf. by eapply blank_incomplete.
Qed.

(** Either the header is not complete yet, or it is a prefix. *)
Lemma split_header (p q hd rest : bytes) :
  p ++ q = hd ++ rest -> (exists q', p ++ q' = hd /\ q' <> []) \/ exists r, p = hd ++ r /\ rest = r ++ q.
Proof.
  intros E. destruct (decide (length p < length hd)%nat) as [Hlt|Hge].
  - left. exists (drop (length p) hd).
    assert (p = take (length p) hd) as Ep.
    { apply (f_equal (take (length p))) in E. rewrite take_app_length, take_app_le in E by lia. done. }
    split; [rewrite Ep at 1; apply take_drop|]. intros E0. apply (f_equal length) in E0.
    rewrite length_drop in E0. simpl in E0. lia.
  - right. exists (drop (length hd) p). assert (p = hd ++ drop (length hd) p) as Ep.
    { rewrite <- (take_drop (length hd) p) at 1. f_equal.
      apply (f_equal (take (length hd))) in E. rewrite take_app_le, take_app_length in E by lia. done. }
    split; [done|]. rewrite Ep, <- app_assoc in E. by apply app_inv_head in E.
Qed.

(** * The header of the answer *)

Definition script_header (r : request) (g : server) : bytes :=
  (http_ver_string (http_version r) ++ bs " 200 OK" ++ CRLF)
  ++ headers_text (set_response_status R_REQUEST_OK r) g.

Lemma date_length t n d : rfc822_time_buf t n = Some d -> zlen d = 29.
Proof. unfold rfc822_time_buf. intros H. zcase_in H; [|done]. by injection H as <-. Qed.

Lemma itoa_short n : zlen (simple_itoa n) <= 21.
Proof. pose proof (itoa_loop_length 21 (u32 n) []). exact H. Qed.

(** It is short enough for the first half of the buffer. *)
Lemma script_header_short r g : resp_ok (forget_buffer r) g -> zlen (script_header r g) <= 512.
Proof.
  intros [_ _ _ _ _ _ [d Hd] _]. unfold script_header, headers_text. rewrite Hd. change (default [] (Some d)) with d.
  assert (Hv : zlen (http_ver_string (http_version r)) <= 8)
    by (destruct (http_version r); by vm_compute).
  assert (Hs : zlen (if conceal_server_identity g then [] else bs "Server: " ++ SERVER_VERSION ++ CRLF)
               <= 64) by (destruct (conceal_server_identity g); by vm_compute).
  assert (Hk : zlen (ka_text (set_response_status R_REQUEST_OK r) g) <= 128).
  { unfold ka_text. destruct (_ && _); [|by vm_compute]. rewrite !zlen_app.
    pose proof (itoa_short (ka_timeout g)).
    pose proof (itoa_short (kacount (set_response_status R_REQUEST_OK r))).
    change (zlen (bs "Connection: Keep-Alive")) with 22. change (zlen CRLF) with 2.
    change (zlen (bs "Keep-Alive: timeout=")) with 20. change (zlen (bs ", max=")) with 6. lia. }
  rewrite !zlen_app, (date_length _ _ _ Hd). change (zlen (bs " 200 OK")) with 7.
  change (zlen CRLF) with 2. change (zlen (bs "Date: ")) with 6.
  change (zlen (bs "Accept-Ranges: bytes")) with 20. lia.
Qed.

Section relay.
Context {os : OS} {laws : OSLaws os} {ins : InputLaws os laws}.

(** [send_r_request_ok] for a script writes no blank line. *)
Lemma script_ok_wp s :
  printable s -> http_version (rq s) <> HTTP09 -> cgi_type (rq s) <> CGI_none ->
  let r := set_response_status R_REQUEST_OK (rq s) in
  wp send_r_request_ok (fun _ s' =>
    wroteq true (script_header (rq s) (sv s)) (mkSt r (sv s) (wd s)) s') s.
Proof.
  intros Hs Hv Hc r. unfold send_r_request_ok. wps. rewrite bool_decide_false by done.
  pose proof (emits_http_headers true) as H1.
  change (cgi_type (set_response_status _ _)) with (cgi_type (rq s)).
  rewrite bool_decide_false by done.
  eapply emits_useq; [emit|by apply printable_status|]. simpl. by rewrite app_nil_r.
Qed.

(** The output from now on is relayed: what is out or waits in the buffer, what is
    between the pointers, and what the script will print, make up [all]. *)
Definition relaying (all : bytes) (s : St) : Prop :=
  status (rq s) = DEAD /\ prefix (sent (fd (rq s)) (wd s)) all \/
  buf_ok (rq s) /\ cgi_status (rq s) = CGI_DONE /\
  exists i j, header_line (rq s) = Pbuf i /\ header_end (rq s) = Pbuf j /\
    0 <= i <= j /\ j <= BUFFER_SIZE /\
    (status (rq s) = PIPE_READ \/
     status (rq s) = PIPE_WRITE /\ (i = j -> unread (data_fd (rq s)) (wd s) = [])) /\
    stream s ++ slice (buffer (rq s)) i (j - i) ++ unread (data_fd (rq s)) (wd s) = all.

(** At most one call of write. *)
Definition one_write (w w' : world) : Prop :=
  w' = w \/ exists d l res, os_write d l w = (res, w').

(** The script prints less than there is room for: [read_from_pipe] asks for one byte
    more than the buffer can take together with the NUL behind it. *)
Definition fits (r : request) (w : world) : Prop :=
  forall j l w', header_end r = Pbuf j ->
    os_read (data_fd r) (BUFFER_SIZE - (j - 1)) w = (SOk l, w') -> zlen l <= BUFFER_SIZE - j.

(** A condition on a turn: the next packet of the script, with one byte to spare, fits
    into what is free of the buffer behind the header.  A read that fills the buffer
    breaks it, and the code depends on it ([read_from_pipe_overflow]). *)
Definition short_reads (r : request) (w : world) : Prop :=
  forall w', one_write w w' -> fits r w'.

(** The end of a turn. *)
Definition relayed (all : bytes) (s : St) (n : Z) (s' : St) : Prop :=
  fd (rq s') = fd (rq s) /\ data_fd (rq s') = data_fd (rq s) /\ relaying all s' /\
  (n = 0 -> status (rq s') = DEAD \/ sent (fd (rq s')) (wd s') = all).

Lemma relaying_prefix all s : relaying all s -> prefix (sent (fd (rq s)) (wd s)) all.
Proof.
  intros [[_ H]|(_ & _ & i & j & _ & _ & _ & _ & _ & <-)]; [done|].
  unfold stream. rewrite <- app_assoc. by apply prefix_app_r.
Qed.

Lemma relaying_dead all s r w :
  relaying all s -> fd r = fd (rq s) -> status r = DEAD ->
  sent (fd (rq s)) w = sent (fd (rq s)) (wd s) -> relaying all (mkSt r (sv s) w).
Proof.
  intros H Ef Ed Es. left. split; [done|]. simpl. rewrite Ef, Es. by apply relaying_prefix.
Qed.

(** Without output that waits, the stream is what was sent. *)
Lemma stream_sent s : pending (rq s) = [] -> stream s = sent (fd (rq s)) (wd s).
Proof. unfold stream. intros ->. by rewrite app_nil_r. Qed.

Lemma write_relaying all s :
  relaying all s -> status (rq s) <> DEAD -> pending (rq s) = [] ->
  (header_line (rq s) = header_end (rq s) -> unread (data_fd (rq s)) (wd s) = []) ->
  wp write_from_pipe (relayed all s) s.
Proof.
  intros Hrel Hd Hp Heof. pose proof Hrel as [[? _]|(Hok & Hc & i & j & El & Ee & Hij & Hj & Hst & Hall)];
    [done|]. pose proof Hok as [Hl _ _ _]. unfold BUFFER_SIZE in *.
  rewrite stream_sent in Hall by done.
  unfold write_from_pipe, pdiff. wps. rewrite El, Ee in *. eapply wp_checked; [done|]. wps.
  rewrite u64_small by lia. destruct (Z.eqb_spec (j - i) 0) as [E0|E0].
  { rewrite bool_decide_true by done. wps. split; [done|]. split; [done|]. split; [done|].
    intros _. right. rewrite <- Hall, Heof by (f_equal; lia). rewrite slice_0 by lia.
    by rewrite !app_nil_r. }
  wps. eapply (pload_wp _ _ (j - i) (slice (buffer (rq s)) i (j - i))); [|lia|].
  { exists (buffer (rq s)), i. split_and!; try done; lia. }
  rewrite ztake_ge by (rewrite zlen_slice; lia). wps. apply wp_call. intros res w Hw.
  pose proof (write_unread (data_fd (rq s)) _ _ _ _ _ Hw) as Hu.
  assert (Hsame : sent (fd (rq s)) w = sent (fd (rq s)) (wd s) ->
    relaying all (mkSt (rq s) (sv s) w)).
  { intros Es. right. split; [done|]. split; [done|]. exists i, j. cbn [rq wd].
    rewrite Hu. split_and!; try done; [lia|lia|]. rewrite stream_sent by done. simpl. by rewrite Es. }
  destruct res as [n|er].
  - pose proof (write_bound _ _ _ _ _ Hw) as Hn. rewrite zlen_slice in Hn by lia.
    apply sent_write in Hw. wps.
    assert (Hmore : sent (fd (rq s)) w ++ slice (buffer (rq s)) (i + n) (j - (i + n)) ++
      unread (data_fd (rq s)) w = all).
    { rewrite Hw, Hu, <- Hall, <- app_assoc. f_equal. rewrite ztake_slice by lia.
      rewrite app_assoc, <- slice_app by lia. do 2 f_equal. lia. }
    destruct (Z.eqb_spec n (j - i)) as [->|Hne]; wps; (split_and!; [done|done| |lia]);
      right; (split; [by destruct Hok; split|]); (split; [done|]).
    + exists 0, 0. cbn [rq wd]. split_and!; try done; [by left|].
      rewrite (stream_sent (mkSt _ _ _)) by done. simpl. rewrite <- Hmore. f_equal.
      by rewrite slice_0 by lia.
    + exists (i + n), j. cbn [rq wd]. simpl. split_and!; try done; try lia.
      * destruct Hst as [?|[? _]]; [by left|right]. split; [done|]. lia.
      * by rewrite (stream_sent (mkSt _ _ _)).
  - apply sent_write_err in Hw. destruct er; wps.
    all: try (split; [done|]; split; [done|]; split; [by apply Hsame|done]).
    all: split; [done|]; split; [done|]; split; [|by left].
    all: by apply (relaying_dead all s).
Qed.

(** Two stores behind the data: what was read, and a NUL. *)
Lemma pstore_wp j l (Q : unit -> St -> Prop) s b :
  blit (buffer (rq s)) j l = Some b -> Q tt (mkSt (set_buffer b (rq s)) (sv s) (wd s)) ->
  wp (pstore (Pbuf j) l) Q s.
Proof. intros Hb HQ. unfold pstore. wps. eapply wp_checked; [simpl; by rewrite Hb|]. by wps. Qed.

(** The array behind index [i] holds [data], and there is room for [l] and a NUL. *)
Lemma stored (a : bytes) i data t l :
  0 <= i -> zdrop i a = data ++ t -> zlen l < zlen t ->
  exists b1 b2 t', blit a (i + zlen data) l = Some b1 /\
    blit b1 (i + zlen data + zlen l) [0] = Some b2 /\ zlen b2 = zlen a /\
    zdrop i b2 = data ++ l ++ 0 :: t'.
Proof.
  intros Hi Hd Hl. pose proof (zlen_nonneg data). pose proof (zlen_nonneg l).
  assert (Hz : zlen a - i = zlen data + zlen t).
  { apply (f_equal zlen) in Hd. rewrite zlen_app in Hd.
    destruct (Z.le_gt_cases i (zlen a)); [rewrite zlen_zdrop in Hd by lia; lia|].
    unfold zdrop, zlen in *. rewrite length_drop in Hd. lia. }
  destruct (proj2 (blit_is_Some a (i + zlen data) l)) as [b1 E1]; [lia|].
  destruct (blit_behind _ _ _ _ _ _ Hi Hd E1) as (Z1 & D1 & _).
  destruct (proj2 (blit_is_Some b1 (i + zlen data + zlen l) [0])) as [b2 E2].
  { change (zlen [0]) with 1. lia. }
  rewrite app_assoc in D1. rewrite <- Z.add_assoc, <- zlen_app in E2.
  destruct (blit_behind _ _ _ _ _ _ Hi D1 E2) as (Z2 & D2 & _).
  exists b1, b2, (zdrop (zlen [0]) (zdrop (zlen l) t)). split; [done|].
  split; [by rewrite <- Z.add_assoc, <- zlen_app|]. split; [congruence|]. by rewrite D2, <- app_assoc.
Qed.

Lemma slice_of_zdrop (a : bytes) i p t : 0 <= i -> zdrop i a = p ++ t -> slice a i (zlen p) = p.
Proof. intros Hi Hd. unfold slice. rewrite Hd. by apply ztake_app_exact. Qed.

Lemma zdrop_slice_split (a : bytes) i n : 0 <= n -> 0 <= i -> zdrop i a = slice a i n ++ zdrop (i + n) a.
Proof. intros. unfold slice. rewrite <- (zdrop_zdrop n i) by lia. by rewrite ztake_zdrop. Qed.

Lemma read_relaying all s :
  relaying all s -> status (rq s) = PIPE_READ -> pending (rq s) = [] ->
  buffer_start (rq s) = buffer_end (rq s) -> fits (rq s) (wd s) ->
  wp read_from_pipe (relayed all s) s.
Proof.
  intros Hrel Hst Hp Hbe Hshort.
  pose proof Hrel as [[? _]|(Hok & Hc & i & j & El & Ee & Hij & Hj & _ & Hall)]; [congruence|].
  pose proof Hok as [Hl _ _ Hhi]. unfold BUFFER_SIZE in *. rewrite stream_sent in Hall by done.
  unfold read_from_pipe, pdiff. wps. rewrite Ee in *. eapply wp_checked; [done|]. wps.
  rewrite u32_small by (unfold BUFFER_SIZE; lia).
  destruct (Z.eqb_spec (BUFFER_SIZE - (j - 0 - 1)) 0) as [E|E]; [unfold BUFFER_SIZE in E; lia|].
  wps. apply wp_call. intros res w Hr. rewrite Z.sub_0_r in Hr. wps.
  pose proof (read_sends (fd (rq s)) _ _ _ _ _ Hr) as Hsent.
  destruct res as [l|er].
  - pose proof (Hshort _ _ _ Ee Hr) as Hlen. pose proof (read_takes _ _ _ _ _ Hr) as Ht.
    pose proof (zlen_nonneg l).
    destruct (stored (buffer (rq s)) i (slice (buffer (rq s)) i (j - i)) (zdrop j (buffer (rq s))) l)
      as (b1 & b2 & t' & E1 & E2 & Hz & Hd).
    { lia. }
    { rewrite (zdrop_slice_split _ i (j - i)) by lia. f_equal. f_equal. lia. }
    { rewrite zlen_zdrop by lia. unfold BUFFER_SIZE in *. lia. }
    rewrite zlen_slice in E1, E2 by lia. replace (i + (j - i)) with j in * by lia.
    apply wp_bind. eapply pstore_wp; [exact E1|]. apply wp_bind. eapply pstore_wp; [exact E2|].
    set (data := slice (buffer (rq s)) i (j - i)) in *.
    assert (Hzd : zlen data = j - i) by (apply zlen_slice; lia).
    assert (Hdata : slice b2 i (zlen (data ++ l)) = data ++ l).
    { eapply slice_of_zdrop; [lia|]. by rewrite Hd, app_assoc. }
    (* the state behind the read, up to the status and the cgi_status *)
    assert (Hmoved : forall r, buffer r = b2 -> buffer_start r = buffer_start (rq s) ->
      buffer_end r = buffer_end (rq s) -> fd r = fd (rq s) -> data_fd r = data_fd (rq s) ->
      cgi_status r = CGI_DONE -> header_line r = Pbuf i -> header_end r = Pbuf (j + zlen l) ->
      status r = PIPE_READ \/ status r = PIPE_WRITE /\ unread (data_fd (rq s)) w = [] ->
      relaying all (mkSt r (sv s) w)).
    { intros r Eb E3 E4 E5 E6 E7 E8 E9 E10. right. cbn [rq wd]. split.
      { destruct Hok. split; rewrite ?Eb, ?E3, ?E4; try done. lia. }
      split; [done|]. exists i, (j + zlen l). unfold BUFFER_SIZE in *.
      split_and!; try done; try lia.
      { destruct E10 as [?|[? Hu0]]; [by left|right; by rewrite E6]. }
      rewrite stream_sent by (unfold pending; apply slice_0; cbn [rq]; lia). cbn [rq wd].
      rewrite Eb, E5, E6, Hsent, <- Hall, Ht. f_equal. rewrite zlen_app, Hzd in Hdata.
      replace (j + zlen l - i) with (j - i + zlen l) by lia. by rewrite Hdata, <- app_assoc. }
    destruct (Z.eqb_spec (zlen l) 0) as [E0|E0].
    + apply zlen_0_nil in E0 as ->. rewrite bool_decide_false by congruence. wps.
      apply read_eof in Hr; [|lia]. split; [done|]. split; [done|]. split; [|done].
      apply Hmoved; try done.
      * cbn. rewrite Ee. change (zlen []) with 0. f_equal. lia.
      * right. split; [done|]. by rewrite Ht in Hr.
    + rewrite bool_decide_false by congruence. wps.
      eapply wp_mono; [apply (write_relaying all)|].
      * apply Hmoved; try done. by left.
      * simpl. congruence.
      * unfold pending. apply slice_0. simpl. lia.
      * simpl. rewrite El. intros [= Ei]. lia.
      * intros n s'. cbn [rq]. done.
  - apply read_fails in Hr.
    assert (Hsame : relaying all (mkSt (rq s) (sv s) w)).
    { right. split; [done|]. split; [done|]. exists i, j. cbn [rq wd]. rewrite Hr.
      split_and!; try done; [lia|lia|by left|]. rewrite stream_sent by done. simpl. by rewrite Hsent. }
    destruct er; wps; (split; [done|]; split; [done|]).
    all: try (split; [exact Hsame|done]).
    all: split; [|by left]; by apply (relaying_dead all s).
Qed.

(** [req_flush] reads from no descriptor, and the array stays. *)
Lemma flush_keeps s :
  buf_ok (rq s) ->
  wp req_flush (fun _ s' => buffer (rq s') = buffer (rq s) /\
    one_write (wd s) (wd s') /\ forall d, unread d (wd s') = unread d (wd s)) s.
Proof.
  intros [Hl Hs Ho He]. unfold req_flush. wps. unfold BUFFER_SIZE in *.
  rewrite u32_small by lia. assert (Hend : forall s1, buffer (rq s1) = buffer (rq s) ->
    one_write (wd s) (wd s1) -> (forall d, unread d (wd s1) = unread d (wd s)) ->
    wp req_flush_end (fun _ s' => buffer (rq s') = buffer (rq s) /\
      one_write (wd s) (wd s') /\ forall d, unread d (wd s') = unread d (wd s)) s1).
  { intros s1 H1 H2 H3. unfold req_flush_end. wps. by destruct (_ =? _); wps. }
  assert (H0 : one_write (wd s) (wd s)) by (by left).
  destruct (_ <? _); wps; [done|].
  destruct (Z.eqb_spec (buffer_end (rq s) - buffer_start (rq s)) 0); [by apply Hend|].
  wps. apply load_wp; [lia|lia|lia|]. wps. apply wp_call. intros res w Hw.
  pose proof (fun d => write_unread d _ _ _ _ _ Hw) as Hu.
  assert (H1 : one_write (wd s) w) by (right; by eexists _, _, _).
  destruct res as [n'|e]; [wps; by apply Hend|destruct e; wps; done].
Qed.

Lemma relaying_moved all s s' :
  relaying all s -> status (rq s) <> DEAD -> buf_ok (rq s') -> same_but_buffer (rq s) (rq s') ->
  status (rq s') = status (rq s) -> buffer (rq s') = buffer (rq s) -> stream s' = stream s ->
  (forall d, unread d (wd s') = unread d (wd s)) -> relaying all s'.
Proof.
  intros H Hd Hok F Est Eb Es Eu.
  destruct H as [[? _]|(_ & Hc & i & j & El & Ee & Hij & Hj & Hst & Hall)]; [done|].
  right. split; [done|]. split; [rewrite <- Hc; exact (f_equal cgi_status F)|]. exists i, j.
  rewrite Est, Es, Eb, Eu.
  assert (data_fd (rq s') = data_fd (rq s)) as -> by exact (f_equal data_fd F).
  split_and!; try done; [rewrite <- El; exact (f_equal header_line F)|
    rewrite <- Ee; exact (f_equal header_end F)|lia|lia].
Qed.

Lemma flush_relaying all s :
  flushes_whole s -> relaying all s -> status (rq s) <> DEAD ->
  wp req_flush (fun n s' => fd (rq s') = fd (rq s) /\ data_fd (rq s') = data_fd (rq s) /\
    header_end (rq s') = header_end (rq s) /\ one_write (wd s) (wd s') /\ relaying all s' /\
    (n = -2 /\ status (rq s') = DEAD \/
     n = -1 \/
     0 <= n /\ status (rq s') = status (rq s) /\ pending (rq s') = [])) s.
Proof.
  intros Ht Hs Hd. assert (Hok : buf_ok (rq s)) by (destruct Hs as [[? _]|[? _]]; done).
  assert (Hle : status_num (status (rq s)) <= status_num DONE).
  { destruct Hs as [[? _]|(_ & _ & i & j & _ & _ & _ & _ & [->|[-> _]] & _)]; [done|by vm_compute..]. }
  eapply wp_mono; [apply wp_and; [by apply req_flush_live|
    apply wp_and; [by apply flush_drains|by apply flush_keeps]]|].
  intros n s' [(Esv & F & Hok' & H) [Hp (Eb & E1 & Eu)]].
  assert (Efd : fd (rq s') = fd (rq s)) by (by apply same_fd).
  assert (Edf : data_fd (rq s') = data_fd (rq s)) by exact (f_equal data_fd F).
  assert (Eh : header_end (rq s') = header_end (rq s)) by exact (f_equal header_end F).
  split; [done|]. split; [done|]. split; [done|]. destruct s' as [r g w].
  cbn [rq sv wd] in *. subst g. split; [done|]. split.
  - destruct H as [(-> & Hdead & _ & Es)|[(-> & Er & Es)|(-> & Est & Hn & Es)]].
    + by apply (relaying_dead all s).
    + eapply relaying_moved; try done; [by rewrite Er|]. unfold stream. cbn [rq wd]. by rewrite Er, Es.
    + eapply relaying_moved; try done. unfold stream. cbn [rq wd]. by rewrite Efd.
  - destruct H as [(-> & Hdead & _)|[(-> & _)|(-> & Est & Hn & _)]]; auto 9.
Qed.

Lemma relaying_squashed all s :
  relaying all s -> relaying all (mkSt (set_keepalive KA_STOPPED (rq s)) (sv s) (wd s)).
Proof.
  intros [H|(Hok & H)]; [by left|]. right. split; [by destruct Hok; split|]. exact H.
Qed.

Lemma squash_relayed all s n s1 :
  relayed all s n s1 ->
  wp (g ← srv; (if negb (sigterm_flag g =? 0) then SQUASH_KA else mret tt) ;; mret n)
    (relayed all s) s1.
Proof.
  intros (E1 & E2 & H & Hn). wps. unfold SQUASH_KA. destruct (negb _); wps; [|done].
  split_and!; try done. by apply relaying_squashed.
Qed.

(** The handlers, behind the flush. *)
Lemma dispatch_relaying all s :
  relaying all s -> (status (rq s) <> DEAD -> pending (rq s) = []) ->
  fits (rq s) (wd s) ->
  wp dispatch (relayed all s) s.
Proof.
  intros Hs Hp Hshort. unfold dispatch. wps. pose proof Hs as Hs'.
  destruct Hs' as [[Hd H]|(Hok & _ & i & j & El & Ee & _ & _ & [Hst|[Hst Heof]] & _)].
  - rewrite Hd. unfold SQUASH_KA. wps. split_and!; try done; by left.
  - rewrite Hst in *. apply read_relaying; try done; [by apply Hp|]. apply pending_nil; [done|by apply Hp].
  - rewrite Hst in *. apply write_relaying; [done|congruence|by apply Hp|].
    rewrite El, Ee. intros [= E]. by apply Heof.
Qed.

(** One turn. *)
Lemma handle_relaying all s :
  flushes_whole s -> short_reads (rq s) (wd s) -> relaying all s ->
  wp handle (relayed all s) s.
Proof.
  intros Ht Hshort Hs. unfold handle. apply wp_bind.
  apply (wp_mono _ (fun n s' => fd (rq s') = fd (rq s) /\ data_fd (rq s') = data_fd (rq s) /\
    header_end (rq s') = header_end (rq s) /\
    one_write (wd s) (wd s') /\ relaying all s' /\ (n = 0 -> status (rq s') = DEAD) /\
    (n = 1 -> status (rq s') <> DEAD -> pending (rq s') = []))).
  { unfold flush_first. wps. destruct (Z.eqb_spec (buffer_end (rq s)) 0) as [E|E]; cbn [negb andb].
    - wps. split_and!; try done; [by left|]. intros _ Hd. destruct Hs as [[? _]|[Hok _]]; [done|].
      destruct Hok. apply slice_0. lia.
    - destruct (decide (status (rq s) = DEAD)) as [Ed|Ed].
      { rewrite Ed. wps. split_and!; try done; by left. }
      assert (Hle : status_num (status (rq s)) < status_num TIMED_OUT).
      { destruct Hs as [[? _]|(_ & _ & i & j & _ & _ & _ & _ & [->|[-> _]] & _)]; [done|by vm_compute..]. }
      apply Z.ltb_lt in Hle. rewrite Hle. wps.
      eapply wp_mono; [by apply (flush_relaying all s Ht Hs)|].
      intros n s' (Efd & Edf & Eh & E1 & Hs' & Hn). wps.
      destruct Hn as [(-> & Hd)|[->|(Hn & Est & Hp)]].
      + wps. split_and!; try done. by eapply relaying_dead; [exact Hs'|..].
      + wps. split_and!; done.
      + destruct (Z.eqb_spec n (-2)); [lia|]. wps. replace (0 <=? n) with true by lia.
        split_and!; done. }
  intros n s1 (Efd & Edf & Eh & E1 & Hs1 & H0 & Hp). apply wp_bind.
  apply (wp_mono _ (relayed all s)).
  { destruct (Z.eqb_spec n 1) as [->|].
    - eapply wp_mono; [apply (dispatch_relaying all s1); [done|by apply Hp|]|].
      + intros j l w. rewrite Eh, Edf. by apply Hshort.
      + intros m s2 (E & E' & H). split; [congruence|]. split; [congruence|done].
    - wps. split_and!; try done. intros ->. left. by apply H0. }
  intros m s2 H. by apply squash_relayed.
Qed.

(** * The header of the script *)

(** The header of the answer is that of [r0], up to the keep-alive. *)
Definition same_head (r0 r : request) : Prop :=
  http_version r = http_version r0 /\ kacount r = kacount r0.

Lemma same_head_text r0 r g :
  same_head r0 r -> script_header r g = script_header (set_keepalive (keepalive r) r0) g.
Proof. intros [E1 E2]. unfold script_header, headers_text, ka_text. simpl. by rewrite E1, E2. Qed.

(** The script's output is being collected at index [i] of the buffer. *)
Record collecting (tokens : list bytes) (i : Z) (out hd : bytes) (r0 : request) (s : St) : Prop := {
  cl_printable : printable s;
  cl_flushed : buffer_end (rq s) = 0;
  cl_status : status (rq s) = PIPE_READ;
  cl_cgi : cgi_status (rq s) = CGI_PARSE /\ cgi_type (rq s) = CGI;
  cl_head : same_head r0 (rq s) /\ method (rq s) <> M_HEAD /\ http_version (rq s) <> HTTP09;
  cl_strip : cgi_strip_prefix (sv s) = true /\ cgi_strip_tokens (sv s) = tokens;
  cl_line : header_line (rq s) = Pbuf i /\ 512 <= i;
  cl_got : exists got t q, header_end (rq s) = Pbuf (i + zlen got) /\
    i + zlen got <= BUFFER_SIZE /\ zdrop i (buffer (rq s)) = got ++ t /\
    got ++ unread (data_fd (rq s)) (wd s) = out /\ got ++ q = hd /\ q <> []
}.

(** The header is complete: it is moved behind the 200 line. *)
Record complete (tokens : list bytes) (i : Z) (got : bytes) (s : St) : Prop := {
  cp_printable : printable s;
  cp_flushed : buffer_start (rq s) = 0 /\ buffer_end (rq s) = 0;
  cp_status : status (rq s) = PIPE_READ;
  cp_cgi : cgi_status (rq s) = CGI_DONE /\ cgi_type (rq s) = CGI;
  cp_head : method (rq s) <> M_HEAD /\ http_version (rq s) <> HTTP09;
  cp_strip : cgi_strip_prefix (sv s) = true /\ cgi_strip_tokens (sv s) = tokens;
  cp_line : header_line (rq s) = Pbuf i /\ 512 <= i;
  cp_end : header_end (rq s) = Pbuf (i + zlen got) /\ i + zlen got <= BUFFER_SIZE;
  cp_got : exists t, zdrop i (buffer (rq s)) = got ++ 0 :: t
}.

(** The flush behind the header. *)
Lemma flush_header all s i :
  buf_ok (rq s) -> status (rq s) = PIPE_READ -> cgi_status (rq s) = CGI_DONE ->
  header_line (rq s) = Pbuf i -> header_end (rq s) = Pbuf i -> 0 <= i <= BUFFER_SIZE ->
  stream s ++ unread (data_fd (rq s)) (wd s) = all ->
  wp req_flush (fun _ s' => fd (rq s') = fd (rq s) /\ data_fd (rq s') = data_fd (rq s) /\
    method (rq s') = method (rq s) /\ relaying all s') s.
Proof.
  intros Hok Hst Hc El Ee Hi Hall.
  assert (Hs : relaying all s).
  { right. split; [done|]. split; [done|]. exists i, i. split_and!; try done; try lia; [by left|].
    by rewrite Z.sub_diag, slice_0. }
  eapply wp_mono; [apply wp_and; [by apply req_flush_live; rewrite ?Hst|by apply flush_keeps]|].
  intros n s' [(Esv & F & Hok' & H) (Eb & _ & Eu)].
  split; [by apply same_fd|]. split; [exact (f_equal data_fd F)|].
  split; [exact (f_equal method F)|]. destruct s' as [r g w]. cbn [rq sv wd] in *. subst g.
  destruct H as [(-> & Hdead & _ & Es)|[(-> & Er & Es)|(-> & Est & Hn & Es)]].
  - apply (relaying_dead all s); try done. by apply same_fd.
  - eapply relaying_moved; try done; [congruence|by rewrite Er|].
    unfold stream. cbn [rq wd]. by rewrite Er, Es.
  - eapply relaying_moved; try done; [congruence|]. unfold stream. cbn [rq wd].
    by rewrite (same_fd _ _ F).
Qed.

(** What [cgi_plain] does with the header and what was read behind it. *)
Lemma cgi_plain_wp tokens i shown c cr s :
  complete tokens i shown s ->
  wp (cgi_plain c cr) (fun n s' => n = 1 /\ fd (rq s') = fd (rq s) /\
    data_fd (rq s') = data_fd (rq s) /\
    relaying (sent (fd (rq s)) (wd s) ++ script_header (rq s) (sv s) ++ shown
              ++ unread (data_fd (rq s)) (wd s)) s') s.
Proof.
  intros [Hp [Hb0 Hb] Hst [Hcs Hct] [Hm Hv] _ [El Hi] [Ee Hfit] [t Hd]].
  pose proof Hp as (Hok & _ & Hr). pose proof (script_header_short _ _ Hr) as Hshort.
  pose proof (zlen_nonneg shown). pose proof (zlen_nonneg (script_header (rq s) (sv s))).
  unfold cgi_plain. apply wp_bind.
  eapply wp_mono; [apply script_ok_wp; [done|done|congruence]|].
  intros [] s1 [[B F S O] [Ew R]]. cbn [rq sv wd] in *. unfold BUFFER_SIZE in *.
  destruct R as (E1 & E2 & T).
  { simpl. rewrite Hst. by vm_compute. }
  { simpl. unfold BUFFER_SIZE. lia. }
  simpl in E1, E2. unfold tail_kept in T. cbn [rq] in T.
  change (buffer_end (set_response_status _ _)) with (buffer_end (rq s)) in T.
  change (buffer (set_response_status _ _)) with (buffer (rq s)) in T. rewrite Hb in *.
  assert (F1 : method (rq s1) = method (rq s)) by exact (f_equal method F).
  assert (F2 : header_line (rq s1) = Pbuf i) by (rewrite <- El; exact (f_equal header_line F)).
  assert (F3 : header_end (rq s1) = Pbuf (i + zlen shown)) by (rewrite <- Ee; exact (f_equal header_end F)).
  assert (F4 : fd (rq s1) = fd (rq s)) by exact (f_equal fd F).
  assert (F5 : data_fd (rq s1) = data_fd (rq s)) by exact (f_equal data_fd F).
  assert (F6 : cgi_status (rq s1) = CGI_DONE) by (rewrite <- Hcs; exact (f_equal cgi_status F)).
  destruct O as [O|[_ O]]; [congruence|].
  assert (Hstream : stream s1 = sent (fd (rq s)) (wd s) ++ script_header (rq s) (sv s)).
  { rewrite O. f_equal. unfold stream, pending. simpl. rewrite Hb0, Hb. by rewrite app_nil_r. }
  wps. rewrite bool_decide_false by congruence. wps. unfold pdiff. rewrite F2, F3.
  eapply wp_checked; [done|]. wps. replace (i + zlen shown - i) with (zlen shown) by lia.
  rewrite u32_small by lia. unfold BUFFER_SIZE. destruct (Z.ltb_spec 4096 (buffer_end (rq s1) + zlen shown)); [lia|].
  wps. eapply (pload_wp _ _ (zlen shown) shown); [|lia|].
  { pose proof B as [Bl _ _ _]. unfold BUFFER_SIZE in *. exists (buffer (rq s1)), i.
    split_and!; try done; try lia. symmetry. apply (slice_of_zdrop _ _ _ (0 :: t)); [lia|].
    by rewrite T by lia. }
  rewrite ztake_ge by lia. apply wp_bind, (wp_buffer_append shown s1); [done|unfold BUFFER_SIZE; lia|].
  intros b Hb'. wps. destruct (pending_append (rq s1) b shown B) as [B' P]; [unfold BUFFER_SIZE; lia|done|].
  unfold flush_. apply wp_bind. eapply wp_mono; [apply (flush_header (sent (fd (rq s)) (wd s) ++
      script_header (rq s) (sv s) ++ shown ++ unread (data_fd (rq s)) (wd s)) _ (buffer_end (rq s1) + zlen shown));
    try reflexivity; simpl; try congruence; try (unfold BUFFER_SIZE; lia)|].
  { by destruct B'; split. }
  { rewrite F5, Ew, !app_assoc, <- Hstream, <- app_assoc. unfold stream in *. cbn [rq wd].
    rewrite !app_assoc. f_equal. rewrite <- app_assoc. f_equal; [simpl; congruence|exact P]. }
  intros x s2 (G1 & G2 & G3 & G4). cbn [rq sv wd] in *. simpl in G1, G2, G3. wps.
  rewrite bool_decide_false by congruence. split; [done|]. split; [congruence|].
  split; [congruence|done].
Qed.

Lemma nonul_app_r a b : nonul (a ++ b) = true -> nonul b = true.
Proof. unfold nonul. rewrite forallb_app. by intros [_ ?]%andb_true_iff. Qed.

Lemma string_at_buf r i : 0 <= i -> string_at r (Pbuf i) = until_nul (zdrop i (buffer r)).
Proof. intros Hi. unfold string_at, cstr. simpl. by destruct (Z.leb_spec 0 i); [|lia]. Qed.

(** The whole of [process_cgi_header]. *)
Lemma process_cgi_header_wp tokens noise lines e i r0 s :
  prints tokens noise lines e -> complete tokens i (noise ++ text lines ++ e ++ r0) s ->
  wp process_cgi_header (fun n s' => n = 1 /\ fd (rq s') = fd (rq s) /\
    data_fd (rq s') = data_fd (rq s) /\
    relaying (sent (fd (rq s)) (wd s) ++ script_header (rq s) (sv s) ++ (text lines ++ e ++ r0)
              ++ unread (data_fd (rq s)) (wd s)) s') s.
Proof.
  intros Hpr Hc. pose proof Hc as [Hp Hb Hst [Hcs Hct] [Hm Hv] [Hon Htok] [El Hi] [Ee Hfit] [t Hd]].
  pose proof (sp_nonul _ _ _ _ Hpr) as Hn. pose proof (nonul_app_r _ _ Hn) as Hn2.
  set (k := Z.of_nat (length noise)).
  assert (Hd2 : zdrop (i + k) (buffer (rq s)) = (text lines ++ e ++ r0) ++ 0 :: t).
  { rewrite <- (zdrop_zdrop k i), Hd, <- app_assoc by lia. by apply zdrop_app_exact. }
  destruct (until_nul_behind _ r0 t Hn) as [r1 Er1]. destruct (until_nul_behind _ r0 t Hn2) as [r2 Er2].
  rewrite <- !app_assoc in Er1. rewrite <- !app_assoc in Er2. rewrite <- !app_assoc in Hd.
  rewrite <- !app_assoc in Hd2.
  unfold process_cgi_header. wps. rewrite bool_decide_true by done. cbn [negb]. wps.
  rewrite El. cbn [buf_offset]. wps. rewrite Hon, bool_decide_false by congruence. cbn [negb andb].
  wps. unfold pstr. wps. eapply wp_checked.
  { rewrite (string_at_buf (rq s) i), Hd by lia. exact Er1. }
  wps. rewrite Htok. eapply wp_checked; [by apply noise_stripped|]. wps. fold k. cbn [buf_offset header_line]. wps.
  apply wp_bind, wp_bind, wp_req. eapply wp_checked.
  { rewrite (string_at_buf _ (i + k)) by lia. simpl. rewrite Hd2. exact Er2. }
  wps. destruct (noise_stripped tokens noise lines e r2 Hpr) as [_ Hex].
  change (http_version (set_header_line _ _)) with (http_version (rq s)).
  rewrite bool_decide_false, (sp_status _ _ _ _ Hpr), (sp_location _ _ _ _ Hpr) by done.
  assert (Hplain : forall c cr, wp (cgi_plain c cr) (fun n s' => n = 1 /\ fd (rq s') = fd (rq s) /\
    data_fd (rq s') = data_fd (rq s) /\
    relaying (sent (fd (rq s)) (wd s) ++ script_header (rq s) (sv s) ++ (text lines ++ e ++ r0)
              ++ unread (data_fd (rq s)) (wd s)) s')
    (mkSt (set_header_line (Pbuf (i + k)) (rq s)) (sv s) (wd s))).
  { intros c cr. apply (cgi_plain_wp tokens (i + k) (text lines ++ e ++ r0) c cr
      (mkSt (set_header_line (Pbuf (i + k)) (rq s)) (sv s) (wd s))).
    split; try done.
    - by apply (printable_upd (set_header_line _)); [intros []|].
    - split; [done|]. lia.
    - cbn. rewrite Ee. rewrite zlen_app in *. unfold k, zlen in *. split; [f_equal; lia|lia].
    - exists t. cbn. by rewrite Hd2, <- !app_assoc. }
  destruct (strstr _ [10; 13; 10]) as [c|]; [apply Hplain|].
  destruct (strstr _ [10; 10]) as [c|]; [apply Hplain|]. by destruct Hex as [[]|[]].
Qed.

(** The end of a turn while the header is being collected: the request failed, the header
    is still incomplete, or it was moved. *)
Definition collected (tokens : list bytes) (i : Z) (out hd shown : bytes) (r0 : request) (s : St)
    (n : Z) (s' : St) : Prop :=
  fd (rq s') = fd (rq s) /\ data_fd (rq s') = data_fd (rq s) /\
  ((status (rq s') = DEAD \/ n <> 0 /\ collecting tokens i out hd r0 s') /\
     sent (fd (rq s)) (wd s') = sent (fd (rq s)) (wd s) \/
   n = 1 /\ relaying (sent (fd (rq s)) (wd s) ++ script_header (rq s) (sv s) ++ shown) s').

(** What the read added to a header that stays incomplete. *)
Lemma still_collecting tokens i out hd r0 s b l w q t got :
  collecting tokens i out hd r0 s -> zlen b = zlen (buffer (rq s)) ->
  i + zlen (got ++ l) <= BUFFER_SIZE -> zdrop i b = (got ++ l) ++ t ->
  (got ++ l) ++ unread (data_fd (rq s)) w = out -> (got ++ l) ++ q = hd -> q <> [] ->
  forall b0, collecting tokens i out hd r0
    (mkSt (set_header_end (Pbuf (i + zlen got + zlen l)) (set_buffer b (set_buffer b0 (rq s))))
       (sv s) w).
Proof.
  intros [Hp Hb Hst Hc Hh Hs Hl _] Hz Hfit Hd Ho Hh' Hq b0. split; try done.
  - destruct Hp as ([B1 B2 B3 B4] & ? & []). split_and!; [split; simpl; lia|done|by split].
  - exists (got ++ l), t, q. simpl. rewrite zlen_app, Z.add_assoc in *. done.
Qed.

(** The same behind the last byte of the header. *)
Lemma now_complete tokens i out hd r0 s b got t :
  collecting tokens i out hd r0 s -> buffer_start (rq s) = 0 -> zlen b = zlen (buffer (rq s)) ->
  i + zlen got <= BUFFER_SIZE -> zdrop i b = got ++ 0 :: t ->
  forall r w, r = set_cgi_status CGI_DONE (set_header_end (Pbuf (i + zlen got)) (set_buffer b (rq s))) ->
  complete tokens i got (mkSt r (sv s) w).
Proof.
  intros [Hp Hb Hst [Hc Hct] (_ & Hm) Hs Hl _] Hb0 Hz Hfit Hd r w ->. split; try done.
  - destruct Hp as ([B1 B2 B3 B4] & ? & []). split_and!; [split; simpl; lia|done|by split].
  - by exists t.
Qed.

(** The turn in which the header becomes complete. *)
Lemma moved_header tokens noise lines e body i r r0 s b1 b2 l w t got :
  prints tokens noise lines e ->
  let shown := text lines ++ e ++ body in
  let hd := noise ++ text lines ++ e in
  collecting tokens i (hd ++ body) hd r0 s -> got ++ l = hd ++ r ->
  body = r ++ unread (data_fd (rq s)) w -> sent (fd (rq s)) w = sent (fd (rq s)) (wd s) ->
  zlen b2 = zlen (buffer (rq s)) -> i + zlen (got ++ l) <= BUFFER_SIZE ->
  zdrop i b2 = (got ++ l) ++ 0 :: t ->
  wp (upd (set_cgi_status CGI_DONE) ;;
      pstore (padd (Pbuf (i + zlen got)) (zlen l)) [0] ;; process_cgi_header)
    (collected tokens i (hd ++ body) hd shown r0 s)
    (mkSt (set_header_end (padd (Pbuf (i + zlen got)) (zlen l))
       (set_buffer b2 (set_buffer b1 (rq s)))) (sv s) w).
Proof.
  intros Hpr shown hd Hc Egl Er Hsent Hz Hfit Hd.
  pose proof Hc as [([Bl Bs Bo Bh] & _) Hb _ _ _ _ [_ Hi] _].
  pose proof (zlen_nonneg got). pose proof (zlen_nonneg l). rewrite zlen_app in Hfit.
  wps. cbn [padd]. unfold BUFFER_SIZE in *.
  destruct (proj2 (blit_is_Some b2 (i + zlen (got ++ l)) [0])) as [b3 E3].
  { rewrite zlen_app. change (zlen [0]) with 1. lia. }
  destruct (blit_behind b2 b3 i _ _ _ ltac:(lia) Hd E3) as (Hz3 & Hd3 & _).
  apply wp_bind. eapply pstore_wp.
  { rewrite zlen_app, Z.add_assoc in E3. exact E3. }
  eapply wp_mono; [eapply (process_cgi_header_wp tokens noise lines e i r); [exact Hpr|]|].
  - replace (noise ++ text lines ++ e ++ r) with (got ++ l) by (rewrite Egl; unfold hd; by rewrite <- !app_assoc).
    eapply (now_complete tokens i _ _ r0 s b3); [exact Hc|lia|lia| |exact Hd3|].
    { rewrite zlen_app. unfold BUFFER_SIZE. lia. }
    rewrite zlen_app, Z.add_assoc. by destruct (rq s).
  - intros n s' (-> & E1 & E2 & H1). cbn [rq sv wd] in *. split; [exact E1|]. split; [exact E2|].
    right. split; [done|]. unfold shown. rewrite Er, <- Hsent. rewrite <- !app_assoc in H1.
    exact H1.
Qed.

Lemma read_collecting tokens noise lines e body i r0 s :
  prints tokens noise lines e ->
  let shown := text lines ++ e ++ body in
  let hd := noise ++ text lines ++ e in
  collecting tokens i (hd ++ body) hd r0 s ->
  fits (rq s) (wd s) ->
  wp read_from_pipe (collected tokens i (hd ++ body) hd shown r0 s) s.
Proof.
  intros Hpr shown hd Hc Hshort.
  pose proof Hc as [Hp Hb Hst [Hcs Hct] Hh Hs [El Hi] (got & t & q & Ee & Hfit & Hd & Ho & Hq & Hq0)].
  pose proof Hp as ([Bl Bs Bo Bh] & _). pose proof (zlen_nonneg got). unfold BUFFER_SIZE in *.
  assert (Hz : zlen t = 4097 - (i + zlen got)).
  { apply (f_equal zlen) in Hd. rewrite zlen_zdrop, zlen_app in Hd by lia. lia. }
  unfold read_from_pipe, pdiff. wps. rewrite Ee. eapply wp_checked; [done|]. wps.
  unfold BUFFER_SIZE. rewrite u32_small by lia.
  destruct (Z.eqb_spec (4096 - (i + zlen got - 0 - 1)) 0) as [E|E]; [lia|].
  wps. apply wp_call. intros res w Hr. rewrite Z.sub_0_r in Hr. wps.
  pose proof (read_sends (fd (rq s)) _ _ _ _ _ Hr) as Hsent.
  destruct res as [l|er].
  - pose proof (Hshort _ _ _ Ee Hr) as Hlen. unfold BUFFER_SIZE in Hlen. pose proof (read_takes _ _ _ _ _ Hr) as Ht.
    destruct (stored (buffer (rq s)) i got t l) as (b1 & b2 & t' & E1 & E2 & Hz2 & Hd2); [lia|done|lia|].
    apply wp_bind. eapply pstore_wp; [exact E1|]. apply wp_bind. eapply pstore_wp; [exact E2|].
    destruct (Z.eqb_spec (zlen l) 0) as [E0|E0].
    { exfalso. apply zlen_0_nil in E0 as ->. apply read_eof in Hr; [|lia].
      rewrite Hr, app_nil_r in Ho. apply (f_equal zlen) in Ho. apply (f_equal zlen) in Hq.
      rewrite zlen_app in Ho, Hq. pose proof (zlen_nonneg body). apply Hq0, zlen_0_nil.
      pose proof (zlen_nonneg q). lia. }
    wps. rewrite bool_decide_true by done. cbn [negb]. unfold pstr. wps.
    change (header_line (set_header_end _ _)) with (header_line (rq s)). rewrite El.
    assert (Ho' : (got ++ l) ++ unread (data_fd (rq s)) w = hd ++ body) by (by rewrite <- app_assoc, <- Ht).
    rewrite app_assoc in Hd2. pose proof (zlen_app got l) as Hgl.
    assert (Hfit' : i + zlen (got ++ l) <= BUFFER_SIZE) by (unfold BUFFER_SIZE; lia).
    destruct (split_header _ _ _ _ Ho') as [(q' & Eq' & Hq')|(r & Egl & Er)].
    + eapply wp_checked.
      { rewrite string_at_buf by lia. simpl. rewrite Hd2. apply until_nul_nonul.
        pose proof (sp_nonul _ _ _ _ Hpr) as Hn. fold hd in Hn. rewrite <- Eq' in Hn.
        unfold nonul in *. rewrite forallb_app in Hn. by apply andb_true_iff in Hn as [? _]. }
      destruct (header_incomplete _ _ _ _ _ _ Hpr Eq' Hq') as [-> ->]. wps.
      split; [done|]. split; [done|]. left. split; [|exact Hsent]. right. split; [done|].
      eapply (still_collecting _ _ _ _ _ _ b2 l w q'); done.
    + destruct (until_nul_behind hd r t' (sp_nonul _ _ _ _ Hpr)) as [r1 Er1].
      eapply wp_checked.
      { rewrite string_at_buf by lia. simpl. rewrite Hd2, Egl, <- app_assoc. exact Er1. }
      assert (Hgo : wp (upd (set_cgi_status CGI_DONE) ;;
          pstore (padd (Pbuf (i + zlen got)) (zlen l)) [0] ;; process_cgi_header)
        (collected tokens i (hd ++ body) hd shown r0 s)
        (mkSt (set_header_end (padd (Pbuf (i + zlen got)) (zlen l))
           (set_buffer b2 (set_buffer b1 (rq s)))) (sv s) w)).
      { apply (moved_header tokens noise lines e body i r r0 s b1 b2 l w t' got); done. }
      pose proof (header_complete _ _ _ _ r1 Hpr) as Hex.
      replace (noise ++ text lines ++ e ++ r1) with (hd ++ r1) in Hex by (unfold hd; by rewrite <- !app_assoc).
      destruct (strstr _ [10; 13; 10]); [exact Hgo|].
      destruct (strstr _ [10; 10]); [exact Hgo|]. by destruct Hex as [[]|[]].
  - apply read_fails in Hr.
    assert (Hsame : collecting tokens i (hd ++ body) hd r0 (mkSt (rq s) (sv s) w)).
    { split; try done.
      exists got, t, q. cbn [rq wd]. by rewrite Hr. }
    destruct er; wps; (split; [done|]; split; [done|]); left; (split; [|exact Hsent]).
    all: try (right; split; [done|exact Hsame]).
    all: by left.
Qed.

(** * The turns *)

Lemma collecting_squashed tokens i out hd r0 s :
  collecting tokens i out hd r0 s ->
  collecting tokens i out hd r0 (mkSt (set_keepalive KA_STOPPED (rq s)) (sv s) (wd s)).
Proof.
  intros [Hp Hb Hst Hc Hh Hs Hl Hg]. split; try done.
  by apply (printable_upd (set_keepalive KA_STOPPED)); [intros []|].
Qed.

(** What [send_r_request_ok] prints at some time for the request [r0], and the output of
    the script from its header on. *)
Definition answer (before : bytes) (r0 : request) (shown : bytes) (k : KA_STATUS) (g : server) : bytes :=
  before ++ script_header (set_keepalive k r0) g ++ shown.

(** All the states of the request until it is freed; it began with [r0]. *)
Definition answering (tokens : list bytes) (i : Z) (out hd before shown : bytes) (r0 : request)
    (s : St) : Prop :=
  fd (rq s) = fd r0 /\ data_fd (rq s) = data_fd r0 /\
  (collecting tokens i out hd r0 s /\ sent (fd r0) (wd s) = before \/
   exists k g, relaying (answer before r0 shown k g) s).

(** A turn. *)
Lemma handle_answering tokens noise lines e body i before r0 s :
  prints tokens noise lines e ->
  let shown := text lines ++ e ++ body in
  let hd := noise ++ text lines ++ e in
  answering tokens i (hd ++ body) hd before shown r0 s ->
  flushes_whole s -> short_reads (rq s) (wd s) ->
  wp handle (fun n s' => answering tokens i (hd ++ body) hd before shown r0 s' /\
    (n = 0 -> status (rq s') = DEAD \/
              exists k g, sent (fd r0) (wd s') = answer before r0 shown k g)) s.
Proof.
  intros Hpr shown hd (Efd & Edf & [[Hc Hs]|(k & g & Hr)]) Ht Hshort.
  2:{ eapply wp_mono; [by apply handle_relaying|]. intros n s' (E1 & E2 & H & Hn).
      split; [split; [congruence|]; split; [congruence|]; right; by exists k, g|].
      intros ->. destruct (Hn eq_refl) as [?|Ha]; [by left|]. right. exists k, g.
      by rewrite <- Ha, E1, Efd. }
  unfold handle, flush_first. wps. rewrite (cl_flushed _ _ _ _ _ _ Hc).
  change (negb (0 =? 0)) with false. cbn [andb]. wps. change (1 =? 1) with true.
  apply wp_bind. unfold dispatch. wps. rewrite (cl_status _ _ _ _ _ _ Hc).
  eapply wp_mono; [apply (read_collecting _ _ _ _ body _ _ _ Hpr Hc)|].
  { apply Hshort. by left. }
  intros n s1 (E1 & E2 & Hcase). fold shown hd in Hcase.
  apply (wp_mono _ (fun m s' => m = n /\ (s' = s1 \/
    s' = mkSt (set_keepalive KA_STOPPED (rq s1)) (sv s1) (wd s1)))).
  { wps. unfold SQUASH_KA. destruct (negb _); wps; (split; [done|]); [by right|by left]. }
  intros m s' [-> Es']. assert (Ef' : fd (rq s') = fd (rq s1) /\ data_fd (rq s') = data_fd (rq s1) /\
    wd s' = wd s1 /\ status (rq s') = status (rq s1)) by (by destruct Es' as [->| ->]).
  destruct Ef' as (G1 & G2 & G3 & G4).
  rewrite Efd in *. rewrite Hs in Hcase. unfold answering. rewrite G1, G2, G3, G4, E1, E2.
  destruct Hcase as [[[Hd|[Hn Hc']] Hs1]|[-> Hr]].
  - split; [|by left]. split; [done|]. split; [done|]. right. exists (keepalive r0), (sv s). left.
    rewrite G4, G1, G3, E1, Hs1. split; [done|]. by apply prefix_app_r.
  - split; [|done]. split; [done|]. split; [done|]. left. split; [|done].
    destruct Es' as [->| ->]; [done|by apply collecting_squashed].
  - split; [|done]. split; [done|]. split; [done|]. right.
    destruct (cl_head _ _ _ _ _ _ Hc) as [Hh _]. rewrite (same_head_text _ _ (sv s) Hh) in Hr.
    exists (keepalive (rq s)), (sv s). destruct Es' as [->| ->]; [exact Hr|by apply relaying_squashed].
Qed.

(** * The script *)

(** What happens to the request between [init_cgi] and its end: a turn that keeps it, in
    which no write of the buffer is short ([flushes_whole]) and no read fills the buffer
    ([short_reads]); and what the other requests and the signals do. *)
Inductive script_turn : St -> St -> Prop :=
  | script_handle s n s' :
      flushes_whole s -> short_reads (rq s) (wd s) ->
      handle s = Ret n s' -> n <> 0 -> script_turn s s'
  | script_others s g w :
      printable (mkSt (rq s) g w) -> cgi_strip_prefix g = cgi_strip_prefix (sv s) ->
      cgi_strip_tokens g = cgi_strip_tokens (sv s) ->
      sent (fd (rq s)) w = sent (fd (rq s)) (wd s) ->
      unread (data_fd (rq s)) w = unread (data_fd (rq s)) (wd s) ->
      script_turn s (mkSt (rq s) g w).

Lemma relaying_others all s g w :
  relaying all s -> sent (fd (rq s)) w = sent (fd (rq s)) (wd s) ->
  unread (data_fd (rq s)) w = unread (data_fd (rq s)) (wd s) -> relaying all (mkSt (rq s) g w).
Proof.
  unfold relaying, stream. cbn [rq wd]. intros H -> ->. exact H.
Qed.

Lemma turns_answering tokens noise lines e body i before r0 s s' :
  prints tokens noise lines e ->
  let shown := text lines ++ e ++ body in
  let hd := noise ++ text lines ++ e in
  rtc script_turn s s' -> answering tokens i (hd ++ body) hd before shown r0 s ->
  answering tokens i (hd ++ body) hd before shown r0 s'.
Proof.
  intros Hpr shown hd. induction 1 as [s|s s1 s2 H _ IH]; [done|]. intros Ha. apply IH.
  destruct H as [s n s' Ht Hr E Hn|s g w Hp Es1 Es2 Es Eu].
  - destruct (wp_elim _ _ _ (handle_answering _ _ _ _ body i before r0 s Hpr Ha Ht Hr))
      as (n' & s'' & E' & H & _). rewrite E in E'. injection E' as <- <-. exact H.
  - destruct Ha as (E1 & E2 & [[[C1 C2 C3 C4 C5 C6 C7 C8] Hs]|(k & g' & H)]);
      (split; [done|]; split; [done|]).
    + rewrite E1 in Es. left. split; [|cbn [wd]; by rewrite Es]. split; try done; cbn [rq sv wd].
      * by rewrite Es1, Es2.
      * by rewrite Eu.
    + right. exists k, g'. by apply relaying_others.
Qed.

(** The request when [init_cgi] starts the script. *)
Record script_ready (tokens : list bytes) (s : St) : Prop := {
  sr_printable : printable s;
  sr_flushed : buffer_end (rq s) = 0;
  sr_cgi : cgi_type (rq s) = CGI;
  sr_method : method (rq s) <> M_HEAD;
  sr_version : http_version (rq s) <> HTTP09;
  sr_strip : cgi_strip_prefix (sv s) = true;
  sr_stripped : cgi_strip_tokens (sv s) = tokens
}.

(** What the parent of the script does. *)
Definition parent_request (p : Z) (r : request) : request :=
  set_filepos 0 (set_header_line (Pbuf 2048) (set_header_end (Pbuf 2048)
    (set_cgi_status CGI_PARSE (set_status PIPE_READ (set_data_fd p r))))).

Lemma script_starts p0 p1 tokens s :
  script_ready tokens s ->
  wp (init_cgi_parent (Some (p0, p1))) (fun n s' => n = 1 /\ sv s' = sv s /\
    sent (fd (rq s)) (wd s') = sent (fd (rq s)) (wd s) /\
    (rq s' = parent_request p0 (rq s) \/ rq s' = parent_request p0 (set_post_data_fd 0 (rq s)))) s.
Proof.
  intros [_ _ Hc _ _ _ _]. unfold init_cgi_parent. wps.
  destruct (bool_decide (method (rq s) = M_POST)); wps; unfold call_; wps.
  all: rewrite bool_decide_true by done; wps; (split; [done|]; split; [done|]);
    (split; [by rewrite ?close_sent|auto]).
Qed.

Lemma script_collecting p tokens noise lines e body s0 g w r :
  prints tokens noise lines e ->
  let hd := noise ++ text lines ++ e in
  script_ready tokens (mkSt r g w) -> s0 = mkSt (parent_request p r) g w ->
  unread p w = hd ++ body ->
  collecting tokens 2048 (hd ++ body) hd (parent_request p r) s0.
Proof.
  intros Hpr hd [Hp Hb Hc Hm Hv H1 H2] -> Hu. split; try done.
  - destruct Hp as ([] & ? & []). split_and!; [by split|done|by split].
  - exists [], (zdrop 2048 (buffer r)), hd. split_and!; try done.
    intros E. apply (f_equal length) in E. pose proof (sp_blank _ _ _ _ Hpr) as He.
    unfold hd in E. rewrite !length_app in E. destruct He as [->| ->]; simpl in E; lia.
Qed.

End relay.

(** * Witness *)

(** Every chunk that is left for the descriptor fits. *)
Definition small_chunks (r : request) (w : script) : bool :=
  match header_end r with
  | Pbuf j => forallb (fun p => forallb (fun c => zlen c <=? BUFFER_SIZE - j) p.2) (input w)
  | _ => true
  end.

Lemma zlen_filter (f : Z -> bool) l : zlen (List.filter f l) <= zlen l.
Proof.
  induction l as [|c l IH]; simpl; [lia|]. destruct (f c); rewrite !zlen_cons; lia.
Qed.

Lemma zlen_ztake_le (l : bytes) n : zlen (ztake n l) <= zlen l.
Proof. unfold zlen, ztake. rewrite length_take. lia. Qed.

Lemma small_chunks_short r (w : script) :
  writes w = [] -> small_chunks r w = true -> short_reads (os := scriptOS) r w.
Proof.
  intros Hw Hs w1 H1 j l w2 Ej Hr. unfold small_chunks in Hs. rewrite Ej in Hs.
  assert (Ei : input w1 = input w).
  { destruct H1 as [->|(d & l' & res & H1)]; [done|]. simpl in H1.
    unfold script_write, accept_bytes in H1. rewrite Hw in H1. by injection H1 as _ <-. }
  simpl in Hr. unfold script_read in Hr. rewrite Ei in Hr.
  destruct (List.find _ (input w)) as [[d' [|c cs]]|] eqn:Ef; [done| |done].
  apply List.find_some in Ef as [Hin _]. rewrite List.forallb_forall in Hs.
  apply Hs in Hin. simpl in Hin. apply andb_true_iff in Hin as [Hc%Z.leb_le _].
  pose proof (zlen_filter byte_ok c). pose proof (zlen_nonneg c).
  destruct (List.filter byte_ok c) as [|x k] eqn:Ec.
  - injection Hr as <- _. change (zlen []) with 0. lia.
  - injection Hr as <- _. pose proof (zlen_ztake_le (x :: k) (BUFFER_SIZE - (j - 1))). lia.
Qed.

(** A number of turns. *)
Fixpoint run_script (k : nat) (s : St (os := scriptOS)) : option St :=
  match k with
  | O => Some s
  | S k' =>
      if (match writes (wd s) with [] => true | _ => false end) && small_chunks (rq s) (wd s) then
        match handle s with
        | Ret n s' => if n =? 0 then None else run_script k' s'
        | _ => None
        end
      else None
  end.

Lemma run_script_rtc k s s' : run_script k s = Some s' -> rtc script_turn s s'.
Proof.
  revert s. induction k as [|k IH]; intros s; cbn [run_script]; [by intros [= ->]|].
  destruct (writes (wd s)) eqn:Ew; [|done]. cbn [andb].
  destruct (small_chunks (rq s) (wd s)) eqn:Es; [|done].
  destruct (handle s) as [n s1| |] eqn:E; [|done..]. destruct (Z.eqb_spec n 0) as [|Hn]; [done|].
  intros H. eapply rtc_l; [|by apply IH].
  eapply script_handle; [by apply served_whole|by apply small_chunks_short|exact E|exact Hn].
Qed.

Definition script_noise : bytes := bs "PHP Warning" ++ LF.
Definition script_lines : list (bytes * bytes) := [(bs "Content-Type: text/html", CRLF)].

(** The output arrives in five packets; the first ones end inside of the noise and of the
    header. *)
Definition script_state : St :=
  mkSt (os := scriptOS)
    (set_cgi_type CGI (set_method M_GET (set_http_version HTTP11 test_request)))
    (set_cgi_strip_tokens cgi_strip_builtin (set_cgi_strip_prefix true test_server))
    (set_input [(9, [bs "PHP Warn"; bs "ing" ++ LF ++ bs "Content-Ty"; bs "pe: text/html" ++ CRLF;
                     CRLF ++ bs "<html>"; bs "</html>"; []])] (wd test_state)).

Lemma script_prints : prints cgi_strip_builtin script_noise script_lines CRLF.
Proof.
  split; try (vm_compute; reflexivity).
  - apply (bool_decide_unpack _). vm_compute. reflexivity.
  - right. exists [], (bs "PHP Warning"), LF. split_and!; [done|by left| |by left|].
    + split; [apply (bool_decide_unpack _); vm_compute; reflexivity|].
      exists 103. split; [reflexivity|lia].
    + intros i Hi. change (length _) with 12%nat in Hi.
      do 12 (destruct i as [|i]; [vm_compute; reflexivity|]). lia.
  - discriminate.
  - unfold script_lines. rewrite Forall_cons, Forall_nil. split; [|done]. cbn [fst snd].
    split_and!; [split|by right|vm_compute; reflexivity];
      [apply (bool_decide_unpack _); vm_compute; reflexivity|
       eexists; split; [reflexivity|by vm_compute]].
  - by right.
  - split; vm_compute; reflexivity.
Qed.

Lemma script_is_ready : script_ready cgi_strip_builtin script_state.
Proof.
  destruct test_printable as ([B1 B2 B3 B4] & _ & R).
  split; [|reflexivity|reflexivity|discriminate|discriminate|reflexivity|reflexivity].
  split; [split; [exact B1|exact B2|exact B3|exact B4]|]. split; [discriminate|].
  apply (resp_ok_view test_request test_server); [vm_compute; reflexivity..| | |exact R].
  - apply (bool_decide_unpack _). vm_compute. reflexivity.
  - vm_compute. reflexivity.
Qed.

Definition script_start (n : Z) (s : St (os := scriptOS)) : Z * bytes :=
  (n, unread_on 9 (wd s)).

Lemma script_starts_here : seen script_start (init_cgi_parent (Some (9, 10)) script_state)
  = Some (1, script_noise ++ text script_lines ++ CRLF ++ bs "<html></html>").
Proof. vm_compute. reflexivity. Qed.

(** Six turns, the next one may run, and how it ends. *)
Definition script_run (o : out Z) : option (list (sys Z) * bool * option (Z * bool)) :=
  match o with
  | Ret _ s0 =>
      (fun s => (writes (wd s), small_chunks (rq s) (wd s),
                 seen (fun n s' => (n, bool_decide (status (rq s') = DEAD))) (handle s)))
        <$> run_script 6 s0
  | _ => None
  end.

Lemma script_runs :
  script_run (init_cgi_parent (Some (9, 10)) script_state) = Some ([], true, Some (0, false)).
Proof. vm_compute. reflexivity. Qed.

Lemma script_sent_nothing : sent_on (fd (rq script_state)) (wd script_state) = [] /\
  fd (rq script_state) = 7.
Proof. vm_compute. done. Qed.

