(* ===== verification/Conditional.v ===== *)
(** get.c: If-Modified-Since. *)

From S2P Require Import Prelude Types Machine ScriptOS Buffer Util Dates DateProofs.
From S2P Require Import Response ResponseProofs ResponseProps Pointer Get.

Section conditional.
Context {os : OS} {laws : OSLaws os}.

(** The header of the answer Not Modified. *)
Definition not_modified_text (r : request) (g : server) : bytes :=
  closing_head (bs "304 Not Modified") r g ++ content_type_text r g ++ CRLF.

Lemma not_modified_wp s :
  printable s ->
  wp send_r_not_modified (fun _ s' =>
    buf_ok (rq s') /\ sv s' = sv s /\ response_status (rq s') = 304 /\
    keepalive (rq s') = KA_STOPPED /\ fd (rq s') = fd (rq s) /\
    (status (rq s') = DEAD \/ stream s' = stream s ++ not_modified_text (view s) (sv s))) s.
Proof.
  intros Hs. pose proof (emits_http_headers false) as Hh. pose proof (emits_content_type false) as Hc.
  pose proof (squashed_printable R_NOT_MODIFIED s Hs) as Hp.
  apply wp_squash. eapply wp_mono; [eapply emits_use; [emit|apply Hp|reflexivity]|].
  intros [] s' H. pose proof (page_wrote _ _ _ _ H) as (? & ? & ? & ? & Ho).
  destruct H as [_ F _ _]. split_and!; try done; [exact (f_equal fd F)|].
  destruct Ho as [| ->]; [by left|right; f_equal].
  unfold not_modified_text. rewrite <- (squashed_headers R_NOT_MODIFIED _ (mkSt (view s) (sv s) (wd s))).
  rewrite !app_nil_r, <- !app_assoc. reflexivity.
Qed.

(** C4: a GET whose If-Modified-Since is the text of the time [t], as the
    server itself printed it as Last-Modified: when the file is not newer than [t], and
    [t] lies before 2021, the answer is exactly the header of Not Modified, the file is
    closed and nothing else happens; when the file is newer, it is sent as if there were
    no condition.  When [t] lies behind 2020 the file is always sent, modified or not. *)
Theorem conditional_get_answered data_fd st s now t date :
  printable s -> st_mode st = S_REG -> if_modified_since (rq s) <> Pnull ->
  string_at (rq s) (if_modified_since (rq s)) = Some date ->
  0 < t < 253402300800 -> rfc822_time_buf now t = Some date ->
  if (st_mtime st <=? t) && (t <? 1609459200) then
    exists s', init_get_file data_fd st s = Ret 0 s' /\ sv s' = sv s /\
      response_status (rq s') = 304 /\ keepalive (rq s') = KA_STOPPED /\
      (status (rq s') = DEAD \/ stream s' = stream s ++ not_modified_text (rq s) (sv s))
  else init_get_file data_fd st s = init_get_changed data_fd st s.
Proof.
  intros Hs Hreg Hp Hd Ht E. destruct (modified_since_printed now t (st_mtime st) Ht) as (d & E' & Hm).
  rewrite E in E'. injection E' as <-.
  assert (Hfile : forall m, modified_since (st_mtime st) date = Some m ->
    init_get_file data_fd st s =
    (if m =? 0 then send_r_not_modified ;; call_ (os_close data_fd) ;; mret 0
     else init_get_changed data_fd st) s).
  { intros m Em. unfold init_get_file, mbind, M_bind, req. rewrite Hreg, bool_decide_true by done.
    cbn [negb]. unfold pstr, mbind, M_bind, req, checked, mret, M_ret.
    destruct (if_modified_since (rq s)) as [|i|i|i]; [done|..]; rewrite Hd, Em; by destruct (m =? 0). }
  rewrite (Hfile _ Hm). destruct (Z.leb_spec (st_mtime st) t), (Z.ltb_spec t 1609459200),
    (Z.leb_spec 1609459200 t), (Z.ltb_spec t (st_mtime st)); try lia; try done. cbn [andb].
  destruct (wp_elim (send_r_not_modified ;; call_ (os_close data_fd) ;; mret 0)
    (fun n s' => n = 0 /\ sv s' = sv s /\ response_status (rq s') = 304 /\
       keepalive (rq s') = KA_STOPPED /\
       (status (rq s') = DEAD \/ stream s' = stream s ++ not_modified_text (rq s) (sv s))) s)
    as (n & s' & E1 & -> & H').
  { apply wp_bind. eapply wp_mono; [by apply not_modified_wp|].
    intros [] s1 (_ & Q1 & Q2 & Q3 & _ & Q4). unfold call_. wps. split; [done|].
    split; [done|]. split; [done|]. split; [done|]. unfold stream in *. cbn [rq wd].
    by rewrite close_sent. }
  by exists s'.
Qed.
End conditional.

(** * Witness *)

(** The file is as old as the copy of the client. *)
Definition dated_file : stat := mkStat S_REG 5 1420070400 1 1.

Definition dated_state : St :=
  mkSt (os := scriptOS)
    (set_if_modified_since (Pstream 0) (set_client_stream
       (bs "Thu, 01 Jan 2015 00:00:00 GMT" ++ zeros 100) test_request))
    test_server (wd test_state).

Lemma dated_printable : printable dated_state.
Proof.
  destruct test_printable as ([B1 B2 B3 B4] & _ & R).
  split; [split; [exact B1|exact B2|exact B3|exact B4]|]. split; [discriminate|].
  destruct R as [O1 O2 O3 O4 O5 O6 O7 O8].
  split; [exact O1|exact O2|exact O3|exact O4|exact O5|exact O6|exact O7|exact O8].
Qed.

Lemma conditional_get_answered_witness : exists s',
  init_get_file 5 dated_file dated_state = Ret 0 s' /\ response_status (rq s') = 304.
Proof.
  pose proof (conditional_get_answered (os := scriptOS) 5 dated_file dated_state 0 1420070400
    (bs "Thu, 01 Jan 2015 00:00:00 GMT") dated_printable eq_refl) as H.
  destruct H as (s' & E & _ & Hr & _); [discriminate|vm_compute; reflexivity|lia|vm_compute; reflexivity|].
  exists s'. split; [exact E|exact Hr].
Defined.
