(* ===== verification/Extras.v ===== *)
(** extras/: the functions for systems whose C library lacks them, compared with those of
    the C library. *)

From S2P Require Import Prelude Types Machine ScriptOS Util UtilProofs IndexDir Relay.

(** * strstr *)

(** [strncmp (a, b, n) == 0] for strings without NUL; behind the end there is one. *)
Fixpoint strncmp_eq (n : nat) (a b : bytes) : bool :=
  match n with
  | O => true
  | S n' =>
      match a, b with
      | [], [] => true
      | x :: a', y :: b' => (x =? y) && strncmp_eq n' a' b'
      | _, _ => false
      end
  end.

(** The loop from [p], which lies at offset [ofs]; the outer [None]: out of fuel. *)
Fixpoint strstr_loop (fuel : nat) (p : bytes) (ofs : Z) (s2 : bytes) (c : Z) :
    option (option Z) :=
  match fuel with
  | O => None
  | S fuel' =>
      match strchr p c with
      | None => Some None
      | Some k =>
          let p := zdrop k p in
          if strncmp_eq (length s2) p s2 then Some (Some (ofs + k))
          else strstr_loop fuel' (zdrop 1 p) (ofs + k + 1) s2 c
      end
  end.

Definition strstr_fallback (s1 s2 : bytes) : option (option Z) :=
  match s2 with
  | [] => Some (Some 0)
  | c :: _ => strstr_loop (S (length s1)) s1 0 s2 c
  end.

Lemma strncmp_prefix a b : strncmp_eq (length b) a b = is_prefix b a.
Proof.
  revert a. induction b as [|y b IH]; intros [|x a]; simpl; try done.
  by rewrite IH, Z.eqb_sym.
Qed.

(** Where the first character is not, there is no match. *)
Lemma strstr_skip c s2 p k :
  strchr p c = Some k -> strstr p (c :: s2) = Z.add k <$> strstr (zdrop k p) (c :: s2).
Proof.
  revert k. induction p as [|x p IH]; intros k; cbn [strchr]; [done|].
  destruct (Z.eqb_spec x c) as [->|Hne].
  - intros [= <-]. change (zdrop 0 (c :: p)) with (c :: p). by destruct (strstr (c :: p) _).
  - destruct (strchr p c) as [q|] eqn:Eq; [|done]. intros [= <-].
    destruct (strchr_Some _ _ _ Eq) as [Hq _].
    replace (zdrop (Z.succ q) (x :: p)) with (zdrop q p)
      by (unfold zdrop; by rewrite Z2Nat.inj_succ by lia).
    cbn [strstr is_prefix].
    destruct (Z.eqb_spec c x); [congruence|]. cbn [andb].
    rewrite (IH q eq_refl). by destruct (strstr (zdrop q p) _) as [m|]; simpl; [f_equal; lia|].
Qed.

Lemma strstr_no_char c s2 p : strchr p c = None -> strstr p (c :: s2) = None.
Proof.
  induction p as [|x p IH]; cbn [strchr strstr is_prefix]; [done|].
  destruct (Z.eqb_spec x c); [done|]. destruct (Z.eqb_spec c x); [congruence|]. cbn [andb].
  destruct (strchr p c); [done|]. intros _. by rewrite IH.
Qed.

Lemma strstr_loop_spec fuel p ofs c s2 :
  (length p < fuel)%nat ->
  strstr_loop fuel p ofs (c :: s2) c = Some (Z.add ofs <$> strstr p (c :: s2)).
Proof.
  revert p ofs. induction fuel as [|fuel IH]; intros p ofs Hf; [lia|]. cbn [strstr_loop].
  destruct (strchr p c) as [k|] eqn:Ek; [|by rewrite strstr_no_char].
  destruct (strchr_Some _ _ _ Ek) as [Hk Hget]. rewrite (strstr_skip c s2 p k Ek), strncmp_prefix.
  destruct (zdrop k p) as [|x q] eqn:Eq.
  { apply (f_equal zlen) in Eq. rewrite zlen_zdrop in Eq by lia. unfold zlen in Eq. simpl in Eq.
    unfold zlen in Hk. lia. }
  cbn [strstr]. destruct (is_prefix (c :: s2) (x :: q)); [simpl; do 2 f_equal; lia|].
  change (zdrop 1 (x :: q)) with q.
  assert (Hlen : (length q < fuel)%nat).
  { apply (f_equal length) in Eq. unfold zdrop in Eq. rewrite length_drop in Eq. simpl in Eq. lia. }
  rewrite IH by done. f_equal. by destruct (strstr q _); simpl; [f_equal; lia|].
Qed.

(** The function from extras is strstr: the first occurrence, or NULL. *)
Theorem strstr_fallback_correct s1 s2 : strstr_fallback s1 s2 = Some (strstr s1 s2).
Proof.
  unfold strstr_fallback. destruct s2 as [|c s2]; [by destruct s1|].
  rewrite strstr_loop_spec by lia. f_equal. by destruct (strstr s1 _).
Qed.

(** * strncasecmp *)

(** The difference of the first characters that differ; the end of a string is a NUL. *)
Fixpoint strncasecmp_fallback (n : nat) (s1 s2 : bytes) : Z :=
  match n with
  | O => 0
  | S n' =>
      let c1 := tolower (default 0 (head s1)) in
      let c2 := tolower (default 0 (head s2)) in
      if negb (c1 =? c2) then c1 - c2
      else if c1 =? 0 then 0
      else strncasecmp_fallback n' (tail s1) (tail s2)
  end.

Lemma tolower_nonzero c : c <> 0 -> tolower c <> 0.
Proof. unfold tolower, isupper. intros H. zcases. Qed.

(** It is 0 exactly when the first [n] characters are equal but for their case. *)
Theorem strncasecmp_fallback_correct n s1 s2 :
  nonul s1 = true -> nonul s2 = true ->
  strncasecmp_fallback n s1 s2 = 0 <-> strncaseeq s1 s2 (Z.of_nat n) = true.
Proof.
  unfold strncaseeq. rewrite bool_decide_eq_true. unfold ztake. rewrite Nat2Z.id.
  revert s1 s2. induction n as [|n IH]; intros s1 s2 H1 H2; [done|].
  destruct s1 as [|x s1], s2 as [|y s2]; cbn [strncasecmp_fallback head take fmap list_fmap tail].
  - done.
  - apply nonul_cons in H2 as [Hy _]. pose proof (tolower_nonzero y Hy). change (tolower (default 0 None)) with 0.
    change (default 0 (Some y)) with y. destruct (Z.eqb_spec 0 (tolower y)); [lia|]. cbn [negb]. split; [lia|done].
  - apply nonul_cons in H1 as [Hx _]. pose proof (tolower_nonzero x Hx). change (tolower (default 0 None)) with 0.
    change (default 0 (Some x)) with x. destruct (Z.eqb_spec (tolower x) 0); [lia|]. cbn [negb]. split; [lia|done].
  - apply nonul_cons in H1 as [Hx H1]. apply nonul_cons in H2 as [Hy H2].
    pose proof (tolower_nonzero x Hx). change (default 0 (Some x)) with x. change (default 0 (Some y)) with y.
    destruct (Z.eqb_spec (tolower x) (tolower y)) as [E|E]; cbn [negb].
    + destruct (Z.eqb_spec (tolower x) 0); [done|]. rewrite (IH s1 s2 H1 H2), E.
      split; [by intros ->|by intros [= ->]].
    + split; [lia|intros [= ? _]; done].
Qed.

(** * strdup *)

(** Unlike that of the C library it does not return when there is no memory. *)
Definition strdup_fallback {os : OS} (s : bytes) : M bytes :=
  ok ← call (os_malloc (zlen s + 1));
  if (ok : bool) then mret s else die.

(** * scandir and alphasort *)

(** [strcmp] of strings without NUL. *)
Fixpoint strcmp (a b : bytes) : Z :=
  match a, b with
  | [], [] => 0
  | [], y :: _ => - y
  | x :: _, [] => x
  | x :: a', y :: b' => if x =? y then strcmp a' b' else x - y
  end.

Definition alphasort_fallback (a b : bytes) : Z := strcmp a b.

(** The second pass: the entries that are selected and for which there is memory go into
    an array with [room] places; [None]: a place behind the end is written. *)
Fixpoint scandir_fill (select copied : bytes -> bool) (room : nat) (entries : list bytes) :
    option (list bytes) :=
  match entries with
  | [] => Some []
  | e :: es =>
      if select e && copied e then
        match room with
        | O => None
        | S room' => cons e <$> scandir_fill select copied room' es
        end
      else scandir_fill select copied room es
  end.

(** [first] and [second] are what the two passes over the directory deliver; the inner
    [None] is the result -1.  The function that compares is not used. *)
Definition scandir_fallback (first second : option (list bytes)) (malloc : bool)
    (select copied : bytes -> bool) : option (option (list bytes)) :=
  match first with
  | None => Some None
  | Some l1 =>
      if negb malloc then Some None
      else match second with
           | None => Some None
           | Some l2 => Some <$> scandir_fill select copied (length l1) l2
           end
  end.

Lemma alphasort_sorts a b :
  Forall (fun c => 0 < c) a -> Forall (fun c => 0 < c) b ->
  name_le a b = (alphasort_fallback a b <=? 0).
Proof.
  unfold alphasort_fallback. revert b. induction a as [|x a IH]; intros [|y b] Ha Hb; simpl.
  - done.
  - apply Forall_cons in Hb as [Hy _]. symmetry. apply Z.leb_le. lia.
  - apply Forall_cons in Ha as [Hx _]. symmetry. apply Z.leb_gt. lia.
  - apply Forall_cons in Ha as [_ Ha]. apply Forall_cons in Hb as [_ Hb].
    destruct (Z.eqb_spec x y) as [->|Hne].
    + rewrite Z.ltb_irrefl. cbn [orb andb]. by apply IH.
    + cbn [andb]. rewrite orb_false_r. destruct (Z.ltb_spec x y), (Z.leb_spec (x - y) 0); lia.
Qed.

Lemma scandir_fill_spec select copied room es :
  scandir_fill select copied room es =
  let chosen := List.filter (fun e => select e && copied e) es in
  if decide (length chosen <= room)%nat then Some chosen else None.
Proof.
  cbv zeta. revert room.
  induction es as [|e es IH]; intros room; cbn [scandir_fill List.filter length].
  { by rewrite decide_True by lia. }
  destruct (select e && copied e); cbn [length]; [|apply IH]. destruct room as [|room].
  - by rewrite decide_False by lia.
  - rewrite IH. destruct (decide (length _ <= room)%nat).
    + by rewrite decide_True by lia.
    + by rewrite decide_False by lia.
Qed.

(** The entries are those of the directory, in its order, when it does not change between
    the two passes; when it has grown meanwhile, so that more entries are selected than
    the first pass has counted, the array is overrun. *)
Theorem scandir_fallback_correct first second select :
  scandir_fallback (Some first) (Some second) true select (fun _ => true) =
  if decide (length (List.filter select second) <= length first)%nat
  then Some (Some (List.filter select second)) else None.
Proof.
  unfold scandir_fallback. cbn [negb]. rewrite scandir_fill_spec. cbv zeta.
  replace (List.filter (fun e => select e && true) second) with (List.filter select second)
    by (apply List.filter_ext; intros e; by rewrite andb_true_r).
  by destruct (decide _).
Qed.

Lemma scandir_unchanged l select :
  scandir_fallback (Some l) (Some l) true select (fun _ => true) =
  Some (Some (List.filter select l)).
Proof.
  rewrite scandir_fallback_correct, decide_True; [done|].
  induction l as [|e l IH]; simpl; [done|]. destruct (select e); simpl; lia.
Qed.

(** * add_accept_header *)

(** request.c, in a build with ACCEPT_ON, where MAX_ACCEPT_LENGTH is MAX_HEADER_LENGTH:
    the array of the request, and what it becomes; [None]: an access outside of it. *)
Definition add_accept_header (accept mime_type : bytes) : option bytes :=
  s ← cstr accept 0;
  let l := zlen s in
  let l2 := zlen mime_type in
  if MAX_HEADER_LENGTH <=? l + l2 + 2 then Some accept
  else
    c ← zget accept 0;
    if c =? 0 then blit accept 0 (mime_type ++ [0])
    else
      a ← blit accept l [44];
      a ← blit a (l + 1) [32];
      blit a (l + 2) (mime_type ++ [0]).

(** One more entry behind the others, or nothing when there is no room: the array is
    never overrun. *)
Theorem add_accept_header_correct accept s mime_type :
  zlen accept = MAX_HEADER_LENGTH -> cstr accept 0 = Some s -> nonul mime_type = true ->
  exists accept', add_accept_header accept mime_type = Some accept' /\
    zlen accept' = MAX_HEADER_LENGTH /\
    cstr accept' 0 = Some (if MAX_HEADER_LENGTH <=? zlen s + zlen mime_type + 2 then s
                           else match s with [] => mime_type | _ => s ++ bs ", " ++ mime_type end).
Proof.
  intros Hz Hs Hm. unfold add_accept_header. rewrite Hs. cbn [mbind option_bind].
  destruct (Z.leb_spec MAX_HEADER_LENGTH (zlen s + zlen mime_type + 2)) as [Hl|Hl]; [by exists accept|].
  unfold cstr in Hs. change (0 <=? 0) with true in Hs. cbn iota in Hs.
  apply until_nul_split in Hs as [Hn [x Ex]]. pose proof (zlen_nonneg mime_type).
  pose proof (zlen_nonneg s). unfold MAX_HEADER_LENGTH in *.
  assert (Hone : forall c : Z, zlen [c] = 1) by done.
  destruct s as [|c s].
  - change (zdrop 0 accept) with accept in Ex. rewrite Ex. cbn [app]. change (zget (0 :: x) 0) with (Some 0).
    cbn [mbind option_bind]. rewrite Z.eqb_refl. rewrite Ex in Hz.
    destruct (proj2 (blit_is_Some (0 :: x) 0 (mime_type ++ [0]))) as [b Eb].
    { rewrite zlen_app, Hone. unfold zlen in *. simpl in *. lia. }
    destruct (blit_behind (0 :: x) b 0 [] (0 :: x) (mime_type ++ [0])) as (E1 & E2 & _); [lia|done|done|].
    exists b. split; [done|]. split; [simpl in *; lia|]. unfold cstr. cbn. change (zdrop 0 b) with b in *.
    rewrite E2. cbn [app]. rewrite <- app_assoc. by apply until_nul_nonul.
  - change (zdrop 0 accept) with accept in Ex. pose proof Hn as [Hc _]%nonul_cons.
    assert (Eg : zget accept 0 = Some c) by (by rewrite Ex). rewrite Eg. cbn [mbind option_bind].
    destruct (Z.eqb_spec c 0); [done|]. set (p := c :: s) in *.
    destruct (proj2 (blit_is_Some accept (zlen p) [44])) as [b1 E1]; [rewrite Hone; lia|].
    destruct (blit_behind accept b1 0 p (0 :: x) [44]) as (Z1 & D1 & _); [lia|done|done|].
    destruct (proj2 (blit_is_Some b1 (zlen p + 1) [32])) as [b2 E2]; [rewrite Hone; lia|].
    destruct (blit_behind b1 b2 0 (p ++ [44]) (zdrop 1 (0 :: x)) [32]) as (Z2 & D2 & _);
      [lia|by rewrite D1, <- app_assoc|by rewrite zlen_app|].
    destruct (proj2 (blit_is_Some b2 (zlen p + 2) (mime_type ++ [0]))) as [b3 E3];
      [rewrite zlen_app, Hone; lia|].
    destruct (blit_behind b2 b3 0 (p ++ [44; 32]) (zdrop 1 (zdrop 1 (0 :: x))) (mime_type ++ [0]))
      as (Z3 & D3 & _); [lia|by rewrite D2, <- !app_assoc|by rewrite zlen_app|].
    rewrite E1. cbn [mbind option_bind]. rewrite E2. cbn [mbind option_bind]. exists b3.
    split; [done|]. split; [lia|]. unfold cstr. change (0 <=? 0) with true. cbn iota.
    rewrite D3. change (bs ", ") with [44; 32]. rewrite !app_assoc, <- (app_assoc _ [0]).
    apply until_nul_nonul. unfold nonul in *. by rewrite !forallb_app, Hn, Hm.
Qed.

Lemma add_accept_header_correct_witness : exists accept',
  add_accept_header (bs "text/html" ++ zeros 1015) (bs "text/plain") = Some accept' /\
  cstr accept' 0 = Some (bs "text/html, text/plain").
Proof.
  destruct (add_accept_header_correct (bs "text/html" ++ zeros 1015) (bs "text/html")
    (bs "text/plain")) as (a & E & _ & H); [vm_compute; reflexivity..|].
  exists a. split; [exact E|exact H].
Defined.
